(* ===== verification/_CoqProject ===== *)
-Q . S2P
Prelude.v
DataRange.v
AxisTicks.v
DecimalPlaces.v
BarGeometry.v
BarChartLayout.v
MockHistory.v
BrowserHistory.v
JsObject.v
StringUtils.v
SearchInput.v
AutoComplete.v
SelectableItems.v
TreeChart.v
CurrencyUtils.v
Animation.v
Timing.v
PayRange.v
StringManager.v
HistoryUtils.v
ArrayUtils.v
AnimationFx.v
NavigationPage.v
NavigationWorld.v
GrowAnimation.v
MultiFetch.v
BenefitsChart.v
FormattedCurrency.v
ArraySort.v
MarketTrends.v
PayHistory.v
DetailCards.v
Regex.v
ParsePath.v
StaticMarkup.v
CardStrings.v
Link.v
CareerPathChart.v
CardStories.v
Stories.v
