(* ===== verification/Prelude.v ===== *)
(** * Verification of the shared-ui library: charts, history, widgets and formatting

    ** The program
    The repository is a React component library.  The parts of it that
    hold state or logic worth verifying are modelled from their sources:
    - [src/src/BarChart/index.tsx]: the static methods [computeDataRange],
      [computeQuantAxisMarkerVals] and [countDecimalPlaces], and the private
      methods [_getBars], [_getBarChunks], [_getAxisIncrementDigits],
      [_formatQuantAxisValue], [_renderBarColumn] and the other renderers
      of class [BarChart], glued together by [render].  [render] pads the
      bars, computes the padded data range, the axis ticks, the union of
      both (the chart range), and from it the percent geometry of every
      tick, grid line, bar chunk and label.
    - [src/src/BrowserHistory/index.ts]: class [BrowserHistory], which keeps
      its own stack of keys and index beside the browser's session history,
      stores a snapshot of them in every entry, and on [popstate] works out
      whether the user went back or forward, lets registered filters block
      the move (and then moves the browser back with [go(delta)]), and
      notifies listeners.  It runs against the repository's own browser,
      [src/src/_mocks/mockHistory.ts] and [mockWindow.ts], which fire
      [popstate] synchronously, so the handler is re-entered by its own
      [back()] and [go()] calls.
    - [src/src/SelectableItems/index.tsx] with the [AutoComplete] and
      [SearchInput] it renders: a widget of pills (items selected or not,
      kept in a plain JS object [itemState]) and a search box whose
      answers the user adds as pills.  Events reach [SelectableItems]
      through [AutoComplete]'s [_onItemSelect] and [SearchInput]'s
      [_updateValue], which calls the owner's [onChange].
    - [src/src/StringUtils/index.ts]: [replaceTokens] (a global regex
      replace) and [buildClassString].
    - [src/src/TreeChart/]: [TreeChart], [Leaf] and [TreeChartLine], a
      drill-down view with a stack of roots, a second level on wide
      windows and lines sized like the leaves.
    - [src/src/CurrencyUtils/index.ts]: [formatCurrency], with its
      abbreviations, the [Intl] options it builds, the [toFixed] fallback
      and the trailing-zero loop.
    - [src/src/AnimationUtils/]: class [Animation] (easings and [update])
      and the [AnimationManager] singleton, which keeps the running
      animations and one [requestAnimationFrame] callback pending while
      any runs.
    - [src/src/TimingUtils/index.ts]: [throttle] (one call per animation
      frame, with the last arguments) and [debounce] (a [setTimeout]
      restarted by every call).
    - [src/src/EmployeeDetailsCards/]: [normalizePayRange] and the two
      cards built on it, [RangeDistributionCard] (range position, cohort
      percentages, a sentence through [replaceTokens]) and
      [RangePenetrationCard] (a rounded percentage and a pinned thumb,
      classes through [buildClassString]).
    - [src/src/StringManager/index.ts] and the singleton of
      [src/src/Strings/index.ts]: every component's [strings.ts] loads its
      strings there at import and keeps the object it reads back, which
      [override] later writes into.
    - [src/src/HistoryUtils/index.ts]: [parseQueryParams], which files the
      pieces of a query string in a plain object, [parsePath], which
      splits a URL with one regular expression, and
      [src/src/ArrayUtils/index.ts]: [isArrayNullOrEmpty] and
      [arrayToDictionary], which files the items of an array in one.
    - [src/src/ContentNavigation/NavigationPage/index.tsx]: a page with a
      menu of the anchors of its content, which scrolls to an anchor with
      an [AnimationManager] animation, follows the user's scrolling through
      a [throttle]d [scroll] listener, and ignores scrolling for 250 ms
      after a click ([setTimeout]).  It is where three parts meet: the
      component, [TimingUtils] and [AnimationUtils], over one window.
    - [src/src/GrowAnimationContainer/index.tsx]: a [PureComponent] that
      expands and collapses its children with CSS transitions: a timer at
      mount, [componentDidUpdate] and a [debounce]d [transitionend]
      listener move its [GrowState] toward the [show] prop, and the
      listener calls [onAnimationComplete].
    - [src/src/MultiFetch/index.ts]: [multiFetch], which races
      [window.fetch] against a timer and tries again after a thrown
      error, a time-out or a 404, up to [numberOfTries] times.
    - [src/src/BenefitsChart/index.tsx]: the benefits card, which adds up
      two lists of items, draws their totals as a vertical [BarChart] and
      moves the total cash panel down to line up with its column.
    - [src/src/EmployeeDetailsCards/common/FormattedCurrency/index.tsx]:
      the amount every card prints, formatted by the owner's asynchronous
      [formatFunc] or by [formatCurrency].
    - [src/src/EmployeeDetailsCards/MarketTrendsCard/]: the market trends
      card, which sorts monthly pay data by date, measures every month
      against the earliest, and shows the last change in a summary and the
      last four in a bar chart; [parseCurrencyCode] reads the ISO code out
      of the currency's name with a regular expression.
    - [src/src/EmployeeDetailsCards/PayHistoryBarChartCard/] and
      [PayHistorySummaryCard/]: two cards over the owner's array of pay
      changes, which both sort in place; one charts the latest points
      through the [BarChart], the other compares the first salary with the
      last and prints the change as [parseFloat(x.toFixed(1))] percent.
    - The other cards of [src/src/EmployeeDetailsCards/]:
      [EmployeeDetailsCard], [PerformanceRatingCard], [CompensationCard],
      [TotalCashCompensationCard] (with the [BenefitsChart]) and
      [MarketSnapshotCard], which lay out their props in [DetailsCard] and
      [LabeledValue].
    - [src/src/Pdf/]: the components of a printable report, [Pdf],
      [PdfPage], [PdfHeader], [PdfContent], [PdfFooter] and the
      [CoverPage] that composes them with a [CoverPageDetail] per entry;
      [ContentNavigation/NavigationItem], a link to a section anchor.  They
      compute class names with [buildClassString] and return markup;
      so does [src/src/Tooltip/], a wrapper around [react-tooltip].
    - [src/src/Link/index.tsx] and [src/src/Types/historyApi.ts]: an
      anchor whose click handler turns a plain left click into
      [history.push(href)] on the [HistoryApi] it is given, which the
      [BrowserHistory] wrapper implements.
    - [src/src/CareerPathChart/]: turns a career path DTO (a tree of jobs
      with their future jobs) into the data of a [TreeChart] and renders
      it.

    ** Files (in dependency order)
    - [Prelude.v]: this header; the JS number domain [num] ([Fin q], [NaN],
      the infinities) with its setoid and [Proper] instances, [trunc]
      ([Math.trunc]), [nfloor] and [nround] ([Math.floor], [Math.round]),
      [pow10], [floor_log10] ([Math.floor(Math.log10 x)]),
      JS array access and update ([jsGet], [jsSet], [indexOf]) with their
      out-of-range behaviour, the hint database [chart] and shared tactics.
    - [DataRange.v], Module [RangeCalculator]: [computeDataRange].
    - [AxisTicks.v], Module [TickGenerator]: [computeQuantAxisMarkerVals],
      its [while] loop with fuel, the [NiceTicks] contract and the
      [TickSource] class whose instance is this generator.
    - [DecimalPlaces.v], Module [LabelFormatter]: [countDecimalPlaces] with
      fuel, [_getAxisIncrementDigits], [_formatQuantAxisValue] over a
      [NumberLocale] class standing for [toLocaleString].
    - [BarGeometry.v], Module [Geometry]: [_getBars], [_getBarChunks],
      the arithmetic of [_renderBarColumn], [_renderVerticalBar].
    - [BarChartLayout.v], Module [Layout]: the component's props and state,
      its constructor, [componentWillReceiveProps] and [render] with every
      renderer, as the data they compute.  [render] is proved against the
      [TickSource] interface.
    - [MockHistory.v], Module [Mock]: [MockHistory] and [MockWindow].
    - [BrowserHistory.v], Module [History]: every method of
      [BrowserHistory] as a function on a [World] (the mock window, the
      object's fields, the supply of keys, the notifications delivered),
      the handler as a [Fixpoint] on the nesting fuel, and the
      synchronisation invariant [Sync].
    - [JsObject.v]: plain JS objects used as dictionaries (stdpp [gmap] of
      own properties, the [Object.prototype] names read through, the
      [__proto__] setter) and [Set]s as insertion-ordered lists.
    - [StringUtils.v], Module [Tokens]: [replaceTokens] as a scan with
      fuel, [buildClassString] with the [Object.keys] order.
    - [SearchInput.v], Module [Search]: the controlled input, generic in
      its owner's state, and the [TracksInput] class stating what its
      [onChange] promises the owner.
    - [AutoComplete.v], Module [AC]: [_onItemSelect] and the renderers.
    - [SelectableItems.v], Module [Sel]: the component's handlers, the
      widget composed with the two above ([widgetStep]), its invariant
      [WF] and reachability [WReachable].
    - [TreeChart.v], Module [Tree]: the data as a heap of objects compared
      by reference, the handlers and [render] returning its [TypeError]s,
      the worlds a user reaches ([Reachable]) and their invariant [Inv].
    - [CurrencyUtils.v], Module [Currency]: [formatCurrency] over an
      [Intl] interface ([IntlNumberFormat]) and ECMA-262 [toFixed].
    - [Animation.v], Module [Anim]: [Animation] and [AnimationManager] in
      a [World] holding the manager's fields, the window's queue of frame
      callbacks with its id counter, and a log of what the callbacks do
      ([onUpdate] values, [onComplete]); events ([AnimEvent]) are calls of
      [createAnimation] and frames, and [runFrame] runs the callbacks
      queued when the frame starts, as the browser does.
    - [Timing.v], Module [Timing]: [throttle] over the frame queue and
      [debounce] over a timer list and a clock, each with the reference
      machine it refines ([TRef], [DRef]).
    - [PayRange.v], Module [Pay]: the props as JS values ([null],
      [undefined] or a number), [normalizePayRange], and both cards'
      computations and rendered values, with the reference [refPosition];
      [render] takes the static [_positionStrings] apart from the strings.
    - [StringManager.v], Module [SM]: a heap of string objects shared by
      the manager and the components, the manager's own properties and
      prototype chain, [load], [override] and their [TypeError]s, and
      [App], the singleton with [RangeDistributionCard]'s import and
      static cache; writes onto a builtin function throw as strict mode
      has them ([fnReadOnly]).
    - [HistoryUtils.v], Module [QP]: [parseQueryParams] over a plain
      object with its prototype chain ([getProp]: own property, array
      element, [length], [Array.prototype] and [Object.prototype] members)
      and the [__proto__] setter ([setProp]); [decodeURIComponent] is a
      parameter that may throw.
    - [ArrayUtils.v], Module [AU]: [arrayToDictionary] as strict-mode
      assignments into an object literal ([Dict]: own properties and its
      prototype, [Object.prototype], [null] or an item the [__proto__]
      setter installed); what an item is and what its chain holds is the
      class [JsItem], and the loop ends in the dictionary, a [TypeError]
      or a call of an item's setter ([DictRes]); [i.toString()] is the
      decimal digits [showZ] of CurrencyUtils.v.
    - [AnimationFx.v], Module [AnimFx]: the [AnimationManager] over any
      host window (the [FrameHost] class: the manager's fields and the
      window's frame requests) with callbacks that may throw ([Fx]);
      [updateAnimations_refines] shows it is Animation.v's manager when
      the callbacks only log.
    - [NavigationPage.v], Module [Nav]: the content as a tree of elements,
      [_createNavItemsRecursive] against a reference (the page anchors in
      document order up to a depth), [render] and [_scrollListener] as
      functions of the state and the layout.
    - [NavigationWorld.v], Module [NavWorld]: the page in a [World] with
      its fields, the content's [scrollTop], the manager, one queue of
      frame callbacks shared by the manager and the throttle closures, the
      [scroll] listeners, timers and the errors that reach the browser;
      React's [setState] and lifecycle order; events ([Event]) and [run].
    - [GrowAnimation.v], Module [Grow]: the container in a [World] with
      its props, state, [_mounted], the listener's [timeoutId], the
      window's timers and clock, and the calls of [onAnimationComplete];
      React's [setState] with the [componentDidUpdate] cycle
      ([setGrowState]); the invariant [GInv] ([GBase] for the window side,
      [GState] for the state); [render] as the classes and style of its
      two [div]s ([GrowView]).
    - [MultiFetch.v], Module [MF]: [tryFetch] as a loop over the tries
      with [currentTry] and the clock, against a network oracle (what each
      call of [window.fetch] does and after how long); [parseInt],
      [ToInt32] and [setTimeout]'s delay ([timerDelay]); the reference
      [refFetch] (the first try that settles the promise).
    - [BenefitsChart.v], Module [Benefits]: [render] as the data of its
      markup ([BenefitsView]), whose bars are drawn by BarGeometry.v's
      [verticalBarHeights].
    - [FormattedCurrency.v], Module [FC]: the component's lifecycle in a
      [World] with the calls of [formatFunc] still pending; the owner's
      formatter answers them in any order ([EAnswer i]); the default path
      is CurrencyUtils.v's [formatCurrency].
    - [ArraySort.v], Module [JsArray]: [Array.prototype.sort] with a
      comparator as a stable insertion sort ([sortBy]), its characterisation
      for numeric keys ([sortBy_spec], idempotence [sortBy_idem]), and
      [Array.prototype.slice(start)].
    - [MarketTrends.v], Module [Trends]: the date sort with the code's
      comparator ([sortTrends] over [sortBy]), [computeTrendValues],
      the regular expression of [parseCurrencyCode] ([parenGroup],
      [groupToEnd]) and [render] as the values the summary and the chart
      show; [new Date(s).getTime()] and [dateFormatter] are parameters.
    - [PayHistory.v]: [parseFloat] (Module [JsNumber]); the owner's arrays
      as a heap and the in-place sort (Module [PayHistory]); the two cards
      (Modules [BarChartCard] and [SummaryCard]); a page rendering both
      over one array (Module [Page]).  [Date.parse], [getUTCFullYear],
      [dayjs] and [Number::toString] are parameters.
    - [DetailCards.v]: the markup the layout cards return as a tree of
      elements built with React's rules for JSX children (Module
      [Markup]: [null] and booleans render nothing, numbers render as
      text, [x && item] is the value of [x]); one Module per card.
    Each file ends with a [...Tests] module: the scenarios of the
    repository's tests, evaluated, and the witnesses of the theorems.

    ** Numbers
    Finite arithmetic is exact rational arithmetic, so the model is the
    real-number semantics of the code; floating-point rounding is not
    modelled (the one routine written against it, [countDecimalPlaces], is
    proved correct on the exact values it is meant for).  Division by zero,
    [Math.max] of [NaN], [NaN < x] and [x || 0] are modelled as JS evaluates
    them, because the chart code relies on them.  Signed zero is not
    modelled.  History indices are [Z] (they go to [-1] in the mock).

    ** What the theorems show
    - [Regex.v], Module [Regex]: ECMAScript patterns (the subset the code
      writes) and their backtracking semantics after ECMA-262 §22.2.2:
      [m], RepeatMatcher [repeatMatcher] with its empty-iteration check, [exec],
      and lemmas that evaluate a match on symbolic input (a sequence, an
      optional group taken or skipped, a star over a character class).
    - [ParsePath.v], Module [ParsePath]: the URL pattern of [parsePath]
      and [parsePath] itself, producing BrowserHistory.v's
      [LocationContext]; the history model keeps [parsePath] a parameter,
      of which this is an instance.
    - [StaticMarkup.v]: the output of the Pdf components, of
      [NavigationItem] and of [Tooltip] (the [<ReactTooltip>] element with
      the props it is given) as a tree of elements with attributes (Module
      [Dom]), the object literal of a computed class name (Module
      [ClassNames]), one Module per component, and the class and cover page
      theorems (Modules [ClassFacts], [CoverFacts]).
    - [Link.v]: [HistoryApi] as a class on the history's state with
      [BrowserHistory]'s instance [browserHistoryApi] (Module
      [HistoryApi]); the click event, the props, [render] and
      [handleClick] (Module [Link]); which clicks navigate (Module
      [LinkFacts]).
    - [CareerPathChart.v]: the DTO as a mutually inductive JSON tree,
      [formatDataForTreeChart] allocating [TreeChartData] objects in
      TreeChart.v's heap ([formatJob], [mapHeap]), [render] handing them
      to the [TreeChart] (Module [CareerPath]); when it returns and what
      the [TreeChart] then does (Module [CareerPathFacts]).
    - [CardStrings.v], Module [CardStrings]: every card's [strings.ts] as
      its module name and literal, imported into StringManager.v's
      singleton ([importFile], [importAll]) in any order.
    - [CardStories.v] and [Stories.v]: the storybook stories of the cards
      and of the tree, career path, bar, benefits and tooltip components,
      each as what its component renders with the story's data, the knobs
      as values that fall back to the story's defaults; the stories draw
      for every setting of their knobs.
    - Range and ticks: the padded range contains zero and every value with
      the margins the code asks for; the tick loop stops within three
      rounds; the ticks are at most five multiples of a nice increment,
      contain zero and cover the range; the digit count of every increment
      is exact.
    - Layout: for every tick source keeping the contract, every tick, grid
      line and bar [render] draws lies between 0% and 100%, every label is
      exact, and [render] returns.  Bar chunks add up to the bar's height.
    - Error behaviour, proved as it is: all-zero charts give [NaN], the
      tooltip divides by zero, negative rising runs give negative chunks,
      labels misalign when the span is below 1 (see the findings).
    - History: every world reachable from a constructed wrapper by the
      public methods is synchronised with the browser ([reachable_sync]);
      [goBack], [goForward], [push] and [replace] do what they promise,
      allowed or blocked by a filter; the re-entrant handler terminates.
    - Widgets: the search box keeps its owner informed ([TracksInput]);
      the selectable items keep their invariant on every event, a menu pick
      and a stale search answer behave as promised, and new props keep the
      user's choices except for the bugs proved as such.
    - Strings: [replaceTokens] substitutes exactly the tokens of a template.
    - Tree chart: [render] never throws on a reachable state with named
      data, back undoes a click, lines match their leaves.
    - Currency: the trailing-zero loop is [stripZeros], abbreviations leave
      a number in [1, 1000), and zero with [Intl] and no digits throws.
    - Animation: one frame keeps exactly the unfinished animations and
      prints their callbacks; every reachable world has a frame pending
      exactly when an animation runs ([reachable_MInv]); every animation
      runs to its end at the first frame past it (liveness,
      [animation_completes]); polynomial easings stay between the start
      and end values; an animation created by [onComplete] is lost.
    - Timing: over every sequence of calls and frames (or ticks) throttle
      and debounce deliver what their reference machines deliver
      (refinement by a simulation relation).
    - Pay range: the range position is the quarter the comparisons give;
      the rounded cohort percentages are integers summing to 98..102; an
      hourly pay renders both cards as its annual equivalent; the thumb
      stays within [0%, 100%]; the chart labels exactly the position.
    - Strings: under every [load] and [override] that avoids two names
      the manager keeps its methods, and such a call throws exactly when
      it writes [length], [name], [caller], [arguments] or a constructor's
      [prototype] onto a function the name reads ([reachable_WF]); the two
      names break it; an override reaches a card's sentence but not its
      cached position strings; importing the cards' [strings.ts] files in
      any order keeps every card's own literal, and an override of the
      name two cards share reaches only the one imported last.
    - Dictionaries: parsing a query built from encoded pairs gives back
      every key's value, or the array of its values in order
      ([parse_roundtrip]); a [__proto__] parameter replaces the object's
      prototype instead of being stored.  Without [getKey],
      [arrayToDictionary] maps [i.toString()] to the [i]-th item and every
      key reads back as its item's index; with [getKey], as long as the
      items under [__proto__] are primitives or plain objects, the loop
      completes, the last item of a key wins and a [__proto__] item is
      never stored; a [null] or [Object.create(null)] item under
      [__proto__] makes the next one an own property (Examples).
    - Navigation page: the menu lists exactly the page anchors up to
      [maxLevel + 1] levels deep, in document order, and marks the active
      one; in every reachable world there is at most one [scroll]
      listener, none after unmount, and the active item is a nav item;
      mounting registers no listener (the batched [setState]); and an
      unmount during a scroll animation wedges the animation manager: the
      animation never ends and every later frame throws.  The manager over
      the shared window refines the one of Animation.v.
    - Grow animation: [componentDidUpdate] stops after one update; in
      every reachable world the state never moves away from [show] and,
      once the mount timer has run, moves toward it or rests there; a
      [transitionend] event finishes the move 50 ms later and calls
      [onAnimationComplete], also when nothing moved and also after
      unmount (the listener outlives the component).
    - Fetch: the retry loop settles within [max(1, ceil(numberOfTries))]
      tries and is the reference [refFetch] ([multiFetch_ref]); a timeout
      that [setTimeout] reads as 0 ([Infinity]) makes every try time out;
      timer delays are 32-bit and wrap; the delay after a 404 is capped at
      5 s only for a header that is not negative.
    - Benefits: with positive totals, the total cash panel moves down by
      exactly the share of the chart the contributions column takes
      ([tcc_panel_aligned], a theorem about the card and the bar chart
      together).
    - Formatted amounts: answers in call order always leave the amount of
      the current props on screen ([inorder_answers_current]); answers out
      of order leave a stale amount for good ([out_of_order_stale]).
    - Market trends: the sort is a sorted permutation of the data, and the
      card reports the change from the earliest month to the latest
      ([summary_reports_change]); hourly data, which have no annual pay,
      render [NaN] everywhere ([hourly_trends_nan]); [parseCurrencyCode]
      takes the code back out of [Name (CODE)]
      ([parseCurrencyCode_roundtrip]).
    - Pay history: [parseFloat(x.toFixed(f))] is [x] rounded to [f]
      decimals ([parseFloat_toFixed], a round trip through the printed
      digits); the bar chart card charts the latest [maxDataPoints || 5]
      points in date order ([bars_show_latest]); the summary reports the
      change from the earliest to the latest salary rounded to 0.1%
      ([summary_reports_rounded_change]); both cards sort the owner's
      array in place, and on a page sharing one array the order in which
      they render does not matter ([render_order_commutes]).
    - URLs: on every relative URL of a path, an optional query and an
      optional word-character fragment, [parsePath] returns the string as
      [href], the path, query and fragment, and no protocol, host, port or
      origin ([parsePath_relative], proved symbolically: the matcher's
      lemmas of Regex.v, Section [Facts], run the URL pattern over any
      such string, with the star over the path groups taken once); it
      gives the repository's expected parts on every URL of its tests, and
      an empty location for a fragment with a [-] (Examples of
      ParsePath.v).
    - Layout cards: every amount [MarketSnapshotCard] passes to
      [FormattedCurrency] is a number ([snapshot_cells_are_numbers]); an
      [employeeId] of [0] prints a stray ["0"] and no Employee ID item
      ([zero_id_renders_text]).
    - Pdf components: the root class of [Pdf], [PdfPage] and [PdfHeader]
      for every [className], an array index placed first
      ([pdf_root_classes]); the cover page lists its details' names in
      order and has one footer, numbered 1 ([cover_page_shows]).
    - Links: only a plain left click that the owner did not cancel, on a
      non-empty [href] with a history, changes the history, and then by
      [push(href)] ([click_navigates_only_when]); through the
      [BrowserHistory] instance such a click moves the browser to [href]
      and keeps the wrapper synchronised ([link_click_moves_browser]).
    - Career paths: [formatDataForTreeChart] never returns [null] (its
      guard comes after the destructuring) and returns exactly on DTOs
      whose positive counts come with [jobs] arrays of objects
      ([formatData_returns]); when every listed job has a title, the
      [TreeChart] it feeds never throws ([career_path_chart_safe]).

    ** Bounds and fuel
    - RepeatMatcher ([Regex.repeatMatcher]) runs with fuel the characters left plus
      [min] plus one: past [min], an iteration that consumes nothing is
      rejected, so every further iteration consumes a character.
    - [markerFuel = 3] rounds of the tick loop: proved enough for every
      range with [min < max] ([quantAxisTry_terminates]).
    - [decimalFuel = 400] iterations of each loop of [countDecimalPlaces]:
      more than the 324 leading zeros of the smallest double plus its 17
      digits; proved enough on every increment with exponent above [-390].
    - The [popstate] handler takes a nesting fuel: [stackIndex + 3] is
      proved enough for any event ([handlePopState_terminates]), and two
      levels for the moves of a synchronised wrapper ([goBack_spec]).
    - [replaceTokens] scans with fuel the length of the string, which each
      step shortens ([rg_fuel]); the trailing-zero loop runs the length of
      the decimals, as the code's [for] does.
    - [showZ] runs [log2 n + 1] rounds, one more than [n] has binary
      digits, so at least as many as its decimal digits ([showDigits_value]).
    - The [componentDidUpdate] cycle of the grow container is followed
      with [updateFuel = 2] rounds; any fuel from one on gives the same
      world ([setGrowState_settles]).  Its clock runs the due timers with
      fuel the number of timers, which suffices because no timer callback
      sets a timer ([advanceFuel_enough]: more fuel changes nothing).
    - [tryFetch] takes fuel in tries: [max(1, ceil(numberOfTries))] is
      proved enough for every finite [numberOfTries]
      ([multiFetch_ref]); [Infinity] tries may never settle.
    - Animation frames and timers are explicit queues; an event carries
      the time [performance.now()] or the clock reads then.  The liveness
      theorem needs a single frame past the end time, whatever events come
      before it.

    ** Not modelled
    The markup of the components other than the cards of DetailCards.v
    and the components of StaticMarkup.v (their data-dependent values are
    modelled), [Math.random] (the history
    keys come from an injective key supply), the request [fetch] sends (a network oracle answers
    it), [Math.sin] and [Math.cos] of
    two easings (parameters), the [react-autocomplete] library,
    [Intl.NumberFormat]'s output and [numeral] (parameters), the owner's
    [formatFunc] (an oracle), date parsing, [dayjs] and the owner's
    [dateFormatter] (parameters), the layout of the page
    ([getBoundingClientRect], a parameter), and the [react-tooltip]
    library [Tooltip] wraps (its props are modelled); PROJECT.json lists
    every component of the repository with its status.
*)

From Stdlib Require Import QArith Qround Qminmax Qabs Qpower Lqa Lia ZArith.
From Stdlib Require Import List Bool Morphisms Setoid String.
Import ListNotations.

Declare Scope js_scope.
Delimit Scope js_scope with js.
Open Scope Q_scope.

Create HintDb chart.
Create Rewrite HintDb chart_rw.

(** ** Booleans of the comparisons the code makes *)

(** [a < b] on finite numbers. *)
Definition Qltb (a b : Q) : bool := negb (Qle_bool b a).

Lemma Qltb_iff a b : Qltb a b = true <-> a < b.
Proof.
  unfold Qltb. rewrite negb_true_iff, <- not_true_iff_false, Qle_bool_iff.
  split; [apply Qnot_le_lt | apply Qlt_not_le].
Qed.

Lemma Qltb_false a b : Qltb a b = false <-> b <= a.
Proof. unfold Qltb. rewrite negb_false_iff. apply Qle_bool_iff. Qed.

Lemma Qeq_bool_false a b : Qeq_bool a b = false <-> ~ a == b.
Proof. rewrite <- not_true_iff_false, Qeq_bool_iff. reflexivity. Qed.

(** Turn the boolean tests of the code into propositions. *)
Ltac qbool :=
  repeat match goal with
  | H : Qltb _ _ = true |- _ => apply Qltb_iff in H
  | H : Qltb _ _ = false |- _ => apply Qltb_false in H
  | H : Qle_bool _ _ = true |- _ => apply Qle_bool_iff in H
  | H : Qle_bool _ _ = false |- _ =>
      apply not_true_iff_false in H; rewrite Qle_bool_iff in H; apply Qnot_le_lt in H
  | H : Qeq_bool _ _ = true |- _ => apply Qeq_bool_iff in H
  | H : Qeq_bool _ _ = false |- _ => apply Qeq_bool_false in H
  end.

(** Case on a boolean comparison of the goal, keeping the fact it decides. *)
Ltac qcase t := let E := fresh "E" in destruct t eqn:E; qbool.

(** ** JS numbers *)

Inductive num : Type :=
| Fin (q : Q)
| NaN
| PosInf
| NegInf.

Definition nneg (x : num) : num :=
  match x with
  | Fin q => Fin (- q)
  | NaN => NaN
  | PosInf => NegInf
  | NegInf => PosInf
  end.

Definition nadd (x y : num) : num :=
  match x, y with
  | Fin a, Fin b => Fin (a + b)
  | NaN, _ | _, NaN => NaN
  | PosInf, NegInf | NegInf, PosInf => NaN
  | PosInf, _ | _, PosInf => PosInf
  | NegInf, _ | _, NegInf => NegInf
  end.

Definition nsub (x y : num) : num := nadd x (nneg y).

(** An infinity of sign [pos], scaled by a finite [q]: [Infinity * q]. *)
Definition inf_scale (pos : bool) (q : Q) : num :=
  if Qeq_bool q 0 then NaN
  else if xorb pos (Qltb q 0) then PosInf else NegInf.

Definition nmul (x y : num) : num :=
  match x, y with
  | Fin a, Fin b => Fin (a * b)
  | NaN, _ | _, NaN => NaN
  | PosInf, Fin q | Fin q, PosInf => inf_scale true q
  | NegInf, Fin q | Fin q, NegInf => inf_scale false q
  | PosInf, PosInf | NegInf, NegInf => PosInf
  | PosInf, NegInf | NegInf, PosInf => NegInf
  end.

(** Division; a zero divisor is [+0]. *)
Definition ndiv (x y : num) : num :=
  match x, y with
  | Fin a, Fin b =>
      if Qeq_bool b 0 then
        (if Qeq_bool a 0 then NaN else if Qltb a 0 then NegInf else PosInf)
      else Fin (a / b)
  | NaN, _ | _, NaN => NaN
  | Fin _, (PosInf | NegInf) => Fin 0
  | (PosInf | NegInf), (PosInf | NegInf) => NaN
  | PosInf, Fin q => if Qltb q 0 then NegInf else PosInf
  | NegInf, Fin q => if Qltb q 0 then PosInf else NegInf
  end.

(** [Math.abs] *)
Definition nabs (x : num) : num :=
  match x with
  | Fin q => Fin (Qabs q)
  | NaN => NaN
  | _ => PosInf
  end.

(** [x < y]: false as soon as one side is [NaN]. *)
Definition nlt (x y : num) : bool :=
  match x, y with
  | Fin a, Fin b => Qltb a b
  | NaN, _ | _, NaN => false
  | NegInf, NegInf | PosInf, _ => false
  | NegInf, _ | _, PosInf => true
  | Fin _, NegInf => false
  end.

(** [Math.max] and [Math.min] of two numbers: [NaN] if either is. *)
Definition nmax (x y : num) : num :=
  match x, y with
  | NaN, _ | _, NaN => NaN
  | _, _ => if nlt x y then y else x
  end.

Definition nmin (x y : num) : num :=
  match x, y with
  | NaN, _ | _, NaN => NaN
  | _, _ => if nlt y x then y else x
  end.

(** Truthiness of a number: [0] and [NaN] are falsy. *)
Definition ntruthy (x : num) : bool :=
  match x with
  | Fin q => negb (Qeq_bool q 0)
  | NaN => false
  | _ => true
  end.

(** [x || y] on numbers. *)
Definition nor (x y : num) : num := if ntruthy x then x else y.

(** Whether a number is finite (neither [NaN] nor an infinity). *)
Definition finite (x : num) : bool :=
  match x with Fin _ => true | _ => false end.

Notation "x + y" := (nadd x y) : js_scope.
Notation "x - y" := (nsub x y) : js_scope.
Notation "x * y" := (nmul x y) : js_scope.
Notation "x / y" := (ndiv x y) : js_scope.
Notation "x < y" := (nlt x y) : js_scope.
Notation "x || y" := (nor x y) : js_scope.

(** ** The setoid of numbers: finite numbers are equal when the rationals are. *)

Definition num_eq (x y : num) : Prop :=
  match x, y with
  | Fin a, Fin b => a == b
  | NaN, NaN | PosInf, PosInf | NegInf, NegInf => True
  | _, _ => False
  end.

Infix "≃" := num_eq (at level 70).

#[export] Instance num_eq_equiv : Equivalence num_eq.
Proof.
  split.
  - intros [] ; simpl; auto; reflexivity.
  - intros [] []; simpl; auto; intros H; symmetry; exact H.
  - intros [] [] []; simpl; try tauto; intros H1 H2; rewrite H1; exact H2.
Qed.

#[export] Instance Fin_proper : Proper (Qeq ==> num_eq) Fin.
Proof. intros a b H. exact H. Qed.

#[export] Instance Qltb_proper : Proper (Qeq ==> Qeq ==> eq) Qltb.
Proof. intros a a' Ha b b' Hb. unfold Qltb. now rewrite Ha, Hb. Qed.

(** The finite fragment: on finite operands the JS operations are the
    rational ones. *)
Lemma ndiv_fin a b : ~ b == 0 -> ndiv (Fin a) (Fin b) = Fin (a / b).
Proof. intros H. simpl. apply Qeq_bool_false in H. now rewrite H. Qed.

Lemma nlt_fin a b : nlt (Fin a) (Fin b) = Qltb a b.
Proof. reflexivity. Qed.

Lemma nmax_fin a b : nmax (Fin a) (Fin b) ≃ Fin (Qmax a b).
Proof.
  simpl. qcase (Qltb a b); simpl.
  - symmetry. apply Q.max_r. apply Qlt_le_weak. exact E.
  - symmetry. apply Q.max_l. exact E.
Qed.

Lemma nor_fin a b : nor (Fin a) b = if Qeq_bool a 0 then b else Fin a.
Proof. unfold nor. simpl. now destruct (Qeq_bool a 0). Qed.

Lemma nadd_fin a b : nadd (Fin a) (Fin b) = Fin (a + b).
Proof. reflexivity. Qed.

Lemma nsub_fin a b : nsub (Fin a) (Fin b) = Fin (a - b).
Proof. reflexivity. Qed.

Lemma nmul_fin a b : nmul (Fin a) (Fin b) = Fin (a * b).
Proof. reflexivity. Qed.

Lemma nmax_fin_eq a b : nmax (Fin a) (Fin b) = Fin (if Qltb a b then b else a).
Proof. simpl. now destruct (Qltb a b). Qed.

Lemma nmin_fin_eq a b : nmin (Fin a) (Fin b) = Fin (if Qltb b a then b else a).
Proof. simpl. now destruct (Qltb b a). Qed.

#[export] Hint Rewrite nsub_fin nmul_fin nmax_fin_eq nmin_fin_eq : chart_rw.
#[export] Hint Rewrite ndiv_fin using (try lra) : chart_rw.
#[export] Hint Rewrite nlt_fin : chart_rw.

(** ** Integers inside the rationals *)

Lemma inject_Z_sub x y : inject_Z (x - y) == inject_Z x - inject_Z y.
Proof. unfold Qeq. simpl. lia. Qed.

Lemma inject_Z_le x y : (x <= y)%Z <-> inject_Z x <= inject_Z y.
Proof. now rewrite Zle_Qle. Qed.

Lemma inject_Z_lt x y : (x < y)%Z <-> inject_Z x < inject_Z y.
Proof. now rewrite Zlt_Qlt. Qed.

#[export] Hint Rewrite inject_Z_plus inject_Z_sub inject_Z_mult : chart_rw.

(** ** [Math.trunc] on finite numbers *)

Definition trunc (q : Q) : Z := if Qle_bool 0 q then Qfloor q else Qceiling q.

#[export] Instance trunc_proper : Proper (Qeq ==> eq) trunc.
Proof.
  intros a b H. unfold trunc.
  rewrite (Qfloor_comp a b H), (Qceiling_comp a b H).
  destruct (Qle_bool 0 a) eqn:E1, (Qle_bool 0 b) eqn:E2; auto; qbool; lra.
Qed.

(** [trunc q] lies within one unit of [q], on [q]'s side of zero. *)
Lemma trunc_bounds q : q - 1 < inject_Z (trunc q) < q + 1.
Proof.
  unfold trunc. qcase (Qle_bool 0 q).
  - pose proof (Qfloor_le q). pose proof (Qlt_floor q).
    rewrite inject_Z_plus in *. change (inject_Z 1) with 1 in *. lra.
  - pose proof (Qle_ceiling q). pose proof (Qceiling_lt q).
    rewrite inject_Z_sub in *. change (inject_Z 1) with 1 in *. lra.
Qed.

Lemma trunc_nonneg q : 0 <= q -> (0 <= trunc q)%Z /\ inject_Z (trunc q) <= q.
Proof.
  intros H. unfold trunc. apply Qle_bool_iff in H as H'. rewrite H'.
  split; [| apply Qfloor_le].
  change 0%Z with (Qfloor 0). apply Qfloor_resp_le. exact H.
Qed.

Lemma trunc_nonpos q : q <= 0 -> (trunc q <= 0)%Z /\ q <= inject_Z (trunc q).
Proof.
  intros H. unfold trunc. qcase (Qle_bool 0 q).
  - assert (q == 0) as Hq by lra. rewrite (Qfloor_comp q 0 Hq).
    split; [discriminate|]. rewrite Hq. apply Qle_refl.
  - split; [| apply Qle_ceiling].
    change 0%Z with (Qceiling 0). apply Qceiling_resp_le. exact H.
Qed.

Lemma trunc_Z z : trunc (inject_Z z) = z.
Proof.
  unfold trunc. rewrite Qfloor_Z, Qceiling_Z. now destruct (Qle_bool _ _).
Qed.

(** [trunc] is monotone. *)
Lemma trunc_mono a b : a <= b -> (trunc a <= trunc b)%Z.
Proof.
  intros H. unfold trunc.
  qcase (Qle_bool 0 a); qcase (Qle_bool 0 b).
  - now apply Qfloor_resp_le.
  - lra.
  - pose proof (proj1 (trunc_nonneg b E0)) as Hb. unfold trunc in Hb.
    apply Qle_bool_iff in E0. rewrite E0 in Hb.
    pose proof (proj1 (trunc_nonpos a (Qlt_le_weak _ _ E))) as Ha. unfold trunc in Ha.
    destruct (Qle_bool 0 a) eqn:E2; [qbool; lra|]. lia.
  - now apply Qceiling_resp_le.
Qed.

(** ** [Math.floor] and [Math.round] *)

Definition nfloor (x : num) : num :=
  match x with Fin q => Fin (inject_Z (Qfloor q)) | _ => x end.

(** [Math.round] rounds half-way cases up: [Math.floor(x + 0.5)]. *)
Definition nround (x : num) : num :=
  match x with Fin q => Fin (inject_Z (Qfloor (q + (1 # 2)))) | _ => x end.

(** The rounded value is within one half of [q]. *)
Lemma Qround_bounds q :
  q - (1 # 2) < inject_Z (Qfloor (q + (1 # 2))) <= q + (1 # 2).
Proof.
  pose proof (Qfloor_le (q + (1 # 2))). pose proof (Qlt_floor (q + (1 # 2))).
  rewrite inject_Z_plus in *. change (inject_Z 1) with 1 in *. lra.
Qed.

Lemma Qround_comp a b : a == b -> Qfloor (a + (1 # 2)) = Qfloor (b + (1 # 2)).
Proof. intros H. apply Qfloor_comp. now rewrite H. Qed.

(** [Qfloor x] is the one integer [z] with [z <= x < z + 1]. *)
Lemma Qfloor_unique z x : inject_Z z <= x < inject_Z z + 1 -> Qfloor x = z.
Proof.
  intros [H1 H2]. pose proof (Qfloor_le x). pose proof (Qlt_floor x).
  rewrite inject_Z_plus in H0. change (inject_Z 1) with 1 in H0.
  assert (inject_Z z < inject_Z (Qfloor x) + 1) as A by lra.
  assert (inject_Z (Qfloor x) < inject_Z z + 1) as B by lra.
  change 1 with (inject_Z 1) in A, B. rewrite <- inject_Z_plus, <- inject_Z_lt in A, B. lia.
Qed.

Lemma Qltb_inject_Z a b : Qltb (inject_Z a) (inject_Z b) = Z.ltb a b.
Proof.
  destruct (Z.ltb_spec a b) as [H|H]; [apply Qltb_iff | apply Qltb_false];
    [now rewrite <- inject_Z_lt | now rewrite <- inject_Z_le].
Qed.

(** Comparisons are unchanged when both sides are scaled by [c > 0]. *)
Lemma Qltb_scale a b a' b' c : 0 < c -> a == a' * c -> b == b' * c -> Qltb a b = Qltb a' b'.
Proof.
  intros Hc Ha Hb. rewrite Ha, Hb.
  qcase (Qltb a' b'); qcase (Qltb (a' * c) (b' * c)); auto; nra.
Qed.

Lemma Qeq_bool_scale a b a' b' c : 0 < c -> a == a' * c -> b == b' * c -> Qeq_bool a b = Qeq_bool a' b'.
Proof.
  intros Hc Ha Hb.
  qcase (Qeq_bool a' b'); qcase (Qeq_bool a b); auto.
  - exfalso. apply E0. rewrite Ha, Hb, E. reflexivity.
  - exfalso. apply E. apply (Qmult_inj_r _ _ c); [lra|]. now rewrite <- Ha, <- Hb.
Qed.

(** ** Powers of ten and [Math.floor(Math.log10 x)] *)

(** [Math.pow(10, e)] for an integer exponent. *)
Definition pow10 (e : Z) : Q := inject_Z 10 ^ e.

Lemma pow10_pos e : 0 < pow10 e.
Proof. apply Qpower_0_lt. reflexivity. Qed.

Lemma pow10_add x y : pow10 (x + y) == pow10 x * pow10 y.
Proof. apply Qpower_plus. discriminate. Qed.

Lemma pow10_succ e : pow10 (e + 1) == 10 * pow10 e.
Proof. rewrite pow10_add. assert (pow10 1 == 10) as -> by reflexivity. ring. Qed.

Lemma pow10_opp e : pow10 (- e) == / pow10 e.
Proof. apply Qpower_opp. Qed.

Lemma pow10_Z e : (0 <= e)%Z -> pow10 e == inject_Z (10 ^ e).
Proof.
  intros He. pattern e. apply Z.right_induction with (z := 0%Z); auto.
  - intros a b Hab. now rewrite Hab.
  - reflexivity.
  - intros n Hn IH. replace (Z.succ n) with (n + 1)%Z by lia.
    rewrite pow10_succ, IH, Z.pow_add_r by lia.
    rewrite inject_Z_mult, Z.pow_1_r. change (inject_Z 10) with 10. ring.
Qed.

#[export] Hint Resolve pow10_pos : chart.

(** Quotients of positive rationals compare by cross-multiplication. *)
Lemma Qdiv_lt_iff x y u v : 0 < y -> 0 < v -> (x / y < u / v <-> x * v < u * y).
Proof.
  intros Hy Hv.
  assert (0 < y * v) as Hyv by (apply Qmult_lt_0_compat; assumption).
  rewrite <- (Qmult_lt_r _ _ (y * v) Hyv).
  assert (x / y * (y * v) == x * v) as -> by (field; lra).
  assert (u / v * (y * v) == u * y) as -> by (field; lra).
  reflexivity.
Qed.

Lemma Qdiv_le_iff x y u v : 0 < y -> 0 < v -> (x / y <= u / v <-> x * v <= u * y).
Proof.
  intros Hy Hv.
  assert (0 < y * v) as Hyv by (apply Qmult_lt_0_compat; assumption).
  rewrite <- (Qmult_le_r _ _ (y * v) Hyv).
  assert (x / y * (y * v) == x * v) as -> by (field; lra).
  assert (u / v * (y * v) == u * y) as -> by (field; lra).
  reflexivity.
Qed.

(** The number of decimal digits of a positive integer, minus one. *)
Fixpoint log10_iter (fuel : nat) (n : Z) : Z :=
  match fuel with
  | O => 0
  | S f => if (n <? 10)%Z then 0 else 1 + log10_iter f (n / 10)
  end.

Definition zlog10 (n : Z) : Z := log10_iter (Z.to_nat (Z.log2 n + 1)) n.

Lemma log10_iter_spec f n :
  (1 <= n)%Z -> (n < 10 ^ Z.of_nat f)%Z ->
  (0 <= log10_iter f n)%Z /\
  (10 ^ log10_iter f n <= n < 10 ^ (log10_iter f n + 1))%Z.
Proof.
  revert n. induction f as [|f IH]; intros n H1 H2; cbn [log10_iter].
  - simpl in H2. lia.
  - destruct (Z.ltb_spec n 10) as [Hs|Hs]; cbv iota; [simpl; lia|].
    rewrite Nat2Z.inj_succ, Z.pow_succ_r in H2 by lia.
    pose proof (Z.div_mod n 10) as Hdm. pose proof (Z.mod_pos_bound n 10) as Hmod.
    destruct (IH (n / 10)%Z) as [Hk [Hlo Hhi]].
    + apply Z.div_le_lower_bound; lia.
    + apply Z.div_lt_upper_bound; lia.
    + set (k := log10_iter f (n / 10)) in *.
      split; [lia|]. rewrite !Z.pow_add_r by lia. rewrite Z.pow_add_r in Hhi by lia.
      rewrite Z.pow_1_r in *. set (P := (10 ^ k)%Z) in *. set (d := (n / 10)%Z) in *. split; lia.
Qed.

Lemma zlog10_spec n :
  (1 <= n)%Z -> (0 <= zlog10 n)%Z /\ (10 ^ zlog10 n <= n < 10 ^ (zlog10 n + 1))%Z.
Proof.
  intros H. apply log10_iter_spec; [exact H|].
  pose proof (Z.log2_spec n ltac:(lia)) as [_ Hlog].
  pose proof (Z.log2_nonneg n).
  rewrite Z2Nat.id by lia.
  apply (Z.lt_le_trans _ _ _ Hlog). apply Z.pow_le_mono_l. lia.
Qed.

(** [Math.floor(Math.log10 q)] for a positive rational [q]: estimated from
    the digit counts of numerator and denominator, then corrected by one. *)
Definition floor_log10 (q : Q) : Z :=
  let e := (zlog10 (Qnum q) - zlog10 (Z.pos (Qden q)))%Z in
  if Qltb q (pow10 e) then (e - 1)%Z else e.

Lemma pow10_sub_Z a b :
  (0 <= a)%Z -> (0 <= b)%Z -> pow10 (a - b) == inject_Z (10 ^ a) / inject_Z (10 ^ b).
Proof.
  intros Ha Hb. unfold Z.sub. rewrite pow10_add, pow10_opp, !pow10_Z by lia.
  reflexivity.
Qed.

Lemma inject_Z_pos z : (0 < z)%Z -> 0 < inject_Z z.
Proof. intros H. change 0 with (inject_Z 0). now rewrite <- inject_Z_lt. Qed.

Lemma inject_Z_pow_pos a : (0 <= a)%Z -> 0 < inject_Z (10 ^ a).
Proof. intros Ha. apply inject_Z_pos. apply Z.pow_pos_nonneg; lia. Qed.

(** The two bounds of [floor_log10]: [10^k <= q < 10^(k+1)]. *)
Theorem floor_log10_spec q :
  0 < q -> pow10 (floor_log10 q) <= q < pow10 (floor_log10 q + 1).
Proof.
  destruct q as [n d]. intros Hq. unfold floor_log10. cbn [Qnum Qden].
  assert (1 <= n)%Z as Hn by (unfold Qlt in Hq; simpl in Hq; lia).
  destruct (zlog10_spec n Hn) as [Ha [Hn1 Hn2]].
  destruct (zlog10_spec (Z.pos d) ltac:(lia)) as [Hb [Hd1 Hd2]].
  set (a := zlog10 n) in *. set (b := zlog10 (Z.pos d)) in *.
  assert (Hqd : n # d == inject_Z n / inject_Z (Z.pos d)) by apply Qmake_Qdiv.
  assert (Hlo : pow10 (a - b - 1) < n # d).
  { replace (a - b - 1)%Z with (a - (b + 1))%Z by lia.
    rewrite pow10_sub_Z, Hqd by lia.
    apply Qdiv_lt_iff;
      [apply inject_Z_pow_pos; lia | apply inject_Z_pos; lia |].
    rewrite <- !inject_Z_mult, <- inject_Z_lt. nia. }
  assert (Hhi : n # d < pow10 (a - b + 1)).
  { replace (a - b + 1)%Z with ((a + 1) - b)%Z by lia.
    rewrite pow10_sub_Z, Hqd by lia.
    apply Qdiv_lt_iff;
      [apply inject_Z_pos; lia | apply inject_Z_pow_pos; lia |].
    rewrite <- !inject_Z_mult, <- inject_Z_lt. nia. }
  qcase (Qltb (n # d) (pow10 (a - b))).
  - replace (a - b - 1 + 1)%Z with (a - b)%Z by lia. split; [apply Qlt_le_weak|]; assumption.
  - split; assumption.
Qed.

(** ** [reduce] with [Math.min] / [Math.max] over a list *)

Section FoldMinMax.
Context {A : Type} (f : A -> Q).

Lemma fold_Qmin_bound (l : list A) (a : Q) :
fold_left (fun acc x => Qmin acc (f x)) l a <= a /\
(forall x, In x l -> fold_left (fun acc x => Qmin acc (f x)) l a <= f x).
Proof.
revert a. induction l as [|y l IH]; intros a; simpl.
- split; [apply Qle_refl | tauto].
- destruct (IH (Qmin a (f y))) as [H1 H2].
  pose proof (Q.le_min_l a (f y)). pose proof (Q.le_min_r a (f y)).
  split; [eapply Qle_trans; eauto|].
  intros x [<-|Hx]; [eapply Qle_trans; eauto | auto].
Qed.

Lemma fold_Qmin_attained (l : list A) (a : Q) :
fold_left (fun acc x => Qmin acc (f x)) l a == a \/
exists x, In x l /\ fold_left (fun acc x => Qmin acc (f x)) l a == f x.
Proof.
revert a. induction l as [|y l IH]; intros a; simpl; [left; reflexivity|].
destruct (IH (Qmin a (f y))) as [H|[x [Hx H]]].
- destruct (Q.min_spec a (f y)) as [[_ Hm]|[_ Hm]];
    pose proof (Qeq_trans _ _ _ H Hm) as H'.
  + left. exact H'.
  + right. exists y. split; [left; reflexivity | exact H'].
- right. exists x. auto.
Qed.

Lemma fold_Qmax_bound (l : list A) (a : Q) :
a <= fold_left (fun acc x => Qmax acc (f x)) l a /\
(forall x, In x l -> f x <= fold_left (fun acc x => Qmax acc (f x)) l a).
Proof.
revert a. induction l as [|y l IH]; intros a; simpl.
- split; [apply Qle_refl | tauto].
- destruct (IH (Qmax a (f y))) as [H1 H2].
  pose proof (Q.le_max_l a (f y)). pose proof (Q.le_max_r a (f y)).
  split; [eapply Qle_trans; eauto|].
  intros x [<-|Hx]; [eapply Qle_trans; eauto | auto].
Qed.

Lemma fold_Qmax_attained (l : list A) (a : Q) :
fold_left (fun acc x => Qmax acc (f x)) l a == a \/
exists x, In x l /\ fold_left (fun acc x => Qmax acc (f x)) l a == f x.
Proof.
revert a. induction l as [|y l IH]; intros a; simpl; [left; reflexivity|].
destruct (IH (Qmax a (f y))) as [H|[x [Hx H]]].
- destruct (Q.max_spec a (f y)) as [[_ Hm]|[_ Hm]];
    pose proof (Qeq_trans _ _ _ H Hm) as H'.
  + right. exists y. split; [left; reflexivity | exact H'].
  + left. exact H'.
- right. exists x. auto.
Qed.
End FoldMinMax.

Lemma Qdiv_le_mono a b c : 0 < c -> a <= b -> a / c <= b / c.
Proof. intros Hc H. apply Qdiv_le_iff; auto. apply Qmult_le_compat_r; lra. Qed.

Lemma Qdiv_lt_mono a b c : 0 < c -> a < b -> a / c < b / c.
Proof. intros Hc H. apply Qdiv_lt_iff; auto. apply Qmult_lt_compat_r; lra. Qed.

(** Decide a comparison of rational constants by evaluation. *)
Ltac qdecide :=
  repeat split; vm_compute; first [reflexivity | discriminate | intros ?; discriminate].

Lemma pow10_ge_1 e : (0 <= e)%Z -> 1 <= pow10 e.
Proof.
  intros He. rewrite pow10_Z by exact He. change 1 with (inject_Z 1).
  rewrite <- inject_Z_le. pose proof (Z.pow_pos_nonneg 10 e ltac:(lia) He). lia.
Qed.

Lemma pow10_le_1 e : (e <= 0)%Z -> pow10 e <= 1.
Proof.
  intros He. replace e with (- (- e))%Z by lia. rewrite pow10_opp.
  pose proof (pow10_ge_1 (- e) ltac:(lia)). apply Qle_shift_inv_r; lra.
Qed.

Lemma pow10_neg_le e : (e <= -1)%Z -> pow10 e <= 1 # 10.
Proof.
  intros He. pose proof (pow10_le_1 (e + 1) ltac:(lia)). rewrite pow10_succ in H. lra.
Qed.

Lemma pow10_le_mono a b : (a <= b)%Z -> pow10 a <= pow10 b.
Proof.
  intros H. replace b with (a + (b - a))%Z by lia. rewrite pow10_add.
  pose proof (pow10_ge_1 (b - a) ltac:(lia)). pose proof (pow10_pos a).
  rewrite <- (Qmult_1_r (pow10 a)) at 1. apply Qmult_le_l; lra.
Qed.

(** The exponent is recovered from a strict comparison of powers. *)
Lemma pow10_lt_inv a b : pow10 a < pow10 b -> (a < b)%Z.
Proof.
  intros H. destruct (Z_lt_le_dec a b) as [|Hba]; [assumption|].
  pose proof (pow10_le_mono b a Hba). lra.
Qed.

(** ** JS arrays *)

Section JsArrays.
Context {A : Type}.

(** [arr[i]]: [undefined] ([None]) for a negative index or past the end. *)
Definition jsGet (l : list A) (i : Z) : option A :=
  if (i <? 0)%Z then None else nth_error l (Z.to_nat i).

(** [arr[i] = v]: in range it replaces, at the end it appends, past the
    end it leaves holes, here the value [hole]. *)
Definition jsSet (hole : A) (l : list A) (i : nat) (v : A) : list A :=
  if Nat.ltb i (List.length l) then firstn i l ++ v :: skipn (S i) l
  else l ++ repeat hole (i - List.length l) ++ [v].

Variable eqb : A -> A -> bool.

(** [arr.indexOf(x)]: the first index of [x], or [-1]. *)
Fixpoint indexOfFrom (x : A) (l : list A) (i : Z) : Z :=
  match l with
  | [] => (-1)%Z
  | y :: l' => if eqb y x then i else indexOfFrom x l' (i + 1)
  end.

Definition indexOf (x : A) (l : list A) : Z := indexOfFrom x l 0.

Lemma jsGet_nth l i : (0 <= i)%Z -> jsGet l i = nth_error l (Z.to_nat i).
Proof. intros H. unfold jsGet. now rewrite (proj2 (Z.ltb_ge i 0) H). Qed.

Lemma jsSet_length hole l i v :
  (i < List.length l)%nat -> List.length (jsSet hole l i v) = List.length l.
Proof.
  intros H. unfold jsSet. rewrite (proj2 (Nat.ltb_lt _ _) H).
  rewrite length_app, length_firstn. cbn [List.length]. rewrite length_skipn. lia.
Qed.

Lemma jsSet_nth hole l i v j :
  (i < List.length l)%nat ->
  nth_error (jsSet hole l i v) j = if Nat.eqb j i then Some v else nth_error l j.
Proof.
  intros H. unfold jsSet. rewrite (proj2 (Nat.ltb_lt _ _) H).
  destruct (Nat.ltb_spec j i) as [Hj|Hj].
  - rewrite nth_error_app1 by (rewrite length_firstn; lia).
    rewrite nth_error_firstn. destruct (Nat.eqb_spec j i); [lia|].
    now rewrite (proj2 (Nat.ltb_lt _ _) Hj).
  - rewrite nth_error_app2 by (rewrite length_firstn; lia). rewrite length_firstn.
    replace (Nat.min i (List.length l)) with i by lia.
    destruct (Nat.eqb_spec j i) as [->|Hne]; [now rewrite Nat.sub_diag|].
    replace (j - i)%nat with (S (j - S i)) by lia. cbn [nth_error].
    rewrite nth_error_skipn. f_equal. lia.
Qed.

Lemma indexOfFrom_range x l k :
  (0 <= k)%Z -> indexOfFrom x l k = (-1)%Z \/ (k <= indexOfFrom x l k)%Z.
Proof.
  revert k. induction l as [|z l IH]; intros k Hk; cbn [indexOfFrom]; [now left|].
  destruct (eqb z x); [right; lia|]. destruct (IH (k + 1)%Z ltac:(lia)); [now left | right; lia].
Qed.

Lemma indexOfFrom_shift x l i : indexOfFrom x l i = (if Z.eqb (indexOfFrom x l 0) (-1) then -1
                                                     else indexOfFrom x l 0 + i)%Z.
Proof.
  revert i. induction l as [|y l IH]; intros i; cbn [indexOfFrom]; [reflexivity|].
  destruct (eqb y x); [reflexivity|]. rewrite (IH (i + 1)%Z), (IH (0 + 1)%Z). change (0 + 1)%Z with 1%Z.
  destruct (Z.eqb_spec (indexOfFrom x l 0) (-1)) as [E|E]; [reflexivity|].
  destruct (indexOfFrom_range x l 0 ltac:(lia)); [contradiction|].
  destruct (Z.eqb_spec (indexOfFrom x l 0 + 1) (-1)); [lia|]. lia.
Qed.

(** [indexOf] finds the position of an element that occurs once, before
    which it does not occur. *)
Lemma indexOf_nth x l j :
  (forall a b, eqb a b = true <-> a = b) ->
  nth_error l j = Some x -> (forall k, (k < j)%nat -> nth_error l k <> Some x) ->
  indexOf x l = Z.of_nat j.
Proof.
  intros Heq. unfold indexOf. revert l. induction j as [|j IH]; intros l Hj Hk.
  - destruct l as [|y l]; [discriminate|]. injection Hj as ->. cbn. now rewrite (proj2 (Heq x x) eq_refl).
  - destruct l as [|y l]; [discriminate|]. cbn [indexOfFrom].
    destruct (eqb y x) eqn:E.
    + apply Heq in E as ->. exfalso. apply (Hk 0%nat); [lia | reflexivity].
    + rewrite indexOfFrom_shift, (IH l Hj) by (intros k Hk'; apply (Hk (S k)); lia).
      destruct (Z.eqb_spec (Z.of_nat j) (-1)); lia.
Qed.

(** [indexOf] of an absent element is [-1]. *)
Lemma indexOf_absent x l :
  (forall a b, eqb a b = true <-> a = b) -> ~ In x l -> indexOf x l = (-1)%Z.
Proof.
  intros Heq. unfold indexOf. generalize 0%Z. induction l as [|y l IH]; intros i Hin; [reflexivity|].
  cbn [indexOfFrom]. destruct (eqb y x) eqn:E.
  - apply Heq in E as ->. exfalso. apply Hin. now left.
  - apply IH. intros H. apply Hin. now right.
Qed.
End JsArrays.

(** ** Strings *)

Section Strings.
Local Open Scope string_scope.

Lemma length_append_str (a b : string) : String.length (a ++ b) = (String.length a + String.length b)%nat.
Proof. induction a as [|c a IH]; cbn; [reflexivity|]. now rewrite IH. Qed.

Lemma append_assoc_str (a b c : string) : (a ++ b) ++ c = a ++ (b ++ c).
Proof. induction a as [|x a IH]; cbn; [reflexivity|]. now rewrite IH. Qed.

Lemma append_empty_r_str (a : string) : a ++ "" = a.
Proof. induction a as [|x a IH]; cbn; [reflexivity|]. now rewrite IH. Qed.

(** A non-empty string is a prefix and its last character. *)
Lemma string_snoc_view d i :
  String.length d = S i -> exists d0 c, d = d0 ++ String c "" /\ String.length d0 = i.
Proof.
  revert i; induction d as [|c d IH]; intros i H; [discriminate|].
  destruct i as [|i].
  - destruct d; [|discriminate]. now exists "", c.
  - injection H as H. destruct (IH i H) as (d0 & c' & -> & <-). now exists (String c d0), c'.
Qed.

Lemma get_app_length d0 c s : String.get (String.length d0) (d0 ++ String c s) = Some c.
Proof. induction d0 as [|x d0 IH]; cbn; auto. Qed.

Lemma substring_prefix d0 s : substring 0 (String.length d0) (d0 ++ s) = d0.
Proof. induction d0 as [|x d0 IH]; cbn; [now destruct s|now rewrite IH]. Qed.

End Strings.

(** ** Lists *)

Lemma In_firstn {A} (x : A) n l : In x (firstn n l) -> In x l.
Proof. intros H. rewrite <- (firstn_skipn n l). apply in_or_app. now left. Qed.
