(* ===== verification/DataRange.v ===== *)
(** * The bar data model and the Range Calculator

    [BarProps] and [Range] are the interfaces [BarProps] and [Range] of
    [src/src/BarChart/index.tsx]; [RangeCalculator.computeDataRange] is the
    static method [BarChart.computeDataRange] (lines 55-89), with its local
    constants [minVal], [maxVal], [bottomMargin] and [topMargin] as
    definitions of their own.  The theorems show that the padded range
    contains zero and every value, that the data fill exactly the fraction
    [1 - topMargin - bottomMargin] of it, and what the degenerate inputs
    give. *)

From Stdlib Require Import QArith Qminmax Qabs Lqa Lia ZArith List String Bool.
From S2P Require Import Prelude.
Import ListNotations.
Open Scope Q_scope.

(** ** Data *)

(** [interface BarProps] (lines 6-12).  The optional strings are [None] when
    undefined; [empty] is [false] when undefined (the code only tests its
    truthiness).  [value] is a finite number. *)
Record BarProps : Type := mkBar {
  value : Q;
  label : option string;
  axisLabel : option string;
  className : option string;
  empty : bool
}.

(** [interface Range] (lines 29-32), on finite numbers. *)
Record Range : Type := mkRange { min : Q; max : Q }.

(** Two ranges are the same range when their bounds are equal rationals. *)
Definition range_eq (r1 r2 : Range) : Prop := min r1 == min r2 /\ max r1 == max r2.

#[export] Instance range_eq_equiv : Equivalence range_eq.
Proof.
  split.
  - intros r. split; reflexivity.
  - intros r1 r2 [H1 H2]. split; symmetry; assumption.
  - intros r1 r2 r3 [H1 H2] [H3 H4]. split; etransitivity; eauto.
Qed.

#[export] Instance min_proper : Proper (range_eq ==> Qeq) min.
Proof. intros r1 r2 [H _]. exact H. Qed.

#[export] Instance max_proper : Proper (range_eq ==> Qeq) max.
Proof. intros r1 r2 [_ H]. exact H. Qed.

(** [!!s] for an optional string: defined and not empty. *)
Definition truthy_str (s : option string) : bool :=
  match s with
  | Some s => negb (String.eqb s "")
  | None => false
  end.

(** A bar with only a value, as the tests write [{value: v}]. *)
Definition bar (v : Q) : BarProps := mkBar v None None None false.

(** A bar with a value and a label, [{value: v, label: l}]. *)
Definition labelledBar (v : Q) (l : string) : BarProps := mkBar v (Some l) None None false.

Module RangeCalculator.

(** [const margin = 0.05] (line 66). *)
Definition margin : Q := 5 # 100.

(** [bars.reduce((acc, bar) => Math.min(acc, bar.value), 0)] (line 69). *)
Definition minVal (bars : list BarProps) : Q :=
  fold_left (fun acc b => Qmin acc (value b)) bars 0.

(** [bars.reduce((acc, bar) => Math.max(acc, bar.value), 0)] (line 70). *)
Definition maxVal (bars : list BarProps) : Q :=
  fold_left (fun acc b => Qmax acc (value b)) bars 0.

(** Lines 73-74: 5%, plus 10% when a negative bar carries a label. *)
Definition bottomMargin (bars : list BarProps) : Q :=
  let hasBarNegativeLabels :=
    existsb (fun b => truthy_str (label b) && Qltb (value b) 0) bars in
  margin + (if hasBarNegativeLabels then margin * 2 else 0).

(** Lines 77-78: 5%, plus 10% when a non-negative bar carries a label. *)
Definition topMargin (bars : list BarProps) : Q :=
  let hasBarPositiveLabels :=
    existsb (fun b => truthy_str (label b) && Qle_bool 0 (value b)) bars in
  margin + (if hasBarPositiveLabels then margin * 2 else 0).

(** [BarChart.computeDataRange] (lines 55-89).  A [null] argument takes the
    early return of line 61 and yields [{0, 0}], as the empty list does
    ([computeDataRange_zero]); the model takes the list. *)
Definition computeDataRange (bars : list BarProps) : Range :=
  let range := maxVal bars - minVal bars in
  let expandedRange := range / (1 - topMargin bars - bottomMargin bars) in
  mkRange (minVal bars - expandedRange * bottomMargin bars)
          (maxVal bars + expandedRange * topMargin bars).

(** ** Lemmas *)

Lemma minVal_spec bars :
  minVal bars <= 0 /\ (forall b, In b bars -> minVal bars <= value b).
Proof. apply fold_Qmin_bound. Qed.

Lemma maxVal_spec bars :
  0 <= maxVal bars /\ (forall b, In b bars -> value b <= maxVal bars).
Proof. apply fold_Qmax_bound. Qed.

(** Both margins are 5% or 15%. *)
Lemma bottomMargin_cases bars : bottomMargin bars == 5 # 100 \/ bottomMargin bars == 15 # 100.
Proof. unfold bottomMargin, margin. destruct (existsb _ _); [right|left]; reflexivity. Qed.

Lemma topMargin_cases bars : topMargin bars == 5 # 100 \/ topMargin bars == 15 # 100.
Proof. unfold topMargin, margin. destruct (existsb _ _); [right|left]; reflexivity. Qed.

(** When every value is zero, both folds return their seed. *)
Lemma minVal_zero bars : (forall b, In b bars -> value b == 0) -> minVal bars == 0.
Proof.
  intros H. destruct (fold_Qmin_attained value bars 0) as [E|[b [Hb E]]]; [exact E|].
  unfold minVal. rewrite E. apply H, Hb.
Qed.

Lemma maxVal_zero bars : (forall b, In b bars -> value b == 0) -> maxVal bars == 0.
Proof.
  intros H. destruct (fold_Qmax_attained value bars 0) as [E|[b [Hb E]]]; [exact E|].
  unfold maxVal. rewrite E. apply H, Hb.
Qed.

(** A non-zero value makes the raw span positive. *)
Lemma span_pos bars b : In b bars -> ~ value b == 0 -> 0 < maxVal bars - minVal bars.
Proof.
  intros Hb Hv. destruct (minVal_spec bars) as [Hm1 Hm2]. destruct (maxVal_spec bars) as [HM1 HM2].
  specialize (Hm2 b Hb). specialize (HM2 b Hb).
  destruct (Qlt_le_dec 0 (value b)); [lra|].
  destruct (Qeq_dec (value b) 0); [contradiction | lra].
Qed.

Ltac margins bars :=
  destruct (bottomMargin_cases bars) as [Hbm|Hbm];
  destruct (topMargin_cases bars) as [Htm|Htm];
  rewrite ?Hbm, ?Htm.

(** The padded range in terms of the data span and the two margins. *)
Lemma computeDataRange_eqs bars :
  let r := computeDataRange bars in
  max r - min r == (maxVal bars - minVal bars) / (1 - topMargin bars - bottomMargin bars) /\
  minVal bars - min r == (max r - min r) * bottomMargin bars /\
  max r - maxVal bars == (max r - min r) * topMargin bars.
Proof.
  cbn zeta. unfold computeDataRange. cbn [min max].
  margins bars; (split; [|split]); field; vm_compute; discriminate.
Qed.

(** The range contains zero and every value, strictly when some value is
    not zero. *)
Lemma computeDataRange_bounds bars :
  let r := computeDataRange bars in
  min r <= 0 <= max r /\
  (forall b, In b bars -> min r <= value b <= max r) /\
  ((exists b, In b bars /\ ~ value b == 0) ->
   forall b, In b bars -> min r < value b < max r).
Proof.
  cbn zeta. destruct (computeDataRange_eqs bars) as [Hspan [Hlo Hhi]].
  destruct (minVal_spec bars) as [Hm1 Hm2]. destruct (maxVal_spec bars) as [HM1 HM2].
  set (r := computeDataRange bars) in *.
  assert (Hw : 0 <= max r - min r).
  { rewrite Hspan. apply Qle_shift_div_l; margins bars; lra. }
  assert (0 <= bottomMargin bars /\ 0 <= topMargin bars) as [Hb0 Ht0]
    by (margins bars; lra).
  assert (0 <= (max r - min r) * bottomMargin bars) by (apply Qmult_le_0_compat; lra).
  assert (0 <= (max r - min r) * topMargin bars) by (apply Qmult_le_0_compat; lra).
  split; [lra|]. split.
  - intros b Hb. specialize (Hm2 b Hb). specialize (HM2 b Hb). lra.
  - intros [b0 [Hb0' Hv0]] b Hb. specialize (Hm2 b Hb). specialize (HM2 b Hb).
    pose proof (span_pos bars b0 Hb0' Hv0) as Hpos.
    assert (0 < max r - min r).
    { rewrite Hspan. apply Qlt_shift_div_l; margins bars; lra. }
    assert (0 < (max r - min r) * bottomMargin bars) by (apply Qmult_lt_0_compat; margins bars; lra).
    assert (0 < (max r - min r) * topMargin bars) by (apply Qmult_lt_0_compat; margins bars; lra).
    lra.
Qed.

(** The span of the range is at least the largest magnitude. *)
Lemma computeDataRange_span bars b :
  In b bars -> Qabs (value b) <= max (computeDataRange bars) - min (computeDataRange bars).
Proof.
  intros Hb. destruct (computeDataRange_eqs bars) as [Hspan [Hlo Hhi]].
  destruct (minVal_spec bars) as [Hm1 Hm2]. destruct (maxVal_spec bars) as [HM1 HM2].
  specialize (Hm2 b Hb). specialize (HM2 b Hb).
  set (r := computeDataRange bars) in *.
  assert (0 <= (max r - min r) * bottomMargin bars /\ 0 <= (max r - min r) * topMargin bars).
  { assert (0 <= max r - min r) by (rewrite Hspan; apply Qle_shift_div_l; margins bars; lra).
    split; apply Qmult_le_0_compat; margins bars; lra. }
  apply Qabs_case; intros; lra.
Qed.

(** ** Properties *)

(** the data fill exactly the fraction [1 - topMargin - bottomMargin]
    of the padded range, with [bottomMargin] of the range below the
    smallest value (or zero) and [topMargin] above the largest (or
    zero). *)
Theorem computeDataRange_margins bars :
  let r := computeDataRange bars in
  maxVal bars - minVal bars == (max r - min r) * (1 - topMargin bars - bottomMargin bars) /\
  minVal bars - min r == (max r - min r) * bottomMargin bars /\
  max r - maxVal bars == (max r - min r) * topMargin bars.
Proof.
  cbn zeta. destruct (computeDataRange_eqs bars) as [Hspan [Hlo Hhi]].
  split; [|split; assumption]. rewrite Hspan. field. margins bars; vm_compute; discriminate.
Qed.

(** C1: the padded range contains zero and every bar value, each at least
    [margin] (5%) of the range away from either edge, so that no bar
    touches the edge of the chart. *)
Theorem computeDataRange_contains bars :
  let r := computeDataRange bars in
  min r <= 0 <= max r /\
  forall b, In b bars ->
    min r + margin * (max r - min r) <= value b <= max r - margin * (max r - min r).
Proof.
  cbn zeta. destruct (computeDataRange_eqs bars) as [Hspan [Hlo Hhi]].
  destruct (minVal_spec bars) as [Hm1 Hm2]. destruct (maxVal_spec bars) as [HM1 HM2].
  set (r := computeDataRange bars) in *.
  assert (Hw : 0 <= max r - min r) by (rewrite Hspan; apply Qle_shift_div_l; margins bars; lra).
  assert (margin * (max r - min r) <= (max r - min r) * bottomMargin bars /\
          margin * (max r - min r) <= (max r - min r) * topMargin bars) as [Hb Ht]
    by (unfold margin; margins bars; split; nra).
  assert (0 <= margin * (max r - min r)) by (unfold margin; nra).
  split; [lra|]. intros b Hb'. specialize (Hm2 b Hb'). specialize (HM2 b Hb'). lra.
Qed.

(** The degenerate input.  When every value is zero (in particular for
    no bars at all) the range is [{min: 0, max: 0}]: the margins are
    fractions of a zero span. *)
Theorem computeDataRange_zero bars :
  (forall b, In b bars -> value b == 0) -> range_eq (computeDataRange bars) (mkRange 0 0).
Proof.
  intros H. pose proof (minVal_zero bars H) as Hm. pose proof (maxVal_zero bars H) as HM.
  unfold computeDataRange, range_eq. cbn [min max]. rewrite Hm, HM.
  margins bars; split; field; vm_compute; discriminate.
Qed.

End RangeCalculator.

(** ** The unit tests of [computeDataRange()] (barChart.spec.tsx, lines 159-191) *)

Module RangeCalculatorTests.
Import RangeCalculator.

Example computeDataRange_test_empty : range_eq (computeDataRange []) (mkRange 0 0).
Proof. split; reflexivity. Qed.

Example computeDataRange_test_one :
  range_eq (computeDataRange [bar 1])
           (mkRange (- (1 / (9 # 10) * (5 # 100))) (1 + 1 / (9 # 10) * (5 # 100))).
Proof. split; reflexivity. Qed.

Example computeDataRange_test_label :
  range_eq (computeDataRange [labelledBar 1 "x"])
           (mkRange (- (1 / (8 # 10) * (5 # 100))) (1 + 1 / (8 # 10) * (15 # 100))).
Proof. split; reflexivity. Qed.

Example computeDataRange_test_negative_label :
  range_eq (computeDataRange [labelledBar (-1) "x"])
           (mkRange (-1 - 1 / (8 # 10) * (15 # 100)) (1 / (8 # 10) * (5 # 100))).
Proof. split; reflexivity. Qed.

(** An empty label is falsy: it reserves no room. *)
Example computeDataRange_test_empty_label :
  range_eq (computeDataRange [labelledBar 1 ""]) (computeDataRange [bar 1]).
Proof. split; reflexivity. Qed.

Lemma computeDataRange_zero_witness :
  (forall b, In b [bar 0; bar 0] -> value b == 0) /\
  range_eq (computeDataRange [bar 0; bar 0]) (mkRange 0 0).
Proof.
  assert (H : forall b, In b [bar 0; bar 0] -> value b == 0)
    by (intros b [<-|[<-|[]]]; reflexivity).
  split; [exact H | exact (computeDataRange_zero [bar 0; bar 0] H)].
Defined.
End RangeCalculatorTests.
