(* ===== verification/AxisTicks.v ===== *)
(** * The Axis Tick Generator

    [TickGenerator.computeQuantAxisMarkerVals] is the static method
    [BarChart.computeQuantAxisMarkerVals] of [src/src/BarChart/index.tsx]
    (lines 135-179).  The state of its two nested loops (lines 149-170) is a
    [MarkerTry]: the last [increment], [markerMax] and [markerCount] computed.
    The inner [for ... of] over [possibleIncrements] is [forIncrements]; the
    outer [while] is [whileMarkers], with fuel.  Three rounds always suffice
    ([quantAxisTry_terminates]), so the fuel [markerFuel = 3] never runs out.

    The theorems show the shape of the result: at most five ticks, descending
    by an increment of the form [c * 10^k] with [c] in [{1, 2, 2.5, 5}], all
    multiples of it, containing zero when the range does, and covering the
    range up to the one-third tie-break of the [0.66] constant. *)

From Stdlib Require Import QArith Qround Qminmax Qabs Lqa Lia ZArith List Bool.
From S2P Require Import Prelude DataRange.
Import ListNotations.
Open Scope Q_scope.

Module TickGenerator.

(** [const possibleIncrements = [1, 2, 2.5, 5]] (line 137). *)
Definition possibleIncrements : list Q := [1; 2; 5 # 2; 5].

(** [const maxMarkerCount = 5] (line 138). *)
Definition maxMarkerCount : Q := 5.

(** The loop state: [increment], [markerMax], [markerCount]. *)
Record MarkerTry : Type := mkTry {
  increment : Q;
  markerMax : Q;
  markerCount : Q
}.

(** The state before the loops: [markerCount = maxMarkerCount + 1]
    (line 149); [increment] and [markerMax] are still undefined. *)
Definition initialTry : MarkerTry := mkTry 0 0 (maxMarkerCount + 1).

(** One iteration of the inner loop (lines 152-164). *)
Definition tryIncrement (chartRange : Range) (magnitude possibleIncrement : Q) : MarkerTry :=
  let increment := possibleIncrement * magnitude in
  let markerMax := inject_Z (trunc (max chartRange / increment + (66 # 100))) * increment in
  let markerMin := inject_Z (trunc (min chartRange / increment - (66 # 100))) * increment in
  mkTry increment markerMax ((markerMax - markerMin) / increment + 1).

(** The inner [for (const possibleIncrement of possibleIncrements)] loop
    (lines 151-168): it breaks at the first candidate whose marker count is
    at most [maxMarkerCount], and otherwise leaves the last candidate's
    values in the loop variables. *)
Fixpoint forIncrements (chartRange : Range) (magnitude : Q) (cands : list Q)
    (last : MarkerTry) : MarkerTry :=
  match cands with
  | [] => last
  | c :: cs =>
      let t := tryIncrement chartRange magnitude c in
      if Qle_bool (markerCount t) maxMarkerCount then t
      else forIncrements chartRange magnitude cs t
  end.

(** The outer [while (markerCount > maxMarkerCount)] loop (lines 150-170),
    each round at ten times the previous magnitude; [None] when the fuel
    runs out. *)
Fixpoint whileMarkers (fuel : nat) (chartRange : Range) (magnitude : Q)
    (last : MarkerTry) : option MarkerTry :=
  if Qltb maxMarkerCount (markerCount last) then
    match fuel with
    | O => None
    | S f =>
        whileMarkers f chartRange (magnitude * 10)
          (forIncrements chartRange magnitude possibleIncrements last)
    end
  else Some last.

(** [Math.pow(10, Math.floor(Math.log10(max - min)) - 1)] (line 145). *)
Definition startMagnitude (chartRange : Range) : Q :=
  pow10 (floor_log10 (max chartRange - min chartRange) - 1).

(** Three rounds of the outer loop always suffice. *)
Definition markerFuel : nat := 3.

(** Lines 137-170: the increment, top marker and marker count chosen.  For
    a range with [max - min <= 0] the code computes [Math.log10] of zero or
    of a negative number, so [magnitude], every [increment] and every
    [markerCount] are [-Infinity], [0] or [NaN]; [NaN > 5] and [NaN <= 5]
    are both false, so both loops run out and [markerCount] is [NaN]: the
    model returns [None] for that case. *)
Definition quantAxisTry (chartRange : Range) : option MarkerTry :=
  if Qle_bool (max chartRange - min chartRange) 0 then None
  else whileMarkers markerFuel chartRange (startMagnitude chartRange) initialTry.

(** Lines 173-176: [for (let i = 0; i < markerCount; i++)
    markerVals.push(markerMax - (i * increment))]: the loop runs
    [ceil(markerCount)] times. *)
Definition markerVals (t : MarkerTry) : list Q :=
  map (fun i => markerMax t - inject_Z (Z.of_nat i) * increment t)
      (seq 0 (Z.to_nat (Qceiling (markerCount t)))).

(** [BarChart.computeQuantAxisMarkerVals] (lines 135-179).  With a [NaN]
    marker count ([quantAxisTry] is [None]) the push loop of line 174 does
    not run: the result is empty. *)
Definition computeQuantAxisMarkerVals (chartRange : Range) : list Q :=
  match quantAxisTry chartRange with
  | Some t => markerVals t
  | None => []
  end.

(** The contract of a tick list for the range [r], as the chart that
    draws it relies on it: two to five values, the [i]-th of them
    [(top - i) * inc] for an increment [inc = c * 10^k] with [c] one of
    the [possibleIncrements] and [10^k] more than a hundredth of the
    span. *)
Definition NiceTicks (r : Range) (ticks : list Q) : Prop :=
  exists inc c k top,
    0 < inc /\ In c possibleIncrements /\ inc == c * pow10 k /\
    max r - min r < 100 * pow10 k /\
    (2 <= length ticks <= 5)%nat /\
    (forall i x, nth_error ticks i = Some x -> x == inject_Z (top - Z.of_nat i) * inc).

(** [magnitude] after [j] rounds of the outer loop. *)
Fixpoint iter10 (j : nat) (m : Q) : Q :=
  match j with
  | O => m
  | S j => iter10 j (m * 10)
  end.

(** ** One candidate increment *)

Section OneTry.
Variables (r : Range) (m c : Q).
Hypotheses (Hc : 0 < c) (Hm : 0 < m).

Let Hinc : 0 < c * m := Qmult_lt_0_compat c m Hc Hm.

Let tx := trunc (max r / (c * m) + (66 # 100)).
Let ty := trunc (min r / (c * m) - (66 # 100)).

(** The marker count of a candidate is the integer [tx - ty + 1]. *)
Lemma try_count : markerCount (tryIncrement r m c) == inject_Z (tx - ty + 1).
Proof.
  unfold tryIncrement. cbn [markerCount]. fold tx ty.
  rewrite inject_Z_plus, inject_Z_sub. change (inject_Z 1) with 1. field. split; intro; lra.
Qed.

Lemma try_tx_ty : min r <= max r -> (ty <= tx)%Z.
Proof.
  intros Hr. apply trunc_mono.
  assert (min r / (c * m) <= max r / (c * m)) by (apply Qdiv_le_mono; lra).
  lra.
Qed.

(** A candidate wider than the range gives at most five markers. *)
Lemma try_count_wide : max r - min r < c * m -> markerCount (tryIncrement r m c) <= 5.
Proof.
  intros Hw. rewrite try_count.
  pose proof (trunc_bounds (max r / (c * m) + (66 # 100))) as Hx.
  pose proof (trunc_bounds (min r / (c * m) - (66 # 100))) as Hy. fold tx ty in Hx, Hy.
  assert (max r / (c * m) - min r / (c * m) < 1).
  { assert (max r / (c * m) - min r / (c * m) == (max r - min r) / (c * m)) as ->
      by (field; split; intro; lra).
    apply Qlt_shift_div_r; lra. }
  assert (tx - ty < 5)%Z as Hd.
  { apply inject_Z_lt. rewrite inject_Z_sub. change (inject_Z 5) with 5. lra. }
  change 5 with (inject_Z 5). rewrite <- inject_Z_le. lia.
Qed.
End OneTry.

(** ** The loops *)

Lemma iter10_pow j m : iter10 j m == m * pow10 (Z.of_nat j).
Proof.
  revert m. induction j as [|j IH]; intros m; cbn [iter10].
  - unfold pow10. simpl. ring.
  - rewrite IH, Nat2Z.inj_succ, <- Z.add_1_r, pow10_succ. ring.
Qed.

Lemma iter10_pos j m : 0 < m -> 0 < iter10 j m.
Proof. intros H. rewrite iter10_pow. apply Qmult_lt_0_compat; auto with chart. Qed.

Lemma possibleIncrements_pos c : In c possibleIncrements -> 0 < c.
Proof. simpl. intros [<-|[<-|[<-|[<-|[]]]]]; reflexivity. Qed.

(** The inner loop leaves either the state it started from or the values
    of one candidate. *)
Lemma forIncrements_cases r m cands last :
  forIncrements r m cands last = last \/
  exists c, In c cands /\ forIncrements r m cands last = tryIncrement r m c.
Proof.
  revert last. induction cands as [|c cs IH]; intros last; simpl; [now left|].
  destruct (Qle_bool _ _); [right; exists c; auto|].
  destruct (IH (tryIncrement r m c)) as [E|[c' [Hc' E]]]; rewrite E; right; eauto.
Qed.

(** What the outer loop returns: a marker count of at most five, and the
    values of one candidate of one of its rounds (or its start state). *)
Lemma whileMarkers_cases f r m last t :
  whileMarkers f r m last = Some t ->
  markerCount t <= 5 /\
  (t = last \/ exists j c, (j < f)%nat /\ In c possibleIncrements /\
                           t = tryIncrement r (iter10 j m) c).
Proof.
  revert m last. induction f as [|f IH]; intros m last H; cbn [whileMarkers] in H.
  - qcase (Qltb maxMarkerCount (markerCount last)); [discriminate|].
    injection H as <-. split; [exact E | now left].
  - qcase (Qltb maxMarkerCount (markerCount last)).
    + destruct (IH _ _ H) as [Hc [Ht|[j [c [Hj [Hin Ht]]]]]]; split; auto.
      * destruct (forIncrements_cases r m possibleIncrements last) as [E'|[c [Hin E']]];
          rewrite E' in Ht; [now left|].
        right. exists O, c. repeat split; auto. lia.
      * right. exists (S j), c. repeat split; auto. lia.
    + injection H as <-. split; [exact E | now left].
Qed.

Lemma forIncrements_head r m c cs last :
  markerCount (tryIncrement r m c) <= maxMarkerCount ->
  forIncrements r m (c :: cs) last = tryIncrement r m c.
Proof. intros H. cbn [forIncrements]. now rewrite (proj2 (Qle_bool_iff _ _) H). Qed.

(** Once a round's magnitude exceeds the span, the loop stops. *)
Lemma whileMarkers_some f r m last :
  0 < m -> max r - min r < iter10 f m -> exists t, whileMarkers (S f) r m last = Some t.
Proof.
  revert m last. induction f as [|f IH]; intros m last Hm Hw; cbn [whileMarkers].
  - destruct (Qltb _ _); [|eauto].
    cbn [iter10] in Hw. unfold possibleIncrements.
    rewrite forIncrements_head by (apply try_count_wide; lra).
    qcase (Qltb maxMarkerCount (markerCount (tryIncrement r m 1))); [|eauto].
    pose proof (try_count_wide r m 1 ltac:(reflexivity) Hm ltac:(lra)).
    unfold maxMarkerCount in E. lra.
  - destruct (Qltb _ _); [|eauto].
    apply IH; [lra | exact Hw].
Qed.

(** More fuel does not change a result the loop has reached. *)
Lemma whileMarkers_mono f f' r m last t :
  (f <= f')%nat -> whileMarkers f r m last = Some t -> whileMarkers f' r m last = Some t.
Proof.
  revert f' m last. induction f as [|f IH]; intros f' m last Hf H; cbn [whileMarkers] in H.
  - destruct (Qltb _ _) eqn:E; [discriminate|].
    destruct f'; cbn [whileMarkers]; rewrite E; exact H.
  - destruct f' as [|f']; [lia|]. cbn [whileMarkers].
    destruct (Qltb _ _); [apply IH; [lia | exact H] | exact H].
Qed.

(** ** At least two markers: the first accepted candidate is not too wide *)

Section AtLeastTwo.
Variables (r : Range) (m c : Q).
Hypotheses (Hc : 0 < c) (Hm : 0 < m).

(** A rejected candidate is less than [1/1.68] of the span. *)
Lemma try_rejected_small :
  5 < markerCount (tryIncrement r m c) -> (42 # 25) * (c * m) < max r - min r.
Proof.
  intros H. rewrite (try_count r m c Hc Hm) in H.
  set (x := max r / (c * m) + (66 # 100)) in *. set (y := min r / (c * m) - (66 # 100)) in *.
  pose proof (trunc_bounds x). pose proof (trunc_bounds y).
  assert (5 <= trunc x - trunc y)%Z as Hd.
  { assert (5 < trunc x - trunc y + 1)%Z by (apply inject_Z_lt; exact H). lia. }
  apply inject_Z_le in Hd. rewrite inject_Z_sub in Hd. change (inject_Z 5) with 5 in Hd.
  assert (Hs : (42 # 25) < (max r - min r) / (c * m)).
  { assert ((max r - min r) / (c * m) == x - y - (132 # 100)) as ->
      by (unfold x, y; field; split; intro; lra).
    lra. }
  assert (0 < c * m) as Hcm by (apply Qmult_lt_0_compat; lra).
  apply (Qmult_lt_r _ _ (c * m) Hcm) in Hs.
  assert ((max r - min r) / (c * m) * (c * m) == max r - min r) as E
    by (field; split; intro; lra).
  rewrite E in Hs. exact Hs.
Qed.

(** A candidate at most [25/17] of the span gives two markers or more. *)
Lemma try_count_two :
  0 < max r - min r -> c * m <= (25 # 17) * (max r - min r) ->
  2 <= markerCount (tryIncrement r m c).
Proof.
  intros Hs Hw. rewrite (try_count r m c Hc Hm).
  set (x := max r / (c * m) + (66 # 100)). set (y := min r / (c * m) - (66 # 100)).
  pose proof (trunc_bounds x). pose proof (trunc_bounds y).
  assert (Hq : (17 # 25) <= (max r - min r) / (c * m)).
  { apply Qle_shift_div_l; [apply Qmult_lt_0_compat; lra | lra]. }
  assert (x - y == (max r - min r) / (c * m) + (132 # 100)) as Hxy
    by (unfold x, y; field; split; intro; lra).
  assert (0 < inject_Z (trunc x - trunc y)) as Hd by (rewrite inject_Z_sub; lra).
  change 0 with (inject_Z 0) in Hd. apply inject_Z_lt in Hd.
  change 2 with (inject_Z 2). rewrite <- inject_Z_le. lia.
Qed.
End AtLeastTwo.

(** One round of the inner loop started at a magnitude at most [25/17] of
    the span either accepts a candidate with two markers or more, or
    rejects all four and leaves the next round's magnitude within the same
    bound. *)
Lemma round_ok r m last :
  0 < m -> 0 < max r - min r -> m <= (25 # 17) * (max r - min r) ->
  let t := forIncrements r m possibleIncrements last in
  (markerCount t <= 5 -> 2 <= markerCount t) /\
  (5 < markerCount t -> m * 10 <= (25 # 17) * (max r - min r)).
Proof.
  intros Hm Hs Hb. cbn zeta. unfold possibleIncrements.
  set (B := (25 # 17) * (max r - min r)) in *.
  (* each candidate is accepted with two markers, or rejected and small *)
  assert (step : forall c, 0 < c -> c * m <= B ->
    (markerCount (tryIncrement r m c) <= 5 -> 2 <= markerCount (tryIncrement r m c)) /\
    (5 < markerCount (tryIncrement r m c) -> 2 * (c * m) <= B)).
  { intros c Hc Hcb. split; [intros _; now apply try_count_two|].
    intros Hr. pose proof (try_rejected_small r m c Hc Hm Hr). unfold B. lra. }
  cbn [forIncrements].
  destruct (step 1 ltac:(reflexivity) ltac:(lra)) as [A1 R1].
  qcase (Qle_bool (markerCount (tryIncrement r m 1)) maxMarkerCount);
    unfold maxMarkerCount in *; [split; [auto | lra]|].
  destruct (step 2 ltac:(reflexivity) ltac:(lra)) as [A2 R2].
  qcase (Qle_bool (markerCount (tryIncrement r m 2)) 5); [split; [auto | lra]|].
  destruct (step (5 # 2) ltac:(reflexivity) ltac:(lra)) as [A3 R3].
  qcase (Qle_bool (markerCount (tryIncrement r m (5 # 2))) 5); [split; [auto | lra]|].
  destruct (step 5 ltac:(reflexivity) ltac:(lra)) as [A4 R4].
  qcase (Qle_bool (markerCount (tryIncrement r m 5)) 5); [split; [auto | lra]|].
  split; [lra|]. intros H. specialize (R4 H). lra.
Qed.

(** The outer loop keeps the bound of [round_ok]. *)
Lemma whileMarkers_two f r m last t :
  0 < m -> 0 < max r - min r ->
  (markerCount last <= 5 -> 2 <= markerCount last) ->
  (5 < markerCount last -> m <= (25 # 17) * (max r - min r)) ->
  whileMarkers f r m last = Some t -> 2 <= markerCount t.
Proof.
  revert m last. induction f as [|f IH]; intros m last Hm Hs H1 H2 H;
    cbn [whileMarkers] in H; unfold maxMarkerCount in H.
  - qcase (Qltb 5 (markerCount last)); [discriminate|]. injection H as <-. auto.
  - qcase (Qltb 5 (markerCount last)); [|injection H as <-; auto].
    destruct (round_ok r m last Hm Hs (H2 E)) as [A R].
    apply (IH (m * 10) _ ltac:(lra) Hs A R H).
Qed.

(** The first magnitude tried is a tenth of the span's leading power of
    ten: ten of it fit in the span, a hundred do not. *)
Lemma startMagnitude_spec r :
  0 < max r - min r ->
  0 < startMagnitude r /\ 10 * startMagnitude r <= max r - min r /\
  max r - min r < iter10 2 (startMagnitude r).
Proof.
  intros Hs. destruct (floor_log10_spec _ Hs) as [Hlo Hhi]. unfold startMagnitude.
  set (L := floor_log10 (max r - min r)) in *.
  assert (pow10 L == 10 * pow10 (L - 1)) as E1.
  { rewrite <- pow10_succ. now replace (L - 1 + 1)%Z with L by lia. }
  pose proof (pow10_succ L) as E2.
  cbn [iter10]. split; [apply pow10_pos|]. split; lra.
Qed.

(** What [quantAxisTry] chooses: one of the [possibleIncrements] at one of
    the three magnitudes, with two to five markers. *)
Lemma quantAxisTry_chosen r t :
  quantAxisTry r = Some t ->
  0 < max r - min r /\ 2 <= markerCount t <= 5 /\
  exists j c, (j < markerFuel)%nat /\ In c possibleIncrements /\
              t = tryIncrement r (iter10 j (startMagnitude r)) c.
Proof.
  unfold quantAxisTry. intros H. qcase (Qle_bool (max r - min r) 0); [discriminate|].
  destruct (startMagnitude_spec r ltac:(lra)) as [Hm [H10 _]].
  destruct (whileMarkers_cases _ _ _ _ _ H) as [H5 [Ht|Ht]].
  - subst t. exfalso. unfold initialTry, maxMarkerCount in H5. cbn [markerCount] in H5. lra.
  - split; [lra|]. split; [split; [|exact H5] | exact Ht].
    apply (whileMarkers_two markerFuel r (startMagnitude r) initialTry t Hm ltac:(lra)); [| | exact H];
      unfold initialTry, maxMarkerCount; cbn [markerCount]; intros; lra.
Qed.

(** The markers of one candidate: [tx - ty + 1] of them, the [i]-th being
    [(tx - i) * increment]. *)
Lemma try_markerVals r m c :
  0 < c -> 0 < m ->
  let tx := trunc (max r / (c * m) + (66 # 100)) in
  let ty := trunc (min r / (c * m) - (66 # 100)) in
  length (markerVals (tryIncrement r m c)) = Z.to_nat (tx - ty + 1) /\
  (forall i x, nth_error (markerVals (tryIncrement r m c)) i = Some x ->
               (Z.of_nat i <= tx - ty)%Z /\ x == inject_Z (tx - Z.of_nat i) * (c * m)).
Proof.
  intros Hc Hm tx ty. unfold markerVals.
  rewrite (Qceiling_comp _ _ (try_count r m c Hc Hm)), Qceiling_Z. fold tx ty.
  split; [now rewrite length_map, length_seq|].
  intros i x H. rewrite nth_error_map, nth_error_seq in H.
  destruct (Nat.ltb_spec i (Z.to_nat (tx - ty + 1))) as [Hi|Hi]; [|discriminate].
  injection H as <-. split; [lia|].
  cbn [markerMax increment tryIncrement]. fold tx.
  rewrite inject_Z_sub. ring.
Qed.

(** Everything the properties use about the chosen candidate, in terms of
    the two integers [tx] and [ty] of lines 159 and 162. *)
Lemma chosen_ticks r t :
  quantAxisTry r = Some t ->
  let ticks := computeQuantAxisMarkerVals r in
  let tx := trunc (max r / increment t + (66 # 100)) in
  let ty := trunc (min r / increment t - (66 # 100)) in
  0 < increment t /\
  (exists c k, In c possibleIncrements /\ increment t == c * pow10 k /\
               max r - min r < 100 * pow10 k) /\
  markerMax t = inject_Z tx * increment t /\
  (1 <= tx - ty <= 4)%Z /\
  length ticks = Z.to_nat (tx - ty + 1) /\
  (forall i x, nth_error ticks i = Some x ->
               (Z.of_nat i <= tx - ty)%Z /\ x == inject_Z (tx - Z.of_nat i) * increment t).
Proof.
  intros H ticks tx ty. unfold ticks, computeQuantAxisMarkerVals. rewrite H.
  destruct (quantAxisTry_chosen r t H) as [Hs [[H2 H5] [j [c [Hj [Hc Ht]]]]]].
  destruct (startMagnitude_spec r Hs) as [Hm [_ Hw]].
  pose proof (possibleIncrements_pos c Hc) as Hc0.
  pose proof (iter10_pos j _ Hm) as Hjm.
  subst t. destruct (try_markerVals r _ c Hc0 Hjm) as [Hlen Hnth].
  pose proof (try_count r _ c Hc0 Hjm) as Hcount. cbn [increment markerMax tryIncrement] in *.
  fold tx ty in Hlen, Hnth, Hcount.
  split; [apply Qmult_lt_0_compat; assumption|].
  split.
  { exists c, (floor_log10 (max r - min r) - 1 + Z.of_nat j)%Z. split; [exact Hc|].
    unfold startMagnitude in *. rewrite pow10_add.
    split; [rewrite iter10_pow; ring|].
    pose proof (pow10_ge_1 (Z.of_nat j) ltac:(lia)). cbn [iter10] in Hw.
    set (m0 := pow10 (floor_log10 (max r - min r) - 1)) in *.
    assert (m0 <= m0 * pow10 (Z.of_nat j)) by (rewrite <- (Qmult_1_r m0) at 1;
      apply Qmult_le_l; auto with chart).
    lra. }
  split; [reflexivity|].
  split; [|split; assumption].
  rewrite Hcount in H2, H5. change 2 with (inject_Z 2) in H2. change 5 with (inject_Z 5) in H5.
  rewrite <- inject_Z_le in H2, H5. lia.
Qed.

Lemma quantAxisTry_some r : min r < max r -> exists t, quantAxisTry r = Some t.
Proof.
  intros H. unfold quantAxisTry. qcase (Qle_bool (max r - min r) 0); [lra|].
  destruct (startMagnitude_spec r E) as [Hm [_ Hw]].
  exact (whileMarkers_some 2 r _ initialTry Hm Hw).
Qed.

(** The tick generator meets the contract [NiceTicks] on every range
    with [min < max]. *)
Lemma computeQuantAxisMarkerVals_nice r :
  min r < max r -> NiceTicks r (computeQuantAxisMarkerVals r).
Proof.
  intros H. destruct (quantAxisTry_some r H) as [t Ht].
  destruct (chosen_ticks r t Ht) as [Hinc [[c [k [Hc [Hk Hw]]]] [_ [Hd [Hlen Hnth]]]]].
  exists (increment t), c, k, (trunc (max r / increment t + (66 # 100))).
  repeat split; try assumption; [lia | lia |].
  intros i x Hx. apply (Hnth i x Hx).
Qed.

(** ** Properties *)

(** C4: the outer [while] loop terminates: for every range with
    [min < max], three rounds (magnitudes [10^(k-1)], [10^k], [10^(k+1)]
    for a span in [[10^k, 10^(k+1))]) find an increment, so the fuel never
    runs out. *)
Theorem quantAxisTry_terminates r :
  min r < max r ->
  exists t, quantAxisTry r = Some t /\
    forall f, (markerFuel <= f)%nat -> whileMarkers f r (startMagnitude r) initialTry = Some t.
Proof.
  intros H. destruct (quantAxisTry_some r H) as [t Ht]. exists t. split; [exact Ht|].
  intros f Hf. unfold quantAxisTry in Ht.
  destruct (Qle_bool _ _); [discriminate|]. exact (whileMarkers_mono _ _ _ _ _ _ Hf Ht).
Qed.

(** when the range contains zero (every data range does), zero is one
    of the ticks: the chart always has a zero grid line. *)
Theorem computeQuantAxisMarkerVals_has_zero r :
  min r < max r -> min r <= 0 <= max r ->
  exists i x, nth_error (computeQuantAxisMarkerVals r) i = Some x /\ x == 0.
Proof.
  intros H [H0 H1]. destruct (quantAxisTry_some r H) as [t Ht].
  destruct (chosen_ticks r t Ht) as [Hinc [_ [_ [Hd [Hlen Hnth]]]]].
  set (tx := trunc (max r / increment t + (66 # 100))) in *.
  set (ty := trunc (min r / increment t - (66 # 100))) in *.
  assert (0 <= tx)%Z as Htx.
  { apply trunc_nonneg. assert (0 <= max r / increment t) by (apply Qle_shift_div_l; lra). lra. }
  assert (ty <= 0)%Z as Hty.
  { apply trunc_nonpos. assert (min r / increment t <= 0) by (apply Qle_shift_div_r; lra). lra. }
  destruct (nth_error (computeQuantAxisMarkerVals r) (Z.to_nat tx)) as [x|] eqn:Ex.
  - exists (Z.to_nat tx), x. split; [exact Ex|].
    destruct (Hnth _ _ Ex) as [_ ->]. rewrite Z2Nat.id by lia. rewrite Z.sub_diag. reflexivity.
  - apply nth_error_None in Ex. lia.
Qed.

(** the one-third tie-break of the constant [0.66] (lines 158-162).
    For a range around zero, the top tick is at most [0.66] increments
    above the range's maximum, and the maximum is less than [0.34]
    increments above the top tick: a tick above the data is added exactly
    when the data pass a tick by a third of the increment or more.
    Symmetrically for the bottom tick and the minimum. *)
Theorem computeQuantAxisMarkerVals_cover r t :
  quantAxisTry r = Some t -> min r <= 0 <= max r ->
  let ticks := computeQuantAxisMarkerVals r in
  exists first last,
    nth_error ticks 0 = Some first /\
    nth_error ticks (length ticks - 1) = Some last /\
    max r - (34 # 100) * increment t < first <= max r + (66 # 100) * increment t /\
    min r - (66 # 100) * increment t <= last < min r + (34 # 100) * increment t.
Proof.
  intros Ht [H0 H1] ticks.
  destruct (chosen_ticks r t Ht) as [Hinc [_ [_ [Hd [Hlen Hnth]]]]]. fold ticks in Hlen, Hnth.
  set (x := max r / increment t + (66 # 100)) in *.
  set (y := min r / increment t - (66 # 100)) in *.
  assert (0 <= x) as Hx.
  { assert (0 <= max r / increment t) by (apply Qle_shift_div_l; lra). unfold x. lra. }
  assert (y <= 0) as Hy.
  { assert (min r / increment t <= 0) by (apply Qle_shift_div_r; lra). unfold y. lra. }
  destruct (trunc_nonneg x Hx) as [_ Htx]. destruct (trunc_nonpos y Hy) as [_ Hty].
  pose proof (trunc_bounds x). pose proof (trunc_bounds y).
  assert (Hmx : max r == (x - (66 # 100)) * increment t) by (unfold x; field; lra).
  assert (Hmy : min r == (y + (66 # 100)) * increment t) by (unfold y; field; lra).
  destruct (nth_error ticks 0) as [first|] eqn:E0; [|apply nth_error_None in E0; lia].
  destruct (nth_error ticks (length ticks - 1)) as [last|] eqn:E1;
    [|apply nth_error_None in E1; lia].
  exists first, last. split; [reflexivity|]. split; [reflexivity|].
  destruct (Hnth _ _ E0) as [_ Hf]. destruct (Hnth _ _ E1) as [_ Hl].
  rewrite Hlen in Hl. rewrite Nat2Z.inj_sub, Z2Nat.id in Hl by lia.
  replace (trunc x - (trunc x - trunc y + 1 - Z.of_nat 1))%Z with (trunc y) in Hl by lia.
  simpl Z.of_nat in Hf. rewrite Z.sub_0_r in Hf.
  rewrite Hf, Hl, Hmx, Hmy.
  split; split; apply Qmult_lt_compat_r || apply Qmult_le_compat_r || idtac.
  all: nra.
Qed.

End TickGenerator.

(** ** The interface between the tick generator and the chart

    [render] draws whatever ticks it is given; its theorems
    ([BarChartLayout]) hold for any tick source that meets [NiceTicks] on
    the data ranges it is asked for, and [barChartTicks] is the one of
    [BarChart.computeQuantAxisMarkerVals]. *)
Class TickSource : Type := {
  ticksFor : Range -> list Q;
  ticksFor_nice : forall r, min r < max r -> TickGenerator.NiceTicks r (ticksFor r)
}.

#[export] Instance barChartTicks : TickSource := {
  ticksFor := TickGenerator.computeQuantAxisMarkerVals;
  ticksFor_nice := TickGenerator.computeQuantAxisMarkerVals_nice
}.

(** ** The unit tests of [computeQuantAxisMarkerVals()] (barChart.spec.tsx, lines 194-245) *)

Module TickGeneratorTests.
Import TickGenerator.

Example markers_test_35 :
  map Qred (computeQuantAxisMarkerVals (mkRange 0 (35 # 10))) = [4; 3; 2; 1; 0].
Proof. vm_compute. reflexivity. Qed.

Example markers_test_33 :
  map Qred (computeQuantAxisMarkerVals (mkRange 0 (33 # 10))) = [3; 2; 1; 0].
Proof. vm_compute. reflexivity. Qed.

Example markers_test_neg35 :
  map Qred (computeQuantAxisMarkerVals (mkRange (-35 # 10) 0)) = [0; -1; -2; -3; -4].
Proof. vm_compute. reflexivity. Qed.

Example markers_test_neg33 :
  map Qred (computeQuantAxisMarkerVals (mkRange (-33 # 10) 0)) = [0; -1; -2; -3].
Proof. vm_compute. reflexivity. Qed.

Example markers_test_big :
  map Qred (computeQuantAxisMarkerVals (mkRange (-10000) 10000)) = [10000; 5000; 0; -5000; -10000].
Proof. vm_compute. reflexivity. Qed.

Example markers_test_small :
  map Qred (computeQuantAxisMarkerVals (mkRange (1 # 10000) (2 # 10000)))
  = [1 # 5000; 3 # 20000; 1 # 10000; 1 # 20000].
Proof. vm_compute. reflexivity. Qed.

Example markers_test_100 :
  map Qred (computeQuantAxisMarkerVals (mkRange 0 100)) = [100; 75; 50; 25; 0].
Proof. vm_compute. reflexivity. Qed.

(** The degenerate range of an all-zero chart: no ticks. *)
Example markers_test_zero : computeQuantAxisMarkerVals (mkRange 0 0) = [].
Proof. reflexivity. Qed.

Lemma quantAxisTry_terminates_witness :
  min (mkRange 0 (35 # 10)) < max (mkRange 0 (35 # 10)) /\
  exists t, quantAxisTry (mkRange 0 (35 # 10)) = Some t /\
    forall f, (markerFuel <= f)%nat ->
      whileMarkers f (mkRange 0 (35 # 10)) (startMagnitude (mkRange 0 (35 # 10))) initialTry = Some t.
Proof. split; [qdecide | apply quantAxisTry_terminates; qdecide]. Defined.

Lemma computeQuantAxisMarkerVals_has_zero_witness :
  min (mkRange (-73) 5) < max (mkRange (-73) 5) /\ min (mkRange (-73) 5) <= 0 <= max (mkRange (-73) 5) /\
  exists i x, nth_error (computeQuantAxisMarkerVals (mkRange (-73) 5)) i = Some x /\ x == 0.
Proof.
  split; [qdecide|]. split; [qdecide|].
  apply computeQuantAxisMarkerVals_has_zero; qdecide.
Defined.

Lemma computeQuantAxisMarkerVals_cover_witness :
  exists t, quantAxisTry (mkRange 0 (35 # 10)) = Some t /\
  min (mkRange 0 (35 # 10)) <= 0 <= max (mkRange 0 (35 # 10)) /\
  let ticks := computeQuantAxisMarkerVals (mkRange 0 (35 # 10)) in
  exists first last,
    nth_error ticks 0 = Some first /\
    nth_error ticks (length ticks - 1) = Some last /\
    max (mkRange 0 (35 # 10)) - (34 # 100) * increment t < first
      <= max (mkRange 0 (35 # 10)) + (66 # 100) * increment t /\
    min (mkRange 0 (35 # 10)) - (66 # 100) * increment t <= last
      < min (mkRange 0 (35 # 10)) + (34 # 100) * increment t.
Proof.
  eexists. split; [vm_compute; reflexivity|]. split; [qdecide|].
  apply computeQuantAxisMarkerVals_cover; [vm_compute; reflexivity | qdecide].
Defined.
End TickGeneratorTests.
