(* ===== verification/DecimalPlaces.v ===== *)
(** * The Label Formatter: decimal places of the axis increment

    [LabelFormatter.countDecimalPlaces] is [BarChart.countDecimalPlaces] of
    [src/src/BarChart/index.tsx] (lines 95-130): its two [while] loops are
    [countLeadingZeros] (lines 118-121) and [countNonZeroDigits] (lines
    124-127), each with fuel.  [getAxisIncrementDigits] is
    [BarChart._getAxisIncrementDigits] (lines 220-225) and
    [formatQuantAxisValue] is [_formatQuantAxisValue] (lines 244-256), over
    an interface [NumberLocale] for [Number.prototype.toLocaleString].

    In exact arithmetic the second loop does not stop on a value with an
    infinite decimal expansion (1/3); on doubles it always stops.  The fuel
    [decimalFuel = 400] exceeds the 324 leading zeros of the smallest double
    and the 17 significant digits of any double.  The comment of the source
    says the routine "will only work correctly within the constraints of our
    increment decision algorithm"; [countDecimalPlaces_increment] proves
    that on exactly those inputs (every [c * 10^k] the tick generator can
    choose) it terminates and returns the least number of fractional digits
    that writes the increment exactly ([decimalPlacesRef]). *)

From Stdlib Require Import QArith Qround Qabs Lqa Lia ZArith List Bool String.
From S2P Require Import Prelude DataRange AxisTicks.
Import ListNotations.
Open Scope Q_scope.

Module LabelFormatter.

(** [while (Math.floor(val * 10) === 0) { val *= 10; ++places; }]
    (lines 118-121). *)
Fixpoint countLeadingZeros (fuel : nat) (val : Q) (places : nat) : option (Q * nat) :=
  match fuel with
  | O => None
  | S f =>
      if Z.eqb (Qfloor (val * 10)) 0 then countLeadingZeros f (val * 10) (S places)
      else Some (val, places)
  end.

(** [while (Math.floor(val * 10) % 10 !== 0) { val *= 10; ++places; }]
    (lines 124-127); JS's [%] is the truncated remainder [Z.rem]. *)
Fixpoint countNonZeroDigits (fuel : nat) (val : Q) (places : nat) : option nat :=
  match fuel with
  | O => None
  | S f =>
      if negb (Z.eqb (Z.rem (Qfloor (val * 10)) 10) 0)
      then countNonZeroDigits f (val * 10) (S places)
      else Some places
  end.

(** [BarChart.countDecimalPlaces] (lines 95-130), each loop with [fuel]. *)
Definition countDecimalPlacesFuel (fuel : nat) (val : Q) : option nat :=
  let val := Qabs (val - inject_Z (trunc val)) in
  if Qeq_bool val 0 then Some 0%nat
  else
    let val := val + val * (1 # 1000) in
    match countLeadingZeros fuel val 0 with
    | Some (val, places) => countNonZeroDigits fuel val places
    | None => None
    end.

Definition decimalFuel : nat := 400.

Definition countDecimalPlaces (val : Q) : option nat := countDecimalPlacesFuel decimalFuel val.

(** [BarChart._getAxisIncrementDigits] (lines 220-225): the decimal places
    of the difference of the two top markers, or of [0]. *)
Definition getAxisIncrementDigits (quantAxisMarkers : list Q) : option nat :=
  let increment :=
    match quantAxisMarkers with
    | m0 :: m1 :: _ => m0 - m1
    | _ => 0
    end in
  countDecimalPlaces increment.

(** [Number.prototype.toLocaleString(undefined, {maximumFractionDigits})]:
    the platform's number formatting, at most [digits] fractional digits. *)
Class NumberLocale := { toLocaleString : Q -> nat -> string }.

(** The optional [quantAxisFormatFunc] prop. *)
Definition QuantAxisFormatFunc : Type := Q -> (Q -> string) -> string.

(** [BarChart._formatQuantAxisValue] (lines 244-256).  [fractionalDigits]
    is a natural number, so [Math.max(0, fractionalDigits)] is itself. *)
Definition formatQuantAxisValue `{NumberLocale}
    (quantAxisFormatFunc : option QuantAxisFormatFunc) (value : Q) (fractionalDigits : nat)
    : string :=
  let defaultFormatFunc := fun v => toLocaleString v (Nat.max 0 fractionalDigits) in
  match quantAxisFormatFunc with
  | Some f => f value defaultFormatFunc
  | None => defaultFormatFunc value
  end.

(** ** The reference: the least number of exact fractional digits *)

(** [q] is an integer. *)
Definition isIntegral (q : Q) : bool := Qeq_bool (inject_Z (Qfloor q)) q.

(** The least [p <= bound] with [q * 10^p] an integer. *)
Fixpoint decimalPlacesFrom (q : Q) (p bound : nat) : option nat :=
  match bound with
  | O => None
  | S b => if isIntegral (q * pow10 (Z.of_nat p)) then Some p
           else decimalPlacesFrom q (S p) b
  end.

Definition decimalPlacesRef (q : Q) : option nat := decimalPlacesFrom q 0 decimalFuel.

(** ** Lemmas on the two loops *)

Lemma Qfloor_small x : 0 <= x < 1 -> Qfloor x = 0%Z.
Proof.
  intros [H0 H1]. pose proof (Qfloor_le x). pose proof (Qlt_floor x).
  assert (0 <= Qfloor x)%Z by (change 0%Z with (Qfloor 0); now apply Qfloor_resp_le).
  assert (Qfloor x < 1)%Z.
  { apply inject_Z_lt. change (inject_Z 1) with 1. lra. }
  lia.
Qed.

Lemma Qfloor_one x : 1 <= x -> (1 <= Qfloor x)%Z.
Proof. intros H. change 1%Z with (Qfloor 1). now apply Qfloor_resp_le. Qed.

Lemma countNonZeroDigits_proper f v v' p :
  v == v' -> countNonZeroDigits f v p = countNonZeroDigits f v' p.
Proof.
  revert v v' p. induction f as [|f IH]; intros v v' p H; [reflexivity|].
  cbn [countNonZeroDigits]. assert (v * 10 == v' * 10) as H10 by (rewrite H; reflexivity).
  rewrite (Qfloor_comp _ _ H10). destruct (negb _); [apply IH|]; auto.
Qed.

(** The leading-zero loop followed by the digit loop, as the code runs them. *)
Definition leadingThenDigits (f g : nat) (v : Q) (p : nat) : option nat :=
  match countLeadingZeros f v p with
  | Some (w, q) => countNonZeroDigits g w q
  | None => None
  end.

Lemma leadingThenDigits_proper f g v v' p :
  v == v' -> leadingThenDigits f g v p = leadingThenDigits f g v' p.
Proof.
  unfold leadingThenDigits. revert v v' p. induction f as [|f IH]; intros v v' p H; [reflexivity|].
  cbn [countLeadingZeros]. assert (v * 10 == v' * 10) as H10 by (rewrite H; reflexivity).
  rewrite (Qfloor_comp _ _ H10). destruct (Z.eqb _ _); [apply IH; exact H10|].
  now apply countNonZeroDigits_proper.
Qed.

#[export] Instance countDecimalPlacesFuel_proper : Proper (eq ==> Qeq ==> eq) countDecimalPlacesFuel.
Proof.
  intros f f' <- v v' H. unfold countDecimalPlacesFuel.
  rewrite (trunc_proper _ _ H).
  assert (Qabs (v - inject_Z (trunc v')) == Qabs (v' - inject_Z (trunc v'))) as Ha
    by (now rewrite H).
  destruct (Qeq_bool (Qabs (v - _)) 0) eqn:E1, (Qeq_bool (Qabs (v' - _)) 0) eqn:E2;
    qbool; try reflexivity; try (exfalso; rewrite Ha in *; contradiction).
  apply leadingThenDigits_proper. rewrite Ha. reflexivity.
Qed.

(** A value [d/10 * 10^-n] with [1 <= d < 10] has [n] leading zeros. *)
Lemma leadingThenDigits_zeros f g n v d p :
  1 <= d < 10 -> (n < f)%nat -> v == d / 10 * pow10 (- Z.of_nat n) ->
  leadingThenDigits f g v p = countNonZeroDigits g (d / 10) (p + n).
Proof.
  revert f v p. induction n as [|n IH]; intros f v p Hd Hf Hv;
    (destruct f as [|f]; [lia|]); unfold leadingThenDigits; cbn [countLeadingZeros].
  - assert (v * 10 == d) as E by (rewrite Hv; unfold pow10; simpl; field).
    rewrite (Qfloor_comp _ _ E). pose proof (Qfloor_one d ltac:(lra)).
    destruct (Z.eqb_spec (Qfloor d) 0); [lia|].
    rewrite Nat.add_0_r. apply countNonZeroDigits_proper. rewrite Hv.
    assert (pow10 (- Z.of_nat 0) == 1) as -> by reflexivity. ring.
  - assert (v * 10 == d / 10 * pow10 (- Z.of_nat n)) as E.
    { rewrite Hv, Nat2Z.inj_succ, <- Z.add_1_r, Z.opp_add_distr, pow10_add.
      assert (pow10 (-1) == 1 # 10) as -> by reflexivity. field. }
    assert (0 < pow10 (- Z.of_nat n) <= 1) as [Hp0 Hp1].
    { split; [apply pow10_pos|]. rewrite pow10_opp.
      assert (1 <= pow10 (Z.of_nat n)) by (rewrite pow10_Z by lia;
        change 1 with (inject_Z 1); rewrite <- inject_Z_le;
        pose proof (Z.pow_pos_nonneg 10 (Z.of_nat n)); lia).
      apply Qle_shift_inv_r; lra. }
    assert (0 <= v * 10 < 1) as Hsmall.
    { assert (0 <= d / 10 < 1) as [Hd0 Hd1]
        by (split; [apply Qle_shift_div_l | apply Qlt_shift_div_r]; lra).
      rewrite E. split; [apply Qmult_le_0_compat; lra|].
      apply (Qle_lt_trans _ (d / 10 * 1)); [apply Qmult_le_compat_nonneg; split | rewrite Qmult_1_r]; lra. }
    rewrite (Qfloor_small _ Hsmall). cbn [Z.eqb].
    specialize (IH f (v * 10) (S p) Hd ltac:(lia) E). unfold leadingThenDigits in IH.
    rewrite IH. f_equal. lia.
Qed.

(** ** Lemmas on the reference *)

#[export] Instance isIntegral_proper : Proper (Qeq ==> eq) isIntegral.
Proof.
  intros x y H. unfold isIntegral. rewrite (Qfloor_comp _ _ H).
  destruct (Qeq_bool (inject_Z (Qfloor y)) x) eqn:E1, (Qeq_bool (inject_Z (Qfloor y)) y) eqn:E2;
    qbool; auto; exfalso;
    [apply E2; transitivity x; [exact E1 | exact H] |
     apply E1; transitivity y; [exact E2 | symmetry; exact H]].
Qed.

Lemma isIntegral_Z z : isIntegral (inject_Z z) = true.
Proof. unfold isIntegral. rewrite Qfloor_Z. apply Qeq_bool_iff. reflexivity. Qed.

Lemma isIntegral_small x : 0 < x < 1 -> isIntegral x = false.
Proof.
  intros Hx. unfold isIntegral. rewrite Qfloor_small by lra.
  apply Qeq_bool_false. change (inject_Z 0) with 0. lra.
Qed.

(** The search of [decimalPlacesFrom] finds the first integral scaling. *)
Lemma decimalPlacesFrom_first q p0 d b :
  (p0 <= d < p0 + b)%nat ->
  (forall p, (p0 <= p < d)%nat -> isIntegral (q * pow10 (Z.of_nat p)) = false) ->
  isIntegral (q * pow10 (Z.of_nat d)) = true ->
  decimalPlacesFrom q p0 b = Some d.
Proof.
  revert p0. induction b as [|b IH]; intros p0 Hd Hlt Hint; [lia|]. cbn [decimalPlacesFrom].
  destruct (Nat.eq_dec p0 d) as [<-|Hne]; [now rewrite Hint|].
  rewrite Hlt by lia. apply IH; [lia | intros p Hp; apply Hlt; lia | exact Hint].
Qed.

(** An integer value: no fractional digits, for both. *)
Lemma digits_integral v z :
  v == inject_Z z -> countDecimalPlaces v = Some 0%nat /\ decimalPlacesRef v = Some 0%nat.
Proof.
  intros Hv. split.
  - unfold countDecimalPlaces. rewrite Hv. unfold countDecimalPlacesFuel.
    rewrite trunc_Z. assert (Qabs (inject_Z z - inject_Z z) == 0) as E.
    { assert (inject_Z z - inject_Z z == 0) as -> by ring. reflexivity. }
    now rewrite (proj2 (Qeq_bool_iff _ _) E).
  - apply decimalPlacesFrom_first; [cbv; lia | intros; lia |].
    rewrite Hv. assert (inject_Z z * pow10 (Z.of_nat 0) == inject_Z z) as -> by (unfold pow10; simpl; ring).
    apply isIntegral_Z.
Qed.

(** A value [c * 10^-n] with a single digit [c] and [n >= 1]. *)
Lemma count_negative_exponent c n :
  1 <= c <= 5 -> (1 <= n < 395)%nat ->
  countDecimalPlaces (c * pow10 (- Z.of_nat n)) =
  countNonZeroDigits decimalFuel (c * (1001 # 1000) / 10) (n - 1).
Proof.
  intros Hc Hn. set (v := c * pow10 (- Z.of_nat n)).
  assert (0 < v < 1) as Hv.
  { pose proof (pow10_neg_le (- Z.of_nat n) ltac:(lia)). pose proof (pow10_pos (- Z.of_nat n)).
    unfold v. split; [apply Qmult_lt_0_compat; lra|].
    apply (Qle_lt_trans _ (5 * (1 # 10))); [apply Qmult_le_compat_nonneg; split; lra | reflexivity]. }
  assert (trunc v = 0%Z) as Ht by (unfold trunc; rewrite (proj2 (Qle_bool_iff _ _)) by lra;
    apply Qfloor_small; lra).
  unfold countDecimalPlaces, countDecimalPlacesFuel. rewrite Ht.
  assert (Qabs (v - inject_Z 0) == v) as Ha.
  { change (inject_Z 0) with 0. assert (v - 0 == v) as -> by ring. apply Qabs_pos. lra. }
  rewrite (proj2 (Qeq_bool_false (Qabs (v - inject_Z 0)) 0)) by (rewrite Ha; lra).
  change (leadingThenDigits decimalFuel decimalFuel
            (Qabs (v - inject_Z 0) + Qabs (v - inject_Z 0) * (1 # 1000)) 0 =
          countNonZeroDigits decimalFuel (c * (1001 # 1000) / 10) (n - 1)).
  assert (Hd : 1 <= c * (1001 # 1000) < 10) by lra.
  assert (Hf : (n - 1 < decimalFuel)%nat) by (unfold decimalFuel; lia).
  assert (He : Qabs (v - inject_Z 0) + Qabs (v - inject_Z 0) * (1 # 1000) ==
               c * (1001 # 1000) / 10 * pow10 (- Z.of_nat (n - 1))).
  { rewrite Ha. unfold v. replace (- Z.of_nat n)%Z with (- Z.of_nat (n - 1) + -1)%Z by lia.
    rewrite pow10_add. assert (pow10 (-1) == 1 # 10) as -> by reflexivity. field. }
  rewrite (leadingThenDigits_zeros _ _ (n - 1) _ _ _ Hd Hf He). reflexivity.
Qed.

(** The scaled increment [c * 10^-n * 10^p] is [c * 10^(p-n)]. *)
Lemma scaled_pow c n p : c * pow10 (- Z.of_nat n) * pow10 (Z.of_nat p) == c * pow10 (Z.of_nat p - Z.of_nat n).
Proof. rewrite <- Qmult_assoc, <- pow10_add. now replace (- Z.of_nat n + Z.of_nat p)%Z with (Z.of_nat p - Z.of_nat n)%Z by lia. Qed.

Lemma scaled_small c e : 0 < c <= 5 -> (e <= -1)%Z -> 0 < c * pow10 e < 1.
Proof.
  intros Hc He. pose proof (pow10_neg_le e He). pose proof (pow10_pos e).
  split; [apply Qmult_lt_0_compat; lra|].
  apply (Qle_lt_trans _ (5 * (1 # 10))); [apply Qmult_le_compat_nonneg; split; lra | reflexivity].
Qed.

(** [1], [2] and [5] times [10^-n]: [n] digits. *)
Lemma digits_neg_unit c n :
  (c = 1 \/ c = 2 \/ c = 5) -> (1 <= n < 395)%nat ->
  countDecimalPlaces (c * pow10 (- Z.of_nat n)) = Some n /\
  decimalPlacesRef (c * pow10 (- Z.of_nat n)) = Some n.
Proof.
  intros Hc Hn. split.
  - rewrite count_negative_exponent by (destruct Hc as [-> | [-> | ->]]; lra || lia).
    destruct n as [|n]; [lia|]. unfold decimalFuel. rewrite Nat.sub_succ, Nat.sub_0_r.
    destruct Hc as [-> | [-> | ->]]; reflexivity.
  - apply decimalPlacesFrom_first; [unfold decimalFuel; lia| |].
    + intros p Hp. rewrite scaled_pow. apply isIntegral_small, scaled_small; [|lia].
      destruct Hc as [-> | [-> | ->]]; lra.
    + rewrite scaled_pow, Z.sub_diag. unfold pow10 at 1. simpl.
      destruct Hc as [-> | [-> | ->]]; reflexivity.
Qed.

(** [2.5] times [10^-n]: [n + 1] digits. *)
Lemma digits_neg_half n :
  (1 <= n < 395)%nat ->
  countDecimalPlaces ((5 # 2) * pow10 (- Z.of_nat n)) = Some (S n) /\
  decimalPlacesRef ((5 # 2) * pow10 (- Z.of_nat n)) = Some (S n).
Proof.
  intros Hn. split.
  - rewrite count_negative_exponent by (lra || lia).
    destruct n as [|n]; [lia|]. unfold decimalFuel. rewrite Nat.sub_succ, Nat.sub_0_r. reflexivity.
  - apply decimalPlacesFrom_first; [unfold decimalFuel; lia| |].
    + intros p Hp. rewrite scaled_pow.
      destruct (Nat.eq_dec p n) as [->|Hne].
      * rewrite Z.sub_diag. reflexivity.
      * apply isIntegral_small, scaled_small; [lra | lia].
    + rewrite scaled_pow. replace (Z.of_nat (S n) - Z.of_nat n)%Z with 1%Z by lia. reflexivity.
Qed.

(** The number of fractional digits of the increment [c * 10^k]. *)
Definition incrementDigits (c : Q) (k : Z) : nat :=
  (Z.to_nat (- k) + (if Qeq_bool c (5 # 2) && Z.leb k 0 then 1 else 0))%nat.

(** ** The digit count of every increment *)

(** On every increment the tick generator can choose, [c * 10^k] with [c]
    in [{1, 2, 2.5, 5}] (down to [10^-390], beyond the smallest double),
    both searches return [incrementDigits c k]. *)
Lemma increment_digits c k :
  In c TickGenerator.possibleIncrements -> (-390 <= k)%Z ->
  countDecimalPlaces (c * pow10 k) = Some (incrementDigits c k) /\
  decimalPlacesRef (c * pow10 k) = Some (incrementDigits c k).
Proof.
  intros Hc Hk. unfold incrementDigits.
  destruct (Z_lt_le_dec k 0) as [Hneg|Hpos].
  - replace k with (- Z.of_nat (Z.to_nat (- k)))%Z by lia.
    rewrite Z.opp_involutive, Nat2Z.id.
    assert (1 <= Z.to_nat (- k) < 395)%nat as Hn by lia.
    rewrite (proj2 (Z.leb_le _ 0)) by lia.
    simpl in Hc. destruct Hc as [<-|[<-|[<-|[<-|[]]]]]; cbn [Qeq_bool andb Qnum Qden];
      rewrite ?Nat.add_0_r, ?Nat.add_1_r;
      [apply digits_neg_unit | apply digits_neg_unit | apply digits_neg_half | apply digits_neg_unit];
      auto.
  - rewrite (proj2 (Z.leb_le _ 0) Hpos) || idtac.
    replace (Z.to_nat (- k)) with 0%nat by lia.
    simpl in Hc. destruct Hc as [<-|[<-|[<-|[<-|[]]]]].
    + apply (digits_integral _ (1 * 10 ^ k)). now rewrite inject_Z_mult, pow10_Z.
    + apply (digits_integral _ (2 * 10 ^ k)). now rewrite inject_Z_mult, pow10_Z.
    + destruct (Z.eq_dec k 0) as [->|Hk0]; [split; reflexivity|].
      rewrite (proj2 (Z.leb_gt k 0)) by lia. cbn [Qeq_bool andb].
      apply (digits_integral _ (25 * 10 ^ (k - 1))).
      rewrite inject_Z_mult, pow10_Z by lia. replace k with (k - 1 + 1)%Z at 1 by lia.
      rewrite Z.pow_add_r, inject_Z_mult by lia. change (inject_Z (10 ^ 1)) with (10 # 1).
      change (inject_Z 25) with (25 # 1). field.
    + apply (digits_integral _ (5 * 10 ^ k)). now rewrite inject_Z_mult, pow10_Z.
Qed.

(** The digits the reference finds write the value exactly. *)
Lemma decimalPlacesFrom_integral q p b d :
  decimalPlacesFrom q p b = Some d -> isIntegral (q * pow10 (Z.of_nat d)) = true.
Proof.
  revert p. induction b as [|b IH]; intros p H; cbn [decimalPlacesFrom] in H; [discriminate|].
  destruct (isIntegral (q * pow10 (Z.of_nat p))) eqn:E in H;
    [injection H as <-; exact E | exact (IH _ H)].
Qed.

Lemma isIntegral_iff q : isIntegral q = true <-> exists z, q == inject_Z z.
Proof.
  unfold isIntegral. rewrite Qeq_bool_iff. split; [intros H; exists (Qfloor q); symmetry; exact H|].
  intros [z Hz]. rewrite (Qfloor_comp _ _ Hz), Qfloor_Z. symmetry. exact Hz.
Qed.

Lemma isIntegral_mul_Z z q : isIntegral q = true -> isIntegral (inject_Z z * q) = true.
Proof.
  rewrite !isIntegral_iff. intros [w Hw]. exists (z * w)%Z. rewrite Hw, inject_Z_mult. reflexivity.
Qed.

(** The exponent of a [NiceTicks] increment, for a span of at least
    [10^-324] (every non-zero double is): above [-390]. *)
Lemma nice_exponent r k :
  pow10 (-324) <= max r - min r -> max r - min r < 100 * pow10 k -> (-390 <= k)%Z.
Proof.
  intros H1 H2. change 100 with (pow10 2) in H2. rewrite <- pow10_add in H2.
  assert (pow10 (-324) < pow10 (2 + k)) as H by lra. apply pow10_lt_inv in H. lia.
Qed.

(** What [_getAxisIncrementDigits] returns on a [NiceTicks] list: a digit
    count at which every tick is written exactly. *)
Lemma nice_ticks_digits r ticks :
  TickGenerator.NiceTicks r ticks -> pow10 (-324) <= max r - min r ->
  exists c k, In c TickGenerator.possibleIncrements /\
    getAxisIncrementDigits ticks = Some (incrementDigits c k) /\
    (forall i x, nth_error ticks i = Some x ->
                 isIntegral (x * pow10 (Z.of_nat (incrementDigits c k))) = true).
Proof.
  intros [inc [c [k [top [Hinc [Hc [Hk [Hw [Hlen Hnth]]]]]]]]] Hs.
  pose proof (nice_exponent r k Hs Hw) as Hk0.
  destruct (increment_digits c k Hc Hk0) as [Hcount Href].
  exists c, k. split; [exact Hc|]. split.
  - destruct ticks as [|m0 [|m1 rest]]; cbn [List.length] in Hlen; [lia | lia |].
    unfold getAxisIncrementDigits. rewrite <- Hcount. unfold countDecimalPlaces. f_equiv.
    rewrite (Hnth 0%nat m0 eq_refl), (Hnth 1%nat m1 eq_refl), <- Hk.
    rewrite !inject_Z_sub. cbn [Z.of_nat]. ring.
  - intros i x Hx. rewrite (Hnth i x Hx), <- Qmult_assoc, Hk.
    apply isIntegral_mul_Z, (decimalPlacesFrom_integral _ 0 decimalFuel), Href.
Qed.

(** ** Properties *)

(** C5: on every increment the tick generator can choose, [c * 10^k] with
    [c] in [{1, 2, 2.5, 5}] (down to [10^-390], beyond the smallest
    double), the optimised digit walk of [countDecimalPlaces] (with its
    0.1% nudge) terminates and agrees with the reference search for the
    least number of fractional digits that writes the value exactly. *)
Theorem countDecimalPlaces_increment c k :
  In c TickGenerator.possibleIncrements -> (-390 <= k)%Z ->
  countDecimalPlaces (c * pow10 k) = decimalPlacesRef (c * pow10 k) /\
  countDecimalPlaces (c * pow10 k) <> None.
Proof.
  intros Hc Hk. destruct (increment_digits c k Hc Hk) as [-> ->]. split; [reflexivity | discriminate].
Qed.

End LabelFormatter.

(** ** The unit tests of [countDecimalPlaces()] (barChart.spec.tsx, lines 247-281) *)

Module LabelFormatterTests.
Import LabelFormatter.

Example countDecimalPlaces_tests :
  map countDecimalPlaces [3 # 2; -3 # 2; 1 # 100; -1 # 100; 0; 1001 # 100000;
                          9999999999997 # 1000000000000000]
  = map Some [1; 1; 2; 2; 0; 2; 2]%nat.
Proof. vm_compute. reflexivity. Qed.

(** Exact arithmetic: a value with an infinite expansion exhausts the fuel. *)
Example countDecimalPlaces_third : countDecimalPlaces (1 # 3) = None.
Proof. vm_compute. reflexivity. Qed.

Lemma countDecimalPlaces_increment_witness :
  In (5 # 2) TickGenerator.possibleIncrements /\ (-390 <= -3)%Z /\
  countDecimalPlaces ((5 # 2) * pow10 (-3)) = decimalPlacesRef ((5 # 2) * pow10 (-3)) /\
  countDecimalPlaces ((5 # 2) * pow10 (-3)) <> None.
Proof.
  split; [simpl; tauto|]. split; [lia|].
  apply countDecimalPlaces_increment; [simpl; tauto | lia].
Defined.
End LabelFormatterTests.
