(* ===== verification/BarGeometry.v ===== *)
(** * The Bar Geometry Engine

    The per-bar computations of class [BarChart] in
    [src/src/BarChart/index.tsx]:
    - [getBars] is [_getBars] (lines 227-240): padding with empty bars;
    - [getBarChunks] is [_getBarChunks] (lines 477-521), its backward
      [while] loop being [chunkWalk];
    - [barColumnGeometry] is the arithmetic of [_renderBarColumn] (lines
      404-411) and [deltaTooltip] its percent-change tooltip (lines 454-456);
    - [verticalBarHeights] is [_renderVerticalBar] with
      [_renderVerticalBarColumn] (lines 337-373).
    The chart range they receive may be [NaN] (see [BarChartLayout.v]) and
    their divisors may be zero, so their arithmetic is on [num]. *)

From Stdlib Require Import QArith Qminmax Qabs Lqa Lia ZArith List Bool.
From S2P Require Import Prelude DataRange.
Import ListNotations.
Open Scope Q_scope.

(** The chart range [render] hands to the bars: finite, or [NaN] when the
    tick list it was widened with is empty. *)
Record ChartRange : Type := mkChartRange { cmin : num; cmax : num }.

Definition toChartRange (r : Range) : ChartRange := mkChartRange (Fin (min r)) (Fin (max r)).

(** [interface BarChunk] (lines 34-37). *)
Record BarChunk : Type := mkChunk { percentHeight : num; percentTop : num }.

Module Geometry.

(** [minBarLoc?: 'left' | 'right'] *)
Inductive MinBarLoc : Type := Left | Right.

(** [{ value: 1, empty: true }] (line 234). *)
Definition emptyBar : BarProps := mkBar 1 None None None true.

(** [_getBars] (lines 227-240).  [minBars] is [0] when undefined (both are
    falsy). *)
Definition getBars (bars : list BarProps) (minBars : nat) (minBarLoc : option MinBarLoc)
    : list BarProps :=
  let emptyBars :=
    if negb (Nat.eqb minBars 0) && Nat.ltb (length bars) minBars
    then repeat emptyBar (minBars - length bars) else [] in
  match minBarLoc with
  | Some Right => bars ++ emptyBars
  | _ => emptyBars ++ bars
  end.

(** [funcBarHeight] (line 491): [Math.abs(bar.value) / range * 100]. *)
Definition funcBarHeight (range : num) (bar : BarProps) : num :=
  nmul (ndiv (nabs (Fin (value bar))) range) (Fin 100).

(** The backward walk of lines 494-510 from [curIndex]: each bar of an
    ascending run contributes the difference of its height and the
    previous bar's; the run stops at a descent, at an empty bar, or at
    index 0, with a chunk of full height.  All chunks share [barTop]. *)
Fixpoint chunkWalk (bars : list BarProps) (range barTop : num) (curIndex : nat)
    : list BarChunk :=
  let bar := nth curIndex bars emptyBar in
  let barHeight := funcBarHeight range bar in
  match curIndex with
  | O => [mkChunk barHeight barTop]
  | S prev =>
      let prevBar := nth prev bars emptyBar in
      if Qltb (value bar) (value prevBar) || empty prevBar
      then [mkChunk barHeight barTop]
      else mkChunk (nsub barHeight (funcBarHeight range prevBar)) barTop
             :: chunkWalk bars range barTop prev
  end.

(** [chunks.reduce((a, b) => a + (b.percentHeight || 0), 0)] (line 514). *)
Definition totalBarHeight (chunks : list BarChunk) : num :=
  fold_left (fun a b => nadd a (nor (percentHeight b) (Fin 0))) chunks (Fin 0).

(** [minBarHeight || 1] *)
Definition orOne (q : Q) : Q := if Qeq_bool q 0 then 1 else q.

(** [_getBarChunks] (lines 477-521).  [minBarHeight] is [0] when
    undefined.  [None]: [bars[index]] is undefined and reading its
    [empty] field throws. *)
Definition getBarChunks (minBarHeight : Q) (bars : list BarProps) (index : nat)
    (chartRange : ChartRange) : option (list BarChunk) :=
  match nth_error bars index with
  | None => None
  | Some b =>
      if empty b then
        let barHeight := orOne minBarHeight in
        Some [mkChunk (Fin (orOne barHeight)) (Fin (95 - barHeight))]
      else
        let range := nsub (cmax chartRange) (cmin chartRange) in
        let barTop :=
          nmul (ndiv (nsub (cmax chartRange) (nmax (Fin 0) (Fin (value b)))) range) (Fin 100) in
        let chunks := chunkWalk bars range barTop index in
        if negb (Qeq_bool minBarHeight 0) && nlt (totalBarHeight chunks) (Fin minBarHeight)
        then Some [mkChunk (Fin minBarHeight) (Fin (95 - minBarHeight))]
        else Some chunks
  end.

(** The geometry of one bar column (lines 404-411): its [barHeight],
    [barTop] and [labelTop], over [range = Math.max(max - min, 1)]. *)
Record ColumnGeometry : Type := mkColumn {
  colHeight : num;
  colTop : num;
  colLabelTop : num
}.

Definition barColumnGeometry (bar : BarProps) (chartRange : ChartRange) : ColumnGeometry :=
  let negative := Qltb (value bar) 0 in
  let range := nmax (nsub (cmax chartRange) (cmin chartRange)) (Fin 1) in
  let barHeight := nmul (ndiv (nabs (Fin (value bar))) range) (Fin 100) in
  let barTop :=
    nmul (ndiv (nsub (cmax chartRange) (nmax (Fin 0) (Fin (value bar)))) range) (Fin 100) in
  let labelTop := if negative then barTop else nsub barTop barHeight in
  mkColumn barHeight barTop labelTop.

(** The tooltip's percent change (lines 454-455): [None] when no tooltip
    is rendered. *)
Definition deltaTooltip (showDeltaTooltip : bool) (bars : list BarProps) (index : nat)
    : option num :=
  match index with
  | O => None
  | S prev =>
      let cur := nth index bars emptyBar in
      let before := nth prev bars emptyBar in
      if showDeltaTooltip && negb (empty cur) && negb (empty before)
      then Some (nmul (ndiv (Fin (value cur - value before)) (Fin (value before))) (Fin 100))
      else None
  end.

(** [_renderVerticalBar] and [_renderVerticalBarColumn] (lines 337-373):
    the height of each column, [None] for a column that renders
    nothing. *)
Definition verticalBarHeights (bars : list BarProps) : list (option num) :=
  let totalRange := fold_left (fun acc bar => acc + value bar) bars 0 in
  map (fun bar =>
         if Qle_bool (value bar) 0 || Qle_bool totalRange 0 then None
         else Some (nmul (ndiv (Fin (Qmax 0 (value bar))) (Fin totalRange)) (Fin 100)))
      bars.

(** ** The finite case *)

(** The height of a bar as a rational, [|value| / range * 100]. *)
Definition heightQ (r : Q) (b : BarProps) : Q := Qabs (value b) / r * 100.

Lemma funcBarHeight_fin r b : ~ r == 0 -> funcBarHeight (Fin r) b = Fin (heightQ r b).
Proof. intros Hr. unfold funcBarHeight, heightQ. simpl nabs. rewrite ndiv_fin by exact Hr. reflexivity. Qed.

Lemma nor_fin_zero q : nor (Fin q) (Fin 0) ≃ Fin q.
Proof. rewrite nor_fin. qcase (Qeq_bool q 0); simpl; [symmetry; exact E | reflexivity]. Qed.

(** Summing chunks onto a finite accumulator: [totalBarHeight] telescopes
    to the height of the bar the walk started from. *)
Lemma chunkWalk_total bars r top i a :
  ~ r == 0 ->
  fold_left (fun a b => nadd a (nor (percentHeight b) (Fin 0))) (chunkWalk bars (Fin r) top i) (Fin a)
  ≃ Fin (a + heightQ r (nth i bars emptyBar)).
Proof.
  intros Hr. revert a. induction i as [|p IH]; intros a; cbn [chunkWalk];
    rewrite ?funcBarHeight_fin by exact Hr.
  - cbn [fold_left percentHeight]. pose proof (nor_fin_zero (heightQ r (nth 0 bars emptyBar))).
    destruct (nor _ _); simpl in *; try contradiction. rewrite H. reflexivity.
  - destruct (Qltb _ _ || empty _).
    + cbn [fold_left percentHeight]. pose proof (nor_fin_zero (heightQ r (nth (S p) bars emptyBar))).
      destruct (nor _ _); simpl in *; try contradiction. rewrite H. reflexivity.
    + cbn [fold_left percentHeight nsub nneg nadd]. rewrite nor_fin.
      destruct (Qeq_bool _ 0) eqn:E; qbool; rewrite IH; simpl; lra.
Qed.

(** Every chunk of a walk starts at [barTop]. *)
Lemma chunkWalk_top bars range top i c : In c (chunkWalk bars range top i) -> percentTop c = top.
Proof.
  induction i as [|p IH]; cbn [chunkWalk]; [intros [<-|[]]; reflexivity|].
  destruct (_ || _); [intros [<-|[]]; reflexivity|]. intros [<-|Hc]; auto.
Qed.

Lemma heightQ_step r b0 b1 :
  0 < r -> 0 <= value b0 <= value b1 -> 0 <= heightQ r b1 - heightQ r b0.
Proof.
  intros Hr Hv. unfold heightQ. rewrite !Qabs_pos by lra.
  assert (value b1 / r * 100 - value b0 / r * 100 == (value b1 - value b0) / r * 100) as ->
    by (field; lra).
  apply Qmult_le_0_compat; [apply Qle_shift_div_l; lra | discriminate].
Qed.

Lemma heightQ_nonneg r b : 0 < r -> 0 <= heightQ r b.
Proof.
  intros Hr. unfold heightQ. apply Qmult_le_0_compat; [|discriminate].
  apply Qle_shift_div_l; [exact Hr|]. rewrite Qmult_0_l. apply Qabs_nonneg.
Qed.

(** ** Properties *)

(** Padding.  [getBars] returns [max(minBars, n)] bars: the [n] given
    bars in their order, and [minBars - n] empty bars of value 1 before
    them (default, ['left']) or after them (['right']). *)
Theorem getBars_padding bars minBars loc :
  let padded := getBars bars minBars loc in
  let k := (minBars - List.length bars)%nat in
  List.length padded = Nat.max minBars (List.length bars) /\
  padded = (if loc is Some Right then bars ++ repeat emptyBar k else repeat emptyBar k ++ bars).
Proof.
  cbn zeta. unfold getBars.
  destruct (Nat.eqb_spec minBars 0) as [->|H0]; cbn [negb andb].
  - rewrite Nat.sub_0_l. destruct loc as [[|]|]; cbn; rewrite ?app_nil_r; split; lia || reflexivity.
  - destruct (Nat.ltb_spec (List.length bars) minBars) as [Hl|Hl].
    + destruct loc as [[|]|]; rewrite ?length_app, ?repeat_length; split; lia || reflexivity.
    + replace (minBars - List.length bars)%nat with 0%nat by lia.
      destruct loc as [[|]|]; cbn; rewrite ?app_nil_r; split; lia || reflexivity.
Qed.

(** the height of a bar.  On a finite range of non-zero span, a
    non-empty bar's chunks add up to its own height [|value| / span * 100]
    (the ascending-run layers telescope), unless a [minBarHeight] is set
    and that height is below it, in which case the bar is the single
    fixed chunk of that height ending at 95%. *)
Theorem getBarChunks_height minBarHeight bars i r b :
  nth_error bars i = Some b -> empty b = false -> ~ max r - min r == 0 ->
  let h := heightQ (max r - min r) b in
  exists chunks, getBarChunks minBarHeight bars i (toChartRange r) = Some chunks /\
    ((~ minBarHeight == 0 /\ h < minBarHeight /\
      chunks = [mkChunk (Fin minBarHeight) (Fin (95 - minBarHeight))]) \/
     ((minBarHeight == 0 \/ minBarHeight <= h) /\ totalBarHeight chunks ≃ Fin h)).
Proof.
  intros Hb He Hr h. unfold getBarChunks. rewrite Hb, He. cbn [cmax cmin toChartRange].
  change (nsub (Fin (max r)) (Fin (min r))) with (Fin (max r - min r)).
  set (top := nmul (ndiv (nsub _ _) _) _).
  pose proof (chunkWalk_total bars _ top i 0 Hr) as Ht.
  rewrite (nth_error_nth _ _ _ Hb), Qplus_0_l in Ht. fold h in Ht.
  unfold totalBarHeight. set (cs := chunkWalk bars _ top i) in *.
  destruct (fold_left _ cs (Fin 0)) as [x| | |] eqn:Ex; cbn in Ht; try contradiction.
  qcase (Qeq_bool minBarHeight 0); cbn [negb andb].
  - eexists; split; [reflexivity|]. right. split; [now left | rewrite Ex; exact Ht].
  - cbn [nlt]. qcase (Qltb x minBarHeight).
    + eexists; split; [reflexivity|]. left. repeat split; [exact E | lra].
    + eexists; split; [reflexivity|]. right. split; [right; lra | rewrite Ex; exact Ht].
Qed.

(** Stacking.  When the bars up to index [i] are non-empty and rise
    (each at most the next), the walk emits one chunk per bar of the run,
    [i + 1] chunks, all starting at the bar's top; with non-negative values
    on a positive span every chunk's height is a finite non-negative
    number. *)
Theorem chunkWalk_ascending bars r top i :
  0 < r ->
  (forall j, (j < i)%nat -> empty (nth j bars emptyBar) = false /\
                            value (nth j bars emptyBar) <= value (nth (S j) bars emptyBar)) ->
  List.length (chunkWalk bars (Fin r) top i) = S i /\
  (forall c, In c (chunkWalk bars (Fin r) top i) -> percentTop c = top) /\
  ((forall j, (j <= i)%nat -> 0 <= value (nth j bars emptyBar)) ->
   forall c, In c (chunkWalk bars (Fin r) top i) -> exists q, percentHeight c = Fin q /\ 0 <= q).
Proof.
  intros Hr Hrun. split; [|split; [apply chunkWalk_top|]].
  - induction i as [|p IH]; [reflexivity|]. cbn [chunkWalk].
    destruct (Hrun p ltac:(lia)) as [Hem Hle].
    rewrite Hem, (proj2 (Qltb_false _ _) Hle). cbn. f_equal. apply IH. intros j Hj. apply Hrun. lia.
  - intros Hpos. induction i as [|p IH]; cbn [chunkWalk]; rewrite ?funcBarHeight_fin by lra.
    + intros c [<-|[]]. eexists; split; [reflexivity | apply heightQ_nonneg, Hr].
    + destruct (Hrun p ltac:(lia)) as [Hem Hle].
      rewrite Hem, (proj2 (Qltb_false _ _) Hle). cbn [orb].
      intros c [<-|Hc].
      * eexists; split; [reflexivity|].
        pose proof (heightQ_step r _ _ Hr (conj (Hpos p ltac:(lia)) Hle)). lra.
      * apply IH; [intros j Hj; apply Hrun; lia | intros j Hj; apply Hpos; lia | exact Hc].
Qed.

(** A rising run of negative values yields a chunk of negative
    height: [|v1| - |v0| < 0] for [v0 < v1 <= 0].  The layering of
    lines 500-505 assumes non-negative values. *)
Theorem chunkWalk_negative_run bars r top p :
  0 < r -> empty (nth p bars emptyBar) = false ->
  value (nth p bars emptyBar) < value (nth (S p) bars emptyBar) <= 0 ->
  exists q rest, chunkWalk bars (Fin r) top (S p) = mkChunk (Fin q) top :: rest /\ q < 0.
Proof.
  intros Hr Hem Hv. cbn [chunkWalk]. rewrite !funcBarHeight_fin by lra.
  rewrite Hem, (proj2 (Qltb_false _ _)) by lra. cbn [orb].
  eexists _, _. split; [reflexivity|].
  unfold heightQ. rewrite !Qabs_neg by lra.
  assert (- value (nth (S p) bars emptyBar) / r * 100 + - (- value (nth p bars emptyBar) / r * 100)
          == (value (nth p bars emptyBar) - value (nth (S p) bars emptyBar)) / r * 100) as ->
    by (field; lra).
  assert ((value (nth p bars emptyBar) - value (nth (S p) bars emptyBar)) / r < 0).
  { apply Qlt_shift_div_r; lra. }
  lra.
Qed.

(** The label of a negative bar is drawn at its bar's top only when
    the chart's span is at least 1.  [_renderBarColumn] divides by
    [Math.max(max - min, 1)] (line 406) while [_getBarChunks] divides by
    [max - min] (line 488): on a chart whose span is below 1 the label and
    the bar are scaled differently. *)
Theorem label_top_alignment bars i r b :
  nth_error bars i = Some b -> empty b = false -> value b < 0 -> 0 < max r -> min r < max r ->
  exists chunks, getBarChunks 0 bars i (toChartRange r) = Some chunks /\ chunks <> [] /\
    forall c, In c chunks ->
      (colLabelTop (barColumnGeometry b (toChartRange r)) ≃ percentTop c <-> 1 <= max r - min r).
Proof.
  intros Hb He Hv Hmax Hr. unfold getBarChunks. rewrite Hb, He. cbn [cmax cmin toChartRange].
  change (nsub (Fin (max r)) (Fin (min r))) with (Fin (max r - min r)).
  eexists. split; [reflexivity|]. split; [destruct i; cbn; [|destruct (_ || _)]; discriminate|].
  intros c Hc. rewrite (chunkWalk_top _ _ _ _ _ Hc).
  unfold barColumnGeometry. cbn [cmax cmin toChartRange colLabelTop].
  change (nsub (Fin (max r)) (Fin (min r))) with (Fin (max r - min r)).
  rewrite (proj2 (Qltb_iff _ _) Hv). cbn [nmax nlt].
  rewrite (proj2 (Qltb_false 0 (value b))) by lra. cbn [nsub nneg nadd].
  rewrite ndiv_fin by lra. cbn [nmul].
  qcase (Qltb (max r - min r) 1); rewrite ndiv_fin by lra; cbn [nmul num_eq].
  - split; [|lra]. intros Heq. exfalso.
    assert ((max r + - 0) / 1 < (max r + - 0) / (max r - min r)).
    { apply Qdiv_lt_iff; [lra | lra |]. rewrite Qmult_1_r. nra. }
    lra.
  - split; intros _; [lra | reflexivity].
Qed.

(** NaN on a degenerate range: zero divided by a zero span. *)
Lemma funcBarHeight_nan z b : z == 0 -> value b == 0 -> funcBarHeight (Fin z) b = NaN.
Proof.
  intros Hz Hv. unfold funcBarHeight. cbn [nabs ndiv].
  rewrite (proj2 (Qeq_bool_iff z 0) Hz).
  rewrite (proj2 (Qeq_bool_iff (Qabs (value b)) 0)) by (rewrite Hv; reflexivity). reflexivity.
Qed.

Lemma chunkWalk_nan bars z top i :
  z == 0 -> (forall j, (j <= i)%nat -> value (nth j bars emptyBar) == 0) ->
  forall c, In c (chunkWalk bars (Fin z) top i) -> percentHeight c = NaN /\ percentTop c = top.
Proof.
  intros Hz Hv. induction i as [|p IH]; cbn [chunkWalk];
    rewrite !funcBarHeight_nan by (auto || apply Hv; lia).
  - intros c [<-|[]]. auto.
  - destruct (_ || _); [intros c [<-|[]]; auto|].
    intros c [<-|Hc]; [auto|].
    apply IH; [intros j Hj; apply Hv; lia | exact Hc].
Qed.

(** Chunks of [NaN] height add nothing to [totalBarHeight]: [NaN || 0]. *)
Lemma totalBarHeight_nan cs a :
  (forall c, In c cs -> percentHeight c = NaN) ->
  fold_left (fun a b => nadd a (nor (percentHeight b) (Fin 0))) cs (Fin a) ≃ Fin a.
Proof.
  revert a. induction cs as [|c cs IH]; intros a Hcs; [reflexivity|]. cbn [fold_left].
  rewrite (Hcs c (or_introl eq_refl)). cbn [nor ntruthy nadd].
  rewrite IH by (intros c' Hc'; apply Hcs; now right). cbn. ring.
Qed.

(** The degenerate chart.  On a zero span (every value zero, no
    axis) the chunks of a bar are [NaN] in height and top, unless a
    positive [minBarHeight] replaces them: the [|| 0] of line 514 turns
    their [NaN] heights into a total of 0, which is below it. *)
Theorem getBarChunks_zero_range minBarHeight bars i r :
  min r == 0 -> max r == 0 ->
  (forall b, In b bars -> value b == 0 /\ empty b = false) -> (i < List.length bars)%nat ->
  exists chunks, getBarChunks minBarHeight bars i (toChartRange r) = Some chunks /\
    (0 < minBarHeight -> chunks = [mkChunk (Fin minBarHeight) (Fin (95 - minBarHeight))]) /\
    (minBarHeight <= 0 ->
     chunks <> [] /\ forall c, In c chunks -> percentHeight c = NaN /\ percentTop c = NaN).
Proof.
  intros Hmin Hmax Hall Hi. unfold getBarChunks.
  destruct (nth_error bars i) as [b|] eqn:Hb; [|apply nth_error_None in Hb; lia].
  pose proof (nth_error_In _ _ Hb) as Hin. destruct (Hall b Hin) as [Hv He]. rewrite He.
  cbn [cmax cmin toChartRange].
  change (nsub (Fin (max r)) (Fin (min r))) with (Fin (max r - min r)).
  assert (Hz : max r - min r == 0) by lra.
  assert (Hvals : forall j, (j <= i)%nat -> value (nth j bars emptyBar) == 0)
    by (intros j Hj; apply Hall, nth_In; lia).
  assert (Htop : nmul (ndiv (nsub (Fin (max r)) (nmax (Fin 0) (Fin (value b)))) (Fin (max r - min r))) (Fin 100) = NaN).
  { cbn [nmax nlt]. destruct (Qltb 0 (value b)); cbn [nsub nneg nadd ndiv];
      rewrite (proj2 (Qeq_bool_iff _ 0) Hz), (proj2 (Qeq_bool_iff _ 0)) by lra; reflexivity. }
  rewrite Htop.
  pose proof (chunkWalk_nan bars _ NaN i Hz Hvals) as Hnan.
  set (cs := chunkWalk bars (Fin (max r - min r)) NaN i) in *.
  assert (Hne : cs <> []) by (unfold cs; destruct i; cbn; [|destruct (_ || _)]; discriminate).
  destruct (totalBarHeight cs) as [x| | |] eqn:Htot;
    pose proof (totalBarHeight_nan cs 0 (fun c Hc => proj1 (Hnan c Hc))) as Hx;
    unfold totalBarHeight in Htot; rewrite Htot in Hx; cbn in Hx; try contradiction.
  cbn [nlt].
  qcase (Qeq_bool minBarHeight 0); cbn [negb andb].
  - eexists; split; [reflexivity|]. split; [lra|]. intros _. split; [exact Hne|]. exact Hnan.
  - qcase (Qltb x minBarHeight); eexists; (split; [reflexivity|]).
    + split; [reflexivity | intros; lra].
    + split; [intros; lra|]. intros _. split; [exact Hne | exact Hnan].
Qed.

(** The percent-change tooltip divides by the previous bar's value
    without a guard: after a bar of value 0 it is [Infinity], [-Infinity]
    or [NaN], never a finite number. *)
Theorem deltaTooltip_zero_base bars p :
  empty (nth (S p) bars emptyBar) = false -> empty (nth p bars emptyBar) = false ->
  value (nth p bars emptyBar) == 0 ->
  exists x, deltaTooltip true bars (S p) = Some x /\ finite x = false.
Proof.
  intros Hc Hb Hz. unfold deltaTooltip. rewrite Hc, Hb. cbn [andb negb].
  eexists. split; [reflexivity|]. cbn [ndiv].
  rewrite (proj2 (Qeq_bool_iff _ 0) Hz).
  destruct (Qeq_bool _ 0); [reflexivity|]. destruct (Qltb _ 0); reflexivity.
Qed.

(** The heights a vertical chart renders, added up. *)
Definition shownTotal (hs : list (option num)) : num :=
  fold_left (fun a o => match o with Some x => nadd a x | None => a end) hs (Fin 0).

Lemma fold_sum_shift (l : list BarProps) a :
  fold_left (fun acc bar => acc + value bar) l a == a + fold_left (fun acc bar => acc + value bar) l 0.
Proof.
  revert a. induction l as [|b l IH]; intros a; cbn [fold_left]; [ring|].
  rewrite IH, (IH (0 + value b)). ring.
Qed.

(** A vertical bar chart of non-negative values with a positive
    total renders columns whose heights add up to exactly 100%. *)
Theorem verticalBarHeights_total bars :
  (forall b, In b bars -> 0 <= value b) ->
  0 < fold_left (fun acc bar => acc + value bar) bars 0 ->
  shownTotal (verticalBarHeights bars) ≃ Fin 100.
Proof.
  intros Hpos HT. unfold shownTotal, verticalBarHeights.
  set (T := fold_left (fun acc bar => acc + value bar) bars 0) in *.
  assert (Hgen : forall l a, (forall b, In b l -> 0 <= value b) ->
    fold_left (fun a o => match o with Some x => nadd a x | None => a end)
      (map (fun bar => if Qle_bool (value bar) 0 || Qle_bool T 0 then None
                       else Some (nmul (ndiv (Fin (Qmax 0 (value bar))) (Fin T)) (Fin 100))) l)
      (Fin a)
    ≃ Fin (a + fold_left (fun acc bar => acc + value bar) l 0 / T * 100)).
  { induction l as [|b l IH]; intros a Hl; cbn [map fold_left].
    - simpl. field. lra.
    - assert (0 <= value b) as Hb by (apply Hl; now left).
      rewrite (fold_sum_shift l (0 + value b)).
      qcase (Qle_bool T 0); [lra|]. rewrite orb_false_r.
      qcase (Qle_bool (value b) 0).
      + rewrite IH by (intros; apply Hl; now right). simpl.
        assert (value b == 0) as -> by lra. field. lra.
      + cbn [nadd]. rewrite ndiv_fin by lra. cbn [nmul nadd].
        rewrite IH by (intros; apply Hl; now right). simpl.
        rewrite Q.max_r by lra. field. lra. }
  rewrite Hgen by exact Hpos. fold T. simpl. field. lra.
Qed.

End Geometry.

(** ** Tests and witnesses (barChart.spec.tsx, lines 286-350) *)

Module GeometryTests.
Import Geometry.

Definition range04 : ChartRange := toChartRange (mkRange 0 4).

Definition chunkCount (bars : list BarProps) (i : nat) : option nat :=
  option_map (@List.length BarChunk) (getBarChunks 0 bars i range04).

(** Ascending bars [1, 2, 3]: one, two and three chunks. *)
Example chunks_test_ascending :
  map (chunkCount [bar 1; bar 2; bar 3]) [0; 1; 2]%nat = [Some 1; Some 2; Some 3]%nat.
Proof. vm_compute. reflexivity. Qed.

(** [1, 3, 2]: the last bar breaks the run and has one chunk. *)
Example chunks_test_break :
  map (chunkCount [bar 1; bar 3; bar 2]) [0; 1; 2]%nat = [Some 1; Some 2; Some 1]%nat.
Proof. vm_compute. reflexivity. Qed.

(** Padding [{value: 1}] to two bars on the left. *)
Example getBars_test_left :
  getBars [bar 1] 2 (Some Left) = [emptyBar; bar 1].
Proof. reflexivity. Qed.

(** The negative run [-3, -1] on [-4, 1]: heights -40% and 60%. *)
Example chunks_test_negative :
  option_map (map percentHeight)
    (getBarChunks 0 [bar (-3); bar (-1)] 1 (toChartRange (mkRange (-4) 1)))
  = Some [Fin (-1000 # 25); Fin (300 # 5)].
Proof. vm_compute. reflexivity. Qed.

(** A vertical chart with a negative value overflows: a column of 150%. *)
Example vertical_test_negative :
  verticalBarHeights [bar 3; bar (-1)] = [Some (Fin (300 # 2)); None].
Proof. vm_compute. reflexivity. Qed.

Lemma getBarChunks_height_witness :
  nth_error [bar 1; bar 2; bar 3] 2 = Some (bar 3) /\ empty (bar 3) = false /\
  ~ max (mkRange 0 4) - min (mkRange 0 4) == 0 /\
  exists chunks, getBarChunks 0 [bar 1; bar 2; bar 3] 2 (toChartRange (mkRange 0 4)) = Some chunks /\
    ((~ 0 == 0 /\ heightQ (max (mkRange 0 4) - min (mkRange 0 4)) (bar 3) < 0 /\
      chunks = [mkChunk (Fin 0) (Fin (95 - 0))]) \/
     ((0 == 0 \/ 0 <= heightQ (max (mkRange 0 4) - min (mkRange 0 4)) (bar 3)) /\
      totalBarHeight chunks ≃ Fin (heightQ (max (mkRange 0 4) - min (mkRange 0 4)) (bar 3)))).
Proof.
  split; [reflexivity|]. split; [reflexivity|]. split; [qdecide|].
  apply getBarChunks_height; [reflexivity | reflexivity | qdecide].
Defined.

Lemma chunkWalk_ascending_witness :
  0 < 4 /\
  (forall j, (j < 2)%nat -> empty (nth j [bar 1; bar 2; bar 3] emptyBar) = false /\
     value (nth j [bar 1; bar 2; bar 3] emptyBar) <= value (nth (S j) [bar 1; bar 2; bar 3] emptyBar)) /\
  List.length (chunkWalk [bar 1; bar 2; bar 3] (Fin 4) (Fin 0) 2) = 3%nat /\
  (forall c, In c (chunkWalk [bar 1; bar 2; bar 3] (Fin 4) (Fin 0) 2) -> percentTop c = Fin 0) /\
  ((forall j, (j <= 2)%nat -> 0 <= value (nth j [bar 1; bar 2; bar 3] emptyBar)) ->
   forall c, In c (chunkWalk [bar 1; bar 2; bar 3] (Fin 4) (Fin 0) 2) ->
     exists q, percentHeight c = Fin q /\ 0 <= q).
Proof.
  assert (Hrun : forall j, (j < 2)%nat -> empty (nth j [bar 1; bar 2; bar 3] emptyBar) = false /\
     value (nth j [bar 1; bar 2; bar 3] emptyBar) <= value (nth (S j) [bar 1; bar 2; bar 3] emptyBar)).
  { intros [|[|j]] Hj; [qdecide | qdecide | lia]. }
  split; [qdecide|]. split; [exact Hrun|].
  apply chunkWalk_ascending; [qdecide | exact Hrun].
Defined.

Lemma chunkWalk_negative_run_witness :
  0 < 5 /\ empty (nth 0 [bar (-3); bar (-1)] emptyBar) = false /\
  value (nth 0 [bar (-3); bar (-1)] emptyBar) < value (nth 1 [bar (-3); bar (-1)] emptyBar) <= 0 /\
  exists q rest, chunkWalk [bar (-3); bar (-1)] (Fin 5) (Fin 20) 1 = mkChunk (Fin q) (Fin 20) :: rest /\ q < 0.
Proof.
  split; [qdecide|]. split; [reflexivity|]. split; [qdecide|].
  apply chunkWalk_negative_run; [qdecide | reflexivity | qdecide].
Defined.

Lemma label_top_alignment_witness :
  nth_error [bar (-1)] 0 = Some (bar (-1)) /\ empty (bar (-1)) = false /\ value (bar (-1)) < 0 /\
  0 < max (mkRange (-2) (1 # 2)) /\ min (mkRange (-2) (1 # 2)) < max (mkRange (-2) (1 # 2)) /\
  exists chunks, getBarChunks 0 [bar (-1)] 0 (toChartRange (mkRange (-2) (1 # 2))) = Some chunks /\
    chunks <> [] /\
    forall c, In c chunks ->
      (colLabelTop (barColumnGeometry (bar (-1)) (toChartRange (mkRange (-2) (1 # 2)))) ≃ percentTop c <->
       1 <= max (mkRange (-2) (1 # 2)) - min (mkRange (-2) (1 # 2))).
Proof.
  split; [reflexivity|]. split; [reflexivity|]. split; [qdecide|]. split; [qdecide|]. split; [qdecide|].
  apply label_top_alignment; [reflexivity | reflexivity | qdecide | qdecide | qdecide].
Defined.

Lemma getBarChunks_zero_range_witness :
  min (mkRange 0 0) == 0 /\ max (mkRange 0 0) == 0 /\
  (forall b, In b [bar 0; bar 0] -> value b == 0 /\ empty b = false) /\
  (1 < List.length [bar 0; bar 0])%nat /\
  exists chunks, getBarChunks 0 [bar 0; bar 0] 1 (toChartRange (mkRange 0 0)) = Some chunks /\
    (0 < 0 -> chunks = [mkChunk (Fin 0) (Fin (95 - 0))]) /\
    (0 <= 0 -> chunks <> [] /\ forall c, In c chunks -> percentHeight c = NaN /\ percentTop c = NaN).
Proof.
  assert (Hall : forall b, In b [bar 0; bar 0] -> value b == 0 /\ empty b = false).
  { intros b [<-|[<-|[]]]; split; reflexivity. }
  split; [reflexivity|]. split; [reflexivity|]. split; [exact Hall|]. split; [cbn; lia|].
  apply getBarChunks_zero_range; [reflexivity | reflexivity | exact Hall | cbn; lia].
Defined.

Lemma deltaTooltip_zero_base_witness :
  empty (nth 1 [bar 0; bar 5] emptyBar) = false /\ empty (nth 0 [bar 0; bar 5] emptyBar) = false /\
  value (nth 0 [bar 0; bar 5] emptyBar) == 0 /\
  exists x, deltaTooltip true [bar 0; bar 5] 1 = Some x /\ finite x = false.
Proof.
  split; [reflexivity|]. split; [reflexivity|]. split; [reflexivity|].
  apply deltaTooltip_zero_base; reflexivity.
Defined.

Lemma verticalBarHeights_total_witness :
  (forall b, In b [bar 1; bar 3] -> 0 <= value b) /\
  0 < fold_left (fun acc bar => acc + value bar) [bar 1; bar 3] 0 /\
  shownTotal (verticalBarHeights [bar 1; bar 3]) ≃ Fin 100.
Proof.
  assert (Hpos : forall b, In b [bar 1; bar 3] -> 0 <= value b).
  { intros b [<-|[<-|[]]]; qdecide. }
  split; [exact Hpos|]. split; [qdecide|].
  apply verticalBarHeights_total; [exact Hpos | qdecide].
Defined.
End GeometryTests.
