(* ===== verification/BarChartLayout.v ===== *)
(** * The chart facade: [BarChart.render] and the state it reads

    [Layout] models the React component [BarChart] of
    [src/src/BarChart/index.tsx] as a function from its props and state to
    the geometry it renders: the constructor and [componentWillReceiveProps]
    (lines 45-50, 181-183) build the state, [render] (lines 185-218) composes
    [computeDataRange], the tick generator, the chart range, and the
    renderers [_renderQuantAxis], [_renderQuantAxisPlaceholder],
    [_renderGridLines], [_renderBars], [_renderBarColumn],
    [_renderVerticalBar] and [_renderCatAxis].  A [ChartLayout] holds what
    those methods compute (percent positions, label strings, classes that
    depend on data); the JSX structure itself is not modelled.

    [render] is written against the [TickSource] interface of [AxisTicks]
    and the [NumberLocale] interface of [DecimalPlaces]; its theorems hold
    for every tick source that keeps the [NiceTicks] contract, and the
    witnesses run it with the tick generator of the code. *)

From Stdlib Require Import QArith Qminmax Qabs Lqa Lia ZArith List Bool String.
From S2P Require Import Prelude DataRange AxisTicks DecimalPlaces BarGeometry.
Import ListNotations.
Open Scope Q_scope.

Module Layout.
Import RangeCalculator TickGenerator LabelFormatter Geometry.

(** ** Props, state and output *)

(** [interface BarChartProps] (lines 14-27).  Optional booleans are
    [false] when undefined, [minBarHeight] and [minBars] are [0] (all are
    only tested for truthiness or used with [|| 1]). *)
Record BarChartProps : Type := mkProps {
  bars : list BarProps;
  showGridLines : bool;
  showQuantAxis : bool;
  verticalBarChart : bool;
  minBarHeight : Q;
  minBars : nat;
  minBarLoc : option MinBarLoc;
  showDeltaTooltip : bool;
  quantAxisFormatFunc : option QuantAxisFormatFunc
}.

(** [interface BarChartState] (lines 39-41). *)
Record BarChartState : Type := mkState { stateBars : list BarProps }.

(** [this._getBars(props)]. *)
Definition getBarsOf (props : BarChartProps) : list BarProps :=
  getBars (bars props) (minBars props) (minBarLoc props).

(** The constructor (lines 45-50). *)
Definition initialState (props : BarChartProps) : BarChartState := mkState (getBarsOf props).

(** [componentWillReceiveProps] (lines 181-183): the state is rebuilt from
    the next props alone. *)
Definition componentWillReceiveProps (nextProps : BarChartProps) (st : BarChartState)
    : BarChartState :=
  mkState (getBarsOf nextProps).

(** A quant axis label or a grid line: its value, its [top] percentage
    and its [zero] class ([val === 0]). *)
Record AxisMark : Type := mkMark { markValue : Q; markTop : num; markZero : bool }.

(** The rendered quant axis: the hidden placeholder label and the labels. *)
Record QuantAxis : Type := mkQuantAxis {
  qaPlaceholder : string;
  qaLabels : list (AxisMark * string)
}.

(** One bar column of [_renderBarColumn]: the bar, its column geometry,
    its chunks, its label (rendered when truthy) and its tooltip. *)
Record BarColumn : Type := mkBarColumn {
  colBar : BarProps;
  colGeometry : ColumnGeometry;
  colChunks : option (list BarChunk);
  colLabel : option string;
  colTooltip : option num
}.

(** The chart body: vertical columns or horizontal bars. *)
Inductive ChartBody : Type :=
| VerticalBars (heights : list (option num))
| HorizontalBars (columns : list BarColumn).

(** The categorical axis: the quant axis placeholder when the quant axis
    is shown, and one label per bar. *)
Record CatAxis : Type := mkCatAxis {
  catPlaceholder : option string;
  catLabels : list string
}.

Record ChartLayout : Type := mkLayout {
  layoutRange : ChartRange;
  layoutQuantAxis : option QuantAxis;
  layoutGridLines : option (list AxisMark);
  layoutBody : ChartBody;
  layoutCatAxis : option CatAxis
}.

(** ** The renderers *)

(** [list[i]] of an array of numbers: [NaN] (through [undefined]) out of
    range. *)
Definition jsAt (l : list Q) (i : nat) : num :=
  match nth_error l i with Some q => Fin q | None => NaN end.

(** Lines 194-204.  An empty tick list is truthy: both bounds are then
    [Math.min(x, undefined)] and [Math.max(x, undefined)], i.e. [NaN]. *)
Definition chartRangeOf (dataRange : Range) (quantAxisMarkers : option (list Q)) : ChartRange :=
  match quantAxisMarkers with
  | Some ms =>
      mkChartRange (nmin (Fin (min dataRange)) (jsAt ms (List.length ms - 1)))
                   (nmax (Fin (max dataRange)) (jsAt ms 0))
  | None => toChartRange dataRange
  end.

(** [const top = (chartRange.max - val) / rangeSpan * 100] (lines 278 and
    320). *)
Definition markTopOf (chartRange : ChartRange) (val : Q) : num :=
  let rangeSpan := nsub (cmax chartRange) (cmin chartRange) in
  nmul (ndiv (nsub (cmax chartRange) (Fin val)) rangeSpan) (Fin 100).

Definition axisMark (chartRange : ChartRange) (val : Q) : AxisMark :=
  mkMark val (markTopOf chartRange val) (Qeq_bool val 0).

(** The [reduce] of line 302: [(label, acc) => label.length > acc.length
    ? label : acc] from [''], the first parameter being the accumulator:
    the longest label, the last one among equals. *)
Definition longestLabel (axisLabels : list string) : string :=
  fold_left (fun label acc => if Nat.ltb (String.length acc) (String.length label)
                              then label else acc) axisLabels ""%string.

Section Renderers.
Context `{NumberLocale}.
Variable props : BarChartProps.

(** The labels of lines 268 and 301. *)
Definition axisLabelsOf (quantAxisMarkers : list Q) (fractionalDigits : nat) : list string :=
  map (fun val => formatQuantAxisValue (quantAxisFormatFunc props) val fractionalDigits)
      quantAxisMarkers.

(** [_renderQuantAxisPlaceholder] (lines 299-307); [None] when
    [countDecimalPlaces] runs out of fuel. *)
Definition renderQuantAxisPlaceholder (quantAxisMarkers : list Q) : option string :=
  match getAxisIncrementDigits quantAxisMarkers with
  | Some d => Some (longestLabel (axisLabelsOf quantAxisMarkers d))
  | None => None
  end.

(** [_renderQuantAxis] (lines 260-295): [Some None] when the axis is not
    shown, [None] when [countDecimalPlaces] runs out of fuel. *)
Definition renderQuantAxis (chartRange : ChartRange) (quantAxisMarkers : list Q)
    : option (option QuantAxis) :=
  if negb (showQuantAxis props) then Some None else
  match getAxisIncrementDigits quantAxisMarkers, renderQuantAxisPlaceholder quantAxisMarkers with
  | Some d, Some placeholder =>
      Some (Some (mkQuantAxis placeholder
                    (combine (map (axisMark chartRange) quantAxisMarkers)
                             (axisLabelsOf quantAxisMarkers d))))
  | _, _ => None
  end.

(** [_renderGridLines] (lines 310-335). *)
Definition renderGridLines (chartRange : ChartRange) (quantAxisMarkers : list Q)
    : option (list AxisMark) :=
  if showGridLines props then Some (map (axisMark chartRange) quantAxisMarkers) else None.

(** [_renderBarColumn] (lines 397-475) for the bar at [index]. *)
Definition renderBarColumn (bars : list BarProps) (chartRange : ChartRange)
    (index : nat) (bar : BarProps) : BarColumn :=
  mkBarColumn bar (barColumnGeometry bar chartRange)
    (getBarChunks (minBarHeight props) bars index chartRange)
    (if truthy_str (label bar) then label bar else None)
    (deltaTooltip (showDeltaTooltip props) bars index).

(** [bars.forEach((bar, index) => ...)] of [_renderBars] (lines
    376-393), from index [i]. *)
Fixpoint renderBarsFrom (bars : list BarProps) (chartRange : ChartRange) (i : nat)
    (rest : list BarProps) : list BarColumn :=
  match rest with
  | [] => []
  | bar :: rest' => renderBarColumn bars chartRange i bar :: renderBarsFrom bars chartRange (S i) rest'
  end.

Definition renderBars (bars : list BarProps) (chartRange : ChartRange) : list BarColumn :=
  renderBarsFrom bars chartRange 0 bars.

(** [_renderCatAxis] (lines 524-558). *)
Definition renderCatAxis (bars : list BarProps) (quantAxisMarkers : list Q)
    : option (option CatAxis) :=
  if negb (existsb (fun b => truthy_str (axisLabel b)) bars) then Some None else
  let axisLabels :=
    map (fun b => match axisLabel b with Some s => s | None => ""%string end) bars in
  if showQuantAxis props then
    match renderQuantAxisPlaceholder quantAxisMarkers with
    | Some p => Some (Some (mkCatAxis (Some p) axisLabels))
    | None => None
    end
  else Some (Some (mkCatAxis None axisLabels)).

Context `{TickSource}.

(** [render] (lines 185-218).  The outer option is [None] when the
    digit count runs out of fuel, the inner one is [null] for a chart
    without bars.  The renderers that read [quantAxisMarkers] run only
    when it is an array ([showQuantAxis] or [showGridLines] set). *)
Definition render (st : BarChartState) : option (option ChartLayout) :=
  let bars := stateBars st in
  match bars with
  | [] => Some None
  | _ =>
      let dataRange := computeDataRange bars in
      let quantAxisMarkers :=
        if showGridLines props || showQuantAxis props then Some (ticksFor dataRange) else None in
      let chartRange := chartRangeOf dataRange quantAxisMarkers in
      let ms := match quantAxisMarkers with Some ms => ms | None => [] end in
      let body :=
        if verticalBarChart props then VerticalBars (verticalBarHeights bars)
        else HorizontalBars (renderBars bars chartRange) in
      match renderQuantAxis chartRange ms, renderCatAxis bars ms with
      | Some qa, Some ca =>
          Some (Some (mkLayout chartRange qa (renderGridLines chartRange ms) body ca))
      | _, _ => None
      end
  end.
End Renderers.

(** ** Lemmas *)

(** The marks the layout draws: the quant axis labels and the grid lines. *)
Definition axisMarks (l : ChartLayout) : list AxisMark :=
  match layoutQuantAxis l with Some qa => map fst (qaLabels qa) | None => [] end ++
  match layoutGridLines l with Some g => g | None => [] end.

Lemma in_combine_map {A B C} (f : A -> B) (g : A -> C) (l : list A) b c :
  In (b, c) (combine (map f l) (map g l)) -> exists x, In x l /\ b = f x /\ c = g x.
Proof.
  induction l as [|x l IH]; cbn; [tauto|].
  intros [E|H]; [injection E as <- <-; eauto | destruct (IH H) as [y [? ?]]; eauto].
Qed.

(** What [render] builds, field by field. *)
Lemma render_layout `{NumberLocale} `{TickSource} props st l :
  render props st = Some (Some l) ->
  let dataRange := computeDataRange (stateBars st) in
  let markers :=
    if showGridLines props || showQuantAxis props then Some (ticksFor dataRange) else None in
  let ms := match markers with Some ms => ms | None => [] end in
  stateBars st <> [] /\
  layoutRange l = chartRangeOf dataRange markers /\
  renderQuantAxis props (layoutRange l) ms = Some (layoutQuantAxis l) /\
  layoutGridLines l = renderGridLines props (layoutRange l) ms /\
  layoutBody l = (if verticalBarChart props then VerticalBars (verticalBarHeights (stateBars st))
                  else HorizontalBars (renderBars props (stateBars st) (layoutRange l))) /\
  renderCatAxis props (stateBars st) ms = Some (layoutCatAxis l).
Proof.
  unfold render. destruct (stateBars st) as [|b bs]; [discriminate|]. cbv zeta.
  destruct (renderQuantAxis _ _ _) eqn:Eq; [|discriminate].
  destruct (renderCatAxis _ _ _) eqn:Ec; [|discriminate].
  intros E. injection E as <-. cbn. repeat split; auto. discriminate.
Qed.

(** The ticks widen the data range to a finite chart range that holds
    them all. *)
Lemma chartRange_nice r ms :
  NiceTicks r ms ->
  exists lo hi, chartRangeOf r (Some ms) = mkChartRange (Fin lo) (Fin hi) /\
    lo <= min r /\ max r <= hi /\ (forall x, In x ms -> lo <= x <= hi).
Proof.
  intros [inc [c [k [top [Hinc [_ [_ [_ [Hlen Hnth]]]]]]]]].
  destruct (nth_error ms 0) as [first|] eqn:E0; [|apply nth_error_None in E0; lia].
  destruct (nth_error ms (List.length ms - 1)) as [last|] eqn:E1;
    [|apply nth_error_None in E1; lia].
  assert (Hx : forall x, In x ms -> last <= x <= first).
  { intros x Hx. apply In_nth_error in Hx as [i Hi].
    assert (i < List.length ms)%nat by (apply nth_error_Some; congruence).
    rewrite (Hnth _ _ Hi), (Hnth _ _ E0), (Hnth _ _ E1).
    split; apply Qmult_le_compat_r; try lra; rewrite <- inject_Z_le; lia. }
  exists (if Qltb last (min r) then last else min r), (if Qltb (max r) first then first else max r).
  unfold chartRangeOf, jsAt. rewrite E0, E1, nmin_fin_eq, nmax_fin_eq. split; [reflexivity|].
  qcase (Qltb last (min r)); qcase (Qltb (max r) first);
    (split; [lra | split; [lra | intros x Hin; specialize (Hx x Hin); lra]]).
Qed.

(** With a non-zero bar the chart range is finite and holds the data
    range. *)
Lemma layoutRange_bounds `{NumberLocale} `{TickSource} props st l :
  render props st = Some (Some l) ->
  (exists b, In b (stateBars st) /\ ~ value b == 0) ->
  let dataRange := computeDataRange (stateBars st) in
  exists lo hi, layoutRange l = mkChartRange (Fin lo) (Fin hi) /\
    lo <= min dataRange /\ max dataRange <= hi /\ min dataRange < max dataRange /\
    (showGridLines props || showQuantAxis props = true ->
     forall x, In x (ticksFor dataRange) -> lo <= x <= hi).
Proof.
  intros Hr [b [Hb Hv]]. cbv zeta.
  destruct (render_layout props st l Hr) as [_ [Hl _]].
  destruct (computeDataRange_bounds (stateBars st)) as [_ [_ Hs]].
  specialize (Hs (ex_intro _ b (conj Hb Hv)) b Hb).
  set (dataRange := computeDataRange (stateBars st)) in *.
  rewrite Hl. destruct (showGridLines props || showQuantAxis props).
  - destruct (chartRange_nice dataRange (ticksFor dataRange) (ticksFor_nice dataRange ltac:(lra)))
      as [lo [hi [E [H1 [H2 H3]]]]].
    exists lo, hi. split; [exact E|]. split; [lra|]. split; [lra|]. split; [lra|].
    intros _. exact H3.
  - exists (min dataRange), (max dataRange). repeat split; try lra; discriminate.
Qed.

(** The top of a value inside a finite chart range is a percentage. *)
Lemma markTop_inside lo hi x :
  lo < hi -> lo <= x <= hi ->
  exists t, markTopOf (mkChartRange (Fin lo) (Fin hi)) x = Fin t /\ 0 <= t <= 100.
Proof.
  intros H [H1 H2]. unfold markTopOf. cbn [cmin cmax].
  rewrite !nsub_fin, ndiv_fin, nmul_fin by (intro; lra). eexists. split; [reflexivity|].
  assert (0 <= (hi - x) / (hi - lo)) by (apply Qle_shift_div_l; lra).
  assert ((hi - x) / (hi - lo) <= 1) by (apply Qle_shift_div_r; lra).
  lra.
Qed.

(** A bar of value [v] inside a chart range [[lo, hi]] that holds zero:
    its top and its bottom are percentages. *)
Lemma bar_box lo hi v :
  lo < hi -> lo <= 0 <= hi -> lo <= v <= hi ->
  let t := (hi - (if Qltb 0 v then v else 0)) / (hi - lo) * 100 in
  0 <= t /\ t + Qabs v / (hi - lo) * 100 <= 100.
Proof.
  intros H H0 Hv t. unfold t.
  assert (E : forall a, (hi - a) / (hi - lo) * 100 + Qabs v / (hi - lo) * 100
                        == (hi - a + Qabs v) / (hi - lo) * 100) by (intros; field; intro; lra).
  assert (Hb : forall a, 0 <= a <= hi - lo -> 0 <= a / (hi - lo) * 100 <= 100).
  { intros a Ha. assert (0 <= a / (hi - lo)) by (apply Qle_shift_div_l; lra).
    assert (a / (hi - lo) <= 1) by (apply Qle_shift_div_r; lra). lra. }
  rewrite E. qcase (Qltb 0 v); rewrite ?Qabs_pos, ?Qabs_neg by lra.
  - split; [apply Hb; lra|]. apply Hb; lra.
  - split; [apply Hb; lra|]. apply Hb; lra.
Qed.

(** Every column of [_renderBars] is the column of the bar at its index. *)
Lemma renderBarsFrom_in props bars cr i rest c :
  In c (renderBarsFrom props bars cr i rest) ->
  exists j b, nth_error rest j = Some b /\ c = renderBarColumn props bars cr (i + j) b.
Proof.
  revert i. induction rest as [|b rest IH]; intros i; cbn [renderBarsFrom In]; [tauto|].
  intros [<-|Hc].
  - exists 0%nat, b. rewrite Nat.add_0_r. auto.
  - destruct (IH _ Hc) as [j [b' [Hj ->]]]. exists (S j), b'. rewrite Nat.add_succ_r. auto.
Qed.

Lemma chunkWalk_nonempty bars range top i : chunkWalk bars range top i <> [].
Proof. destruct i; cbn [chunkWalk]; [|destruct (_ || _)]; discriminate. Qed.

(** The chunks of a real bar, without a minimum height: the walk, all at
    the bar's top. *)
Lemma getBarChunks_walk mbh bars i b lo hi :
  mbh == 0 -> nth_error bars i = Some b -> empty b = false -> lo < hi ->
  let t := (hi - (if Qltb 0 (value b) then value b else 0)) / (hi - lo) * 100 in
  exists cs, getBarChunks mbh bars i (mkChartRange (Fin lo) (Fin hi)) = Some cs /\ cs <> [] /\
    forall ch, In ch cs -> percentTop ch = Fin t.
Proof.
  intros Hm Hb He Hlh t. unfold getBarChunks. rewrite Hb, He. cbn [cmin cmax].
  rewrite (proj2 (Qeq_bool_iff mbh 0) Hm). cbn [negb andb].
  eexists. split; [reflexivity|]. split; [apply chunkWalk_nonempty|].
  intros ch Hch. rewrite (chunkWalk_top _ _ _ _ _ Hch).
  rewrite nmax_fin_eq, !nsub_fin, ndiv_fin, nmul_fin by (intro; lra). reflexivity.
Qed.

(** The fold of [_renderQuantAxisPlaceholder], from any accumulator. *)
Lemma longest_fold labels acc :
  let r := fold_left (fun label acc => if Nat.ltb (String.length acc) (String.length label)
                                       then label else acc) labels acc in
  (String.length acc <= String.length r)%nat /\
  (forall s, In s labels -> (String.length s <= String.length r)%nat) /\
  (r = acc \/ In r labels).
Proof.
  revert acc. induction labels as [|x labels IH]; intros acc; cbn [fold_left In].
  - split; [lia|]. split; [tauto | now left].
  - destruct (IH (if Nat.ltb (String.length x) (String.length acc) then acc else x))
      as [H1 [H2 H3]].
    destruct (Nat.ltb_spec (String.length x) (String.length acc)).
    + split; [lia|]. split; [intros s [<-|Hs]; [lia | auto]|]. tauto.
    + split; [lia|]. split; [intros s [<-|Hs]; [lia | auto]|].
      destruct H3 as [->|H3]; right; auto.
Qed.

(** ** Properties *)

(** C2: whenever the chart has a bar with a non-zero value, every quant
    axis label and every grid line lies within the chart body: its [top]
    is a finite percentage between 0 and 100.  This holds for every tick
    source that keeps the [NiceTicks] contract. *)
Theorem render_marks_inside `{NumberLocale} `{TickSource} props st l :
  render props st = Some (Some l) ->
  (exists b, In b (stateBars st) /\ ~ value b == 0) ->
  forall m, In m (axisMarks l) -> exists t, markTop m = Fin t /\ 0 <= t <= 100.
Proof.
  intros Hr Hb m Hm.
  destruct (layoutRange_bounds props st l Hr Hb) as [lo [hi [Elh [H1 [H2 [H3 Hx]]]]]].
  destruct (render_layout props st l Hr) as [_ [_ [Hq [Hg _]]]].
  assert (Hmark : forall x, In x (ticksFor (computeDataRange (stateBars st))) ->
                  m = axisMark (layoutRange l) x -> exists t, markTop m = Fin t /\ 0 <= t <= 100).
  { intros x Hin ->. rewrite Elh. apply markTop_inside; [lra|].
    apply Hx; [|exact Hin].
    unfold axisMarks in Hm. rewrite Hg in Hm. unfold renderQuantAxis, renderGridLines in *.
    destruct (showGridLines props), (showQuantAxis props); auto.
    cbn in Hq. injection Hq as Hq. rewrite <- Hq in Hm. cbn in Hm. destruct Hm. }
  unfold axisMarks in Hm. apply in_app_or in Hm as [Hm|Hm].
  - destruct (layoutQuantAxis l) as [qa|]; [|destruct Hm].
    unfold renderQuantAxis in Hq. destruct (showQuantAxis props); cbn [negb] in Hq; [|discriminate].
    destruct (getAxisIncrementDigits _); cbv iota in Hq; [|discriminate].
    destruct (renderQuantAxisPlaceholder props _); [|discriminate].
    injection Hq as <-. apply in_map_iff in Hm as [[m' s'] [<- Hm]].
    destruct (in_combine_map _ _ _ _ _ Hm) as [x [Hin [-> _]]].
    rewrite orb_true_r in Hin. exact (Hmark x Hin eq_refl).
  - rewrite Hg in Hm. unfold renderGridLines in Hm.
    destruct (showGridLines props) eqn:Eg; [|destruct Hm].
    apply in_map_iff in Hm as [x [<- Hin]]. exact (Hmark x Hin eq_refl).
Qed.

(** C3: whenever the chart has a bar with a non-zero value and no
    minimum bar height is set, the chart range is finite and every real
    bar of the horizontal chart lies within the chart body: all its
    chunks start at one top [t >= 0], and [t] plus the bar's own height
    [|value| / (max - min) * 100] is at most 100. *)
Theorem render_bars_inside `{NumberLocale} `{TickSource} props st l :
  render props st = Some (Some l) -> minBarHeight props == 0 ->
  (exists b, In b (stateBars st) /\ ~ value b == 0) ->
  exists lo hi, layoutRange l = mkChartRange (Fin lo) (Fin hi) /\ lo < hi /\
    forall cols c, layoutBody l = HorizontalBars cols -> In c cols -> empty (colBar c) = false ->
    exists cs, colChunks c = Some cs /\ cs <> [] /\
      forall ch, In ch cs ->
        exists t, percentTop ch = Fin t /\ 0 <= t /\ t + heightQ (hi - lo) (colBar c) <= 100.
Proof.
  intros Hr Hm Hb.
  destruct (layoutRange_bounds props st l Hr Hb) as [lo [hi [Elh [H1 [H2 [H3 _]]]]]].
  destruct (render_layout props st l Hr) as [_ [_ [_ [_ [Hbody _]]]]].
  destruct (computeDataRange_bounds (stateBars st)) as [Hz [Hall _]].
  exists lo, hi. split; [exact Elh|]. split; [lra|].
  intros cols c Hcols Hc He. rewrite Hbody in Hcols.
  destruct (verticalBarChart props); [discriminate|]. injection Hcols as <-.
  unfold renderBars in Hc. apply renderBarsFrom_in in Hc as [j [b [Hj ->]]].
  cbn [colBar colChunks renderBarColumn] in *. rewrite Elh.
  specialize (Hall b (nth_error_In _ _ Hj)).
  destruct (getBarChunks_walk _ _ _ _ lo hi Hm Hj He ltac:(lra)) as [cs [E [Hne Htop]]].
  exists cs. split; [exact E|]. split; [exact Hne|].
  intros ch Hch. eexists. split; [exact (Htop ch Hch)|].
  apply bar_box; lra.
Qed.

(** every quant axis label is the tick's value formatted with one
    fractional digit count [d], the one [_getAxisIncrementDigits]
    computes, and [d] digits write every tick exactly: no label is
    rounded.  This holds as soon as one bar value is at least [10^-324]
    in magnitude (every non-zero double is). *)
Theorem render_axis_labels_exact `{NumberLocale} `{TickSource} props st l qa :
  render props st = Some (Some l) -> layoutQuantAxis l = Some qa ->
  (exists b, In b (stateBars st) /\ pow10 (-324) <= Qabs (value b)) ->
  exists d, forall m s, In (m, s) (qaLabels qa) ->
    s = formatQuantAxisValue (quantAxisFormatFunc props) (markValue m) d /\
    isIntegral (markValue m * pow10 (Z.of_nat d)) = true.
Proof.
  intros Hr Hqa [b [Hb Hv]].
  destruct (render_layout props st l Hr) as [_ [_ [Hq _]]]. rewrite Hqa in Hq.
  pose proof (computeDataRange_span _ _ Hb) as Hs.
  set (r := computeDataRange (stateBars st)) in *.
  unfold renderQuantAxis in Hq. destruct (showQuantAxis props); [|discriminate].
  rewrite orb_true_r in Hq.
  assert (Hlt : min r < max r) by (pose proof (pow10_pos (-324)); lra).
  destruct (nice_ticks_digits r _ (ticksFor_nice r Hlt) ltac:(lra)) as [c [k [_ [Hd Hint]]]].
  rewrite Hd in Hq. destruct (renderQuantAxisPlaceholder props _) as [p|]; [|discriminate].
  injection Hq as <-. exists (incrementDigits c k). intros m s Hms.
  destruct (in_combine_map _ _ _ _ _ Hms) as [x [Hx [-> ->]]].
  split; [reflexivity|]. apply In_nth_error in Hx as [i Hi]. exact (Hint i x Hi).
Qed.

(** [render] returns: the digit count of the quant axis never runs
    out of fuel when a bar value is at least [10^-324] in magnitude, and
    a chart without bars renders nothing. *)
Theorem render_terminates `{NumberLocale} `{TickSource} props st :
  stateBars st = [] \/ (exists b, In b (stateBars st) /\ pow10 (-324) <= Qabs (value b)) ->
  exists out, render props st = Some out /\ (out = None <-> stateBars st = []).
Proof.
  intros Hcase. unfold render.
  destruct (stateBars st) as [|b0 bs] eqn:Est; [eexists; split; [reflexivity | tauto]|].
  destruct Hcase as [|[b [Hb Hv]]]; [discriminate|]. rewrite <- Est in *. cbv zeta.
  pose proof (computeDataRange_span _ _ Hb) as Hs.
  set (r := computeDataRange (stateBars st)) in *.
  assert (Hlt : min r < max r) by (pose proof (pow10_pos (-324)); lra).
  destruct (nice_ticks_digits r _ (ticksFor_nice r Hlt) ltac:(lra)) as [c [k [_ [Hd _]]]].
  assert (Hp : showQuantAxis props = true ->
               renderQuantAxisPlaceholder props (ticksFor r) <> None)
    by (intros _; unfold renderQuantAxisPlaceholder; rewrite Hd; discriminate).
  unfold renderQuantAxis, renderCatAxis.
  destruct (showQuantAxis props) eqn:Eq; cbn [negb]; rewrite ?orb_true_r in *.
  - rewrite Hd. destruct (renderQuantAxisPlaceholder _ _); [|now destruct (Hp eq_refl)].
    destruct (negb _); (eexists; split; [reflexivity|]); rewrite Est; split; discriminate.
  - destruct (negb _); (eexists; split; [reflexivity|]); rewrite Est; split; discriminate.
Qed.

(** The padding bars of [_getBars] carry the value 1 and take part in
    [computeDataRange]: whenever padding happens, the chart's data range
    reaches above 1, whatever the values of the real bars, although the
    padding bars stand for no data. *)
Theorem padding_stretches_range props :
  (List.length (bars props) < minBars props)%nat ->
  1 < max (computeDataRange (stateBars (initialState props))).
Proof.
  intros Hlt. cbn [stateBars initialState]. unfold getBarsOf, getBars.
  assert (Hin : In emptyBar (repeat emptyBar (minBars props - List.length (bars props))))
    by (destruct (minBars props - List.length (bars props))%nat eqn:E; [lia | now left]).
  rewrite (proj2 (Nat.ltb_lt _ _) Hlt), (proj2 (Nat.eqb_neq _ 0)) by lia. cbn [negb andb].
  set (padded := match minBarLoc props with
                 | Some Right => bars props ++ _
                 | _ => _ ++ bars props end).
  assert (Hp : In emptyBar padded)
    by (unfold padded; destruct (minBarLoc props) as [[]|]; apply in_or_app; auto).
  destruct (computeDataRange_bounds padded) as [_ [_ Hs]].
  assert (Hv : ~ value emptyBar == 0) by discriminate.
  destruct (Hs (ex_intro _ _ (conj Hp Hv)) emptyBar Hp) as [_ H1]. exact H1.
Qed.

(** The hidden placeholder of [_renderQuantAxisPlaceholder] is one of
    the axis labels (or empty when there is none) and is at least as long
    as every one of them, so it reserves the width of the widest label. *)
Theorem longestLabel_spec labels :
  (forall s, In s labels -> (String.length s <= String.length (longestLabel labels))%nat) /\
  (longestLabel labels = ""%string \/ In (longestLabel labels) labels).
Proof.
  destruct (longest_fold labels ""%string) as [_ [H1 H2]]. split; [exact H1 | exact H2].
Qed.

End Layout.

(** ** Concrete charts *)

Module LayoutTests.
Import RangeCalculator TickGenerator LabelFormatter Geometry Layout.

(** A locale that prints every number as one character. *)
#[export] Instance plainLocale : NumberLocale := { toLocaleString := fun _ _ => "0"%string }.

Definition demoProps (bs : list BarProps) : BarChartProps :=
  mkProps bs true true false 0 0 None false None.

Definition demoBars : list BarProps := [bar 1; bar 3; bar (-2)].

Definition demoState : BarChartState := initialState (demoProps demoBars).

Definition noLayout : ChartLayout :=
  mkLayout (toChartRange (mkRange 0 0)) None None (VerticalBars []) None.

Definition layoutOf (props : BarChartProps) (st : BarChartState) : ChartLayout :=
  match render props st with Some (Some l) => l | _ => noLayout end.

Definition demoLayout : ChartLayout := layoutOf (demoProps demoBars) demoState.

Definition demoQuantAxis : QuantAxis :=
  match layoutQuantAxis demoLayout with Some qa => qa | None => mkQuantAxis ""%string [] end.

(** The ticks of the demo chart (values 1, 3, -2) and their tops: the
    data range is [[-2 - 5/18, 3 + 5/18]], the ticks [4, 2, 0, -2] widen
    it to [[-2 - 5/18, 4]]. *)
Example demo_marks :
  map (fun m => (Qred (markValue m), match markTop m with Fin q => Some (Qred q) | _ => None end))
      (map fst (qaLabels demoQuantAxis))
  = [(4, Some 0); (2, Some (3600 # 113)); (0, Some (7200 # 113)); (-2, Some (10800 # 113))].
Proof. vm_compute. reflexivity. Qed.

(** An all-zero chart with an axis: the tick list is empty and the chart
    range is [NaN]. *)
Example all_zero_range :
  layoutRange (layoutOf (demoProps [bar 0; bar 0]) (initialState (demoProps [bar 0; bar 0])))
  = mkChartRange NaN NaN.
Proof. vm_compute. reflexivity. Qed.

Lemma demo_render : render (demoProps demoBars) demoState = Some (Some demoLayout).
Proof. vm_compute. reflexivity. Qed.

Lemma demo_nonzero : exists b, In b (stateBars demoState) /\ ~ value b == 0.
Proof. exists (bar 3). split; [simpl; tauto | discriminate]. Qed.

Lemma demo_significant : exists b, In b (stateBars demoState) /\ pow10 (-324) <= Qabs (value b).
Proof. exists (bar 3). split; [simpl; tauto | vm_compute; discriminate]. Qed.

Lemma render_marks_inside_witness :
  render (demoProps demoBars) demoState = Some (Some demoLayout) /\
  (exists b, In b (stateBars demoState) /\ ~ value b == 0) /\
  forall m, In m (axisMarks demoLayout) -> exists t, markTop m = Fin t /\ 0 <= t <= 100.
Proof.
  split; [exact demo_render|]. split; [exact demo_nonzero|].
  exact (render_marks_inside _ _ _ demo_render demo_nonzero).
Defined.

Lemma render_bars_inside_witness :
  render (demoProps demoBars) demoState = Some (Some demoLayout) /\
  minBarHeight (demoProps demoBars) == 0 /\
  (exists b, In b (stateBars demoState) /\ ~ value b == 0) /\
  exists lo hi, layoutRange demoLayout = mkChartRange (Fin lo) (Fin hi) /\ lo < hi /\
    forall cols c, layoutBody demoLayout = HorizontalBars cols -> In c cols ->
    empty (colBar c) = false ->
    exists cs, colChunks c = Some cs /\ cs <> [] /\
      forall ch, In ch cs ->
        exists t, percentTop ch = Fin t /\ 0 <= t /\ t + heightQ (hi - lo) (colBar c) <= 100.
Proof.
  split; [exact demo_render|]. split; [reflexivity|]. split; [exact demo_nonzero|].
  exact (render_bars_inside _ _ _ demo_render ltac:(reflexivity) demo_nonzero).
Defined.

Lemma render_axis_labels_exact_witness :
  render (demoProps demoBars) demoState = Some (Some demoLayout) /\
  layoutQuantAxis demoLayout = Some demoQuantAxis /\
  (exists b, In b (stateBars demoState) /\ pow10 (-324) <= Qabs (value b)) /\
  exists d, forall m s, In (m, s) (qaLabels demoQuantAxis) ->
    s = formatQuantAxisValue (quantAxisFormatFunc (demoProps demoBars)) (markValue m) d /\
    isIntegral (markValue m * pow10 (Z.of_nat d)) = true.
Proof.
  assert (Hq : layoutQuantAxis demoLayout = Some demoQuantAxis) by (vm_compute; reflexivity).
  split; [exact demo_render|]. split; [exact Hq|]. split; [exact demo_significant|].
  exact (render_axis_labels_exact _ _ _ _ demo_render Hq demo_significant).
Defined.

Lemma render_terminates_witness :
  (stateBars demoState = [] \/
   exists b, In b (stateBars demoState) /\ pow10 (-324) <= Qabs (value b)) /\
  exists out, render (demoProps demoBars) demoState = Some out /\
              (out = None <-> stateBars demoState = []).
Proof.
  split; [right; exact demo_significant|].
  exact (render_terminates _ _ (or_intror demo_significant)).
Defined.

Lemma padding_stretches_range_witness :
  (List.length (bars (mkProps [bar (1 # 100)] false false false 0 3 None false None))
     < minBars (mkProps [bar (1 # 100)] false false false 0 3 None false None))%nat /\
  1 < max (computeDataRange
             (stateBars (initialState (mkProps [bar (1 # 100)] false false false 0 3 None false None)))).
Proof.
  split; [cbn; lia|]. apply padding_stretches_range. cbn. lia.
Defined.
End LayoutTests.
