(* ===== verification/MockHistory.v ===== *)
(** * The browser the history wrapper runs against: [MockHistory] and [MockWindow]

    [src/src/_mocks/mockHistory.ts] and [src/src/_mocks/mockWindow.ts] are
    the repository's own model of [window.history] and [window.location],
    the environment [BrowserHistory] is tested against.  They are modelled
    here as they are written: a stack of states and URLs with a current
    index, and a location of which [href], [pathname], [search] and [hash]
    change (the other five fields stay [''] ).  The mock is synchronous:
    [back], [forward] and [go] call the [popstate] listeners before they
    return; the operations here return the event they fire ([Some state])
    and the caller ([BrowserHistory.v]) runs the listener on it. *)

From Stdlib Require Import ZArith List String Bool Lia.
From S2P Require Import Prelude.
Import ListNotations.
Open Scope string_scope.
Open Scope Z_scope.

(** The [state] objects a history entry can hold: [undefined], an object
    without the two fields of a [HistoryState] (the [{}] of line 18), or
    a [HistoryState] (BrowserHistory/index.ts, lines 21-24). *)
Inductive JsState : Type :=
| SUndefined
| SEmpty
| SHist (historyStack : list string) (historyIndex : Z).

Module Mock.

(** The fields of [class MockHistory] (lines 2-10) that change. *)
Record MockHistory : Type := mkMockHistory {
  mhLength : Z;
  mhState : JsState;
  stateStack : list JsState;
  locationStack : list string;
  stackIndex : Z
}.

(** The fields of [window.location] that the mock changes (mockWindow.ts,
    lines 40-45). *)
Record MockLocation : Type := mkMockLocation {
  locHref : string;
  locPathname : string;
  locSearch : string;
  locHash : string
}.

(** [class MockWindow] (mockWindow.ts, lines 3-54): its history, its
    location, and whether the one [popstate] listener the model has (the
    handler of [BrowserHistory]) is registered. *)
Record MockWindow : Type := mkMockWindow {
  history : MockHistory;
  location : MockLocation;
  popStateListener : bool
}.

(** The constructors (mockHistory.ts lines 12-25, mockWindow.ts lines 8-32). *)
Definition initHistory : MockHistory := mkMockHistory 0 SEmpty [] [] (-1).

Definition initLocation : MockLocation := mkMockLocation "" "" "" "".

Definition initWindow : MockWindow := mkMockWindow initHistory initLocation false.

(** [_updateState] (lines 93-95). *)
Definition updateState (h : MockHistory) : MockHistory :=
  mkMockHistory (mhLength h)
    (if 0 <=? stackIndex h then
       match jsGet (stateStack h) (stackIndex h) with Some s => s | None => SUndefined end
     else SEmpty)
    (stateStack h) (locationStack h) (stackIndex h).

(** [_updateLocation] (lines 79-84) with the window's [locationCallback]
    (mockWindow.ts lines 9-11, 40-45): [href] and [pathname] become
    the current URL ([''] for [undefined]), [search] and [hash] [''] . *)
Definition updateLocation (h : MockHistory) : MockLocation :=
  let curLocation := match jsGet (locationStack h) (stackIndex h) with Some u => u | None => "" end in
  mkMockLocation curLocation curLocation "" "".

(** [_notifyPop] (lines 86-91): the state of the current entry. *)
Definition popState (h : MockHistory) : JsState :=
  match jsGet (stateStack h) (stackIndex h) with Some s => s | None => SUndefined end.

Definition withIndex (h : MockHistory) (i : Z) : MockHistory :=
  mkMockHistory (mhLength h) (mhState h) (stateStack h) (locationStack h) i.

(** After a move: update the state and the location, fire [popstate]. *)
Definition moved (w : MockWindow) (h : MockHistory) : MockWindow * option JsState :=
  let h := updateState h in
  (mkMockWindow h (updateLocation h) (popStateListener w), Some (popState h)).

(** [back()] (lines 27-36). *)
Definition back (w : MockWindow) : MockWindow * option JsState :=
  let h := history w in
  if stackIndex h =? -1 then (w, None) else moved w (withIndex h (stackIndex h - 1)).

(** [forward()] (lines 38-47). *)
Definition forward (w : MockWindow) : MockWindow * option JsState :=
  let h := history w in
  if stackIndex h =? mhLength h - 1 then (w, None) else moved w (withIndex h (stackIndex h + 1)).

(** [go(delta)] (lines 49-55): the index is clamped to the entries, and
    [popstate] fires even when it does not move. *)
Definition go (w : MockWindow) (delta : Z) : MockWindow * option JsState :=
  let h := history w in
  moved w (withIndex h (Z.max 0 (Z.min (stackIndex h + delta) (mhLength h - 1)))).

(** [pushState(data, title, url)] (lines 57-66). *)
Definition pushState (w : MockWindow) (data : JsState) (url : string) : MockWindow :=
  let h := history w in
  let keep := Z.to_nat (stackIndex h + 1) in
  let states := (firstn keep (stateStack h) ++ [data])%list in
  let locations := (firstn keep (locationStack h) ++ [url])%list in
  let h := updateState (mkMockHistory (Z.of_nat (List.length locations)) (mhState h)
                          states locations (stackIndex h + 1)) in
  mkMockWindow h (updateLocation h) (popStateListener w).

(** [replaceState(data, title, url)] (lines 68-77). *)
Definition replaceState (w : MockWindow) (data : JsState) (url : string) : MockWindow :=
  let h := history w in
  let h := if stackIndex h =? -1 then
             mkMockHistory 1 (mhState h) (stateStack h) (locationStack h) 0
           else h in
  let i := Z.to_nat (stackIndex h) in
  let h := updateState (mkMockHistory (mhLength h) (mhState h)
                          (jsSet SUndefined (stateStack h) i data)
                          (jsSet ""%string (locationStack h) i url) (stackIndex h)) in
  mkMockWindow h (updateLocation h) (popStateListener w).

(** [addEventListener('popstate', listener)] (mockWindow.ts lines 34-38). *)
Definition addPopStateListener (w : MockWindow) : MockWindow :=
  mkMockWindow (history w) (location w) true.

(** ** What each operation does to the entries *)

Lemma moved_history w h :
  let r := moved w h in
  mhLength (history (fst r)) = mhLength h /\ stateStack (history (fst r)) = stateStack h /\
  locationStack (history (fst r)) = locationStack h /\ stackIndex (history (fst r)) = stackIndex h /\
  popStateListener (fst r) = popStateListener w /\ snd r = Some (popState h).
Proof. repeat split. Qed.

Lemma back_moves w :
  stackIndex (history w) <> -1 -> back w = moved w (withIndex (history w) (stackIndex (history w) - 1)).
Proof. intros H. unfold back. now rewrite (proj2 (Z.eqb_neq _ _) H). Qed.

Lemma forward_moves w :
  stackIndex (history w) <> mhLength (history w) - 1 ->
  forward w = moved w (withIndex (history w) (stackIndex (history w) + 1)).
Proof. intros H. unfold forward. now rewrite (proj2 (Z.eqb_neq _ _) H). Qed.

Lemma go_moves w delta :
  0 <= stackIndex (history w) + delta < mhLength (history w) ->
  go w delta = moved w (withIndex (history w) (stackIndex (history w) + delta)).
Proof. intros H. unfold go. f_equal. f_equal. lia. Qed.

Lemma pushState_history w data url :
  let h := history (pushState w data url) in
  let keep := Z.to_nat (stackIndex (history w) + 1) in
  stateStack h = (firstn keep (stateStack (history w)) ++ [data])%list /\
  locationStack h = (firstn keep (locationStack (history w)) ++ [url])%list /\
  stackIndex h = stackIndex (history w) + 1 /\
  mhLength h = Z.of_nat (List.length (firstn keep (locationStack (history w))) + 1) /\
  popStateListener (pushState w data url) = popStateListener w.
Proof. cbn. rewrite length_app. repeat split. Qed.

Lemma replaceState_history w data url :
  0 <= stackIndex (history w) ->
  let h := history (replaceState w data url) in
  let i := Z.to_nat (stackIndex (history w)) in
  stateStack h = jsSet SUndefined (stateStack (history w)) i data /\
  locationStack h = jsSet "" (locationStack (history w)) i url /\
  stackIndex h = stackIndex (history w) /\ mhLength h = mhLength (history w) /\
  popStateListener (replaceState w data url) = popStateListener w.
Proof.
  intros H. unfold replaceState.
  destruct (Z.eqb_spec (stackIndex (history w)) (-1)); [lia|]. repeat split.
Qed.

(** Where the location goes: the URL of the new current entry. *)
Lemma pushState_location w data url :
  0 <= stackIndex (history w) ->
  (Z.to_nat (stackIndex (history w) + 1) <= List.length (locationStack (history w)))%nat ->
  locPathname (location (pushState w data url)) = url.
Proof.
  intros H0 Hl. cbn [pushState location updateLocation locPathname updateState
                     stackIndex locationStack].
  rewrite jsGet_nth by lia. rewrite nth_error_app2; rewrite length_firstn; [|lia].
  replace (Z.to_nat (stackIndex (history w) + 1) - Nat.min (Z.to_nat (stackIndex (history w) + 1))
             (List.length (locationStack (history w))))%nat with 0%nat by lia.
  reflexivity.
Qed.

Lemma replaceState_location w data url :
  0 <= stackIndex (history w) < Z.of_nat (List.length (locationStack (history w))) ->
  locPathname (location (replaceState w data url)) = url.
Proof.
  intros H. unfold replaceState.
  destruct (Z.eqb_spec (stackIndex (history w)) (-1)); [lia|].
  cbn [location updateLocation locPathname updateState stackIndex locationStack].
  rewrite jsGet_nth, jsSet_nth, Nat.eqb_refl by lia. reflexivity.
Qed.

End Mock.
