(* ===== verification/BrowserHistory.v ===== *)
(** * The history wrapper: [class BrowserHistory]

      [src/src/BrowserHistory/index.ts] keeps its own stack of keys
      ([_historyStack], [_historyIndex]) beside the browser's session history,
      stores a snapshot of it in the state of every entry it creates, and on
      [popstate] finds the entry's key in its stack to tell a back from a
      forward navigation, asks the registered filters whether to allow it,
      and if not moves the browser back with [go(delta)].

      [History] models the class over the repository's mock browser
      ([MockHistory.v]): [World] holds the mock window, the fields of the
      object, the supply of keys and the notifications the listeners have
      received.  Every method is a function on [World]; the ones that move
      the browser ([goBack], [goForward], the constructor) run the [popstate]
      handler on the event the mock fires, synchronously and re-entrantly as
      the mock does, and take a fuel bounding that nesting ([None] when it
      runs out; [handlePopState_terminates] shows how much is enough).

      [Math.random()] keys are the values [keyAt n] of a key supply, the
      [parsePath] of [HistoryUtils] is a parameter, and so is whether the
      user agent is Chrome on iOS ([CriOS]). *)

From Stdlib Require Import ZArith List String Ascii Bool Lia.
From S2P Require Import Prelude MockHistory.
Import ListNotations.
Open Scope string_scope.
Open Scope Z_scope.

(** [const enum NavigationAction] (lines 5-11). *)
Inductive NavigationAction : Type := Unknown | Back | Forward | Push | Replace.

Definition action_eqb (a b : NavigationAction) : bool :=
    match a, b with
    | Unknown, Unknown | Back, Back | Forward, Forward | Push, Push | Replace, Replace => true
    | _, _ => false
    end.

(** [interface LocationContext] (Types/locationContext.ts, lines 1-11). *)
Record LocationContext : Type := mkLocationContext {
    hash : string; host : string; hostName : string; href : string; origin : string;
    pathname : string; port : string; protocol : string; search : string
}.

(** [interface NavigationFilterCallback] (lines 17-19). *)
Definition NavigationFilterCallback : Type := LocationContext -> NavigationAction -> bool.

Module History.
Import Mock.

(** The fields of [class BrowserHistory] (lines 53-78) that change; a
    filter or a listener is registered under the identity of its
    function, a number. *)
Record BrowserHistoryState : Type := mkBrowserHistory {
  navigationFilters : list (nat * NavigationFilterCallback);
  navigationListeners : list nat;
  historyStack : list string;
  historyIndex : Z;
  restoringPosition : bool
}.

(** One call of a listener: its identity, the location and the action. *)
Definition Notification : Type := (nat * LocationContext * NavigationAction)%type.

Record World : Type := mkWorld {
  window : MockWindow;
  bh : BrowserHistoryState;
  keySeed : nat;
  notified : list Notification
}.

Definition setWindow (v : MockWindow) (w : World) : World :=
  mkWorld v (bh w) (keySeed w) (notified w).

Definition setBH (b : BrowserHistoryState) (w : World) : World :=
  mkWorld (window w) b (keySeed w) (notified w).

Definition withStack (b : BrowserHistoryState) (s : list string) (i : Z) : BrowserHistoryState :=
  mkBrowserHistory (navigationFilters b) (navigationListeners b) s i (restoringPosition b).

Definition withRestoring (b : BrowserHistoryState) (r : bool) : BrowserHistoryState :=
  mkBrowserHistory (navigationFilters b) (navigationListeners b) (historyStack b) (historyIndex b) r.

(** [getCurrentLocation] (lines 28-41) on the mock window; [location.x ||
    ''] is [location.x] for a string. *)
Definition getCurrentLocation (v : MockWindow) : LocationContext :=
  let l := location v in
  mkLocationContext (locHash l) "" "" (locHref l) "" (locPathname l) "" "" (locSearch l).

(** [static getHistoryState] (lines 108-116): [history.state || {}]. *)
Definition getHistoryState (v : MockWindow) : JsState :=
  match mhState (history v) with SUndefined => SEmpty | s => s end.

(** [_getState] (lines 218-223). *)
Definition getState (b : BrowserHistoryState) : JsState := SHist (historyStack b) (historyIndex b).

(** [canGoBack] (lines 126-131). *)
Definition canGoBack (w : World) : bool := 1 <? historyIndex (bh w).

(** [location] (lines 119-121). *)
Definition currentLocation (w : World) : LocationContext := getCurrentLocation (window w).

Section Wrapper.
(** [parsePath] of [HistoryUtils]. *)
Variable parsePath : string -> LocationContext.
(** The [n]-th key [Math.random().toString(36).substr(2, 8)] returns. *)
Variable keyAt : nat -> string.
(** [navigator.userAgent.indexOf('CriOS') !== -1]. *)
Variable isCriOS : bool.

(** [static _createKey] (lines 212-214). *)
Definition createKey (w : World) : string * World :=
  (keyAt (keySeed w), mkWorld (window w) (bh w) (S (keySeed w)) (notified w)).

(** [_allowNavigation] (lines 322-330): every filter is called, and the
    navigation is blocked when one of them returns [true]. *)
Definition allowNavigation (b : BrowserHistoryState) (uri : string) (action : NavigationAction)
    : bool :=
  let location := parsePath uri in
  negb (fold_left (fun block f => snd f location action || block) (navigationFilters b) false).

(** [_notifyListeners] (lines 333-337). *)
Definition notifyListeners (location : LocationContext) (action : NavigationAction) (w : World)
    : World :=
  mkWorld (window w) (bh w) (keySeed w)
    (notified w ++ map (fun l => (l, location, action)) (navigationListeners (bh w)))%list.

(** [_initHistoryState] (lines 309-318): a first entry, replaced into the
    current one, and a second one pushed after it. *)
Definition initHistoryState (w : World) : World :=
  let (k1, w) := createKey w in
  let w := setBH (withStack (bh w) [k1] 0) w in
  let w := setWindow (replaceState (window w) (getState (bh w)) (locHref (location (window w)))) w in
  let (k2, w) := createKey w in
  let w := setBH (withStack (bh w) (historyStack (bh w) ++ [k2])%list 1) w in
  setWindow (pushState (window w) (getState (bh w)) (locHref (location (window w)))) w.

(** [isExtraneousPopstateEvent] (lines 46-48). *)
Definition isExtraneousPopstateEvent (state : JsState) : bool :=
  match state with SUndefined => negb isCriOS | _ => false end.

(** Lines 247-262: the action, the index found in our stack, and the
    [historyIndex] of the event's state. *)
Definition classifyPop (state : JsState) (b : BrowserHistoryState)
    : NavigationAction * Z * option Z :=
  match state with
  | SHist historyStack' historyIndex' =>
      let foundIndex :=
        match jsGet historyStack' historyIndex' with
        | Some key => indexOf String.eqb key (historyStack b)
        | None => -1
        end in
      let navAction :=
        if (0 <=? foundIndex) && (foundIndex <? historyIndex b) then Back
        else if historyIndex b <? foundIndex then Forward
        else Unknown in
      (navAction, foundIndex, Some historyIndex')
  | _ => (Unknown, -1, None)
  end.

(** The mock's [popstate] dispatch (mockWindow.ts, lines 47-53) to the
    registered handler. *)
Definition dispatchWith (handler : JsState -> World -> option World)
    (r : MockWindow * option JsState) (w : World) : option World :=
  let w := setWindow (fst r) w in
  match snd r with
  | Some event => if popStateListener (fst r) then handler event w else Some w
  | None => Some w
  end.

(** Lines 277-287: the bookkeeping after an allowed pop. *)
Definition finishPop (location : LocationContext) (navAction : NavigationAction)
    (foundIndex : Z) (w : World) : World :=
  let w := if foundIndex =? -1 then initHistoryState w
           else
             let w := setBH (withStack (bh w) (historyStack (bh w)) foundIndex) w in
             setWindow (replaceState (window w) (getState (bh w)) (href location)) w in
  notifyListeners location navAction w.

(** [_handlePopState] (lines 227-288) with [_rejectPop] (lines
    291-306); the calls of [back()] and [go(delta)] run the handler
    again, with one unit of fuel less. *)
Fixpoint handlePopState (fuel : nat) (state : JsState) (w : World) : option World :=
  match fuel with
  | O => None
  | S fuel' =>
      let dispatch := dispatchWith (handlePopState fuel') in
      if isExtraneousPopstateEvent state then Some w
      else if restoringPosition (bh w) then Some (setBH (withRestoring (bh w) false) w)
      else
        let location := getCurrentLocation (window w) in
        match state with
        | SUndefined => Some (finishPop location Unknown (-1) w)
        | _ =>
            let '(navAction, foundIndex, stateIndex) := classifyPop state (bh w) in
            if negb (allowNavigation (bh w) (pathname location) navAction) then
              (* _rejectPop *)
              if foundIndex =? -1 then
                Some (notifyListeners location navAction (initHistoryState w))
              else
                let delta := historyIndex (bh w) - foundIndex in
                if delta =? 0 then Some w
                else
                  let w := setBH (withRestoring (bh w) true) w in
                  dispatch (go (window w) delta) w
            else
              let w' :=
                if (match stateIndex with Some 0 => true | _ => false end)
                   && action_eqb navAction Back
                then dispatch (back (window w)) w
                else Some w in
              match w' with
              | Some w => Some (finishPop location navAction foundIndex w)
              | None => None
              end
        end
  end.

Definition dispatch (fuel : nat) := dispatchWith (handlePopState fuel).

(** [constructor(windowRef)] (lines 80-104). *)
Definition construct (fuel : nat) (windowRef : MockWindow) (seed : nat) : option World :=
  let v := addPopStateListener windowRef in
  let w := mkWorld v (mkBrowserHistory [] [] [] 0 false) seed [] in
  match getHistoryState v with
  | SHist historyStack' historyIndex' =>
      let w := setBH (withStack (bh w) historyStack' historyIndex') w in
      if historyIndex' =? 0 then dispatch fuel (forward (window w)) w else Some w
  | _ => Some (initHistoryState w)
  end.

(** [goBack] and [goForward] (lines 134-141). *)
Definition goBack (fuel : nat) (w : World) : option World := dispatch fuel (back (window w)) w.

Definition goForward (fuel : nat) (w : World) : option World :=
  dispatch fuel (forward (window w)) w.

(** [replace(path)] (lines 166-176). *)
Definition replace (path : string) (w : World) : World :=
  if negb (allowNavigation (bh w) path Replace) then w
  else
    let (key, w) := createKey w in
    let b := bh w in
    let w := setBH (withStack b (jsSet "" (historyStack b) (Z.to_nat (historyIndex b)) key)
                              (historyIndex b)) w in
    let w := setWindow (replaceState (window w) (getState (bh w)) path) w in
    notifyListeners (getCurrentLocation (window w)) Replace w.

(** [push(path)] (lines 145-162); a push to the current pathname is a
    replace. *)
Definition push (path : string) (w : World) : World :=
  if String.eqb path (pathname (getCurrentLocation (window w))) then replace path w
  else if negb (allowNavigation (bh w) path Push) then w
  else
    let (key, w) := createKey w in
    let b := bh w in
    let w := setBH (withStack b (firstn (Z.to_nat (historyIndex b + 1)) (historyStack b) ++ [key])%list
                              (historyIndex b + 1)) w in
    let w := setWindow (pushState (window w) (getState (bh w)) path) w in
    notifyListeners (getCurrentLocation (window w)) Push w.
End Wrapper.

(** [arr.splice(arr.indexOf(x), 1)] when [x] is there (lines 199-206,
    339-346): the first occurrence goes. *)
Fixpoint removeFirst (x : nat) (l : list nat) : list nat :=
  match l with
  | [] => []
  | y :: l' => if Nat.eqb y x then l' else y :: removeFirst x l'
  end.

Fixpoint removeFirstFilter (x : nat) (l : list (nat * NavigationFilterCallback))
    : list (nat * NavigationFilterCallback) :=
  match l with
  | [] => []
  | y :: l' => if Nat.eqb (fst y) x then l' else y :: removeFirstFilter x l'
  end.

Definition setFilters (fs : list (nat * NavigationFilterCallback)) (w : World) : World :=
  let b := bh w in
  setBH (mkBrowserHistory fs (navigationListeners b) (historyStack b) (historyIndex b)
                          (restoringPosition b)) w.

Definition setListeners (ls : list nat) (w : World) : World :=
  let b := bh w in
  setBH (mkBrowserHistory (navigationFilters b) ls (historyStack b) (historyIndex b)
                          (restoringPosition b)) w.

(** [listen(callback)] (lines 181-185) and the function it returns. *)
Definition listen (id : nat) (w : World) : World :=
  setListeners (navigationListeners (bh w) ++ [id])%list w.

Definition removeNavigationListener (id : nat) (w : World) : World :=
  setListeners (removeFirst id (navigationListeners (bh w))) w.

(** [filter(filter)] (lines 191-195) and [_removeNavigationFilter]. *)
Definition addFilter (id : nat) (f : NavigationFilterCallback) (w : World) : World :=
  setFilters (navigationFilters (bh w) ++ [(id, f)])%list w.

Definition removeNavigationFilter (id : nat) (w : World) : World :=
  setFilters (removeFirstFilter id (navigationFilters (bh w))) w.

(** ** Filters and listeners *)

Lemma fold_block {A} (g : A -> bool) l acc :
  fold_left (fun block f => g f || block) l acc = acc || existsb g l.
Proof.
  revert acc. induction l as [|f l IH]; intros acc; cbn; [now rewrite orb_false_r|].
  rewrite IH. destruct acc, (g f); reflexivity.
Qed.

(** A navigation is allowed exactly when every registered filter,
    asked with the parsed location and the action, returns [false]. *)
Theorem allowNavigation_spec parsePath b uri act :
  allowNavigation parsePath b uri act = true <->
  forall id f, In (id, f) (navigationFilters b) -> f (parsePath uri) act = false.
Proof.
  unfold allowNavigation. rewrite fold_block. cbn [orb]. rewrite negb_true_iff.
  split.
  - intros H id f Hin. destruct (f (parsePath uri) act) eqn:E; [|reflexivity].
    assert (existsb (fun f => snd f (parsePath uri) act) (navigationFilters b) = true)
      by (apply existsb_exists; exists (id, f); auto). congruence.
  - intros H. apply not_true_is_false. intros Hex. apply existsb_exists in Hex as [[id f] [Hin E]].
    cbn in E. rewrite (H id f Hin) in E. discriminate.
Qed.

Lemma removeFirst_snoc x l : ~ In x l -> removeFirst x (l ++ [x])%list = l.
Proof.
  induction l as [|y l IH]; intros Hn; cbn; [now rewrite Nat.eqb_refl|].
  destruct (Nat.eqb_spec y x) as [->|]; [exfalso; apply Hn; now left|].
  rewrite IH; [reflexivity | intros H; apply Hn; now right].
Qed.

(** calling the function [listen(callback)] returns undoes the
    registration, when the callback was not registered before. *)
Theorem listen_unlisten id w :
  ~ In id (navigationListeners (bh w)) -> removeNavigationListener id (listen id w) = w.
Proof.
  intros Hn. destruct w as [v [fs ls st i r] seed ns]. cbn in *.
  unfold removeNavigationListener, listen, setListeners, setBH. cbn.
  now rewrite removeFirst_snoc.
Qed.

(** ** Termination of the re-entrant handler *)

Section Termination.
Variable parsePath : string -> LocationContext.
Variable keyAt : nat -> string.
Variable isCriOS : bool.

Local Ltac done_now := left; eexists; intros ?; reflexivity.

(** One step of the handler either returns, or re-enters through the
    [go(delta)] of [_rejectPop] with a restore pending, or re-enters
    through the [back()] of lines 270-274 and then finishes. *)
Lemma handlePop_shape st w :
  (exists x, forall f, handlePopState parsePath keyAt isCriOS (S f) st w = Some x) \/
  (exists delta, forall f, handlePopState parsePath keyAt isCriOS (S f) st w =
     dispatch parsePath keyAt isCriOS f (go (window w) delta) (setBH (withRestoring (bh w) true) w)) \/
  (exists g, forall f, handlePopState parsePath keyAt isCriOS (S f) st w = option_map g (dispatch parsePath keyAt isCriOS f (back (window w)) w)).
Proof.
  unfold dispatch; cbn [handlePopState].
  destruct (isExtraneousPopstateEvent isCriOS st); [done_now|].
  destruct (restoringPosition (bh w)); [done_now|].
  destruct st as [| |hs hi]; [done_now| |];
    destruct (classifyPop _ (bh w)) as [[act found] sidx];
    (destruct (negb _);
     [destruct (found =? -1); [done_now|];
      destruct (_ =? 0); [done_now | right; left; eexists; intros ?; reflexivity]|]);
    (destruct (_ && _);
     [right; right; eexists; intros ?; destruct (dispatchWith _ _ _); reflexivity | done_now]).
Qed.

Lemma handlePop_restoring_any f st w :
  restoringPosition (bh w) = true ->
  handlePopState parsePath keyAt isCriOS (S f) st w = Some (if isExtraneousPopstateEvent isCriOS st then w
                            else setBH (withRestoring (bh w) false) w).
Proof. intros Hr. cbn [handlePopState]. destruct (isExtraneousPopstateEvent isCriOS st); now rewrite ?Hr. Qed.

(** The nested handler while a restore is pending returns at once. *)
Lemma dispatch_restoring r w :
  restoringPosition (bh w) = true -> exists x, forall f, dispatch parsePath keyAt isCriOS (S f) r w = Some x.
Proof.
  intros Hr. unfold dispatch, dispatchWith.
  destruct (snd r) as [ev|]; [destruct (popStateListener (fst r))|];
    eexists; intros f; try rewrite handlePop_restoring_any by exact Hr; reflexivity.
Qed.

Lemma handlePop_fuel n : forall st w,
  -1 <= stackIndex (history (window w)) <= Z.of_nat n - 1 ->
  exists x, forall f, (n + 2 <= f)%nat -> handlePopState parsePath keyAt isCriOS f st w = Some x.
Proof.
  induction n as [|n IH]; intros st w Hi;
    (destruct (handlePop_shape st w) as [[x Hx] | [[d Hd] | [g Hg]]];
     [exists x; intros [|f] Hf; [lia | apply Hx] | |]).
  1,3: destruct (dispatch_restoring (go (window w) d) (setBH (withRestoring (bh w) true) w) eq_refl)
         as [x Hx]; exists x; intros [|[|f]] Hf; [lia | lia | rewrite Hd; apply Hx].
  all: unfold back in Hg; destruct (Z.eqb_spec (stackIndex (history (window w))) (-1)) as [E|E].
  1,3: exists (g (setWindow (window w) w)); intros [|f] Hf; [lia|]; rewrite Hg; reflexivity.
  - lia.
  - unfold dispatch, dispatchWith, moved in Hg. cbn [fst snd popStateListener] in Hg.
    destruct (popStateListener (window w)).
    + set (h := updateState (withIndex (history (window w)) (stackIndex (history (window w)) - 1))) in Hg.
      destruct (IH (popState h) (setWindow (mkMockWindow h (updateLocation h) true) w)) as [x Hx];
        [cbn; lia|].
      exists (g x). intros [|f] Hf; [lia|]. rewrite Hg, Hx by lia. reflexivity.
    + eexists. intros [|f] Hf; [lia|]. rewrite Hg. reflexivity.
Qed.

(** the [popstate] handler terminates: however its [back()] and
    [go(delta)] calls re-enter it, the nesting is at most two more than
    the browser's index, and any fuel beyond gives the same result.
    ([-1] is the index of the mock's empty history.) *)
Theorem handlePopState_terminates st w :
  -1 <= stackIndex (history (window w)) ->
  exists x, forall f, (Z.to_nat (stackIndex (history (window w)) + 3) <= f)%nat ->
    handlePopState parsePath keyAt isCriOS f st w = Some x.
Proof.
  intros Hi. destruct (handlePop_fuel (Z.to_nat (stackIndex (history (window w)) + 1)) st w ltac:(lia))
    as [x Hx]. exists x. intros f Hf. apply Hx. lia.
Qed.
End Termination.

(** ** The synchronisation invariant *)

Section Sync.
Variable parsePath : string -> LocationContext.
Variable keyAt : nat -> string.
Variable isCriOS : bool.
(** Distinct draws give distinct keys. *)
Hypothesis keyAt_inj : forall m n, keyAt m = keyAt n -> m = n.

(** The browser entries from [base] on are ours: there is one per key of
    our stack and none after, and entry [base + i] holds a snapshot whose
    [i]-th key is our [i]-th key. *)
Definition EntriesOK (base : nat) (h : MockHistory) (stack : list string) : Prop :=
  mhLength h = Z.of_nat (base + List.length stack) /\
  List.length (stateStack h) = (base + List.length stack)%nat /\
  List.length (locationStack h) = (base + List.length stack)%nat /\
  (forall i k, nth_error stack i = Some k ->
     exists s, nth_error (stateStack h) (base + i) = Some (SHist s (Z.of_nat i)) /\
               nth_error s i = Some k).

(** The wrapper and the browser agree: the current entry is [base +
    historyIndex], the entries are ours, no restore is pending, the
    handler is registered, and our keys are distinct draws of the key
    supply. *)
Definition Sync (w : World) : Prop :=
  let h := history (window w) in
  let b := bh w in
  exists base j : nat,
    historyIndex b = Z.of_nat j /\
    stackIndex h = Z.of_nat (base + j) /\
    (j < List.length (historyStack b))%nat /\
    restoringPosition b = false /\
    popStateListener (window w) = true /\
    NoDup (historyStack b) /\
    (forall k, In k (historyStack b) -> exists n, (n < keySeed w)%nat /\ k = keyAt n) /\
    EntriesOK base h (historyStack b).

Lemma fresh_key (stack : list string) seed :
  (forall k, In k stack -> exists n, (n < seed)%nat /\ k = keyAt n) -> ~ In (keyAt seed) stack.
Proof. intros H Hin. destruct (H _ Hin) as [n [Hn E]]. apply keyAt_inj in E. lia. Qed.

Lemma NoDup_jsSet (l : list string) i k :
  NoDup l -> ~ In k l -> (i < List.length l)%nat -> NoDup (jsSet "" l i k).
Proof.
  intros Hd Hk Hi. apply NoDup_nth_error. rewrite jsSet_length by exact Hi.
  intros p q Hp E. rewrite !jsSet_nth in E by exact Hi.
  rewrite NoDup_nth_error in Hd.
  destruct (Nat.eqb_spec p i), (Nat.eqb_spec q i); try congruence.
  - exfalso. apply Hk. apply (nth_error_In l q). congruence.
  - exfalso. apply Hk. apply (nth_error_In l p). congruence.
  - exact (Hd p q Hp E).
Qed.

Lemma NoDup_snoc (l : list string) k : NoDup l -> ~ In k l -> NoDup (l ++ [k])%list.
Proof.
  intros Hd Hk. apply NoDup_app; [exact Hd | repeat constructor; auto |].
  intros a Ha [<-|[]]. contradiction.
Qed.

Lemma In_jsSet (l : list string) i k x :
  (i < List.length l)%nat -> In x (jsSet "" l i k) -> x = k \/ In x l.
Proof.
  intros Hi Hx. apply In_nth_error in Hx as [j Hj]. rewrite jsSet_nth in Hj by exact Hi.
  destruct (Nat.eqb j i); [injection Hj; auto|]. right. eapply nth_error_In. exact Hj.
Qed.

Lemma nth_error_snoc {A} (l : list A) m x j :
  (m <= List.length l)%nat ->
  nth_error (firstn m l ++ [x])%list j =
    if Nat.ltb j m then nth_error l j else if Nat.eqb j m then Some x else None.
Proof.
  intros Hm. destruct (Nat.ltb_spec j m).
  - rewrite nth_error_app1 by (rewrite length_firstn; lia). now rewrite nth_error_firstn, (proj2 (Nat.ltb_lt _ _) H).
  - rewrite nth_error_app2 by (rewrite length_firstn; lia). rewrite length_firstn.
    replace (Nat.min m (List.length l)) with m by lia.
    destruct (Nat.eqb_spec j m) as [->|Hne]; [now rewrite Nat.sub_diag|].
    apply nth_error_None. cbn. lia.
Qed.

Ltac sync_destruct H :=
  destruct H as [base [j [Hj [Hsi [Hjl [Hr [Hpl [Hnd [Hkeys [Hlen [Hss [Hls Hent]]]]]]]]]]]].

Lemma notify_sync loc a w : Sync w -> Sync (notifyListeners loc a w).
Proof. intros H. exact H. Qed.

Lemma NoDup_firstn_snoc (l : list string) n k :
  NoDup l -> ~ In k l -> NoDup (firstn n l ++ [k])%list.
Proof.
  intros Hd Hk. apply NoDup_snoc.
  - rewrite <- (firstn_skipn n l) in Hd. exact (NoDup_app_remove_r _ _ Hd).
  - intros Hin. apply Hk. exact (In_firstn _ _ _ Hin).
Qed.

(** Moving the current entry leaves the entries as they are. *)
Lemma entries_moved base h stack i :
  EntriesOK base h stack -> EntriesOK base (updateState (withIndex h i)) stack.
Proof. intros H. exact H. Qed.

(** Writing into the current entry [base + p] a snapshot of a stack that
    differs from ours only at [p]. *)
Lemma entries_replace base v stack stack' p url :
  EntriesOK base (history v) stack -> stackIndex (history v) = Z.of_nat (base + p) ->
  (p < List.length stack)%nat -> List.length stack' = List.length stack ->
  (forall i, i <> p -> nth_error stack' i = nth_error stack i) ->
  EntriesOK base (history (replaceState v (SHist stack' (Z.of_nat p)) url)) stack'.
Proof.
  intros [Hlen [Hss [Hls Hent]]] Hsi Hp Hl Hagree.
  destruct (replaceState_history v (SHist stack' (Z.of_nat p)) url ltac:(lia))
    as [E1 [E2 [E3 [E4 _]]]].
  rewrite Hsi, Nat2Z.id in E1, E2. unfold EntriesOK. rewrite Hl.
  split; [rewrite E4; exact Hlen|]. rewrite E1, E2, !jsSet_length by lia.
  split; [exact Hss|]. split; [exact Hls|].
  intros i k Hi. rewrite jsSet_nth by lia.
  destruct (Nat.eqb_spec (base + i) (base + p)) as [E|E].
  - assert (i = p) as -> by lia. eexists. split; [reflexivity | exact Hi].
  - rewrite Hagree in Hi by lia. exact (Hent i k Hi).
Qed.

(** Pushing after entry [base + j] the snapshot of our stack cut after
    [j] with a key appended. *)
Lemma entries_push base v stack j k url :
  EntriesOK base (history v) stack -> stackIndex (history v) = Z.of_nat (base + j) ->
  (j < List.length stack)%nat ->
  let stack' := (firstn (S j) stack ++ [k])%list in
  EntriesOK base (history (pushState v (SHist stack' (Z.of_nat (S j))) url)) stack'.
Proof.
  intros [Hlen [Hss [Hls Hent]]] Hsi Hj stack'.
  destruct (pushState_history v (SHist stack' (Z.of_nat (S j))) url) as [E1 [E2 [E3 [E4 _]]]].
  rewrite Hsi in E1, E2, E4. replace (Z.to_nat (Z.of_nat (base + j) + 1)) with (base + S j)%nat
    in E1, E2, E4 by lia.
  assert (Hl' : List.length stack' = S (S j)).
  { unfold stack'. rewrite length_app, length_firstn. cbn [List.length]. lia. }
  unfold EntriesOK. rewrite Hl'. split; [rewrite E4, length_firstn; lia|].
  rewrite E1, E2, !length_app, !length_firstn. cbn [List.length].
  split; [lia|]. split; [lia|].
  intros i k' Hi. unfold stack' in Hi. rewrite nth_error_snoc in Hi by lia.
  rewrite nth_error_snoc by lia.
  destruct (Nat.ltb_spec i (S j)).
  - rewrite (proj2 (Nat.ltb_lt (base + i) (base + S j))) by lia. exact (Hent i k' Hi).
  - destruct (Nat.eqb_spec i (S j)) as [->|]; [|discriminate]. injection Hi as <-.
    rewrite (proj2 (Nat.ltb_ge (base + S j) (base + S j))), Nat.eqb_refl by lia.
    eexists. split; [reflexivity|]. unfold stack'. rewrite nth_error_snoc by lia.
    now rewrite Nat.ltb_irrefl, Nat.eqb_refl.
Qed.

(** [replace] when the filters allow it, written out. *)
Lemma replace_allowed path w :
  allowNavigation parsePath (bh w) path Replace = true ->
  let b := bh w in
  let stack' := jsSet "" (historyStack b) (Z.to_nat (historyIndex b)) (keyAt (keySeed w)) in
  let v := replaceState (window w) (SHist stack' (historyIndex b)) path in
  replace parsePath keyAt path w =
    notifyListeners (getCurrentLocation v) Replace
      (mkWorld v (withStack b stack' (historyIndex b)) (S (keySeed w)) (notified w)).
Proof. intros H. unfold replace. now rewrite H. Qed.

(** A fresh key written over position [j] of the stack and into the
    current entry keeps the invariant. *)
Lemma replace_sync path w : Sync w -> Sync (replace parsePath keyAt path w).
Proof.
  intros Hs. destruct (allowNavigation parsePath (bh w) path Replace) eqn:Ea;
    [|unfold replace; rewrite Ea; exact Hs].
  rewrite (replace_allowed path w Ea). apply notify_sync.
  sync_destruct Hs. set (b := bh w) in *. rewrite Hj, Nat2Z.id.
  set (stack' := jsSet "" (historyStack b) j (keyAt (keySeed w))).
  exists base, j. cbn [window bh keySeed historyIndex historyStack restoringPosition withStack].
  assert (Hl' : List.length stack' = List.length (historyStack b)) by (apply jsSet_length; lia).
  destruct (replaceState_history (window w) (SHist stack' (Z.of_nat j)) path ltac:(lia))
    as [_ [_ [E3 [_ E5]]]].
  rewrite E3, E5, Hl'. split; [reflexivity|]. split; [exact Hsi|]. split; [lia|]. do 2 (split; [assumption|]).
  split; [apply NoDup_jsSet; [exact Hnd | apply fresh_key, Hkeys | lia]|]. split.
  - intros k Hk. destruct (In_jsSet (historyStack b) j _ _ ltac:(lia) Hk) as [->|Hin].
    + exists (keySeed w). split; [lia | reflexivity].
    + destruct (Hkeys k Hin) as [n [Hn ->]]. exists n. split; [lia | reflexivity].
  - apply (entries_replace base (window w) (historyStack b)); auto; [split; auto|].
    intros i Hi. unfold stack'. rewrite jsSet_nth by lia. now rewrite (proj2 (Nat.eqb_neq i j) Hi).
Qed.

(** [push] to a new path when the filters allow it, written out. *)
Lemma push_allowed path w :
  String.eqb path (pathname (getCurrentLocation (window w))) = false ->
  allowNavigation parsePath (bh w) path Push = true ->
  let b := bh w in
  let stack' := (firstn (Z.to_nat (historyIndex b + 1)) (historyStack b) ++ [keyAt (keySeed w)])%list in
  let v := pushState (window w) (SHist stack' (historyIndex b + 1)) path in
  push parsePath keyAt path w =
    notifyListeners (getCurrentLocation v) Push
      (mkWorld v (withStack b stack' (historyIndex b + 1)) (S (keySeed w)) (notified w)).
Proof. intros H1 H2. unfold push. now rewrite H1, H2. Qed.

(** [push] cuts the forward entries, appends a fresh key and keeps the
    invariant; a blocked push and a push to the current path (a
    replace) keep it too. *)
Lemma push_sync path w : Sync w -> Sync (push parsePath keyAt path w).
Proof.
  intros Hs.
  destruct (String.eqb path (pathname (getCurrentLocation (window w)))) eqn:Ep;
    [unfold push; rewrite Ep; exact (replace_sync path w Hs)|].
  destruct (allowNavigation parsePath (bh w) path Push) eqn:Ea;
    [|unfold push; rewrite Ep, Ea; exact Hs].
  rewrite (push_allowed path w Ep Ea). apply notify_sync.
  sync_destruct Hs. set (b := bh w) in *.
  rewrite Hj. replace (Z.to_nat (Z.of_nat j + 1)) with (S j) by lia.
  replace (Z.of_nat j + 1) with (Z.of_nat (S j)) by lia.
  set (stack' := (firstn (S j) (historyStack b) ++ [keyAt (keySeed w)])%list).
  destruct (pushState_history (window w) (SHist stack' (Z.of_nat (S j))) path)
    as [_ [_ [E3 [_ E5]]]].
  assert (Hl' : List.length stack' = S (S j)).
  { unfold stack'. rewrite length_app, length_firstn. cbn [List.length]. lia. }
  exists base, (S j). cbn [window bh keySeed historyIndex historyStack restoringPosition withStack].
  rewrite E3, E5, Hl', Hsi. split; [reflexivity|]. split; [lia|]. split; [lia|].
  split; [exact Hr|]. split; [exact Hpl|].
  split; [apply NoDup_firstn_snoc; [exact Hnd | apply fresh_key, Hkeys]|]. split.
  - intros k Hk. apply in_app_or in Hk as [Hk|[<-|[]]].
    + apply In_firstn in Hk. destruct (Hkeys k Hk) as [n [Hn ->]]. exists n. split; [lia | reflexivity].
    + exists (keySeed w). split; [lia | reflexivity].
  - apply entries_push; [split; auto | exact Hsi | exact Hjl].
Qed.

(** ** Pops *)

(** The entry at position [p] of our stack is recognised: its key is
    found at [p], which is a back or a forward navigation as [p] is
    before or after the current position. *)
Lemma classify_entry b j p k s :
  historyIndex b = Z.of_nat j -> NoDup (historyStack b) ->
  nth_error (historyStack b) p = Some k -> nth_error s p = Some k ->
  classifyPop (SHist s (Z.of_nat p)) b =
    (if Nat.ltb p j then Back else if Nat.ltb j p then Forward else Unknown,
     Z.of_nat p, Some (Z.of_nat p)).
Proof.
  intros Hj Hnd Hp Hs. unfold classifyPop. rewrite jsGet_nth, Nat2Z.id, Hs by lia.
  assert (Hidx : indexOf String.eqb k (historyStack b) = Z.of_nat p).
  { apply indexOf_nth; [apply String.eqb_eq | exact Hp |].
    intros q Hq E. rewrite NoDup_nth_error in Hnd.
    assert (q = p) by (apply Hnd; [apply nth_error_Some; congruence | congruence]). lia. }
  rewrite Hidx, Hj. f_equal. f_equal.
  destruct (Nat.ltb_spec p j), (Nat.ltb_spec j p); cbn;
    repeat match goal with
           | |- context [Z.leb ?a ?b] => destruct (Z.leb_spec a b)
           | |- context [Z.ltb ?a ?b] => destruct (Z.ltb_spec a b)
           end; cbn; reflexivity || lia.
Qed.

(** The bookkeeping of an allowed pop to position [p] of our stack,
    once the browser is at entry [base + p]: the invariant holds again
    with [historyIndex = p], and the listeners are told. *)
Lemma finishPop_sync w v base p loc act :
  let b := bh w in
  (p < List.length (historyStack b))%nat -> restoringPosition b = false ->
  NoDup (historyStack b) ->
  (forall k, In k (historyStack b) -> exists n, (n < keySeed w)%nat /\ k = keyAt n) ->
  EntriesOK base (history v) (historyStack b) ->
  stackIndex (history v) = Z.of_nat (base + p) -> popStateListener v = true ->
  let w' := finishPop keyAt loc act (Z.of_nat p) (setWindow v w) in
  Sync w' /\ bh w' = withStack b (historyStack b) (Z.of_nat p) /\ keySeed w' = keySeed w /\
  notified w' = (notified w ++ map (fun l => (l, loc, act)) (navigationListeners b))%list.
Proof.
  intros b Hp Hr Hnd Hkeys Hent Hsi Hpl w'. subst b w'. unfold finishPop.
  rewrite (proj2 (Z.eqb_neq (Z.of_nat p) (-1))) by lia.
  destruct (replaceState_history v (SHist (historyStack (bh w)) (Z.of_nat p)) (href loc) ltac:(lia))
    as [_ [_ [E3 [_ E5]]]].
  split; [|split; [reflexivity | split; reflexivity]].
  exists base, p. cbn [window bh keySeed historyIndex historyStack restoringPosition withStack
                       setWindow setBH notifyListeners getState].
  unfold getState. cbn [historyStack historyIndex withStack]. rewrite E3, E5. split; [reflexivity|]. split; [exact Hsi|]. do 5 (split; [assumption|]).
  apply (entries_replace base v (historyStack (bh w))); auto.
Qed.

(** The handler on the event of an entry of ours at position [p >= 1]
    that the filters allow: no nested navigation, then [finishPop]. *)
Lemma handlePop_allowed fuel w s p act :
  restoringPosition (bh w) = false ->
  classifyPop (SHist s (Z.of_nat p)) (bh w) = (act, Z.of_nat p, Some (Z.of_nat p)) ->
  (1 <= p)%nat ->
  allowNavigation parsePath (bh w) (pathname (getCurrentLocation (window w))) act = true ->
  handlePopState parsePath keyAt isCriOS (S fuel) (SHist s (Z.of_nat p)) w =
    Some (finishPop keyAt (getCurrentLocation (window w)) act (Z.of_nat p) w).
Proof.
  intros Hr Hc Hp Ha. cbn [handlePopState isExtraneousPopstateEvent]. rewrite Hr, Hc, Ha.
  cbn [negb]. destruct (Z.of_nat p) eqn:E; [lia | reflexivity | lia].
Qed.

(** The browser moved to the entry [base + p] of ours and fired its
    [popstate]. *)
Lemma moved_event w base p k :
  EntriesOK base (history (window w)) (historyStack (bh w)) ->
  nth_error (historyStack (bh w)) p = Some k ->
  exists s, nth_error s p = Some k /\
    popState (updateState (withIndex (history (window w)) (Z.of_nat (base + p)))) =
      SHist s (Z.of_nat p).
Proof.
  intros [_ [_ [_ Hent]]] Hk. destruct (Hent p k Hk) as [s [Es Hs]]. exists s. split; [exact Hs|].
  unfold popState. cbn [updateState withIndex stateStack stackIndex].
  rewrite jsGet_nth, Nat2Z.id, Es by lia. reflexivity.
Qed.

(** A pop to position [p >= 1] of ours that the filters allow, from the
    moment the browser has moved there. *)
Lemma pop_allowed fuel w base j p act :
  Sync w -> historyIndex (bh w) = Z.of_nat j ->
  stackIndex (history (window w)) = Z.of_nat (base + j) ->
  EntriesOK base (history (window w)) (historyStack (bh w)) ->
  (1 <= p < List.length (historyStack (bh w)))%nat -> p <> j ->
  act = (if Nat.ltb p j then Back else Forward) ->
  let r := moved (window w) (withIndex (history (window w)) (Z.of_nat (base + p))) in
  allowNavigation parsePath (bh w) (pathname (getCurrentLocation (fst r))) act = true ->
  exists w', dispatch parsePath keyAt isCriOS (S fuel) r w = Some w' /\ Sync w' /\
    bh w' = withStack (bh w) (historyStack (bh w)) (Z.of_nat p) /\ keySeed w' = keySeed w /\
    notified w' = (notified w ++ map (fun l => (l, getCurrentLocation (fst r), act))
                                     (navigationListeners (bh w)))%list.
Proof.
  intros Hs Hj Hsi Hen Hp Hpj Hact r Ha.
  destruct Hs as [base' [j' [Hj' [Hsi' [Hjl [Hr [Hpl [Hnd [Hkeys _]]]]]]]]].
  destruct (nth_error (historyStack (bh w)) p) as [k|] eqn:Ek; [|apply nth_error_None in Ek; lia].
  destruct (moved_event w base p k Hen Ek) as [s [Hk Hev]].
  unfold dispatch, dispatchWith, r, moved. cbn [fst snd popStateListener]. rewrite Hpl, Hev.
  rewrite (handlePop_allowed fuel _ s p act); [| exact Hr | | lia | exact Ha].
  - eexists. split; [reflexivity|].
    set (h' := updateState (withIndex (history (window w)) (Z.of_nat (base + p)))).
    exact (finishPop_sync w (mkMockWindow h' (updateLocation h') true) base p
             (getCurrentLocation (fst r)) act ltac:(lia) Hr Hnd Hkeys
             (entries_moved _ _ _ _ Hen) eq_refl eq_refl).
  - cbn [bh setWindow]. rewrite (classify_entry (bh w) j p k s Hj Hnd Ek Hk), Hact.
    destruct (Nat.ltb_spec p j); [reflexivity|].
    rewrite (proj2 (Nat.ltb_lt j p)) by lia. reflexivity.
Qed.

Lemma withRestoring_twice b :
  restoringPosition b = false -> withRestoring (withRestoring b true) false = b.
Proof. destruct b; cbn. intros ->. reflexivity. Qed.

(** The mock's dispatch of the event of a move to the handler. *)
Lemma dispatch_moved handler v h w :
  popStateListener v = true ->
  dispatchWith handler (moved v h) w = handler (popState (updateState h)) (setWindow (fst (moved v h)) w).
Proof. intros H. unfold dispatchWith, moved. cbn [fst snd popStateListener]. now rewrite H. Qed.

(** The handler while a restore is pending only clears the flag. *)
Lemma handlePop_restoring fuel w st :
  isExtraneousPopstateEvent isCriOS st = false -> restoringPosition (bh w) = true ->
  handlePopState parsePath keyAt isCriOS (S fuel) st w = Some (setBH (withRestoring (bh w) false) w).
Proof. intros He Hr. cbn [handlePopState]. now rewrite He, Hr. Qed.

(** The handler on a pop the filters reject, to a known index [p]
    other than the current one: [_rejectPop] moves back by [go(delta)]. *)
Lemma handlePop_rejected fuel w st act p sidx :
  isExtraneousPopstateEvent isCriOS st = false -> st <> SUndefined ->
  restoringPosition (bh w) = false ->
  classifyPop st (bh w) = (act, p, sidx) ->
  allowNavigation parsePath (bh w) (pathname (getCurrentLocation (window w))) act = false ->
  p <> -1 -> historyIndex (bh w) - p <> 0 ->
  handlePopState parsePath keyAt isCriOS (S fuel) st w =
    dispatch parsePath keyAt isCriOS fuel (go (window w) (historyIndex (bh w) - p))
             (setBH (withRestoring (bh w) true) w).
Proof.
  intros He Hu Hr Hc Ha Hp Hd. cbn [handlePopState]. rewrite He, Hr.
  destruct st; [contradiction | |]; rewrite Hc, Ha; cbn [negb];
    rewrite (proj2 (Z.eqb_neq p (-1)) Hp), (proj2 (Z.eqb_neq _ 0) Hd); reflexivity.
Qed.

(** A pop to position [p] of ours that a filter rejects: [_rejectPop]
    sets [_restoringPosition] and calls [go(delta)]; the nested handler
    only clears the flag.  The browser is back at the entry it left,
    the wrapper is as it was, and no listener is told. *)
Lemma pop_rejected fuel w base j p act :
  Sync w -> historyIndex (bh w) = Z.of_nat j ->
  stackIndex (history (window w)) = Z.of_nat (base + j) ->
  EntriesOK base (history (window w)) (historyStack (bh w)) ->
  (p < List.length (historyStack (bh w)))%nat -> p <> j ->
  act = (if Nat.ltb p j then Back else Forward) ->
  let r := moved (window w) (withIndex (history (window w)) (Z.of_nat (base + p))) in
  allowNavigation parsePath (bh w) (pathname (getCurrentLocation (fst r))) act = false ->
  exists w', dispatch parsePath keyAt isCriOS (S (S fuel)) r w = Some w' /\ Sync w' /\
    bh w' = bh w /\ keySeed w' = keySeed w /\ notified w' = notified w /\
    stackIndex (history (window w')) = stackIndex (history (window w)) /\
    stateStack (history (window w')) = stateStack (history (window w)).
Proof.
  intros Hs Hj Hsi Hen Hp Hpj Hact r Ha.
  destruct Hs as [base' [j' [Hj' [Hsi' [Hjl [Hr [Hpl [Hnd [Hkeys _]]]]]]]]].
  destruct (nth_error (historyStack (bh w)) p) as [k|] eqn:Ek; [|apply nth_error_None in Ek; lia].
  destruct (nth_error (historyStack (bh w)) j) as [kj|] eqn:Ekj; [|apply nth_error_None in Ekj; lia].
  destruct (moved_event w base p k Hen Ek) as [s [Hk Hev]].
  destruct (moved_event w base j kj Hen Ekj) as [sj [_ Hevj]].
  pose proof Hen as [Hlen _].
  unfold dispatch, r. rewrite dispatch_moved, Hev by exact Hpl.
  rewrite (handlePop_rejected (S fuel) _ _ act (Z.of_nat p) (Some (Z.of_nat p))); try easy.
  2: { cbn [bh setWindow]. rewrite (classify_entry (bh w) j p k s Hj Hnd Ek Hk), Hact.
       destruct (Nat.ltb_spec p j); [reflexivity|].
       rewrite (proj2 (Nat.ltb_lt j p)) by lia. reflexivity. }
  2: lia.
  2: { cbn [bh setWindow]. rewrite Hj. lia. }
  cbn [bh setWindow setBH window]. rewrite Hj.
  set (v1 := fst (moved (window w) (withIndex (history (window w)) (Z.of_nat (base + p))))).
  assert (Hv1 : history v1 = updateState (withIndex (history (window w)) (Z.of_nat (base + p))))
    by reflexivity.
  rewrite go_moves by (rewrite Hv1; cbn [updateState withIndex stackIndex mhLength]; lia).
  rewrite Hv1. cbn [updateState withIndex stackIndex].
  replace (Z.of_nat (base + p) + (Z.of_nat j - Z.of_nat p)) with (Z.of_nat (base + j)) by lia.
  unfold dispatch. rewrite dispatch_moved by exact Hpl.
  change (popState (updateState (withIndex (updateState (withIndex (history (window w))
            (Z.of_nat (base + p)))) (Z.of_nat (base + j)))))
    with (popState (updateState (withIndex (history (window w)) (Z.of_nat (base + j))))).
  rewrite Hevj, handlePop_restoring by reflexivity.
  eexists. split; [reflexivity|].
  cbn [bh setBH setWindow window keySeed notified withRestoring restoringPosition].
  rewrite withRestoring_twice by exact Hr.
  split; [|repeat split; cbn [history fst moved updateState withIndex stackIndex]; lia].
  exists base, j. cbn [bh setBH setWindow window keySeed history fst moved popStateListener v1].
  do 7 (split; [first [assumption | reflexivity | lia]|]).
  do 2 apply entries_moved. exact Hen.
Qed.

(** A pop to position [p] of ours, allowed or not. *)
Lemma pop_to fuel w base j p act :
  Sync w -> historyIndex (bh w) = Z.of_nat j ->
  stackIndex (history (window w)) = Z.of_nat (base + j) ->
  EntriesOK base (history (window w)) (historyStack (bh w)) ->
  (1 <= p < List.length (historyStack (bh w)))%nat -> p <> j ->
  act = (if Nat.ltb p j then Back else Forward) ->
  let r := moved (window w) (withIndex (history (window w)) (Z.of_nat (base + p))) in
  let loc := getCurrentLocation (fst r) in
  exists w', dispatch parsePath keyAt isCriOS (S (S fuel)) r w = Some w' /\ Sync w' /\
    keySeed w' = keySeed w /\
    if allowNavigation parsePath (bh w) (pathname loc) act
    then bh w' = withStack (bh w) (historyStack (bh w)) (Z.of_nat p) /\
         notified w' = (notified w ++ map (fun l => (l, loc, act)) (navigationListeners (bh w)))%list
    else bh w' = bh w /\ notified w' = notified w /\
         stackIndex (history (window w')) = stackIndex (history (window w)).
Proof.
  intros Hs Hj Hsi Hen Hp Hpj Hact r loc.
  destruct (allowNavigation parsePath (bh w) (pathname loc) act) eqn:Ea.
  - destruct (pop_allowed (S fuel) w base j p act Hs Hj Hsi Hen Hp Hpj Hact Ea)
      as [w' [E [Hs' [Hb [Hk Hn]]]]].
    exists w'. split; [exact E|]. split; [exact Hs'|]. split; [exact Hk|]. split; [exact Hb | exact Hn].
  - destruct (pop_rejected fuel w base j p act Hs Hj Hsi Hen ltac:(lia) Hpj Hact Ea)
      as [w' [E [Hs' [Hb [Hk [Hn [Hi _]]]]]]].
    exists w'. split; [exact E|]. split; [exact Hs'|]. split; [exact Hk|]. split; [exact Hb|].
    split; [exact Hn | exact Hi].
Qed.

Lemma sync_entries w :
  Sync w -> exists base j, historyIndex (bh w) = Z.of_nat j /\
    stackIndex (history (window w)) = Z.of_nat (base + j) /\
    (j < List.length (historyStack (bh w)))%nat /\
    EntriesOK base (history (window w)) (historyStack (bh w)).
Proof. intros Hs. pose proof Hs as Hs'. sync_destruct Hs'. exists base, j. repeat split; auto. Qed.

(** Where [back()] and [forward()] go from a synchronised wrapper. *)
Lemma back_as_pop w :
  Sync w -> canGoBack w = true ->
  exists base j, historyIndex (bh w) = Z.of_nat j /\
    stackIndex (history (window w)) = Z.of_nat (base + j) /\
    EntriesOK base (history (window w)) (historyStack (bh w)) /\
    (2 <= j < List.length (historyStack (bh w)))%nat /\
    back (window w) = moved (window w) (withIndex (history (window w)) (Z.of_nat (base + (j - 1)))).
Proof.
  intros Hs Hb. destruct (sync_entries w Hs) as [base [j [Hj [Hsi [Hjl Hen]]]]].
  unfold canGoBack in Hb. apply Z.ltb_lt in Hb. exists base, j.
  do 3 (split; [assumption|]). split; [lia|].
  rewrite back_moves by lia. do 3 f_equal. lia.
Qed.

Lemma forward_as_pop w :
  Sync w -> historyIndex (bh w) + 1 < Z.of_nat (List.length (historyStack (bh w))) ->
  exists base j, historyIndex (bh w) = Z.of_nat j /\
    stackIndex (history (window w)) = Z.of_nat (base + j) /\
    EntriesOK base (history (window w)) (historyStack (bh w)) /\
    (j + 1 < List.length (historyStack (bh w)))%nat /\
    forward (window w) = moved (window w) (withIndex (history (window w)) (Z.of_nat (base + (j + 1)))).
Proof.
  intros Hs Hf. destruct (sync_entries w Hs) as [base [j [Hj [Hsi [Hjl Hen]]]]].
  pose proof Hen as [Hlen _]. exists base, j.
  do 3 (split; [assumption|]). split; [lia|].
  rewrite forward_moves by lia. do 3 f_equal. lia.
Qed.

(** C6: [goBack()] from a synchronised wrapper that [canGoBack()]
    (two levels of handler nesting suffice) ends synchronised again.
    When the filters allow the [Back] to the location the browser shows,
    the wrapper's index goes one down over the same stack and every
    listener is told once, in order, of that location and [Back]; when
    one of them blocks it, the browser is moved back to the entry it
    left, and the wrapper and the listeners see nothing. *)
Theorem goBack_spec fuel w :
  Sync w -> canGoBack w = true ->
  let loc := getCurrentLocation (fst (back (window w))) in
  exists w', goBack parsePath keyAt isCriOS (S (S fuel)) w = Some w' /\ Sync w' /\
    if allowNavigation parsePath (bh w) (pathname loc) Back
    then historyIndex (bh w') = historyIndex (bh w) - 1 /\
         historyStack (bh w') = historyStack (bh w) /\
         notified w' = (notified w ++ map (fun l => (l, loc, Back)) (navigationListeners (bh w)))%list
    else bh w' = bh w /\ notified w' = notified w /\
         stackIndex (history (window w')) = stackIndex (history (window w)).
Proof.
  intros Hs Hb loc. destruct (back_as_pop w Hs Hb) as [base [j [Hj [Hsi [Hen [Hjl Eb]]]]]].
  unfold loc, goBack. rewrite Eb.
  destruct (pop_to fuel w base j (j - 1) Back Hs Hj Hsi Hen ltac:(lia) ltac:(lia)
              ltac:(rewrite (proj2 (Nat.ltb_lt (j - 1) j)) by lia; reflexivity))
    as [w' [E [Hs' [_ H]]]].
  exists w'. split; [exact E|]. split; [exact Hs'|].
  destruct (allowNavigation _ _ _ _); [destruct H as [-> Hn] | exact H].
  cbn [historyIndex historyStack withStack]. split; [lia|]. auto.
Qed.

(** [goForward()] from a synchronised wrapper with an entry of its
    own ahead ends synchronised again: allowed, the index goes one up
    and the listeners are told of [Forward]; blocked, the browser is
    moved back and nothing else changes. *)
Theorem goForward_spec fuel w :
  Sync w -> historyIndex (bh w) + 1 < Z.of_nat (List.length (historyStack (bh w))) ->
  let loc := getCurrentLocation (fst (forward (window w))) in
  exists w', goForward parsePath keyAt isCriOS (S (S fuel)) w = Some w' /\ Sync w' /\
    if allowNavigation parsePath (bh w) (pathname loc) Forward
    then historyIndex (bh w') = historyIndex (bh w) + 1 /\
         historyStack (bh w') = historyStack (bh w) /\
         notified w' = (notified w ++ map (fun l => (l, loc, Forward)) (navigationListeners (bh w)))%list
    else bh w' = bh w /\ notified w' = notified w /\
         stackIndex (history (window w')) = stackIndex (history (window w)).
Proof.
  intros Hs Hf loc. destruct (forward_as_pop w Hs Hf) as [base [j [Hj [Hsi [Hen [Hjl Ef]]]]]].
  unfold loc, goForward. rewrite Ef.
  destruct (pop_to fuel w base j (j + 1) Forward Hs Hj Hsi Hen ltac:(lia) ltac:(lia)
              ltac:(rewrite (proj2 (Nat.ltb_ge (j + 1) j)) by lia; reflexivity))
    as [w' [E [Hs' [_ H]]]].
  exists w'. split; [exact E|]. split; [exact Hs'|].
  destruct (allowNavigation _ _ _ _); [destruct H as [-> Hn] | exact H].
  cbn [historyIndex historyStack withStack]. split; [lia|]. auto.
Qed.

(** The constructor on a fresh window: [_initHistoryState] replaces the
    empty entry with our first key and pushes a second one. *)
Lemma construct_init fuel seed :
  exists w, construct parsePath keyAt isCriOS fuel initWindow seed = Some w /\ Sync w /\
    historyStack (bh w) = [keyAt seed; keyAt (S seed)] /\ historyIndex (bh w) = 1 /\
    stackIndex (history (window w)) = 1 /\ keySeed w = S (S seed) /\ notified w = [].
Proof.
  eexists. split; [reflexivity|].
  split; [|repeat split].
  exists 0%nat, 1%nat. cbn.
  split; [reflexivity|]. split; [reflexivity|]. split; [lia|]. split; [reflexivity|].
  split; [reflexivity|]. split.
  { constructor; [|constructor; [intros []|constructor]].
    intros [E|[]]. apply keyAt_inj in E. lia. }
  split.
  { intros k [<-|[<-|[]]]; eexists; split; [|reflexivity| |reflexivity]; lia. }
  split; [reflexivity|]. split; [reflexivity|]. split; [reflexivity|].
  intros [|[|[|i]]] k Hk; cbn in Hk; inversion Hk; subst; eexists; split; reflexivity.
Qed.

(** [push(path)] to a new pathname on a synchronised wrapper: when
    the filters allow the [Push], the entries after the current one are
    dropped, a fresh key is added after it and becomes current, the
    browser shows [path], the listeners are told of it and [Push], and
    the wrapper stays synchronised; when a filter blocks it nothing
    changes. *)
Theorem push_spec path w :
  Sync w -> String.eqb path (pathname (currentLocation w)) = false ->
  let w' := push parsePath keyAt path w in
  if allowNavigation parsePath (bh w) path Push
  then Sync w' /\
       historyStack (bh w') = (firstn (Z.to_nat (historyIndex (bh w) + 1)) (historyStack (bh w))
                               ++ [keyAt (keySeed w)])%list /\
       historyIndex (bh w') = historyIndex (bh w) + 1 /\
       pathname (currentLocation w') = path /\
       notified w' = (notified w ++ map (fun l => (l, currentLocation w', Push))
                                        (navigationListeners (bh w)))%list
  else w' = w.
Proof.
  intros Hs Ep w'. change (currentLocation w) with (getCurrentLocation (window w)) in Ep.
  pose proof (push_sync path w Hs) as Hs'.
  destruct (allowNavigation parsePath (bh w) path Push) eqn:Ea;
    [|unfold w', push; rewrite Ep, Ea; reflexivity].
  unfold w' in *. rewrite push_allowed in * by assumption.
  split; [exact Hs'|]. split; [reflexivity|]. split; [reflexivity|]. split; [|reflexivity].
  sync_destruct Hs. unfold currentLocation, getCurrentLocation. cbn [window notifyListeners location pathname].
  apply pushState_location; lia.
Qed.

(** [replace(path)] on a synchronised wrapper: when the filters
    allow the [Replace], the current key is replaced by a fresh one and
    the others kept, the index stays, the browser shows [path], the
    listeners are told of it and [Replace], and the wrapper stays
    synchronised; when a filter blocks it nothing changes. *)
Theorem replace_spec path w :
  Sync w ->
  let w' := replace parsePath keyAt path w in
  if allowNavigation parsePath (bh w) path Replace
  then Sync w' /\
       List.length (historyStack (bh w')) = List.length (historyStack (bh w)) /\
       nth_error (historyStack (bh w')) (Z.to_nat (historyIndex (bh w))) = Some (keyAt (keySeed w)) /\
       (forall i, i <> Z.to_nat (historyIndex (bh w)) ->
          nth_error (historyStack (bh w')) i = nth_error (historyStack (bh w)) i) /\
       historyIndex (bh w') = historyIndex (bh w) /\
       pathname (currentLocation w') = path /\
       notified w' = (notified w ++ map (fun l => (l, currentLocation w', Replace))
                                        (navigationListeners (bh w)))%list
  else w' = w.
Proof.
  intros Hs w'. pose proof (replace_sync path w Hs) as Hs'.
  destruct (allowNavigation parsePath (bh w) path Replace) eqn:Ea;
    [|unfold w', replace; rewrite Ea; reflexivity].
  unfold w' in *. rewrite replace_allowed in * by assumption.
  split; [exact Hs'|]. sync_destruct Hs. rewrite Hj, Nat2Z.id.
  cbn [bh notifyListeners withStack historyStack historyIndex].
  split; [apply jsSet_length; lia|].
  split; [rewrite jsSet_nth, Nat.eqb_refl by lia; reflexivity|].
  split; [intros i Hi; rewrite jsSet_nth by lia; now rewrite (proj2 (Nat.eqb_neq i j) Hi)|].
  split; [reflexivity|]. split; [|reflexivity].
  unfold currentLocation, getCurrentLocation. cbn [window notifyListeners location pathname].
  apply replaceState_location; lia.
Qed.

Lemma goBack_sync fuel w w' :
  Sync w -> canGoBack w = true ->
  goBack parsePath keyAt isCriOS (S (S fuel)) w = Some w' -> Sync w'.
Proof.
  intros Hs Hb E. destruct (back_as_pop w Hs Hb) as [base [j [Hj [Hsi [Hen [Hjl Eb]]]]]].
  unfold goBack in E. rewrite Eb in E.
  destruct (pop_to fuel w base j (j - 1) Back Hs Hj Hsi Hen ltac:(lia) ltac:(lia)
              ltac:(rewrite (proj2 (Nat.ltb_lt (j - 1) j)) by lia; reflexivity))
    as [w0 [E0 [Hs0 _]]]. congruence.
Qed.

Lemma goForward_sync fuel w w' :
  Sync w -> historyIndex (bh w) + 1 < Z.of_nat (List.length (historyStack (bh w))) ->
  goForward parsePath keyAt isCriOS (S (S fuel)) w = Some w' -> Sync w'.
Proof.
  intros Hs Hf E. destruct (forward_as_pop w Hs Hf) as [base [j [Hj [Hsi [Hen [Hjl Ef]]]]]].
  unfold goForward in E. rewrite Ef in E.
  destruct (pop_to fuel w base j (j + 1) Forward Hs Hj Hsi Hen ltac:(lia) ltac:(lia)
              ltac:(rewrite (proj2 (Nat.ltb_ge (j + 1) j)) by lia; reflexivity))
    as [w0 [E0 [Hs0 _]]]. congruence.
Qed.

Lemma setListeners_sync ls w : Sync w -> Sync (setListeners ls w).
Proof. intros Hs. exact Hs. Qed.

Lemma setFilters_sync fs w : Sync w -> Sync (setFilters fs w).
Proof. intros Hs. exact Hs. Qed.

(** The worlds a program using the class reaches: a wrapper constructed
    on a fresh window, then any sequence of the public methods, the
    moves only where the class offers them ([canGoBack()], an entry of
    ours ahead) and with the handler's fuel of [goBack_spec]. *)
Inductive Reachable : World -> Prop :=
| R_construct fuel seed w :
    construct parsePath keyAt isCriOS fuel initWindow seed = Some w -> Reachable w
| R_push path w : Reachable w -> Reachable (push parsePath keyAt path w)
| R_replace path w : Reachable w -> Reachable (replace parsePath keyAt path w)
| R_listen id w : Reachable w -> Reachable (listen id w)
| R_unlisten id w : Reachable w -> Reachable (removeNavigationListener id w)
| R_filter id f w : Reachable w -> Reachable (addFilter id f w)
| R_unfilter id w : Reachable w -> Reachable (removeNavigationFilter id w)
| R_goBack fuel w w' :
    Reachable w -> canGoBack w = true ->
    goBack parsePath keyAt isCriOS (S (S fuel)) w = Some w' -> Reachable w'
| R_goForward fuel w w' :
    Reachable w -> historyIndex (bh w) + 1 < Z.of_nat (List.length (historyStack (bh w))) ->
    goForward parsePath keyAt isCriOS (S (S fuel)) w = Some w' -> Reachable w'.

(** C7: every reachable world is synchronised: the browser's current
    entry is the one of the wrapper's index, every entry of ours holds
    the snapshot of the stack with its own key at its own index, the
    keys are distinct, and no restore is left pending. *)
Theorem reachable_sync w : Reachable w -> Sync w.
Proof.
  induction 1 as [fuel seed w E | | | | | | | fuel w w' _ IH Hb E | fuel w w' _ IH Hf E].
  - destruct (construct_init fuel seed) as [w0 [E0 [Hs _]]]. congruence.
  - now apply push_sync.
  - now apply replace_sync.
  - now apply setListeners_sync.
  - now apply setListeners_sync.
  - now apply setFilters_sync.
  - now apply setFilters_sync.
  - exact (goBack_sync fuel w w' IH Hb E).
  - exact (goForward_sync fuel w w' IH Hf E).
Qed.
End Sync.

End History.

(** ** Runs of the wrapper on the mock browser

      The scenarios of [BrowserHistory/index.test.ts]: a wrapper built on a
      fresh window, two pushes, back and forward, and a back a filter
      blocks.  Paths parse to a location with that [pathname] and [href];
      the [n]-th key is [n+1] letters [k]. *)
Module HistoryTests.
Import Mock History.

Definition pp (s : string) : LocationContext := mkLocationContext "" "" "" s "" s "" "" "".

Fixpoint keyOf (n : nat) : string :=
  match n with O => "k" | S n => String "k"%char (keyOf n) end.

Lemma keyOf_length n : String.length (keyOf n) = S n.
Proof. induction n as [|n IH]; cbn; [reflexivity | now rewrite IH]. Qed.

Lemma keyOf_inj m n : keyOf m = keyOf n -> m = n.
Proof. intros E. apply (f_equal String.length) in E. rewrite !keyOf_length in E. lia. Qed.

Definition initWorld : World :=
  initHistoryState keyOf (mkWorld (addPopStateListener initWindow) (mkBrowserHistory [] [] [] 0 false) 0 []).

Definition fooWorld : World := push pp keyOf "/foo" initWorld.

Definition barWorld : World := push pp keyOf "/bar" fooWorld.

Lemma construct_demo : construct pp keyOf false 0 initWindow 0 = Some initWorld.
Proof. reflexivity. Qed.

Lemma initWorld_sync : Sync keyOf initWorld.
Proof.
  destruct (construct_init pp keyOf false keyOf_inj 0 0) as [w [E [Hs _]]].
  rewrite construct_demo in E. injection E as <-. exact Hs.
Qed.

Lemma fooWorld_sync : Sync keyOf fooWorld.
Proof. apply push_sync, initWorld_sync. exact keyOf_inj. Qed.

Lemma barWorld_sync : Sync keyOf barWorld.
Proof. apply push_sync, fooWorld_sync. exact keyOf_inj. Qed.

(** What a run leaves: the wrapper's stack and index, the browser's index
    and the [pathname] and action of every notification. *)
Definition summary (o : option World) : option (list string * Z * Z * list (nat * string * NavigationAction)) :=
  match o with
  | Some w => Some (historyStack (bh w), historyIndex (bh w), stackIndex (history (window w)),
                    map (fun '(l, loc, a) => (l, pathname loc, a)) (notified w))
  | None => None
  end.

Example push_back_forward :
  summary (match goBack pp keyOf false 2 (listen 1 barWorld) with
           | Some w => goForward pp keyOf false 2 w | None => None end) =
  Some (["k"; "kk"; "kkk"; "kkkk"], 3, 3, [(1%nat, "/foo", Back); (1%nat, "/bar", Forward)]).
Proof. vm_compute. reflexivity. Qed.

Example blocked_back :
  summary (goBack pp keyOf false 2 (addFilter 7 (fun _ _ => true) (listen 1 barWorld))) =
  Some (["k"; "kk"; "kkk"; "kkkk"], 3, 3, []).
Proof. vm_compute. reflexivity. Qed.

Lemma goBack_spec_witness :
  canGoBack barWorld = true /\
  exists w', goBack pp keyOf false 2 barWorld = Some w' /\ Sync keyOf w' /\ historyIndex (bh w') = 2.
Proof.
  split; [reflexivity|].
  destruct (goBack_spec pp keyOf false keyOf_inj 0 barWorld barWorld_sync eq_refl) as [w' [E [Hs H]]].
  exists w'. split; [exact E|]. split; [exact Hs|]. destruct H as [H _]. exact H.
Defined.

Definition backWorld : World :=
  match goBack pp keyOf false 2 barWorld with Some w => w | None => barWorld end.

Lemma backWorld_eq : goBack pp keyOf false 2 barWorld = Some backWorld.
Proof. vm_compute. reflexivity. Qed.

Lemma backWorld_sync : Sync keyOf backWorld.
Proof. exact (goBack_sync pp keyOf false keyOf_inj 0 barWorld backWorld barWorld_sync eq_refl backWorld_eq). Qed.

Lemma goForward_spec_witness :
  historyIndex (bh backWorld) + 1 < Z.of_nat (List.length (historyStack (bh backWorld))) /\
  exists w', goForward pp keyOf false 2 backWorld = Some w' /\ Sync keyOf w' /\ historyIndex (bh w') = 3.
Proof.
  split; [vm_compute; reflexivity|].
  destruct (goForward_spec pp keyOf false keyOf_inj 0 backWorld backWorld_sync
              ltac:(vm_compute; reflexivity)) as [w' [E [Hs H]]].
  exists w'. split; [exact E|]. split; [exact Hs|]. destruct H as [H _]. rewrite H. vm_compute. reflexivity.
Defined.

Lemma handlePopState_terminates_witness :
  exists x, handlePopState pp keyOf false 6 (SHist ["k"; "kk"] 1) barWorld = Some x.
Proof.
  destruct (handlePopState_terminates pp keyOf false (SHist ["k"; "kk"] 1) barWorld
              ltac:(vm_compute; discriminate)) as [x Hx].
  exists x. apply Hx. vm_compute. lia.
Defined.

Lemma reachable_sync_witness : Sync keyOf barWorld.
Proof.
  apply (reachable_sync pp keyOf false keyOf_inj).
  apply R_push, R_push. apply (R_construct _ _ _ 0 0). reflexivity.
Defined.

Lemma push_spec_witness : pathname (currentLocation barWorld) = "/bar".
Proof.
  destruct (push_spec pp keyOf keyOf_inj "/bar" fooWorld fooWorld_sync ltac:(vm_compute; reflexivity))
    as [_ [_ [_ [H _]]]].
  exact H.
Defined.

Lemma replace_spec_witness :
  nth_error (historyStack (bh (replace pp keyOf "/baz" barWorld))) 3 = Some "kkkkk".
Proof.
  destruct (replace_spec pp keyOf keyOf_inj "/baz" barWorld barWorld_sync) as [_ [_ [H _]]].
  exact H.
Defined.

Lemma listen_unlisten_witness : removeNavigationListener 4 (listen 4 barWorld) = barWorld.
Proof. apply listen_unlisten. vm_compute. intros []. Defined.

End HistoryTests.
