(* ===== verification/JsObject.v ===== *)
(** * JavaScript objects used as dictionaries, and JavaScript [Set]s

    Several components keep a plain object literal [{}] as a map from
    strings ([SelectableItems.state.itemState], the result of
    [parseQueryParams], the modules of [StringManager]).  Such an object
    is modelled by its own properties, a [gmap string V]; a read [o[k]]
    finds an own property, or else a member of [Object.prototype] (a
    function, or the prototype itself for [__proto__]), or nothing
    ([undefined]).  A write [o[k] = v] of a primitive creates or replaces
    an own property, except for [__proto__], whose setter ignores a
    primitive.  [Object.assign({}, o, {[k]: v})] is such a write on a copy.

    A [Set<string>] is an insertion-ordered list without duplicates:
    [add] appends a new element, [delete] removes it, iteration follows
    the list. *)

From stdpp Require Import base gmap strings list sets.
Open Scope string_scope.

(** The own properties of [Object.prototype] (ECMAScript 2019, 19.1.3 and
    B.2.2), which every object literal inherits. *)
Definition objectProtoNames : list string :=
  ["constructor"; "hasOwnProperty"; "isPrototypeOf"; "propertyIsEnumerable";
   "toLocaleString"; "toString"; "valueOf"; "__defineGetter__"; "__defineSetter__";
   "__lookupGetter__"; "__lookupSetter__"; "__proto__"].

(** What a read [o[k]] finds. *)
Inductive Slot (V : Type) : Type :=
| Own (v : V)
| Inherited
| Absent.
Arguments Own {V} v.
Arguments Inherited {V}.
Arguments Absent {V}.

Definition dget {V} (o : gmap string V) (k : string) : Slot V :=
  match o !! k with
  | Some v => Own v
  | None => if bool_decide (k ∈ objectProtoNames) then Inherited else Absent
  end.

(** [o[k] = v] for a primitive [v]. *)
Definition dset {V} (o : gmap string V) (k : string) (v : V) : gmap string V :=
  if bool_decide (k = "__proto__") then o else <[k := v]> o.

(** [!!o[k]] of a boolean-valued object: an inherited member is truthy. *)
Definition truthyB (s : Slot bool) : bool :=
  match s with Own b => b | Inherited => true | Absent => false end.

(** [o[k] === false]. *)
Definition isFalse (s : Slot bool) : bool :=
  match s with Own false => true | _ => false end.

(** [o[k] == null] for an object whose values are never [null]. *)
Definition isNullish {V} (s : Slot V) : bool :=
  match s with Absent => true | _ => false end.

(** [Object.keys(o).filter(key => !!o[key])] as a set. *)
Definition selectedOf (o : gmap string bool) : gset string := dom (filter (λ kv, kv.2 = true) o).

(** [set.forEach(item => o[item] = v)]. *)
Definition setAll {V} (o : gmap string V) (items : list string) (v : V) : gmap string V :=
  foldl (λ o item, dset o item v) o items.

(** [Set.prototype.add] and [Set.prototype.delete]. *)
Definition setAdd (s : list string) (x : string) : list string :=
  if bool_decide (x ∈ s) then s else s ++ [x].

Definition setDelete (s : list string) (x : string) : list string :=
  filter (λ y, y ≠ x) s.

(** ** Reads and writes *)

Lemma dget_own {V} (o : gmap string V) k v : o !! k = Some v -> dget o k = Own v.
Proof. unfold dget. now intros ->. Qed.

Lemma dget_plain {V} (o : gmap string V) k :
  k ∉ objectProtoNames -> dget o k = match o !! k with Some v => Own v | None => Absent end.
Proof. intros Hk. unfold dget. destruct (o !! k); [reflexivity|]. now rewrite bool_decide_false. Qed.

Lemma dset_lookup {V} (o : gmap string V) k v x :
  k ≠ "__proto__" -> dset o k v !! x = if bool_decide (x = k) then Some v else o !! x.
Proof.
  intros Hk. unfold dset. rewrite bool_decide_false by exact Hk.
  case_bool_decide as E; [subst; apply lookup_insert_eq|]. now apply lookup_insert_ne.
Qed.

Lemma dset_proto {V} (o : gmap string V) v : dset o "__proto__" v = o.
Proof. unfold dset. now rewrite bool_decide_true. Qed.

Lemma dset_other {V} (o : gmap string V) k v x : x ≠ k -> dset o k v !! x = o !! x.
Proof.
  intros Hx. unfold dset. case_bool_decide; [reflexivity|]. now apply lookup_insert_ne.
Qed.

(** Deciding that a name is not a member of [Object.prototype], by evaluation. *)
Lemma not_proto_name x : existsb (λ y, bool_decide (x = y)) objectProtoNames = false -> x ∉ objectProtoNames.
Proof.
  intros H Hin. apply list_elem_of_In in Hin.
  assert (existsb (λ y, bool_decide (x = y)) objectProtoNames = true)
    by (apply existsb_exists; exists x; split; [exact Hin | now apply bool_decide_true]).
  congruence.
Qed.

Lemma proto_in_names : "__proto__" ∈ objectProtoNames.
Proof. unfold objectProtoNames. set_solver. Qed.

(** Only [k] can change in a loop of writes that touches [k] alone at each step. *)
Lemma foldl_local {V} (f : gmap string V -> string -> gmap string V) (o : gmap string V) items x :
  (forall o' y, y ≠ x -> f o' y !! x = o' !! x) ->
  x ∉ items -> foldl f o items !! x = o !! x.
Proof.
  intros Hf. revert o. induction items as [|y items IH]; intros o Hx; [reflexivity|].
  cbn [foldl]. rewrite IH by set_solver. apply Hf. set_solver.
Qed.

Lemma setAll_lookup {V} (o : gmap string V) items v x :
  x ≠ "__proto__" ->
  setAll o items v !! x = if bool_decide (x ∈ items) then Some v else o !! x.
Proof.
  intros Hx. unfold setAll. revert o. induction items as [|y items IH]; intros o.
  - cbn. now rewrite bool_decide_false by set_solver.
  - cbn [foldl]. rewrite IH. destruct (decide (x ∈ items)) as [Hin|Hin].
    + rewrite !bool_decide_true by set_solver. reflexivity.
    + rewrite (bool_decide_false _ Hin). destruct (decide (x = y)) as [->|Hne].
      * rewrite bool_decide_true by set_solver. unfold dset. rewrite bool_decide_false by exact Hx.
        apply lookup_insert_eq.
      * rewrite bool_decide_false by set_solver. now apply dset_other.
Qed.

Lemma setAll_proto {V} (o : gmap string V) items v : setAll o items v !! "__proto__" = o !! "__proto__".
Proof.
  unfold setAll. revert o. induction items as [|y items IH]; intros o; [reflexivity|].
  cbn [foldl]. rewrite IH. unfold dset. case_bool_decide; [reflexivity|].
  now apply lookup_insert_ne.
Qed.

Lemma selectedOf_spec (o : gmap string bool) x : x ∈ selectedOf o <-> o !! x = Some true.
Proof.
  unfold selectedOf. rewrite elem_of_dom, map_lookup_filter.
  destruct (o !! x) as [[]|]; cbn.
  - split; [reflexivity|]. intros _. eexists. reflexivity.
  - split; [|discriminate]. intros [b H]. simplify_option_eq.
  - split; [|discriminate]. intros [b H]. discriminate.
Qed.

(** A loop of conditional writes, each at its own item, leaves at [x] what
    one step at [x] leaves: the steps for other items do not touch [x],
    and a second step at [x] writes the same value again. *)
Lemma foldl_cond_dset {V} (cond : Slot V -> string -> bool) (val : string -> V)
    (n : gmap string V) items x :
  foldl (λ n y, if cond (dget n y) y then dset n y (val y) else n) n items !! x =
  if bool_decide (x ∈ items) then (if cond (dget n x) x then dset n x (val x) else n) !! x
  else n !! x.
Proof.
  set (g := λ (n : gmap string V) y, if cond (dget n y) y then dset n y (val y) else n).
  assert (H1 : forall n y z, z ≠ y -> g n y !! z = n !! z).
  { intros n' y z Hz. unfold g. destruct (cond _ _); [now apply dset_other | reflexivity]. }
  assert (Hd : forall (n n' : gmap string V) y, n !! y = n' !! y -> dget n y = dget n' y).
  { intros n1 n2 y E. unfold dget. now rewrite E. }
  assert (Hs : forall (n n' : gmap string V) y v, n !! y = n' !! y -> dset n y v !! y = dset n' y v !! y).
  { intros n1 n2 y v E. unfold dset. case_bool_decide; [exact E|]. now rewrite !lookup_insert_eq. }
  assert (H2 : forall n n' y, n !! y = n' !! y -> g n y !! y = g n' y !! y).
  { intros n1 n2 y E. unfold g. rewrite (Hd n1 n2 y E). destruct (cond _ _); [now apply Hs | exact E]. }
  assert (H3 : forall n y, g (g n y) y !! y = g n y !! y).
  { intros n' y. unfold g. destruct (cond (dget n' y) y) eqn:C; [|now rewrite C].
    set (m := dset n' y (val y)). destruct (cond (dget m y) y); [|reflexivity].
    unfold m, dset. case_bool_decide; [reflexivity|]. now rewrite !lookup_insert_eq. }
  fold g. revert n. induction items as [|y items IH]; intros n; cbn [foldl].
  - now rewrite bool_decide_false by set_solver.
  - rewrite IH. fold (g n x). destruct (decide (x = y)) as [->|Hne].
    + rewrite (bool_decide_true (y ∈ y :: items)) by set_solver.
      case_bool_decide; [apply H3 | reflexivity].
    + rewrite H1 by exact Hne. destruct (decide (x ∈ items)) as [Hin|Hin].
      * rewrite !bool_decide_true by set_solver. apply H2, H1, Hne.
      * rewrite !bool_decide_false by set_solver. reflexivity.
Qed.

(** ** Sets *)

Lemma setAdd_NoDup s x : NoDup s -> NoDup (setAdd s x).
Proof.
  unfold setAdd. case_bool_decide as Hx; [done|]. intros Hs.
  apply NoDup_app. split; [exact Hs|]. split; [|apply NoDup_singleton]. set_solver.
Qed.

Lemma elem_of_setAdd s x y : y ∈ setAdd s x <-> y ∈ s \/ y = x.
Proof. unfold setAdd. case_bool_decide; set_solver. Qed.

Lemma elem_of_setDelete s x y : y ∈ setDelete s x <-> y ∈ s /\ y ≠ x.
Proof. unfold setDelete. rewrite list_elem_of_filter. tauto. Qed.

Lemma setDelete_NoDup s x : NoDup s -> NoDup (setDelete s x).
Proof. unfold setDelete. apply NoDup_filter. Qed.

Lemma elem_of_foldl_setDelete s l y : y ∈ foldl setDelete s l <-> y ∈ s /\ y ∉ l.
Proof.
  revert s. induction l as [|x l IH]; intros s; cbn [foldl].
  - set_solver.
  - rewrite IH, elem_of_setDelete. set_solver.
Qed.

Lemma foldl_setDelete_NoDup s l : NoDup s -> NoDup (foldl setDelete s l).
Proof. revert s. induction l as [|x l IH]; intros s Hs; cbn [foldl]; [exact Hs|]. apply IH, setDelete_NoDup, Hs. Qed.

Create HintDb jsobj.
#[export] Hint Resolve setAdd_NoDup setDelete_NoDup : jsobj.
