(* ===== verification/StringUtils.v ===== *)
(** * String templating and class strings: [src/src/StringUtils/index.ts]

      [replaceTokens] is [formatStr.replace(/{(\d+)}/g, ...)]: the global
      replace scans from the left, and at each position where the pattern
      matches it substitutes the match and resumes after it; elsewhere it
      keeps one character.  [tokenAt] is the pattern tried at one position,
      [replaceGlobal] the scan (its fuel, the length of the string, is what
      the scan consumes at least).  The arguments are given by the strings
      their [toString()] returns.

      [buildClassString] joins with spaces the keys of a dictionary whose
      value is [true], in the order [Object.keys] lists them: integer keys
      ascending first, then the others in insertion order.

      The theorems show that text without a token is kept, that each token
      [{i}] is replaced by the [i]-th argument when there is one and kept
      otherwise, and that substituted text is not scanned again. *)

From Stdlib Require Import List String Ascii Arith NArith Lia Bool.
From S2P Require Import Prelude.
Import ListNotations.
Open Scope nat_scope.
Open Scope string_scope.

(** [s.split(c)] for a one-character separator: the pieces between the
    separators, the empty ones included. *)
Fixpoint splitOn (c : ascii) (s : string) : list string :=
  match s with
  | EmptyString => [""%string]
  | String d s' =>
      let parts := splitOn c s' in
      if Ascii.eqb d c then ""%string :: parts
      else match parts with p :: ps => String d p :: ps | [] => [String d ""] end
  end.

Module Tokens.

Definition isDigit (c : ascii) : bool :=
  (Nat.leb 48 (nat_of_ascii c) && Nat.leb (nat_of_ascii c) 57)%bool.

(** The longest prefix of decimal digits ([\d+] is greedy) and the rest. *)
Fixpoint spanDigits (s : string) : string * string :=
  match s with
  | String c rest =>
      if isDigit c then let (ds, r) := spanDigits rest in (String c ds, r) else (EmptyString, s)
  | EmptyString => (EmptyString, EmptyString)
  end.

(** [ToNumber] of a string of decimal digits. *)
Fixpoint digitsValueAcc (acc : N) (s : string) : N :=
  match s with
  | String c rest => digitsValueAcc (acc * 10 + (N_of_ascii c - 48))%N rest
  | EmptyString => acc
  end.

Definition digitsValue (s : string) : N := digitsValueAcc 0 s.

(** [/{(\d+)}/] tried at the start of [s]: the group [p1] and the text
    after the match. *)
Definition tokenAt (s : string) : option (string * string) :=
  match s with
  | String "{" rest =>
      let (ds, r) := spanDigits rest in
      match ds, r with
      | String _ _, String "}" after => Some (ds, after)
      | _, _ => None
      end
  | _ => None
  end.

(** [String.prototype.replace] with a global pattern and a replacer. *)
Fixpoint replaceGlobal (fuel : nat) (matchAt : string -> option (string * string))
    (replacer : string -> string) (s : string) : string :=
  match fuel with
  | O => s
  | S fuel' =>
      match s with
      | EmptyString => EmptyString
      | String c rest =>
          match matchAt s with
          | Some (p1, after) => replacer p1 ++ replaceGlobal fuel' matchAt replacer after
          | None => String c (replaceGlobal fuel' matchAt replacer rest)
          end
      end
  end.

(** [replaceTokens(formatStr, ...valueArgs)] (lines 4-13). *)
Definition replaceTokens (formatStr : string) (valueArgs : list string) : string :=
  let numValues := List.length valueArgs in
  replaceGlobal (String.length formatStr) tokenAt
    (fun p1 => if N.ltb (digitsValue p1) (N.of_nat numValues)
               then nth (N.to_nat (digitsValue p1)) valueArgs ""
               else "{" ++ p1 ++ "}")
    formatStr.

(** ** [buildClassString] *)

(** A canonical array index: digits without a leading zero (or ["0"]),
    below [2^32 - 1]. *)
Definition isArrayIndex (k : string) : bool :=
  match k with
  | EmptyString => false
  | String c rest =>
      let (ds, r) := spanDigits k in
      (String.eqb r "" && (negb (Ascii.eqb c "0") || String.eqb rest "")
       && N.ltb (digitsValue k) 4294967295)%bool
  end.

Fixpoint insertByValue (k : string) (l : list string) : list string :=
  match l with
  | [] => [k]
  | k' :: l' => if N.leb (digitsValue k) (digitsValue k') then k :: l else k' :: insertByValue k l'
  end.

(** [Object.keys] of an object whose own keys, in insertion order, are [ks]. *)
Definition objectKeys (ks : list string) : list string :=
  fold_right insertByValue [] (filter isArrayIndex ks) ++ filter (fun k => negb (isArrayIndex k)) ks.

(** [buildClassString(classNames)] (lines 19-27), for an object literal
    with distinct keys given in insertion order. *)
Definition buildClassString (classNames : list (string * bool)) : string :=
  let value k := match find (fun kv => String.eqb (fst kv) k) classNames with
                 | Some (_, b) => b | None => false end in
  String.concat " " (filter value (objectKeys (map fst classNames))).

(** ** Strings *)

Lemma concat_cons_empty (x : string) xs : String.concat "" (x :: xs) = x ++ String.concat "" xs.
Proof.
  destruct xs as [|y xs]; [cbn|reflexivity].
  induction x as [|c x IH]; cbn; [reflexivity|]. now rewrite <- IH.
Qed.

(** ** Scanning *)

Lemma spanDigits_app s : fst (spanDigits s) ++ snd (spanDigits s) = s.
Proof.
  induction s as [|c s IH]; [reflexivity|]. cbn.
  destruct (isDigit c); [|reflexivity]. destruct (spanDigits s) as [ds r]. cbn in *. now rewrite IH.
Qed.

Lemma replaceGlobal_fuel matchAt replacer s f :
  (forall s p1 after, matchAt s = Some (p1, after) -> String.length after < String.length s) ->
  String.length s <= f ->
  replaceGlobal f matchAt replacer s = replaceGlobal (String.length s) matchAt replacer s.
Proof.
  intros Hm. revert s f. induction s as [s IH] using (Wf_nat.induction_ltof1 _ String.length).
  intros f Hf. destruct s as [|c rest]; [destruct f; reflexivity|].
  destruct f as [|f]; cbn in Hf; [lia|]. cbn [String.length replaceGlobal].
  destruct (matchAt (String c rest)) as [[p1 after]|] eqn:E.
  - pose proof (Hm _ _ _ E) as Hl. cbn in Hl.
    rewrite (IH after Hl f) by lia. rewrite (IH after Hl (String.length rest)) by lia. reflexivity.
  - rewrite (IH rest ltac:(unfold Wf_nat.ltof; cbn; lia) f) by lia.
    reflexivity.
Qed.

Lemma spanDigits_length s : String.length (snd (spanDigits s)) <= String.length s.
Proof.
  induction s as [|c s IH]; [reflexivity|]. cbn. destruct (isDigit c); [|reflexivity].
  destruct (spanDigits s) as [ds r]. cbn in *. lia.
Qed.

Lemma tokenAt_shorter s p1 after : tokenAt s = Some (p1, after) -> String.length after < String.length s.
Proof.
  destruct s as [|c rest]; [discriminate|]. cbn.
  destruct (Ascii.ascii_dec c "{"); [subst|destruct c as [[] [] [] [] [] [] [] []]; try discriminate; exfalso; auto].
  pose proof (spanDigits_length rest) as Hl.
  destruct (spanDigits rest) as [ds r]. cbn in Hl.
  destruct ds as [|d ds]; [discriminate|].
  destruct r as [|[[] [] [] [] [] [] [] []] r]; try discriminate. intros [= _ <-]. cbn in Hl. lia.
Qed.

(** ** Templates

    A template is a sequence of literal text without ['{'] and of tokens
    [{ds}] ([ds] a non-empty string of digits); [renderTemplate] writes it
    out.  Substituting a template is substituting each piece on its own. *)

Inductive Piece : Type :=
| Text (s : string)
| Token (ds : string).

Definition renderPiece (p : Piece) : string :=
  match p with Text s => s | Token ds => "{" ++ ds ++ "}" end.

Definition renderTemplate (ps : list Piece) : string := String.concat "" (map renderPiece ps).

Fixpoint noBrace (s : string) : bool :=
  match s with EmptyString => true | String c r => negb (Ascii.eqb c "{") && noBrace r end.

Fixpoint allDigits (s : string) : bool :=
  match s with EmptyString => true | String c r => isDigit c && allDigits r end.

Definition pieceOK (p : Piece) : bool :=
  match p with
  | Text s => noBrace s
  | Token ds => negb (String.eqb ds "") && allDigits ds
  end.

Definition substPiece (valueArgs : list string) (p : Piece) : string :=
  match p with
  | Text s => s
  | Token ds => if N.ltb (digitsValue ds) (N.of_nat (List.length valueArgs))
                then nth (N.to_nat (digitsValue ds)) valueArgs ""
                else "{" ++ ds ++ "}"
  end.

Lemma spanDigits_digits ds r :
  allDigits ds = true -> isDigit (match r with String c _ => c | EmptyString => "a"%char end) = false ->
  spanDigits (ds ++ r) = (ds, r).
Proof.
  intros Hd Hr. induction ds as [|c ds IH]; cbn in *.
  - destruct r as [|c r]; [reflexivity|]. cbn. now rewrite Hr.
  - apply andb_true_iff in Hd as [Hc Hd]. rewrite Hc, IH by exact Hd. reflexivity.
Qed.

Section Replace.
Variable f : string -> string.

Local Abbreviation rg s := (replaceGlobal (String.length s) tokenAt f s).

Lemma rg_fuel s n : String.length s <= n -> replaceGlobal n tokenAt f s = rg s.
Proof. apply replaceGlobal_fuel, tokenAt_shorter. Qed.

Lemma rg_text s r : noBrace s = true -> rg (s ++ r) = s ++ rg r.
Proof.
  induction s as [|c s IH]; intros Hs; [reflexivity|].
  cbn in Hs. apply andb_true_iff in Hs as [Hc Hs].
  cbn [append String.length replaceGlobal].
  replace (tokenAt (String c (s ++ r))) with (@None (string * string)).
  - now rewrite IH.
  - unfold tokenAt. destruct (Ascii.eqb_spec c "{") as [->|Hne]; [discriminate|].
  destruct c as [[] [] [] [] [] [] [] []]; try reflexivity. exfalso. now apply Hne.
Qed.

Lemma rg_token ds r :
  negb (String.eqb ds "") && allDigits ds = true ->
  rg ("{" ++ ds ++ "}" ++ r) = f ds ++ rg r.
Proof.
  intros H. apply andb_true_iff in H as [Hne Hd].
  cbn [append String.length replaceGlobal].
  unfold tokenAt. rewrite (spanDigits_digits ds (String "}" r)) by (exact Hd || reflexivity).
  destruct ds as [|d ds]; [discriminate|]. cbn [append].
  rewrite rg_fuel; [reflexivity|]. cbn [String.length]. rewrite length_append_str. cbn. lia.
Qed.

End Replace.

(** substituting the tokens of a template replaces each token [{i}]
    by the [i]-th argument when there are more than [i] arguments and
    keeps it otherwise, leaves the text between tokens as it is, and does
    not scan the substituted arguments again. *)
Theorem replaceTokens_template ps valueArgs :
  forallb pieceOK ps = true ->
  replaceTokens (renderTemplate ps) valueArgs = String.concat "" (map (substPiece valueArgs) ps).
Proof.
  unfold replaceTokens, renderTemplate. induction ps as [|p ps IH]; intros Hok; [reflexivity|].
  cbn [forallb] in Hok. apply andb_true_iff in Hok as [Hp Hok].
  cbn [map]. rewrite !concat_cons_empty. destruct p as [s|ds]; cbn [renderPiece substPiece pieceOK] in *.
  - rewrite rg_text by exact Hp. now rewrite IH.
  - rewrite !append_assoc_str, rg_token by exact Hp. now rewrite IH.
Qed.

(** ** [split] *)

Lemma splitOn_nonempty c s : splitOn c s <> [].
Proof. destruct s; cbn; [discriminate|]. destruct (Ascii.eqb _ _), (splitOn c s); discriminate. Qed.

Lemma splitOn_app c a s :
  splitOn c a = [a] -> splitOn c (a ++ s) =
    match splitOn c s with p :: ps => (a ++ p) :: ps | [] => [a] end.
Proof.
  induction a as [|d a IH]; cbn; intros H.
  - now destruct (splitOn c s) eqn:E; [destruct (splitOn_nonempty c s E)|].
  - destruct (Ascii.eqb d c); [discriminate|].
    destruct (splitOn c a) as [|p [|]] eqn:E; try discriminate; [destruct (splitOn_nonempty c a E)|].
    injection H as <-. rewrite IH by reflexivity.
    now destruct (splitOn c s) eqn:E'; [destruct (splitOn_nonempty c s E')|].
Qed.

(** A piece without the separator, then the separator. *)
Lemma splitOn_sep c a b : splitOn c a = [a] -> splitOn c (a ++ String c b) = a :: splitOn c b.
Proof.
  intros H. rewrite (splitOn_app c a _ H). cbn. rewrite Ascii.eqb_refl.
  now rewrite append_empty_r_str.
Qed.

(** Joining pieces without the separator and splitting gives them back. *)
Lemma splitOn_concat c xs :
  xs <> [] -> Forall (fun x => splitOn c x = [x]) xs -> splitOn c (String.concat (String c "") xs) = xs.
Proof.
  induction xs as [|x [|y xs] IH]; intros Hne Hall; [contradiction| |].
  - inversion Hall; subst. cbn. assumption.
  - inversion Hall as [|? ? Hx Hrest]; subst. change (String.concat (String c "") (x :: y :: xs))
      with (x ++ String c "" ++ String.concat (String c "") (y :: xs)).
    cbn [String.append]. rewrite (splitOn_sep c x _ Hx). f_equal. apply IH; [discriminate | exact Hrest].
Qed.

End Tokens.

(** ** The cases of [StringUtils/test] *)
Module TokensTests.
Import Tokens.

Example replaceTokens_tests :
  replaceTokens "mmm, tastes like {0}" ["chicken"] = "mmm, tastes like chicken" /\
  replaceTokens "the {0} goes {1}" ["cow"; "mooooo!"] = "the cow goes mooooo!" /\
  replaceTokens "do the {0}, come on and do the {0}" ["Humpty Hump"] =
    "do the Humpty Hump, come on and do the Humpty Hump" /\
  replaceTokens "the {0} goes {1}" ["{1}"; "mooooo!"] = "the {1} goes mooooo!" /\
  replaceTokens "the {0} goes {1}" ["cow"] = "the cow goes {1}" /\
  replaceTokens "{01}{x}{}{{1}}" ["a"; "b"] = "b{x}{}{b}".
Proof. vm_compute. repeat split. Qed.

Example buildClassString_tests :
  buildClassString [("foo", true)] = "foo" /\
  buildClassString [("foo", false)] = "" /\
  buildClassString [("foo", true); ("bar", true)] = "foo bar" /\
  buildClassString [("foo", false); ("bar", true)] = "bar" /\
  buildClassString [("foo", true); ("undefined", false)] = "foo" /\
  buildClassString [("b", true); ("10", true); ("2", true)] = "2 10 b".
Proof. vm_compute. repeat split. Qed.

Lemma replaceTokens_template_witness :
  replaceTokens "the {0} goes {1}" ["cow"; "mooooo!"] = "the cow goes mooooo!".
Proof.
  exact (replaceTokens_template [Text "the "; Token "0"; Text " goes "; Token "1"] ["cow"; "mooooo!"]
           eq_refl).
Defined.

End TokensTests.
