(* ===== verification/SearchInput.v ===== *)
(** * The search box: [src/src/SearchInput/index.tsx]

      [SearchInput] is a controlled text input: its state is the text shown,
      and every change of it goes through [_updateValue], which does nothing
      when the text is unchanged and otherwise sets the state and calls the
      owner's [onChange] with the new text.  The owner's state is a type
      [O] and its [onChange] a function on it ([None] when the prop is not
      given), so the component composes with any owner; [AutoComplete.v]
      plugs it into the autocomplete and [SelectableItems.v] into the
      selectable items.

      Typing is cut to [maxSearchLength] characters (the strings are ASCII:
      [substr] counts UTF-16 units, which are characters here).  Escape
      clears the box unless the owner's [onKeyDown] prevented the default or
      [clearOnEscape] is off, and then blurs the input ([blurred]). *)

From Stdlib Require Import String Bool Arith Lia.
Open Scope string_scope.

Module Search.

(** [const maxSearchLength = 50] (line 5). *)
Definition maxSearchLength : nat := 50.

(** The props the model reads (lines 7-18); [clearOnEscape] with its
    default [true] (lines 26-28) already applied. *)
Record SearchInputProps (O : Type) : Type := mkSearchInputProps {
  clearOnEscape : bool;
  onChange : option (string -> O -> O)
}.
Arguments mkSearchInputProps {O}.
Arguments clearOnEscape {O}.
Arguments onChange {O}.

(** [interface SearchInputState] (lines 20-22). *)
Record SearchInputState : Type := mkSearchInputState { value : string }.

(** The constructor (lines 32-41). *)
Definition initialState : SearchInputState := mkSearchInputState "".

(** A key press as the handler sees it: the key, and whether the owner's
    [onKeyDown], called first, prevented the default. *)
Record KeyEvent : Type := mkKeyEvent { key : string; defaultPrevented : bool }.

Section Handlers.
Context {O : Type}.
Variable props : SearchInputProps O.

(** [_updateValue(newValue)] (lines 143-156). *)
Definition updateValue (newValue : string) (st : SearchInputState) (o : O) : SearchInputState * O :=
  if String.eqb newValue (value st) then (st, o)
  else (mkSearchInputState newValue,
      match onChange props with Some f => f newValue o | None => o end).

(** [clear()] and [setValue(txt)] (lines 43-49). *)
Definition clear := updateValue "".
Definition setValue (txt : string) := updateValue txt.

(** [_onClearSearch] (lines 108-110), the clear button. *)
Definition onClearSearch := updateValue "".

(** [_onChange(e)] (lines 112-115): the typed text, cut to the maximum. *)
Definition onInputChange (typed : string) := updateValue (substring 0 maxSearchLength typed).

(** [_onKeyDown(e)] (lines 126-139): the new state, the owner's state,
  and whether the input was blurred. *)
Definition onKeyDown (e : KeyEvent) (st : SearchInputState) (o : O) : SearchInputState * O * bool :=
  if negb (defaultPrevented e) && String.eqb (key e) "Escape" && clearOnEscape props then
  let (st', o') := clear st o in (st', o', true)
  else (st, o, false).

(** What [render] (lines 57-106) shows that depends on the state: the
  text of the input and whether the clear button has class [hidden]. *)
Record SearchInputView : Type := mkSearchInputView { shownText : string; clearHidden : bool }.

Definition render (st : SearchInputState) : SearchInputView :=
  mkSearchInputView (value st) (String.eqb (value st) "").

End Handlers.

Lemma substring_length_le s n : String.length (substring 0 n s) <= n.
Proof.
  revert s. induction n as [|n IH]; intros [|c s]; cbn; try lia. specialize (IH s). lia.
Qed.

(** ** Events *)

(** What can happen to the box: typing, a click on the clear button, a
    key press, and the two methods the owner calls on it. *)
Inductive InputEvent : Type :=
| Typed (text : string)
| ClearClicked
| KeyPressed (e : KeyEvent)
| ClearCalled
| SetValueCalled (txt : string).

Definition inputStep {O} (props : SearchInputProps O) (ev : InputEvent)
    (st : SearchInputState) (o : O) : SearchInputState * O :=
  match ev with
  | Typed text => onInputChange props text st o
  | ClearClicked => onClearSearch props st o
  | KeyPressed e => fst (onKeyDown props e st o)
  | ClearCalled => clear props st o
  | SetValueCalled txt => setValue props txt st o
  end.

(** What the box promises its owner: an owner that records the text it
    is told about knows the text the box shows. *)
Class TracksInput (O : Type) (onChange : string -> O -> O) := {
  tracked : O -> string;
  tracked_onChange : forall v o, tracked (onChange v o) = v
}.

Section Tracking.
Context {O : Type} (f : string -> O -> O) `{!TracksInput O f}.
Variable clearOnEscape : bool.
Let props := mkSearchInputProps clearOnEscape (Some f).

Lemma updateValue_tracks v st o :
  tracked o = value st -> tracked (snd (updateValue props v st o)) = value (fst (updateValue props v st o)).
Proof.
  intros H. unfold updateValue. destruct (String.eqb_spec v (value st)); cbn; [exact H|].
  apply tracked_onChange.
Qed.

(** Whatever happens to the search box, an owner that records what
  [onChange] tells it knows the text the box shows: [_updateValue] calls
  [onChange] on every change and only then. *)
Theorem inputStep_tracks ev st o :
  tracked o = value st ->
  tracked (snd (inputStep props ev st o)) = value (fst (inputStep props ev st o)).
Proof.
  intros H. destruct ev as [text| |e| |txt]; cbn [inputStep]; try (apply updateValue_tracks; exact H).
  unfold onKeyDown. destruct (_ && _ && _); [|exact H].
  unfold clear. destruct (updateValue props "" st o) as [st' o'] eqn:E. cbn.
  pose proof (updateValue_tracks "" st o H) as Ht. rewrite E in Ht. exact Ht.
Qed.

End Tracking.

(** Typing never puts more than [maxSearchLength] characters in the box. *)
Lemma typed_short {O} (p : SearchInputProps O) text st o :
  String.length (value (fst (onInputChange p text st o))) <= maxSearchLength \/
  fst (onInputChange p text st o) = st.
Proof.
  unfold onInputChange, updateValue. destruct (String.eqb _ _); [now right|left].
  apply substring_length_le.
Qed.

End Search.
