(* ===== verification/AutoComplete.v ===== *)
(** * The autocomplete: [src/src/AutoComplete/index.tsx]

      [AutoComplete] wraps the [react-autocomplete] library (not modelled:
      its highlighted index and open state are inputs here) around a
      [SearchInput] it renders itself.  What it adds is [_onItemSelect]:
      when the user picks an item it clears the search box (or sets it to
      the item when [setValueOnSelect]), and then calls the owner's
      [onSelect].  The box's [onChange] is the owner's [onInputChange], so
      clearing it tells the owner first.  The default menu and item
      renderers give the items and their classes. *)

From Stdlib Require Import String List Bool.
From S2P Require Import StringUtils SearchInput.
Import ListNotations.
Open Scope string_scope.

Module AC.
Import Search Tokens.

(** The props [_onItemSelect] and [_renderInput] read (lines 7-37), with
    the defaults of lines 75-80 applied. *)
Record AutoCompleteProps (O : Type) : Type := mkAutoCompleteProps {
  clearSearchOnSelect : bool;
  setValueOnSelect : bool;
  onInputChange : option (string -> O -> O);
  onSelect : option (string -> O -> O)
}.
Arguments mkAutoCompleteProps {O}.
Arguments clearSearchOnSelect {O}.
Arguments setValueOnSelect {O}.
Arguments onInputChange {O}.
Arguments onSelect {O}.

(** [static defaultProps] (lines 75-80): clear on select, do not set. *)
Definition withDefaults {O} (onInputChange onSelect : option (string -> O -> O)) : AutoCompleteProps O :=
  mkAutoCompleteProps true false onInputChange onSelect.

(** [_renderInput] (lines 138-162): the [SearchInput] it renders, with the
    owner's [onInputChange] as its [onChange] and its default
    [clearOnEscape]. *)
Definition inputProps {O} (p : AutoCompleteProps O) : SearchInputProps O :=
  mkSearchInputProps true (onInputChange p).

(** [_onItemSelect(value, item)] (lines 121-132). *)
Definition onItemSelect {O} (p : AutoCompleteProps O) (value : string)
    (si : SearchInputState) (o : O) : SearchInputState * O :=
  let '(si, o) :=
    if clearSearchOnSelect p then clear (inputProps p) si o
    else if setValueOnSelect p then setValue (inputProps p) value si o
    else (si, o) in
  (si, match onSelect p with Some f => f value o | None => o end).

(** [defaultRenderItem] (lines 52-64): the item and its class string. *)
Definition defaultRenderItem (item : string) (isHighlighted : bool) : string * string :=
  (item, buildClassString [("autocomplete__item", true); ("active", isHighlighted)]).

(** [defaultRenderMenu] (lines 66-72): a menu when there are items. *)
Definition defaultRenderMenu (items : list (string * string)) : option (list (string * string)) :=
  match items with [] => None | _ => Some items end.

(** The menu of the items with the one at [highlighted] marked, as
    [react-autocomplete] calls the renderers. *)
Definition renderMenu (items : list string) (highlighted : option nat) : option (list (string * string)) :=
  defaultRenderMenu
    (map (fun '(i, item) => defaultRenderItem item (match highlighted with Some h => Nat.eqb h i | None => false end))
         (combine (seq 0 (List.length items)) items)).

(** Picking an item from the menu with the default props empties the
    search box; the owner hears of it, in this order, through
    [onInputChange("")] when the box was not empty, and then through
    [onSelect(value)]. *)
Theorem onItemSelect_default {O} (change select : string -> O -> O) value si o :
  onItemSelect (withDefaults (Some change) (Some select)) value si o =
    (mkSearchInputState "",
     select value (if String.eqb (Search.value si) "" then o else change "" o)).
Proof. destruct si as [[|c v]]; reflexivity. Qed.

End AC.
