(* ===== verification/SelectableItems.v ===== *)
(** * The pill selector: [src/src/SelectableItems/index.tsx]

      [SelectableItems] shows the items of two groups given by its props,
      the initially selected [initialItems] and the [possibleItems], plus
      the items the user [added] through its autocomplete, as pills the
      user toggles.  Its state (lines 22-26) is the set of added items, the
      selection [itemState] (a plain object from item to boolean, see
      [JsObject.v]) and the autocomplete's results; the field
      [_searchString] is the last search text.  Every change of the
      selection is reported to the owner's [onItemsSelect] as the set of
      selected items.

      [Sel] models the component as a [Component] record and one function
      per handler; the autocomplete and its search box ([AutoComplete.v],
      [SearchInput.v]) are plugged in with [_handleSearchChange] and
      [_handleSearchSelect] as their callbacks, and [Widget] is the three
      together, driven by the user's events.  The owner's [searchCallback]
      answers whenever it likes: an answer is an event of its own.

      Sets are [null] in some uses of the component (its tests pass
      [initialItems={null}]), so the groups are options;
      [componentWillReceiveProps] reads them without a guard and throws
      ([None]) on [null]. *)

From stdpp Require Import base gmap strings list sets.
From S2P Require Import JsObject StringUtils SearchInput AutoComplete.
Open Scope string_scope.

Module Sel.
Import Search AC.

(** [interface SelectableItemsProps] (lines 11-20): the groups, whether
    the two callbacks are given, and what the header texts need. *)
Record SelectableItemsProps : Type := mkProps {
  initialItems : option (list string);
  possibleItems : option (list string);
  hasOnItemsSelect : bool;
  hasSearchCallback : bool;
  headerText : string;
  title : option string
}.

(** [interface SelectableItemsState] (lines 22-26). *)
Record SelectableItemsState : Type := mkState {
  addedItems : list string;
  itemState : gmap string bool;
  searchResults : list string
}.

(** The instance: props, state, [_searchString], and what the owner has
    been given: the selections passed to [onItemsSelect] and the search
    strings passed to [searchCallback]. *)
Record Component : Type := mkComponent {
  props : SelectableItemsProps;
  state : SelectableItemsState;
  searchString : string;
  selections : list (gset string);
  searches : list string
}.

Definition setState (st : SelectableItemsState) (c : Component) : Component :=
  mkComponent (props c) st (searchString c) (selections c) (searches c).

Definition orEmpty (s : option (list string)) : list string :=
  match s with Some l => l | None => [] end.

(** The constructor (lines 38-66). *)
Definition construct (p : SelectableItemsProps) : Component :=
  let itemState := setAll ∅ (orEmpty (initialItems p)) true in
  let itemState := setAll itemState (orEmpty (possibleItems p)) false in
  mkComponent p (mkState [] itemState []) "" [] [].

(** [_notifySelectionChange(itemState)] (lines 256-265). *)
Definition notifySelectionChange (o : gmap string bool) (c : Component) : Component :=
  if hasOnItemsSelect (props c) then
    mkComponent (props c) (state c) (searchString c) (selections c ++ [selectedOf o])%list (searches c)
  else c.

(** The override loops of lines 87-109: an item of an old group whose new
    default differs from the user's choice keeps the choice. *)
Definition keepDeselected (old : gmap string bool) (n : gmap string bool) (item : string) :=
  if truthyB (dget n item) && isFalse (dget old item) then dset n item false else n.

Definition keepSelected (old : gmap string bool) (n : gmap string bool) (item : string) :=
  if isFalse (dget n item) && truthyB (dget old item) then dset n item true else n.

(** [componentWillReceiveProps(nextProps)] (lines 68-116).  It notifies
    through [this.props], which React replaces by [nextProps] only after
    it returns. *)
Definition componentWillReceiveProps (nextProps : SelectableItemsProps) (c : Component)
    : option Component :=
  match initialItems nextProps, possibleItems nextProps, initialItems (props c), possibleItems (props c) with
  | Some nextInitialItems, Some nextPossibleItems, Some initial, Some possible =>
      let added := addedItems (state c) in
      let old := itemState (state c) in
      let newAddedItems := foldl setDelete added nextInitialItems in
      let newAddedItems := foldl setDelete newAddedItems nextPossibleItems in
      let n := setAll ∅ nextInitialItems true in
      let n := setAll n nextPossibleItems false in
      let n := setAll n newAddedItems true in
      let n := foldl (keepDeselected old) n initial in
      let n := foldl (keepSelected old) n possible in
      let n := foldl (keepSelected old) n added in
      let c := notifySelectionChange n c in
      Some (mkComponent nextProps (mkState newAddedItems n (searchResults (state c)))
                        (searchString c) (selections c) (searches c))
  | _, _, _, _ => None
  end.

(** [_toggleItemState(item)] (lines 202-208). *)
Definition toggleItemState (item : string) (c : Component) : Component :=
  let o := itemState (state c) in
  let n := dset o item (negb (truthyB (dget o item))) in
  notifySelectionChange n (setState (mkState (addedItems (state c)) n (searchResults (state c))) c).

(** [_handleSearchChange(value)] (lines 213-230): the request to the
    owner's [searchCallback]. *)
Definition handleSearchChange (value : string) (c : Component) : Component :=
  mkComponent (props c) (state c) value (selections c)
    (if hasSearchCallback (props c) then (searches c ++ [value])%list else searches c).

(** The callback given to [searchCallback] (lines 222-228), when the owner
    calls it with [term] and [results]. *)
Definition searchAnswered (term : string) (results : list string) (c : Component) : Component :=
  if String.eqb term (searchString c) then
    setState (mkState (addedItems (state c)) (itemState (state c)) results) c
  else c.

(** [_handleSearchSelect(value)] (lines 234-253). *)
Definition handleSearchSelect (value : string) (c : Component) : Component :=
  let o := itemState (state c) in
  if truthyB (dget o value) then c
  else
    let newAddedItems := if isNullish (dget o value) then setAdd (addedItems (state c)) value
                         else addedItems (state c) in
    let n := dset o value true in
    notifySelectionChange n (setState (mkState newAddedItems n (searchResults (state c))) c).

(** ** Rendering *)

(** [_renderItem(item)] (lines 181-199): the label and the class string. *)
Definition renderItem (c : Component) (item : string) : string * string :=
  (item, Tokens.buildClassString [("selectable-item", true);
                                   ("active", truthyB (dget (itemState (state c)) item))]).

(** What [render] (lines 118-127) with [_renderInitialItems] (lines
    130-146) and [_renderPossibleItems] (lines 150-178) shows: the title,
    the initial section (its header and pills) when there are initial
    items, the header of the possible section, its pills when there are
    any, and the items given to the autocomplete. *)
Record View : Type := mkView {
  titleShown : option string;
  initialSection : option (string * list (string * string));
  possibleHeader : string;
  possiblePills : option (list (string * string));
  autocompleteItems : list string
}.

Section Render.
(** The header templates of [./strings] (not in the repository). *)
Variable initialItemsHeader suggestedItemsHeader : string.

Definition render (c : Component) : View :=
  let p := props c in
  let allPossibleItems := (addedItems (state c) ++ orEmpty (possibleItems p))%list in
  mkView (title p)
  (match initialItems p with
   | Some ((_ :: _) as l) => Some (Tokens.replaceTokens initialItemsHeader [headerText p], map (renderItem c) l)
   | _ => None
   end)
  (Tokens.replaceTokens suggestedItemsHeader [headerText p])
  (match allPossibleItems with [] => None | _ => Some (map (renderItem c) allPossibleItems) end)
  (searchResults (state c)).
End Render.

(** The pills on screen and whether each one is active. *)
Definition pills (c : Component) : list (string * bool) :=
  map (fun item => (item, truthyB (dget (itemState (state c)) item)))
      (orEmpty (initialItems (props c)) ++ addedItems (state c) ++ orEmpty (possibleItems (props c)))%list.

(** ** The widget: the component with its autocomplete and search box *)

(** The autocomplete as [_renderPossibleItems] configures it. *)
Definition autoCompleteProps : AutoCompleteProps Component :=
  withDefaults (Some handleSearchChange) (Some handleSearchSelect).

Record Widget : Type := mkWidget { comp : Component; box : SearchInputState }.

Inductive Event : Type :=
| InBox (ev : InputEvent)
| MenuPick (value : string)
| Answer (term : string) (results : list string)
| PillClick (item : string)
| NewProps (p : SelectableItemsProps).

Definition widgetStep (w : Widget) (ev : Event) : option Widget :=
  match ev with
  | InBox e =>
      let '(b, c) := inputStep (inputProps autoCompleteProps) e (box w) (comp w) in Some (mkWidget c b)
  | MenuPick v => let '(b, c) := onItemSelect autoCompleteProps v (box w) (comp w) in Some (mkWidget c b)
  | Answer term results => Some (mkWidget (searchAnswered term results (comp w)) (box w))
  | PillClick item => Some (mkWidget (toggleItemState item (comp w)) (box w))
  | NewProps p => match componentWillReceiveProps p (comp w) with
                  | Some c => Some (mkWidget c (box w))
                  | None => None
                  end
  end.

Definition initWidget (p : SelectableItemsProps) : Widget := mkWidget (construct p) initialState.

(** ** Props changes *)

(** What [componentWillReceiveProps] leaves at one item, pointwise: the
    default of its new group (added items first, then possible, then
    initial), unless it was an old initial item the user deselected and
    the new default selects it, or it was an old possible or added item
    the user had selected and the new default deselects it. *)
Definition carriedChoice (initial possible added : list string) (old : gmap string bool)
    (nextInitial nextPossible newAdded : list string) (x : string) : option bool :=
  let v0 := if bool_decide (x ∈ newAdded) then Some true
            else if bool_decide (x ∈ nextPossible) then Some false
            else if bool_decide (x ∈ nextInitial) then Some true else None in
  let v1 := if bool_decide (x ∈ initial) && bool_decide (v0 = Some true) && bool_decide (old !! x = Some false)
            then Some false else v0 in
  if bool_decide (x ∈ possible \/ x ∈ added) && bool_decide (v1 = Some false) && bool_decide (old !! x = Some true)
  then Some true else v1.

Lemma foldl_keepDeselected old n l x :
  foldl (keepDeselected old) n l !! x =
  if bool_decide (x ∈ l) then keepDeselected old n x !! x else n !! x.
Proof. exact (foldl_cond_dset (λ s y, truthyB s && isFalse (dget old y)) (λ _, false) n l x). Qed.

Lemma foldl_keepSelected old n l x :
  foldl (keepSelected old) n l !! x =
  if bool_decide (x ∈ l) then keepSelected old n x !! x else n !! x.
Proof. exact (foldl_cond_dset (λ s y, isFalse s && truthyB (dget old y)) (λ _, true) n l x). Qed.

Lemma dget_plain_bool (n : gmap string bool) x :
  x ∉ objectProtoNames ->
  truthyB (dget n x) = bool_decide (n !! x = Some true) /\
  isFalse (dget n x) = bool_decide (n !! x = Some false).
Proof.
  intros Hx. rewrite dget_plain by exact Hx.
  destruct (n !! x) as [[]|]; split; reflexivity.
Qed.

Lemma not_proto x : x ∉ objectProtoNames -> x ≠ "__proto__".
Proof. intros Hx ->. apply Hx, proto_in_names. Qed.

Lemma keep_at (cond : bool) (n : gmap string bool) x v :
  x ≠ "__proto__" -> (if cond then dset n x v else n) !! x = if cond then Some v else n !! x.
Proof. intros Hx. destruct cond; [|reflexivity]. rewrite dset_lookup by exact Hx. now rewrite bool_decide_true. Qed.

(** The two kinds of override loop, at one item. *)
Lemma foldl_keepDeselected_at old n l x :
  x ∉ objectProtoNames ->
  foldl (keepDeselected old) n l !! x =
  if bool_decide (x ∈ l) && bool_decide (n !! x = Some true) && bool_decide (old !! x = Some false)
  then Some false else n !! x.
Proof.
  intros Hx. rewrite foldl_keepDeselected. unfold keepDeselected.
  destruct (dget_plain_bool n x Hx) as [-> _]. destruct (dget_plain_bool old x Hx) as [_ ->].
  destruct (bool_decide (x ∈ l)); [|reflexivity]. cbn [andb]. apply keep_at, not_proto, Hx.
Qed.

Lemma foldl_keepSelected_at old n l x :
  x ∉ objectProtoNames ->
  foldl (keepSelected old) n l !! x =
  if bool_decide (x ∈ l) && bool_decide (n !! x = Some false) && bool_decide (old !! x = Some true)
  then Some true else n !! x.
Proof.
  intros Hx. rewrite foldl_keepSelected. unfold keepSelected.
  destruct (dget_plain_bool n x Hx) as [_ ->]. destruct (dget_plain_bool old x Hx) as [-> _].
  destruct (bool_decide (x ∈ l)); [|reflexivity]. cbn [andb]. apply keep_at, not_proto, Hx.
Qed.

Lemma keep_twice (bP bA : Prop) `{Decision bP, Decision bA} (v o : option bool) :
  (let v2 := if bool_decide bP && bool_decide (v = Some false) && bool_decide (o = Some true)
             then Some true else v in
   if bool_decide bA && bool_decide (v2 = Some false) && bool_decide (o = Some true)
   then Some true else v2) =
  if bool_decide (bP \/ bA) && bool_decide (v = Some false) && bool_decide (o = Some true)
  then Some true else v.
Proof.
  cbv zeta. destruct v as [[]|], o as [[]|]; cbn [andb];
    repeat (case_bool_decide; cbn [andb]); first [reflexivity | congruence | tauto].
Qed.

Lemma receiveProps_inv p c c' :
  componentWillReceiveProps p c = Some c' ->
  exists nextInitial nextPossible initial possible,
    initialItems p = Some nextInitial /\ possibleItems p = Some nextPossible /\
    initialItems (props c) = Some initial /\ possibleItems (props c) = Some possible /\
    let added := addedItems (state c) in
    let old := itemState (state c) in
    let newAdded := foldl setDelete (foldl setDelete added nextInitial) nextPossible in
    let n0 := setAll (setAll (setAll ∅ nextInitial true) nextPossible false) newAdded true in
    addedItems (state c') = newAdded /\
    itemState (state c') =
      foldl (keepSelected old) (foldl (keepSelected old) (foldl (keepDeselected old) n0 initial) possible) added /\
    props c' = p /\ searchString c' = searchString c /\ searches c' = searches c /\
    searchResults (state c') = searchResults (state c) /\
    selections c' = selections (notifySelectionChange (itemState (state c')) c).
Proof.
  unfold componentWillReceiveProps.
  destruct (initialItems p) as [I'|], (possibleItems p) as [P'|], (initialItems (props c)) as [I|],
    (possibleItems (props c)) as [P|]; intros H; try discriminate.
  injection H as <-. exists I', P', I, P. repeat split.
  all: unfold notifySelectionChange; cbn; destruct (hasOnItemsSelect (props c)); reflexivity.
Qed.

(** After new props, the selection of every item that is not a
    member of [Object.prototype] is [carriedChoice]: its new group's
    default, overridden by a deselection the user made of an old initial
    item and by a selection the user made of an old possible or added
    item. *)
Theorem receiveProps_itemState p c c' x :
  componentWillReceiveProps p c = Some c' -> x ∉ objectProtoNames ->
  itemState (state c') !! x =
    carriedChoice (orEmpty (initialItems (props c))) (orEmpty (possibleItems (props c)))
      (addedItems (state c)) (itemState (state c))
      (orEmpty (initialItems p)) (orEmpty (possibleItems p)) (addedItems (state c')) x.
Proof.
  intros H Hx. destruct (receiveProps_inv p c c' H)
    as (I' & P' & I & P & E1 & E2 & E3 & E4 & Ea & Es & _).
  rewrite E1, E2, E3, E4, Es, Ea. cbn [orEmpty].
  pose proof (not_proto x Hx) as Hp.
  rewrite !foldl_keepSelected_at, foldl_keepDeselected_at by exact Hx.
  rewrite !setAll_lookup, lookup_empty by exact Hp.
  exact (keep_twice _ _ _ _).
Qed.

(** An item the user added and then deselected is selected again by
    any change of props that leaves it out of both groups, and the owner
    is told so: the override loops only carry selections of added items,
    and the new default of an added item is selected. *)
Theorem receiveProps_reselects_added p c c' x :
  componentWillReceiveProps p c = Some c' -> x ∉ objectProtoNames ->
  x ∈ addedItems (state c) -> itemState (state c) !! x = Some false ->
  x ∉ orEmpty (initialItems (props c)) ->
  x ∉ orEmpty (initialItems p) -> x ∉ orEmpty (possibleItems p) ->
  x ∈ addedItems (state c') /\ itemState (state c') !! x = Some true /\
  (hasOnItemsSelect (props c) = true -> last (selections c') = Some (selectedOf (itemState (state c'))) /\
                                        x ∈ selectedOf (itemState (state c'))).
Proof.
  intros H Hx Ha Hf HI HI' HP'. destruct (receiveProps_inv p c c' H)
    as (I' & P' & I & P & E1 & E2 & E3 & E4 & Ea & Es & Ep & _ & _ & _ & Esel).
  rewrite E1, E2, E3 in *. cbn [orEmpty] in *.
  assert (Hn : x ∈ foldl setDelete (foldl setDelete (addedItems (state c)) I') P')
    by (rewrite !elem_of_foldl_setDelete; tauto).
  assert (Hs : itemState (state c') !! x = Some true).
  { rewrite Es, !foldl_keepSelected_at, foldl_keepDeselected_at by exact Hx.
    rewrite !setAll_lookup by (apply not_proto, Hx).
    rewrite (bool_decide_true _ Hn), (bool_decide_false _ HI), Hf. cbn.
    now destruct (bool_decide (x ∈ P)), (bool_decide (x ∈ addedItems (state c))). }
  split; [now rewrite Ea|]. split; [exact Hs|].
  intros Hcb. rewrite Esel. unfold notifySelectionChange. rewrite Hcb. cbn.
  rewrite last_snoc. split; [reflexivity|]. now apply selectedOf_spec.
Qed.

(** [componentWillReceiveProps] throws when one of the groups, old or
    new, is [null], although the constructor and the renderers accept a
    [null] group. *)
Theorem receiveProps_null p c :
  componentWillReceiveProps p c = None <->
  initialItems p = None \/ possibleItems p = None \/
  initialItems (props c) = None \/ possibleItems (props c) = None.
Proof.
  unfold componentWillReceiveProps.
  destruct (initialItems p), (possibleItems p), (initialItems (props c)), (possibleItems (props c));
    split; intros H; try discriminate; try reflexivity;
    repeat match goal with H : _ \/ _ |- _ => destruct H end; try discriminate; tauto.
Qed.

(** ** The invariant of the widget *)

(** The added items are distinct and in neither group, and every item on
    screen other than [__proto__] has its own entry in [itemState]. *)
Definition WF (c : Component) : Prop :=
  NoDup (addedItems (state c)) /\
  (forall x, x ∈ addedItems (state c) ->
     (x ∉ orEmpty (initialItems (props c))) /\ (x ∉ orEmpty (possibleItems (props c)))) /\
  (forall x, x ∈ (orEmpty (initialItems (props c)) ++ addedItems (state c) ++
                  orEmpty (possibleItems (props c)))%list ->
     x ≠ "__proto__" -> is_Some (itemState (state c) !! x)) /\
  itemState (state c) !! "__proto__" = None.

Lemma dset_is_Some (o : gmap string bool) k v y : is_Some (o !! y) -> is_Some (dset o k v !! y).
Proof.
  intros H. unfold dset. case_bool_decide; [exact H|].
  destruct (decide (y = k)) as [->|Hne]; [rewrite lookup_insert_eq; eauto|]. now rewrite lookup_insert_ne.
Qed.

Lemma foldl_cond_is_Some (cond : Slot bool -> string -> bool) (val : string -> bool) n l y :
  is_Some (n !! y) ->
  is_Some (foldl (λ n y, if cond (dget n y) y then dset n y (val y) else n) n l !! y).
Proof.
  intros H. rewrite foldl_cond_dset. destruct (bool_decide _); [|exact H].
  destruct (cond _ _); [apply dset_is_Some|]; exact H.
Qed.

Lemma setAll_is_Some (o : gmap string bool) l v y :
  y ≠ "__proto__" -> y ∈ l \/ is_Some (o !! y) -> is_Some (setAll o l v !! y).
Proof.
  intros Hy H. rewrite setAll_lookup by exact Hy. case_bool_decide; [eauto|]. destruct H; [contradiction|exact H].
Qed.

Lemma dset_proto_none (o : gmap string bool) k v :
  o !! "__proto__" = None -> dset o k v !! "__proto__" = None.
Proof.
  intros H. destruct (decide (k = "__proto__")) as [->|Hne]; [now rewrite dset_proto|].
  now rewrite dset_other by (intros E; apply Hne; symmetry; exact E).
Qed.

Lemma foldl_cond_proto (cond : Slot bool -> string -> bool) (val : string -> bool) n l :
  n !! "__proto__" = None ->
  foldl (λ n y, if cond (dget n y) y then dset n y (val y) else n) n l !! "__proto__" = None.
Proof.
  intros H. rewrite foldl_cond_dset. destruct (bool_decide _); [|exact H].
  destruct (cond _ _); [apply dset_proto_none|]; exact H.
Qed.

Lemma notify_props o c : props (notifySelectionChange o c) = props c /\ state (notifySelectionChange o c) = state c /\
  searchString (notifySelectionChange o c) = searchString c.
Proof. unfold notifySelectionChange. destruct (hasOnItemsSelect (props c)); repeat split. Qed.

Lemma construct_WF p : WF (construct p).
Proof.
  split; [constructor|]. split; [intros x Hx; inversion Hx|]. split.
  - intros x Hx Hp. cbn in *. apply setAll_is_Some; [exact Hp|].
    rewrite elem_of_app in Hx. destruct Hx as [Hx|Hx]; [|now left].
    right. apply setAll_is_Some; [exact Hp | now left].
  - cbn. now rewrite !setAll_proto, lookup_empty.
Qed.

Lemma toggle_WF item c : WF c -> WF (toggleItemState item c).
Proof.
  intros (H1 & H2 & H3 & H4). unfold toggleItemState.
  destruct (notify_props (dset (itemState (state c)) item (negb (truthyB (dget (itemState (state c)) item))))
              (setState (mkState (addedItems (state c))
                 (dset (itemState (state c)) item (negb (truthyB (dget (itemState (state c)) item))))
                 (searchResults (state c))) c)) as (Ep & Es & _).
  unfold WF. rewrite Ep, Es. cbn. split; [exact H1|]. split; [exact H2|].
  split; [intros x Hx Hp; apply dset_is_Some, H3; assumption | apply dset_proto_none, H4].
Qed.

Lemma select_WF v c : WF c -> WF (handleSearchSelect v c).
Proof.
  intros (H1 & H2 & H3 & H4). unfold handleSearchSelect.
  destruct (truthyB (dget (itemState (state c)) v)) eqn:Et; [exact (conj H1 (conj H2 (conj H3 H4)))|].
  set (o := itemState (state c)) in *.
  set (added' := if isNullish (dget o v) then setAdd (addedItems (state c)) v else addedItems (state c)).
  destruct (notify_props (dset o v true) (setState (mkState added' (dset o v true) (searchResults (state c))) c))
    as (Ep & Es & _).
  unfold WF. rewrite Ep, Es. cbn.
  assert (Hv : isNullish (dget o v) = true -> (v ∉ orEmpty (initialItems (props c))) /\
                                               (v ∉ orEmpty (possibleItems (props c))) /\ v ≠ "__proto__").
  { intros Hn. unfold dget in Hn, Et.
    destruct (o !! v) eqn:Eo; [discriminate|].
    case_bool_decide as Hpn; [discriminate|].
    assert (Hnp : v ≠ "__proto__") by (intros ->; apply Hpn, proto_in_names).
    split; [|split; [|exact Hnp]]; intros Hin; destruct (H3 v ltac:(set_solver) Hnp) as [b Hb]; congruence. }
  split; [unfold added'; destruct (isNullish _); [apply setAdd_NoDup|]; exact H1|].
  split; [|split; [|apply dset_proto_none, H4]].
  - intros x Hx. unfold added' in Hx. destruct (isNullish (dget o v)) eqn:En; [|exact (H2 x Hx)].
    apply elem_of_setAdd in Hx as [Hx| ->]; [exact (H2 x Hx)|].
    destruct (Hv eq_refl) as (? & ? & _). split; assumption.
  - intros x Hx Hp. destruct (decide (x = v)) as [->|Hne].
    + unfold dset. rewrite bool_decide_false by exact Hp. rewrite lookup_insert_eq. eauto.
    + apply dset_is_Some. unfold added' in Hx.
      destruct (isNullish (dget o v)) eqn:En; [|exact (H3 x Hx Hp)].
      rewrite !elem_of_app, elem_of_setAdd in Hx.
      apply H3; [|exact Hp]. rewrite !elem_of_app. set_solver.
Qed.

Lemma receiveProps_WF p c c' : WF c -> componentWillReceiveProps p c = Some c' -> WF c'.
Proof.
  intros (H1 & _ & _ & _) H. destruct (receiveProps_inv p c c' H)
    as (I' & P' & I & P & E1 & E2 & E3 & E4 & Ea & Es & Ep & _).
  unfold WF. rewrite Ea, Es, Ep, E1, E2. cbn [orEmpty].
  split; [apply foldl_setDelete_NoDup, foldl_setDelete_NoDup, H1|].
  split; [intros x Hx; rewrite !elem_of_foldl_setDelete in Hx; tauto|].
  set (old := itemState (state c)). split.
  2: { apply (foldl_cond_proto (λ s y, isFalse s && truthyB (dget old y)) (λ _, true)).
       apply (foldl_cond_proto (λ s y, isFalse s && truthyB (dget old y)) (λ _, true)).
       apply (foldl_cond_proto (λ s y, truthyB s && isFalse (dget old y)) (λ _, false)).
       now rewrite !setAll_proto, lookup_empty. }
  intros x Hx Hp.
  apply (foldl_cond_is_Some (λ s y, isFalse s && truthyB (dget old y)) (λ _, true)).
  apply (foldl_cond_is_Some (λ s y, isFalse s && truthyB (dget old y)) (λ _, true)).
  apply (foldl_cond_is_Some (λ s y, truthyB s && isFalse (dget old y)) (λ _, false)).
  rewrite !elem_of_app in Hx.
  apply setAll_is_Some; [exact Hp|]. destruct Hx as [Hx|[Hx|Hx]]; [right| now left | right].
  - apply setAll_is_Some; [exact Hp|]. right. apply setAll_is_Some; [exact Hp | now left].
  - apply setAll_is_Some; [exact Hp | now left].
Qed.

(** The component is the owner the search box reports to. *)
#[export] Instance searchTracks : TracksInput Component handleSearchChange := {
  tracked := searchString;
  tracked_onChange := λ v o, eq_refl
}.

(** What a search box event does to the component: nothing, or one call of
    [_handleSearchChange]. *)
Lemma inputStep_comp ev b c :
  snd (inputStep (inputProps autoCompleteProps) ev b c) = c \/
  exists v, snd (inputStep (inputProps autoCompleteProps) ev b c) = handleSearchChange v c.
Proof.
  assert (Hu : forall v b, snd (updateValue (inputProps autoCompleteProps) v b c) = c \/
                          exists v', snd (updateValue (inputProps autoCompleteProps) v b c) = handleSearchChange v' c).
  { intros v b'. unfold updateValue. destruct (String.eqb _ _); [now left | right; eauto]. }
  destruct ev as [text| |e| |txt]; cbn [inputStep]; try apply Hu.
  unfold onKeyDown. destruct (_ && _ && _); [|now left].
  unfold clear. destruct (Hu "" b) as [E|[v' E]]; destruct (updateValue _ "" b c) as [b' c']; cbn in *;
    [now left | right; eauto].
Qed.

Lemma select_searchString v c : searchString (handleSearchSelect v c) = searchString c.
Proof.
  unfold handleSearchSelect. destruct (truthyB _); [reflexivity|].
  unfold notifySelectionChange. now destruct (hasOnItemsSelect _).
Qed.

Definition WInv (w : Widget) : Prop := WF (comp w) /\ searchString (comp w) = value (box w).

Lemma searchChange_WF v c : WF c -> WF (handleSearchChange v c).
Proof. intros H. exact H. Qed.

Lemma widgetStep_inv w ev w' : WInv w -> widgetStep w ev = Some w' -> WInv w'.
Proof.
  intros [Hwf Ht] E. destruct ev as [e|v|t r|item|p]; cbn [widgetStep] in E.
  - destruct (inputStep (inputProps autoCompleteProps) e (box w) (comp w)) as [b c] eqn:Ei.
    injection E as <-. split; cbn.
    + destruct (inputStep_comp e (box w) (comp w)) as [Ec|[v Ec]]; rewrite Ei in Ec; cbn in Ec;
        rewrite Ec; [exact Hwf | apply searchChange_WF, Hwf].
    + pose proof (inputStep_tracks handleSearchChange true e (box w) (comp w) Ht) as H.
      change (mkSearchInputProps true (Some handleSearchChange)) with (inputProps autoCompleteProps) in H.
      rewrite Ei in H. exact H.
  - unfold autoCompleteProps in E. rewrite onItemSelect_default in E. injection E as <-. split; cbn.
    + apply select_WF. destruct (String.eqb _ _); [exact Hwf | apply searchChange_WF, Hwf].
    + rewrite select_searchString. destruct (String.eqb_spec (value (box w)) "") as [Eb|Eb];
        [congruence | reflexivity].
  - injection E as <-. split; cbn; unfold searchAnswered; destruct (String.eqb _ _); assumption.
  - injection E as <-. split; cbn; [apply toggle_WF, Hwf|].
    unfold toggleItemState, notifySelectionChange. now destruct (hasOnItemsSelect _).
  - destruct (componentWillReceiveProps p (comp w)) as [c'|] eqn:Ec; [|discriminate].
    injection E as <-. split; cbn; [exact (receiveProps_WF p _ _ Hwf Ec)|].
    destruct (receiveProps_inv p _ _ Ec) as (_ & _ & _ & _ & _ & _ & _ & _ & _ & _ & _ & ->& _). exact Ht.
Qed.

Inductive WReachable : Widget -> Prop :=
| WR_init p : WReachable (initWidget p)
| WR_step w ev w' : WReachable w -> widgetStep w ev = Some w' -> WReachable w'.

Lemma reachable_WInv w : WReachable w -> WInv w.
Proof.
  induction 1 as [p|w ev w' _ IH E]; [split; [apply construct_WF | reflexivity]|].
  exact (widgetStep_inv w ev w' IH E).
Qed.

(** C10: in every state the widget reaches, the added items are distinct
    and in neither group, the search string the component compares answers
    with is the text in the search box, and every pill other than
    [__proto__] is shown active exactly when its item is in the selection
    [_notifySelectionChange] reports. *)
Theorem widget_invariant w :
  WReachable w ->
  NoDup (addedItems (state (comp w))) /\
  (forall x, x ∈ addedItems (state (comp w)) ->
     (x ∉ orEmpty (initialItems (props (comp w)))) /\ (x ∉ orEmpty (possibleItems (props (comp w))))) /\
  searchString (comp w) = value (box w) /\
  (forall x a, In (x, a) (pills (comp w)) -> x ≠ "__proto__" ->
     a = true <-> x ∈ selectedOf (itemState (state (comp w)))).
Proof.
  intros Hr. destruct (reachable_WInv w Hr) as [(H1 & H2 & H3 & _) Ht].
  split; [exact H1|]. split; [exact H2|]. split; [exact Ht|].
  intros x a Hin Hp. unfold pills in Hin. apply in_map_iff in Hin as [y [Ey Hy]]. injection Ey as <- <-.
  rewrite selectedOf_spec. destruct (H3 y (proj2 (list_elem_of_In _ _) Hy) Hp) as [b Hb].
  unfold dget. rewrite Hb. destruct b; cbn; split; intros; congruence.
Qed.

(** picking [v] from the autocomplete's menu empties the search box
    and the component's search string; an item already selected (or a
    member of [Object.prototype]) is left as it is, any other becomes
    selected, is added at the end of the added pills when it was on no
    pill, and the owner is told the new selection. *)
Theorem menuPick_spec w v w' :
  WReachable w -> widgetStep w (MenuPick v) = Some w' ->
  let o := itemState (state (comp w)) in
  value (box w') = "" /\ searchString (comp w') = "" /\
  if truthyB (dget o v) then state (comp w') = state (comp w)
  else itemState (state (comp w')) !! v = Some true /\
       addedItems (state (comp w')) =
         (if isNullish (dget o v) then addedItems (state (comp w)) ++ [v] else addedItems (state (comp w)))%list /\
       (hasOnItemsSelect (props (comp w)) = true ->
        last (selections (comp w')) = Some (selectedOf (itemState (state (comp w'))))).
Proof.
  intros Hr E o. destruct (reachable_WInv w Hr) as [(H1 & H2 & H3 & H4) Ht].
  cbn [widgetStep] in E. unfold autoCompleteProps in E. rewrite onItemSelect_default in E.
  injection E as <-. cbn [box comp Search.value]. split; [reflexivity|].
  set (c1 := if String.eqb (value (box w)) "" then comp w else handleSearchChange "" (comp w)).
  assert (Hc1 : state c1 = state (comp w) /\ props c1 = props (comp w) /\ searchString c1 = "").
  { unfold c1. destruct (String.eqb_spec (value (box w)) ""); [|repeat split]. repeat split; congruence. }
  destruct Hc1 as (Es1 & Ep1 & Ss1).
  split; [rewrite select_searchString; exact Ss1|].
  unfold handleSearchSelect. rewrite Es1. fold o.
  destruct (truthyB (dget o v)) eqn:Et; [exact Es1|].
  unfold notifySelectionChange. cbn [props state setState]. rewrite !Ep1.
  assert (Hp : v ≠ "__proto__").
  { intros ->. unfold dget in Et. unfold o in Et. rewrite H4, bool_decide_true in Et by apply proto_in_names.
    discriminate. }
  split; [|split].
  - destruct (hasOnItemsSelect _); cbn; unfold dset; rewrite bool_decide_false by exact Hp; apply lookup_insert_eq.
  - destruct (hasOnItemsSelect _); cbn; (destruct (isNullish (dget o v)) eqn:En; [|reflexivity]);
      unfold setAdd; rewrite bool_decide_false; try reflexivity;
      intros Hin; destruct (H3 v ltac:(set_solver) Hp) as [b Hb]; unfold o, dget in En; rewrite Hb in En; discriminate.
  - intros Hcb. rewrite Hcb. cbn. apply last_snoc.
Qed.

(** an answer of the owner's [searchCallback] is shown exactly when
    its search text is the text in the search box; the selection does not
    change. *)
Theorem answer_fresh w term results w' :
  WReachable w -> widgetStep w (Answer term results) = Some w' ->
  searchResults (state (comp w')) =
    (if String.eqb term (value (box w)) then results else searchResults (state (comp w))) /\
  itemState (state (comp w')) = itemState (state (comp w)) /\
  addedItems (state (comp w')) = addedItems (state (comp w)).
Proof.
  intros Hr E. destruct (reachable_WInv w Hr) as [_ Ht].
  cbn [widgetStep] in E. injection E as <-. cbn [comp]. unfold searchAnswered. rewrite Ht.
  destruct (String.eqb term (value (box w))); repeat split.
Qed.

End Sel.

(** ** Runs of the widget

      The scenarios of [SelectableItems/test], the re-selection of a
      deselected added item, and the [__proto__] pill, evaluated. *)
Module SelTests.
Import Search Sel.

Definition p0 : SelectableItemsProps :=
  mkProps (Some ["testing"]) (Some ["possible testing"]) true true "Testing" None.

Definition run (w : Widget) (evs : list Event) : option Widget :=
  foldl (λ ow ev, match ow with Some w => widgetStep w ev | None => None end) (Some w) evs.

Definition pillsOf (ow : option Widget) : list (string * bool) :=
  match ow with Some w => pills (comp w) | None => [] end.

Definition lastSelection (ow : option Widget) : option (list string) :=
  match ow with
  | Some w => option_map (λ s : gset string, elements s) (last (selections (comp w)))
  | None => None
  end.

(** Clicking each pill twice gives back the first selection. *)
Example toggle_twice_test :
  pillsOf (run (initWidget p0) [PillClick "testing"; PillClick "possible testing";
                                PillClick "testing"; PillClick "possible testing"]) =
    [("testing", true); ("possible testing", false)] /\
  lastSelection (run (initWidget p0) [PillClick "testing"; PillClick "possible testing";
                                      PillClick "testing"; PillClick "possible testing"]) = Some ["testing"].
Proof. vm_compute. split; reflexivity. Qed.

(** Picking an initial item in the autocomplete does not deselect it. *)
Example pick_selected_test :
  pillsOf (run (initWidget p0) [InBox (Typed "test"); MenuPick "testing"]) =
    [("testing", true); ("possible testing", false)].
Proof. vm_compute. reflexivity. Qed.

(** An added item the user deselects comes back selected with new props. *)
Example reselect_test :
  pillsOf (run (initWidget p0) [InBox (Typed "lo"); MenuPick "lol"; PillClick "lol"]) =
    [("testing", true); ("lol", false); ("possible testing", false)] /\
  pillsOf (run (initWidget p0) [InBox (Typed "lo"); MenuPick "lol"; PillClick "lol"; NewProps p0]) =
    [("testing", true); ("lol", true); ("possible testing", false)].
Proof. vm_compute. split; reflexivity. Qed.

(** A [__proto__] pill is shown active, is never reported, and clicking it
    changes nothing. *)
Example proto_pill_test :
  pillsOf (run (initWidget (mkProps (Some ["__proto__"]) (Some []) true true "" None)) [PillClick "__proto__"]) =
    [("__proto__", true)] /\
  lastSelection (run (initWidget (mkProps (Some ["__proto__"]) (Some []) true true "" None)) [PillClick "__proto__"]) =
    Some [].
Proof. vm_compute. split; reflexivity. Qed.

(** A late answer for an older search text is dropped. *)
Example stale_answer_test :
  option_map (λ w, searchResults (state (comp w)))
    (run (initWidget p0) [InBox (Typed "a"); InBox (Typed "ab"); Answer "a" ["apple"]; Answer "ab" ["abc"]]) =
    Some ["abc"] /\
  option_map (λ w, searchResults (state (comp w)))
    (run (initWidget p0) [InBox (Typed "a"); InBox (Typed "ab"); Answer "ab" ["abc"]; Answer "a" ["apple"]]) =
    Some ["abc"].
Proof. vm_compute. split; reflexivity. Qed.

Definition w1 : Widget := mkWidget (handleSearchChange "lo" (construct p0)) (mkSearchInputState "lo").
Definition w2 : Widget := mkWidget (handleSearchSelect "lol" (handleSearchChange "" (handleSearchChange "lo" (construct p0))))
                                   initialState.
Definition w3 : Widget := mkWidget (toggleItemState "lol" (comp w2)) initialState.

Lemma w1_reachable : WReachable w1.
Proof. apply (WR_step (initWidget p0) (InBox (Typed "lo"))); [constructor | reflexivity]. Qed.

Lemma w2_reachable : WReachable w2.
Proof. apply (WR_step w1 (MenuPick "lol")); [exact w1_reachable | reflexivity]. Qed.

Lemma w3_reachable : WReachable w3.
Proof. apply (WR_step w2 (PillClick "lol")); [exact w2_reachable | reflexivity]. Qed.

Definition c4 : Component :=
  match componentWillReceiveProps p0 (comp w3) with Some c => c | None => comp w3 end.

Lemma receiveProps_itemState_witness :
  itemState (state c4) !! "lol" = Some true /\ itemState (state c4) !! "testing" = Some true.
Proof.
  split.
  - rewrite (receiveProps_itemState p0 (comp w3) c4 "lol" ltac:(vm_compute; reflexivity) ltac:(apply not_proto_name; vm_compute; reflexivity)).
    vm_compute. reflexivity.
  - rewrite (receiveProps_itemState p0 (comp w3) c4 "testing" ltac:(vm_compute; reflexivity) ltac:(apply not_proto_name; vm_compute; reflexivity)).
    vm_compute. reflexivity.
Defined.

Lemma receiveProps_reselects_added_witness : itemState (state c4) !! "lol" = Some true.
Proof.
  destruct (receiveProps_reselects_added p0 (comp w3) c4 "lol" ltac:(vm_compute; reflexivity)
              ltac:(apply not_proto_name; vm_compute; reflexivity) ltac:(vm_compute; set_solver)
              ltac:(vm_compute; reflexivity) ltac:(vm_compute; set_solver)
              ltac:(vm_compute; set_solver) ltac:(vm_compute; set_solver)) as [_ [H _]].
  exact H.
Defined.

Lemma widget_invariant_witness : searchString (comp w3) = value (box w3).
Proof. destruct (widget_invariant w3 w3_reachable) as (_ & _ & H & _). exact H. Defined.

Lemma menuPick_spec_witness : value (box w2) = "".
Proof.
  destruct (menuPick_spec w1 "lol" w2 w1_reachable eq_refl) as [H _]. exact H.
Defined.

Lemma answer_fresh_witness :
  searchResults (state (comp (mkWidget (searchAnswered "lo" ["lol"] (comp w1)) (box w1)))) = ["lol"].
Proof.
  destruct (answer_fresh w1 "lo" ["lol"] _ w1_reachable eq_refl) as [H _]. exact H.
Defined.

(** Every initial item is drawn, the first one included. *)
Example initial_items_rendered :
  option_map (λ '(_, l), map fst l)
    (initialSection (render "Initial" "Suggested" (construct (mkProps (Some ["a"; "b"]) (Some []) true true "T" None))))
  = Some ["a"; "b"].
Proof. vm_compute. reflexivity. Qed.

End SelTests.
