(* ===== verification/TreeChart.v ===== *)
(** * The drill-down tree: [src/src/TreeChart/]

    [TreeChart] shows a node of a tree (its [currentRoot]) with up to three
    children as [Leaf]s joined to it by [TreeChartLine]s.  Clicking a leaf
    that has children either makes it the root (narrow screens, one level)
    and pushes the old root on [prevRoots], or, on wide screens with
    [showTwoLevels], opens its children as a second level
    ([secondActiveLeaf]); the back link pops [prevRoots].  A window resize
    sets or clears the second level.

    The data is a graph of JS objects and the component compares them with
    [===] (the tests put one object at two places of a [leaves] array), so
    the model keeps the objects in a heap: a [Loc] is a reference, [obj]
    reads the object it points to, and the state holds references.  The
    window's width is part of the world the events act on ([World]).
    [numeral]'s formatting of a value is a parameter of the renderer.
    [render] returns [inl] of the [TypeError] the code would throw. *)

From Stdlib Require Import QArith Arith List String Bool Lia.
From S2P Require Import Prelude.
Import ListNotations.

Module Tree.

(** A reference to an object of the data. *)
Definition Loc : Type := nat.

(** [interface TreeChartData] (TreeChart/index.tsx, lines 5-11); the
    children are references. *)
Record TreeChartData : Type := mkTreeChartData {
  name : option string;
  url : option string;
  leaves : option (list Loc);
  value : option num;
  percentage : option num
}.

Definition emptyNode : TreeChartData := mkTreeChartData None None None None None.

(** [detailToShow?: 'link' | 'comp'] (line 15). *)
Inductive DetailKind : Type := DLink | DComp.

(** [interface TreeChartProps] (lines 13-17); [treeChartData] may be
    missing. *)
Record TreeChartProps : Type := mkTreeChartProps {
  treeChartData : option Loc;
  detailToShow : option DetailKind;
  showTwoLevels : bool
}.

(** [interface TreeChartState] (lines 19-23). *)
Record TreeChartState : Type := mkTreeChartState {
  currentRoot : option Loc;
  prevRoots : list Loc;
  secondActiveLeaf : option Loc
}.

(** [const tabletBreakpoint = 767] (line 29). *)
Definition tabletBreakpoint : Z := 767.

(** [a === b] on an optional reference and a reference. *)
Definition refEqb (a : option Loc) (b : Loc) : bool :=
  match a with Some x => Nat.eqb x b | None => false end.

(** The loops of lines 44-49 and 81-86 over the children, given by [get]. *)
Fixpoint firstWithLeaves (get : Loc -> TreeChartData) (ls : list Loc) : option Loc :=
  match ls with
  | [] => None
  | l :: ls' => match leaves (get l) with Some _ => Some l | None => firstWithLeaves get ls' end
  end.

(** ** TreeChartLine (TreeChartLine/index.tsx) *)

Inductive Direction : Type := Up | Straight | Down.
Inductive Size : Type := Sm | Md | Lg.

(** [fraction > c], [false] when [fraction] is [undefined]. *)
Definition gtFrac (fraction : option num) (c : Q) : bool :=
  match fraction with Some x => nlt (Fin c) x | None => false end.

(** [const size = ...] (line 20). *)
Definition lineSize (fraction : option num) : Size :=
  if gtFrac fraction (1#5) then Lg else if gtFrac fraction (2#25) then Md else Sm.

Definition sizeName (s : Size) : string :=
  match s with Sm => "sm" | Md => "md" | Lg => "lg" end.

(** The stroke width and colour of [Down], [Up] (lines 34-99) and
    [Straight] (lines 101-131) for each size. *)
Definition sizeStroke (s : Size) : Z * string :=
  match s with
  | Sm => (5%Z, "#00AAA4"%string)
  | Md => (10%Z, "#00817D"%string)
  | Lg => (15%Z, "#004E4B"%string)
  end.

Record LineView : Type := mkLineView {
  lineDirection : Direction;
  lineSizeOf : Size;
  strokeWidth : Z;
  strokeColor : string
}.

(** [TreeChartLine] (lines 17-32): [null] for a direction that is none of
    the three ([undefined] here). *)
Definition treeChartLine (direction : option Direction) (fraction : option num) : option LineView :=
  let size := lineSize fraction in
  match direction with
  | Some d => Some (mkLineView d size (fst (sizeStroke size)) (snd (sizeStroke size)))
  | None => None
  end.

(** The [switch (leaves.length)] of [renderLines] (TreeChart, lines
    123-133). *)
Definition lineDirections (n : nat) : list Direction :=
  match n with 1%nat => [Straight] | 2%nat => [Up; Down] | _ => [Up; Straight; Down] end.

(** ** Leaf (Leaf/index.tsx) *)

(** [getName] (lines 16-18). *)
Definition getName (n : string) : string :=
  if Nat.ltb 40 (String.length n) then (substring 0 40 n ++ "...")%string else n.

(** [getBorderClass] (lines 31-35). *)
Definition getBorderClass (p : option num) : string :=
  if gtFrac p (1#5) then "tree-chart__leaf--lg"
  else if gtFrac p (2#25) then "tree-chart__leaf--md" else "tree-chart__leaf--sm".

(** What [renderDetail] (lines 53-80) shows: [leaf.value && ...] prints a
    falsy number itself. *)
Inductive DetailView : Type :=
| NoDetail
| SalariesLink (u : string)
| Comp (s : string)
| NumberText (v : num).

(** [leaf.leaves && leaf.leaves.length > 0]. *)
Definition hasLeaves (n : TreeChartData) : bool :=
  match leaves n with Some (_ :: _) => true | _ => false end.

(** [!percentage] is false. *)
Definition truthyPct (n : TreeChartData) : bool :=
  match percentage n with Some x => ntruthy x | None => false end.

(** The [TypeError] of reading [field.length] of an object whose [field]
    is [undefined]. *)
Inductive TypeError : Type := LengthOfUndefined (at_ : Loc) (field : string).

Definition Res (A : Type) : Type := (TypeError + A)%type.

Fixpoint mapRes {A B} (f : A -> Res B) (l : list A) : Res (list B) :=
  match l with
  | [] => inr []
  | x :: l' => match f x with
               | inl e => inl e
               | inr y => match mapRes f l' with inl e => inl e | inr ys => inr (y :: ys) end
               end
  end.

Record SubLeafView : Type := mkSubLeafView {
  subBorder : string;
  subIsLink : bool;
  subName : string;
  subDetail : DetailView
}.

Record SecondLevel : Type := mkSecondLevel {
  subLines : list (option LineView);
  subSingle : bool;
  subLeaves : list SubLeafView
}.

Record LeafView : Type := mkLeafView {
  leafBorder : string;
  leafIsLink : bool;
  leafTitle : string;
  leafName : string;
  leafIcon : bool;
  leafDetail : DetailView;
  secondLevel : option SecondLevel
}.

(** [TreeChart]'s [render] (lines 144-215): [null] without a root. *)
Record TreeChartView : Type := mkTreeChartView {
  shiftClass : string;
  rootName : option string;
  backShown : bool;
  lines : list (option LineView);
  leavesSingle : bool;
  leafViews : list (option LeafView)
}.

Section Component.
(** The objects of the data, and the component's props. *)
Variable heap : list TreeChartData.
Variable props : TreeChartProps.

Definition obj (l : Loc) : TreeChartData := nth l heap emptyNode.

(** [leaf.leaves] is truthy: an array, even an empty one. *)
Definition leavesField (l : Loc) : bool :=
  match leaves (obj l) with Some _ => true | None => false end.

(** [currentRoot && currentRoot.leaves]. *)
Definition rootHasLeaves (root : option Loc) : bool :=
  match root with Some r => leavesField r | None => false end.

Definition wide (innerWidth : Z) : bool := Z.ltb tabletBreakpoint innerWidth.

Definition childrenOf (root : option Loc) : option (list Loc) :=
  match root with Some r => leaves (obj r) | None => None end.

(** The first child with [leaves], when the root has children. *)
Definition firstActive (root : option Loc) : option Loc :=
  match childrenOf root with Some ls => firstWithLeaves obj ls | None => None end.

(** The constructor (lines 32-57), in a window [innerWidth] wide. *)
Definition construct (innerWidth : Z) : TreeChartState :=
  mkTreeChartState (treeChartData props) []
    (if showTwoLevels props && wide innerWidth && rootHasLeaves (treeChartData props)
     then firstActive (treeChartData props) else None).

(** [handleResize] (lines 68-93). *)
Definition handleResize (innerWidth : Z) (st : TreeChartState) : TreeChartState :=
  if showTwoLevels props && wide innerWidth && rootHasLeaves (currentRoot st) then
    match secondActiveLeaf st, firstActive (currentRoot st) with
    | None, Some l => mkTreeChartState (currentRoot st) (prevRoots st) (Some l)
    | _, _ => st
    end
  else
    match secondActiveLeaf st with
    | Some _ => mkTreeChartState (currentRoot st) (prevRoots st) None
    | None => st
    end.

(** [setRoot(leaf)] (lines 95-109); [currentRoot] is never [undefined]
    when a leaf is clicked, and is pushed as it is. *)
Definition setRoot (innerWidth : Z) (leaf : Loc) (st : TreeChartState) : TreeChartState :=
  if showTwoLevels props && wide innerWidth then
    mkTreeChartState (currentRoot st) (prevRoots st) (Some leaf)
  else
    match currentRoot st with
    | Some prevRoot => mkTreeChartState (Some leaf) (prevRoots st ++ [prevRoot]) (secondActiveLeaf st)
    | None => mkTreeChartState (Some leaf) (prevRoots st) (secondActiveLeaf st)
    end.

(** [handleOnClickBack] (lines 111-120): [pop] the last root. *)
Definition handleOnClickBack (st : TreeChartState) : TreeChartState :=
  match rev (prevRoots st) with
  | newRoot :: rest => mkTreeChartState (Some newRoot) (rev rest) (secondActiveLeaf st)
  | [] => st
  end.

(** [Leaf.handleSetRoot(leaf)] (Leaf/index.tsx, lines 20-29): the click
    reaches [setRoot] only when the leaf has a [leaves] array. *)
Definition leafClick (innerWidth : Z) (leaf : Loc) (st : TreeChartState) : TreeChartState :=
  if leavesField leaf then setRoot innerWidth leaf st else st.

(** ** Rendering *)

(** [renderLines(leaves)] (lines 122-142). *)
Definition renderLines (ls : list Loc) : list (option LineView) :=
  map (fun '(id, l) => treeChartLine (nth_error (lineDirections (List.length ls)) id) (percentage (obj l)))
      (combine (seq 0 (List.length ls)) ls).

Variable formatComp : num -> string.

(** [renderDetail(leaf, detailToShow)] (Leaf, lines 53-80). *)
Definition renderDetail (n : TreeChartData) : DetailView :=
  match detailToShow props with
  | Some DLink =>
      match url n with Some u => if String.eqb u "" then NoDetail else SalariesLink u | None => NoDetail end
  | Some DComp =>
      match value n with Some v => if ntruthy v then Comp (formatComp v) else NumberText v | None => NoDetail end
  | None => NoDetail
  end.

(** One [div] of [renderLeaves] (Leaf, lines 37-51): [getName] reads
    [leaf.name.length]. *)
Definition renderSubLeaf (l : Loc) : Res SubLeafView :=
  let n := obj l in
  match name n with
  | Some nm => inr (mkSubLeafView (getBorderClass (percentage n)) (hasLeaves n) (getName nm) (renderDetail n))
  | None => inl (LengthOfUndefined l "name")
  end.

Definition renderLeaves (ls : list Loc) : Res (list SubLeafView) := mapRes renderSubLeaf (firstn 3 ls).

(** [Leaf]'s [render] (Leaf, lines 81-124) for the leaf [l], its
    [percentage] prop being [l.percentage] (TreeChart, line 190). *)
Definition renderLeaf (sal : option Loc) (l : Loc) : Res (option LeafView) :=
  let n := obj l in
  if negb (truthyPct n) then inr None else
  match name n with
  | None => inl (LengthOfUndefined l "name")
  | Some nm =>
      let second :=
        if refEqb sal l && hasLeaves n then
          match leaves n with
          | Some ls =>
              match renderLeaves ls with
              | inl e => inl e
              | inr subs => inr (Some (mkSecondLevel (renderLines ls) (Nat.eqb (List.length ls) 1) subs))
              end
          | None => inr None
          end
        else inr None in
      match second with
      | inl e => inl e
      | inr sec =>
          inr (Some (mkLeafView (getBorderClass (percentage n)) (hasLeaves n)
                      (if Nat.ltb 40 (String.length nm) then nm else "") (getName nm)
                      (hasLeaves n) (renderDetail n) sec))
      end
  end.

(** [shiftClass] (lines 155-166): [currentRoot.leaves.length] and then
    [secondActiveLeaf.leaves.length] are read. *)
Definition computeShift (r : Loc) (sal : option Loc) : Res string :=
  match sal with
  | Some s =>
      if showTwoLevels props then
        match leaves (obj r) with
        | None => inl (LengthOfUndefined r "leaves")
        | Some cls =>
            if Nat.ltb 1 (List.length cls) then
              match leaves (obj s) with
              | None => inl (LengthOfUndefined s "leaves")
              | Some sls =>
                  if Nat.ltb 1 (List.length sls) then
                    let lastIndex := if Nat.eqb (List.length cls) 2 then 1%nat else 2%nat in
                    if refEqb (nth_error cls 0) s then inr "padding-top"%string
                    else if refEqb (nth_error cls lastIndex) s then inr "padding-bottom"%string
                    else inr ""%string
                  else inr ""%string
              end
            else inr ""%string
        end
      else inr ""%string
  | None => inr ""%string
  end.

Definition render (st : TreeChartState) : Res (option TreeChartView) :=
  match currentRoot st with
  | None => inr None
  | Some r =>
      let n := obj r in
      match computeShift r (secondActiveLeaf st) with
      | inl e => inl e
      | inr shift =>
          let ls := match leaves n with Some ls => ls | None => [] end in
          match mapRes (renderLeaf (secondActiveLeaf st)) (firstn 3 ls) with
          | inl e => inl e
          | inr views =>
              inr (Some (mkTreeChartView shift (name n) (negb (Nat.eqb (List.length (prevRoots st)) 0))
                           (renderLines ls) (Nat.eqb (List.length ls) 1) views))
          end
      end
  end.

(** The leaves a user can click: the first three children, those [Leaf]
    renders (a truthy [percentage]). *)
Definition shownLeaves (st : TreeChartState) : list Loc :=
  match childrenOf (currentRoot st) with
  | Some ls => filter (fun l => truthyPct (obj l)) (firstn 3 ls)
  | None => []
  end.

(** ** Events *)

(** The window and the component's state. *)
Record World : Type := mkWorld { width : Z; st : TreeChartState }.

Inductive TreeEvent : Type :=
| Resize (innerWidth : Z)
| ClickLeaf (l : Loc)
| ClickBack.

(** Mounting: the constructor, then [componentDidMount]'s [handleResize]
    (lines 59-62). *)
Definition mount (innerWidth : Z) : World :=
  mkWorld innerWidth (handleResize innerWidth (construct innerWidth)).

Definition treeStep (ev : TreeEvent) (w : World) : World :=
  match ev with
  | Resize iw => mkWorld iw (handleResize iw (st w))
  | ClickLeaf l => mkWorld (width w) (leafClick (width w) l (st w))
  | ClickBack => mkWorld (width w) (handleOnClickBack (st w))
  end.

(** The worlds a user reaches: mounting, resizing, clicking a shown leaf
    and clicking back. *)
Inductive Reachable : World -> Prop :=
| R_mount iw : Reachable (mount iw)
| R_resize w iw : Reachable w -> Reachable (treeStep (Resize iw) w)
| R_click w l : Reachable w -> In l (shownLeaves (st w)) -> Reachable (treeStep (ClickLeaf l) w)
| R_back w : Reachable w -> Reachable (treeStep ClickBack w).

End Component.

(** ** Invariant *)

Lemma mapRes_ok {A B} (f : A -> Res B) l :
  (forall x, In x l -> exists y, f x = inr y) -> exists ys, mapRes f l = inr ys.
Proof.
  induction l as [|x l IH]; intros H; cbn; [eauto|].
  destruct (H x (or_introl eq_refl)) as [y ->].
  destruct IH as [ys ->]; [intros z Hz; apply H; now right|eauto].
Qed.

Lemma firstWithLeaves_has get ls a :
  firstWithLeaves get ls = Some a -> In a ls /\ exists cs, leaves (get a) = Some cs.
Proof.
  induction ls as [|l ls IH]; cbn; [discriminate|].
  destruct (leaves (get l)) eqn:E; [intros [= <-]; eauto|].
  intros H. destruct (IH H) as [? ?]. eauto.
Qed.

Section Invariant.
Variable heap : list TreeChartData.
Variable props : TreeChartProps.
Local Abbreviation obj := (obj heap).
Local Abbreviation leavesField := (leavesField heap).

(** [c] is in the [leaves] array of [p]. *)
Definition childOf (p c : Loc) : Prop :=
  match leaves (obj p) with Some ls => In c ls | None => False end.

(** A path down the data from [p]: each node a child of the one before,
    with a [leaves] array. *)
Fixpoint chainFrom (p : Loc) (l : list Loc) : Prop :=
  match l with
  | [] => True
  | c :: l' => childOf p c /\ leavesField c = true /\ chainFrom c l'
  end.

(** The roots on the stack and the current root form a path down from
    the data's root; every root on the stack and the second active leaf
    have a [leaves] array, and so does the current root when there is a
    second active leaf. *)
Definition Inv (s : TreeChartState) : Prop :=
  match treeChartData props with
  | None => currentRoot s = None /\ prevRoots s = [] /\ secondActiveLeaf s = None
  | Some d =>
      exists r path, currentRoot s = Some r /\ prevRoots s ++ [r] = d :: path /\ chainFrom d path /\
      Forall (fun q => leavesField q = true) (prevRoots s) /\
      (forall a, secondActiveLeaf s = Some a -> leavesField a = true /\ leavesField r = true)
  end.

Lemma childOf_field p c : childOf p c -> leavesField p = true.
Proof. unfold childOf, Tree.leavesField. now destruct (leaves (obj p)). Qed.

Lemma chainFrom_prefix p a b : chainFrom p (a ++ b) -> chainFrom p a.
Proof. revert p; induction a as [|c a IH]; cbn; intros p; [auto|intros (? & ? & ?); eauto]. Qed.

Lemma last_indep (a : list Loc) x p q : last (x :: a) p = last (x :: a) q.
Proof. revert x; induction a as [|y a IH]; intros x; [reflexivity|apply IH]. Qed.

Lemma chainFrom_snoc p a c :
  chainFrom p a -> childOf (last a p) c -> leavesField c = true -> chainFrom p (a ++ [c]).
Proof.
  revert p; induction a as [|x a IH]; cbn; intros p; [tauto|].
  intros (? & ? & ?) Hc ?. repeat split; auto. apply IH; auto.
  destruct a as [|y a]; [exact Hc|]. now rewrite (last_indep a y x p).
Qed.

Lemma last_of_snoc (ps path : list Loc) d r : ps ++ [r] = d :: path -> last path d = r.
Proof.
  intros H. transitivity (last (d :: path) d); [now destruct path|].
  rewrite <- H. apply last_last.
Qed.

Lemma firstActive_field root a :
  firstActive heap root = Some a -> leavesField a = true.
Proof.
  unfold firstActive. destruct (childrenOf heap root); [|discriminate].
  intros H. destruct (firstWithLeaves_has _ _ _ H) as [_ [cs E]].
  unfold Tree.leavesField. now rewrite E.
Qed.

Lemma shown_child s l :
  In l (shownLeaves heap s) -> exists r, currentRoot s = Some r /\ childOf r l.
Proof.
  unfold shownLeaves, childrenOf. destruct (currentRoot s) as [r|]; [|contradiction].
  destruct (leaves (obj r)) eqn:E; [|contradiction].
  intros H. apply filter_In in H. exists r. split; [reflexivity|].
  unfold childOf. rewrite E. apply (In_firstn _ 3), H.
Qed.

Lemma construct_inv iw : Inv (construct heap props iw).
Proof.
  unfold Inv, construct. cbn. destruct (treeChartData props) as [d|]; cbn.
  - exists d, []. do 4 (split; [now auto|]). intros a.
    destruct (_ && _ && _) eqn:E; [|discriminate]. intros H.
    apply andb_true_iff in E as [_ E]. split; [eapply firstActive_field; eauto|exact E].
  - now rewrite andb_false_r.
Qed.

Lemma handleResize_inv iw s : Inv s -> Inv (handleResize heap props iw s).
Proof.
  intros HI. unfold handleResize. destruct (_ && _ && _) eqn:E.
  - destruct (secondActiveLeaf s) eqn:Ea; [exact HI|].
    destruct (firstActive heap (currentRoot s)) as [a|] eqn:F; [|exact HI].
    unfold Inv in *. destruct (treeChartData props) as [d|].
    + destruct HI as (r & path & Hr & Hp & Hc & Hf & Hs).
      exists r, path. cbn. do 4 (split; [assumption|]). intros a' [= <-].
      split; [eapply firstActive_field; eauto|]. apply andb_true_iff in E as [_ E]. now rewrite Hr in E.
    + apply andb_true_iff in E as [_ E]. destruct HI as (Hr & _). now rewrite Hr in E.
  - destruct (secondActiveLeaf s) eqn:Ea; [|exact HI].
    unfold Inv in *. destruct (treeChartData props) as [d|].
    + destruct HI as (r & path & Hr & Hp & Hc & Hf & Hs).
      exists r, path. cbn. do 4 (split; [assumption|]). discriminate.
    + destruct HI as (_ & _ & Hs). congruence.
Qed.

Lemma leafClick_inv iw s l : Inv s -> In l (shownLeaves heap s) -> Inv (leafClick heap props iw l s).
Proof.
  intros HI Hl. destruct (shown_child s l Hl) as (r0 & Hr0 & Hc0).
  unfold leafClick. destruct (Tree.leavesField heap l) eqn:El; [|exact HI].
  unfold Inv in *. destruct (treeChartData props) as [d|]; [|destruct HI; congruence].
  destruct HI as (r & path & Hr & Hp & Hc & Hf & Hs). rewrite Hr0 in Hr. injection Hr as <-.
  unfold setRoot. destruct (_ && _).
  - exists r0, path. cbn. do 4 (split; [assumption|]). intros a [= <-].
    split; [exact El|exact (childOf_field _ _ Hc0)].
  - rewrite Hr0. exists l, (path ++ [l]). cbn. split; [reflexivity|]. split; [|split; [|split]].
    + now rewrite Hp.
    + apply chainFrom_snoc; auto. rewrite (last_of_snoc _ _ _ _ Hp). exact Hc0.
    + apply Forall_app; split; auto. constructor; [exact (childOf_field _ _ Hc0)|constructor].
    + intros a Ha. split; [apply (Hs a Ha)|exact El].
Qed.

Lemma back_inv s : Inv s -> Inv (handleOnClickBack s).
Proof.
  unfold Inv, handleOnClickBack. destruct (treeChartData props) as [d|].
  - intros (r & path & Hr & Hp & Hc & Hf & Hs).
    destruct (rev (prevRoots s)) as [|q rest] eqn:E; [exists r, path; auto|].
    assert (Hps : prevRoots s = rev rest ++ [q]) by (rewrite <- (rev_involutive (prevRoots s)), E; reflexivity).
    rewrite Hps in Hp, Hf. apply Forall_app in Hf as [Hf Hq]. inversion Hq; subst.
    destruct (rev rest) as [|x xs] eqn:Er; cbn in Hp |- *.
    + injection Hp as <- _. exists q, []. cbn. do 4 (split; [auto|]). intros a Ha. split; [apply (Hs a Ha)|exact H1].
    + injection Hp as <- Hp. exists q, (xs ++ [q]). cbn. do 2 (split; [reflexivity|]).
      split; [rewrite <- Hp in Hc; eapply chainFrom_prefix; exact Hc|].
      split; [exact Hf|]. intros a Ha. split; [apply (Hs a Ha)|exact H1].
  - intros (Hr & Hp & Hs). rewrite Hp. cbn. auto.
Qed.

Lemma reachable_inv w : Reachable heap props w -> Inv (st w).
Proof.
  induction 1; cbn.
  - apply handleResize_inv, construct_inv.
  - now apply handleResize_inv.
  - now apply leafClick_inv.
  - now apply back_inv.
Qed.

End Invariant.

(** ** Rendering never throws on the reachable states *)

Section Safety.
Variable heap : list TreeChartData.
Variable props : TreeChartProps.
Variable formatComp : num -> string.
Local Abbreviation obj := (obj heap).

(** Every object in a [leaves] array has a [name]. *)
Definition Named : Prop := forall p c, childOf heap p c -> name (obj c) <> None.

Hypothesis named : Named.

Lemma renderLeaves_ok l ls :
  leaves (obj l) = Some ls -> exists v, renderLeaves heap props formatComp ls = inr v.
Proof.
  intros El. apply mapRes_ok. intros x Hx. apply In_firstn in Hx.
  assert (Hn : name (obj x) <> None) by (apply (named l); unfold childOf; now rewrite El).
  unfold renderSubLeaf. destruct (name (obj x)); [eauto|congruence].
Qed.

Lemma renderLeaf_ok sal p l : childOf heap p l -> exists v, renderLeaf heap props formatComp sal l = inr v.
Proof.
  intros Hc. unfold renderLeaf. destruct (truthyPct (obj l)); cbn [negb]; [|eauto].
  destruct (name (obj l)) eqn:En; [|exfalso; exact (named p l Hc En)].
  destruct (refEqb sal l && hasLeaves (obj l)); [|eauto].
  destruct (leaves (obj l)) as [ls|] eqn:El; [|eauto].
  destruct (renderLeaves_ok l ls El) as [v ->]. eauto.
Qed.

Lemma computeShift_ok r sal :
  (forall a, sal = Some a -> leavesField heap a = true /\ leavesField heap r = true) ->
  exists v, computeShift heap props r sal = inr v.
Proof.
  intros Hs. unfold computeShift. destruct sal as [a|]; [|eauto].
  destruct (Hs a eq_refl) as [Ha Hr]. unfold leavesField in Ha, Hr.
  destruct (showTwoLevels props); [|eauto].
  destruct (leaves (Tree.obj heap r)); [|discriminate].
  destruct (Nat.ltb 1 _); [|eauto].
  destruct (leaves (Tree.obj heap a)); [|discriminate].
  repeat match goal with |- context [if ?b then _ else _] => destruct b end; eauto.
Qed.

Lemma inv_render s : Inv heap props s -> exists v, render heap props formatComp s = inr v.
Proof.
  intros HI. unfold render. destruct (currentRoot s) as [r|] eqn:Hr; [|eauto].
  assert (Hs : forall a, secondActiveLeaf s = Some a -> leavesField heap a = true /\ leavesField heap r = true).
  { unfold Inv in HI. destruct (treeChartData props).
    - destruct HI as (r' & path & Hr' & _ & _ & _ & Hs). rewrite Hr in Hr'. injection Hr' as <-. exact Hs.
    - destruct HI as [Hn _]. congruence. }
  destruct (computeShift_ok r _ Hs) as [shift ->].
  destruct (mapRes_ok (renderLeaf heap props formatComp (secondActiveLeaf s))
              (firstn 3 match leaves (obj r) with Some ls => ls | None => [] end)) as [views ->]; [|eauto].
  intros x Hx. apply In_firstn in Hx. apply (renderLeaf_ok _ r).
  unfold childOf. destruct (leaves (obj r)); [exact Hx|contradiction].
Qed.

End Safety.

(** C11: On every state a user reaches (mounting, resizing, clicking a
    shown leaf, clicking back), when every object of a [leaves] array has a
    name, [render] does not throw: [currentRoot.leaves.length] and
    [secondActiveLeaf.leaves.length] are read only on objects that have a
    [leaves] array. *)
Theorem render_safe heap props formatComp w :
  Reachable heap props w -> Named heap -> exists v, render heap props formatComp (st w) = inr v.
Proof. intros HR HN. apply (inv_render heap props formatComp HN), reachable_inv, HR. Qed.

(** ** Back undoes a click, lines match leaves *)

(** On a narrow window (or without [showTwoLevels]), clicking a
    leaf that has a [leaves] array and then clicking back returns to the
    world before the click: [setRoot] pushes the root that [pop] restores. *)
Theorem click_back_roundtrip heap props w l :
  showTwoLevels props && wide (width w) = false ->
  leavesField heap l = true -> currentRoot (st w) <> None ->
  treeStep heap props ClickBack (treeStep heap props (ClickLeaf l) w) = w.
Proof.
  intros Hn Hl Hr. destruct w as [iw [[r|] ps sal]]; cbn in *; [|congruence].
  unfold leafClick, setRoot. rewrite Hl, Hn. cbn.
  unfold handleOnClickBack. cbn. rewrite rev_app_distr. cbn. now rewrite rev_involutive.
Qed.

Lemma nth_error_combine_seq {A} (ls : list A) i x k :
  nth_error ls i = Some x -> nth_error (combine (seq k (List.length ls)) ls) i = Some (k + i, x)%nat.
Proof.
  revert i k; induction ls as [|y ls IH]; intros [|i] k; cbn; try discriminate.
  - intros [= ->]. now rewrite Nat.add_0_r.
  - intros H. rewrite (IH i (S k) H). now rewrite Nat.add_succ_r.
Qed.

Lemma lineDirections_some n i : (i < 3)%nat -> (i < n)%nat -> exists d, nth_error (lineDirections n) i = Some d.
Proof. intros. destruct n as [|[|[|n]]]; destruct i as [|[|[|i]]]; cbn; eauto; lia. Qed.

Lemma lineDirections_none n i : (3 <= i)%nat -> nth_error (lineDirections n) i = None.
Proof. intros. apply nth_error_None. destruct n as [|[|[|n]]]; cbn; lia. Qed.

Lemma border_size p : getBorderClass p = ("tree-chart__leaf--" ++ sizeName (lineSize p))%string.
Proof. unfold getBorderClass, lineSize. now destruct (gtFrac p (1#5)), (gtFrac p (2#25)). Qed.

(** [renderLines] draws a line for each of the first three leaves,
    in the direction [lineDirections] gives for the number of leaves and of
    the size whose class is the leaf's border class, and [null] for every
    leaf after the third. *)
Theorem renderLines_match heap ls i l :
  nth_error ls i = Some l ->
  ((i < 3)%nat -> exists line, nth_error (renderLines heap ls) i = Some (Some line) /\
     nth_error (lineDirections (List.length ls)) i = Some (lineDirection line) /\
     getBorderClass (percentage (obj heap l)) = ("tree-chart__leaf--" ++ sizeName (lineSizeOf line))%string) /\
  ((3 <= i)%nat -> nth_error (renderLines heap ls) i = Some None).
Proof.
  intros Hl. unfold renderLines. rewrite nth_error_map, (nth_error_combine_seq _ _ _ 0 Hl). cbn.
  assert (Hi : (i < List.length ls)%nat) by (apply nth_error_Some; congruence).
  split.
  - intros H3. destruct (lineDirections_some _ _ H3 Hi) as [d Hd]. rewrite Hd.
    eexists; split; [reflexivity|]. split; [reflexivity|apply border_size].
  - intros H3. now rewrite lineDirections_none.
Qed.

Module TreeTests.
Local Open Scope nat_scope.

Definition node n u ls v p : TreeChartData := mkTreeChartData n u ls v p.
Definition half : option num := Some (Fin (1#2)).

(** Jobs -> A -> B -> C, one child each; A's value is 0. *)
Definition h1 : list TreeChartData :=
  [node (Some "Jobs"%string) None (Some [1%nat]) None None;
   node (Some "A"%string) None (Some [2%nat]) (Some (Fin 0)) half;
   node (Some "B"%string) None (Some [3%nat]) None half;
   node (Some "C"%string) None None None half].
Definition p1 : TreeChartProps := mkTreeChartProps (Some 0%nat) (Some DComp) true.
Definition fmt (_ : num) : string := "$1"%string.

(** Mount narrow, open A, widen (B opens as the second level), go back,
    widen again. *)
Definition wStale : World :=
  treeStep h1 p1 (Resize 1200) (treeStep h1 p1 ClickBack (treeStep h1 p1 (Resize 1000)
    (treeStep h1 p1 (ClickLeaf 1) (mount h1 p1 500)))).

Lemma wStale_reachable : Reachable h1 p1 wStale.
Proof.
  apply R_resize, R_back, R_resize, R_click; [apply R_mount|vm_compute; left; reflexivity].
Qed.

Lemma h1_named : Named h1.
Proof.
  intros p c H. destruct (Nat.lt_ge_cases p 4) as [Hp|Hp].
  - destruct p as [|[|[|[|p]]]]; try lia; cbn in H; try contradiction;
      destruct H as [<-|[]]; discriminate.
  - unfold childOf, obj in H. rewrite nth_overflow in H by (cbn; lia). contradiction.
Qed.

(** After back on a wide window the second active leaf is B, a child of
    the old root, so no leaf of the new root opens its second level,
    although A has children; resizing does not repair it. *)
Example stale_second_level :
  Reachable h1 p1 wStale /\ wide (width wStale) = true /\
  firstActive h1 (currentRoot (st wStale)) = Some 1%nat /\
  match render h1 p1 fmt (st wStale) with
  | inr (Some v) => map (option_map secondLevel) (leafViews v) = [Some None]
  | _ => False
  end.
Proof. split; [exact wStale_reachable|vm_compute; auto]. Qed.

(** With [detailToShow = 'comp'] a leaf whose value is 0 shows the text
    [0]: [leaf.value && ...] is [0]. *)
Example zero_value_prints_zero :
  match render h1 p1 fmt (st (mount h1 p1 500)) with
  | inr (Some v) => map (option_map leafDetail) (leafViews v) = [Some (NumberText (Fin 0))]
  | _ => False
  end.
Proof. vm_compute. reflexivity. Qed.

(** The same object twice in a [leaves] array: on a wide window both of
    its leaves open the second level, [secondActiveLeaf === leaf] holding
    for both. *)
Definition h2 : list TreeChartData :=
  [node (Some "Jobs"%string) None (Some [1%nat; 1%nat]) None None;
   node (Some "A"%string) None (Some [2%nat]) None half;
   node (Some "B"%string) None None None half].

Example shared_leaf_opens_twice :
  Reachable h2 p1 (mount h2 p1 1000) /\
  match render h2 p1 fmt (st (mount h2 p1 1000)) with
  | inr (Some v) =>
      map (fun lv => match lv with Some x => match secondLevel x with Some _ => true | None => false end
                                 | None => false end) (leafViews v) = [true; true]
  | _ => False
  end.
Proof. split; [apply R_mount|vm_compute; reflexivity]. Qed.

(** A shown leaf without a [name] makes [Leaf] throw on
    [leaf.name.length]. *)
Definition h3 : list TreeChartData :=
  [node (Some "Jobs"%string) None (Some [1%nat]) None None; node None None None None half].

Example unnamed_leaf_throws :
  render h3 p1 fmt (st (mount h3 p1 500)) = inl (LengthOfUndefined 1 "name").
Proof. vm_compute. reflexivity. Qed.

Lemma render_safe_witness :
  Reachable h1 p1 wStale /\ Named h1 /\ exists v, render h1 p1 fmt (st wStale) = inr v.
Proof.
  split; [exact wStale_reachable|split; [exact h1_named|]].
  apply (render_safe h1 p1 fmt wStale); [exact wStale_reachable|exact h1_named].
Defined.

Lemma click_back_roundtrip_witness :
  showTwoLevels p1 && wide (width (mount h1 p1 500)) = false /\ leavesField h1 1 = true /\
  currentRoot (st (mount h1 p1 500)) <> None /\
  treeStep h1 p1 ClickBack (treeStep h1 p1 (ClickLeaf 1) (mount h1 p1 500)) = mount h1 p1 500.
Proof.
  split; [reflexivity|split; [reflexivity|split; [discriminate|]]].
  apply click_back_roundtrip; [reflexivity|reflexivity|discriminate].
Defined.

Lemma renderLines_match_witness :
  nth_error [1%nat; 2%nat; 3%nat; 1%nat] 3 = Some 1%nat /\
  ((3 < 3)%nat -> exists line, nth_error (renderLines h1 [1%nat; 2%nat; 3%nat; 1%nat]) 3 = Some (Some line) /\
     nth_error (lineDirections 4) 3 = Some (lineDirection line) /\
     getBorderClass (percentage (obj h1 1)) = ("tree-chart__leaf--" ++ sizeName (lineSizeOf line))%string) /\
  ((3 <= 3)%nat -> nth_error (renderLines h1 [1%nat; 2%nat; 3%nat; 1%nat]) 3 = Some None).
Proof. split; [reflexivity|apply renderLines_match; reflexivity]. Defined.

End TreeTests.

End Tree.
