(* ===== verification/CurrencyUtils.v ===== *)
(** * Currency formatting: [src/src/CurrencyUtils/index.ts]

    [formatCurrency(val, currency, options)] picks an abbreviation (K, M,
    B) for large values, divides by it, formats the number with the
    browser's [Intl.NumberFormat] when there is one and with
    [Number.prototype.toFixed] otherwise, strips the trailing zeros of the
    decimals when [showDecimalZeros] is [false], and appends the
    abbreviation's suffix.

    [Intl] is the platform's: the model takes it as an optional function
    from the options object the code builds ([FormatProps]) to a
    formatter, [None] when the constructor throws; [IntlNumberFormat]
    states the one rule of ECMA-402 the theorems need (a [NaN] digit
    option is a [RangeError]).  [toFixed] follows ECMA-262 for numbers
    below [10^21]; above, the platform's [Number::toString] is a parameter. *)

From Stdlib Require Import QArith Qround Lqa ZArith Arith List String Ascii Bool Lia.
From S2P Require Import StringUtils Prelude.
Import ListNotations.
Open Scope string_scope.

Module Currency.

(** [interface FormatOptions] (lines 1-6): every field may be missing. *)
Record FormatOptions : Type := mkFormatOptions {
  abbreviate : option bool;
  fractionalDigits : option num;
  includeThousandsSeparator : option bool;
  showDecimalZeros : option bool
}.

(** [interface Abbreviation] (lines 8-11). *)
Record Abbreviation : Type := mkAbbreviation { floor : Q; suffix : string }.

(** [const abbreviations] (lines 20-24), in ascending order. *)
Definition abbreviations : list Abbreviation :=
  [mkAbbreviation 1000 "K"; mkAbbreviation 1000000 "M"; mkAbbreviation 1000000000 "B"].

(** [val >= c], false on [NaN]. *)
Definition ngeQ (x : num) (c : Q) : bool :=
  match x with Fin q => Qle_bool c q | PosInf => true | _ => false end.

(** The loop of lines 27-32: from the largest floor down, the first one
    [val] reaches. *)
Fixpoint findAbbreviation (val : num) (desc : list Abbreviation) : option Abbreviation :=
  match desc with
  | [] => None
  | a :: rest => if ngeQ val (floor a) then Some a else findAbbreviation val rest
  end.

(** The options object of lines 48-60. *)
Record FormatProps : Type := mkFormatProps {
  style : string;
  currencyCode : string;
  useGrouping : option bool;
  maximumFractionDigits : option num;
  minimumFractionDigits : option num;
  minimumSignificantDigits : option num
}.

(** [fractionalDigits + 1], [undefined + 1] being [NaN]. *)
Definition plusOne (x : option num) : num :=
  match x with Some v => nadd v (Fin 1) | None => NaN end.

(** [val === 0] ([-0 === 0] too). *)
Definition isZero (x : num) : bool := match x with Fin q => Qeq_bool q 0 | _ => false end.

Definition formatProps (val : num) (currency : option string) (options : option FormatOptions)
    (fd : option num) : FormatProps :=
  mkFormatProps "currency"
    (match currency with
     | Some c => if Nat.leb 3 (String.length c) then substring 0 3 c else "USD"
     | None => "USD"
     end)
    (match options with Some o => includeThousandsSeparator o | None => Some true end)
    fd fd
    (if isZero val then Some (plusOne fd) else None).

(** [new Intl.NumberFormat('en-US', props)]: a formatter, or [None] for
    the [RangeError] the constructor throws. *)
Definition NumberFormat : Type := FormatProps -> option (num -> string).

(** What the theorems use of ECMA-402: [minimumSignificantDigits] of
    [NaN] is out of range. *)
Class IntlNumberFormat (nf : NumberFormat) : Prop :=
  nf_nan_digits : forall p, minimumSignificantDigits p = Some NaN -> nf p = None.

Inductive FormatError : Type := RangeError.

Definition Res (A : Type) : Type := (FormatError + A)%type.

(** ** [Number.prototype.toFixed] (ECMA-262) *)

Definition digitChar (d : Z) : ascii := ascii_of_nat (48 + Z.to_nat d).

Fixpoint showDigits (fuel : nat) (n : Z) (acc : string) : string :=
  match fuel with
  | O => acc
  | S f =>
      let acc' := String (digitChar (n mod 10)) acc in
      if Z.ltb n 10 then acc' else showDigits f (n / 10) acc'
  end.

(** The decimal digits of [n >= 0]. *)
Definition showZ (n : Z) : string := showDigits (Z.to_nat (Z.log2 n + 1)) n "".

Fixpoint zeros (k : nat) : string :=
  match k with O => "" | S k' => String "0" (zeros k') end.

(** Steps 10-11 of [toFixed] for [0 <= x < 10^21]: the integer [n] with
    [n / 10^f - x] closest to zero (the larger on a tie), with the point
    put [f] digits from the right. *)
Definition toFixedDigits (x : Q) (f : nat) : string :=
  let n := Qfloor (x * inject_Z (10 ^ Z.of_nat f) + (1#2)) in
  let m := showZ n in
  match f with
  | O => m
  | S _ =>
      let m := if Nat.leb (String.length m) f then (zeros (f + 1 - String.length m) ++ m)%string else m in
      let k := String.length m in
      (substring 0 (k - f) m ++ "." ++ substring (k - f) f m)%string
  end.

(** [ToIntegerOrInfinity(fractionDigits)] and its range check. *)
Definition digitsArg (fd : option num) : Res nat :=
  match fd with
  | None | Some NaN => inr 0%nat
  | Some (Fin q) =>
      let z := trunc q in
      if (0 <=? z)%Z && (z <=? 100)%Z then inr (Z.to_nat z) else inl RangeError
  | Some _ => inl RangeError
  end.

Section Formatting.
(** [Number::toString] of a number of at least [10^21]. *)
Variable largeToString : Q -> string.
(** [window.Intl], when the browser has it. *)
Variable intl : option NumberFormat.

Definition toFixed (x : num) (fd : option num) : Res string :=
  match digitsArg fd with
  | inl e => inl e
  | inr f =>
      inr match x with
          | NaN => "NaN"
          | PosInf => "Infinity"
          | NegInf => "-Infinity"
          | Fin q =>
              let '(s, q') := if Qlt_le_dec q 0 then ("-"%string, - q) else (""%string, q) in
              (s ++ (if Qle_bool (inject_Z (10 ^ 21)) q' then largeToString q' else toFixedDigits q' f))%string
          end
  end.

(** The loop of lines 73-78: [i] runs from [initLen - 1] down to [0], and
    [decimalPart] loses its last character while that is a ['0']. *)
Fixpoint trimLoop (n : nat) (decimalPart : string) : string :=
  match n with
  | O => decimalPart
  | S i =>
      match String.get i decimalPart with
      | Some c => if Ascii.eqb c "0" then trimLoop i (substring 0 i decimalPart) else decimalPart
      | None => decimalPart
      end
  end.

(** Lines 69-82. *)
Definition removeDecimalZeros (formattedValue : string) : string :=
  match splitOn "." formattedValue with
  | [intPart; decimalPart] =>
      let decimalPart := trimLoop (String.length decimalPart) decimalPart in
      if Nat.ltb 0 (String.length decimalPart) then (intPart ++ "." ++ decimalPart)%string else intPart
  | _ => formattedValue
  end.

(** [formatCurrency] (lines 15-90). *)
Definition formatCurrency (val : num) (currency : option string) (options : option FormatOptions) : Res string :=
  let abbreviation :=
    match options with
    | Some o => if match abbreviate o with Some b => b | None => false end
                then findAbbreviation val (rev abbreviations) else None
    | None => None
    end in
  let val := match abbreviation with Some a => ndiv val (Fin (floor a)) | None => val end in
  let fd := match options with
            | Some o => fractionalDigits o
            | None => Some (Fin (if nlt (nabs val) (Fin 100) then 2 else 0))
            end in
  let formatted :=
    match intl with
    | Some nf => match nf (formatProps val currency options fd) with
                 | Some fmt => inr (fmt val)
                 | None => inl RangeError
                 end
    | None => toFixed val fd
    end in
  match formatted with
  | inl e => inl e
  | inr s =>
      let s := match options with
               | Some o => match showDecimalZeros o with Some false => removeDecimalZeros s | _ => s end
               | None => s
               end in
      inr (match abbreviation with Some a => s ++ suffix a | None => s end)%string
  end.

End Formatting.

(** ** [showZ] and its decimal value *)

Lemma digitChar_value d : (0 <= d < 10)%Z -> N_of_ascii (digitChar d) = (48 + Z.to_N d)%N.
Proof.
  intros Hd. unfold digitChar, ascii_of_nat.
  rewrite N_ascii_embedding; lia.
Qed.

Lemma showDigits_app f n acc :
  showDigits f n acc = (showDigits f n "" ++ acc)%string.
Proof.
  revert n acc; induction f as [|f IH]; intros n acc; cbn; [reflexivity|].
  destruct (n <? 10)%Z; [reflexivity|].
  rewrite IH, (IH _ (String _ "")), append_assoc_str. reflexivity.
Qed.

Lemma digitsValueAcc_app a s t :
  Tokens.digitsValueAcc a (s ++ t) = Tokens.digitsValueAcc (Tokens.digitsValueAcc a s) t.
Proof. revert a; induction s as [|c s IH]; intros a; cbn; [reflexivity|]. apply IH. Qed.

Lemma log2_div10 n : (10 <= n)%Z -> (Z.log2 (n / 10) + 1 <= Z.log2 n)%Z.
Proof.
  intros Hn.
  assert (H2 : (2 * (n / 10) <= n)%Z) by (pose proof (Z.mul_div_le n 10); lia).
  assert (Hp : (0 < n / 10)%Z) by (apply Z.div_str_pos; lia).
  pose proof (Z.log2_double _ Hp). pose proof (Z.log2_le_mono _ _ H2). lia.
Qed.

Lemma showDigits_value f n :
  (0 <= n)%Z -> (Z.log2 n + 1 <= Z.of_nat f)%Z ->
  Tokens.digitsValue (showDigits f n "") = Z.to_N n.
Proof.
  revert n; induction f as [|f IH]; intros n Hn Hf.
  { pose proof (Z.log2_nonneg n); lia. }
  cbn [showDigits]. destruct (Z.ltb_spec n 10).
  - unfold Tokens.digitsValue; cbn [Tokens.digitsValueAcc]. rewrite Z.mod_small by lia.
    rewrite digitChar_value by lia. lia.
  - rewrite showDigits_app. unfold Tokens.digitsValue. rewrite digitsValueAcc_app.
    fold (Tokens.digitsValue (showDigits f (n / 10) "")).
    rewrite IH by (try apply Z.div_pos; try pose proof (log2_div10 n); lia).
    cbn [Tokens.digitsValueAcc]. rewrite digitChar_value by (apply Z.mod_pos_bound; lia).
    pose proof (Z.div_mod n 10). pose proof (Z.mod_pos_bound n 10). lia.
Qed.

Lemma showDigits_head f n acc :
  exists d s, (0 <= d < 10)%Z /\ showDigits (S f) n acc = String (digitChar d) s.
Proof.
  revert n acc; induction f as [|f IH]; intros n acc.
  - cbn. destruct (n <? 10)%Z; eexists _, _; split; [apply Z.mod_pos_bound; lia|reflexivity|
      apply Z.mod_pos_bound; lia|reflexivity].
  - cbn [showDigits]. destruct (n <? 10)%Z; [|apply IH].
    eexists _, _; split; [apply Z.mod_pos_bound; lia|reflexivity].
Qed.

Lemma showZ_value n : (0 <= n)%Z -> Tokens.digitsValue (showZ n) = Z.to_N n.
Proof.
  intros Hn. unfold showZ. apply showDigits_value; [exact Hn|].
  pose proof (Z.log2_nonneg n). lia.
Qed.

Lemma showZ_head n :
  (0 <= n)%Z -> exists d s, (0 <= d < 10)%Z /\ showZ n = String (digitChar d) s.
Proof.
  intros Hn. unfold showZ. destruct (Z.to_nat (Z.log2 n + 1)) as [|f] eqn:E.
  - pose proof (Z.log2_nonneg n). lia.
  - apply showDigits_head.
Qed.

(** ** Trailing zeros *)

(** The reference: [s] without its trailing ['0']s. *)
Fixpoint stripZeros (s : string) : string :=
  match s with
  | EmptyString => ""
  | String c s' =>
      let t := stripZeros s' in
      if String.eqb t "" && Ascii.eqb c "0" then "" else String c t
  end.

Lemma stripZeros_snoc_zero s : stripZeros (s ++ "0") = stripZeros s.
Proof. induction s as [|c s IH]; cbn; [reflexivity|now rewrite IH]. Qed.

Lemma stripZeros_snoc s c : c <> "0"%char -> stripZeros (s ++ String c "") = s ++ String c "".
Proof.
  intros Hc. induction s as [|d s IH]; cbn.
  - destruct (Ascii.eqb_spec c "0"); [contradiction|reflexivity].
  - rewrite IH. now destruct s.
Qed.

(** The loop of lines 73-78 drops exactly the trailing zeros. *)
Lemma trimLoop_strip d : trimLoop (String.length d) d = stripZeros d.
Proof.
  remember (String.length d) as n eqn:Hn. revert d Hn.
  induction n as [|i IH]; intros d Hn.
  - destruct d; [reflexivity|discriminate].
  - destruct (string_snoc_view d i (eq_sym Hn)) as (d0 & c & -> & <-).
    cbn [trimLoop]. rewrite get_app_length.
    destruct (Ascii.eqb_spec c "0") as [->|Hc].
    + rewrite substring_prefix, stripZeros_snoc_zero. now apply IH.
    + now rewrite stripZeros_snoc.
Qed.

(** With [showDecimalZeros: false], a formatted value [a.b] ([a] and [b]
    without a point) loses exactly the trailing zeros of [b], and the
    point too when [b] is all zeros: the loop of lines 73-78 computes
    [stripZeros]. *)
Theorem removeDecimalZeros_spec a b :
  splitOn "." a = [a] -> splitOn "." b = [b] ->
  removeDecimalZeros (a ++ "." ++ b) =
    if String.eqb (stripZeros b) "" then a else a ++ "." ++ stripZeros b.
Proof.
  intros Ha Hb. unfold removeDecimalZeros.
  rewrite (Tokens.splitOn_app _ _ _ Ha). cbn [splitOn Ascii.eqb Bool.eqb String.append]. rewrite Hb, append_empty_r_str.
  rewrite trimLoop_strip. now destruct (stripZeros b).
Qed.

(** ** Abbreviations *)

(** A value below 1000 (a negative one included) is not abbreviated;
    a value from 1000 up to [10^12] is divided by the largest floor it
    reaches, which leaves a number from 1 to below 1000. *)
Theorem abbreviation_range q :
  (q < 1000 -> findAbbreviation (Fin q) (rev abbreviations) = None) /\
  (1000 <= q < 1000000000000 ->
   exists a, findAbbreviation (Fin q) (rev abbreviations) = Some a /\ 1 <= q / floor a < 1000).
Proof.
  split.
  - intros Hq. cbn. qcase (Qle_bool 1000000000 q); [lra|].
    qcase (Qle_bool 1000000 q); [lra|]. qcase (Qle_bool 1000 q); [lra|reflexivity].
  - intros Hq. cbn.
    qcase (Qle_bool 1000000000 q); [|qcase (Qle_bool 1000000 q); [|qcase (Qle_bool 1000 q); [|lra]]];
      (eexists; split; [reflexivity|]); cbn [floor];
      (split; [apply Qle_shift_div_l|apply Qlt_shift_div_r]); lra.
Qed.

(** ** The zero of an [Intl] formatter *)

(** C14: With [Intl] present, formatting zero with options that give no
    [fractionalDigits] throws a [RangeError]: [minimumSignificantDigits]
    is [undefined + 1], which is [NaN]. *)
Theorem zero_without_digits_throws nf `{IntlNumberFormat nf} largeToString currency o :
  fractionalDigits o = None ->
  formatCurrency largeToString (Some nf) (Fin 0) currency (Some o) = inl RangeError.
Proof.
  intros Hfd. unfold formatCurrency. rewrite Hfd.
  assert (Hz : findAbbreviation (Fin 0) (rev abbreviations) = None) by reflexivity.
  destruct (abbreviate o) as [[|]|]; rewrite ?Hz; cbn [ndiv];
    rewrite nf_nan_digits by reflexivity; reflexivity.
Qed.

Module CurrencyTests.

Definition big (_ : Q) : string := "1e+21".
Definition opts (ab : option bool) (fd : option Q) (sdz : option bool) : option FormatOptions :=
  Some (mkFormatOptions ab (option_map Fin fd) None sdz).
Definition fc (v : Q) (o : option FormatOptions) : Res string := formatCurrency big None (Fin v) None o.

(** The expectations of [CurrencyUtils/test] without [Intl]. *)
Example formatCurrency_tests :
  map (fun '(v, o) => fc v o)
    [(1000, None); (999, opts (Some true) None None); (1000, opts (Some true) None None);
     (1100, opts (Some true) (Some 1) None); (1100, opts (Some true) (Some 2) None);
     (85123, opts (Some true) (Some 1) None); (90000, opts (Some true) (Some 1) (Some false));
     (90500, opts (Some true) (Some 2) (Some false)); (1000000, opts (Some true) None None);
     (1000000000, opts (Some true) None None); (1000123#1000, None); (99123#1000, None);
     (1, opts None (Some 3) None); (1123#1000, opts None (Some 2) None);
     (1, opts None (Some 3) (Some false)); (11#10, opts None (Some 3) (Some false))] =
  map inr ["1000"; "999"; "1K"; "1.1K"; "1.10K"; "85.1K"; "90K"; "90.5K"; "1M"; "1B";
           "1000"; "99.12"; "1.000"; "1.12"; "1"; "1.1"].
Proof. vm_compute. reflexivity. Qed.

(** Rounding after the division can reach the next floor: 999999 is
    [1000K], not [1M]. *)
Example abbreviation_rounds_to_1000K : fc 999999 (opts (Some true) None None) = inr "1000K".
Proof. vm_compute. reflexivity. Qed.

(** Negative amounts are never abbreviated. *)
Example negative_not_abbreviated :
  fc (-5000) (opts (Some true) None None) = inr "-5000" /\ fc 5000 (opts (Some true) None None) = inr "5K".
Proof. split; vm_compute; reflexivity. Qed.

(** An [Intl] that checks [minimumSignificantDigits] as ECMA-402 does. *)
Definition ecmaNumberFormat : NumberFormat :=
  fun p => match minimumSignificantDigits p with
           | None => Some (fun _ => "formatted")
           | Some (Fin q) => if Qle_bool 1 q && Qle_bool q 21 then Some (fun _ => "formatted") else None
           | Some _ => None
           end.

#[export] Instance ecmaNumberFormat_law : IntlNumberFormat ecmaNumberFormat.
Proof. intros p Hp. unfold ecmaNumberFormat. now rewrite Hp. Qed.

Lemma removeDecimalZeros_spec_witness :
  splitOn "." "$1,000" = ["$1,000"] /\ splitOn "." "500" = ["500"] /\
  removeDecimalZeros ("$1,000" ++ "." ++ "500") =
    (if String.eqb (stripZeros "500") "" then "$1,000" else "$1,000" ++ "." ++ stripZeros "500").
Proof.
  split; [reflexivity|split; [reflexivity|]].
  apply removeDecimalZeros_spec; reflexivity.
Defined.

Lemma abbreviation_range_witness :
  (85123 < 1000 -> findAbbreviation (Fin 85123) (rev abbreviations) = None) /\
  (1000 <= 85123 < 1000000000000 ->
   exists a, findAbbreviation (Fin 85123) (rev abbreviations) = Some a /\ 1 <= 85123 / floor a < 1000).
Proof. apply abbreviation_range. Defined.

Lemma zero_without_digits_throws_witness :
  fractionalDigits (mkFormatOptions (Some true) None None None) = None /\
  formatCurrency big (Some ecmaNumberFormat) (Fin 0) (Some "USD") (Some (mkFormatOptions (Some true) None None None))
    = inl RangeError.
Proof. split; [reflexivity|apply (zero_without_digits_throws ecmaNumberFormat); reflexivity]. Defined.

End CurrencyTests.

End Currency.
