(* ===== verification/Animation.v ===== *)
(** * Animations: [src/src/AnimationUtils/]

    [Animation] interpolates from [startVal] to [endVal] over [duration]
    seconds with an easing equation; [update(now)] calls [onUpdate] with
    the value at [now] and, once the time is up, with [endVal] and then
    [onComplete], and says whether it is done.  The singleton
    [AnimationManager] keeps the running animations and one pending
    animation frame: [createAnimation] adds one and requests a frame when
    none is pending, and each frame ([_updateAnimations]) requests the next
    frame, updates every animation, keeps those not done and cancels the
    frame when none is left.

    The window's animation frames are explicit state ([Frames]): the ids of
    the pending callbacks (all of them the manager's [_updateCallback]) and
    the next id [requestAnimationFrame] returns.  A frame runs the callbacks
    pending when it starts, each reading [performance.now()] as the frame's
    time.  Callbacks are data: [onUpdate] is recorded in the [Output] log
    under the animation's tag, and an [onComplete] may create animations
    ([AnimSpec]), as a callback that chains animations does.  [Math.sin]
    and [Math.cos] of the two sine easings are parameters. *)

From Stdlib Require Import QArith Qround Qminmax ZArith List Bool Lia Lqa.
From S2P Require Import Prelude.
Import ListNotations.

Module Anim.

(** [const enum EasingEquation] (Animation/index.ts, lines 1-8). *)
Inductive EasingEquation : Type :=
| Linear | EaseOutSine | EaseInOutSine | EaseOutQuad | EaseInQuint | EaseInOutQuint.

(** [Math.pow(x, n)] for a natural exponent. *)
Definition npow (x : num) (n : nat) : num := Nat.iter n (nmul x) (Fin 1).

Section Easing.
(** [pos => Math.sin(pos * PI_D2)] and [pos => Math.cos(Math.PI * pos)]. *)
Variable sinHalfPi cosPi : num -> num.

(** [easingEquations] (lines 17-40). *)
Definition easingEquations (e : EasingEquation) (pos : num) : num :=
  match e with
  | Linear => pos
  | EaseOutSine => sinHalfPi pos
  | EaseInOutSine => nmul (Fin (-1#2)) (nsub (cosPi pos) (Fin 1))
  | EaseOutQuad => nneg (nsub (npow (nsub pos (Fin 1)) 2) (Fin 1))
  | EaseInQuint => npow pos 5
  | EaseInOutQuint =>
      let curPos := ndiv pos (Fin (1#2)) in
      if nlt curPos (Fin 1) then nmul (Fin (1#2)) (npow curPos 5)
      else nmul (Fin (1#2)) (nadd (npow (nsub curPos (Fin 2)) 5) (Fin 2))
  end.
End Easing.

(** The arguments of [createAnimation] (AnimationManager, lines 16-34):
    [onUpdate] is the tag its calls are logged under, and [onComplete] the
    animations the callback creates, if there is one. *)
Inductive AnimSpec : Type :=
| mkAnimSpec (startVal endVal duration : num) (easing : EasingEquation) (tag : nat)
    (onComplete : option (list AnimSpec)).

(** [class Animation]'s fields (lines 42-50). *)
Record Animation : Type := mkAnimation {
  aStartVal : num;
  aEndVal : num;
  aDelta : num;
  aDurationMS : num;
  aStartTime : num;
  aEasing : EasingEquation;
  aTag : nat;
  aOnComplete : option (list AnimSpec)
}.

(** The constructor (lines 52-69) with [start()] (lines 71-73), at time
    [now]. *)
Definition newAnimation (now : Q) (s : AnimSpec) : Animation :=
  let '(mkAnimSpec startVal endVal duration easing tag onComplete) := s in
  mkAnimation startVal endVal (nsub endVal startVal) (nmul duration (Fin 1000))
    (nfloor (Fin now)) easing tag onComplete.

(** What the callbacks are seen to do. *)
Inductive Output : Type :=
| Updated (tag : nat) (v : num)
| Completed (tag : nat).

Section Update.
Variable sinHalfPi cosPi : num -> num.

(** [update(now)] (lines 75-89): done or not, the calls of [onUpdate] and
    [onComplete], and the animations [onComplete] creates. *)
Definition update (now : Q) (a : Animation) : bool * list Output * list AnimSpec :=
  let p := ndiv (nsub (Fin now) (aStartTime a)) (aDurationMS a) in
  let t := easingEquations sinHalfPi cosPi (aEasing a) p in
  if nlt p (Fin 1) then (false, [Updated (aTag a) (nadd (aStartVal a) (nmul (aDelta a) t))], [])
  else
    match aOnComplete a with
    | Some created => (true, [Updated (aTag a) (aEndVal a); Completed (aTag a)], created)
    | None => (true, [Updated (aTag a) (aEndVal a)], [])
    end.

(** ** The manager and the window's frames *)

(** [class AnimationManager]'s fields (lines 4-13). *)
Record Manager : Type := mkManager { animations : list Animation; requestId : Z }.

(** The window's pending animation frame callbacks and its id counter. *)
Record Frames : Type := mkFrames { frameQueue : list Z; nextFrameId : Z }.

Record World : Type := mkWorld { mgr : Manager; frames : Frames; log : list Output }.

(** [window.requestAnimationFrame(this._updateCallback)]. *)
Definition requestFrame (f : Frames) : Z * Frames :=
  (nextFrameId f, mkFrames (frameQueue f ++ [nextFrameId f]) (nextFrameId f + 1)).

(** [window.cancelAnimationFrame(id)]. *)
Definition cancelFrame (id : Z) (f : Frames) : Frames :=
  mkFrames (filter (fun x => negb (Z.eqb x id)) (frameQueue f)) (nextFrameId f).

Definition setAnimations (l : list Animation) (w : World) : World :=
  mkWorld (mkManager l (requestId (mgr w))) (frames w) (log w).

(** [_addAnimation] (lines 36-45). *)
Definition addAnimation (a : Animation) (w : World) : World :=
  let w := setAnimations (animations (mgr w) ++ [a]) w in
  if Z.eqb (requestId (mgr w)) 0 then
    let '(id, f) := requestFrame (frames w) in
    mkWorld (mkManager (animations (mgr w)) id) f (log w)
  else w.

(** [createAnimation] (lines 16-34) at time [now]. *)
Definition createAnimation (now : Q) (s : AnimSpec) (w : World) : World :=
  addAnimation (newAnimation now s) w.

(** One round of the [forEach] of lines 54-59: [continuing] so far and
    the world, which [onComplete] changes. *)
Definition updateOne (now : Q) (acc : list Animation * World) (a : Animation) : list Animation * World :=
  let '(continuing, w) := acc in
  let '(done, outs, created) := update now a in
  let w := mkWorld (mgr w) (frames w) (log w ++ outs) in
  let w := fold_left (fun w s => createAnimation now s w) created w in
  (if done then continuing else continuing ++ [a], w).

(** [_updateAnimations] (lines 47-68).  The [forEach] visits the
    animations the array had when it started; the ones [onComplete] pushes
    on [this._animations] are lost when it is replaced. *)
Definition updateAnimations (now : Q) (w : World) : World :=
  let '(id, f) := requestFrame (frames w) in
  let w := mkWorld (mkManager (animations (mgr w)) id) f (log w) in
  let '(continuing, w) := fold_left (updateOne now) (animations (mgr w)) ([], w) in
  let w := setAnimations continuing w in
  match continuing with
  | [] => mkWorld (mkManager [] 0) (cancelFrame (requestId (mgr w)) (frames w)) (log w)
  | _ => w
  end.

(** The browser runs the frame callbacks pending when the frame starts;
    those requested meanwhile wait for the next frame, and one cancelled
    meanwhile is skipped. *)
Definition runFrame (now : Q) (w : World) : World :=
  fold_left (fun w id =>
               if existsb (Z.eqb id) (frameQueue (frames w))
               then updateAnimations now (mkWorld (mgr w) (cancelFrame id (frames w)) (log w))
               else w) (frameQueue (frames w)) w.

End Update.

(** [new AnimationManager()] (lines 9-13, 71) in a window whose first
    frame id is [1]. *)
Definition initWorld : World := mkWorld (mkManager [] 0) (mkFrames [] 1) [].

(** Without a pending callback a frame does nothing. *)
Lemma runFrame_idle sinHalfPi cosPi now w : frameQueue (frames w) = [] -> runFrame sinHalfPi cosPi now w = w.
Proof. intros H. unfold runFrame. now rewrite H. Qed.

(** ** What a frame does *)

Section Frame.
Variable sinHalfPi cosPi : num -> num.
Local Abbreviation upd := (update sinHalfPi cosPi).

(** Whether [update(now)] leaves the animation running, what its
    callbacks print and what [onComplete] creates. *)
Definition notDone (now : Q) (a : Animation) : bool := negb (fst (fst (upd now a))).
Definition outputsOf (now : Q) (a : Animation) : list Output := snd (fst (upd now a)).
Definition createdBy (now : Q) (a : Animation) : list AnimSpec := snd (upd now a).

Lemma createAnimation_active now s w :
  requestId (mgr w) <> 0%Z ->
  createAnimation now s w = setAnimations (animations (mgr w) ++ [newAnimation now s]) w.
Proof.
  intros H. unfold createAnimation, addAnimation. cbn.
  destruct (Z.eqb_spec (requestId (mgr w)) 0); [contradiction|reflexivity].
Qed.

Lemma fold_create_active now l w :
  requestId (mgr w) <> 0%Z ->
  fold_left (fun w s => createAnimation now s w) l w =
    setAnimations (animations (mgr w) ++ map (newAnimation now) l) w.
Proof.
  revert w; induction l as [|s l IH]; intros w H; cbn.
  - rewrite app_nil_r. now destruct w as [[] ? ?].
  - rewrite createAnimation_active by exact H. rewrite IH by exact H. cbn.
    now rewrite <- app_assoc.
Qed.

Lemma updateOne_eq now c w a :
  updateOne sinHalfPi cosPi now (c, w) a =
    (if notDone now a then c ++ [a] else c,
     fold_left (fun w s => createAnimation now s w) (createdBy now a)
       (mkWorld (mgr w) (frames w) (log w ++ outputsOf now a))).
Proof. unfold updateOne, notDone, outputsOf, createdBy. now destruct (upd now a) as [[[|] outs] created]. Qed.

(** The [forEach] of [_updateAnimations] while a frame is requested. *)
Lemma fold_updateOne now anims c w :
  requestId (mgr w) <> 0%Z ->
  fold_left (updateOne sinHalfPi cosPi now) anims (c, w) =
    (c ++ filter (notDone now) anims,
     mkWorld (mkManager (animations (mgr w) ++ map (newAnimation now) (flat_map (createdBy now) anims))
                        (requestId (mgr w)))
             (frames w) (log w ++ flat_map (outputsOf now) anims)).
Proof.
  revert c w; induction anims as [|a anims IH]; intros c w H; cbn [fold_left filter flat_map map].
  - rewrite !app_nil_r. now destruct w as [[] ? ?].
  - rewrite updateOne_eq, fold_create_active by exact H. cbn. rewrite IH by exact H. cbn.
    unfold notDone, outputsOf, createdBy.
    destruct (upd now a) as [[done outs] created]. cbn.
    rewrite map_app, !app_assoc. destruct done; cbn; now rewrite ?app_nil_r, <- ?app_assoc.
Qed.

Lemma cancel_fresh q id :
  Forall (fun x => (x < id)%Z) q -> filter (fun x => negb (Z.eqb x id)) (q ++ [id]) = q.
Proof.
  intros Hq. rewrite filter_app. cbn. rewrite Z.eqb_refl, app_nil_r.
  induction Hq as [|x q Hx Hq IH]; cbn; [reflexivity|].
  destruct (Z.eqb_spec x id); [lia|]. cbn. now rewrite IH.
Qed.

Lemma updateAnimations_eq now w :
  (1 <= nextFrameId (frames w))%Z ->
  Forall (fun x => (x < nextFrameId (frames w))%Z) (frameQueue (frames w)) ->
  updateAnimations sinHalfPi cosPi now w =
    let n := nextFrameId (frames w) in
    match filter (notDone now) (animations (mgr w)) with
    | [] => mkWorld (mkManager [] 0) (mkFrames (frameQueue (frames w)) (n + 1))
              (log w ++ flat_map (outputsOf now) (animations (mgr w)))
    | l => mkWorld (mkManager l n) (mkFrames (frameQueue (frames w) ++ [n]) (n + 1))
              (log w ++ flat_map (outputsOf now) (animations (mgr w)))
    end.
Proof.
  intros H1 Hq. unfold updateAnimations. cbn.
  rewrite fold_updateOne by (cbn; lia). cbn.
  destruct (filter (notDone now) (animations (mgr w))) as [|a l]; [|reflexivity].
  unfold cancelFrame. cbn. now rewrite cancel_fresh.
Qed.

(** C15: One frame of [_updateAnimations] keeps exactly the animations
    that [update] does not finish, in order, prints what their callbacks
    print, and leaves a frame requested exactly when some animation is
    left.  The animations that [onComplete] callbacks create are not among
    those kept: they are pushed on the array the frame then replaces. *)
Theorem updateAnimations_spec now w :
  (1 <= nextFrameId (frames w))%Z ->
  Forall (fun x => (x < nextFrameId (frames w))%Z) (frameQueue (frames w)) ->
  let w' := updateAnimations sinHalfPi cosPi now w in
  animations (mgr w') = filter (notDone now) (animations (mgr w)) /\
  log w' = log w ++ flat_map (outputsOf now) (animations (mgr w)) /\
  (animations (mgr w') = [] -> requestId (mgr w') = 0%Z /\ frameQueue (frames w') = frameQueue (frames w)) /\
  (animations (mgr w') <> [] -> requestId (mgr w') = nextFrameId (frames w) /\
     frameQueue (frames w') = frameQueue (frames w) ++ [nextFrameId (frames w)]).
Proof.
  intros H1 Hq. cbv zeta. rewrite (updateAnimations_eq now w H1 Hq). cbv zeta.
  destruct (filter (notDone now) (animations (mgr w))); cbn;
    (split; [reflexivity|]); (split; [reflexivity|]).
  - split; [intros _; split; reflexivity|]. intros H; contradiction H; reflexivity.
  - split; [discriminate|]. intros _; split; reflexivity.
Qed.

(** ** The frame bookkeeping *)

(** No frame is pending without an animation, and every running
    animation has exactly one frame coming, the one [_requestId] names. *)
Definition MInv (w : World) : Prop :=
  (1 <= nextFrameId (frames w))%Z /\ (0 <= requestId (mgr w) < nextFrameId (frames w))%Z /\
  ((animations (mgr w) = [] /\ requestId (mgr w) = 0%Z /\ frameQueue (frames w) = []) \/
   (animations (mgr w) <> [] /\ requestId (mgr w) <> 0%Z /\ frameQueue (frames w) = [requestId (mgr w)])).

Lemma createAnimation_inv now s w : MInv w -> MInv (createAnimation now s w).
Proof.
  intros (H1 & H2 & [(Ha & Hr & Hq)|(Ha & Hr & Hq)]).
  - unfold createAnimation, addAnimation. cbn. rewrite Hr. cbn. unfold MInv. cbn.
    split; [lia|]. split; [lia|]. right. rewrite Hq.
    split; [now destruct (animations (mgr w))|]. split; [lia|reflexivity].
  - rewrite createAnimation_active by exact Hr. unfold MInv. cbn.
    split; [lia|]. split; [lia|]. right.
    split; [now destruct (animations (mgr w))|]. split; assumption.
Qed.

(** With an animation running, a frame runs the one callback pending. *)
Lemma runFrame_eq now w :
  MInv w -> animations (mgr w) <> [] ->
  runFrame sinHalfPi cosPi now w =
    updateAnimations sinHalfPi cosPi now (mkWorld (mgr w) (mkFrames [] (nextFrameId (frames w))) (log w)).
Proof.
  intros (H1 & H2 & [(Ha & Hr & Hq)|(Ha & Hr & Hq)]) Hne; [contradiction|].
  unfold runFrame. rewrite Hq. cbn -[updateAnimations]. rewrite Hq. cbn -[updateAnimations].
  rewrite Z.eqb_refl. cbn -[updateAnimations]. unfold cancelFrame. rewrite Hq. cbn -[updateAnimations].
  now rewrite Z.eqb_refl.
Qed.

Lemma runFrame_inv now w : MInv w -> MInv (runFrame sinHalfPi cosPi now w).
Proof.
  intros Hinv. pose proof Hinv as (H1 & H2 & [(Ha & Hr & Hq)|(Ha & Hr & Hq)]).
  - rewrite runFrame_idle by exact Hq. exact Hinv.
  - rewrite runFrame_eq by assumption. rewrite updateAnimations_eq by (cbn; auto). cbn. unfold MInv.
    destruct (filter (notDone now) (animations (mgr w))); cbn; (split; [lia|]); (split; [lia|]).
    + left; tauto.
    + right. split; [discriminate|]. split; [lia|reflexivity].
Qed.

(** The events: a call of [createAnimation] and an animation frame, each at
    the time [performance.now()] reads then. *)
Inductive AnimEvent : Type :=
| Create (now : Q) (s : AnimSpec)
| Frame (now : Q).

Definition animStep (ev : AnimEvent) (w : World) : World :=
  match ev with
  | Create now s => createAnimation now s w
  | Frame now => runFrame sinHalfPi cosPi now w
  end.

Inductive Reachable : World -> Prop :=
| R_init : Reachable initWorld
| R_step ev w : Reachable w -> Reachable (animStep ev w).

(** In every world reached by [createAnimation] calls and animation
    frames, the manager has no frame pending when it has no animation, and
    otherwise exactly one, the one [_requestId] names. *)
Theorem reachable_MInv w : Reachable w -> MInv w.
Proof.
  induction 1 as [|ev w _ IH].
  - unfold MInv; cbn. split; [lia|]. split; [lia|]. left; tauto.
  - destruct ev; [apply createAnimation_inv|apply runFrame_inv]; exact IH.
Qed.

(** ** Every animation runs to its end *)

(** What a frame does to the animations and the log, idle or not. *)
Lemma runFrame_fields now w :
  MInv w ->
  animations (mgr (runFrame sinHalfPi cosPi now w)) = filter (notDone now) (animations (mgr w)) /\
  log (runFrame sinHalfPi cosPi now w) = log w ++ flat_map (outputsOf now) (animations (mgr w)).
Proof.
  intros Hinv. pose proof Hinv as (H1 & H2 & [(Ha & Hr & Hq)|(Ha & Hr & Hq)]).
  - rewrite runFrame_idle, Ha by exact Hq. cbn. now rewrite app_nil_r.
  - rewrite runFrame_eq by assumption. rewrite updateAnimations_eq by (cbn; auto). cbn.
    destruct (filter (notDone now) (animations (mgr w))); split; reflexivity.
Qed.

Lemma createAnimation_fields now sp w :
  animations (mgr (createAnimation now sp w)) = animations (mgr w) ++ [newAnimation now sp] /\
  log (createAnimation now sp w) = log w.
Proof. unfold createAnimation, addAnimation. cbn. now destruct (Z.eqb _ 0). Qed.

(** A finished animation's last [onUpdate] is its end value, followed by
    [onComplete] when it has one. *)
Lemma done_outputs now a :
  notDone now a = false ->
  In (Updated (aTag a) (aEndVal a)) (outputsOf now a) /\
  (aOnComplete a <> None -> In (Completed (aTag a)) (outputsOf now a)).
Proof.
  unfold notDone, outputsOf, update.
  destruct (nlt _ (Fin 1)); [discriminate|]. destruct (aOnComplete a); cbn; intuition.
Qed.

Section Running.
Variables (a : Animation) (o : Output).
Hypothesis Ho : forall now, notDone now a = false -> In o (outputsOf now a).

(** Until [o] is printed, [a] stays among the running animations. *)
Lemma animStep_keeps ev w :
  MInv w -> In a (animations (mgr w)) \/ In o (log w) ->
  In a (animations (mgr (animStep ev w))) \/ In o (log (animStep ev w)).
Proof.
  intros Hinv Hin. destruct ev as [now sp|now]; cbn [animStep].
  - destruct (createAnimation_fields now sp w) as [-> ->]. rewrite in_app_iff. tauto.
  - destruct (runFrame_fields now w Hinv) as [-> ->]. rewrite filter_In, in_app_iff, in_flat_map.
    destruct Hin as [Ha|Hl]; [|tauto].
    destruct (notDone now a) eqn:E; [left; tauto | right; right; exists a; auto].
Qed.

Lemma run_keeps evs w :
  MInv w -> In a (animations (mgr w)) \/ In o (log w) ->
  MInv (fold_left (fun w ev => animStep ev w) evs w) /\
  (In a (animations (mgr (fold_left (fun w ev => animStep ev w) evs w)))
   \/ In o (log (fold_left (fun w ev => animStep ev w) evs w))).
Proof.
  revert w; induction evs as [|ev evs IH]; intros w Hinv Hin; [auto|].
  cbn [fold_left]. apply IH; [|now apply animStep_keeps].
  destruct ev; [apply createAnimation_inv | apply runFrame_inv]; exact Hinv.
Qed.

(** A frame at which [a] is done prints [o]. *)
Lemma final_frame_prints evs w t :
  MInv w -> In a (animations (mgr w)) -> notDone t a = false ->
  In o (log (fold_left (fun w ev => animStep ev w) (evs ++ [Frame t]) w)).
Proof.
  intros Hinv Ha Hd. rewrite fold_left_app. cbn [fold_left animStep].
  destruct (run_keeps evs w Hinv (or_introl Ha)) as [Hinv' [Hin|Hin]];
    destruct (runFrame_fields t _ Hinv') as [_ ->]; rewrite in_app_iff; [right|left; exact Hin].
  apply in_flat_map. exists a. auto.
Qed.

End Running.

(** C17: Every animation runs to its end: after [createAnimation] with a
    positive finite duration, whatever calls and frames follow, the first
    frame at or after the end time [Math.floor(start) + duration * 1000]
    has printed its final [onUpdate(endValue)], and its [onComplete] when
    it has one: the manager keeps a frame requested as long as an
    animation runs. *)
Theorem animation_completes w now sv ev dur e tag oc evs t :
  MInv w -> 0 < dur -> inject_Z (Qfloor now) + dur * 1000 <= t ->
  let w' := fold_left (fun w ev => animStep ev w) (evs ++ [Frame t])
              (createAnimation now (mkAnimSpec sv ev (Fin dur) e tag oc) w) in
  In (Updated tag ev) (log w') /\ (oc <> None -> In (Completed tag) (log w')).
Proof.
  intros Hinv Hd Ht. set (a := newAnimation now (mkAnimSpec sv ev (Fin dur) e tag oc)).
  assert (Hdone : notDone t a = false).
  { unfold notDone, update, a, newAnimation. cbn [aStartTime aDurationMS nfloor].
    rewrite nsub_fin, nmul_fin, ndiv_fin, nlt_fin by lra. cbn [fst].
    replace (Qltb _ 1) with false; [cbn; now destruct oc|]. symmetry. apply Qltb_false.
    apply Qle_shift_div_l; lra. }
  assert (Ha : In a (animations (mgr (createAnimation now (mkAnimSpec sv ev (Fin dur) e tag oc) w)))).
  { rewrite (proj1 (createAnimation_fields _ _ _)). apply in_app_iff. right. now left. }
  assert (Hinv' := createAnimation_inv now (mkAnimSpec sv ev (Fin dur) e tag oc) w Hinv).
  split; [|intros Hoc];
    (eapply final_frame_prints; [intros now' Hn; apply (done_outputs now' a Hn)| exact Hinv' | exact Ha | exact Hdone]);
    exact Hoc.
Qed.

End Frame.

(** ** The values of the polynomial easings *)

Definition qpow (q : Q) (n : nat) : Q := Nat.iter n (Qmult q) 1.

Lemma npow_fin q n : npow (Fin q) n = Fin (qpow q n).
Proof.
  induction n as [|n IH]; [reflexivity|].
  change (npow (Fin q) (S n)) with (nmul (Fin q) (npow (Fin q) n)). now rewrite IH, nmul_fin.
Qed.

Lemma qpow_unit q n : 0 <= q <= 1 -> 0 <= qpow q n <= 1.
Proof.
  intros Hq. induction n as [|n IH]; [unfold qpow; cbn; lra|].
  change (qpow q (S n)) with (q * qpow q n). destruct IH as [I1 I2].
  split; [now apply Qmult_le_0_compat|].
  apply Qle_trans with (1 * qpow q n); [apply Qmult_le_compat_r; lra|lra].
Qed.

(** The easings without [Math.sin] or [Math.cos]. *)
Definition polynomial (e : EasingEquation) : bool :=
  match e with EaseOutSine | EaseInOutSine => false | _ => true end.

Lemma easing_unit sinHalfPi cosPi e p :
  polynomial e = true -> 0 <= p <= 1 ->
  exists t, easingEquations sinHalfPi cosPi e (Fin p) = Fin t /\ 0 <= t <= 1.
Proof.
  intros He Hp. destruct e; try discriminate; cbn [easingEquations].
  - now exists p.
  - rewrite nsub_fin, npow_fin, nsub_fin. cbn [nneg]. eexists; split; [reflexivity|].
    unfold qpow; cbn. split; nra.
  - rewrite npow_fin. eexists; split; [reflexivity|]. now apply qpow_unit.
  - assert (Hc : p / (1#2) == 2 * p) by field.
    rewrite ndiv_fin by discriminate. rewrite nlt_fin.
    destruct (Qltb (p / (1#2)) 1) eqn:E; apply Qltb_iff in E || apply Qltb_false in E.
    + rewrite npow_fin, nmul_fin. eexists; split; [reflexivity|].
      pose proof (qpow_unit (p / (1#2)) 5 ltac:(rewrite Hc; lra)). lra.
    + rewrite nsub_fin, npow_fin, nadd_fin, nmul_fin. eexists; split; [reflexivity|].
      assert (Hu : qpow (p / (1#2) - 2) 5 == - qpow (2 - p / (1#2)) 5) by (unfold qpow; cbn; ring).
      pose proof (qpow_unit (2 - p / (1#2)) 5 ltac:(rewrite Hc in *; lra)). lra.
Qed.

Lemma between_interp x y t : 0 <= t <= 1 -> Qmin x y <= x + (y - x) * t <= Qmax x y.
Proof.
  intros Ht. rewrite Q.min_le_iff, Q.max_le_iff.
  destruct (Qlt_le_dec x y); split; [left|right|right|left]; nra.
Qed.

(** With an easing that does not use [Math.sin] or [Math.cos], every
    value an animation passes to [onUpdate], at any time from its creation
    on, lies between its start and end values: the easing maps [[0, 1]]
    into [[0, 1]] and the last value is [endVal] itself. *)
Theorem update_between sinHalfPi cosPi t0 now x y dur e tag oc tag' v :
  polynomial e = true -> 0 < dur -> t0 <= now ->
  In (Updated tag' v) (outputsOf sinHalfPi cosPi now (newAnimation t0 (mkAnimSpec (Fin x) (Fin y) (Fin dur) e tag oc))) ->
  exists q, v = Fin q /\ Qmin x y <= q <= Qmax x y.
Proof.
  intros He Hd Ht Hin. unfold outputsOf, update, newAnimation in Hin. cbn [aStartTime aDurationMS aDelta aStartVal aEndVal aEasing aTag aOnComplete nfloor] in Hin.
  rewrite nsub_fin, nmul_fin, ndiv_fin in Hin by lra.
  assert (Hf : inject_Z (Qfloor t0) <= t0) by apply Qfloor_le.
  assert (Hp : 0 <= (now - inject_Z (Qfloor t0)) / (dur * 1000)) by (apply Qle_shift_div_l; lra).
  rewrite nlt_fin in Hin. destruct (Qltb _ 1) eqn:E.
  - apply Qltb_iff in E.
    destruct (easing_unit sinHalfPi cosPi e _ He (conj Hp (Qlt_le_weak _ _ E))) as [t [Et Ht']].
    rewrite Et, nsub_fin, nmul_fin, nadd_fin in Hin. destruct Hin as [[= <- <-]|[]].
    eexists; split; [reflexivity|]. now apply between_interp.
  - assert (Hy : Qmin x y <= y <= Qmax x y) by (split; [apply Q.le_min_r|apply Q.le_max_r]).
    destruct oc; cbn in Hin.
    + destruct Hin as [[= <- <-]|[Hin|[]]]; [exists y; auto|discriminate].
    + destruct Hin as [[= <- <-]|[]]. exists y; auto.
Qed.

(** An idle manager stays idle: frames do nothing without [createAnimation]. *)
Module AnimTests.

Definition ident (x : num) : num := x.
Definition sp2 : AnimSpec := mkAnimSpec (Fin 100) (Fin 0) (Fin 1) Linear 2 None.
(** An animation whose [onComplete] starts the animation back. *)
Definition sp1 : AnimSpec := mkAnimSpec (Fin 0) (Fin 100) (Fin 1) Linear 1 (Some [sp2]).
Definition w1 : World := createAnimation 0 sp1 initWorld.
Definition w2 : World := runFrame ident ident 1000 (runFrame ident ident 500 w1).

(** The first animation runs to its end and completes; the one its
    [onComplete] creates is dropped, and with no frame pending it never
    runs, whatever frames follow. *)
Example chained_animation_lost :
  log w2 = [Updated 1 (Fin (50000#1000)); Updated 1 (Fin 100); Completed 1] /\
  animations (mgr w2) = [] /\ frameQueue (frames w2) = [] /\
  forall now, runFrame ident ident now w2 = w2.
Proof.
  assert (Hq : frameQueue (frames w2) = []) by (vm_compute; reflexivity).
  split; [vm_compute; reflexivity|]. split; [vm_compute; reflexivity|]. split; [exact Hq|].
  intros now. now apply runFrame_idle.
Qed.

Lemma w2_anim_reachable : Reachable ident ident w2.
Proof. unfold w2, w1. apply (R_step _ _ (Frame 1000)), (R_step _ _ (Frame 500)), (R_step _ _ (Create 0 sp1)), R_init. Qed.

Lemma reachable_MInv_witness : Reachable ident ident w2 /\ MInv w2.
Proof. split; [exact w2_anim_reachable|]. apply (reachable_MInv ident ident), w2_anim_reachable. Defined.

Lemma updateAnimations_spec_witness :
  (1 <= nextFrameId (frames w1))%Z /\ Forall (fun x => (x < nextFrameId (frames w1))%Z) (frameQueue (frames w1)) /\
  let w' := updateAnimations ident ident 500 w1 in
  animations (mgr w') = filter (notDone ident ident 500) (animations (mgr w1)) /\
  log w' = log w1 ++ flat_map (outputsOf ident ident 500) (animations (mgr w1)) /\
  (animations (mgr w') = [] -> requestId (mgr w') = 0%Z /\ frameQueue (frames w') = frameQueue (frames w1)) /\
  (animations (mgr w') <> [] -> requestId (mgr w') = nextFrameId (frames w1) /\
     frameQueue (frames w') = frameQueue (frames w1) ++ [nextFrameId (frames w1)]).
Proof.
  assert (H1 : (1 <= nextFrameId (frames w1))%Z) by (vm_compute; discriminate).
  assert (H2 : Forall (fun x => (x < nextFrameId (frames w1))%Z) (frameQueue (frames w1)))
    by (vm_compute; repeat constructor).
  split; [exact H1|]. split; [exact H2|]. apply updateAnimations_spec; assumption.
Defined.

Lemma update_between_witness :
  polynomial EaseOutQuad = true /\ 0 < 1 /\ 0 <= 500 /\
  In (Updated 7 (Fin (150000000#1000000)))
     (outputsOf ident ident 500 (newAnimation 0 (mkAnimSpec (Fin 0) (Fin 200) (Fin 1) EaseOutQuad 7 None))) /\
  exists q, Fin (150000000#1000000) = Fin q /\ Qmin 0 200 <= q <= Qmax 0 200.
Proof.
  assert (Hin : In (Updated 7 (Fin (150000000#1000000)))
     (outputsOf ident ident 500 (newAnimation 0 (mkAnimSpec (Fin 0) (Fin 200) (Fin 1) EaseOutQuad 7 None))))
    by (vm_compute; left; reflexivity).
  split; [reflexivity|]. split; [reflexivity|]. split; [discriminate|]. split; [exact Hin|].
  apply (update_between ident ident 0 500 0 200 1 EaseOutQuad 7 None 7); [reflexivity|reflexivity|discriminate|exact Hin].
Defined.

Lemma animation_completes_witness :
  MInv initWorld /\ 0 < 1 /\ inject_Z (Qfloor 0) + 1 * 1000 <= 1000 /\
  let w' := fold_left (fun w ev => animStep ident ident ev w) ([Frame 500] ++ [Frame 1000])
              (createAnimation 0 (mkAnimSpec (Fin 0) (Fin 100) (Fin 1) Linear 1 (Some [sp2])) initWorld) in
  In (Updated 1 (Fin 100)) (log w') /\ (Some [sp2] <> None -> In (Completed 1) (log w')).
Proof.
  assert (H : MInv initWorld) by (unfold MInv; cbn; split; [lia|]; split; [lia|]; left; tauto).
  split; [exact H|]. split; [lra|]. split; [vm_compute; discriminate|].
  apply (animation_completes ident ident initWorld 0 (Fin 0) (Fin 100) 1 Linear 1 (Some [sp2]) [Frame 500] 1000);
    [exact H | lra | vm_compute; discriminate].
Defined.

End AnimTests.

End Anim.
