(* ===== verification/Timing.v ===== *)
(** * Rate limiting: [src/src/TimingUtils/index.ts]

    [throttle(func)] returns a function that records its latest arguments
    and, when no animation frame is pending, requests one; the frame clears
    the pending frame and calls [func] with the latest arguments.
    [debounce(func, timeout)] returns a function that clears its pending
    timer, if it has one, and sets a new one to call [func] with its
    arguments after [timeout] milliseconds.

    Each closure's variables are a record, and the window's animation
    frames and timers are explicit state with their id counters (ids start
    at [1], so an id is truthy).  [func] is the caller's and does not call
    back: what it is called with is the log [invoked].  [this] of the
    throttled call ([context]) is passed through unchanged and not
    modelled.

    The theorems state each closure against a reference machine of what
    its caller sees: [throttle] calls [func] once in each frame that follows
    a call, with the last arguments before the frame; [debounce] calls it
    with the arguments of a call when [timeout] has passed without another
    call. *)

From Stdlib Require Import QArith Qminmax ZArith List Bool Lia Lqa.
Import ListNotations.

Module Timing.

Section Throttle.
Context {Args : Type}.

(** The closure of [throttle] (lines 5-7). *)
Record Throttle : Type := mkThrottle {
  latestArgs : option Args;
  animationFrame : option Z
}.

(** The closure and the window's pending frames, and the calls of
    [func] ([None] for a call with [latestArgs = null]). *)
Record TWorld : Type := mkTWorld {
  thr : Throttle;
  frameQueue : list Z;
  nextFrameId : Z;
  invoked : list (option Args)
}.

Definition throttleInit : TWorld := mkTWorld (mkThrottle None None) [] 1 [].

(** The returned function (lines 13-19). *)
Definition throttled (args : Args) (w : TWorld) : TWorld :=
  match animationFrame (thr w) with
  | Some _ => mkTWorld (mkThrottle (Some args) (animationFrame (thr w))) (frameQueue w) (nextFrameId w) (invoked w)
  | None =>
      mkTWorld (mkThrottle (Some args) (Some (nextFrameId w)))
        (frameQueue w ++ [nextFrameId w]) (nextFrameId w + 1) (invoked w)
  end.

(** [later] (lines 8-11). *)
Definition later (w : TWorld) : TWorld :=
  mkTWorld (mkThrottle (latestArgs (thr w)) None) (frameQueue w) (nextFrameId w)
    (invoked w ++ [latestArgs (thr w)]).

(** An animation frame: the callbacks pending when it starts, each
    removed from the queue before it runs. *)
Definition tFrame (w : TWorld) : TWorld :=
  fold_left (fun w id =>
               if existsb (Z.eqb id) (frameQueue w)
               then later (mkTWorld (thr w) (filter (fun x => negb (Z.eqb x id)) (frameQueue w))
                             (nextFrameId w) (invoked w))
               else w) (frameQueue w) w.

Inductive TEvent : Type := TCall (args : Args) | TFrame.

Definition tStep (w : TWorld) (ev : TEvent) : TWorld :=
  match ev with TCall a => throttled a w | TFrame => tFrame w end.

(** What the caller of a throttled function sees: the arguments of the
    last call since the previous frame, delivered at the next frame. *)
Record TRef : Type := mkTRef { pendingArgs : option Args; delivered : list Args }.

Definition tRefStep (r : TRef) (ev : TEvent) : TRef :=
  match ev with
  | TCall a => mkTRef (Some a) (delivered r)
  | TFrame =>
      match pendingArgs r with
      | Some a => mkTRef None (delivered r ++ [a])
      | None => r
      end
  end.

(** The simulation: a frame is pending exactly when the reference holds
    arguments, and they are the closure's latest. *)
Definition TSim (w : TWorld) (r : TRef) : Prop :=
  invoked w = map Some (delivered r) /\ (1 <= nextFrameId w)%Z /\
  ((animationFrame (thr w) = None /\ frameQueue w = [] /\ pendingArgs r = None) \/
   (exists id a, animationFrame (thr w) = Some id /\ frameQueue w = [id] /\
      latestArgs (thr w) = Some a /\ pendingArgs r = Some a)).

Local Ltac proj := cbn [thr latestArgs animationFrame frameQueue nextFrameId invoked pendingArgs delivered
                      tStep tRefStep throttled later tFrame fold_left existsb filter negb orb].

Lemma tStep_sim w r ev : TSim w r -> TSim (tStep w ev) (tRefStep r ev).
Proof.
  intros (Hi & Hn & [(Hf & Hq & Hp)|(id & a & Hf & Hq & Hl & Hp)]);
    destruct ev as [b|]; unfold tStep, tRefStep, throttled, tFrame, TSim.
  - rewrite Hf. proj. split; [exact Hi|]. split; [lia|].
    right. exists (nextFrameId w), b. rewrite Hq. auto.
  - rewrite Hq, Hp. proj. split; [exact Hi|]. split; [exact Hn|]. left; auto.
  - rewrite Hf. proj. split; [exact Hi|]. split; [exact Hn|].
    right. exists id, b. auto.
  - rewrite Hq. proj. rewrite Hq. proj. rewrite (Z.eqb_refl id). proj.
    rewrite Hp. proj. rewrite Hl, Hi, map_app. split; [reflexivity|]. split; [exact Hn|]. left; auto.
Qed.

Lemma tRun_sim evs w r : TSim w r -> TSim (fold_left tStep evs w) (fold_left tRefStep evs r).
Proof. revert w r; induction evs as [|ev evs IH]; intros w r H; cbn; [exact H|]. apply IH, tStep_sim, H. Qed.

(** C16: Over any sequence of calls and animation frames, the throttled
    function calls [func] exactly as the reference does: once in each frame
    that follows at least one call, with the arguments of the last call
    before that frame, and never otherwise. *)
Theorem throttle_refines evs :
  invoked (fold_left tStep evs throttleInit) = map Some (delivered (fold_left tRefStep evs (mkTRef None []))).
Proof.
  apply tRun_sim. split; [reflexivity|]. split; [cbn; lia|]. left; auto.
Qed.

End Throttle.

Section Debounce.
Context {Args : Type}.
(** The [timeout] argument of [debounce]; [setTimeout] waits
    [max(timeout, 0)]. *)
Variable timeout : Q.

(** The closure of [debounce] (line 26), the window's timers (id, due
    time, arguments) with their id counter, and the calls of [func]. *)
Record DWorld : Type := mkDWorld {
  timeoutId : option Z;
  timers : list (Z * Q * Args);
  nextTimerId : Z;
  dinvoked : list Args
}.

Definition debounceInit : DWorld := mkDWorld None [] 1 [].

Definition timerId (t : Z * Q * Args) : Z := fst (fst t).
Definition timerDue (t : Z * Q * Args) : Q := snd (fst t).

(** [window.clearTimeout(id)]: removes the timer if it is still pending. *)
Definition clearTimer (id : Z) (ts : list (Z * Q * Args)) : list (Z * Q * Args) :=
  filter (fun t => negb (Z.eqb (timerId t) id)) ts.

(** The returned function (lines 28-34), called at time [now]. *)
Definition debounced (now : Q) (args : Args) (w : DWorld) : DWorld :=
  let ts := match timeoutId w with Some id => clearTimer id (timers w) | None => timers w end in
  mkDWorld (Some (nextTimerId w)) (ts ++ [(nextTimerId w, now + Qmax 0 timeout, args)])
    (nextTimerId w + 1) (dinvoked w).

(** The clock reaches [now]: the timers due by then run, in the order they
    were set ([func] sets none), and are removed; [timeoutId] keeps the id
    of a timer that has run. *)
Definition dTick (now : Q) (w : DWorld) : DWorld :=
  let due := filter (fun t => Qle_bool (timerDue t) now) (timers w) in
  mkDWorld (timeoutId w) (filter (fun t => negb (Qle_bool (timerDue t) now)) (timers w))
    (nextTimerId w) (dinvoked w ++ map snd due).

Inductive DEvent : Type := DCall (now : Q) (args : Args) | DTick (now : Q).

Definition dStep (w : DWorld) (ev : DEvent) : DWorld :=
  match ev with DCall now a => debounced now a w | DTick now => dTick now w end.

(** What the caller of a debounced function sees: the last call waits
    [timeout] and is then delivered, unless another call replaces it. *)
Record DRef : Type := mkDRef { waiting : option (Q * Args); dDelivered : list Args }.

Definition dRefStep (r : DRef) (ev : DEvent) : DRef :=
  match ev with
  | DCall now a => mkDRef (Some (now + Qmax 0 timeout, a)) (dDelivered r)
  | DTick now =>
      match waiting r with
      | Some (d, a) => if Qle_bool d now then mkDRef None (dDelivered r ++ [a]) else r
      | None => r
      end
  end.

(** At most one timer is pending, the reference's waiting call; the
    closure's [timeoutId] is older than every fresh id. *)
Definition DSim (w : DWorld) (r : DRef) : Prop :=
  dinvoked w = dDelivered r /\
  (forall id, timeoutId w = Some id -> (id < nextTimerId w)%Z) /\
  match waiting r with
  | None => timers w = []
  | Some (d, a) => exists id, timers w = [(id, d, a)] /\ timeoutId w = Some id
  end.

Lemma clearTimer_single id id' d a :
  clearTimer id [(id', d, a)] = if Z.eqb id' id then [] else [(id', d, a)].
Proof. unfold clearTimer, timerId. cbn. now destruct (Z.eqb id' id). Qed.

Local Ltac dproj := cbn [timeoutId timers nextTimerId dinvoked waiting dDelivered fst snd].

Lemma dStep_sim w r ev : DSim w r -> DSim (dStep w ev) (dRefStep r ev).
Proof.
  intros (Hi & Hid & Hw). destruct ev as [now b|now]; unfold dStep, dRefStep, debounced, DSim; dproj.
  - split; [exact Hi|]. split; [intros id [= <-]; lia|]. exists (nextTimerId w). split; [|reflexivity].
    destruct (waiting r) as [[d a]|].
    + destruct Hw as (id & -> & ->). now rewrite clearTimer_single, Z.eqb_refl.
    + rewrite Hw. now destruct (timeoutId w).
  - unfold dTick. destruct (waiting r) as [[d a]|] eqn:Ew; dproj; cbn in Hw.
    + destruct Hw as (id & Ht & Hto). rewrite Ht. unfold timerDue. cbn [filter fst snd map].
      destruct (Qle_bool d now); cbn [negb List.filter List.map]; dproj.
      * split; [now rewrite Hi|]. split; [exact Hid|reflexivity].
      * split; [now rewrite app_nil_r|]. split; [exact Hid|]. rewrite Ew. now exists id.
    + rewrite Hw. cbn [List.filter List.map]. dproj. split; [now rewrite app_nil_r|]. split; [exact Hid|]. now rewrite Ew.
Qed.

Lemma dRun_sim evs w r : DSim w r -> DSim (fold_left dStep evs w) (fold_left dRefStep evs r).
Proof. revert w r; induction evs as [|ev evs IH]; intros w r H; cbn; [exact H|]. apply IH, dStep_sim, H. Qed.

(** Over any sequence of calls and clock ticks, the debounced function
    calls [func] exactly as the reference does: with the arguments of a
    call once [max(timeout, 0)] has passed, provided no other call came in
    between, and never otherwise; clearing the id of a timer that has
    already run is harmless. *)
Theorem debounce_refines evs :
  dinvoked (fold_left dStep evs debounceInit) = dDelivered (fold_left dRefStep evs (mkDRef None [])).
Proof.
  apply dRun_sim. split; [reflexivity|]. split; [discriminate|reflexivity].
Qed.

End Debounce.

Module TimingTests.

(** Three scroll events in one frame give one call, with the last event. *)
Example throttle_scenario :
  invoked (fold_left tStep [TCall 1%nat; TCall 2%nat; TCall 3%nat; TFrame; TFrame; TCall 4%nat; TFrame] throttleInit)
  = [Some 3%nat; Some 4%nat].
Proof. vm_compute. reflexivity. Qed.

(** Typing at 0, 100 and 400 ms with a 250 ms debounce: the call at 100 is
    delivered at 350, the one at 400 at 650; the one at 0 never. *)
Example debounce_scenario :
  dinvoked (fold_left (dStep 250) [DCall 0 1%nat; DCall 100 2%nat; DTick 300; DTick 350;
                                   DCall 400 3%nat; DTick 649; DTick 650] debounceInit)
  = [2%nat; 3%nat].
Proof. vm_compute. reflexivity. Qed.

End TimingTests.

End Timing.
