(* ===== verification/PayRange.v ===== *)
(** * Pay-range cards: [src/src/EmployeeDetailsCards]

      [normalizePayRange] ([common/Helpers/index.ts]) brings a pay range to
      the units of the pay (hourly or annualized, 2080 hours a year), by
      dividing each bound that is truthy.  Two cards use it:

      - [RangeDistributionCard] ([RangeDistributionCard/index.tsx]) places
        the pay in one of five positions ([Below], the bottom quarter, the
        middle half, the top quarter, [Above]) with
        [_computeRangePosition], and turns the six buckets of the company's
        distribution into five whole percentages with
        [_computeCohortPercentages]; [render] composes them into a bar chart
        and a sentence built by [replaceTokens] (StringUtils.v);
      - [RangePenetrationCard] ([RangePenetrationCard/index.tsx]) shows how
        far into the range the pay is, [Math.round] of a percentage, with a
        thumb pinned to [0, 100] and classes built by [buildClassString].

      A prop that may be missing is a [jsval]: [null], [undefined] or a
      number; the two missing values differ where the code tests
      [=== null] and where arithmetic converts them ([null] to 0,
      [undefined] to [NaN]).  A boolean prop is its truthiness ([undefined]
      is [false]).  The module strings are the defaults [strings.ts]
      loads. *)

From Stdlib Require Import QArith Qround Lqa ZArith List String Ascii Bool Lia.
From S2P Require Import Prelude StringUtils CurrencyUtils.
Import ListNotations.
Open Scope Q_scope.

Module Pay.

(** ** JS values of the props *)

Inductive jsval : Type :=
| JNull
| JUndefined
| JNum (x : num).

(** [v == null]. *)
Definition eqNull (v : jsval) : bool :=
  match v with JNum _ => false | _ => true end.

Definition jsTruthy (v : jsval) : bool :=
  match v with JNum x => ntruthy x | _ => false end.

(** [ToNumber] of an operand of [-], [/] or [<]. *)
Definition toNumber (v : jsval) : num :=
  match v with JNull => Fin 0 | JUndefined => NaN | JNum x => x end.

(** [x === 0] and [x === n] on numbers. *)
Definition nstrictEq (x y : num) : bool :=
  match x, y with
  | Fin a, Fin b => Qeq_bool a b
  | PosInf, PosInf | NegInf, NegInf => true
  | _, _ => false
  end.

(** [String(x)] of a value [Math.round] returned: an integer, [NaN] or an
    infinity. *)
Definition intToString (z : Z) : string :=
  if Z.ltb z 0 then ("-" ++ Currency.showZ (- z))%string else Currency.showZ z.

Definition roundedToString (x : num) : string :=
  match x with
  | Fin q => intToString (Qfloor q)
  | NaN => "NaN"
  | PosInf => "Infinity"
  | NegInf => "-Infinity"
  end.

(** ** [normalizePayRange] (Helpers lines 6-38) *)

Definition hourlyConversionFactor : Q := 2080.

Record PayRange := mkPayRange { prMin : jsval; prMax : jsval }.

Definition conversionFactor (hourlyPay hourlyRange : bool) : num :=
  if hourlyPay && negb hourlyRange then Fin hourlyConversionFactor
  else if hourlyRange && negb hourlyPay then ndiv (Fin 1) (Fin hourlyConversionFactor)
  else Fin 1.

(** [if (normalized) { normalized /= conversionFactor; }] *)
Definition divideIfTruthy (v : jsval) (c : num) : jsval :=
  if jsTruthy v then JNum (ndiv (toNumber v) c) else v.

Definition normalizePayRange (pay : jsval) (hourlyPay : bool) (rangeMin rangeMax : jsval)
    (hourlyRange : bool) : PayRange :=
  let c := conversionFactor hourlyPay hourlyRange in
  mkPayRange (divideIfTruthy rangeMin c) (divideIfTruthy rangeMax c).

(** ** [RangeDistributionCard] *)

Inductive RangePosition := Below | Bottom | Middle | Top | Above | Unknown.

(** The enum's numeric value, used as an index. *)
Definition positionIndex (p : RangePosition) : nat :=
  match p with Below => 0 | Bottom => 1 | Middle => 2 | Top => 3 | Above => 4 | Unknown => 5 end%nat.

Record DistStrings := mkDistStrings {
  above : string; below : string; bottom : string; cardTitle : string;
  descriptionInRange : string; descriptionInRangeSingular : string;
  descriptionOutRange : string; descriptionOutRangeSingular : string;
  descriptionPositionInRange : string; descriptionPositionOutRange : string;
  middle : string; thisEmployee : string; top : string }.

Definition distStrings : DistStrings := {|
  above := "Above"; below := "Below"; bottom := "Bottom"; cardTitle := "Range Distribution";
  descriptionInRange := "{0} and {1} of the organization are in the";
  descriptionInRangeSingular := "{0} is in the";
  descriptionOutRange := "{0} and {1} of the organization are";
  descriptionOutRangeSingular := "{0} is";
  descriptionPositionInRange := "of the range";
  descriptionPositionOutRange := "the range";
  middle := "Middle"; thisEmployee := "This employee"; top := "Top" |}.

(** The array the constructor builds for [_positionStrings]. *)
Definition positionStrings (s : DistStrings) : list string :=
  [below s; bottom s; middle s; top s; above s].

(** The constructor (lines 38-54): the static [_positionStrings] is built
    from the strings of the first card constructed and kept afterwards. *)
Definition construct (positionStringsCache : option (list string)) (s : DistStrings) : list string :=
  match positionStringsCache with Some l => l | None => positionStrings s end.

(** [isValidData] (lines 57-59). *)
Definition isValidData (rangeMin rangeMax value : jsval) : bool :=
  negb (eqNull rangeMin) && negb (eqNull rangeMax) && negb (eqNull value).

Definition isNull (v : jsval) : bool := match v with JNull => true | _ => false end.

(** [_computeRangePosition] (lines 64-88). *)
Definition computeRangePosition (basePay rangeMin rangeMax : jsval) : RangePosition :=
  if isNull basePay || isNull rangeMin || isNull rangeMax then Unknown
  else
    let pay := toNumber basePay in
    let lo := toNumber rangeMin in
    let hi := toNumber rangeMax in
    if nlt pay lo then Below
    else if nlt hi pay then Above
    else
      let oneQuarterRange := ndiv (nsub hi lo) (Fin 4) in
      let whichQuarter :=
        if nstrictEq oneQuarterRange (Fin 0) then Fin 2
        else nadd (nfloor (ndiv (nsub pay lo) oneQuarterRange)) (Fin 1) in
      if nstrictEq whichQuarter (Fin 1) then Bottom
      else if nstrictEq whichQuarter (Fin 2) || nstrictEq whichQuarter (Fin 3) then Middle
      else Top.

(** [rangeDistribution[i]]: [undefined], a [NaN] operand, past the end. *)
Definition at_ (l : list num) (i : nat) : num :=
  match nth_error l i with Some x => x | None => NaN end.

(** [_computeCohortPercentages] (lines 128-144).  The reducer's first
    parameter, named [val], is the accumulator. *)
Definition computeCohortPercentages (rangeDistribution : list num) : list num :=
  let modifiedDistribution :=
    [at_ rangeDistribution 0; at_ rangeDistribution 1;
     nadd (at_ rangeDistribution 2) (at_ rangeDistribution 3);
     at_ rangeDistribution 4; at_ rangeDistribution 5] in
  let totalCount := fold_left (fun val acc => nadd acc val) modifiedDistribution (Fin 0) in
  map (fun val => if ntruthy totalCount then nround (nmul (ndiv val totalCount) (Fin 100)) else Fin 0)
    modifiedDistribution.

(** [`${xs[i]}`] for an index that may be past the end. *)
Definition elemToString (xs : list num) (i : nat) : string :=
  match nth_error xs i with Some x => roundedToString x | None => "undefined" end.

(** [String.prototype.toLowerCase] on ASCII letters. *)
Definition lowerAscii (c : ascii) : ascii :=
  let n := nat_of_ascii c in
  if (Nat.leb 65 n && Nat.leb n 90)%bool then ascii_of_nat (n + 32) else c.

Fixpoint toLowerCase (s : string) : string :=
  match s with EmptyString => EmptyString | String c r => String (lowerAscii c) (toLowerCase r) end.

(** The three spans of [_renderRangeDistributionDescription] (lines 146-181). *)
Definition renderDescription (s : DistStrings) (posStrs : list string) (firstName : option string)
    (rangePosition : RangePosition) (rangeValues : option (list num)) : string * string * string :=
  let outsideRange := match rangePosition with Above | Below => true | _ => false end in
  let subject := match firstName with Some n => if String.eqb n "" then thisEmployee s else n
                                 | None => thisEmployee s end in
  let part1 :=
    match rangeValues with
    | Some rv =>
        Tokens.replaceTokens
          (if outsideRange then descriptionOutRange s else descriptionInRange s)
          [subject; (elemToString (computeCohortPercentages rv) (positionIndex rangePosition) ++ "%")%string]
    | None =>
        Tokens.replaceTokens
          (if outsideRange then descriptionOutRangeSingular s else descriptionInRangeSingular s)
          [subject]
    end in
  let part2 := if outsideRange then descriptionPositionOutRange s else descriptionPositionInRange s in
  let label := nth (positionIndex rangePosition) posStrs "" in
  (part1, (" " ++ toLowerCase label ++ " ")%string, part2).

Record Bar := mkBar { value : num; axisLabel : string; className : string; label : option string }.

Definition barClassNames : list string :=
  ["range-dist-card__viz__bar--out-range"; "range-dist-card__viz__bar--in-range";
   "range-dist-card__viz__bar--in-range"; "range-dist-card__viz__bar--in-range";
   "range-dist-card__viz__bar--out-range"].

(** The bars of [_renderRangeDistributionViz] (lines 184-208). *)
Definition renderViz (posStrs : list string) (rangePosition : RangePosition) (rangeDistribution : list num) : list Bar :=
  let rangeValues := computeCohortPercentages rangeDistribution in
  map (fun '(index, lbl) =>
         let active := Nat.eqb index (positionIndex rangePosition) in
         mkBar (at_ rangeValues index) lbl
           (nth index barClassNames "" ++ (if active then "--active" else ""))%string
           (if active then Some (elemToString rangeValues index ++ "%")%string else None))
      (combine (seq 0 (List.length posStrs)) posStrs).

Record DistProps := mkDistProps {
  employeeName : option string; rangeDistribution : option (list num);
  rangeMin : jsval; rangeMax : jsval; isHourlyRange : bool; pay : jsval; isHourlyPay : bool }.

Record DistView := mkDistView { viz : option (list Bar); description : string * string * string }.

(** [render] (lines 90-124): [None] is [return null].  [s] are the
    module strings as they are now, [posStrs] the static
    [_positionStrings]. *)
Definition render (s : DistStrings) (posStrs : list string) (p : DistProps) : option DistView :=
  if negb (isValidData (rangeMin p) (rangeMax p) (pay p)) then None
  else
    let nr := normalizePayRange (pay p) (isHourlyPay p) (rangeMin p) (rangeMax p) (isHourlyRange p) in
    let rangePosition := computeRangePosition (pay p) (prMin nr) (prMax nr) in
    match rangePosition with
    | Unknown => None
    | _ =>
        let canRenderViz := match rangeDistribution p with Some (_ :: _) => true | _ => false end in
        Some (mkDistView
                (match rangeDistribution p with
                 | Some d => if canRenderViz then Some (renderViz posStrs rangePosition d) else None
                 | None => None end)
                (renderDescription s posStrs (employeeName p) rangePosition (rangeDistribution p)))
    end.

(** ** [RangePenetrationCard] *)

Record PenProps := mkPenProps {
  penPay : jsval; penIsHourlyPay : bool; penRangeMax : jsval; penRangeMin : jsval;
  penIsHourlyRange : bool }.

(** [_getRangePenPercentage] (lines 72-88). *)
Definition getRangePenPercentage (p : PenProps) : num :=
  let payRange := normalizePayRange (penPay p) (penIsHourlyPay p) (penRangeMin p) (penRangeMax p)
                    (penIsHourlyRange p) in
  let range := nsub (toNumber (prMax payRange)) (toNumber (prMin payRange)) in
  if nstrictEq range (Fin 0) || negb (jsTruthy (penPay p)) then Fin 0
  else nround (nmul (ndiv (nsub (toNumber (penPay p)) (toNumber (prMin payRange))) range) (Fin 100)).

Record PositionStyle := mkPositionStyle { left : string; transform : option string }.

(** [Math.max(0, Math.min(penetrationValue, 100))] (line 93). *)
Definition pinnedPenetrationValue (penetrationValue : num) : num :=
  nmax (Fin 0) (nmin penetrationValue (Fin 100)).

(** [_computeLabelPositionStyle] (lines 92-98). *)
Definition computeLabelPositionStyle (penetrationValue : num) (positionRight : bool) : PositionStyle :=
  mkPositionStyle (roundedToString (pinnedPenetrationValue penetrationValue) ++ "%")
    (if positionRight then None else Some "translateX(-100%)").

Record PenView := mkPenView {
  penetrationValue : num; labelRight : bool; positionStyle : PositionStyle; vizClass : string }.

(** What [render] (lines 24-69) computes and draws, but the range labels. *)
Definition renderPen (p : PenProps) : PenView :=
  let hasPay := negb (eqNull (penPay p)) in
  let hasValidData := negb (eqNull (penRangeMin p)) && negb (eqNull (penRangeMax p)) in
  let pv := if hasPay then getRangePenPercentage p else Fin 0 in
  let lr := nlt pv (Fin 50) in
  mkPenView pv lr (computeLabelPositionStyle pv lr)
    (Tokens.buildClassString
       [("range-pen-card__viz", true); ("invalid", negb hasValidData);
        ("hide-thumb", negb hasPay || negb hasValidData)]).

(** The values [_renderVizLabels] (lines 100-144) hands to the two
    [FormattedCurrency] labels, when both bounds are present. *)
Definition renderVizLabels (p : PenProps) : option (jsval * jsval) :=
  let payRange := normalizePayRange (penPay p) (penIsHourlyPay p) (penRangeMin p) (penRangeMax p)
                    (penIsHourlyRange p) in
  if negb (eqNull (prMin payRange)) && negb (eqNull (prMax payRange))
  then Some (prMin payRange, prMax payRange) else None.

(** ** Specifications *)

(** The position the comment of [RangePosition] describes, by comparisons
    only: below the minimum, in the bottom quarter, in the middle half, in
    the top quarter (its top end included), above the maximum. *)
Definition refPosition (pay lo hi : Q) : RangePosition :=
  if Qltb pay lo then Below
  else if Qltb hi pay then Above
  else if Qeq_bool lo hi then Middle
  else if Qltb (4 * (pay - lo)) (hi - lo) then Bottom
  else if Qltb (4 * (pay - lo)) (3 * (hi - lo)) then Middle
  else Top.

(** ** Range position *)

Lemma nstrictEq_fin a b : nstrictEq (Fin a) (Fin b) = Qeq_bool a b.
Proof. reflexivity. Qed.

(** [Math.floor(x) + 1 === k] compares integers. *)
Lemma whichQuarter_eq z k :
  nstrictEq (nadd (Fin (inject_Z z)) (Fin 1)) (Fin (inject_Z k)) = Z.eqb (z + 1) k.
Proof.
  rewrite nadd_fin, nstrictEq_fin. change 1 with (inject_Z 1). rewrite <- inject_Z_plus.
  destruct (Z.eqb_spec (z + 1) k) as [->|Hne]; [apply Qeq_bool_iff; reflexivity|].
  apply Qeq_bool_false. intros H. apply Hne. now apply inject_Z_injective.
Qed.

(** The quarter index of [x = (pay - min) / quarter] in [0, 4]. *)
Lemma quarter_floor x :
  0 <= x -> (x < 1 -> Qfloor x = 0%Z) /\ (1 <= x < 3 -> (1 <= Qfloor x <= 2)%Z)
         /\ (3 <= x -> (3 <= Qfloor x)%Z).
Proof.
  intros H0. pose proof (Qfloor_le x) as F1. pose proof (Qlt_floor x) as F2.
  rewrite inject_Z_plus in *. change (inject_Z 1) with 1 in *.
  split; [|split].
  - intros H1. apply Qfloor_unique. change (inject_Z 0) with 0. lra.
  - intros [H1 H3]. split.
    + change 1%Z with (Qfloor 1). now apply Qfloor_resp_le.
    + assert (inject_Z (Qfloor x) < inject_Z 3) as A by (change (inject_Z 3) with 3; lra).
      rewrite <- inject_Z_lt in A. lia.
  - intros H1. change 3%Z with (Qfloor 3). now apply Qfloor_resp_le.
Qed.

Lemma computeRangePosition_fin pay lo hi :
  computeRangePosition (JNum (Fin pay)) (JNum (Fin lo)) (JNum (Fin hi)) = refPosition pay lo hi.
Proof.
  unfold computeRangePosition, refPosition. cbn [isNull orb toNumber]. rewrite !nlt_fin.
  qcase (Qltb pay lo); [reflexivity|]. qcase (Qltb hi pay); [reflexivity|].
  rewrite nsub_fin, ndiv_fin by lra. rewrite nstrictEq_fin.
  assert (Hq : (hi - lo) / 4 * 4 == hi - lo) by field.
  qcase (Qeq_bool ((hi - lo) / 4) 0).
  - qcase (Qeq_bool lo hi); [reflexivity | lra].
  - qcase (Qeq_bool lo hi); [lra|].
    set (d := (hi - lo) / 4). assert (Hd : 0 < d) by (unfold d; lra).
    rewrite nsub_fin, ndiv_fin by lra. unfold nfloor.
    rewrite (whichQuarter_eq _ 1), (whichQuarter_eq _ 2), (whichQuarter_eq _ 3).
    assert (H0 : 0 <= (pay - lo) / d) by (apply Qle_shift_div_l; lra).
    destruct (quarter_floor _ H0) as (Q1 & Q2 & Q3).
    qcase (Qltb (4 * (pay - lo)) (hi - lo)).
    + rewrite Q1 by (apply Qlt_shift_div_r; unfold d in *; lra). reflexivity.
    + assert (1 <= (pay - lo) / d) by (apply Qle_shift_div_l; unfold d in *; lra).
      qcase (Qltb (4 * (pay - lo)) (3 * (hi - lo))).
      * assert ((pay - lo) / d < 3) by (apply Qlt_shift_div_r; unfold d in *; lra).
        specialize (Q2 (conj H H1)).
        destruct (Z.eqb_spec (Qfloor ((pay - lo) / d) + 1) 1); [lia|].
        destruct (Z.eqb_spec (Qfloor ((pay - lo) / d) + 1) 2); [reflexivity|].
        destruct (Z.eqb_spec (Qfloor ((pay - lo) / d) + 1) 3); [reflexivity | lia].
      * assert (3 <= (pay - lo) / d) by (apply Qle_shift_div_l; unfold d in *; lra).
        specialize (Q3 H1).
        destruct (Z.eqb_spec (Qfloor ((pay - lo) / d) + 1) 1); [lia|].
        destruct (Z.eqb_spec (Qfloor ((pay - lo) / d) + 1) 2); [lia|].
        destruct (Z.eqb_spec (Qfloor ((pay - lo) / d) + 1) 3); [lia | reflexivity].
Qed.

(** C18: On finite numbers, [_computeRangePosition] computes the position
    the comment of [RangePosition] describes: below the minimum, above the
    maximum, and otherwise the bottom quarter, the middle half or the top
    quarter of the range (the middle when the range is empty), the quarter
    index [Math.floor((pay - min) / quarter) + 1] deciding exactly as the
    comparisons of [refPosition]. *)
Theorem computeRangePosition_ref pay lo hi :
  computeRangePosition (JNum (Fin pay)) (JNum (Fin lo)) (JNum (Fin hi)) = refPosition pay lo hi.
Proof. apply computeRangePosition_fin. Qed.

(** ** Cohort percentages *)

(** [Math.round(val / totalCount * 100)] of a share [0 <= v <= T]. *)
Lemma roundPercent v T :
  0 < T -> 0 <= v <= T ->
  nround (nmul (ndiv (Fin v) (Fin T)) (Fin 100)) = Fin (inject_Z (Qfloor (v / T * 100 + (1 # 2))))
  /\ (0 <= Qfloor (v / T * 100 + (1 # 2)) <= 100)%Z.
Proof.
  intros HT Hv. rewrite ndiv_fin by lra. split; [reflexivity|].
  assert (0 <= v / T) by (apply Qle_shift_div_l; lra).
  assert (v / T <= 1) by (apply Qle_shift_div_r; lra).
  pose proof (Qround_bounds (v / T * 100)) as [B1 B2].
  assert (inject_Z (-1) < inject_Z (Qfloor (v / T * 100 + (1 # 2)))) as A by (change (inject_Z (-1)) with (-1); lra).
  assert (inject_Z (Qfloor (v / T * 100 + (1 # 2))) < inject_Z 101) as B by (change (inject_Z 101) with 101; lra).
  rewrite <- inject_Z_lt in A, B. lia.
Qed.

(** A sum of five integers each within one half of five rationals adding
    up to 100 is from 98 to 102. *)
Lemma round_sum_bound (r0 r1 r2 r3 r4 : Q) (p0 p1 p2 p3 p4 : Z) :
  r0 + r1 + r2 + r3 + r4 == 100 ->
  Forall (fun '(r, p) => r - (1 # 2) < inject_Z p <= r + (1 # 2)) [(r0, p0); (r1, p1); (r2, p2); (r3, p3); (r4, p4)] ->
  (98 <= p0 + p1 + p2 + p3 + p4 <= 102)%Z.
Proof.
  intros Hs Hb. repeat (match goal with H : Forall _ (_ :: _) |- _ => inversion_clear H end).
  assert (inject_Z 97 < inject_Z (p0 + p1 + p2 + p3 + p4)) as A.
  { rewrite !inject_Z_plus. change (inject_Z 97) with 97. lra. }
  assert (inject_Z (p0 + p1 + p2 + p3 + p4) < inject_Z 103) as B.
  { rewrite !inject_Z_plus. change (inject_Z 103) with 103. lra. }
  rewrite <- inject_Z_lt in A, B. lia.
Qed.

(** For a distribution of six non-negative counts, not all zero,
    [_computeCohortPercentages] returns five whole percentages from 0 to
    100 whose sum is from 98 to 102: rounding each of the five shares
    separately may miss 100 by up to two points, never more. *)
Theorem computeCohortPercentages_sum a0 a1 a2 a3 a4 a5 :
  Forall (Qle 0) [a0; a1; a2; a3; a4; a5] -> 0 < a0 + a1 + a2 + a3 + a4 + a5 ->
  exists p0 p1 p2 p3 p4 : Z,
    computeCohortPercentages [Fin a0; Fin a1; Fin a2; Fin a3; Fin a4; Fin a5]
      = map (fun p => Fin (inject_Z p)) [p0; p1; p2; p3; p4]
    /\ Forall (fun p => 0 <= p <= 100)%Z [p0; p1; p2; p3; p4]
    /\ (98 <= p0 + p1 + p2 + p3 + p4 <= 102)%Z.
Proof.
  intros Hnn HT. repeat (match goal with H : Forall _ (_ :: _) |- _ => inversion_clear H end).
  unfold computeCohortPercentages, at_. cbn [nth_error fold_left nadd map].
  match goal with |- context [ntruthy (Fin ?t)] => set (S := t) end.
  assert (HS : S == a0 + a1 + a2 + a3 + a4 + a5) by (unfold S; ring).
  replace (ntruthy (Fin S)) with true by (symmetry; apply negb_true_iff, Qeq_bool_false; lra).
  assert (HS0 : 0 < S) by lra.
  destruct (roundPercent a0 S) as [-> R0]; [lra..|].
  destruct (roundPercent a1 S) as [-> R1]; [lra..|].
  destruct (roundPercent (a2 + a3) S) as [-> R2]; [lra..|].
  destruct (roundPercent a4 S) as [-> R3]; [lra..|].
  destruct (roundPercent a5 S) as [-> R4]; [lra..|].
  eexists _, _, _, _, _. split; [reflexivity|]. split; [repeat constructor; lia|].
  apply round_sum_bound with (a0 / S * 100) (a1 / S * 100) ((a2 + a3) / S * 100) (a4 / S * 100) (a5 / S * 100).
  - rewrite HS. field. lra.
  - repeat constructor; apply Qround_bounds.
Qed.

(** A distribution with fewer than six buckets (the empty array included,
    which [render] does not treat as missing) has an [undefined] sixth
    bucket: the total is [NaN], which is falsy, and every percentage is 0. *)
Lemma computeCohortPercentages_short d :
  (List.length d < 6)%nat -> computeCohortPercentages d = [Fin 0; Fin 0; Fin 0; Fin 0; Fin 0].
Proof.
  intros Hd. unfold computeCohortPercentages. cbn [fold_left].
  assert (H5 : at_ d 5 = NaN) by (unfold at_; rewrite (proj2 (nth_error_None d 5)) by lia; reflexivity).
  rewrite H5. reflexivity.
Qed.

(** Whatever the distribution of finite counts (all zero, negative,
    too short, empty), every percentage [_computeCohortPercentages]
    returns is an integer: neither [NaN] nor an infinity reaches the
    [`${...}%`] labels, a zero total giving 0 as the design requires. *)
Theorem computeCohortPercentages_integral d :
  Forall (fun x => finite x = true) d ->
  Forall (fun x => exists z, x = Fin (inject_Z z)) (computeCohortPercentages d).
Proof.
  intros Hd. destruct (Nat.lt_ge_cases (List.length d) 6) as [Hs|Hs].
  { rewrite computeCohortPercentages_short by exact Hs. repeat constructor; exists 0%Z; reflexivity. }
  destruct d as [|x0 [|x1 [|x2 [|x3 [|x4 [|x5 rest]]]]]]; cbn in Hs; try lia.
  repeat (match goal with H : Forall _ (_ :: _) |- _ => inversion_clear H end).
  destruct x0; try discriminate; destruct x1; try discriminate; destruct x2; try discriminate;
    destruct x3; try discriminate; destruct x4; try discriminate; destruct x5; try discriminate.
  unfold computeCohortPercentages, at_. cbn [nth_error fold_left nadd map].
  match goal with |- context [ntruthy (Fin ?t)] => destruct (ntruthy (Fin t)) eqn:E end.
  - cbn [ntruthy] in E. apply negb_true_iff, Qeq_bool_false in E.
    rewrite !ndiv_fin by exact E. repeat constructor; eexists; reflexivity.
  - repeat constructor; exists 0%Z; reflexivity.
Qed.

(** ** Units of pay and range *)

Lemma divideIfTruthy_fin m c :
  0 < c -> exists m', divideIfTruthy (JNum (Fin m)) (Fin c) = JNum (Fin m') /\ m' * c == m.
Proof.
  intros Hc. unfold divideIfTruthy. cbn [jsTruthy ntruthy toNumber].
  qcase (Qeq_bool m 0).
  - exists m. split; [reflexivity|]. rewrite E. ring.
  - rewrite ndiv_fin by lra. exists (m / c). split; [reflexivity|]. field. lra.
Qed.

(** Scaling pay and range by the same [c > 0] keeps the position. *)
Lemma refPosition_scale p lo hi lo' hi' c :
  0 < c -> lo == lo' * c -> hi == hi' * c -> refPosition (p * c) lo hi = refPosition p lo' hi'.
Proof.
  intros Hc Hlo Hhi. unfold refPosition.
  rewrite (Qltb_scale (p * c) lo p lo' c), (Qltb_scale hi (p * c) hi' p c),
    (Qeq_bool_scale lo hi lo' hi' c),
    (Qltb_scale (4 * (p * c - lo)) (hi - lo) (4 * (p - lo')) (hi' - lo') c),
    (Qltb_scale (4 * (p * c - lo)) (3 * (hi - lo)) (4 * (p - lo')) (3 * (hi' - lo')) c)
    by (auto; rewrite ?Hlo, ?Hhi; ring).
  reflexivity.
Qed.

(** The two ways of stating an hourly pay against an annual range. *)
Section Units.
Variables (p m M : Q).

Let hourlyPen := mkPenProps (JNum (Fin p)) true (JNum (Fin M)) (JNum (Fin m)) false.
Let annualPen := mkPenProps (JNum (Fin (p * 2080))) false (JNum (Fin M)) (JNum (Fin m)) false.

Lemma normalized_units :
  exists m1 M1 m2 M2,
    normalizePayRange (JNum (Fin p)) true (JNum (Fin m)) (JNum (Fin M)) false
      = mkPayRange (JNum (Fin m1)) (JNum (Fin M1))
    /\ normalizePayRange (JNum (Fin (p * 2080))) false (JNum (Fin m)) (JNum (Fin M)) false
      = mkPayRange (JNum (Fin m2)) (JNum (Fin M2))
    /\ m1 * 2080 == m /\ M1 * 2080 == M /\ m2 == m /\ M2 == M.
Proof.
  unfold normalizePayRange. cbn [conversionFactor andb negb]. unfold hourlyConversionFactor.
  destruct (divideIfTruthy_fin m 2080) as (m1 & -> & H1); [lra|].
  destruct (divideIfTruthy_fin M 2080) as (M1 & -> & H2); [lra|].
  destruct (divideIfTruthy_fin m 1) as (m2 & -> & H3); [lra|].
  destruct (divideIfTruthy_fin M 1) as (M2 & -> & H4); [lra|].
  exists m1, M1, m2, M2. repeat split; auto; lra.
Qed.

Lemma getRangePenPercentage_units : getRangePenPercentage hourlyPen = getRangePenPercentage annualPen.
Proof.
  unfold getRangePenPercentage, hourlyPen, annualPen. cbn [penPay penIsHourlyPay penRangeMin penRangeMax penIsHourlyRange].
  destruct normalized_units as (m1 & M1 & m2 & M2 & -> & -> & H1 & H2 & H3 & H4).
  cbn [prMin prMax toNumber jsTruthy ntruthy]. rewrite !nsub_fin, !nstrictEq_fin.
  rewrite (Qeq_bool_scale (M2 - m2) 0 (M1 - m1) 0 2080), (Qeq_bool_scale (p * 2080) 0 p 0 2080)
    by (try lra; ring).
  qcase (Qeq_bool (M1 - m1) 0); [reflexivity|]. destruct (Qeq_bool p 0); [reflexivity|].
  cbn [negb orb]. rewrite !ndiv_fin by lra. cbn [nmul nround]. do 2 f_equal.
  apply Qround_comp. rewrite H3, H4, <- H1, <- H2. field. lra.
Qed.

Lemma computeRangePosition_units :
  computeRangePosition (JNum (Fin p))
    (prMin (normalizePayRange (JNum (Fin p)) true (JNum (Fin m)) (JNum (Fin M)) false))
    (prMax (normalizePayRange (JNum (Fin p)) true (JNum (Fin m)) (JNum (Fin M)) false))
  = computeRangePosition (JNum (Fin (p * 2080)))
    (prMin (normalizePayRange (JNum (Fin (p * 2080))) false (JNum (Fin m)) (JNum (Fin M)) false))
    (prMax (normalizePayRange (JNum (Fin (p * 2080))) false (JNum (Fin m)) (JNum (Fin M)) false)).
Proof.
  destruct normalized_units as (m1 & M1 & m2 & M2 & -> & -> & H1 & H2 & H3 & H4).
  cbn [prMin prMax]. rewrite !computeRangePosition_fin.
  symmetry. apply refPosition_scale; lra.
Qed.

(** [normalizePayRange] makes both cards independent of the units the
    pay is given in: an hourly pay [p] against an annual range renders the
    same range-distribution card and the same penetration card as the
    annual pay [2080 * p]. *)
Theorem hourly_pay_units s ps name dist :
  render s ps (mkDistProps name dist (JNum (Fin m)) (JNum (Fin M)) false (JNum (Fin p)) true)
  = render s ps (mkDistProps name dist (JNum (Fin m)) (JNum (Fin M)) false (JNum (Fin (p * 2080))) false)
  /\ renderPen hourlyPen = renderPen annualPen.
Proof.
  split.
  - unfold render. cbn [isValidData eqNull negb andb rangeMin rangeMax pay isHourlyPay isHourlyRange].
    rewrite computeRangePosition_units. reflexivity.
  - unfold renderPen. rewrite getRangePenPercentage_units. reflexivity.
Qed.

End Units.

(** ** The penetration thumb *)

Lemma conversionFactor_pos hp hr : exists c, conversionFactor hp hr = Fin c /\ 0 < c.
Proof.
  unfold conversionFactor, hourlyConversionFactor. destruct hp, hr; cbn [andb negb].
  - exists 1. split; [reflexivity | lra].
  - exists 2080. split; [reflexivity | lra].
  - rewrite ndiv_fin by lra. exists (1 / 2080). split; [reflexivity|].
    apply Qlt_shift_div_l; lra.
  - exists 1. split; [reflexivity | lra].
Qed.

(** [Math.round] of a percentage: an integer or an infinity, never [NaN]
    once the range bounds are finite. *)
Definition roundedValue (x : num) : Prop :=
  (exists z, x = Fin (inject_Z z)) \/ x = PosInf \/ x = NegInf.

Lemma nround_rounded x : x <> NaN -> roundedValue (nround x).
Proof.
  destruct x; intros H; [left; eexists; reflexivity | congruence | right; auto..].
Qed.

Lemma getRangePenPercentage_rounded pay hp m M hr :
  roundedValue (getRangePenPercentage (mkPenProps pay hp (JNum (Fin M)) (JNum (Fin m)) hr)).
Proof.
  unfold getRangePenPercentage, normalizePayRange. cbn [penPay penIsHourlyPay penRangeMin penRangeMax penIsHourlyRange].
  destruct (conversionFactor_pos hp hr) as (c & -> & Hc).
  destruct (divideIfTruthy_fin m c Hc) as (m1 & -> & _).
  destruct (divideIfTruthy_fin M c Hc) as (M1 & -> & _).
  cbn [prMin prMax toNumber]. rewrite nsub_fin, nstrictEq_fin.
  qcase (Qeq_bool (M1 - m1) 0); [left; exists 0%Z; reflexivity|].
  destruct (jsTruthy pay) eqn:Ep; [|left; exists 0%Z; reflexivity].
  cbn [orb negb]. apply nround_rounded.
  destruct pay as [| |[q| | |]]; try discriminate; cbn [toNumber].
  - rewrite nsub_fin, ndiv_fin by lra. discriminate.
  - unfold nsub, nadd, nneg, ndiv. destruct (Qltb (M1 - m1) 0); discriminate.
  - unfold nsub, nadd, nneg, ndiv. destruct (Qltb (M1 - m1) 0); discriminate.
Qed.

(** [Math.max(0, Math.min(v, 100))] of a rounded value is an integer of [0, 100]. *)
Lemma pinned_rounded x :
  roundedValue x -> exists z, (0 <= z <= 100)%Z /\ pinnedPenetrationValue x = Fin (inject_Z z).
Proof.
  unfold pinnedPenetrationValue. intros [[z ->]|[->| ->]]; [|exists 100%Z; split; [lia|reflexivity]|exists 0%Z; split; [lia|reflexivity]].
  rewrite nmin_fin_eq, nmax_fin_eq. change 100 with (inject_Z 100). change 0 with (inject_Z 0).
  rewrite Qltb_inject_Z.
  destruct (Z.ltb_spec 100 z); rewrite Qltb_inject_Z; [exists 100%Z; split; [lia | reflexivity]|].
  destruct (Z.ltb_spec 0 z); [exists z | exists 0%Z]; split; [lia | reflexivity | lia | reflexivity].
Qed.

Lemma roundedToString_int z : roundedToString (Fin (inject_Z z)) = intToString z.
Proof. cbn [roundedToString]. now rewrite Qfloor_Z. Qed.

(** Whenever both range bounds are finite numbers, whatever the pay
    (missing, zero, below or above the range, infinite), the thumb of the
    penetration card is placed at [left: z%] for an integer [z] from 0 to
    100, although the percentage label itself may lie outside [0, 100]. *)
Theorem renderPen_thumb_pinned pay hp m M hr :
  exists z, (0 <= z <= 100)%Z /\
    left (positionStyle (renderPen (mkPenProps pay hp (JNum (Fin M)) (JNum (Fin m)) hr)))
    = (intToString z ++ "%")%string.
Proof.
  unfold renderPen. cbn [positionStyle penPay penRangeMin penRangeMax eqNull negb andb].
  assert (Hr : roundedValue (if negb (eqNull pay)
                             then getRangePenPercentage (mkPenProps pay hp (JNum (Fin M)) (JNum (Fin m)) hr)
                             else Fin 0)).
  { destruct (negb (eqNull pay)); [apply getRangePenPercentage_rounded | left; exists 0%Z; reflexivity]. }
  destruct (pinned_rounded _ Hr) as (z & Hz & Hp). exists z. split; [exact Hz|].
  unfold computeLabelPositionStyle. cbn [left]. now rewrite Hp, roundedToString_int.
Qed.

(** ** The bars of the distribution chart *)

(** The bar at index [j] has a label exactly when [j] is the position. *)
Lemma renderViz_label s pos d j b :
  nth_error (renderViz (positionStrings s) pos d) j = Some b -> (label b <> None <-> j = positionIndex pos).
Proof.
  unfold renderViz. cbn [positionStrings List.length seq combine map].
  intros Hj. destruct j as [|[|[|[|[|j]]]]]; cbn [nth_error map] in Hj; [..|destruct j; discriminate];
    injection Hj as <-; destruct pos; cbn; intuition congruence.
Qed.

(** Whenever the range distribution card draws its chart, the chart
    has five bars and exactly one of them, the employee's position, is
    labelled: the position [render] computes is never [Unknown] there.
    The bars come from the [_positionStrings] a constructor built. *)
Theorem render_viz_shape s s0 p v bars :
  render s (positionStrings s0) p = Some v -> viz v = Some bars ->
  List.length bars = 5%nat /\
  exists i, (i < 5)%nat /\ forall j b, nth_error bars j = Some b -> (label b <> None <-> j = i).
Proof.
  unfold render. destruct (negb (isValidData _ _ _)); [discriminate|].
  destruct (computeRangePosition _ _ _) as [| | | | |] eqn:Epos; [..|discriminate];
  intros Hv; injection Hv as <-; cbn [viz];
  destruct (rangeDistribution p) as [[|x d]|]; cbn [viz]; intros Hb; try discriminate; injection Hb as <-;
  (split; [reflexivity|]); eexists; (split; [|intros j b Hj; rewrite (renderViz_label _ _ _ _ _ Hj); reflexivity]);
  cbn; lia.
Qed.

Module PayTests.

Definition dist1 : list num := [Fin 5; Fin 10; Fin 40; Fin 30; Fin 10; Fin 5].

Definition props1 (pay : Q) : DistProps :=
  mkDistProps None (Some dist1) (JNum (Fin 10)) (JNum (Fin 100)) false (JNum (Fin pay)) false.

(** The description test of [rangeDistributionCard.spec.tsx]: 70% of the
    organization is in the middle half. *)
Example description_70 :
  option_map description (render distStrings (positionStrings distStrings) (props1 50))
  = Some ("This employee and 70% of the organization are in the", " middle ", "of the range")%string.
Proof. vm_compute. reflexivity. Qed.

(** An hourly pay of 12 against an annual range of 10 * 2080 to 100 * 2080
    is in the bottom quarter, labelled 10%, as the spec expects. *)
Example hourly_label_10 :
  option_map (fun v => option_map (map label) (viz v))
    (render distStrings (positionStrings distStrings) (mkDistProps None (Some dist1) (JNum (Fin (10 * 2080))) (JNum (Fin (100 * 2080)))
                           false (JNum (Fin 12)) true))
  = Some (Some [None; Some "10%"%string; None; None; None]).
Proof. vm_compute. reflexivity. Qed.

(** A pay equal to the maximum is in the top quarter. *)
Example pay_at_max_top :
  option_map (fun v => snd (fst (description v))) (render distStrings (positionStrings distStrings) (props1 100)) = Some " top "%string.
Proof. vm_compute. reflexivity. Qed.

(** An empty distribution hides the chart but the sentence still reports
    0% of the organization. *)
Example empty_distribution_sentence :
  option_map description
    (render distStrings (positionStrings distStrings) (mkDistProps (Some "Ana"%string) (Some []) (JNum (Fin 0)) (JNum (Fin 100)) false (JNum (Fin 50)) false))
  = Some ("Ana and 0% of the organization are in the", " middle ", "of the range")%string
  /\ option_map viz
    (render distStrings (positionStrings distStrings) (mkDistProps (Some "Ana"%string) (Some []) (JNum (Fin 0)) (JNum (Fin 100)) false (JNum (Fin 50)) false))
  = Some None.
Proof. split; vm_compute; reflexivity. Qed.

(** Both ends of the bound of [computeCohortPercentages_sum] are reached. *)
Example cohort_sum_ends :
  computeCohortPercentages [Fin 25; Fin 25; Fin 25; Fin 0; Fin 25; Fin 100]
    = [Fin 13; Fin 13; Fin 13; Fin 13; Fin 50]
  /\ computeCohortPercentages [Fin 124; Fin 124; Fin 124; Fin 0; Fin 124; Fin 504]
    = [Fin 12; Fin 12; Fin 12; Fin 12; Fin 50].
Proof. split; vm_compute; reflexivity. Qed.

(** A pay below the range shows a label of -22% and a thumb at 0%; with a
    missing bound the thumb is hidden. *)
Example thumb_below_range :
  let v := renderPen (mkPenProps (JNum (Fin 10)) false (JNum (Fin 65)) (JNum (Fin 20)) false) in
  roundedToString (penetrationValue v) = "-22"%string /\ left (positionStyle v) = "0%"%string
  /\ vizClass (renderPen (mkPenProps JUndefined false JNull (JNum (Fin 20)) false))
     = "range-pen-card__viz invalid hide-thumb"%string.
Proof. vm_compute. auto. Qed.

Lemma computeCohortPercentages_sum_witness :
  exists p0 p1 p2 p3 p4 : Z,
    computeCohortPercentages [Fin 25; Fin 25; Fin 25; Fin 0; Fin 25; Fin 100]
      = map (fun p => Fin (inject_Z p)) [p0; p1; p2; p3; p4]
    /\ Forall (fun p => 0 <= p <= 100)%Z [p0; p1; p2; p3; p4]
    /\ (98 <= p0 + p1 + p2 + p3 + p4 <= 102)%Z.
Proof.
  apply (computeCohortPercentages_sum 25 25 25 0 25 100); [repeat constructor; lra | lra].
Defined.

Lemma computeCohortPercentages_integral_witness :
  Forall (fun x => finite x = true) [Fin 0; Fin 0; Fin 0; Fin 0; Fin 0; Fin 0] /\
  Forall (fun x => exists z, x = Fin (inject_Z z)) (computeCohortPercentages [Fin 0; Fin 0; Fin 0; Fin 0; Fin 0; Fin 0]).
Proof.
  assert (H : Forall (fun x => finite x = true) [Fin 0; Fin 0; Fin 0; Fin 0; Fin 0; Fin 0])
    by (repeat constructor).
  split; [exact H | apply computeCohortPercentages_integral, H].
Defined.

Definition view1 : DistView :=
  match render distStrings (positionStrings distStrings) (props1 50) with Some v => v | None => mkDistView None ("", "", "")%string end.

Definition bars1 : list Bar := match viz view1 with Some b => b | None => [] end.

Lemma render_viz_shape_witness :
  (render distStrings (positionStrings distStrings) (props1 50) = Some view1 /\ viz view1 = Some bars1) /\
    (List.length bars1 = 5%nat /\
     exists i, (i < 5)%nat /\ forall j b, nth_error bars1 j = Some b -> (label b <> None <-> j = i)).
Proof.
  assert (H : render distStrings (positionStrings distStrings) (props1 50) = Some view1 /\ viz view1 = Some bars1)
    by (split; vm_compute; reflexivity).
  split; [exact H | apply (render_viz_shape distStrings distStrings (props1 50) view1 bars1); apply H].
Defined.

End PayTests.

End Pay.
