(* ===== verification/StringManager.v ===== *)
(** * The string tables: [src/src/StringManager/index.ts] and its clients

      [StringManager] keeps one object of strings per module as an own
      property of the manager: [load(name, module)] stores the object
      itself, [override(name, strings)] writes each string of [strings]
      into the object already stored.  Its methods live on
      [StringManager.prototype]; a read [manager[name]] finds an own
      module, else a member of the prototype chain.  The singleton of
      [src/src/Strings/index.ts] is shared by every component: each
      [strings.ts] loads its defaults at import and keeps the object it
      reads back ([const moduleStrings = stringManager[moduleName]]), so
      the component sees later overrides, which write into that very
      object, and does not see a later [load], which stores another one.

      Objects are kept in a heap of string objects ([heap], references
      [Ref]), because the manager and the components share them.  The
      manager's own properties map names to references; its prototype is
      [StringManager.prototype] unless a module was assigned to
      [__proto__].  Strings written onto [StringManager.prototype] or onto
      a builtin function (what [override] does for a name that reads such
      an object) are kept as well, since later lookups see them.  A call
      that throws returns [Throws] (a [TypeError]).  Code is in strict
      mode (TypeScript modules), so writing a property of a string throws.

      [override] tests [!module], the CommonJS [module] object of the
      bundle, not its [overrideStrings] argument: [module] is defined,
      so the test is always false.

      [RangeDistributionCard] (PayRange.v) builds its static
      [_positionStrings] from these strings at its first construction;
      [App] composes the manager with that card. *)

From stdpp Require Import base gmap strings list sets.
From Stdlib Require Import QArith.
From S2P Require Import JsObject PayRange.
Open Scope string_scope.

Module SM.

Definition Ref := N.

(** A string object: its own properties. *)
Abbreviation StrObj := (gmap string string).

(** What a read [manager[name]] finds. *)
Inductive Val : Type :=
| VModule (r : Ref)       (* a module object *)
| VClassProto             (* [StringManager.prototype] *)
| VFun (f : string)       (* a builtin function *)
| VStr (s : string)       (* a string written onto the prototype *)
| VUndef.

#[export] Instance Val_eq_dec : EqDecision Val.
Proof. solve_decision. Defined.

Record Manager : Type := mkManager {
  heap : gmap Ref StrObj;
  nextRef : Ref;
  own : gmap string Ref;
  proto : option Ref;
  classProto : StrObj;
  fnProps : gmap string StrObj
}.

(** [new StringManager()]. *)
Definition initManager : Manager := mkManager ∅ 0%N ∅ None ∅ ∅.

Inductive Res : Type :=
| Ok (m : Manager)
| Throws.

Definition methodNames : list string := ["load"; "override"; "_isValidModuleName"].

(** A member of [Object.prototype] other than [__proto__]. *)
Definition objectMember (k : string) : Val :=
  if bool_decide (k ∈ objectProtoNames) then VFun ("Object.prototype." +:+ k) else VUndef.

(** [manager[k]]: own module, then the prototype chain. *)
Definition read (m : Manager) (k : string) : Val :=
  if bool_decide (k = "__proto__") then
    match proto m with None => VClassProto | Some r => VModule r end
  else
    match own m !! k with
    | Some r => VModule r
    | None =>
        match proto m with
        | None =>
            match classProto m !! k with
            | Some s => VStr s
            | None =>
                if bool_decide (k ∈ methodNames) then VFun ("StringManager.prototype." +:+ k)
                else if bool_decide (k = "constructor") then VFun "StringManager"
                else objectMember k
            end
        | Some r =>
            match heap m !! r ≫= (.!! k) with
            | Some s => VStr s
            | None => objectMember k
            end
        end
    end.

(** Whether [manager.name(...)] calls the method of the class. *)
Definition callable (m : Manager) (name : string) : bool :=
  bool_decide (read m name = VFun ("StringManager.prototype." +:+ name)).

Definition truthy (v : Val) : bool :=
  match v with VUndef => false | VStr s => bool_decide (s ≠ "") | _ => true end.

(** [_isValidModuleName] (lines 43-46). *)
Definition isValidModuleName (name : string) : bool :=
  bool_decide (name ≠ "") && bool_decide (name ≠ "load") && bool_decide (name ≠ "override").

(** [this[name] = module] for an object [module]: the [__proto__] setter
    replaces the prototype. *)
Definition assign (m : Manager) (name : string) (r : Ref) : Manager :=
  if bool_decide (name = "__proto__") then
    mkManager (heap m) (nextRef m) (own m) (Some r) (classProto m) (fnProps m)
  else mkManager (heap m) (nextRef m) (<[name := r]> (own m)) (proto m) (classProto m) (fnProps m).

(** [load(name, module)] (lines 14-21); [None] is [null] or [undefined]. *)
Definition load (name : string) (module : option Ref) (m : Manager) : Res :=
  match module with
  | None => Ok m
  | Some r =>
      if negb (callable m "_isValidModuleName") then Throws
      else if negb (isValidModuleName name) then Ok m
      else Ok (assign m name r)
  end.

(** The properties of a function an assignment cannot write in strict
    mode: the own [length] and [name], which are not writable; [caller]
    and [arguments], accessors of [Function.prototype] whose setter
    throws; and the own [prototype] of the class [StringManager] and of
    [Object], which is not writable.  Methods and the other builtins of
    [Object.prototype] have no [prototype], so writing one adds it. *)
Definition fnReadOnly (f key : string) : bool :=
  bool_decide (key ∈ ["length"; "name"; "caller"; "arguments"]) ||
  (bool_decide (key = "prototype") && bool_decide (f ∈ ["StringManager"; "Object.prototype.constructor"])).

(** [target[key] = value] for a string [value]. *)
Definition writeStr (m : Manager) (target : Val) (key value : string) : Res :=
  match target with
  | VModule r =>
      Ok (mkManager (alter (λ o, dset o key value) r (heap m)) (nextRef m) (own m) (proto m)
            (classProto m) (fnProps m))
  | VClassProto =>
      Ok (mkManager (heap m) (nextRef m) (own m) (proto m) (dset (classProto m) key value) (fnProps m))
  | VFun f =>
      if fnReadOnly f key then Throws
      else Ok (mkManager (heap m) (nextRef m) (own m) (proto m) (classProto m)
                 (<[f := dset (default ∅ (fnProps m !! f)) key value]> (fnProps m)))
  | VStr _ | VUndef => Throws
  end.

Definition bindRes (r : Res) (f : Manager -> Res) : Res :=
  match r with Ok m => f m | Throws => Throws end.

(** [Object.keys(overrideStrings).forEach(key => moduleStrings[key] = overrideStrings[key])].
    The writes go to distinct keys, so their order does not matter. *)
Definition writeAll (target : Val) (kvs : list (string * string)) (m : Manager) : Res :=
  foldl (λ acc kv, bindRes acc (λ m, writeStr m target kv.1 kv.2)) (Ok m) kvs.

(** [manager.load(...)]: the call itself needs the method. *)
Definition callLoad (name : string) (module : option Ref) (m : Manager) : Res :=
  if callable m "load" then load name module m else Throws.

(** [override(name, overrideStrings)] (lines 25-41). *)
Definition override (name : string) (overrideStrings : option Ref) (m : Manager) : Res :=
  if negb (callable m "_isValidModuleName") then Throws
  else if negb (isValidModuleName name) then Ok m
  else
    let target := read m name in
    if negb (truthy target) then callLoad name overrideStrings m
    else
      match overrideStrings with
      | None => Throws
      | Some o => writeAll target (map_to_list (default ∅ (heap m !! o))) m
      end.

Definition callOverride (name : string) (overrideStrings : option Ref) (m : Manager) : Res :=
  if callable m "override" then override name overrideStrings m else Throws.

(** Evaluating an object literal of strings: a fresh object. *)
Definition alloc (o : StrObj) (m : Manager) : Ref * Manager :=
  (nextRef m, mkManager (<[nextRef m := o]> (heap m)) (N.succ (nextRef m)) (own m) (proto m)
                (classProto m) (fnProps m)).

(** ** The range distribution card on the singleton *)

Definition distModuleName : string := "rangeDistributionCard".

(** The literal [RangeDistributionCard/strings.ts] loads (lines 23-37). *)
Definition distLiteral : StrObj :=
  let s := Pay.distStrings in
  list_to_map [("above", Pay.above s); ("below", Pay.below s); ("bottom", Pay.bottom s);
               ("cardTitle", Pay.cardTitle s); ("descriptionInRange", Pay.descriptionInRange s);
               ("descriptionInRangeSingular", Pay.descriptionInRangeSingular s);
               ("descriptionOutRange", Pay.descriptionOutRange s);
               ("descriptionOutRangeSingular", Pay.descriptionOutRangeSingular s);
               ("descriptionPositionInRange", Pay.descriptionPositionInRange s);
               ("descriptionPositionOutRange", Pay.descriptionPositionOutRange s);
               ("middle", Pay.middle s); ("thisEmployee", Pay.thisEmployee s); ("top", Pay.top s)].

(** The strings a component reads from the object it keeps, when each is
    an own string of a module object. *)
Definition distStringsOf (m : Manager) (v : Val) : option Pay.DistStrings :=
  match v with
  | VModule r =>
      o ← heap m !! r;
      above ← o !! "above"; below ← o !! "below"; bottom ← o !! "bottom";
      cardTitle ← o !! "cardTitle"; dIn ← o !! "descriptionInRange";
      dInS ← o !! "descriptionInRangeSingular"; dOut ← o !! "descriptionOutRange";
      dOutS ← o !! "descriptionOutRangeSingular"; pIn ← o !! "descriptionPositionInRange";
      pOut ← o !! "descriptionPositionOutRange"; middle ← o !! "middle";
      thisEmployee ← o !! "thisEmployee"; top ← o !! "top";
      Some (Pay.mkDistStrings above below bottom cardTitle dIn dInS dOut dOutS pIn pOut middle
              thisEmployee top)
  | _ => None
  end.

(** The application: the singleton, the object [strings.ts] kept, and the
    card's static [_positionStrings]. *)
Record App : Type := mkApp { mgr : Manager; cardStrings : Val; posCache : option (list string) }.

(** Importing [strings.ts] (lines 23-44): load the literal, keep what
    [stringManager[moduleName]] reads back. *)
Definition importStrings (m : Manager) : option App :=
  let '(r, m) := alloc distLiteral m in
  match callLoad distModuleName (Some r) m with
  | Ok m => Some (mkApp m (read m distModuleName) None)
  | Throws => None
  end.

(** A call a component makes: [load] or [override] of an object literal. *)
Inductive SMCall : Type :=
| CLoad (name : string) (o : StrObj)
| COverride (name : string) (o : StrObj).

Definition callStep (c : SMCall) (m : Manager) : Res :=
  match c with
  | CLoad name o => let '(r, m) := alloc o m in callLoad name (Some r) m
  | COverride name o => let '(r, m) := alloc o m in callOverride name (Some r) m
  end.

(** Whether [override(name, ...)] of the strings [kvs] writes a property
    of a function it finds under [name] that cannot be written. *)
Definition writesFnReadOnly (name : string) (kvs : list (string * string)) (m : Manager) : bool :=
  isValidModuleName name &&
  match read m name with VFun f => existsb (λ kv, fnReadOnly f kv.1) kvs | _ => false end.

Definition callWritesFnReadOnly (c : SMCall) (m : Manager) : bool :=
  match c with CLoad _ _ => false | COverride name o => writesFnReadOnly name (map_to_list o) m end.

Inductive AppEvent : Type :=
| Mount                      (* a card is constructed *)
| Call (c : SMCall).

(** One event; [None] when it throws. *)
Definition appStep (ev : AppEvent) (a : App) : option App :=
  match ev with
  | Mount =>
      match distStringsOf (mgr a) (cardStrings a) with
      | Some s => Some (mkApp (mgr a) (cardStrings a) (Some (Pay.construct (posCache a) s)))
      | None => None
      end
  | Call c =>
      match callStep c (mgr a) with Ok m => Some (mkApp m (cardStrings a) (posCache a)) | Throws => None end
  end.

Definition runApp (evs : list AppEvent) (a : App) : option App :=
  foldl (λ oa ev, oa ≫= appStep ev) (Some a) evs.

(** A render of a mounted card, with the strings it reads now. *)
Definition renderCard (a : App) (p : Pay.DistProps) : option (option Pay.DistView) :=
  match distStringsOf (mgr a) (cardStrings a), posCache a with
  | Some s, Some ps => Some (Pay.render s ps p)
  | _, _ => None
  end.

(** ** Well-formed managers *)

(** The names [load] stores as own properties, the prototype untouched,
    every own module allocated, references below [nextRef]. *)
Definition WF (m : Manager) : Prop :=
  proto m = None /\ classProto m = ∅ /\
  (forall k r, own m !! k = Some r ->
     isValidModuleName k = true /\ k ≠ "_isValidModuleName" /\ k ≠ "__proto__" /\ is_Some (heap m !! r)) /\
  (forall r, is_Some (heap m !! r) -> (r < nextRef m)%N).

Lemma methodNames_cases k : k ∈ methodNames -> k = "load" \/ k = "override" \/ k = "_isValidModuleName".
Proof. unfold methodNames. rewrite !elem_of_cons, elem_of_nil. tauto. Qed.

Ltac inmeth := unfold methodNames; repeat (first [apply list_elem_of_here | apply list_elem_of_further]).

Lemma read_own m k r : k ≠ "__proto__" -> own m !! k = Some r -> read m k = VModule r.
Proof. intros Hk Ho. unfold read. rewrite bool_decide_false by exact Hk. now rewrite Ho. Qed.

Lemma read_method m k :
  WF m -> k ∈ methodNames -> read m k = VFun ("StringManager.prototype." +:+ k).
Proof.
  intros (Hp & Hc & Ho & _) Hk. unfold read.
  assert (Hk' : k ≠ "__proto__")
    by (intros E; subst k; destruct (methodNames_cases _ Hk) as [E|[E|E]]; discriminate E).
  rewrite bool_decide_false by exact Hk'.
  destruct (own m !! k) as [r|] eqn:E.
  - exfalso. destruct (Ho k r E) as (Hv & Hi & _).
    destruct (methodNames_cases _ Hk) as [-> | [-> | ->]]; [discriminate | discriminate | contradiction].
  - rewrite Hp, Hc. cbn. now rewrite bool_decide_true by exact Hk.
Qed.

Lemma callable_method m k : WF m -> k ∈ methodNames -> callable m k = true.
Proof. intros Hw Hk. unfold callable. rewrite (read_method m k Hw Hk). now apply bool_decide_true. Qed.

(** A literal is allocated fresh. *)
Lemma alloc_WF o m r m' :
  WF m -> alloc o m = (r, m') ->
  WF m' /\ heap m' !! r = Some o /\ (forall r', r' ≠ r -> heap m' !! r' = heap m !! r') /\ own m' = own m.
Proof.
  intros (Hp & Hc & Ho & Hn) E. injection E as <- <-. split; [|split; [apply lookup_insert_eq|split; [|reflexivity]]].
  - split; [exact Hp|]. split; [exact Hc|]. cbn. split.
    + intros k r E. destruct (Ho k r E) as (H1 & H2 & H3 & H4). split_and!; try assumption.
      destruct (decide (r = nextRef m)) as [->|Hne]; [rewrite lookup_insert_eq; eauto|].
      now rewrite lookup_insert_ne by congruence.
    + intros r. destruct (decide (r = nextRef m)) as [->|Hne]; [intros _; lia|].
      rewrite lookup_insert_ne by congruence. intros H. specialize (Hn r H). lia.
  - intros r' Hr'. now apply lookup_insert_ne.
Qed.

(** ** Calls on a well-formed manager *)

Lemma load_WF m name r :
  WF m -> is_Some (heap m !! r) -> name ≠ "_isValidModuleName" -> name ≠ "__proto__" ->
  callLoad name (Some r) m
  = Ok (if isValidModuleName name then mkManager (heap m) (nextRef m) (<[name := r]> (own m)) (proto m)
                                         (classProto m) (fnProps m) else m)
  /\ (isValidModuleName name = true ->
      WF (mkManager (heap m) (nextRef m) (<[name := r]> (own m)) (proto m) (classProto m) (fnProps m))).
Proof.
  intros Hw Hr Hn Hp. unfold callLoad, load.
  rewrite !callable_method by first [exact Hw | inmeth]. cbn.
  destruct (isValidModuleName name) eqn:Hv; cbn; [|split; [reflexivity | discriminate]].
  unfold assign. rewrite bool_decide_false by exact Hp. split; [reflexivity|]. intros _.
  destruct Hw as (Hp' & Hc & Ho & Hn'). split; [exact Hp'|]. split; [exact Hc|]. cbn. split; [|exact Hn'].
  intros k r' E. destruct (decide (k = name)) as [->|Hne].
  - rewrite lookup_insert_eq in E. injection E as <-. auto.
  - rewrite lookup_insert_ne in E by congruence. auto.
Qed.

(** The writes of [override] into a module object. *)
Definition overlay (kvs : list (string * string)) (o : StrObj) : StrObj :=
  foldl (λ o kv, dset o kv.1 kv.2) o kvs.

Lemma writeAll_module r kvs m :
  writeAll (VModule r) kvs m
  = Ok (mkManager (alter (overlay kvs) r (heap m)) (nextRef m) (own m) (proto m) (classProto m) (fnProps m)).
Proof.
  unfold writeAll, overlay. revert m. induction kvs as [|kv kvs IH]; intros m; cbn [foldl].
  - rewrite alter_id by reflexivity. now destruct m.
  - cbn [bindRes writeStr]. rewrite IH. cbn. f_equal. f_equal.
    now rewrite alter_alter_eq.
Qed.

(** Once a write throws, the later ones are not made. *)
Lemma foldl_bindRes_Throws {A} (g : A -> Manager -> Res) (l : list A) :
  foldl (λ acc a, bindRes acc (g a)) Throws l = Throws.
Proof. induction l; cbn; auto. Qed.

(** The writes onto a function throw at the first read-only key, else all
    of them are made. *)
Lemma writeAll_fun f kvs m :
  writeAll (VFun f) kvs m
  = if existsb (λ kv, fnReadOnly f kv.1) kvs then Throws
    else Ok (mkManager (heap m) (nextRef m) (own m) (proto m) (classProto m)
               (match kvs with [] => fnProps m
                | _ => <[f := overlay kvs (default ∅ (fnProps m !! f))]> (fnProps m) end)).
Proof.
  unfold writeAll, overlay. revert m. induction kvs as [|kv kvs IH]; intros m; cbn [foldl].
  - now destruct m.
  - cbn [bindRes writeStr existsb]. destruct (fnReadOnly f kv.1); cbn [orb].
    + apply (foldl_bindRes_Throws (λ kv m, writeStr m (VFun f) kv.1 kv.2)).
    + rewrite IH. cbn. rewrite lookup_insert_eq. cbn.
      destruct (existsb _ kvs); [reflexivity|].
      destruct kvs; cbn; [reflexivity|]. now rewrite insert_insert_eq.
Qed.

(** Writing distinct keys: each key ends with its written value. *)
Lemma overlay_lookup kvs o k :
  NoDup kvs.*1 -> k ≠ "__proto__" -> overlay kvs o !! k = (list_to_map kvs : StrObj) !! k ∪ o !! k.
Proof.
  unfold overlay. revert o. induction kvs as [|[k' v] kvs IH]; intros o Hd Hk; cbn [foldl].
  - cbn. now destruct (o !! k).
  - apply NoDup_cons in Hd as [Hn Hd]. rewrite IH by assumption. cbn [list_to_map foldr fst snd].
    destruct (decide (k = k')) as [->|Hne].
    + rewrite lookup_insert_eq. unfold dset. rewrite bool_decide_false by exact Hk.
      rewrite lookup_insert_eq. rewrite not_elem_of_list_to_map_1 by exact Hn.
      now destruct (o !! k').
    + rewrite lookup_insert_ne by congruence. now rewrite dset_other by exact Hne.
Qed.

Lemma WF_fnProps m fp : WF m -> WF (mkManager (heap m) (nextRef m) (own m) (proto m) (classProto m) fp).
Proof. intros Hw. exact Hw. Qed.

Lemma WF_alter m f r : WF m -> WF (mkManager (alter f r (heap m)) (nextRef m) (own m) (proto m) (classProto m) (fnProps m)).
Proof.
  intros (Hp & Hc & Ho & Hn). split; [exact Hp|]. split; [exact Hc|]. cbn. split.
  - intros k r' E. destruct (Ho k r' E) as (H1 & H2 & H3 & H4). split_and!; try assumption.
    now apply lookup_alter_is_Some.
  - intros r' H. apply Hn. now apply lookup_alter_is_Some in H.
Qed.

(** What [manager[name]] reads for a name that is not an own module. *)
Lemma read_not_own m k :
  WF m -> k ≠ "__proto__" -> own m !! k = None ->
  (exists f, read m k = VFun f) \/ (read m k = VUndef /\ k ∉ methodNames).
Proof.
  intros (Hp & Hc & _) Hk Ho. unfold read. rewrite bool_decide_false by exact Hk. rewrite Ho, Hp, Hc. cbn.
  case_bool_decide; [left; eauto|]. case_bool_decide; [left; eauto|].
  unfold objectMember. case_bool_decide; [left; eauto | right; auto].
Qed.

(** [override] of an allocated literal on a well-formed manager, under a
    name other than [__proto__], throws exactly when it writes a read-only
    property of a function, and otherwise keeps the manager well formed. *)
Lemma override_WF m name o :
  WF m -> name ≠ "__proto__" -> is_Some (heap m !! o) ->
  match callOverride name (Some o) m with
  | Ok m' => WF m' /\ writesFnReadOnly name (map_to_list (default ∅ (heap m !! o))) m = false
  | Throws => writesFnReadOnly name (map_to_list (default ∅ (heap m !! o))) m = true
  end.
Proof.
  intros Hw Hn Ho. unfold callOverride, override, writesFnReadOnly.
  rewrite !callable_method by first [exact Hw | inmeth]. cbn.
  destruct (isValidModuleName name) eqn:Hv; cbn; [|now split].
  destruct (own m !! name) as [r|] eqn:Eo.
  - rewrite (read_own m name r Hn Eo). cbn. rewrite writeAll_module. split; [now apply WF_alter | reflexivity].
  - destruct (read_not_own m name Hw Hn Eo) as [[f Hf]|[Hu Hm]].
    + rewrite Hf. cbn. rewrite writeAll_fun. destruct (existsb _ _); [reflexivity|].
      split; [now apply WF_fnProps | reflexivity].
    + rewrite Hu. cbn.
      assert (Hi : name ≠ "_isValidModuleName") by (intros ->; apply Hm; inmeth).
      destruct (load_WF m name o Hw Ho Hi Hn) as [-> HW]. rewrite Hv. split; [now apply HW | reflexivity].
Qed.

(** On a loaded module, [override] writes the literal's strings into it. *)
Lemma override_own m name o r :
  WF m -> name ≠ "__proto__" -> own m !! name = Some r ->
  let m' := mkManager (alter (overlay (map_to_list (default ∅ (heap m !! o)))) r (heap m))
              (nextRef m) (own m) (proto m) (classProto m) (fnProps m) in
  callOverride name (Some o) m = Ok m' /\ WF m'.
Proof.
  intros Hw Hn Eo. pose proof Hw as (_ & _ & Hown & _). destruct (Hown name r Eo) as (Hv & _).
  unfold callOverride, override. rewrite !callable_method by first [exact Hw | inmeth].
  cbn. rewrite Hv, (read_own m name r Hn Eo). cbn. rewrite writeAll_module.
  split; [reflexivity | now apply WF_alter].
Qed.

(** ** The manager stays usable *)

(** The calls that do not name [__proto__], nor [_isValidModuleName] for
    a [load]. *)
Definition safeCall (c : SMCall) : Prop :=
  match c with
  | CLoad name _ => name ≠ "_isValidModuleName" /\ name ≠ "__proto__"
  | COverride name _ => name ≠ "__proto__"
  end.

Inductive SMReach : Manager -> Prop :=
| SR_init : SMReach initManager
| SR_step c m m' : SMReach m -> safeCall c -> callStep c m = Ok m' -> SMReach m'.

(** Allocating a literal changes no read of a well-formed manager. *)
Lemma read_alloc o m k : WF m -> read (alloc o m).2 k = read m k.
Proof. intros (Hp & _). unfold read. cbn. now rewrite Hp. Qed.

Lemma callStep_WF c m : WF m -> safeCall c ->
  match callStep c m with
  | Ok m' => WF m' /\ callWritesFnReadOnly c m = false
  | Throws => callWritesFnReadOnly c m = true
  end.
Proof.
  intros Hw Hc. destruct c as [name o|name o]; cbn [callStep callWritesFnReadOnly];
    destruct (alloc o m) as [r m1] eqn:Ea; destruct (alloc_WF o m r m1 Hw Ea) as (Hw' & Hr & _).
  - destruct Hc as [Hi Hp]. destruct (load_WF m1 name r Hw' ltac:(rewrite Hr; eauto) Hi Hp) as [-> HW].
    destruct (isValidModuleName name) eqn:Hv; auto.
  - pose proof (override_WF m1 name r Hw' Hc ltac:(rewrite Hr; eauto)) as H.
    rewrite Hr in H. cbn [default] in H. unfold writesFnReadOnly in *.
    replace (read m name) with (read m1 name) by (pose proof (read_alloc o m name Hw) as E; now rewrite Ea in E).
    exact H.
Qed.

(** C19: On every manager reached from [new StringManager()] by [load] and
    [override] calls of object literals that do not name [__proto__] (nor
    [_isValidModuleName] for a [load]), the methods are the class's and
    every module is a live object; a further such call throws exactly
    when it is an [override] of a name that reads a function (a method,
    [constructor] or a member of [Object.prototype]) with a key the
    function cannot be written at ([length], [name], [caller],
    [arguments], or [prototype] of a constructor); every other such call
    returns. *)
Theorem reachable_WF m :
  SMReach m -> WF m /\ forall c, safeCall c -> (callStep c m = Throws <-> callWritesFnReadOnly c m = true).
Proof.
  intros Hr. assert (Hw : WF m).
  { induction Hr as [|c m m' _ IH Hc Hs].
    - split; [reflexivity|]. split; [reflexivity|]. split; [intros k r E; discriminate E|].
      intros r [x E]. discriminate E.
    - pose proof (callStep_WF c m IH Hc) as H. rewrite Hs in H. tauto. }
  split; [exact Hw|]. intros c Hc. pose proof (callStep_WF c m Hw Hc) as H.
  destruct (callStep c m); split; intros E; try discriminate; try reflexivity; destruct H; congruence.
Qed.

(** ** Two names that break the manager *)

Lemma read_class_method m k :
  own m !! k = None -> proto m = None -> classProto m = ∅ -> k ∈ methodNames ->
  read m k = VFun ("StringManager.prototype." +:+ k).
Proof.
  intros Ho Hp Hc Hk. unfold read.
  rewrite bool_decide_false by (intros ->; destruct (methodNames_cases _ Hk) as [E|[E|E]]; discriminate E).
  rewrite Ho, Hp, Hc, lookup_empty. now rewrite bool_decide_true by exact Hk.
Qed.

(** With a module as prototype, a method name finds a string or nothing. *)
Lemma read_replaced_proto m r k :
  proto m = Some r -> k ≠ "__proto__" -> own m !! k = None ->
  read m k ≠ VFun ("StringManager.prototype." +:+ k).
Proof.
  intros Hp Hk Ho. unfold read. rewrite bool_decide_false by exact Hk. rewrite Ho, Hp.
  destruct (heap m !! r ≫= _); [discriminate|]. unfold objectMember.
  case_bool_decide; [|discriminate]. intros E. injection E as E. cbn in E. discriminate E.
Qed.

Lemma own_method_free m k : WF m -> k ∈ methodNames -> own m !! k = None.
Proof.
  intros (_ & _ & Ho & _) Hk. destruct (own m !! k) as [r|] eqn:E; [|reflexivity].
  destruct (Ho k r E) as (Hv & Hi & _).
  destruct (methodNames_cases _ Hk) as [-> | [-> | ->]]; [discriminate | discriminate | contradiction].
Qed.

(** C20: Loading a module under the name [_isValidModuleName] or
    [__proto__], which [_isValidModuleName] accepts, breaks the manager:
    the first hides the method [load] and [override] call, the second
    replaces the prototype that holds [load] and [override]; every later
    [load] or [override] of a literal throws a [TypeError]. *)
Theorem load_poisons m bad o :
  WF m -> bad = "_isValidModuleName" \/ bad = "__proto__" ->
  exists m', callStep (CLoad bad o) m = Ok m' /\ forall c, callStep c m' = Throws.
Proof.
  intros Hw Hbad. cbn [callStep]. destruct (alloc o m) as [r m1] eqn:Ea.
  destruct (alloc_WF o m r m1 Hw Ea) as (Hw1 & _). pose proof Hw1 as (Hp & Hc & _).
  unfold callLoad, load. rewrite !callable_method by first [exact Hw1 | inmeth].
  assert (Hv : isValidModuleName bad = true) by (destruct Hbad as [-> | ->]; reflexivity). cbn. rewrite Hv.
  eexists; split; [reflexivity|].
  assert (Hfree : forall k, k ∈ methodNames -> own m1 !! k = None) by (intros k Hk; now apply own_method_free).
  intros c. destruct (alloc (match c with CLoad _ o' | COverride _ o' => o' end) (assign m1 bad r))
    as [r' m2] eqn:Ea2.
  assert (Hm2 : own m2 = own (assign m1 bad r) /\ proto m2 = proto (assign m1 bad r)
                /\ classProto m2 = classProto (assign m1 bad r))
    by (destruct c; injection Ea2 as _ <-; auto).
  destruct Hm2 as (Ho2 & Hp2 & Hc2). unfold assign in Ho2, Hp2, Hc2.
  destruct Hbad as [-> | ->].
  - rewrite bool_decide_false in Ho2, Hp2, Hc2 by discriminate. cbn [own proto classProto] in Ho2, Hp2, Hc2.
    assert (HV : callable m2 "_isValidModuleName" = false).
    { apply bool_decide_false. rewrite (read_own m2 _ r) by (discriminate || rewrite Ho2; apply lookup_insert_eq).
      discriminate. }
    assert (HM : forall k, k = "load" \/ k = "override" -> callable m2 k = true).
    { intros k Hk. apply bool_decide_true. apply read_class_method; [|congruence|congruence|].
      - rewrite Ho2, lookup_insert_ne by (destruct Hk as [-> | ->]; discriminate). apply Hfree.
        destruct Hk as [-> | ->]; inmeth.
      - destruct Hk as [-> | ->]; inmeth. }
    destruct c as [name o'|name o']; cbn [callStep]; rewrite Ea2.
    + unfold callLoad, load. now rewrite HM, HV by auto.
    + unfold callOverride, override. now rewrite HM, HV by auto.
  - rewrite bool_decide_true in Ho2, Hp2, Hc2 by reflexivity. cbn [own proto classProto] in Ho2, Hp2, Hc2.
    assert (HM : forall k, k = "load" \/ k = "override" -> callable m2 k = false).
    { intros k Hk. apply bool_decide_false. apply (read_replaced_proto m2 r); [exact Hp2| |].
      - destruct Hk as [-> | ->]; discriminate.
      - rewrite Ho2. apply Hfree. destruct Hk as [-> | ->]; inmeth. }
    destruct c as [name o'|name o']; cbn [callStep]; rewrite Ea2.
    + unfold callLoad. now rewrite HM by auto.
    + unfold callOverride. now rewrite HM by auto.
Qed.

(** ** Overrides reach the cards, not their cached position strings *)

Lemma alloc_fresh m o r m1 r0 :
  WF m -> alloc o m = (r, m1) -> is_Some (heap m !! r0) -> r0 ≠ r.
Proof. intros (_ & _ & _ & Hn) E Hs ->. injection E as <- _. specialize (Hn _ Hs). lia. Qed.

(** An [override] of the card's module writes into the very object
    [RangeDistributionCard/strings.ts] kept at import: each key of the
    literal now reads the new string, the others keep theirs.  The
    static [_positionStrings] of a card already constructed is unchanged,
    so its bars' axis labels and the position word of its sentence keep
    the old strings, while the sentence's templates are the new ones, in
    spite of the constructor comment that the array is built there to
    allow the strings to be overloaded. *)
Theorem override_keeps_cached_positions a r ps o :
  WF (mgr a) -> cardStrings a = VModule r -> own (mgr a) !! distModuleName = Some r -> posCache a = Some ps ->
  exists a', appStep (Call (COverride distModuleName o)) a = Some a' /\
    posCache a' = Some ps /\ cardStrings a' = VModule r /\
    forall k, k ≠ "__proto__" ->
      (heap (mgr a') !! r ≫= (.!! k)) = o !! k ∪ (heap (mgr a) !! r ≫= (.!! k)).
Proof.
  intros Hw Hc Ho Hp. cbn [appStep callStep]. destruct (alloc o (mgr a)) as [r' m1] eqn:Ea.
  destruct (alloc_WF o (mgr a) r' m1 Hw Ea) as (Hw1 & Hr' & Hrest & Hown).
  assert (Hs : is_Some (heap (mgr a) !! r)) by (destruct Hw as (_ & _ & Hw & _); apply (Hw _ _ Ho)).
  assert (Hne : r ≠ r') by exact (alloc_fresh _ _ _ _ _ Hw Ea Hs).
  destruct (override_own m1 distModuleName r' r Hw1 ltac:(discriminate) ltac:(rewrite Hown; exact Ho))
    as [-> _]. rewrite Hown.
  eexists; split; [reflexivity|]. split; [exact Hp|]. split; [exact Hc|]. intros k Hk. cbn [heap mgr].
  rewrite lookup_alter_eq, (Hrest r Hne), Hr'. cbn [default].
  destruct Hs as [obj ->]. cbn. rewrite overlay_lookup by (apply NoDup_fst_map_to_list || exact Hk).
  now rewrite list_to_map_to_list.
Qed.

Module SMTests.

(** [stringManager[name][key]] when it is a string of a module. *)
Definition lookupString (m : Manager) (name key : string) : option string :=
  match read m name with VModule r => heap m !! r ≫= (.!! key) | _ => None end.

Definition run (cs : list SMCall) : Res :=
  foldl (λ acc c, bindRes acc (callStep c)) (Ok initManager) cs.

Definition lookupAfter (cs : list SMCall) (name key : string) : option string :=
  match run cs with Ok m => lookupString m name key | Throws => None end.

(** The scenarios of [stringManager.spec.ts]. *)
Example load_and_override_spec :
  lookupAfter [CLoad "testModule" {[ "firstKey" := "firstValue"; "secondKey" := "secondValue" ]}] "testModule" "secondKey"
    = Some "secondValue" /\
  lookupAfter [CLoad "testModule" {[ "firstKey" := "firstValue" ]}; CLoad "testModule" {[ "secondKey" := "secondValue" ]}]
    "testModule" "firstKey" = None /\
  lookupAfter [CLoad "testModule1" {[ "firstKey" := "firstValue" ]}; CLoad "" {[ "secondKey" := "secondValue" ]}]
    "testModule1" "firstKey" = Some "firstValue" /\
  lookupAfter [CLoad "testModule" {[ "firstKey" := "firstValue"; "secondKey" := "secondValue" ]};
               COverride "testModule" {[ "firstKey" := "thirdValue" ]}] "testModule" "firstKey" = Some "thirdValue" /\
  lookupAfter [CLoad "testModule" {[ "firstKey" := "firstValue"; "secondKey" := "secondValue" ]};
               COverride "testModule" {[ "firstKey" := "thirdValue" ]}] "testModule" "secondKey" = Some "secondValue" /\
  lookupAfter [COverride "testModule" {[ "firstKey" := "firstValue" ]}] "testModule" "firstKey" = Some "firstValue".
Proof. vm_compute. repeat split. Qed.

(** [override(name, null)] of a loaded module throws: the guard tests
    [module], not [overrideStrings], and [Object.keys(null)] throws. *)
Example override_null_throws :
  bindRes (run [CLoad "testModule" {[ "firstKey" := "firstValue" ]}]) (override "testModule" None) = Throws.
Proof. vm_compute. reflexivity. Qed.

Definition app0 : option App := importStrings initManager.

Definition appAfter (evs : list AppEvent) : option App := app0 ≫= runApp evs.

Definition props5 : Pay.DistProps :=
  Pay.mkDistProps None (Some [Prelude.Fin 5%Q; Prelude.Fin 10%Q; Prelude.Fin 40%Q; Prelude.Fin 30%Q; Prelude.Fin 10%Q; Prelude.Fin 5%Q])
    (Pay.JNum (Prelude.Fin 10%Q)) (Pay.JNum (Prelude.Fin 100%Q)) false (Pay.JNum (Prelude.Fin 5%Q)) false.

Definition overrideBelow : StrObj :=
  {[ "below" := "Under"; "descriptionOutRange" := "{0} and {1} of us are" ]}.

(** A card mounted before an override keeps "Below" as its first axis
    label and position word, while its sentence takes the new template. *)
Example override_stale_labels :
  option_map (λ a, option_map (option_map (λ v, (option_map (map Pay.axisLabel) (Pay.viz v), Pay.description v)))
                     (renderCard a props5))
    (appAfter [Mount; Call (COverride distModuleName overrideBelow)])
  = Some (Some (Some (Some ["Below"; "Bottom"; "Middle"; "Top"; "Above"],
                      ("This employee and 5% of us are", " below ", "the range")))).
Proof. vm_compute. reflexivity. Qed.

(** A second [load] of the module is not seen by the card, which kept the
    first object. *)
Example reload_not_seen :
  option_map (λ a, (distStringsOf (mgr a) (cardStrings a) ≫= λ s, Some (Pay.below s),
                    lookupString (mgr a) distModuleName "below"))
    (appAfter [Call (CLoad distModuleName {[ "below" := "Under" ]})])
  = Some (Some "Below", Some "Under").
Proof. vm_compute. reflexivity. Qed.

Definition m1 : Manager :=
  match callStep (CLoad "testModule" {[ "firstKey" := "firstValue" ]}) initManager with Ok m => m | Throws => initManager end.

Lemma initManager_WF : WF initManager.
Proof.
  split; [reflexivity|]. split; [reflexivity|]. split; [intros k r E; discriminate E|].
  intros r [x E]. discriminate E.
Qed.

Lemma reachable_WF_witness :
  SMReach m1 /\ (WF m1 /\ forall c, safeCall c -> (callStep c m1 = Throws <-> callWritesFnReadOnly c m1 = true)).
Proof.
  assert (H : SMReach m1).
  { apply (SR_step (CLoad "testModule" {[ "firstKey" := "firstValue" ]}) initManager);
      [constructor | split; discriminate | vm_compute; reflexivity]. }
  split; [exact H | apply reachable_WF, H].
Defined.

(** [override('constructor', {name: 'x'})] writes the class's [name],
    which is not writable, and throws; so do [caller] of a builtin and
    [prototype] of the class, while a new key is added to the function
    and [load] is refused as a name before any write. *)
Example override_function_props :
  map (λ c, match callStep c initManager with Ok _ => true | Throws => false end)
    [COverride "constructor" {[ "name" := "x" ]}; COverride "toString" {[ "caller" := "x" ]};
     COverride "constructor" {[ "prototype" := "x" ]}; COverride "toString" {[ "prototype" := "x" ]};
     COverride "hasOwnProperty" {[ "label" := "x" ]}; COverride "load" {[ "length" := "x" ]}]
  = [false; false; false; true; true; true].
Proof. vm_compute. reflexivity. Qed.

(** [override(name, null)]: the guard tests the bundle's [module], not
    [overrideStrings], so a loaded module reaches [Object.keys(null)] and
    throws, while an unloaded one is a [load] of [null], which returns. *)
Example override_null :
  callOverride "testModule" None m1 = Throws /\ callOverride "otherModule" None m1 = Ok m1.
Proof. split; vm_compute; reflexivity. Qed.

Lemma load_poisons_witness :
  (WF initManager /\ ("__proto__" = "_isValidModuleName" \/ "__proto__" = "__proto__")) /\
  exists m', callStep (CLoad "__proto__" ∅) initManager = Ok m' /\ forall c, callStep c m' = Throws.
Proof.
  split; [split; [exact initManager_WF | right; reflexivity]|].
  apply load_poisons; [exact initManager_WF | right; reflexivity].
Defined.

Definition mountedApp : App :=
  match appAfter [Mount] with Some a => a | None => mkApp initManager VUndef None end.

Lemma override_keeps_cached_positions_witness :
  (WF (mgr mountedApp) /\ cardStrings mountedApp = VModule 0%N /\
   own (mgr mountedApp) !! distModuleName = Some 0%N /\
   posCache mountedApp = Some (Pay.positionStrings Pay.distStrings)) /\
  exists a', appStep (Call (COverride distModuleName overrideBelow)) mountedApp = Some a' /\
    posCache a' = Some (Pay.positionStrings Pay.distStrings) /\ cardStrings a' = VModule 0%N /\
    forall k, k ≠ "__proto__" ->
      (heap (mgr a') !! 0%N ≫= (.!! k)) = overrideBelow !! k ∪ (heap (mgr mountedApp) !! 0%N ≫= (.!! k)).
Proof.
  assert (Hw : WF (mgr mountedApp)).
  { assert (E : mgr mountedApp = match callStep (CLoad distModuleName distLiteral) initManager with
                                 Ok m => m | Throws => initManager end) by (vm_compute; reflexivity).
    rewrite E. pose proof (callStep_WF (CLoad distModuleName distLiteral) initManager initManager_WF
                             ltac:(split; discriminate)) as HW.
    destruct (callStep _ _); [apply HW | exact initManager_WF]. }
  assert (H : cardStrings mountedApp = VModule 0%N /\ own (mgr mountedApp) !! distModuleName = Some 0%N /\
              posCache mountedApp = Some (Pay.positionStrings Pay.distStrings))
    by (split; [|split]; vm_compute; reflexivity).
  destruct H as (H1 & H2 & H3).
  split; [split_and!; assumption|]. apply override_keeps_cached_positions; assumption.
Defined.

End SMTests.

End SM.
