(* ===== verification/HistoryUtils.v ===== *)
(** * Query strings: [parseQueryParams] of [src/src/HistoryUtils/index.ts]

      [parseQueryParams] (lines 40-67) splits the query at ['&'] and each
      piece at ['='], decodes the first two fields with
      [decodeURIComponent], and files the value under the key of a fresh
      object literal [params]: a first value as a string, later ones by
      turning the entry into an array and pushing onto it.

      [params] is a plain object, so [params[key]] also reads what its
      prototype chain holds: a member of [Object.prototype] for a key like
      [constructor], and the prototype itself for [__proto__], whose
      setter then replaces the prototype by the array the code assigns.
      After that, keys read that array's elements, its [length] and the
      members of [Array.prototype].  [Params] is the object: its own
      properties and its prototype ([None] for [Object.prototype],
      [Some xs] for an array with elements [xs]); [getProp] is the read
      along the chain and [setProp] the write with the [__proto__] setter.

      [decodeURIComponent] is a parameter returning [None] when it throws
      a [URIError]; the tests use [asciiDecode], its restriction to
      escapes of ASCII characters.  [parsePath] (lines 13-36), a regular
      expression match, is modelled in ParsePath.v over the matcher of
      Regex.v. *)

From stdpp Require Import base gmap strings list.
From Stdlib Require Import Ascii.
From S2P Require Import JsObject StringUtils.
Open Scope string_scope.
Local Set Warnings "-register-all".

Module QP.

(** A value [params] holds or reads: a string, an array, a builtin
    function, [Object.prototype], a number ([length]). *)
Inductive QVal : Type :=
| QStr (s : string)
| QArr (xs : list QVal)
| QFun (name : string)
| QObjectProto
| QNum (n : nat).

Record Params : Type := mkParams { own : gmap string QVal; proto : option (list QVal) }.

Definition emptyParams : Params := mkParams ∅ None.

(** The members of [Array.prototype] (ECMAScript 2019, 22.1.3). *)
Definition arrayProtoNames : list string :=
  ["concat"; "constructor"; "copyWithin"; "entries"; "every"; "fill"; "filter"; "find";
   "findIndex"; "flat"; "flatMap"; "forEach"; "includes"; "indexOf"; "join"; "keys";
   "lastIndexOf"; "map"; "pop"; "push"; "reduce"; "reduceRight"; "reverse"; "shift";
   "slice"; "some"; "sort"; "splice"; "toLocaleString"; "toString"; "unshift"; "values"].

(** [params[k]]; [None] is [undefined]. *)
Definition getProp (p : Params) (k : string) : option QVal :=
  if bool_decide (k = "__proto__") then
    Some (match proto p with None => QObjectProto | Some xs => QArr xs end)
  else
    match own p !! k with
    | Some v => Some v
    | None =>
        let objectMember :=
          if bool_decide (k ∈ objectProtoNames) then Some (QFun ("Object.prototype." +:+ k)) else None in
        match proto p with
        | None => objectMember
        | Some xs =>
            if bool_decide (k = "length") then Some (QNum (length xs))
            else if Tokens.isArrayIndex k then nth_error xs (N.to_nat (Tokens.digitsValue k))
            else if bool_decide (k ∈ arrayProtoNames) then Some (QFun ("Array.prototype." +:+ k))
            else objectMember
        end
    end.

(** [params[k] = v] for a string or an array [v]: the [__proto__] setter
    takes an array as the new prototype and ignores a string. *)
Definition setProp (p : Params) (k : string) (v : QVal) : Params :=
  if bool_decide (k = "__proto__") then
    match v with QArr xs => mkParams (own p) (Some xs) | _ => p end
  else mkParams (<[k := v]> (own p)) (proto p).

Section Parse.
Variable decodeURIComponent : string -> option string.

(** One round of the [for] loop (lines 48-63). *)
Definition addParam (p : Params) (paramStr : string) : option Params :=
  if bool_decide (paramStr = "") then Some p
  else
    let pair := splitOn "=" paramStr in
    key ← decodeURIComponent (nth 0 pair "");
    value ← decodeURIComponent (default "" (nth_error pair 1));
    match getProp p key with
    | Some existingValue =>
        let values := match existingValue with QArr xs => xs | v => [v] end in
        Some (setProp p key (QArr (values ++ [QStr value])))
    | None => Some (setProp p key (QStr value))
    end.

(** [queryString[0] === '?' ? queryString.substr(1) : queryString]. *)
Definition dropQuestionMark (q : string) : string :=
  match q with String "?" rest => rest | _ => q end.

(** [parseQueryParams(queryString)]; [None] for [null] or [undefined]. *)
Definition parseQueryParams (queryString : option string) : option Params :=
  match queryString with
  | None | Some "" => Some emptyParams
  | Some q => foldl (λ acc s, acc ≫= λ p, addParam p s) (Some emptyParams) (splitOn "&" (dropQuestionMark q))
  end.

End Parse.

(** ** Queries of plain keys *)

(** What [parseQueryParams] promises for a key: [None] when it does not
    occur, its value when it occurs once, the array of its values in
    order when it occurs more often. *)
Definition groupOf (k : string) (kvs : list (string * string)) : option QVal :=
  match map snd (filter (λ kv, bool_decide (kv.1 = k)) kvs) with
  | [] => None
  | [v] => Some (QStr v)
  | vs => Some (QArr (map QStr vs))
  end.

(** A query [?ek1=ev1&ek2=ev2...] of encoded pairs. *)
Definition buildQuery (ps : list (string * string)) : string :=
  "?" +:+ String.concat "&" (map (λ '(ek, ev), ek +:+ "=" +:+ ev) ps).

(** An encoded pair [(ek, ev)] of the pair [(k, v)]: each decodes, holds
    no separator, and the key is not a member of [Object.prototype]. *)
Definition plainPair (decode : string -> option string) (e kv : string * string) : Prop :=
  decode e.1 = Some kv.1 /\ decode e.2 = Some kv.2 /\
  splitOn "=" e.1 = [e.1] /\ splitOn "=" e.2 = [e.2] /\
  splitOn "&" e.1 = [e.1] /\ splitOn "&" e.2 = [e.2] /\ kv.1 ∉ objectProtoNames.

(** The entry after one more value [v]. *)
Definition upd (old : option QVal) (v : string) : QVal :=
  match old with None => QStr v | Some (QArr xs) => QArr (xs ++ [QStr v]) | Some x => QArr [x; QStr v] end.

Lemma groupOf_snoc k kvs k' v :
  groupOf k (kvs ++ [(k', v)]) = if bool_decide (k' = k) then Some (upd (groupOf k kvs) v) else groupOf k kvs.
Proof.
  unfold groupOf. rewrite filter_app. cbn. case_bool_decide; cbn; [|now rewrite app_nil_r].
  rewrite map_app. cbn. destruct (map snd _) as [|a [|b l]]; cbn; [reflexivity..|].
  now rewrite map_app.
Qed.

Lemma proto_name_plain k : k ∉ objectProtoNames -> k ≠ "__proto__".
Proof. intros Hk ->. apply Hk, proto_in_names. Qed.

Lemma addParam_plain decode p ek ev k v :
  proto p = None -> plainPair decode (ek, ev) (k, v) ->
  addParam decode p (ek +:+ "=" +:+ ev) = Some (mkParams (<[k := upd (own p !! k) v]> (own p)) None).
Proof.
  intros Hp (Dk & Dv & Ek & Ev & _ & _ & Hk). cbn [fst snd] in *.
  unfold addParam. rewrite bool_decide_false by (destruct ek; discriminate).
  change ("=" +:+ ev) with (String "=" ev). rewrite (Tokens.splitOn_sep "=" ek ev Ek), Ev. cbn.
  rewrite Dk, Dv. cbn. unfold getProp, setProp.
  rewrite !bool_decide_false by exact (proto_name_plain k Hk). rewrite Hp.
  destruct (own p !! k) as [[]|]; cbn; try reflexivity. now rewrite bool_decide_false by exact Hk.
Qed.

Lemma foldl_plain decode ps kvs p done :
  Forall2 (plainPair decode) ps kvs -> proto p = None -> (forall k, own p !! k = groupOf k done) ->
  exists p', foldl (λ acc s, acc ≫= λ p, addParam decode p s) (Some p) (map (λ '(ek, ev), ek +:+ "=" +:+ ev) ps)
               = Some p' /\ proto p' = None /\ forall k, own p' !! k = groupOf k (done ++ kvs).
Proof.
  intros H. revert p done. induction H as [|[ek ev] [k v] ps kvs Hpair _ IH]; intros p done Hp Ho.
  - exists p. split; [reflexivity|]. split; [exact Hp|]. intros k. now rewrite app_nil_r.
  - cbn [map foldl]. cbn [mbind option_bind]. rewrite (addParam_plain decode p ek ev k v Hp Hpair).
    destruct (IH (mkParams (<[k := upd (own p !! k) v]> (own p)) None) (done ++ [(k, v)])%list eq_refl) as (p' & E & Hp' & Ho').
    + intros k'. cbn [own]. rewrite groupOf_snoc, <- Ho. case_bool_decide as Hk.
      * subst. now rewrite lookup_insert_eq.
      * now rewrite lookup_insert_ne.
    + exists p'. split; [exact E|]. split; [exact Hp'|]. intros k'. now rewrite Ho', <- app_assoc.
Qed.

Lemma splitOn_keep c a d b :
  splitOn c a = [a] -> splitOn c b = [b] -> d ≠ c -> splitOn c (a +:+ String d b) = [a +:+ String d b].
Proof.
  intros Ha Hb Hd. rewrite (Tokens.splitOn_app c a _ Ha). cbn. rewrite Hb.
  destruct (Ascii.eqb_spec d c); [contradiction | reflexivity].
Qed.

(** C23: Parsing a query built from encoded pairs gives back the pairs:
    when every key and value decodes, holds no ['&'] or ['='], and no key
    is a member of [Object.prototype], [parseQueryParams] returns an
    object of plain prototype whose entry for each key is its value, or
    the array of its values in order when the key is repeated. *)
Theorem parse_roundtrip decode ps kvs :
  Forall2 (plainPair decode) ps kvs ->
  exists p, parseQueryParams decode (Some (buildQuery ps)) = Some p /\ proto p = None /\
    forall k, own p !! k = groupOf k kvs.
Proof.
  intros H. unfold parseQueryParams, buildQuery.
  match goal with |- context ["?" +:+ ?x] => change ("?" +:+ x) with (String "?" x) end.
  cbn [dropQuestionMark].
  destruct ps as [|e ps].
  - inversion H; subst. cbn. exists emptyParams. split; [reflexivity|]. split; [reflexivity|].
    intros k. reflexivity.
  - rewrite Tokens.splitOn_concat.
    + destruct (foldl_plain decode (e :: ps) kvs emptyParams [] H eq_refl ltac:(reflexivity))
        as (p' & E & Hp & Ho). exists p'. split; [exact E|]. split; [exact Hp | exact Ho].
    + discriminate.
    + apply Forall_map. clear -H. induction H as [|[ek ev] kv ps' kvs' Hp _ IH]; constructor; [|exact IH].
      destruct Hp as (_ & _ & _ & _ & Ek & Ev & _). cbn [fst snd] in Ek, Ev.
      change ("=" +:+ ev) with (String "=" ev). apply splitOn_keep; [exact Ek | exact Ev | discriminate].
Qed.

(** ** A [__proto__] key *)

Lemma arrayProto_not_index : Forall (λ n, Tokens.isArrayIndex n = false) arrayProtoNames.
Proof. unfold arrayProtoNames. repeat constructor. Qed.

(** One piece [ek=ev] whose fields decode, for any [params]. *)
Lemma addParam_piece decode p ek ev k v :
  decode ek = Some k -> decode ev = Some v -> splitOn "=" ek = [ek] -> splitOn "=" ev = [ev] ->
  addParam decode p (ek +:+ "=" +:+ ev) =
    Some (match getProp p k with
          | Some existingValue =>
              setProp p k (QArr (match existingValue with QArr xs => xs | v => [v] end ++ [QStr v]))
          | None => setProp p k (QStr v)
          end).
Proof.
  intros Dk Dv Ek Ev. unfold addParam. rewrite bool_decide_false by (destruct ek; discriminate).
  change ("=" +:+ ev) with (String "=" ev). rewrite (Tokens.splitOn_sep "=" ek ev Ek), Ev. cbn.
  rewrite Dk, Dv. cbn. now destruct (getProp p k).
Qed.

(** A [__proto__] parameter is never stored: [params['__proto__']]
    reads [Object.prototype], and assigning the array [[Object.prototype,
    value]] to it replaces the prototype of [params].  A following
    [length] parameter, or one named like a method of [Array.prototype],
    then reads that array's length or method and is stored as an array
    of it and its value, instead of its value. *)
Theorem proto_key_replaces_prototype decode ev v ek k v2 ev2 :
  decode "__proto__" = Some "__proto__" -> decode ev = Some v -> decode ek = Some k -> decode ev2 = Some v2 ->
  Forall (λ e, splitOn "=" e = [e] /\ splitOn "&" e = [e]) [ev; ek; ev2] ->
  (k = "length" \/ k ∈ arrayProtoNames) ->
  exists p x, parseQueryParams decode (Some (buildQuery [("__proto__", ev); (ek, ev2)])) = Some p /\
    own p !! "__proto__" = None /\ proto p = Some [QObjectProto; QStr v] /\
    own p !! k = Some (QArr [x; QStr v2]).
Proof.
  intros Dp Dv Dk Dv2 Hs Hk.
  inversion_clear Hs as [|e1 l1 [Ev Ev'] Hs1]; inversion_clear Hs1 as [|e2 l2 [Ek Ek'] Hs2];
    inversion_clear Hs2 as [|e3 l3 [Ev2 Ev2'] _].
  assert (Hkp : k ≠ "__proto__") by (destruct Hk as [-> | Hk]; [discriminate|];
    intros ->; unfold arrayProtoNames in Hk; repeat (apply elem_of_cons in Hk as [Hk|Hk]; [discriminate|]);
    apply elem_of_nil in Hk; exact Hk).
  unfold parseQueryParams, buildQuery.
  match goal with |- context ["?" +:+ ?x] => change ("?" +:+ x) with (String "?" x) end.
  cbn [dropQuestionMark map]. rewrite Tokens.splitOn_concat.
  2:{ discriminate. }
  2:{ repeat constructor; change ("=" +:+ ?e) with (String "=" e); apply splitOn_keep;
        first [reflexivity | assumption | discriminate]. }
  cbn [foldl mbind option_bind]. rewrite (addParam_piece decode _ "__proto__" ev "__proto__" v Dp Dv eq_refl Ev).
  unfold getProp at 1. rewrite bool_decide_true by reflexivity. cbn [proto emptyParams app].
  unfold setProp at 1. rewrite bool_decide_true by reflexivity. cbn [own emptyParams mbind option_bind].
  rewrite (addParam_piece decode _ ek ev2 k v2 Dk Dv2 Ek Ev2).
  unfold getProp, setProp. rewrite !bool_decide_false by exact Hkp. cbn [own proto].
  rewrite lookup_empty.
  assert (Hx : exists x, (if bool_decide (k = "length") then Some (QNum (length [QObjectProto; QStr v]))
           else if Tokens.isArrayIndex k then nth_error [QObjectProto; QStr v] (N.to_nat (Tokens.digitsValue k))
           else if bool_decide (k ∈ arrayProtoNames) then Some (QFun ("Array.prototype." +:+ k))
           else if bool_decide (k ∈ objectProtoNames) then Some (QFun ("Object.prototype." +:+ k)) else None)
           = Some x /\ match x with QArr _ => False | _ => True end).
  { destruct Hk as [-> | Hk]; [eexists; split; [reflexivity | exact I]|].
    rewrite bool_decide_false by (intros ->; unfold arrayProtoNames in Hk;
      repeat (apply elem_of_cons in Hk as [Hk|Hk]; [discriminate|]); apply elem_of_nil in Hk; exact Hk).
    rewrite (proj1 (Forall_forall _ _) arrayProto_not_index k Hk).
    rewrite bool_decide_true by exact Hk. eexists; split; [reflexivity | exact I]. }
  destruct Hx as (x & Ex & Hxa). cbv zeta. rewrite Ex.
  destruct x; try contradiction; eexists _, _; split; try reflexivity; cbn [own proto];
    (split; [rewrite lookup_insert_ne by (intros E; apply Hkp; congruence); apply lookup_empty|]);
    (split; [reflexivity | apply lookup_insert_eq]).
Qed.

(** ** Tests *)

Module QPTests.

Definition hexValue (c : ascii) : option nat :=
  let n := nat_of_ascii c in
  if Nat.leb 48 n && Nat.leb n 57 then Some (n - 48)%nat
  else if Nat.leb 65 n && Nat.leb n 70 then Some (n - 55)%nat
  else if Nat.leb 97 n && Nat.leb n 102 then Some (n - 87)%nat
  else None.

(** [decodeURIComponent] on escapes of ASCII characters; another escape
    or a malformed one gives [None]. *)
Fixpoint asciiDecode (s : string) : option string :=
  match s with
  | EmptyString => Some EmptyString
  | String "%" (String h (String l rest)) =>
      hi ← hexValue h; lo ← hexValue l;
      if Nat.ltb (16 * hi + lo) 128 then r ← asciiDecode rest; Some (String (ascii_of_nat (16 * hi + lo)) r)
      else None
  | String "%" _ => None
  | String c rest => r ← asciiDecode rest; Some (String c r)
  end.

Definition parse (q : string) : option Params := parseQueryParams asciiDecode (Some q).

Definition ownOf (q : string) (k : string) : option QVal := parse q ≫= λ p, own p !! k.

(** The scenarios of [historyUtils.spec.ts]. *)
Example parse_spec :
  parseQueryParams asciiDecode None = Some emptyParams /\ parse "" = Some emptyParams /\
  parse "?" = Some emptyParams /\
  ownOf "?foo=bar" "foo" = Some (QStr "bar") /\
  ownOf "?foo=bar&key2=value2" "key2" = Some (QStr "value2") /\
  ownOf "?foo=" "foo" = Some (QStr "") /\
  ownOf "?foo=foo%20bar" "foo" = Some (QStr "foo bar") /\
  ownOf "?foo=bar&foo=value2" "foo" = Some (QArr [QStr "bar"; QStr "value2"]).
Proof. vm_compute. repeat split. Qed.

(** A value with an ['='] loses everything from its second ['=']. *)
Example value_truncated : ownOf "?token=abc==" "token" = Some (QStr "abc").
Proof. vm_compute. reflexivity. Qed.

(** [constructor] reads [Object.prototype.constructor]: its value becomes
    an array holding that function. *)
Example constructor_key :
  ownOf "?constructor=x" "constructor" = Some (QArr [QFun "Object.prototype.constructor"; QStr "x"]).
Proof. vm_compute. reflexivity. Qed.

(** [__proto__] replaces the prototype: no own property is made, and a
    later [length] key reads the array's length. *)
Example proto_key :
  parse "?__proto__=x&length=5" =
    Some (mkParams {[ "length" := QArr [QNum 2; QStr "5"] ]} (Some [QObjectProto; QStr "x"])).
Proof. vm_compute. reflexivity. Qed.

(** A malformed escape throws a [URIError]. *)
Example bad_escape : parse "?a=%E" = None.
Proof. vm_compute. reflexivity. Qed.

Definition pairs1 : list (string * string) := [("foo", "bar"); ("foo", "value2"); ("q", "a%20b")].
Definition decoded1 : list (string * string) := [("foo", "bar"); ("foo", "value2"); ("q", "a b")].

Lemma parse_roundtrip_witness :
  Forall2 (plainPair asciiDecode) pairs1 decoded1 /\
  exists p, parseQueryParams asciiDecode (Some (buildQuery pairs1)) = Some p /\ proto p = None /\
    forall k, own p !! k = groupOf k decoded1.
Proof.
  assert (H : Forall2 (plainPair asciiDecode) pairs1 decoded1).
  { repeat constructor; try reflexivity; apply not_proto_name; reflexivity. }
  split; [exact H | apply parse_roundtrip, H].
Defined.

Lemma proto_key_replaces_prototype_witness :
  (asciiDecode "__proto__" = Some "__proto__" /\ asciiDecode "x" = Some "x" /\
   asciiDecode "length" = Some "length" /\ asciiDecode "5" = Some "5" /\
   Forall (λ e, splitOn "=" e = [e] /\ splitOn "&" e = [e]) ["x"; "length"; "5"] /\
   ("length" = "length" \/ "length" ∈ arrayProtoNames)) /\
  exists p x, parseQueryParams asciiDecode (Some (buildQuery [("__proto__", "x"); ("length", "5")])) = Some p /\
    own p !! "__proto__" = None /\ proto p = Some [QObjectProto; QStr "x"] /\
    own p !! "length" = Some (QArr [x; QStr "5"]).
Proof.
  assert (H : Forall (λ e, splitOn "=" e = [e] /\ splitOn "&" e = [e]) ["x"; "length"; "5"])
    by (repeat constructor).
  split; [split_and!; first [reflexivity | exact H | left; reflexivity]|].
  apply proto_key_replaces_prototype; first [reflexivity | exact H | left; reflexivity].
Defined.

End QPTests.

End QP.
