(* ===== verification/ArrayUtils.v ===== *)
(** * Array helpers: [src/src/ArrayUtils/index.ts]

      [isArrayNullOrEmpty] (lines 2-4) and [arrayToDictionary] (lines
      10-22), which files every item of an array under [getKey(item)], or
      under its index [i.toString()], in a fresh object literal [dict].
      Each [dict[key] = item] is the strict-mode [[Set]] ([dictSet]): an
      own property is overwritten; otherwise what the prototype chain
      holds at [key] decides.  The literal's prototype is
      [Object.prototype], whose [__proto__] accessor takes an object or
      [null] item as the new prototype and ignores any other value; an
      item installed so brings its own chain, which may hold read-only
      properties (the write throws), setters (the item's code is called,
      and the model stops there), or no [Object.prototype] at all (a
      later [__proto__] is then an own property).  What an item is and
      holds is the class [JsItem]; [DictRes] is how the loop ends.

      [i.toString()] is [showZ] (CurrencyUtils.v); the index it names is
      read back by [digitsValue] (StringUtils.v). *)

From stdpp Require Import base gmap strings list.
From Stdlib Require Import ZArith Ascii Lia.
From S2P Require Import Prelude JsObject StringUtils CurrencyUtils.
Open Scope string_scope.

Module AU.

(** What a value of the array is, as [dict[key] = item] sees it. *)
Inductive Kind : Type := KPrim | KNull | KObj.

#[export] Instance Kind_eq_dec : EqDecision Kind.
Proof. solve_decision. Defined.

(** What the assignment [o[key] = v] meets on an object of [dict]'s
    prototype chain, before [Object.prototype]: nothing, a data property
    (writable or not) or an accessor with a setter. *)
Inductive Found : Type := FNone | FData (writable : bool) | FSetter.

(** The items of the array as JavaScript values: their kind, what an
    object item or its own chain holds at a key, and whether
    [Object.prototype] is on its chain (it is not for
    [Object.create(null)]). *)
Class JsItem (T : Type) := {
  kind : T -> Kind;
  found : T -> string -> Found;
  reachesObjectProto : T -> bool
}.

Section Dict.
Context {T : Type} {JI : JsItem T}.

(** [isArrayNullOrEmpty(arr)]; [None] is [null] or [undefined]. *)
Definition isArrayNullOrEmpty (arr : option (list T)) : bool :=
  match arr with None | Some [] => true | Some _ => false end.

(** The prototype of [dict]: [Object.prototype] for the literal [{}],
    [null], or an item the [__proto__] setter installed. *)
Inductive ProtoV : Type := PObjectProto | PNull | PItem (x : T).

Record Dict : Type := mkDict { dOwn : gmap string T; dProto : ProtoV }.

(** The literal [{}]. *)
Definition emptyDict : Dict := mkDict ∅ PObjectProto.

(** What the loop ends in: the dictionary, a [TypeError] (strict mode),
    or a call of a setter of an item, whose code is the caller's and is
    not followed; the dictionary and the write are those of the call. *)
Inductive DictRes : Type :=
| DOk (d : Dict)
| DThrows
| DSetter (d : Dict) (key : string) (item : T).

(** What the [[Set]] of [key] finds on [dict]'s prototype chain:
    [Object.prototype]'s [__proto__] accessor, or one of its other
    members, writable data that an assignment shadows. *)
Inductive Meets : Type := MNone | MData (writable : bool) | MSetter | MProtoSetter.

Definition chainMeets (p : ProtoV) (key : string) : Meets :=
  let objectProto := if bool_decide (key = "__proto__") then MProtoSetter else MNone in
  match p with
  | PObjectProto => objectProto
  | PNull => MNone
  | PItem x =>
      match found x key with
      | FNone => if reachesObjectProto x then objectProto else MNone
      | FData w => MData w
      | FSetter => MSetter
      end
  end.

(** [dict[key] = item] in strict mode: an own property is overwritten;
    else the chain decides: nothing or writable data adds an own
    property, read-only data throws, a setter is called, and the
    [__proto__] setter installs an object or [null] as the prototype and
    ignores any other value. *)
Definition dictSet (d : Dict) (key : string) (item : T) : DictRes :=
  let addOwn := DOk (mkDict (<[key := item]> (dOwn d)) (dProto d)) in
  match dOwn d !! key with
  | Some _ => addOwn
  | None =>
      match chainMeets (dProto d) key with
      | MNone => addOwn
      | MData w => if w then addOwn else DThrows
      | MSetter => DSetter d key item
      | MProtoSetter =>
          match kind item with
          | KObj => DOk (mkDict (dOwn d) (PItem item))
          | KNull => DOk (mkDict (dOwn d) PNull)
          | KPrim => DOk d
          end
      end
  end.

(** [i.toString()]. *)
Definition indexKey (i : nat) : string := Currency.showZ (Z.of_nat i).

(** [const key = getKey ? getKey(item) : i.toString()]. *)
Definition keyOf (getKey : option (T -> string)) (i : nat) (item : T) : string :=
  match getKey with Some g => g item | None => indexKey i end.

(** One call of the [forEach] callback: [dict[key] = item]; a throw or a
    setter call ends the model's loop. *)
Definition dictStep (getKey : option (T -> string)) (r : DictRes) (p : nat * T) : DictRes :=
  match r with
  | DOk d => dictSet d (keyOf getKey p.1 p.2) p.2
  | _ => r
  end.

(** [arrayToDictionary(arr, getKey)]. *)
Definition arrayToDictionary (arr : option (list T)) (getKey : option (T -> string)) : DictRes :=
  match arr with
  | None => DOk emptyDict
  | Some l => foldl (dictStep getKey) (DOk emptyDict) (zip (seq 0 (length l)) l)
  end.

(** ** [i.toString()] and its value *)

Lemma indexKey_value i : Tokens.digitsValue (indexKey i) = N.of_nat i.
Proof.
  unfold indexKey. rewrite Currency.showZ_value; lia.
Qed.

Lemma indexKey_inj i j : indexKey i = indexKey j -> i = j.
Proof. intros E. apply Nat2N.inj. rewrite <- !indexKey_value. now f_equal. Qed.

Lemma indexKey_not_proto i : indexKey i <> "__proto__".
Proof.
  unfold indexKey. destruct (Currency.showZ_head (Z.of_nat i)) as (d & s & Hd & ->); [lia|].
  intros [= Hc _]. apply (f_equal N_of_ascii) in Hc.
  rewrite Currency.digitChar_value in Hc by exact Hd. cbn in Hc. lia.
Qed.

(** ** One write [dict[key] = item] *)

(** An object item that, as prototype, leaves every later write as on
    [{}]: [Object.prototype] on its chain, no setter nor read-only
    property, and no [__proto__] of its own chain to shadow the accessor. *)
Definition plainObj (x : T) : Prop :=
  kind x = KObj /\ reachesObjectProto x = true /\ found x "__proto__" = FNone /\
  forall k, found x k = FNone \/ found x k = FData true.

Definition plainProto (p : ProtoV) : Prop :=
  match p with PObjectProto => True | PItem x => plainObj x | PNull => False end.

(** An item that [dict.__proto__ = item] may meet: a primitive, which the
    setter ignores, or a plain object; not [null]. *)
Definition protoSafe (x : T) : Prop := kind x = KPrim \/ plainObj x.

(** [dict[key] = item] on such a dictionary: the object literal's own
    properties and its [__proto__] setter. *)
Definition plainSet (d : Dict) (key : string) (x : T) : Dict :=
  if bool_decide (key = "__proto__") then
    match kind x with KObj => mkDict (dOwn d) (PItem x) | _ => d end
  else mkDict (<[key := x]> (dOwn d)) (dProto d).

Definition plainStep (getKey : option (T -> string)) (d : Dict) (p : nat * T) : Dict :=
  plainSet d (keyOf getKey p.1 p.2) p.2.

Definition plainDict (d : Dict) : Prop := plainProto (dProto d) /\ dOwn d !! "__proto__" = None.

Lemma dictSet_plain d key x :
  plainDict d -> (key = "__proto__" -> protoSafe x) -> dictSet d key x = DOk (plainSet d key x).
Proof.
  intros [Hp Ho] Hs. unfold dictSet, plainSet. case_bool_decide as Hk.
  - subst key. rewrite Ho. destruct (Hs eq_refl) as [Hx | (Hx & _)];
      (destruct (dProto d) as [| |y]; [|contradiction|
       destruct Hp as (_ & Hr & Hf & _); cbn; rewrite Hf, Hr]; cbn; rewrite Hx; now destruct d).
  - destruct (dOwn d !! key); [reflexivity|]. destruct (dProto d) as [| |y]; cbn.
    + now rewrite bool_decide_false.
    + reflexivity.
    + destruct Hp as (_ & Hr & _ & Hf). destruct (Hf key) as [-> | ->]; [|reflexivity].
      rewrite Hr. now rewrite bool_decide_false.
Qed.

Lemma plainSet_plain d key x :
  plainDict d -> (key = "__proto__" -> protoSafe x) -> plainDict (plainSet d key x).
Proof.
  intros [Hp Ho] Hs. unfold plainSet. case_bool_decide as Hk.
  - destruct (kind x) eqn:E; try (split; assumption). split; [|exact Ho].
    destruct (Hs Hk) as [E' | Hx]; [congruence | exact Hx].
  - split; [exact Hp|]. cbn. now rewrite lookup_insert_ne by congruence.
Qed.

Lemma plainSet_lookup d key x k :
  k <> "__proto__" ->
  dOwn (plainSet d key x) !! k = if bool_decide (key = k) then Some x else dOwn d !! k.
Proof.
  intros Hk. unfold plainSet. case_bool_decide as Hp.
  - subst. rewrite bool_decide_false by congruence. now destruct (kind x).
  - cbn. case_bool_decide; [subst; apply lookup_insert_eq|]. now rewrite lookup_insert_ne.
Qed.

Lemma plainSet_proto d key x :
  dProto (plainSet d key x) =
    if bool_decide (key = "__proto__" /\ kind x = KObj) then PItem x else dProto d.
Proof.
  unfold plainSet. case_bool_decide as Hk; cbn.
  - destruct (kind x) eqn:E; [rewrite bool_decide_false by naive_solver; reflexivity
    | rewrite bool_decide_false by naive_solver; reflexivity | now rewrite bool_decide_true].
  - rewrite bool_decide_false by naive_solver. reflexivity.
Qed.

Lemma plainSet_keys d key x k v :
  dOwn (plainSet d key x) !! k = Some v -> dOwn d !! k = Some v \/ key = k.
Proof.
  unfold plainSet. case_bool_decide; [destruct (kind x); auto|].
  cbn. rewrite lookup_insert_Some. intros [[-> _] | [_ H']]; auto.
Qed.

(** ** The [forEach] loop *)

(** While every item filed under [__proto__] is safe, the loop runs as
    on the object literal. *)
Lemma foldl_dictStep_plain getKey ps d :
  plainDict d -> Forall (λ p, keyOf getKey p.1 p.2 = "__proto__" -> protoSafe p.2) ps ->
  foldl (dictStep getKey) (DOk d) ps = DOk (foldl (plainStep getKey) d ps).
Proof.
  revert d; induction ps as [|p ps IH]; intros d Hd Hs; [reflexivity|].
  apply Forall_cons in Hs as [Hp Hs]. cbn [foldl dictStep].
  rewrite dictSet_plain by assumption. apply IH; [now apply plainSet_plain | exact Hs].
Qed.

Lemma foldl_plainStep_keys getKey ps d k v :
  dOwn (foldl (plainStep getKey) d ps) !! k = Some v ->
  dOwn d !! k = Some v \/ exists p, p ∈ ps /\ keyOf getKey p.1 p.2 = k.
Proof.
  revert d; induction ps as [|p ps IH]; intros d H; cbn in H; [auto|].
  destruct (IH _ H) as [H' | (q & Hq & Hk)].
  - destruct (plainSet_keys _ _ _ _ _ H') as [? | ?]; [auto|].
    right. exists p. split; [apply list_elem_of_here | assumption].
  - right. exists q. split; [apply list_elem_of_further|]; assumption.
Qed.

Lemma foldl_zip_seq g s l d :
  foldl (plainStep (Some g)) d (zip (seq s (length l)) l) = foldl (λ d x, plainSet d (g x) x) d l.
Proof. revert s d; induction l as [|x l IH]; intros s d; cbn; [reflexivity|]. apply IH. Qed.

Lemma Forall_zip_seq (P : T -> Prop) s l :
  Forall P l -> Forall (λ p, P p.2) (zip (seq s (length l)) l).
Proof.
  revert s; induction l as [|x l IH]; intros s Hl; cbn; [constructor|].
  apply Forall_cons in Hl as [Hx Hl]. constructor; [exact Hx | now apply IH].
Qed.

Section ByKey.
Variable g : T -> string.

Lemma foldl_getKey_own l d k :
  k <> "__proto__" ->
  dOwn (foldl (λ d x, plainSet d (g x) x) d l) !! k =
    match last (filter (λ x, g x = k) l) with Some v => Some v | None => dOwn d !! k end.
Proof.
  intros Hk. revert d; induction l as [|x l IH]; intros d; cbn [foldl]; [reflexivity|].
  rewrite IH, filter_cons. case_decide as Hx.
  - rewrite last_cons. destruct (last _); [reflexivity|].
    rewrite plainSet_lookup, bool_decide_true; auto.
  - destruct (last _); [reflexivity|]. rewrite plainSet_lookup, bool_decide_false; auto.
Qed.

Lemma foldl_getKey_proto l d :
  dProto (foldl (λ d x, plainSet d (g x) x) d l) =
    match last (filter (λ x, g x = "__proto__" /\ kind x = KObj) l) with
    | Some v => PItem v | None => dProto d end.
Proof.
  revert d; induction l as [|x l IH]; intros d; cbn [foldl]; [reflexivity|].
  rewrite IH, filter_cons, plainSet_proto. case_decide as Hx.
  - rewrite last_cons. destruct (last _); [reflexivity|]. now rewrite bool_decide_true.
  - destruct (last _); [reflexivity|]. now rewrite bool_decide_false.
Qed.

Lemma foldl_getKey_plain l d :
  plainDict d -> Forall (λ x, g x = "__proto__" -> protoSafe x) l ->
  plainDict (foldl (λ d x, plainSet d (g x) x) d l).
Proof.
  revert d; induction l as [|x l IH]; intros d Hd Hs; cbn [foldl]; [exact Hd|].
  apply Forall_cons in Hs as [Hx Hs]. apply IH; [now apply plainSet_plain | exact Hs].
Qed.

End ByKey.

Lemma foldl_index_lookup l s d j :
  dOwn (foldl (plainStep None) d (zip (seq s (length l)) l)) !! indexKey j =
    match (if decide (s <= j) then l !! (j - s) else None) with
    | Some v => Some v | None => dOwn d !! indexKey j end.
Proof.
  revert s d; induction l as [|x l IH]; intros s d; cbn.
  { now destruct (decide (s <= j)). }
  rewrite IH. unfold plainStep, keyOf; cbn.
  rewrite plainSet_lookup by apply indexKey_not_proto.
  destruct (decide (j = s)) as [-> | Hne].
  - rewrite (decide_False (P := S s <= s)), (decide_True (P := s <= s)), Nat.sub_diag
      by lia. now rewrite bool_decide_true.
  - rewrite bool_decide_false by (intros E; apply Hne; symmetry; now apply indexKey_inj).
    destruct (decide (S s <= j)); [rewrite (decide_True (P := s <= j)) by lia
      | rewrite (decide_False (P := s <= j)) by lia]; [|reflexivity].
    replace (j - s) with (S (j - S s)) by lia. reflexivity.
Qed.

Lemma foldl_index_proto l s d :
  dProto (foldl (plainStep None) d (zip (seq s (length l)) l)) = dProto d.
Proof.
  revert s d; induction l as [|x l IH]; intros s d; cbn; [reflexivity|].
  rewrite IH. unfold plainStep, keyOf; cbn. rewrite plainSet_proto, bool_decide_false; [reflexivity|].
  intros [E _]. exact (indexKey_not_proto _ E).
Qed.

Lemma emptyDict_plain : plainDict emptyDict.
Proof. split; [exact I | apply lookup_empty]. Qed.

(** ** The dictionary [arrayToDictionary] builds *)

(** Without [getKey], the loop completes whatever the items: the
    dictionary maps the key [i.toString()] to the [i]-th item, for every
    index [i] (and nothing for an index past the end); every key it has
    reads back, by its decimal value, as the index of the item under it,
    and its prototype is [Object.prototype]. *)
Theorem arrayToDictionary_index l :
  exists d, arrayToDictionary (Some l) None = DOk d /\
  dProto d = PObjectProto /\ (forall i, dOwn d !! indexKey i = l !! i) /\
  (forall k v, dOwn d !! k = Some v ->
     indexKey (N.to_nat (Tokens.digitsValue k)) = k /\ l !! N.to_nat (Tokens.digitsValue k) = Some v).
Proof.
  cbn [arrayToDictionary]. rewrite foldl_dictStep_plain; [eexists; split; [reflexivity|]|apply emptyDict_plain|].
  2:{ apply Forall_forall. intros p _ E. destruct (indexKey_not_proto _ E). }
  split; [apply foldl_index_proto|].
  assert (Hi : forall i, dOwn (foldl (plainStep None) emptyDict (zip (seq 0 (length l)) l)) !! indexKey i = l !! i).
  { intros i. rewrite foldl_index_lookup, decide_True, Nat.sub_0_r by lia.
    destruct (l !! i); [reflexivity|apply lookup_empty]. }
  split; [exact Hi|]. intros k v Hk.
  destruct (foldl_plainStep_keys _ _ _ _ _ Hk) as [H0 | ((i, x) & _ & <-)];
    [cbn in H0; rewrite lookup_empty in H0; discriminate|].
  cbn. rewrite indexKey_value, Nat2N.id. split; [reflexivity|]. now rewrite <- Hi.
Qed.

(** C25: With [getKey], as long as every item filed under [__proto__] is
    a primitive or a plain object (one whose chain reaches
    [Object.prototype] and holds no setter, no read-only property and no
    [__proto__] of its own), the loop completes: a key other than
    [__proto__] maps to the last item [getKey] files under it (a later
    item replaces an earlier one); no item is an own [__proto__]
    property: the last object item filed under [__proto__] becomes the
    dictionary's prototype, and a primitive one is dropped. *)
Theorem arrayToDictionary_getKey l g :
  Forall (λ x, g x = "__proto__" -> protoSafe x) l ->
  exists d, arrayToDictionary (Some l) (Some g) = DOk d /\
  (forall k, k <> "__proto__" -> dOwn d !! k = last (filter (λ x, g x = k) l)) /\
  dOwn d !! "__proto__" = None /\
  dProto d = match last (filter (λ x, g x = "__proto__" /\ kind x = KObj) l) with
             | Some x => PItem x | None => PObjectProto end.
Proof.
  intros Hs. cbn [arrayToDictionary].
  rewrite foldl_dictStep_plain by (apply emptyDict_plain || exact (Forall_zip_seq _ 0 l Hs)).
  rewrite foldl_zip_seq. eexists; split; [reflexivity|]. split; [|split].
  - intros k Hk. rewrite foldl_getKey_own by exact Hk. now destruct (last _).
  - apply (foldl_getKey_plain g l emptyDict emptyDict_plain Hs).
  - rewrite foldl_getKey_proto. now destruct (last _).
Qed.

(** Once [null] or an object off [Object.prototype]'s chain is the
    prototype, nothing intercepts [__proto__] any more: the next item
    filed under it becomes an own property. *)
Lemma dictSet_proto_own d y :
  dOwn d !! "__proto__" = None ->
  (dProto d = PNull \/ exists x, dProto d = PItem x /\ found x "__proto__" = FNone /\ reachesObjectProto x = false) ->
  dictSet d "__proto__" y = DOk (mkDict (<[ "__proto__" := y ]> (dOwn d)) (dProto d)).
Proof.
  intros Ho Hp. unfold dictSet. rewrite Ho.
  destruct Hp as [-> | (x & -> & Hf & Hr)]; cbn; [reflexivity|]. now rewrite Hf, Hr.
Qed.

End Dict.

Module AUTests.

(** Items: a primitive, [null], or an object with its name, whether it
    was made by [Object.create(null)], and what its chain holds. *)
Inductive Item : Type :=
| Prim (s : string)
| Null
| Obj (s : string) (nullProto : bool) (props : list (string * Found)).

Definition foundIn (ps : list (string * Found)) (k : string) : Found :=
  match list_find (λ p, p.1 = k) ps with Some (_, (_, f)) => f | None => FNone end.

#[export] Instance Item_JsItem : JsItem Item := {
  kind i := match i with Prim _ => KPrim | Null => KNull | Obj _ _ _ => KObj end;
  found i k := match i with Obj _ _ ps => foundIn ps k | _ => FNone end;
  reachesObjectProto i := match i with Obj _ b _ => negb b | _ => false end
}.

(** A [getKey] that files [null] under [__proto__]. *)
Definition name (i : Item) : string := match i with Prim s | Obj s _ _ => s | Null => "__proto__" end.

Definition plain (s : string) : Item := Obj s false [].

Definition ownAt (r : DictRes) (k : string) : option Item :=
  match r with DOk d => dOwn d !! k | _ => None end.

Example null_is_empty : isArrayNullOrEmpty (T := Item) None = true /\ isArrayNullOrEmpty (Some [Prim "a"]) = false.
Proof. split; reflexivity. Qed.

Example index_keys : ownAt (arrayToDictionary (Some [Prim "a"; Prim "b"]) None) "1" = Some (Prim "b").
Proof. reflexivity. Qed.

Example later_item_wins : ownAt (arrayToDictionary (Some [Prim "a"; plain "a"]) (Some name)) "a" = Some (plain "a").
Proof. reflexivity. Qed.

(** A primitive item filed under [__proto__] is lost. *)
Example proto_primitive_lost : arrayToDictionary (Some [Prim "__proto__"]) (Some name) = DOk emptyDict.
Proof. reflexivity. Qed.

(** An object item filed under [__proto__] becomes the prototype. *)
Example proto_object_prototype :
  arrayToDictionary (Some [plain "__proto__"]) (Some name) = DOk (mkDict ∅ (PItem (plain "__proto__"))).
Proof. reflexivity. Qed.

(** [null], then [Object.create(null)], filed under [__proto__]: each
    turns off the setter, and the next such item is an own property. *)
Example proto_null_then_own :
  arrayToDictionary (Some [Null; plain "__proto__"]) (Some name)
  = DOk (mkDict {[ "__proto__" := plain "__proto__" ]} PNull) /\
  ownAt (arrayToDictionary (Some [Obj "__proto__" true []; plain "__proto__"]) (Some name)) "__proto__"
  = Some (plain "__proto__").
Proof. split; reflexivity. Qed.

(** An object made prototype with a read-only [a] makes a later item
    under [a] throw; with a setter [a], the item is handed to it. *)
Example proto_readonly_setter :
  arrayToDictionary (Some [Obj "__proto__" false [("a", FData false)]; Prim "a"]) (Some name) = DThrows /\
  arrayToDictionary (Some [Obj "__proto__" false [("a", FSetter)]; Prim "a"]) (Some name)
  = DSetter (mkDict ∅ (PItem (Obj "__proto__" false [("a", FSetter)]))) "a" (Prim "a").
Proof. split; reflexivity. Qed.

Lemma arrayToDictionary_index_witness :
  ownAt (arrayToDictionary (Some [Prim "a"; Prim "b"]) None) (indexKey 1) = Some (Prim "b").
Proof.
  destruct (arrayToDictionary_index [Prim "a"; Prim "b"]) as (d & -> & _ & H & _).
  cbn [ownAt]. rewrite H. reflexivity.
Defined.

Definition protoWithA : Item := Obj "__proto__" false [("a", FData true)].

Lemma arrayToDictionary_getKey_witness :
  Forall (λ x, name x = "__proto__" -> protoSafe x) [protoWithA; Prim "a"] /\
  ownAt (arrayToDictionary (Some [protoWithA; Prim "a"]) (Some name)) "a" = Some (Prim "a").
Proof.
  assert (Hs : Forall (λ x, name x = "__proto__" -> protoSafe x) [protoWithA; Prim "a"]).
  { constructor; [|constructor; [intros E; discriminate E | constructor]].
    intros _. right. split_and!; [reflexivity..|].
    intros k. cbn. unfold foundIn. cbn. case_decide; auto. }
  split; [exact Hs|].
  destruct (arrayToDictionary_getKey [protoWithA; Prim "a"] name Hs) as (d & -> & H1 & _).
  cbn [ownAt]. rewrite H1 by discriminate. reflexivity.
Defined.

End AUTests.

End AU.
