(* ===== verification/AnimationFx.v ===== *)
(** * The animation manager in a host window, with callbacks that may throw

      [src/src/AnimationUtils/AnimationManager/index.ts] as Animation.v
      models it, but over any host: a world [W] that holds the manager
      ([getMgr], [setMgr]) and the window's animation frames ([request],
      [cancel]), the [FrameHost] interface.  The callbacks [onUpdate] and
      [onComplete] of an animation are effects on the host, [effect],
      which fail ([None]) when the callback throws.

      A throw inside [_updateAnimations] leaves the [forEach] and the
      method at once: the frame it requested stays pending, and
      [this._animations] keeps every animation, the ones that completed
      before the throw included.  [Fx] records it: [Throw w] is the world
      when the exception left the method.

      [updateAnimations_refines] shows that with callbacks that log and
      never throw, the manager of any host is the one of Animation.v. *)

From Stdlib Require Import QArith ZArith List Lia.
From S2P Require Import Prelude Animation.
Import ListNotations.

Module AnimFx.

(** What the manager needs of its host. *)
Class FrameHost (W : Type) : Type := {
  getMgr : W -> Anim.Manager;
  setMgr : Anim.Manager -> W -> W;
  request : W -> Z * W;            (* [window.requestAnimationFrame(this._updateCallback)] *)
  cancel : Z -> W -> W             (* [window.cancelAnimationFrame(id)] *)
}.

(** The laws the theorems use: the manager is a field of the host, which
    the window's frames do not touch. *)
Class FrameHostLaws (W : Type) `{FrameHost W} : Prop := {
  get_set m w : getMgr (setMgr m w) = m;
  request_mgr w : getMgr (snd (request w)) = getMgr w;
  cancel_mgr id w : getMgr (cancel id w) = getMgr w
}.

Section Fx.
Context {W : Type} `{FrameHost W}.
Variable sinHalfPi cosPi : num -> num.
(** Calling [onUpdate(value)] ([Updated]) or [onComplete()]
    ([Completed]) of the animation with that tag. *)
Variable effect : Anim.Output -> W -> option W.

Inductive Fx (A : Type) : Type :=
| Ret (a : A)
| Throw (w : W).
Arguments Ret {A} a.
Arguments Throw {A} w.

(** [_addAnimation] (lines 36-45). *)
Definition addAnimation (a : Anim.Animation) (w : W) : W :=
  let m := getMgr w in
  let w := setMgr (Anim.mkManager (Anim.animations m ++ [a]) (Anim.requestId m)) w in
  if Z.eqb (Anim.requestId m) 0 then
    let '(id, w) := request w in setMgr (Anim.mkManager (Anim.animations (getMgr w)) id) w
  else w.

(** [createAnimation] (lines 16-34) at time [now]. *)
Definition createAnimation (now : Q) (s : Anim.AnimSpec) (w : W) : W :=
  addAnimation (Anim.newAnimation now s) w.

(** The callbacks one [update] calls, in order, until one throws. *)
Fixpoint runEffects (outs : list Anim.Output) (w : W) : Fx W :=
  match outs with
  | [] => Ret w
  | o :: outs => match effect o w with Some w => runEffects outs w | None => Throw w end
  end.

(** One round of the [forEach] of lines 54-59. *)
Definition updateOne (now : Q) (acc : list Anim.Animation * W) (a : Anim.Animation)
    : Fx (list Anim.Animation * W) :=
  let '(continuing, w) := acc in
  let '(done, outs, created) := Anim.update sinHalfPi cosPi now a in
  match runEffects outs w with
  | Throw w => Throw w
  | Ret w =>
      let w := fold_left (fun w s => createAnimation now s w) created w in
      Ret (if done then continuing else continuing ++ [a], w)
  end.

Definition updateStep (now : Q) (acc : Fx (list Anim.Animation * W)) (a : Anim.Animation)
    : Fx (list Anim.Animation * W) :=
  match acc with Ret acc => updateOne now acc a | Throw w => Throw w end.

(** [_updateAnimations] (lines 47-68). *)
Definition updateAnimations (now : Q) (w : W) : Fx W :=
  let '(id, w) := request w in
  let w := setMgr (Anim.mkManager (Anim.animations (getMgr w)) id) w in
  match fold_left (updateStep now) (Anim.animations (getMgr w)) (Ret ([], w)) with
  | Throw w => Throw w
  | Ret (continuing, w) =>
      let w := setMgr (Anim.mkManager continuing (Anim.requestId (getMgr w))) w in
      match continuing with
      | [] => let w := cancel (Anim.requestId (getMgr w)) w in Ret (setMgr (Anim.mkManager [] 0) w)
      | _ => Ret w
      end
  end.

End Fx.

Arguments Ret {W A} a.
Arguments Throw {W A} w.

(** ** The host of Animation.v: callbacks that log *)

#[export] Instance animWorldHost : FrameHost Anim.World := {
  getMgr := Anim.mgr;
  setMgr m w := Anim.mkWorld m (Anim.frames w) (Anim.log w);
  request w := let '(id, f) := Anim.requestFrame (Anim.frames w) in (id, Anim.mkWorld (Anim.mgr w) f (Anim.log w));
  cancel id w := Anim.mkWorld (Anim.mgr w) (Anim.cancelFrame id (Anim.frames w)) (Anim.log w)
}.

#[export] Instance animWorldHostLaws : FrameHostLaws Anim.World.
Proof. split; intros; reflexivity. Qed.

(** Callbacks that are seen in the log and never throw. *)
Definition logEffect (o : Anim.Output) (w : Anim.World) : option Anim.World :=
  Some (Anim.mkWorld (Anim.mgr w) (Anim.frames w) (Anim.log w ++ [o])).

(** ** A callback that throws *)

Section Throwing.
Context {W : Type} `{FrameHostLaws W}.
Variable sinHalfPi cosPi : num -> num.
Variable effect : Anim.Output -> W -> option W.

Lemma update_first now a :
  exists v rest created done,
    Anim.update sinHalfPi cosPi now a = (done, Anim.Updated (Anim.aTag a) v :: rest, created).
Proof.
  unfold Anim.update. destruct (nlt _ _); [do 4 eexists; reflexivity|].
  destruct (Anim.aOnComplete a); do 4 eexists; reflexivity.
Qed.

Lemma fold_updateStep_throw now l w :
  fold_left (updateStep sinHalfPi cosPi effect now) l (Throw w) = Throw w.
Proof. induction l as [|a l IH]; [reflexivity|exact IH]. Qed.

(** When the first animation's [onUpdate] throws, the frame throws at
    once, with the frame it requested as the manager's. *)
Lemma updateAnimations_throws_first now w id w1 a rest :
  request w = (id, w1) -> Anim.animations (getMgr w) = a :: rest ->
  (forall v, effect (Anim.Updated (Anim.aTag a) v) (setMgr (Anim.mkManager (a :: rest) id) w1) = None) ->
  updateAnimations sinHalfPi cosPi effect now w = Throw (setMgr (Anim.mkManager (a :: rest) id) w1).
Proof.
  intros Hr Ha Hth. unfold updateAnimations. rewrite Hr, get_set. cbn [Anim.animations].
  assert (Hm : getMgr w1 = getMgr w) by (rewrite <- (request_mgr w), Hr; reflexivity).
  rewrite Hm, Ha. cbn [fold_left updateStep updateOne].
  destruct (update_first now a) as (v & outs & created & done & ->). cbn [runEffects]. rewrite Hth.
  rewrite fold_updateStep_throw. reflexivity.
Qed.

End Throwing.

(** ** What a frame leaves alone *)

Section Preserves.
Context {W : Type} `{FrameHost W}.
Variable sinHalfPi cosPi : num -> num.
Variable effect : Anim.Output -> W -> option W.
(** A property of the host that the manager's own writes, the window's
    frame calls and the callbacks keep. *)
Variable P : W -> Prop.
Hypothesis P_setMgr : forall m w, P w -> P (setMgr m w).
Hypothesis P_request : forall w, P w -> P (snd (request w)).
Hypothesis P_cancel : forall id w, P w -> P (cancel id w).
Hypothesis P_effect : forall o w w', effect o w = Some w' -> P w -> P w'.

Definition fxHolds (x : Fx W) : Prop := match x with Ret w | Throw w => P w end.

Lemma createAnimation_P now s w : P w -> P (createAnimation now s w).
Proof.
  intros Hw. unfold createAnimation, addAnimation. cbv zeta.
  destruct (Z.eqb _ 0); [|now apply P_setMgr].
  destruct (request _) as [id w1] eqn:E. apply P_setMgr.
  change w1 with (snd (id, w1)). rewrite <- E. now apply P_request, P_setMgr.
Qed.

Lemma runEffects_P outs w : P w -> fxHolds (runEffects effect outs w).
Proof.
  revert w; induction outs as [|o outs IH]; intros w Hw; cbn; [exact Hw|].
  destruct (effect o w) eqn:E; [apply IH; eapply P_effect; eassumption|exact Hw].
Qed.

Lemma fold_updateStep_P now l acc :
  match acc with Ret (_, w) | Throw w => P w end ->
  match fold_left (updateStep sinHalfPi cosPi effect now) l acc with Ret (_, w) | Throw w => P w end.
Proof.
  revert acc; induction l as [|a l IH]; intros acc Hacc; cbn; [exact Hacc|].
  apply IH. destruct acc as [[continuing w]|w]; [|exact Hacc]. cbn.
  destruct (Anim.update sinHalfPi cosPi now a) as [[done outs] created].
  pose proof (runEffects_P outs w Hacc) as Hr. destruct (runEffects effect outs w) as [w1|w1]; [|exact Hr].
  cbn in Hr. revert w1 Hr; induction created as [|s created IHc]; intros w1 Hr; cbn; [exact Hr|].
  apply IHc, createAnimation_P, Hr.
Qed.

Lemma updateAnimations_P now w : P w -> fxHolds (updateAnimations sinHalfPi cosPi effect now w).
Proof.
  intros Hw. unfold updateAnimations. destruct (request w) as [id w1] eqn:E.
  assert (H1 : P (setMgr (Anim.mkManager (Anim.animations (getMgr w1)) id) w1)).
  { apply P_setMgr. change w1 with (snd (id, w1)). rewrite <- E. now apply P_request. }
  pose proof (fold_updateStep_P now (Anim.animations (getMgr (setMgr (Anim.mkManager (Anim.animations (getMgr w1)) id) w1)))
                (Ret ([], setMgr (Anim.mkManager (Anim.animations (getMgr w1)) id) w1)) H1) as H2.
  destruct (fold_left _ _ _) as [[continuing w2]|w2]; [|exact H2].
  destruct continuing as [|c cs]; cbn.
  - apply P_setMgr, P_cancel, P_setMgr, H2.
  - apply P_setMgr, H2.
Qed.

End Preserves.

(** ** Refinement of Animation.v *)

Section Refines.
Variable sinHalfPi cosPi : num -> num.

Lemma runEffects_log outs w :
  runEffects logEffect outs w = Ret (Anim.mkWorld (Anim.mgr w) (Anim.frames w) (Anim.log w ++ outs)).
Proof.
  revert w; induction outs as [|o outs IH]; intros w; cbn.
  - destruct w; cbn. now rewrite app_nil_r.
  - rewrite IH. cbn. now rewrite <- app_assoc.
Qed.

Lemma addAnimation_log a w : addAnimation a w = Anim.addAnimation a w.
Proof. destruct w as [[l r] f lg]; unfold addAnimation, Anim.addAnimation; cbn. now destruct (Z.eqb r 0). Qed.

Lemma updateOne_log now acc a :
  updateOne sinHalfPi cosPi logEffect now acc a = Ret (Anim.updateOne sinHalfPi cosPi now acc a).
Proof.
  destruct acc as [continuing w]. unfold updateOne, Anim.updateOne.
  destruct (Anim.update sinHalfPi cosPi now a) as [[done outs] created].
  rewrite runEffects_log. reflexivity.
Qed.

Lemma fold_updateStep_log now l acc :
  fold_left (updateStep sinHalfPi cosPi logEffect now) l (Ret acc) =
  Ret (fold_left (Anim.updateOne sinHalfPi cosPi now) l acc).
Proof. revert acc; induction l as [|a l IH]; intros acc; cbn; [reflexivity|]. now rewrite updateOne_log. Qed.

(** With callbacks that only log their calls and never throw, the
    manager over a host window is the manager of Animation.v: adding an
    animation and running [_updateAnimations] give the same world, and a
    frame never throws. *)
Theorem updateAnimations_refines now a w :
  addAnimation a w = Anim.addAnimation a w /\
  updateAnimations sinHalfPi cosPi logEffect now w = Ret (Anim.updateAnimations sinHalfPi cosPi now w).
Proof.
  split; [apply addAnimation_log|].
  destruct w as [[l r] f lg]. unfold updateAnimations, Anim.updateAnimations. cbn [request animWorldHost].
  destruct (Anim.requestFrame f) as [id f']. cbn. rewrite fold_updateStep_log.
  destruct (fold_left _ l _) as [[|c cs] w']; reflexivity.
Qed.

End Refines.

End AnimFx.
