(* ===== verification/NavigationPage.v ===== *)
(** * The navigation page: [src/src/ContentNavigation/NavigationPage/index.tsx]

      [NavigationPage] renders a menu of the page anchors found in its
      content.  At mount, [_createNavItemsRecursive] walks the content's
      element tree in document order and numbers every anchor ([<a>]
      without [href] or with an [href] starting with ['#']) that lies no
      deeper than [maxLevel] below the top; [render] marks the active
      item; [_scrollListener] makes the first anchor in the band
      [(top, top + 100)] below the top of the viewport active.

      The DOM is data: an element is its identity, [nodeName], [href]
      attribute, [textContent], [offsetTop] and children (an
      [HTMLCollection], always truthy).  Where an anchor is on the screen
      ([getBoundingClientRect().top]) depends on the layout and the scroll
      position, and is the parameter [rectTop].

      The component's life (mount, the throttled scroll listener, the
      scroll animation and its timer, unmount) is in NavigationWorld.v. *)

From Stdlib Require Import QArith Lqa ZArith List String Ascii Bool Lia.
From S2P Require Import Prelude StringUtils CurrencyUtils.
Import ListNotations.
Open Scope string_scope.
Open Scope list_scope.
Local Set Warnings "-register-all".

Module Nav.

(** ** The content's elements *)

Inductive Elem : Type :=
| mkElem (elemId : nat) (nodeName : string) (href : option string) (textContent : string)
    (offsetTop : num) (children : list Elem).

Definition elemId (e : Elem) : nat := let '(mkElem i _ _ _ _ _) := e in i.
Definition nodeName (e : Elem) : string := let '(mkElem _ n _ _ _ _) := e in n.
Definition href (e : Elem) : option string := let '(mkElem _ _ h _ _ _) := e in h.
Definition textContent (e : Elem) : string := let '(mkElem _ _ _ t _ _) := e in t.
Definition offsetTop (e : Elem) : num := let '(mkElem _ _ _ _ o _) := e in o.
Definition children (e : Elem) : list Elem := let '(mkElem _ _ _ _ _ c) := e in c.

(** [interface NavItem] (lines 19-25); the anchor is the element's
    identity. *)
Record NavItem : Type := mkNavItem {
  title : string;
  level : nat;
  index : nat;
  navOffsetTop : num;
  anchor : nat
}.

(** [interface NavigationPageProps] (lines 7-12); [None] is [undefined]. *)
Record NavigationPageProps : Type := mkProps {
  navHeaderText : option string;
  maxLevel : option num;
  scrollOffsetTop : option num
}.

(** [interface NavigationPageState] (lines 14-17): [activeItem] is [null]
    or an item, [navItems] [undefined] until mount. *)
Record NavigationPageState : Type := mkState {
  activeItem : option NavItem;
  navItems : option (list NavItem)
}.

(** ** [_createNavItemsRecursive] (lines 168-202) *)

(** [x <= y] on JS numbers. *)
Definition nle (x y : num) : bool :=
  match x, y with
  | NaN, _ | _, NaN => false
  | _, _ => negb (nlt y x)
  end.

(** [child.nodeName === 'A' && (!href || href.indexOf('#') === 0)]. *)
Definition isPageAnchor (e : Elem) : bool :=
  String.eqb (nodeName e) "A" &&
  match href e with
  | None => true
  | Some h => String.eqb h "" || String.prefix "#" h
  end.

(** [!maxLevel || level <= maxLevel]. *)
Definition limitOk (maxLevel : option num) (level : nat) : bool :=
  match maxLevel with
  | None => true
  | Some m => negb (ntruthy m) || nle (Fin (inject_Z (Z.of_nat level))) m
  end.

(** [navItems.push({...})] of lines 181-187. *)
Definition pushAnchor (level : nat) (navItems : list NavItem) (child : Elem) : list NavItem :=
  if isPageAnchor child then
    navItems ++ [mkNavItem (textContent child) level (List.length navItems) (offsetTop child) (elemId child)]
  else navItems.

(** One round of the [forEach] of lines 176-199, at the incremented
    [level]: the push, then the recursive call on the child's children. *)
Fixpoint visit (maxLevel : option num) (level : nat) (navItems : list NavItem) (child : Elem)
    {struct child} : list NavItem :=
  let navItems := pushAnchor level navItems child in
  if limitOk maxLevel level then
    (fix walk (navItems : list NavItem) (cs : list Elem) : list NavItem :=
       match cs with
       | [] => navItems
       | c :: cs => walk (visit maxLevel (S level) navItems c) cs
       end) navItems (children child)
  else navItems.

(** [_createNavItemsRecursive(navItems, children, level)]: [level++],
    then the [forEach]. *)
Definition createNavItemsRecursive (maxLevel : option num) (navItems : list NavItem)
    (cs : list Elem) (level : nat) : list NavItem :=
  fold_left (visit maxLevel (S level)) cs navItems.

(** ** [render] (lines 67-109) *)

(** An [<li>] of the menu: its class, its key and title, and the index
    its [onClick] navigates to. *)
Record NavLi : Type := mkNavLi { liClass : string; liKey : string; liTitle : string; liOnClick : nat }.

Record NavView : Type := mkNavView { header : option string; items : list NavLi }.

(** [activeItem && activeItem.index === index ? 'active' : '']. *)
Definition activeClass (activeItem : option NavItem) (i : nat) : string :=
  match activeItem with
  | Some a => if Nat.eqb (index a) i then "active" else ""
  | None => ""
  end.

(** The [map] of lines 80-97, from index [i]. *)
Fixpoint renderItems (activeItem : option NavItem) (i : nat) (l : list NavItem) : list NavLi :=
  match l with
  | [] => []
  | navItem :: l =>
      mkNavLi ("nav-item " ++ activeClass activeItem i)%string
        (Currency.showZ (Z.of_nat i) ++ " " ++ title navItem)%string (title navItem) i
      :: renderItems activeItem (S i) l
  end.

Definition render (p : NavigationPageProps) (s : NavigationPageState) : NavView :=
  mkNavView
    (match navHeaderText p with Some h => if String.eqb h "" then None else Some h | None => None end)
    (match navItems s with Some l => renderItems (activeItem s) 0 l | None => [] end).

(** ** [_scrollListener] (lines 111-134) *)

Section Scroll.

(** [anchor.getBoundingClientRect().top] of the element with a given
    identity, in the current layout. *)
Variable rectTop : nat -> num.

(** [this.props.scrollOffsetTop ? this.props.scrollOffsetTop : 70]. *)
Definition scrollTopOffset (p : NavigationPageProps) : num :=
  match scrollOffsetTop p with Some t => if ntruthy t then t else Fin 70 | None => Fin 70 end.

(** The predicate of [navItems.find] (lines 116-125); the items are
    never [null]. *)
Definition inBand (top : num) (element : NavItem) : bool :=
  let t := rectTop (anchor element) in nlt top t && nlt t (nadd top (Fin 100)).

(** The [activeItem] [_scrollListener] sets, if it calls [setState]:
    [navigating] is [this._navigatingToItem]; items are compared by
    reference, and two items are the same object exactly when they have
    the same index. *)
Definition scrollListener (p : NavigationPageProps) (s : NavigationPageState) (navigating : bool)
    : option NavItem :=
  match navItems s with
  | Some l =>
      if navigating then None
      else
        match find (inBand (scrollTopOffset p)) l with
        | Some next =>
            match activeItem s with
            | Some a => if Nat.eqb (index a) (index next) then None else Some next
            | None => Some next
            end
        | None => None
        end
  | None => None
  end.

End Scroll.

(** ** The anchors of the content, as a reference *)

(** The element and its descendants in document order, with their
    levels. *)
Fixpoint descendants (level : nat) (e : Elem) {struct e} : list (Elem * nat) :=
  (e, level) ::
  (fix go (cs : list Elem) : list (Elem * nat) :=
     match cs with [] => [] | c :: cs => descendants (S level) c ++ go cs end) (children e).

(** Whether the walk reaches the level: every level above it lets it
    recurse. *)
Definition reach (maxLevel : option num) (level : nat) : bool :=
  match level with 0 | 1 => true | S k => limitOk maxLevel k end.

Definition pageAnchor (maxLevel : option num) (ed : Elem * nat) : bool :=
  isPageAnchor (fst ed) && reach maxLevel (snd ed).

(** The items numbered from [k]. *)
Fixpoint number (k : nat) (l : list (Elem * nat)) : list NavItem :=
  match l with
  | [] => []
  | (e, d) :: l => mkNavItem (textContent e) d k (offsetTop e) (elemId e) :: number (S k) l
  end.

(** The reference: the page anchors of the content the walk reaches, in
    document order, numbered by position. *)
Definition navItemsRef (maxLevel : option num) (cs : list Elem) : list NavItem :=
  number 0 (filter (pageAnchor maxLevel) (flat_map (descendants 1) cs)).

(** ** Lemmas *)

Section ElemInd.
Variable P : Elem -> Prop.
Hypothesis Hmk : forall i n h t o cs, Forall P cs -> P (mkElem i n h t o cs).

Fixpoint Elem_ind' (e : Elem) : P e :=
  match e with
  | mkElem i n h t o cs =>
      Hmk i n h t o cs
        ((fix go (l : list Elem) : Forall P l :=
            match l with [] => Forall_nil _ | c :: l => Forall_cons _ (Elem_ind' c) (go l) end) cs)
  end.
End ElemInd.

Lemma descendants_eq level e :
  descendants level e = (e, level) :: flat_map (descendants (S level)) (children e).
Proof. destruct e; reflexivity. Qed.

Lemma visit_eq maxLevel level navItems child :
  visit maxLevel level navItems child =
  let navItems := pushAnchor level navItems child in
  if limitOk maxLevel level then fold_left (visit maxLevel (S level)) (children child) navItems
  else navItems.
Proof.
  destruct child as [i n h t o cs]; cbn [visit children]. cbv zeta.
  destruct (limitOk maxLevel level); [|reflexivity].
  generalize (pushAnchor level navItems (mkElem i n h t o cs)).
  induction cs as [|c cs IH]; intros l; cbn; [reflexivity|]. apply IH.
Qed.

Lemma limitOk_mono maxLevel l :
  limitOk maxLevel (S l) = true -> limitOk maxLevel l = true.
Proof.
  destruct maxLevel as [[q| | |]|]; cbn; try reflexivity; [|discriminate].
  destruct (Qeq_bool q 0); cbn; [reflexivity|].
  rewrite !Bool.negb_true_iff, !Qltb_false, Zpos_P_of_succ_nat. intros H.
  refine (Qle_trans _ _ _ _ H). apply (proj1 (inject_Z_le _ _)). lia.
Qed.

Lemma limitOk_anti maxLevel l k :
  (l <= k)%nat -> limitOk maxLevel k = true -> limitOk maxLevel l = true.
Proof. induction 1; auto using limitOk_mono. Qed.

Lemma descendants_deep level e :
  Forall (fun ed => (level <= snd ed)%nat) (descendants level e).
Proof.
  revert level; induction e as [i n h t o cs IH] using Elem_ind'; intros level.
  rewrite descendants_eq. constructor; [cbn; lia|]. cbn [children].
  apply Forall_flat_map. rewrite Forall_forall in IH |- *. intros c Hc.
  eapply Forall_impl; [|apply IH; exact Hc]. cbn; intros; lia.
Qed.

Lemma number_app k l1 l2 : number k (l1 ++ l2) = number k l1 ++ number (k + List.length l1) l2.
Proof.
  revert k; induction l1 as [|[e d] l1 IH]; intros k; cbn; [now rewrite Nat.add_0_r|].
  rewrite IH. do 3 f_equal. lia.
Qed.

Lemma number_length k l : List.length (number k l) = List.length l.
Proof. revert k; induction l as [|[e d] l IH]; intros k; cbn; auto. Qed.

Lemma unreached maxLevel level l :
  (1 <= level)%nat -> limitOk maxLevel level = false ->
  Forall (fun ed => (S level <= snd ed)%nat) l -> filter (pageAnchor maxLevel) l = [].
Proof.
  intros H1 Hl. induction 1 as [|[e d] l Hd _ IH]; cbn; [reflexivity|]. rewrite IH.
  unfold pageAnchor; cbn in Hd |- *. destruct d as [|[|d]]; try lia.
  cbn [reach]. replace (limitOk maxLevel (S d)) with false; [now rewrite andb_false_r|].
  symmetry. apply Bool.not_true_iff_false. intros Hk.
  rewrite (limitOk_anti maxLevel level (S d)) in Hl by (lia || exact Hk). discriminate.
Qed.

Lemma walk_spec maxLevel level cs acc :
  Forall (fun c => forall acc, visit maxLevel level acc c =
            acc ++ number (List.length acc) (filter (pageAnchor maxLevel) (descendants level c))) cs ->
  fold_left (visit maxLevel level) cs acc =
    acc ++ number (List.length acc) (filter (pageAnchor maxLevel) (flat_map (descendants level) cs)).
Proof.
  intros H. revert acc; induction H as [|c cs Hc _ IH]; intros acc; cbn; [now rewrite app_nil_r|].
  rewrite Hc, IH, filter_app, number_app, List.length_app, number_length, app_assoc. reflexivity.
Qed.

Lemma visit_spec maxLevel e level acc :
  (1 <= level)%nat -> reach maxLevel level = true ->
  visit maxLevel level acc e = acc ++ number (List.length acc) (filter (pageAnchor maxLevel) (descendants level e)).
Proof.
  revert level acc; induction e as [i n h t o cs IH] using Elem_ind'; intros level acc H1 Hr.
  rewrite visit_eq, descendants_eq. cbv zeta. cbn [filter children].
  set (e := mkElem i n h t o cs).
  assert (Hp : pushAnchor level acc e =
               acc ++ number (List.length acc) (if pageAnchor maxLevel (e, level) then [(e, level)] else [])).
  { unfold pushAnchor, pageAnchor. cbn [fst snd]. rewrite Hr, andb_true_r.
    destruct (isPageAnchor e); cbn; [reflexivity|now rewrite app_nil_r]. }
  rewrite Hp. destruct (limitOk maxLevel level) eqn:Hl.
  - assert (Hr' : reach maxLevel (S level) = true) by (destruct level; [lia|exact Hl]).
    rewrite walk_spec.
    2:{ eapply Forall_impl; [|exact IH]. intros c Hc acc'. apply Hc; [lia|exact Hr']. }
    rewrite List.length_app, number_length, <- app_assoc, <- number_app.
    destruct (pageAnchor maxLevel (e, level)); reflexivity.
  - rewrite (unreached maxLevel level); [|exact H1|exact Hl|].
    + destruct (pageAnchor maxLevel (e, level)); reflexivity.
    + apply Forall_flat_map, Forall_forall. intros c _. apply descendants_deep.
Qed.

(** C28: [_createNavItemsRecursive], called on the content's children at
    level 0 as [componentDidMount] does, returns the page anchors of the
    content in document order that lie at most [maxLevel + 1] levels deep
    (at any depth when [maxLevel] is missing, 0 or NaN), each with its
    depth as [level] and its position in the list as [index]. *)
Theorem createNavItems_ref maxLevel cs :
  createNavItemsRecursive maxLevel [] cs 0 = navItemsRef maxLevel cs.
Proof.
  unfold createNavItemsRecursive, navItemsRef. rewrite walk_spec; [reflexivity|].
  apply Forall_forall. intros c _ acc. apply visit_spec; reflexivity || lia.
Qed.

Lemma number_index k l i it : nth_error (number k l) i = Some it -> index it = k + i.
Proof.
  revert k i; induction l as [|[e d] l IH]; intros k [|i]; cbn; try discriminate.
  - intros [= <-]. cbn. lia.
  - intros H. rewrite (IH _ _ H). lia.
Qed.

Lemma createNavItems_index maxLevel cs i it :
  nth_error (createNavItemsRecursive maxLevel [] cs 0) i = Some it -> index it = i.
Proof. rewrite createNavItems_ref. apply number_index. Qed.

Lemma renderItems_nth a k l i li :
  nth_error (renderItems a k l) i = Some li ->
  exists it, nth_error l i = Some it /\ li = mkNavLi ("nav-item " ++ activeClass a (k + i))%string
    (Currency.showZ (Z.of_nat (k + i)) ++ " " ++ title it)%string (title it) (k + i).
Proof.
  revert k i; induction l as [|it l IH]; intros k [|i]; cbn; try discriminate.
  - intros [= <-]. exists it. rewrite Nat.add_0_r. split; reflexivity.
  - intros H. destruct (IH _ _ H) as (it' & E & ->). exists it'. rewrite <- plus_n_Sm.
    split; [exact E|reflexivity].
Qed.

Lemma renderItems_length a k l : List.length (renderItems a k l) = List.length l.
Proof. revert k; induction l; intros k; cbn; auto. Qed.

(** After mount, the menu has one entry per nav item, the [i]-th
    navigating to index [i], and when the active item is one of the nav
    items exactly its entry has the class [nav-item active], every other
    one [nav-item ]. *)
Theorem render_marks_active p maxLevel cs a :
  let l := createNavItemsRecursive maxLevel [] cs 0 in
  In a l ->
  let v := render p (mkState (Some a) (Some l)) in
  List.length (items v) = List.length l /\
  forall i li, nth_error (items v) i = Some li ->
    liOnClick li = i /\ (liClass li = "nav-item active" <-> nth_error l i = Some a) /\
    (liClass li = "nav-item active" \/ liClass li = "nav-item ").
Proof.
  intros l Ha. cbn [render navItems activeItem items]. split; [apply renderItems_length|].
  intros i li Hi. destruct (renderItems_nth _ _ _ _ _ Hi) as (it & E & ->). cbn [liOnClick liClass].
  apply In_nth_error in Ha as [j Hj].
  pose proof (createNavItems_index _ _ _ _ Hj) as Hja.
  split; [reflexivity|]. unfold activeClass. rewrite Hja. cbn [Nat.add].
  destruct (Nat.eqb_spec j i) as [-> | Hne]; split; auto.
  - split; [intros; exact Hj|reflexivity].
  - split; [discriminate|]. intros E'.
    destruct Hne. rewrite <- Hja. exact (createNavItems_index _ _ _ _ E').
Qed.

Module NavTests.

Definition aElem (i : nat) (h : option string) (t : string) : Elem := mkElem i "A" h t (Fin (inject_Z (Z.of_nat (10 * i)))) [].
Definition divElem (i : nat) (cs : list Elem) : Elem := mkElem i "DIV" None "" (Fin 0) cs.

(** The content of the component's tests. *)
Definition content : list Elem :=
  [aElem 1 None "test"; divElem 2 [aElem 3 None "test 2"; divElem 4 [aElem 5 None "test 3"]]].

Example nested_items :
  map title (createNavItemsRecursive None [] content 0) = ["test"; "test 2"; "test 3"].
Proof. reflexivity. Qed.

Example max_level_one :
  map title (createNavItemsRecursive (Some (Fin 1)) [] content 0) = ["test"; "test 2"].
Proof. reflexivity. Qed.

(** [maxLevel = 0] is falsy: no limit. *)
Example max_level_zero_unlimited :
  List.length (createNavItemsRecursive (Some (Fin 0)) [] content 0) = 3%nat.
Proof. reflexivity. Qed.

Example links_skipped :
  map title (createNavItemsRecursive None []
    [aElem 1 (Some "https://example.com") "out"; aElem 2 (Some "#part") "in"; aElem 3 (Some "") "top"] 0)
  = ["in"; "top"].
Proof. reflexivity. Qed.

Definition props0 : NavigationPageProps := mkProps (Some "Test Header") None None.
Definition item1 : NavItem := mkNavItem "test 2" 2 1 (Fin 30) 3.

Example render_test :
  map liClass (items (render props0 (mkState (Some item1) (Some (createNavItemsRecursive None [] content 0)))))
  = ["nav-item "; "nav-item active"; "nav-item "] /\
  header (render props0 (mkState None None)) = Some "Test Header".
Proof. split; reflexivity. Qed.

Lemma render_marks_active_witness :
  In item1 (createNavItemsRecursive None [] content 0) /\
  List.length (items (render props0 (mkState (Some item1) (Some (createNavItemsRecursive None [] content 0))))) = 3%nat.
Proof.
  assert (H : In item1 (createNavItemsRecursive None [] content 0)) by (right; left; reflexivity).
  split; [exact H|].
  destruct (render_marks_active props0 None content item1 H) as [E _]. rewrite E. reflexivity.
Defined.

End NavTests.

End Nav.
