(* ===== verification/NavigationWorld.v ===== *)
(** * The navigation page in its window

      [NavigationPage] (src/src/ContentNavigation/NavigationPage/index.tsx)
      composed with the code it calls: [throttle] (TimingUtils) for its
      scroll listener, the [animationManager] singleton (AnimationUtils)
      to scroll to an item, and [setTimeout] to end the navigation.

      [World] is the page instance (props, state, and the fields
      [_scrollingContent], [_throttledScrollListener], [_navigatingToItem]),
      the content's [scrollTop], the manager, and the window: one queue of
      animation frame callbacks shared by the manager and the throttle
      closures, the [scroll] listeners, the timers, and a count of the
      exceptions that reached the browser.  The manager runs over this
      window through the [AnimFx.FrameHost] interface; the page's
      [onUpdate] writes [this._scrollingContent.scrollTop], and throws a
      [TypeError] once the ref is [null].

      React's part: [setState] in [componentDidMount] and in a click
      handler is applied when the handler returns, in the scroll listener
      at once; either way [componentWillUpdate] runs first, with
      [this.state] still the old state, and not at all when the
      [PureComponent] finds the state unchanged.  After unmount
      [setState] is ignored.  [getBoundingClientRect().top] of an anchor is
      the layout parameter [rectTop], a function of the scroll position. *)

From Stdlib Require Import QArith ZArith List Bool Lia.
From S2P Require Import Prelude Animation AnimationFx Timing NavigationPage.
Import ListNotations.

Module NavWorld.

Inductive Phase : Type := Constructed | Mounted | Unmounted.

(** The window's animation frame callbacks: the manager's
    [_updateCallback], or the [later] of a throttle closure (by number). *)
Inductive FrameCb : Type :=
| UpdateAnimations
| ThrottleLater (closure : nat).

(** [() => { this._navigatingToItem = false; }] (lines 221-223). *)
Inductive TimerCb : Type := EndNavigation.

Record Page : Type := mkPage {
  phase : Phase;
  props : Nav.NavigationPageProps;
  pstate : Nav.NavigationPageState;
  content : option (list Nav.Elem);   (* [this._scrollingContent], by its children *)
  listener : option nat;              (* [this._throttledScrollListener] *)
  navigating : bool                   (* [this._navigatingToItem] *)
}.

Record World : Type := mkWorld {
  page : Page;
  scrollTop : num;
  mgr : Anim.Manager;
  frameQ : list (Z * FrameCb);
  nextFrame : Z;
  closures : list (Timing.Throttle (Args := unit));
  scrollListeners : list nat;
  timers : list (Z * Q * TimerCb);
  nextTimer : Z;
  errors : nat
}.

(** The tag of the page's [onUpdate]. *)
Definition navTag : nat := 0.

Definition setPage (p : Page) (w : World) : World :=
  mkWorld p (scrollTop w) (mgr w) (frameQ w) (nextFrame w) (closures w) (scrollListeners w)
    (timers w) (nextTimer w) (errors w).

Definition withPState (s : Nav.NavigationPageState) (p : Page) : Page :=
  mkPage (phase p) (props p) s (content p) (listener p) (navigating p).

Definition withListener (l : option nat) (p : Page) : Page :=
  mkPage (phase p) (props p) (pstate p) (content p) l (navigating p).

Definition withNavigating (b : bool) (p : Page) : Page :=
  mkPage (phase p) (props p) (pstate p) (content p) (listener p) b.

(** ** The window *)

(** [window.requestAnimationFrame(cb)]. *)
Definition requestFrame (cb : FrameCb) (w : World) : Z * World :=
  (nextFrame w,
   mkWorld (page w) (scrollTop w) (mgr w) (frameQ w ++ [(nextFrame w, cb)]) (nextFrame w + 1)
     (closures w) (scrollListeners w) (timers w) (nextTimer w) (errors w)).

(** [window.cancelAnimationFrame(id)]. *)
Definition cancelFrame (id : Z) (w : World) : World :=
  mkWorld (page w) (scrollTop w) (mgr w) (filter (fun e => negb (Z.eqb (fst e) id)) (frameQ w))
    (nextFrame w) (closures w) (scrollListeners w) (timers w) (nextTimer w) (errors w).

#[export] Instance worldHost : AnimFx.FrameHost World := {
  getMgr := mgr;
  setMgr m w := mkWorld (page w) (scrollTop w) m (frameQ w) (nextFrame w) (closures w)
                  (scrollListeners w) (timers w) (nextTimer w) (errors w);
  request := requestFrame UpdateAnimations;
  cancel := cancelFrame
}.

#[export] Instance worldHostLaws : AnimFx.FrameHostLaws World.
Proof. split; intros; reflexivity. Qed.

(** The animations' callbacks: the page's [onUpdate] (line 218) sets the
    content's [scrollTop], or throws when [_scrollingContent] is [null];
    the page's animations have no [onComplete]. *)
Definition effect (o : Anim.Output) (w : World) : option World :=
  match o with
  | Anim.Updated _ v =>
      match content (page w) with
      | Some _ => Some (mkWorld (page w) v (mgr w) (frameQ w) (nextFrame w) (closures w)
                          (scrollListeners w) (timers w) (nextTimer w) (errors w))
      | None => None
      end
  | Anim.Completed _ => Some w
  end.

(** An exception that leaves a callback reaches the browser. *)
Definition reportError (w : World) : World :=
  mkWorld (page w) (scrollTop w) (mgr w) (frameQ w) (nextFrame w) (closures w)
    (scrollListeners w) (timers w) (nextTimer w) (S (errors w)).

(** ** The component *)

Definition setClosure (n : nat) (c : Timing.Throttle (Args := unit)) (w : World) : World :=
  mkWorld (page w) (scrollTop w) (mgr w) (frameQ w) (nextFrame w)
    (firstn n (closures w) ++ [c] ++ skipn (S n) (closures w)) (scrollListeners w) (timers w)
    (nextTimer w) (errors w).

(** [_setScrollListener] (lines 136-154): a new throttle closure, added
    as a [scroll] listener, once there are nav items and none is set. *)
Definition setScrollListener (w : World) : World :=
  match Nav.navItems (pstate (page w)) with
  | None | Some [] => w
  | Some _ =>
      match listener (page w) with
      | Some _ => w
      | None =>
          let n := length (closures w) in
          mkWorld (withListener (Some n) (page w)) (scrollTop w) (mgr w) (frameQ w) (nextFrame w)
            (closures w ++ [Timing.mkThrottle None None]) (scrollListeners w ++ [n]) (timers w)
            (nextTimer w) (errors w)
      end
  end.

(** [_removeScrollListener] (lines 156-165). *)
Definition removeScrollListener (w : World) : World :=
  match listener (page w) with
  | Some n =>
      mkWorld (withListener None (page w)) (scrollTop w) (mgr w) (frameQ w) (nextFrame w) (closures w)
        (filter (fun m => negb (Nat.eqb m n)) (scrollListeners w)) (timers w) (nextTimer w) (errors w)
  | None => w
  end.

(** [componentWillUpdate] (lines 63-65). *)
Definition componentWillUpdate (w : World) : World := setScrollListener w.

(** The [PureComponent]'s shallow comparison of the state: the same
    active item (items are compared by reference, which is by index) and
    the same [navItems] array (there is one, made at mount). *)
Definition sameState (s s' : Nav.NavigationPageState) : bool :=
  match Nav.activeItem s, Nav.activeItem s' with
  | Some a, Some b => Nat.eqb (Nav.index a) (Nav.index b)
  | None, None => true
  | _, _ => false
  end &&
  match Nav.navItems s, Nav.navItems s' with
  | Some _, Some _ | None, None => true
  | _, _ => false
  end.

(** An update to the state [s']: [componentWillUpdate] with the old
    state, then the new one; nothing after unmount. *)
Definition setState (s' : Nav.NavigationPageState) (w : World) : World :=
  match phase (page w) with
  | Mounted =>
      if sameState (pstate (page w)) s' then w
      else let w := componentWillUpdate w in setPage (withPState s' (page w)) w
  | _ => w
  end.

(** [componentDidMount] (lines 43-57): the [setState] is applied after
    [_setScrollListener] has run. *)
Definition componentDidMount (w : World) : World :=
  match content (page w) with
  | Some cs =>
      let navItems := Nav.createNavItemsRecursive (Nav.maxLevel (props (page w))) [] cs 0 in
      let w := setScrollListener w in
      setState (Nav.mkState (nth_error navItems 0) (Some navItems)) w
  | None => w
  end.

(** The first render sets the ref, then React mounts. *)
Definition mount (cs : list Nav.Elem) (w : World) : World :=
  let p := page w in
  componentDidMount (setPage (mkPage Mounted (props p) (pstate p) (Some cs) (listener p) (navigating p)) w).

(** [window.setTimeout(cb, delay)] at time [now]. *)
Definition setTimeout (now : Q) (cb : TimerCb) (delay : Q) (w : World) : World :=
  mkWorld (page w) (scrollTop w) (mgr w) (frameQ w) (nextFrame w) (closures w) (scrollListeners w)
    (timers w ++ [(nextTimer w, now + delay, cb)]) (nextTimer w + 1) (errors w).

(** [_navigateToItem(index)] (lines 204-224) at time [now], from a click
    on the item's [<li>]; its [setState] is applied when it returns. *)
Definition navigateToItem (now : Q) (index : nat) (w : World) : World :=
  match Nav.navItems (pstate (page w)) with
  | Some navItems =>
      match nth_error navItems index with
      | Some item =>
          let duration := 1 # 4 in
          let w := setPage (withNavigating true (page w)) w in
          let w := AnimFx.createAnimation now
                     (Anim.mkAnimSpec (scrollTop w) (Nav.navOffsetTop item) (Fin duration)
                        Anim.EaseOutSine navTag None) w in
          let w := setTimeout now EndNavigation (duration * 1000) w in
          setState (Nav.mkState (Some item) (Some navItems)) w
      | None => w
      end
  | None => w
  end.

(** [componentWillUnmount] (lines 59-61), then React clears the ref. *)
Definition unmount (w : World) : World :=
  let w := removeScrollListener w in
  let p := page w in
  setPage (mkPage Unmounted (props p) (pstate p) None (listener p) (navigating p)) w.

(** A render with new props from the parent. *)
Definition rerender (pr : Nav.NavigationPageProps) (w : World) : World :=
  let w := componentWillUpdate w in
  let p := page w in
  setPage (mkPage (phase p) pr (pstate p) (content p) (listener p) (navigating p)) w.

(** ** Events of the window *)

(** A [scroll] event: every listener, a throttled function (TimingUtils
    lines 13-19), records its arguments and requests a frame unless one
    is pending. *)
Definition throttledCall (w : World) (n : nat) : World :=
  match nth_error (closures w) n with
  | Some c =>
      match Timing.animationFrame c with
      | Some f => setClosure n (Timing.mkThrottle (Some tt) (Some f)) w
      | None =>
          let '(id, w) := requestFrame (ThrottleLater n) w in
          setClosure n (Timing.mkThrottle (Some tt) (Some id)) w
      end
  | None => w
  end.

Definition scroll (w : World) : World := fold_left throttledCall (scrollListeners w) w.

Section Frames.
Variable sinHalfPi cosPi : num -> num.
(** [getBoundingClientRect().top] of each anchor, by the content's
    [scrollTop]. *)
Variable rectTop : num -> nat -> num.

(** [_scrollListener] (lines 111-134), called by a throttle's [later]. *)
Definition scrollListener (w : World) : World :=
  match Nav.scrollListener (rectTop (scrollTop w)) (props (page w)) (pstate (page w)) (navigating (page w)) with
  | Some next => setState (Nav.mkState (Some next) (Nav.navItems (pstate (page w)))) w
  | None => w
  end.

(** A frame callback. *)
Definition runCallback (now : Q) (cb : FrameCb) (w : World) : World :=
  match cb with
  | UpdateAnimations =>
      match AnimFx.updateAnimations sinHalfPi cosPi effect now w with
      | AnimFx.Ret w => w
      | AnimFx.Throw w => reportError w
      end
  | ThrottleLater n =>
      match nth_error (closures w) n with
      | Some c => scrollListener (setClosure n (Timing.mkThrottle (Timing.latestArgs c) None) w)
      | None => w
      end
  end.

(** An animation frame: the callbacks pending when it starts, in order,
    each removed from the queue before it runs; one cancelled meanwhile
    is skipped. *)
Definition runPending (now : Q) (w : World) (e : Z * FrameCb) : World :=
  if existsb (fun e' => Z.eqb (fst e') (fst e)) (frameQ w)
  then runCallback now (snd e) (cancelFrame (fst e) w)
  else w.

Definition frame (now : Q) (w : World) : World := fold_left (runPending now) (frameQ w) w.

End Frames.

(** The timers due at [now] fire. *)
Definition tick (now : Q) (w : World) : World :=
  let due := filter (fun t => Qle_bool (snd (fst t)) now) (timers w) in
  let w := mkWorld (page w) (scrollTop w) (mgr w) (frameQ w) (nextFrame w) (closures w)
             (scrollListeners w) (filter (fun t => negb (Qle_bool (snd (fst t)) now)) (timers w))
             (nextTimer w) (errors w) in
  fold_left (fun w t => match snd t with EndNavigation => setPage (withNavigating false (page w)) w end) due w.

Inductive Event : Type :=
| EMount (cs : list Nav.Elem)
| EClick (now : Q) (index : nat)
| EScroll
| EFrame (now : Q)
| ETick (now : Q)
| ERerender (p : Nav.NavigationPageProps)
| EUnmount.

Section Step.
Variable sinHalfPi cosPi : num -> num.
Variable rectTop : num -> nat -> num.

Definition isMounted (w : World) : bool := match phase (page w) with Mounted => true | _ => false end.

(** An event, when it can happen: the page mounts once, is clicked and
    re-rendered while mounted, unmounts once; the window's events come at
    any time. *)
Definition step (w : World) (ev : Event) : World :=
  match ev with
  | EMount cs => match phase (page w) with Constructed => mount cs w | _ => w end
  | EClick now i => if isMounted w then navigateToItem now i w else w
  | EScroll => scroll w
  | EFrame now => frame sinHalfPi cosPi rectTop now w
  | ETick now => tick now w
  | ERerender p => if isMounted w then rerender p w else w
  | EUnmount => if isMounted w then unmount w else w
  end.

Definition run (w : World) (evs : list Event) : World := fold_left step evs w.

End Step.

(** [new NavigationPage(props)] (lines 34-41) in a fresh window: frame
    and timer ids start at [1]. *)
Definition initWorld (p : Nav.NavigationPageProps) : World :=
  mkWorld (mkPage Constructed p (Nav.mkState None None) None None false) (Fin 0)
    (Anim.mkManager [] 0) [] 1 [] [] [] 1 0.

(** ** The manager's frame in the window *)

Definition isUpd (e : Z * FrameCb) : bool := match snd e with UpdateAnimations => true | _ => false end.

(** The window's frame queue as the manager needs it: ids distinct,
    positive and below the next id; every manager callback pending is the
    one [_requestId] names; with no animation [_requestId] is [0], and
    with animations its callback is pending. *)
Definition frameInv (w : World) : Prop :=
  (0 < nextFrame w)%Z /\ NoDup (map fst (frameQ w)) /\
  Forall (fun e => (0 < fst e < nextFrame w)%Z) (frameQ w) /\
  (forall e, In e (frameQ w) -> isUpd e = true -> fst e = Anim.requestId (mgr w)) /\
  (Anim.animations (mgr w) = [] -> Anim.requestId (mgr w) = 0%Z) /\
  (Anim.animations (mgr w) <> [] -> In (Anim.requestId (mgr w), UpdateAnimations) (frameQ w)).

(** After unmount with an animation [a] running. *)
Definition wedged (a : Anim.Animation) (w : World) : Prop :=
  phase (page w) = Unmounted /\ content (page w) = None /\ In a (Anim.animations (mgr w)) /\ frameInv w.

Lemma nodup_fst {A B} (q : list (A * B)) x y :
  NoDup (map fst q) -> In x q -> In y q -> fst x = fst y -> x = y.
Proof.
  induction q as [|z q IH]; [intros _ []|]. cbn. intros Hd Hx Hy E. inversion Hd as [|? ? Hz Hd']; subst.
  destruct Hx as [<- | Hx], Hy as [<- | Hy]; auto.
  - destruct Hz. rewrite E. now apply in_map.
  - destruct Hz. rewrite <- E. now apply in_map.
Qed.

Lemma nodup_fst_filter {A B} (f : A * B -> bool) q :
  NoDup (map fst q) -> NoDup (map fst (filter f q)).
Proof.
  induction q as [|x q IH]; cbn; [auto|]. intros Hd. inversion Hd as [|? ? Hx Hd']; subst.
  destruct (f x); cbn; [|auto]. constructor; [|auto].
  intros Hin. apply Hx. apply in_map_iff in Hin as (y & E & Hy). apply filter_In in Hy as [Hy _].
  rewrite <- E. now apply in_map.
Qed.

Lemma frameInv_fresh w cb :
  frameInv w -> isUpd (nextFrame w, cb) = false -> frameInv (snd (requestFrame cb w)).
Proof.
  intros (Hn & Hd & Hb & Hu & Hz & Hp) Hc. unfold frameInv. cbn [snd requestFrame frameQ nextFrame mgr]. repeat split.
  - lia.
  - rewrite map_app. apply NoDup_app; [exact Hd|constructor; [intros []|constructor]|].
    intros x Hx Hx2. cbn in Hx2. destruct Hx2 as [<- | []]. apply in_map_iff in Hx as (e & E & He).
    rewrite Forall_forall in Hb. specialize (Hb e He). lia.
  - apply Forall_app. split; [|repeat constructor; cbn; lia].
    eapply Forall_impl; [|exact Hb]. cbn. intros; lia.
  - intros e He. apply in_app_or in He as [He | [<- | []]]; [now apply Hu|]. congruence.
  - exact Hz.
  - intros Ha. apply in_or_app. left. now apply Hp.
Qed.

Lemma frameInv_cancel_other w i :
  frameInv w -> i <> Anim.requestId (mgr w) -> frameInv (cancelFrame i w).
Proof.
  intros (Hn & Hd & Hb & Hu & Hz & Hp) Hi. unfold frameInv. cbn [cancelFrame frameQ nextFrame mgr]. repeat split.
  - exact Hn.
  - apply nodup_fst_filter; exact Hd.
  - apply Forall_forall. intros x Hx. apply filter_In in Hx as [Hx _]. exact (proj1 (Forall_forall _ _) Hb x Hx).
  - intros x Hx. apply filter_In in Hx as [Hx _]. now apply Hu.
  - exact Hz.
  - intros Ha. apply filter_In. split; [now apply Hp|].
    apply Bool.negb_true_iff, Z.eqb_neq. cbn. congruence.
Qed.

(** A frame in which the manager's callback runs and throws at once:
    its frame is cancelled by running, a new one requested, and the error
    reported. *)
Lemma frameInv_rerequest w :
  frameInv w -> Anim.animations (mgr w) <> [] ->
  frameInv (reportError (AnimFx.setMgr (Anim.mkManager (Anim.animations (mgr w)) (nextFrame w))
              (snd (requestFrame UpdateAnimations (cancelFrame (Anim.requestId (mgr w)) w))))).
Proof.
  intros (Hn & Hd & Hb & Hu & Hz & Hp) Ha. unfold frameInv. cbn. repeat split.
  - lia.
  - rewrite map_app. apply NoDup_app; [now apply nodup_fst_filter|constructor; [intros []|constructor]|].
    intros x Hx Hx2. cbn in Hx2. destruct Hx2 as [<- | []]. apply in_map_iff in Hx as (e & E & He).
    apply filter_In in He as [He _]. rewrite Forall_forall in Hb. specialize (Hb e He). lia.
  - apply Forall_app. split; [|repeat constructor; cbn; lia].
    apply Forall_forall. intros x Hx. apply filter_In in Hx as [Hx _].
    rewrite Forall_forall in Hb. specialize (Hb x Hx). lia.
  - intros e He Hu'. apply in_app_or in He as [He | [<- | []]]; [|reflexivity].
    apply filter_In in He as [He Hne]. rewrite (Hu e He Hu'), Z.eqb_refl in Hne. discriminate.
  - intros E. contradiction.
  - intros _. apply in_or_app. right. left. reflexivity.
Qed.

Definition sameFrames (w w' : World) : Prop :=
  mgr w' = mgr w /\ frameQ w' = frameQ w /\ nextFrame w' = nextFrame w.

Lemma frameInv_same w w' : sameFrames w w' -> frameInv w -> frameInv w'.
Proof. intros (Hm & Hq & Hf). unfold frameInv. now rewrite Hm, Hq, Hf. Qed.

(** ** After unmount *)

Section Wedge.
Variable sinHalfPi cosPi : num -> num.
Variable rectTop : num -> nat -> num.
Variable a : Anim.Animation.

Lemma setState_unmounted st w : phase (page w) = Unmounted -> setState st w = w.
Proof. unfold setState. now intros ->. Qed.

Lemma scrollListener_unmounted w : phase (page w) = Unmounted -> scrollListener rectTop w = w.
Proof.
  intros Hp. unfold scrollListener. destruct (Nav.scrollListener _ _ _ _); [|reflexivity].
  now apply setState_unmounted.
Qed.

Lemma wedged_same w w' :
  wedged a w -> sameFrames w w' -> phase (page w') = phase (page w) /\ content (page w') = content (page w) ->
  wedged a w'.
Proof.
  intros (H1 & H2 & H3 & H4) Hs [Hp Hc]. pose proof Hs as (Hm & _).
  unfold wedged. rewrite Hp, Hc, Hm. exact (conj H1 (conj H2 (conj H3 (frameInv_same _ _ Hs H4)))).
Qed.

Lemma wedged_setClosure n c w : wedged a w -> wedged a (setClosure n c w).
Proof. intros Hw. apply (wedged_same w); [exact Hw|repeat split|split; reflexivity]. Qed.

Lemma wedged_cancel_other i w :
  wedged a w -> i <> Anim.requestId (mgr w) -> wedged a (cancelFrame i w).
Proof. intros (H1 & H2 & H3 & H4) Hi. exact (conj H1 (conj H2 (conj H3 (frameInv_cancel_other _ _ H4 Hi)))). Qed.

Lemma throttledCall_wedged w n :
  wedged a w -> wedged a (throttledCall w n) /\ errors (throttledCall w n) = errors w.
Proof.
  intros Hw. unfold throttledCall. destruct (nth_error (closures w) n) as [c|]; [|auto].
  destruct (Timing.animationFrame c); [split; [now apply wedged_setClosure|reflexivity]|].
  split; [|reflexivity]. apply wedged_setClosure. destruct Hw as (H1 & H2 & H3 & H4).
  exact (conj H1 (conj H2 (conj H3 (frameInv_fresh w (ThrottleLater n) H4 eq_refl)))).
Qed.

Lemma scroll_wedged w : wedged a w -> wedged a (scroll w) /\ errors (scroll w) = errors w.
Proof.
  unfold scroll. generalize (scrollListeners w). intros l. revert w.
  induction l as [|n l IH]; intros w Hw; cbn; [auto|].
  destruct (throttledCall_wedged w n Hw) as [Hw' He]. rewrite <- He. now apply IH.
Qed.

Lemma tick_wedged now w : wedged a w -> wedged a (tick now w) /\ errors (tick now w) = errors w.
Proof.
  intros Hw. unfold tick. generalize (filter (fun t => Qle_bool (snd (fst t)) now) (timers w)) as l.
  intros l. set (w0 := mkWorld _ _ _ _ _ _ _ _ _ _).
  assert (Hw0 : wedged a w0 /\ errors w0 = errors w) by (split; [apply (wedged_same w); [exact Hw|repeat split|split; reflexivity]|reflexivity]).
  clearbody w0. destruct Hw0 as [Hw0 He]. rewrite <- He. clear Hw He. revert w0 Hw0.
  induction l as [|[[id t] []] l IH]; intros w0 Hw0; cbn; [auto|].
  destruct (IH (setPage (withNavigating false (page w0)) w0)) as [A B];
    [apply (wedged_same w0); [exact Hw0|repeat split|split; reflexivity]|].
  split; [exact A|exact B].
Qed.

Lemma runPending_upd now w :
  wedged a w ->
  let w' := runPending sinHalfPi cosPi rectTop now w (Anim.requestId (mgr w), UpdateAnimations) in
  wedged a w' /\ errors w' = S (errors w) /\ Anim.requestId (mgr w') = nextFrame w /\ nextFrame w' = (nextFrame w + 1)%Z /\
  frameQ w' = filter (fun e => negb (Z.eqb (fst e) (Anim.requestId (mgr w)))) (frameQ w) ++ [(nextFrame w, UpdateAnimations)].
Proof.
  intros Hw. destruct Hw as (H1 & H2 & H3 & H4).
  assert (Ha : Anim.animations (mgr w) <> []) by (intros E; rewrite E in H3; destruct H3).
  pose proof H4 as (_ & _ & _ & _ & _ & Hp). specialize (Hp Ha).
  unfold runPending. cbn [fst snd].
  replace (existsb _ (frameQ w)) with true
    by (symmetry; apply existsb_exists; exists (Anim.requestId (mgr w), UpdateAnimations); split; [exact Hp|apply Z.eqb_refl]).
  cbn [runCallback]. destruct (Anim.animations (mgr w)) as [|b rest] eqn:Eb; [contradiction|].
  rewrite (AnimFx.updateAnimations_throws_first sinHalfPi cosPi effect now (cancelFrame (Anim.requestId (mgr w)) w)
             (nextFrame w) (snd (requestFrame UpdateAnimations (cancelFrame (Anim.requestId (mgr w)) w))) b rest);
    [|reflexivity|cbn; exact Eb|intros v; cbn; now rewrite H2].
  cbv zeta. split; [|repeat split].
  refine (conj H1 (conj H2 (conj _ _))); cbn.
  - rewrite ?Eb. exact H3.
  - rewrite <- ?Eb. apply frameInv_rerequest; [exact H4|rewrite Eb; discriminate].
Qed.

Lemma existsb_ids (q : list (Z * FrameCb)) i :
  existsb (fun e' => Z.eqb (fst e') i) q = true <-> In i (map fst q).
Proof.
  rewrite existsb_exists, in_map_iff. split.
  - intros (x & Hx & E). apply Z.eqb_eq in E. eauto.
  - intros (x & E & Hx). exists x. split; [exact Hx|now apply Z.eqb_eq].
Qed.

Lemma runThrottle_wedged now n w :
  wedged a w -> let w' := runCallback sinHalfPi cosPi rectTop now (ThrottleLater n) w in
  wedged a w' /\ sameFrames w w' /\ errors w' = errors w.
Proof.
  intros Hw. cbn [runCallback]. destruct (nth_error (closures w) n) as [c|];
    [|split; [exact Hw|split; [repeat split|reflexivity]]].
  pose proof Hw as (H1 & _). rewrite scrollListener_unmounted by exact H1.
  split; [now apply wedged_setClosure|repeat split].
Qed.

Lemma frame_fold now f0 L w :
  wedged a w -> NoDup (map fst L) -> Forall (fun e => (fst e < f0)%Z) L -> (f0 <= nextFrame w)%Z ->
  ((Anim.requestId (mgr w) < f0)%Z -> In (Anim.requestId (mgr w), UpdateAnimations) L) ->
  (forall e, In e L -> isUpd e = true ->
     fst e = Anim.requestId (mgr w) \/ ~ In (fst e) (map fst (frameQ w))) ->
  let w' := fold_left (runPending sinHalfPi cosPi rectTop now) L w in
  wedged a w' /\ (f0 <= nextFrame w')%Z /\
  errors w' = (errors w + if Z.ltb (Anim.requestId (mgr w)) f0 then 1 else 0)%nat.
Proof.
  revert w; induction L as [|[i cb] L IH]; intros w Hw Hd Hb Hf Hr Hu; cbn [fold_left].
  { destruct (Z.ltb_spec (Anim.requestId (mgr w)) f0) as [Hl|_]; [destruct (Hr Hl)|]. auto. }
  inversion Hd as [|? ? Hi Hd']; subst. inversion Hb as [|? ? Hi0 Hb']; subst. cbn [fst] in Hi0.
  pose proof Hw as (H1 & H2 & H3 & H4). pose proof H4 as (_ & _ & _ & Hq & _ & Hp).
  assert (Ha : Anim.animations (mgr w) <> []) by (intros E; rewrite E in H3; destruct H3).
  specialize (Hp Ha).
  destruct (existsb (fun e' => Z.eqb (fst e') i) (frameQ w)) eqn:Ex.
  - pose proof Ex as Ex0. apply existsb_ids in Ex. destruct cb as [|n].
    + destruct (Hu (i, UpdateAnimations) (or_introl eq_refl) eq_refl) as [Ei | Ni]; [|contradiction].
      cbn [fst] in Ei. subst i.
      destruct (runPending_upd now w Hw) as (Hw1 & He1 & Hr1 & Hn1 & Hq1).
      destruct (IH _ Hw1 Hd' Hb') as (Hw' & Hf' & He'); [lia|lia| |].
      * intros e He Hue. right. rewrite Hq1, map_app. intros Hin. apply in_app_or in Hin as [Hin | [E | []]].
        -- destruct (Hu e (or_intror He) Hue) as [E | N].
           ++ apply Hi. rewrite <- E. now apply in_map.
           ++ apply N. apply in_map_iff in Hin as (x & Ex' & Hx). apply filter_In in Hx as [Hx _].
              rewrite <- Ex'. now apply in_map.
        -- rewrite Forall_forall in Hb'. specialize (Hb' e He). cbn in E. lia.
      * split; [exact Hw'|split; [exact Hf'|]]. rewrite He', He1, Hr1.
        destruct (Z.ltb_spec (nextFrame w) f0); [lia|]. destruct (Z.ltb_spec (Anim.requestId (mgr w)) f0); lia.
    + assert (Hir : i <> Anim.requestId (mgr w)).
      { intros ->. destruct (Hr Hi0) as [E | Hin]; [discriminate|]. apply Hi. apply (in_map fst) in Hin. exact Hin. }
      replace (runPending sinHalfPi cosPi rectTop now w (i, ThrottleLater n))
        with (runCallback sinHalfPi cosPi rectTop now (ThrottleLater n) (cancelFrame i w))
        by (unfold runPending; cbn [fst snd]; now rewrite Ex0).
      destruct (runThrottle_wedged now n (cancelFrame i w) (wedged_cancel_other i w Hw Hir)) as (Hw1 & Hs1 & He1).
      destruct Hs1 as (Hm1 & Hq1 & Hn1). cbn [cancelFrame mgr frameQ nextFrame errors] in Hm1, Hq1, Hn1, He1.
      destruct (IH _ Hw1 Hd' Hb') as (Hw' & Hf' & He'); [rewrite Hn1; exact Hf| | |].
      * rewrite Hm1. intros Hl. destruct (Hr Hl) as [E | Hin]; [discriminate|exact Hin].
      * intros e He Hue. rewrite Hm1, Hq1. destruct (Hu e (or_intror He) Hue) as [E | N]; [now left|right].
        intros Hin. apply N. apply in_map_iff in Hin as (x & Ex' & Hx). apply filter_In in Hx as [Hx _].
        rewrite <- Ex'. now apply in_map.
      * split; [exact Hw'|split; [exact Hf'|]]. rewrite He', He1, Hm1. reflexivity.
  - replace (runPending sinHalfPi cosPi rectTop now w (i, cb)) with w
      by (unfold runPending; cbn [fst snd]; now rewrite Ex).
    destruct (IH _ Hw Hd' Hb' Hf) as (Hw' & Hf' & He').
    + intros Hl. destruct (Hr Hl) as [E | Hin]; [|exact Hin]. inversion E; subst.
      exfalso. apply (proj2 (Bool.not_true_iff_false _) Ex). apply existsb_ids.
      apply (in_map fst) in Hp. exact Hp.
    + intros e He Hue. exact (Hu e (or_intror He) Hue).
    + auto.
Qed.

Lemma frame_wedged now w :
  wedged a w -> let w' := frame sinHalfPi cosPi rectTop now w in wedged a w' /\ errors w' = S (errors w).
Proof.
  intros Hw. pose proof Hw as (H1 & H2 & H3 & (Hn & Hd & Hb & Hu & Hz & Hp)).
  assert (Ha : Anim.animations (mgr w) <> []) by (intros E; rewrite E in H3; destruct H3).
  specialize (Hp Ha). unfold frame.
  destruct (frame_fold now (nextFrame w) (frameQ w) w Hw Hd) as (Hw' & _ & He').
  - eapply Forall_impl; [|exact Hb]. cbn. intros; lia.
  - lia.
  - intros _. exact Hp.
  - intros e He Hue. left. now apply Hu.
  - split; [exact Hw'|]. rewrite He'. rewrite Forall_forall in Hb. specialize (Hb _ Hp). cbn in Hb.
    destruct (Z.ltb_spec (Anim.requestId (mgr w)) (nextFrame w)); lia.
Qed.

Definition isFrame (ev : Event) : bool := match ev with EFrame _ => true | _ => false end.

Lemma step_wedged w ev :
  wedged a w -> wedged a (step sinHalfPi cosPi rectTop w ev) /\
  errors (step sinHalfPi cosPi rectTop w ev) = (errors w + if isFrame ev then 1 else 0)%nat.
Proof.
  intros Hw. pose proof Hw as (H1 & _).
  assert (Hm : isMounted w = false) by (unfold isMounted; now rewrite H1).
  destruct ev; cbn [step isFrame]; rewrite ?Hm, ?H1, ?Nat.add_0_r; try (split; [exact Hw|reflexivity]).
  - now apply scroll_wedged.
  - rewrite Nat.add_1_r. now apply frame_wedged.
  - now apply tick_wedged.
Qed.

Lemma unmount_wedged w :
  frameInv w -> phase (page w) = Mounted -> In a (Anim.animations (mgr w)) ->
  wedged a (unmount w) /\ errors (unmount w) = errors w.
Proof.
  intros Hi Hp Ha. split; [|unfold unmount, removeScrollListener; now destruct (listener (page w))].
  refine (conj eq_refl (conj eq_refl (conj _ _))); unfold unmount, removeScrollListener;
    destruct (listener (page w)); cbn; [exact Ha|exact Ha| |];
    (apply (frameInv_same w); [repeat split|exact Hi]).
Qed.

Lemma run_wedged evs w :
  wedged a w -> let w' := run sinHalfPi cosPi rectTop w evs in
  wedged a w' /\ errors w' = (errors w + length (filter isFrame evs))%nat.
Proof.
  revert w; induction evs as [|ev evs IH]; intros w Hw; unfold run; cbn [fold_left filter length].
  - split; [exact Hw|lia].
  - destruct (step_wedged w ev Hw) as [Hw' He]. destruct (IH _ Hw') as [A B].
    split; [exact A|]. unfold run in B. rewrite B, He. destruct (isFrame ev); cbn [length]; lia.
Qed.

(** C26: A scroll animation still running when the page unmounts wedges
    the animation manager: [componentWillUnmount] does not stop it, React
    sets [_scrollingContent] to [null], and from then on, whatever
    happens, the animation never leaves the manager, the manager's frame
    callback is always pending, and every animation frame throws a
    [TypeError] in [onUpdate]. *)
Theorem unmount_wedges_manager w evs :
  frameInv w -> phase (page w) = Mounted -> In a (Anim.animations (mgr w)) ->
  let w' := run sinHalfPi cosPi rectTop w (EUnmount :: evs) in
  In a (Anim.animations (mgr w')) /\ In (Anim.requestId (mgr w'), UpdateAnimations) (frameQ w') /\
  errors w' = (errors w + length (filter isFrame evs))%nat.
Proof.
  intros Hi Hp Ha. cbv zeta.
  change (run sinHalfPi cosPi rectTop w (EUnmount :: evs))
    with (run sinHalfPi cosPi rectTop (step sinHalfPi cosPi rectTop w EUnmount) evs).
  replace (step sinHalfPi cosPi rectTop w EUnmount) with (unmount w)
    by (cbn [step]; unfold isMounted; now rewrite Hp).
  destruct (unmount_wedged w Hi Hp Ha) as [Hw He].
  destruct (run_wedged evs _ Hw) as ((_ & _ & H3 & (_ & _ & _ & _ & _ & Hq)) & E).
  split; [exact H3|split; [apply Hq; intros Z; rewrite Z in H3; destruct H3|]].
  rewrite E, He. reflexivity.
Qed.

End Wedge.

(** ** The page's listener and active item *)

Definition activeIn (s : Nav.NavigationPageState) : Prop :=
  match Nav.activeItem s, Nav.navItems s with
  | Some x, Some l => In x l
  | Some _, None => False
  | None, _ => True
  end.

(** The window has at most one [scroll] listener, the page's own, and
    none unless the page is mounted; the active item is one of the nav
    items. *)
Definition pageInv (w : World) : Prop :=
  scrollListeners w = match listener (page w) with Some n => [n] | None => [] end /\
  (forall n, listener (page w) = Some n -> (n < length (closures w))%nat) /\
  (phase (page w) <> Mounted -> listener (page w) = None) /\
  activeIn (pstate (page w)).

(** What [pageInv] reads. *)
Definition pageView (w : World) :=
  (phase (page w), listener (page w), pstate (page w), scrollListeners w, length (closures w)).

Lemma pageInv_view w w' : pageView w' = pageView w -> pageInv w -> pageInv w'.
Proof.
  unfold pageView. intros [= Hp Hl Hs Hsl Hc] (A & B & C & D). unfold pageInv.
  rewrite Hp, Hl, Hs, Hsl, Hc. repeat split; assumption.
Qed.

Lemma createAnimation_view now sp w : pageView (AnimFx.createAnimation now sp w) = pageView w.
Proof.
  apply (AnimFx.createAnimation_P (fun w' => pageView w' = pageView w)); try reflexivity;
    intros; assumption.
Qed.

Lemma updateAnimations_view sinHalfPi cosPi now w :
  AnimFx.fxHolds (fun w' => pageView w' = pageView w) (AnimFx.updateAnimations sinHalfPi cosPi effect now w).
Proof.
  apply AnimFx.updateAnimations_P; try reflexivity; try (intros; assumption).
  intros [] w0 w' E H; cbn in E; [destruct (content (page w0)); [|discriminate]|]; injection E as <-; exact H.
Qed.

Lemma setScrollListener_inv w :
  pageInv w -> phase (page w) = Mounted -> pageInv (setScrollListener w).
Proof.
  intros Hw Hm. pose proof Hw as (A & B & C & D). unfold setScrollListener.
  destruct (Nav.navItems (pstate (page w))) as [[|x l]|]; try exact Hw.
  destruct (listener (page w)) as [n|] eqn:El; [exact Hw|].
  unfold pageInv; cbn. rewrite A. repeat split; try assumption.
  - intros n [= <-]. rewrite length_app. cbn. lia.
  - intros Hp. congruence.
Qed.

Lemma setState_inv s' w : pageInv w -> activeIn s' -> pageInv (setState s' w).
Proof.
  intros Hw Hs. unfold setState. destruct (phase (page w)) eqn:Hp; [exact Hw| |exact Hw].
  destruct (sameState _ _); [exact Hw|]. unfold componentWillUpdate.
  pose proof (setScrollListener_inv w Hw Hp) as (A & B & C & D).
  unfold pageInv; cbn. repeat split; assumption.
Qed.

Lemma setClosure_inv n c w :
  (n < length (closures w))%nat -> pageInv w -> pageInv (setClosure n c w).
Proof.
  intros Hn. apply pageInv_view. unfold pageView; cbn [setClosure page scrollListeners closures].
  rewrite length_app, length_firstn. cbn [app length]. rewrite length_skipn. f_equal. lia.
Qed.

Lemma throttledCall_inv w n : pageInv w -> pageInv (throttledCall w n).
Proof.
  intros Hw. unfold throttledCall. destruct (nth_error (closures w) n) as [c|] eqn:E; [|exact Hw].
  assert (Hn : (n < length (closures w))%nat) by (apply nth_error_Some; congruence).
  destruct (Timing.animationFrame c); [now apply setClosure_inv|].
  apply setClosure_inv; [exact Hn|]. exact (pageInv_view w _ eq_refl Hw).
Qed.

Lemma scroll_inv w : pageInv w -> pageInv (scroll w).
Proof.
  unfold scroll. generalize (scrollListeners w). intros l. revert w.
  induction l as [|n l IH]; intros w Hw; cbn; [exact Hw|]. apply IH, throttledCall_inv, Hw.
Qed.

Lemma find_activeIn p s nav rectTop next :
  Nav.scrollListener rectTop p s nav = Some next -> activeIn (Nav.mkState (Some next) (Nav.navItems s)).
Proof.
  unfold Nav.scrollListener. destruct (Nav.navItems s) as [l|]; [|discriminate].
  destruct nav; [discriminate|]. destruct (find _ l) as [x|] eqn:E; [|discriminate].
  apply find_some in E as [Hx _]. cbn.
  destruct (Nav.activeItem s); [destruct (Nat.eqb _ _); [discriminate|]|]; intros [= <-]; exact Hx.
Qed.

Lemma frame_inv sinHalfPi cosPi rectTop now w : pageInv w -> pageInv (frame sinHalfPi cosPi rectTop now w).
Proof.
  unfold frame. generalize (frameQ w). intros q. revert w.
  induction q as [|[i cb] q IH]; intros w Hw; cbn [fold_left]; [exact Hw|]. apply IH.
  unfold runPending. destruct (existsb _ _); [|exact Hw]. cbn [fst snd].
  assert (Hc : pageInv (cancelFrame i w)) by exact (pageInv_view w _ eq_refl Hw).
  destruct cb as [|n]; cbn [runCallback].
  - pose proof (updateAnimations_view sinHalfPi cosPi now (cancelFrame i w)) as H.
    destruct (AnimFx.updateAnimations _ _ _ _ _) as [w1|w1]; cbn in H;
      [|apply (pageInv_view w1); [reflexivity|]]; apply (pageInv_view _ _ H Hc).
  - destruct (nth_error (closures (cancelFrame i w)) n) as [c|] eqn:E; [|exact Hc].
    assert (Hn : (n < length (closures (cancelFrame i w)))%nat) by (apply nth_error_Some; congruence).
    pose proof (setClosure_inv n (Timing.mkThrottle (Timing.latestArgs c) None) _ Hn Hc) as Hs.
    unfold scrollListener. destruct (Nav.scrollListener _ _ _ _) eqn:Es; [|exact Hs].
    apply setState_inv; [exact Hs|]. eapply find_activeIn. exact Es.
Qed.

Lemma tick_inv now w : pageInv w -> pageInv (tick now w).
Proof.
  intros Hw. unfold tick. generalize (filter (fun t => Qle_bool (snd (fst t)) now) (timers w)) as l.
  intros l. set (w0 := mkWorld _ _ _ _ _ _ _ _ _ _).
  assert (Hw0 : pageInv w0) by exact (pageInv_view w _ eq_refl Hw). clearbody w0. clear Hw.
  revert w0 Hw0. induction l as [|[[id t] []] l IH]; intros w0 Hw0; cbn; [exact Hw0|].
  apply IH. exact (pageInv_view w0 _ eq_refl Hw0).
Qed.

Lemma navigateToItem_inv now i w : pageInv w -> pageInv (navigateToItem now i w).
Proof.
  intros Hw. unfold navigateToItem.
  destruct (Nav.navItems (pstate (page w))) as [l|] eqn:El; [|exact Hw].
  destruct (nth_error l i) as [item|] eqn:Ei; [|exact Hw].
  apply setState_inv; [|cbn; exact (nth_error_In _ _ Ei)].
  apply (pageInv_view w); [|exact Hw].
  change (pageView (AnimFx.createAnimation now
            (Anim.mkAnimSpec (scrollTop (setPage (withNavigating true (page w)) w)) (Nav.navOffsetTop item)
               (Fin (1 # 4)) Anim.EaseOutSine navTag None) (setPage (withNavigating true (page w)) w)) = pageView w).
  rewrite createAnimation_view. reflexivity.
Qed.

Lemma mount_inv cs w : pageInv w -> phase (page w) = Constructed -> pageInv (mount cs w).
Proof.
  intros (A & B & C & D) Hp. rewrite C in A, B by (rewrite Hp; discriminate).
  unfold mount, componentDidMount. cbn [page content].
  set (w1 := setPage _ w).
  assert (H1 : pageInv w1) by (unfold pageInv; cbn; rewrite C by (rewrite Hp; discriminate);
                              repeat split; try assumption; intros; discriminate).
  apply setState_inv; [apply setScrollListener_inv; [exact H1|reflexivity]|].
  cbn. destruct (Nav.createNavItemsRecursive _ _ _ _) as [|x l]; cbn; [exact I|now left].
Qed.

Lemma unmount_inv w : pageInv w -> pageInv (unmount w).
Proof.
  intros (A & B & C & D). unfold unmount, removeScrollListener.
  destruct (listener (page w)) as [n|] eqn:El; unfold pageInv; cbn; rewrite A; cbn;
    [rewrite Nat.eqb_refl|rewrite El]; repeat split; try assumption; intros; first [discriminate | reflexivity].
Qed.

Lemma step_inv sinHalfPi cosPi rectTop w ev :
  pageInv w -> pageInv (step sinHalfPi cosPi rectTop w ev).
Proof.
  intros Hw. destruct ev; cbn [step].
  - destruct (phase (page w)) eqn:Hp; [now apply mount_inv|exact Hw|exact Hw].
  - destruct (isMounted w); [now apply navigateToItem_inv|exact Hw].
  - now apply scroll_inv.
  - now apply frame_inv.
  - now apply tick_inv.
  - unfold isMounted. destruct (phase (page w)) eqn:Hp; [exact Hw| |exact Hw].
    unfold rerender, componentWillUpdate.
    pose proof (setScrollListener_inv w Hw Hp) as H. apply (pageInv_view _ _ eq_refl) in H.
    exact (pageInv_view _ _ eq_refl H).
  - destruct (isMounted w); [now apply unmount_inv|exact Hw].
Qed.

(** C27: In every world the page reaches through mount, clicks, scroll
    events, frames, timers, new props and unmount, the window has at most
    one [scroll] listener, the page's own, and none once the page is
    unmounted, and the active item is one of the nav items. *)
Theorem reachable_page_inv sinHalfPi cosPi rectTop p evs :
  pageInv (run sinHalfPi cosPi rectTop (initWorld p) evs).
Proof.
  unfold run. assert (H0 : pageInv (initWorld p)) by (repeat split; cbn; intros; discriminate).
  revert H0. generalize (initWorld p). induction evs as [|ev evs IH]; intros w Hw; [exact Hw|].
  apply IH, step_inv, Hw.
Qed.

(** ** Mount *)

(** Mounting a page with nav items fills the menu but registers no
    scroll listener: [componentDidMount] calls [_setScrollListener]
    before its [setState] is applied, and [componentWillUpdate] still
    sees the old state, so a [scroll] event does nothing.  The listener
    is registered by the next update, here a render with new props. *)
Theorem mount_defers_listener sinHalfPi cosPi rectTop p cs p' :
  Nav.createNavItemsRecursive (Nav.maxLevel p) [] cs 0 <> [] ->
  let w := run sinHalfPi cosPi rectTop (initWorld p) [EMount cs] in
  Nav.navItems (pstate (page w)) = Some (Nav.createNavItemsRecursive (Nav.maxLevel p) [] cs 0) /\
  listener (page w) = None /\ scrollListeners w = [] /\ scroll w = w /\
  scrollListeners (step sinHalfPi cosPi rectTop w (ERerender p')) = [0%nat].
Proof.
  intros Hne. cbv zeta. unfold run. cbn [fold_left step initWorld page phase].
  unfold mount, componentDidMount, setScrollListener. cbn.
  destruct (Nav.createNavItemsRecursive (Nav.maxLevel p) [] cs 0) as [|it l]; [contradiction|].
  cbn. repeat split.
Qed.

Module NavWorldTests.

Definition ident (x : num) : num := x.
Definition flat (_ : num) (_ : nat) : num := Fin 0.
Definition props0 : Nav.NavigationPageProps := Nav.NavTests.props0.
Definition runT (evs : list Event) : World := run ident ident flat (initWorld props0) evs.

Example mount_registers_nothing :
  let w := runT [EMount Nav.NavTests.content] in
  listener (page w) = None /\ scrollListeners w = [] /\ option_map (@length _) (Nav.navItems (pstate (page w))) = Some 3%nat.
Proof. vm_compute. auto. Qed.

Example rerender_registers :
  scrollListeners (runT [EMount Nav.NavTests.content; ERerender props0]) = [0%nat].
Proof. vm_compute. reflexivity. Qed.

Example unmount_during_navigation :
  errors (runT [EMount Nav.NavTests.content; EClick 0 1; EFrame 16; EUnmount; EFrame 32; EFrame 48; ETick 300;
                EFrame 400; EFrame 1000]) = 4%nat.
Proof. vm_compute. reflexivity. Qed.

Definition wClick : World := runT [EMount Nav.NavTests.content; EClick 0 1].
Definition navAnim : Anim.Animation := hd (Anim.newAnimation 0 (Anim.mkAnimSpec (Fin 0) (Fin 0) (Fin 0) Anim.Linear 0 None))
                                         (Anim.animations (mgr wClick)).

Lemma unmount_wedges_manager_witness :
  frameInv wClick /\ phase (page wClick) = Mounted /\ In navAnim (Anim.animations (mgr wClick)) /\
  errors (run ident ident flat wClick (EUnmount :: [EFrame 16; EScroll; EFrame 2000])) = 2%nat.
Proof.
  assert (H1 : frameInv wClick).
  { vm_compute. repeat split; try lia.
    - repeat constructor; intros [].
    - repeat constructor; lia.
    - intros e [<- | []] _. reflexivity.
    - discriminate.
    - intros _. left. reflexivity. }
  assert (H2 : phase (page wClick) = Mounted) by reflexivity.
  assert (H3 : In navAnim (Anim.animations (mgr wClick))) by (vm_compute; left; reflexivity).
  split; [exact H1|split; [exact H2|split; [exact H3|]]].
  destruct (unmount_wedges_manager ident ident flat navAnim wClick [EFrame 16; EScroll; EFrame 2000] H1 H2 H3)
    as (_ & _ & E).
  rewrite E. reflexivity.
Defined.

Lemma mount_defers_listener_witness :
  Nav.createNavItemsRecursive (Nav.maxLevel props0) [] Nav.NavTests.content 0 <> [] /\
  scrollListeners (runT [EMount Nav.NavTests.content]) = [].
Proof.
  assert (H : Nav.createNavItemsRecursive (Nav.maxLevel props0) [] Nav.NavTests.content 0 <> [])
    by (vm_compute; discriminate).
  split; [exact H|].
  destruct (mount_defers_listener ident ident flat props0 Nav.NavTests.content props0 H) as (_ & _ & E & _).
  exact E.
Defined.

End NavWorldTests.

End NavWorld.
