(* ===== verification/GrowAnimation.v ===== *)
(** * The grow animation container: [src/src/GrowAnimationContainer/index.tsx]

      [GrowAnimationContainer] slides its children in and out.  Its state
      is a [GrowState]; CSS transitions do the animation, and the
      component moves between the states on four occasions:
      - a timer set at mount (150 ms), which starts expanding or
        collapsing toward [show];
      - [componentDidUpdate], after every update, which turns toward
        [show] a container that is collapsed or collapsing (when [show])
        or expanded or expanding (when not);
      - [transitionend] events of the outer container, [debounce]d by
        50 ms, which finish the move and call [onAnimationComplete];
      - unmount, which only clears [_mounted].

      [World] holds the props, the state, [_mounted], the debounced
      listener's closure (its [timeoutId]), the window's timers, the
      clock, and the calls of [onAnimationComplete] with whether the
      component was mounted then.  [setState] is React's: an update to an
      equal state is skipped by the [PureComponent], an update is followed
      by [componentDidUpdate], and after unmount nothing happens; the
      [componentDidUpdate] cycle is followed with fuel, and one round is
      proved enough. *)

From Stdlib Require Import QArith Qminmax ZArith List String Bool Lia.
From S2P Require Import Prelude StringUtils.
Import ListNotations.
Open Scope string_scope.
Open Scope list_scope.

Module Grow.

(** [const enum GrowState] (lines 18-24). *)
Inductive GrowState : Type := Initial | Expanding | Expanded | Collapsing | Collapsed.

Definition growState_eqb (a b : GrowState) : bool :=
  match a, b with
  | Initial, Initial | Expanding, Expanding | Expanded, Expanded
  | Collapsing, Collapsing | Collapsed, Collapsed => true
  | _, _ => false
  end.

(** [interface GrowAnimationContainerProps] (lines 6-12); a missing flag
    is [false], and [onAnimationComplete] is whether there is one. *)
Record GrowProps : Type := mkGrowProps {
  fade : bool;
  growDown : bool;
  initiallyExpanded : bool;
  show : bool;
  onAnimationComplete : bool
}.

Definition props_eqb (p q : GrowProps) : bool :=
  Bool.eqb (fade p) (fade q) && Bool.eqb (growDown p) (growDown q) &&
  Bool.eqb (initiallyExpanded p) (initiallyExpanded q) && Bool.eqb (show p) (show q) &&
  Bool.eqb (onAnimationComplete p) (onAnimationComplete q).

Inductive Phase : Type := Constructed | Mounted | Unmounted.

(** The timer callbacks: the one of [componentDidMount], and the
    [func] of the debounced listener. *)
Inductive TimerCb : Type := MountTimer | TransitionEndTimer.

Record World : Type := mkWorld {
  props : GrowProps;
  growState : GrowState;
  phase : Phase;
  mounted : bool;                      (* [this._mounted] *)
  listenerTimeout : option (option Z); (* the debounced listener, if added, and its [timeoutId] *)
  timers : list (Z * Q * TimerCb);
  nextTimer : Z;
  now : Q;
  completions : list bool              (* the calls of [onAnimationComplete], mounted or not *)
}.

Definition withGrowState (g : GrowState) (w : World) : World :=
  mkWorld (props w) g (phase w) (mounted w) (listenerTimeout w) (timers w) (nextTimer w) (now w) (completions w).

(** [componentDidUpdate]'s target (lines 75-85). *)
Definition didUpdateTarget (show : bool) (g : GrowState) : GrowState :=
  if show then match g with Collapsed | Collapsing => Expanding | _ => g end
  else match g with Expanded | Expanding => Collapsing | _ => g end.

(** [this.setState({ growState: g })], followed by [componentDidUpdate]
    and the updates it asks for, with [fuel] rounds. *)
Fixpoint setGrowState (fuel : nat) (g : GrowState) (w : World) : World :=
  match phase w with
  | Mounted =>
      if growState_eqb g (growState w) then w
      else
        let w := withGrowState g w in
        match fuel with
        | O => w
        | S f => setGrowState f (didUpdateTarget (show (props w)) (growState w)) w
        end
  | _ => w
  end.

(** One round is enough (lemma [setGrowState_fuel]). *)
Definition updateFuel : nat := 2.

Definition setState (g : GrowState) (w : World) : World := setGrowState updateFuel g w.

(** [componentDidUpdate] (lines 74-90). *)
Definition componentDidUpdate (w : World) : World :=
  setState (didUpdateTarget (show (props w)) (growState w)) w.

(** The constructor (lines 33-42). *)
Definition initWorld (p : GrowProps) : World :=
  mkWorld p (if initiallyExpanded p then Expanded else Collapsed) Constructed false None [] 1 0 [].

(** [window.setTimeout(cb, delay)] now. *)
Definition setTimeout (cb : TimerCb) (delay : Q) (w : World) : Z * World :=
  (nextTimer w,
   mkWorld (props w) (growState w) (phase w) (mounted w) (listenerTimeout w)
     (timers w ++ [(nextTimer w, (now w + delay)%Q, cb)]) (nextTimer w + 1)%Z (now w) (completions w)).

(** [window.clearTimeout(id)]. *)
Definition clearTimeout (id : Z) (ts : list (Z * Q * TimerCb)) : list (Z * Q * TimerCb) :=
  filter (fun t => negb (Z.eqb (fst (fst t)) id)) ts.

(** [componentDidMount] (lines 44-68): the timer, [_mounted], and the
    debounced [transitionend] listener on the outer container, whose ref
    is set by then. *)
Definition componentDidMount (w : World) : World :=
  let '(_, w) := setTimeout MountTimer 150 w in
  mkWorld (props w) (growState w) Mounted true (Some None) (timers w) (nextTimer w) (now w) (completions w).

(** The mount timer's target (lines 53-58). *)
Definition mountTarget (show : bool) (g : GrowState) : GrowState :=
  match g, show with
  | Collapsed, true => Expanding
  | Expanded, false => Collapsing
  | _, _ => g
  end.

(** The mount timer's callback (lines 47-59). *)
Definition mountTimer (w : World) : World :=
  if negb (mounted w) then w
  else setState (mountTarget (show (props w)) (growState w)) w.

(** [_onTransitionEnd]'s target (lines 134-140). *)
Definition transitionTarget (g : GrowState) : GrowState :=
  match g with Expanding => Expanded | Collapsing => Collapsed | _ => g end.

(** [_onTransitionEnd] (lines 131-148). *)
Definition onTransitionEnd (w : World) : World :=
  let w := setState (transitionTarget (growState w)) w in
  if onAnimationComplete (props w) then
    mkWorld (props w) (growState w) (phase w) (mounted w) (listenerTimeout w) (timers w) (nextTimer w) (now w)
      (completions w ++ [mounted w])
  else w.

(** A [transitionend] event: the debounced function (TimingUtils lines
    28-34) clears its pending timer and sets a new one.  Timer ids start
    at 1, so [if (timeoutId)] holds exactly when one has been set. *)
Definition transitionEnd (w : World) : World :=
  match listenerTimeout w with
  | Some tid =>
      let ts := match tid with
                | Some id => clearTimeout id (timers w)
                | None => timers w
                end in
      let w := mkWorld (props w) (growState w) (phase w) (mounted w) (listenerTimeout w) ts
                 (nextTimer w) (now w) (completions w) in
      let '(id, w) := setTimeout TransitionEndTimer 50 w in
      mkWorld (props w) (growState w) (phase w) (mounted w) (Some (Some id)) (timers w) (nextTimer w)
        (now w) (completions w)
  | None => w
  end.

(** [componentWillUnmount] (lines 70-72). *)
Definition unmount (w : World) : World :=
  mkWorld (props w) (growState w) Unmounted false (listenerTimeout w) (timers w) (nextTimer w) (now w)
    (completions w).

(** New props from the parent: an update unless they are equal. *)
Definition receiveProps (p : GrowProps) (w : World) : World :=
  if props_eqb p (props w) then w
  else
    match phase w with
    | Mounted =>
        componentDidUpdate
          (mkWorld p (growState w) (phase w) (mounted w) (listenerTimeout w) (timers w) (nextTimer w)
             (now w) (completions w))
    | _ => mkWorld p (growState w) (phase w) (mounted w) (listenerTimeout w) (timers w) (nextTimer w)
             (now w) (completions w)
    end.

(** ** Time *)

(** The timer the browser runs next: the earliest due, the first set
    among equals. *)
Fixpoint earliest (ts : list (Z * Q * TimerCb)) : option (Z * Q * TimerCb) :=
  match ts with
  | [] => None
  | t :: ts =>
      match earliest ts with
      | Some u => if Qle_bool (snd (fst t)) (snd (fst u)) then Some t else Some u
      | None => Some t
      end
  end.

Definition runTimer (cb : TimerCb) (w : World) : World :=
  match cb with MountTimer => mountTimer w | TransitionEndTimer => onTransitionEnd w end.

(** The browser takes a due timer off its list and sets the clock to
    its due time. *)
Definition takeTimer (id : Z) (due : Q) (w : World) : World :=
  mkWorld (props w) (growState w) (phase w) (mounted w) (listenerTimeout w)
    (clearTimeout id (timers w)) (nextTimer w) (Qmax due (now w)) (completions w).

(** The clock moves to [t], running the timers due on the way, in order;
    no callback sets a timer, so [length (timers w)] rounds are enough. *)
Fixpoint advanceFuel (fuel : nat) (t : Q) (w : World) : World :=
  match fuel with
  | O => w
  | S f =>
      match earliest (timers w) with
      | Some (id, due, cb) =>
          if Qle_bool due t then advanceFuel f t (runTimer cb (takeTimer id due w))
          else w
      | None => w
      end
  end.

Definition advance (t : Q) (w : World) : World :=
  let w := advanceFuel (List.length (timers w)) t w in
  mkWorld (props w) (growState w) (phase w) (mounted w) (listenerTimeout w) (timers w) (nextTimer w)
    (Qmax t (now w)) (completions w).

(** ** Render (lines 92-129) *)

Inductive ContainerStyle : Type := NoMaxHeight | MaxHeightNone | MaxHeightContent.

(** [containerStyle]: [maxHeight: 'none'], or the inner container's
    [offsetHeight] ([MaxHeightContent], or ['none'] before its ref is
    set), or nothing. *)
Definition containerStyle (innerRef : bool) (p : GrowProps) (g : GrowState) : ContainerStyle :=
  if show p && growState_eqb g Expanded then MaxHeightNone
  else if growState_eqb g Expanding || (negb (show p) && growState_eqb g Expanded) then
    (if innerRef then MaxHeightContent else MaxHeightNone)
  else NoMaxHeight.

Definition innerContainerClass (p : GrowProps) (g : GrowState) : string :=
  Tokens.buildClassString
    [("inner-grow-container", true);
     ("show", growState_eqb g Expanding || growState_eqb g Expanded);
     ("fade", fade p);
     ("grow-down", growDown p)].

(** What [render] (lines 92-129) returns: the outer container with its
    class and style, the inner container with its class; the children
    pass through unchanged. *)
Record GrowView : Type := mkGrowView { outerClass : string; outerStyle : ContainerStyle; innerClass : string }.

(** [render]: React sets [_innerContainerRef] before [componentDidMount]
    and clears it at unmount, so the ref is there while mounted. *)
Definition render (w : World) : GrowView :=
  let innerRef := match phase w with Mounted => true | _ => false end in
  mkGrowView "outer-grow-container" (containerStyle innerRef (props w) (growState w))
    (innerContainerClass (props w) (growState w)).

(** ** Events *)

Inductive Event : Type :=
| EMount
| EProps (p : GrowProps)
| ETransitionEnd
| EAdvance (t : Q)
| EUnmount.

Definition step (w : World) (ev : Event) : World :=
  match ev with
  | EMount => match phase w with Constructed => componentDidMount w | _ => w end
  | EProps p => match phase w with Unmounted => w | _ => receiveProps p w end
  | ETransitionEnd => transitionEnd w
  | EAdvance t => advance t w
  | EUnmount => match phase w with Mounted => unmount w | _ => w end
  end.

Definition run (w : World) (evs : list Event) : World := fold_left step evs w.

(** ** The [componentDidUpdate] cycle *)

Lemma growState_eqb_spec a b : growState_eqb a b = true <-> a = b.
Proof. destruct a, b; cbn; split; congruence. Qed.

Lemma didUpdateTarget_idem s g : didUpdateTarget s (didUpdateTarget s g) = didUpdateTarget s g.
Proof. destruct s, g; reflexivity. Qed.

Lemma growState_eqb_refl g : growState_eqb g g = true.
Proof. destruct g; reflexivity. Qed.

(** With any fuel, [setState g] of a mounted component not already in
    [g] ends in [componentDidUpdate]'s target for [g]; an equal state, or
    a component that is not mounted, leaves the world as it is. *)
Lemma setGrowState_settles f g w :
  setGrowState (S f) g w =
  match phase w with
  | Mounted =>
      if growState_eqb g (growState w) then w
      else withGrowState (didUpdateTarget (show (props w)) g) w
  | _ => w
  end.
Proof.
  cbn [setGrowState]. destruct (phase w) eqn:Hp; try reflexivity.
  destruct (growState_eqb g (growState w)); [reflexivity|].
  destruct f as [|f]; cbn [setGrowState withGrowState phase growState props]; rewrite Hp;
    destruct (growState_eqb (didUpdateTarget (show (props w)) g) g) eqn:E;
    try (apply growState_eqb_spec in E; rewrite E; reflexivity); try reflexivity.
  rewrite didUpdateTarget_idem. destruct f; cbn; rewrite Hp, growState_eqb_refl; reflexivity.
Qed.

Lemma setState_eq g w :
  setState g w =
  match phase w with
  | Mounted =>
      if growState_eqb g (growState w) then w
      else withGrowState (didUpdateTarget (show (props w)) g) w
  | _ => w
  end.
Proof. apply setGrowState_settles. Qed.

Lemma setState_mounted g w :
  phase w = Mounted ->
  setState g w = withGrowState (didUpdateTarget (show (props w)) g) w \/
  (setState g w = w /\ g = growState w).
Proof.
  intros Hp. rewrite setState_eq, Hp.
  destruct (growState_eqb g (growState w)) eqn:E; [right; split; [reflexivity|]|left; reflexivity].
  now apply growState_eqb_spec.
Qed.

Lemma grow_setState_unmounted g w : phase w <> Mounted -> setState g w = w.
Proof. intros Hp. rewrite setState_eq. destruct (phase w); congruence. Qed.

(** [componentDidUpdate] ends the update cycle it starts: on a
    mounted component it moves to its target for the current state in one
    update, after which the [componentDidUpdate] of that update changes
    nothing (the cycle the fuel follows stops after one round). *)
Theorem componentDidUpdate_settles w :
  phase w = Mounted ->
  growState (componentDidUpdate w) = didUpdateTarget (show (props w)) (growState w) /\
  componentDidUpdate (componentDidUpdate w) = componentDidUpdate w.
Proof.
  intros Hp. unfold componentDidUpdate.
  destruct (setState_mounted (didUpdateTarget (show (props w)) (growState w)) w Hp) as [E|[E Eg]];
    rewrite E; cbn [growState withGrowState props]; rewrite ?didUpdateTarget_idem.
  - split; [reflexivity|]. rewrite setState_eq. cbn. rewrite Hp, growState_eqb_refl. reflexivity.
  - split; [now rewrite Eg|]. rewrite E. reflexivity.
Qed.

(** ** The invariant of a reachable container *)

(** The states a container may be in while [show] holds its value: never
    [Initial], and never moving away from [show]. *)
Definition pre (show : bool) (g : GrowState) : bool :=
  match g, show with
  | Initial, _ | Collapsing, true | Expanding, false => false
  | _, _ => true
  end.

(** The states that move toward, or are at, [show]. *)
Definition towards (show : bool) (g : GrowState) : bool :=
  match g, show with
  | Expanding, true | Expanded, true | Collapsing, false | Collapsed, false => true
  | _, _ => false
  end.

Definition stable (g : GrowState) : bool :=
  match g with Expanded | Collapsed => true | _ => false end.

Definition isMount (t : Z * Q * TimerCb) : bool :=
  match snd t with MountTimer => true | TransitionEndTimer => false end.

(** The mount timer has run. *)
Definition mountDone (w : World) : bool := negb (existsb isMount (timers w)).

(** A pending [transitionend] timer is the debounced listener's
    [timeoutId]; the mount timer is not. *)
Definition timerOk (l : option (option Z)) (t : Z * Q * TimerCb) : Prop :=
  match snd t with
  | TransitionEndTimer => l = Some (Some (fst (fst t)))
  | MountTimer => l <> Some (Some (fst (fst t)))
  end.

(** The window side: [_mounted], the timers and the listener. *)
Definition GBase (w : World) : Prop :=
  (mounted w = true <-> phase w = Mounted) /\
  (forall t, In t (timers w) -> (fst (fst t) < nextTimer w)%Z /\ timerOk (listenerTimeout w) t) /\
  (phase w = Constructed -> timers w = [] /\ listenerTimeout w = None) /\
  (phase w <> Constructed -> listenerTimeout w <> None).

(** The component side: the state. *)
Definition GState (w : World) : Prop :=
  pre (show (props w)) (growState w) = true /\
  (phase w = Mounted -> mountDone w = true -> towards (show (props w)) (growState w) = true) /\
  (phase w = Constructed -> stable (growState w) = true).

Definition GInv (w : World) : Prop := GBase w /\ GState w.

Lemma towards_pre s g : towards s g = true -> pre s g = true.
Proof. destruct s, g; easy. Qed.

Lemma stable_pre s g : stable g = true -> pre s g = true.
Proof. destruct s, g; easy. Qed.

Lemma pre_initial s g : pre s g = true -> g <> Initial.
Proof. destruct s, g; easy. Qed.

Lemma target_towards s g : g <> Initial -> towards s (didUpdateTarget s g) = true.
Proof. destruct s, g; easy. Qed.

Lemma target_initial s g : g <> Initial -> didUpdateTarget s g <> Initial.
Proof. destruct s, g; easy. Qed.

Lemma target_fixed_towards s g : g <> Initial -> didUpdateTarget s g = g -> towards s g = true.
Proof. destruct s, g; easy. Qed.

Lemma GState_towards w :
  phase w = Mounted -> towards (show (props w)) (growState w) = true -> GState w.
Proof. intros Hp Ht. split; [now apply towards_pre|split; [easy|congruence]]. Qed.

(** [setState] changes the state only, and on a mounted component it
    leaves it moving toward [show], or leaves the world as it was. *)
Lemma setState_base g w : GBase w -> GBase (setState g w).
Proof. rewrite setState_eq. destruct (phase w), (growState_eqb g (growState w)); easy. Qed.

Lemma setState_towards g w :
  phase w = Mounted -> g <> Initial ->
  (phase (setState g w) = Mounted /\
   towards (show (props (setState g w))) (growState (setState g w)) = true) \/
  (setState g w = w /\ g = growState w).
Proof.
  intros Hp Hg. destruct (setState_mounted g w Hp) as [E|E]; [left|right; exact E].
  rewrite E. split; [exact Hp|]. now apply target_towards.
Qed.

Lemma GState_idle w :
  pre (show (props w)) (growState w) = true -> phase w <> Mounted ->
  (phase w = Constructed -> stable (growState w) = true) -> GState w.
Proof. intros Hpre Hp Hc. split; [exact Hpre|split; [congruence|exact Hc]]. Qed.

(** An update to a state other than [Initial] keeps the invariant. *)
Lemma grow_setState_inv g w : GInv w -> g <> Initial -> GInv (setState g w).
Proof.
  intros [Hb Hs] Hg. split; [now apply setState_base|].
  destruct (phase w) eqn:Hp; try (rewrite grow_setState_unmounted by congruence; exact Hs).
  destruct (setState_towards g w Hp Hg) as [[Hp' Ht]|[E _]]; [now apply GState_towards|].
  rewrite E. exact Hs.
Qed.

(** [componentDidUpdate] needs the window side only: it turns any state
    but [Initial] toward [show]. *)
Lemma componentDidUpdate_inv w :
  phase w = Mounted -> GBase w -> growState w <> Initial -> GInv (componentDidUpdate w).
Proof.
  intros Hp Hb Hi. split; [now apply setState_base|]. unfold componentDidUpdate.
  destruct (setState_towards (didUpdateTarget (show (props w)) (growState w)) w Hp)
    as [[Hp' Ht]|[E Eg]]; [now apply target_initial|now apply GState_towards|].
  rewrite E. apply GState_towards; [exact Hp|]. now apply target_fixed_towards.
Qed.

Lemma mountTarget_initial s g : g <> Initial -> mountTarget s g <> Initial.
Proof. destruct s, g; easy. Qed.

Lemma mountTarget_fixed s g : pre s g = true -> mountTarget s g = g -> towards s g = true.
Proof. destruct s, g; easy. Qed.

Lemma transitionTarget_initial g : g <> Initial -> transitionTarget g <> Initial.
Proof. destruct g; easy. Qed.

(** *** Timers *)

Lemma In_clearTimeout t id ts : In t (clearTimeout id ts) <-> In t ts /\ fst (fst t) <> id.
Proof.
  unfold clearTimeout. rewrite filter_In, negb_true_iff, Z.eqb_neq. reflexivity.
Qed.

Lemma existsb_clearTimeout id ts :
  (forall t, In t ts -> isMount t = true -> fst (fst t) <> id) ->
  existsb isMount (clearTimeout id ts) = existsb isMount ts.
Proof.
  unfold clearTimeout. induction ts as [|t ts IH]; intros H; [reflexivity|]. cbn [filter existsb].
  destruct (Z.eqb (fst (fst t)) id) eqn:E; cbn; rewrite IH by (intros; apply H; auto using in_cons).
  - apply Z.eqb_eq in E. destruct (isMount t) eqn:M; [|reflexivity].
    exfalso. exact (H t (in_eq _ _) M E).
  - reflexivity.
Qed.

Lemma earliest_In ts t : earliest ts = Some t -> In t ts.
Proof.
  induction ts as [|u ts IH]; cbn; [discriminate|].
  destruct (earliest ts) as [v|]; [destruct (Qle_bool _ _)|]; intros E; injection E as <-; auto.
Qed.

(** The mount timer's id is never the listener's [timeoutId]. *)
Lemma mount_not_listener w id :
  GBase w -> listenerTimeout w = Some (Some id) ->
  forall t, In t (timers w) -> isMount t = true -> fst (fst t) <> id.
Proof.
  intros (_ & Ht & _) Hl t Hin Hm. specialize (proj2 (Ht t Hin)). unfold timerOk, isMount in *.
  destruct (snd t); [|discriminate]. rewrite Hl. intros Hne E. apply Hne. now rewrite E.
Qed.

(** *** Each operation keeps the invariant *)

Lemma initWorld_inv p : GInv (initWorld p).
Proof.
  unfold initWorld. split; [split; [|split; [|split]]|]; cbn; try easy.
  apply GState_idle; cbn; [|discriminate|]; destruct (initiallyExpanded p), (show p); reflexivity.
Qed.

Lemma componentDidMount_inv w : phase w = Constructed -> GInv w -> GInv (componentDidMount w).
Proof.
  intros Hp [(_ & _ & Hc & _) (Hpre & _ & Hst)]. destruct (Hc Hp) as [Ht _].
  unfold componentDidMount, setTimeout. rewrite Ht. cbn.
  split; [split; [easy|split; [|easy]]|split; [exact Hpre|easy]].
  intros t [<-|[]]. cbn. split; [lia|congruence].
Qed.

Lemma grow_unmount_inv w : phase w = Mounted -> GInv w -> GInv (unmount w).
Proof.
  intros Hp [(_ & Ht & _ & Hl) (Hpre & _)]. split.
  - split; [easy|split; [exact Ht|split; [discriminate|intros _; apply Hl; congruence]]].
  - apply GState_idle; [exact Hpre|discriminate..].
Qed.

Lemma grow_receiveProps_inv p w : phase w <> Unmounted -> GInv w -> GInv (receiveProps p w).
Proof.
  intros Hu Hw. unfold receiveProps. destruct (props_eqb p (props w)); [exact Hw|].
  destruct Hw as [Hb (Hpre & _ & Hst)]. unfold GBase in Hb.
  destruct (phase w) eqn:Hp; [|apply componentDidUpdate_inv; [reflexivity|exact Hb|]|congruence].
  - split; [exact Hb|]. apply GState_idle; cbn; [apply stable_pre|discriminate|]; auto.
  - exact (pre_initial _ _ Hpre).
Qed.

Lemma transitionEnd_inv w : GInv w -> GInv (transitionEnd w).
Proof.
  intros [Hb Hs]. unfold transitionEnd.
  destruct (listenerTimeout w) as [tid|] eqn:Hl; [|split; assumption].
  destruct Hb as (Hm & Ht & Hc & Hnc).
  assert (Hp : phase w <> Constructed) by (intros E; destruct (Hc E); congruence).
  set (ts := match tid with Some id => clearTimeout id (timers w) | None => timers w end).
  assert (Hts : forall t, In t ts -> In t (timers w) /\ tid <> Some (fst (fst t))).
  { intros t. subst ts. destruct tid as [id|]; [rewrite In_clearTimeout; intros [H1 H2]; split; congruence|].
    intros H; split; congruence. }
  assert (Hex : existsb isMount ts = existsb isMount (timers w)).
  { subst ts. destruct tid as [id|]; [|reflexivity]. apply existsb_clearTimeout, (mount_not_listener w); easy. }
  cbn. split; [split; [exact Hm|split; [|split; [intros E; contradiction|discriminate]]]|].
  - intros t Hin. apply in_app_or in Hin. destruct Hin as [Hin|[<-|[]]]; [|cbn; split; [lia|reflexivity]].
    destruct (Hts t Hin) as [Hin' Hne]. destruct (Ht t Hin') as [Hlt Hok]. cbn [nextTimer listenerTimeout]. split; [lia|].
    unfold timerOk in *. rewrite Hl in Hok. destruct (snd t); [|congruence].
    intros E. injection E as E. lia.
  - destruct Hs as (Hpre & Hd & Hst). split; [exact Hpre|split; [|intros E; contradiction]].
    intros Hm' Hd'. apply Hd; [exact Hm'|]. unfold mountDone in *. cbn in Hd'.
    rewrite existsb_app, Hex in Hd'. cbn in Hd'. now rewrite orb_false_r in Hd'.
Qed.

Lemma onTransitionEnd_inv w : GInv w -> GInv (onTransitionEnd w).
Proof.
  intros Hw. assert (H : GInv (setState (transitionTarget (growState w)) w)).
  { apply grow_setState_inv; [exact Hw|]. apply transitionTarget_initial, (pre_initial (show (props w))), Hw. }
  unfold onTransitionEnd. destruct (onAnimationComplete _); exact H.
Qed.

Lemma mountTimer_inv w : GBase w -> pre (show (props w)) (growState w) = true -> phase w <> Constructed ->
  GInv (mountTimer w).
Proof.
  intros Hb Hpre Hc. unfold mountTimer. destruct (mounted w) eqn:Hm; cbn [negb].
  - assert (Hp : phase w = Mounted) by (apply (proj1 Hb), Hm). split; [now apply setState_base|].
    destruct (setState_towards (mountTarget (show (props w)) (growState w)) w Hp)
      as [[Hp' Ht]|[E Eg]]; [now apply mountTarget_initial, (pre_initial (show (props w)))|now apply GState_towards|].
    rewrite E. apply GState_towards; [exact Hp|]. now apply mountTarget_fixed.
  - split; [exact Hb|]. apply GState_idle; [exact Hpre| |congruence].
    intros Hp. apply (proj1 Hb) in Hp. congruence.
Qed.

Lemma takeTimer_base id due w : GBase w -> GBase (takeTimer id due w).
Proof.
  intros (Hm & Ht & Hc & Hl). split; [exact Hm|split; [|split; [|exact Hl]]]; cbn.
  - intros t Hin. apply In_clearTimeout in Hin. apply Ht, Hin.
  - intros E. destruct (Hc E) as [E1 E2]. rewrite E1. split; [reflexivity|exact E2].
Qed.

(** Running a due timer keeps the invariant. *)
Lemma fire_inv w id due cb :
  GInv w -> In (id, due, cb) (timers w) -> GInv (runTimer cb (takeTimer id due w)).
Proof.
  intros [Hb Hs] Hin. pose proof (takeTimer_base id due w Hb) as Hb'.
  assert (Hc : phase w <> Constructed).
  { intros E. destruct (proj1 (proj2 (proj2 Hb)) E) as [E' _]. rewrite E' in Hin. destruct Hin. }
  destruct cb; cbn [runTimer].
  - apply mountTimer_inv; [exact Hb'|apply Hs|exact Hc].
  - apply onTransitionEnd_inv. split; [exact Hb'|].
    assert (Hl : listenerTimeout w = Some (Some id)) by exact (proj2 (proj1 (proj2 Hb) _ Hin)).
    destruct Hs as (Hpre & Hd & Hst). split; [exact Hpre|split; [|exact Hst]].
    intros Hp. unfold mountDone. cbn [timers takeTimer].
    rewrite existsb_clearTimeout by exact (mount_not_listener w id Hb Hl). exact (Hd Hp).
Qed.

Lemma advanceFuel_inv f t w : GInv w -> GInv (advanceFuel f t w).
Proof.
  revert w. induction f as [|f IH]; intros w Hw; cbn; [exact Hw|].
  destruct (earliest (timers w)) as [[[id due] cb]|] eqn:E; [|exact Hw].
  destruct (Qle_bool due t); [|exact Hw].
  apply IH, fire_inv; [exact Hw|]. now apply earliest_In.
Qed.

Lemma grow_step_inv w ev : GInv w -> GInv (step w ev).
Proof.
  intros Hw. destruct ev; cbn [step].
  - destruct (phase w) eqn:Hp; [now apply componentDidMount_inv|exact Hw..].
  - destruct (phase w) eqn:Hp; [| |exact Hw]; apply grow_receiveProps_inv; congruence || exact Hw.
  - now apply transitionEnd_inv.
  - exact (advanceFuel_inv _ t w Hw).
  - destruct (phase w) eqn:Hp; [exact Hw|now apply grow_unmount_inv|exact Hw].
Qed.

Lemma run_inv w evs : GInv w -> GInv (run w evs).
Proof.
  unfold run. revert w. induction evs as [|ev evs IH]; intros w Hw; [exact Hw|].
  cbn [fold_left]. apply IH, grow_step_inv, Hw.
Qed.

Lemma grow_reachable_inv p evs : GInv (run (initWorld p) evs).
Proof. apply run_inv, initWorld_inv. Qed.

(** *** A settled container and its [transitionend] *)

(** Once the mount timer has run, every pending timer is the debounced
    listener's. *)
Lemma settled_timer w t :
  GBase w -> mountDone w = true -> In t (timers w) -> listenerTimeout w = Some (Some (fst (fst t))).
Proof.
  intros (_ & Ht & _) Hd Hin. unfold mountDone in Hd. apply negb_true_iff in Hd.
  specialize (proj2 (Ht t Hin)). unfold timerOk. destruct (snd t) eqn:E; [|easy].
  assert (Hm : existsb isMount (timers w) = true) by (apply existsb_exists; exists t; unfold isMount; now rewrite E).
  congruence.
Qed.

(** So the [transitionend] listener clears them all and leaves its own. *)
Lemma transitionEnd_settled w :
  GBase w -> phase w = Mounted -> mountDone w = true ->
  transitionEnd w =
  mkWorld (props w) (growState w) (phase w) (mounted w) (Some (Some (nextTimer w)))
    [(nextTimer w, (now w + 50)%Q, TransitionEndTimer)] (nextTimer w + 1) (now w) (completions w).
Proof.
  intros Hb Hp Hd. unfold transitionEnd.
  destruct (listenerTimeout w) as [tid|] eqn:Hl; [|exfalso; apply (proj2 (proj2 (proj2 Hb))); congruence].
  replace (match tid with Some id => clearTimeout id (timers w) | None => timers w end) with (@nil (Z * Q * TimerCb));
    [reflexivity|].
  symmetry. apply incl_l_nil. intros t Hin. exfalso.
  destruct tid as [id|]; [apply In_clearTimeout in Hin; destruct Hin as [Hin Hne]|];
    pose proof (settled_timer w t Hb Hd Hin); congruence.
Qed.

Lemma advance_one w id d cb t :
  timers w = [(id, d, cb)] -> (d <= t)%Q ->
  advanceFuel (List.length (timers w)) t w = runTimer cb (takeTimer id d w).
Proof.
  intros Ht Hd. rewrite Ht. cbn [List.length advanceFuel]. rewrite Ht. cbn [earliest].
  apply Qle_bool_iff in Hd. rewrite Hd. reflexivity.
Qed.

(** No timer callback sets a timer, and the browser takes each one it
    runs off the list: fuel the number of timers is enough to run every
    timer due, and more fuel gives the same world. *)
Lemma runTimer_timers cb w : timers (runTimer cb w) = timers w.
Proof.
  destruct cb; cbn [runTimer]; unfold mountTimer, onTransitionEnd;
    [destruct (negb (mounted w)); [reflexivity|]|]; rewrite ?setState_eq;
    destruct (phase w); try destruct (growState_eqb _ (growState w)); cbn;
    try destruct (onAnimationComplete (props w)); reflexivity.
Qed.

Lemma clearTimeout_length t ts :
  In t ts -> List.length (clearTimeout (fst (fst t)) ts) < List.length ts.
Proof.
  unfold clearTimeout. induction ts as [|u ts IH]; intros Hin; [destruct Hin|].
  cbn [filter List.length]. pose proof (filter_length_le (fun t0 => negb (fst (fst t0) =? fst (fst t))%Z) ts).
  destruct Hin as [<-|Hin]; [rewrite Z.eqb_refl; cbn; lia|].
  specialize (IH Hin). destruct (negb _); cbn; lia.
Qed.

Lemma advanceFuel_enough f g t w :
  List.length (timers w) <= f -> List.length (timers w) <= g -> advanceFuel f t w = advanceFuel g t w.
Proof.
  revert g w. induction f as [|f IH]; intros g w Hf Hg.
  - destruct (timers w) eqn:E; [|cbn in Hf; lia]. destruct g; cbn; rewrite ?E; reflexivity.
  - destruct g as [|g].
    + destruct (timers w) eqn:E; [|cbn in Hg; lia]. cbn. rewrite E. reflexivity.
    + cbn [advanceFuel]. destruct (earliest (timers w)) as [[[id due] cb]|] eqn:E; [|reflexivity].
      destruct (Qle_bool due t); [|reflexivity].
      pose proof (clearTimeout_length _ _ (earliest_In _ _ E)) as Hl. cbn in Hl.
      apply IH; rewrite runTimer_timers; cbn [timers takeTimer]; lia.
Qed.

(** [_onTransitionEnd] calls [onAnimationComplete] whatever the state,
    mounted or not. *)
Lemma onTransitionEnd_completions w :
  completions (onTransitionEnd w) =
  completions w ++ (if onAnimationComplete (props w) then [mounted w] else []).
Proof.
  unfold onTransitionEnd. rewrite setState_eq.
  destruct (phase w); cbn [withGrowState props completions mounted];
    try destruct (growState_eqb (transitionTarget (growState w)) (growState w));
    cbn [withGrowState props completions mounted]; destruct (onAnimationComplete (props w)); rewrite ?app_nil_r; reflexivity.
Qed.

Lemma onTransitionEnd_state w :
  phase w = Mounted -> towards (show (props w)) (growState w) = true ->
  growState (onTransitionEnd w) = if show (props w) then Expanded else Collapsed.
Proof.
  intros Hp Ht.
  transitivity (growState (setState (transitionTarget (growState w)) w));
    [unfold onTransitionEnd; destruct (onAnimationComplete _); reflexivity|].
  rewrite setState_eq, Hp.
  destruct (show (props w)), (growState w) eqn:G; cbn; rewrite ?G; easy.
Qed.

(** In every world reachable from the constructor by mounting,
    props, [transitionend] events, time and unmount, the container's
    state is never [Initial] nor moving away from [show], and once the
    mount timer has run, a mounted container is expanding or expanded when
    [show] holds and collapsing or collapsed when it does not. *)
Theorem reachable_state p evs :
  let w := run (initWorld p) evs in
  pre (show (props w)) (growState w) = true /\
  (phase w = Mounted -> mountDone w = true -> towards (show (props w)) (growState w) = true).
Proof.
  destruct (grow_reachable_inv p evs) as [_ (Hpre & Hd & _)]. split; assumption.
Qed.

(** C29: A mounted container whose mount timer has run finishes its
    move: a [transitionend] event followed by the debounce delay of 50 ms
    leaves it expanded when [show] holds and collapsed when it does not,
    and [onAnimationComplete], when given, is called once, while mounted
    (also when the container was already expanded or collapsed and
    nothing moved). *)
Theorem transitionEnd_completes p evs :
  let w := run (initWorld p) evs in
  phase w = Mounted -> mountDone w = true ->
  let w' := run w [ETransitionEnd; EAdvance (now w + 50)%Q] in
  growState w' = (if show (props w) then Expanded else Collapsed) /\
  completions w' = completions w ++ (if onAnimationComplete (props w) then [true] else []).
Proof.
  intros w Hp Hd. cbv zeta. destruct (grow_reachable_inv p evs) as [Hb (_ & Hto & _)]. fold w in Hb, Hto.
  unfold run. cbn [fold_left step]. rewrite (transitionEnd_settled w Hb Hp Hd). unfold advance.
  rewrite advance_one with (id := nextTimer w) (d := (now w + 50)%Q) (cb := TransitionEndTimer)
    by (reflexivity || apply Qle_refl).
  cbn [growState completions runTimer]. split.
  - rewrite onTransitionEnd_state; [reflexivity|exact Hp|apply Hto; assumption].
  - rewrite onTransitionEnd_completions. cbn. now rewrite (proj2 (proj1 Hb) Hp).
Qed.

(** C30: [componentWillUnmount] does not remove the debounced
    [transitionend] listener nor clear its timer: a [transitionend] just
    before unmount still calls [onAnimationComplete] 50 ms later, on the
    unmounted component. *)
Theorem completes_after_unmount p evs :
  let w := run (initWorld p) evs in
  phase w = Mounted -> mountDone w = true -> onAnimationComplete (props w) = true ->
  completions (run w [ETransitionEnd; EUnmount; EAdvance (now w + 50)%Q]) = completions w ++ [false].
Proof.
  intros w Hp Hd Ho. destruct (grow_reachable_inv p evs) as [Hb _]. fold w in Hb.
  unfold run. cbn [fold_left step]. rewrite (transitionEnd_settled w Hb Hp Hd). cbn [phase]. rewrite Hp.
  unfold advance.
  rewrite advance_one with (id := nextTimer w) (d := (now w + 50)%Q) (cb := TransitionEndTimer)
    by (reflexivity || apply Qle_refl).
  cbn [completions runTimer]. rewrite onTransitionEnd_completions. cbn. now rewrite Ho.
Qed.

Module GrowTests.

Definition pShow : GrowProps := mkGrowProps false false false true true.
Definition pHide : GrowProps := mkGrowProps false false false false true.
Definition runT (evs : list Event) : World := run (initWorld pShow) evs.

Example expands_after_mount :
  growState (runT [EMount; EAdvance 100]) = Collapsed /\
  growState (runT [EMount; EAdvance 150]) = Expanding /\
  growState (runT [EMount; EAdvance 150; ETransitionEnd; EAdvance 199]) = Expanding /\
  growState (runT [EMount; EAdvance 150; ETransitionEnd; EAdvance 200]) = Expanded /\
  completions (runT [EMount; EAdvance 150; ETransitionEnd; EAdvance 200]) = [true].
Proof. repeat split; vm_compute; reflexivity. Qed.

(** Hiding while expanded collapses at once. *)
Example hide_collapses :
  growState (runT [EMount; EAdvance 150; ETransitionEnd; EAdvance 200; EProps pHide]) = Collapsing.
Proof. vm_compute. reflexivity. Qed.

(** [onAnimationComplete] runs after unmount. *)
Example unmount_then_transition :
  completions (runT [EMount; EAdvance 150; ETransitionEnd; EUnmount; EAdvance 300]) = [false].
Proof. vm_compute. reflexivity. Qed.

(** A [transitionend] of a child of an expanded container is reported as
    a completed animation. *)
Example spurious_completion :
  completions (runT [EMount; EAdvance 150; ETransitionEnd; EAdvance 200; ETransitionEnd; EAdvance 300])
  = [true; true].
Proof. vm_compute. reflexivity. Qed.

Example render_classes :
  innerContainerClass pShow Expanding = "inner-grow-container show" /\
  innerContainerClass (mkGrowProps true true false false false) Collapsed = "inner-grow-container fade grow-down" /\
  containerStyle true pShow Expanded = MaxHeightNone /\ containerStyle true pHide Expanded = MaxHeightContent.
Proof. repeat split; reflexivity. Qed.

(** The renders of an expansion: no height cap before the timer, the
    content's height while expanding, none once expanded. *)
Example render_expansion :
  render (runT []) = mkGrowView "outer-grow-container" NoMaxHeight "inner-grow-container" /\
  render (runT [EMount; EAdvance 150]) = mkGrowView "outer-grow-container" MaxHeightContent "inner-grow-container show" /\
  render (runT [EMount; EAdvance 150; ETransitionEnd; EAdvance 200])
    = mkGrowView "outer-grow-container" MaxHeightNone "inner-grow-container show".
Proof. repeat split; vm_compute; reflexivity. Qed.

(** A mounted container left collapsing while [show] holds. *)
Lemma componentDidUpdate_settles_witness :
  growState (componentDidUpdate (withGrowState Collapsing (runT [EMount]))) = Expanding.
Proof. exact (proj1 (componentDidUpdate_settles (withGrowState Collapsing (runT [EMount])) eq_refl)). Defined.

Lemma reachable_state_witness : towards true (growState (runT [EMount; EAdvance 150])) = true.
Proof. exact (proj2 (reachable_state pShow [EMount; EAdvance 150]) eq_refl eq_refl). Defined.

(** [pShow] mounts, and its mount timer runs at 150 ms. *)
Lemma transitionEnd_completes_witness :
  let w := runT [EMount; EAdvance 150] in
  growState (run w [ETransitionEnd; EAdvance (now w + 50)%Q]) = Expanded.
Proof. exact (proj1 (transitionEnd_completes pShow [EMount; EAdvance 150] eq_refl eq_refl)). Defined.

Lemma completes_after_unmount_witness :
  let w := runT [EMount; EAdvance 150] in
  completions (run w [ETransitionEnd; EUnmount; EAdvance (now w + 50)%Q]) = [false].
Proof. exact (completes_after_unmount pShow [EMount; EAdvance 150] eq_refl eq_refl eq_refl). Defined.

End GrowTests.

End Grow.
