(* ===== verification/MultiFetch.v ===== *)
(** * The fetch wrapper: [src/src/MultiFetch/index.ts]

      [multiFetch(url, options, numberOfTries, retryDelay, timeout)] calls
      [window.fetch] and races it against a timer of [timeout] ms; a
      response other than a 404 resolves the promise, and a thrown error,
      a time-out or a 404 (with [headers]) try again after a delay while
      [currentTry < numberOfTries], and reject otherwise.

      The network is an oracle [net]: what the [k]-th call of
      [window.fetch] does (respond or fail after some time, or hang).  The
      tries are sequential ([await], then [setTimeout(tryFetch, ...)]), so
      one call is a loop over the tries with [currentTry] and the clock;
      the loop has fuel, and [numberOfTries] tries (at least one) are
      proved enough for every finite [numberOfTries].  Timer delays go
      through WebIDL's [long] conversion ([ToInt32]) and HTML's clamp of
      negative delays to 0, which is where a huge [timeout] wraps. *)

From Stdlib Require Import QArith Qround ZArith List String Ascii Bool Lia Lqa.
From S2P Require Import Prelude StringUtils.
Import ListNotations.

Module MF.

(** ** JS and the browser *)

(** [StrWhiteSpaceChar] in the Latin-1 range: tab, line feed, vertical
    tab, form feed, carriage return, space and no-break space. *)
Definition isStrWhite (c : ascii) : bool :=
  match nat_of_ascii c with 9 | 10 | 11 | 12 | 13 | 32 | 160 => true | _ => false end.

Fixpoint trimStart (s : string) : string :=
  match s with
  | String c r => if isStrWhite c then trimStart r else s
  | EmptyString => EmptyString
  end.

(** [parseInt(s, 10)]: leading white space, a sign, then the longest run
    of decimal digits; [NaN] without digits. *)
Definition parseInt10 (s : string) : num :=
  let s := trimStart s in
  let '(neg, s) := match s with
                   | String c r =>
                       if Ascii.eqb c "-"%char then (true, r)
                       else if Ascii.eqb c "+"%char then (false, r) else (false, s)
                   | EmptyString => (false, s)
                   end in
  match fst (Tokens.spanDigits s) with
  | EmptyString => NaN
  | ds => let v := inject_Z (Z.of_N (Tokens.digitsValue ds)) in Fin (if neg then - v else v)
  end.

(** WebIDL's conversion of a [long] argument: [ToInt32]. *)
Definition toInt32 (x : num) : Z :=
  match x with
  | Fin q => let m := (trunc q mod 2 ^ 32)%Z in if (m <? 2 ^ 31)%Z then m else (m - 2 ^ 32)%Z
  | _ => 0%Z
  end.

(** The delay [setTimeout] waits: a negative one is 0. *)
Definition timerDelay (x : num) : Z := Z.max 0 (toInt32 x).

(** ** The wrapper *)

(** A response: its [status] ([undefined] in the tests' mocks) and its
    [headers]: missing, or a [get('Retry-After')] giving a string or
    [null]. *)
Record Response : Type := mkResponse {
  status : option Z;
  headers : option (option string)
}.

(** What the network does with one call of [window.fetch]: resolve with
    a response (or [undefined]) after [d] ms, reject with an error after
    [d] ms, or never settle. *)
Inductive Net : Type :=
| Responds (r : option Response) (d : Q)
| Fails (e : string) (d : Q)
| Hangs.

(** The errors the promise rejects with: one of its own [new Error(msg)],
    or the error [fetch] threw. *)
Inductive Err : Type :=
| MsgError (msg : string)
| Thrown (e : string).

Inductive Outcome : Type :=
| Resolved (r : option Response)
| Rejected (e : Err).

(** The parameters after their defaults (lines 11-13); an argument
    [undefined] is [None]. *)
Record Params : Type := mkParams {
  numberOfTries : num;
  retryDelay : num;
  timeout : num
}.

Definition withDefaults (tries delay tmo : option num) : Params :=
  mkParams (match tries with Some x => x | None => Fin 3 end)
           (match delay with Some x => x | None => Fin 1000 end)
           (match tmo with Some x => x | None => Fin 30000 end).

(** What [await Promise.race([...])] gives or throws. *)
Inductive Raced : Type :=
| Got (r : option Response)
| Threw (e : Err).

(** [Promise.race([window.fetch(url, options), sleep(timeout, ...)])]
    (lines 1-3, 31-34): how long it takes and its result.  The fetch wins
    when it settles strictly before the timer fires. *)
Definition race (n : Net) (tmo : num) : Q * Raced :=
  let t := inject_Z (timerDelay tmo) in
  let timedOut := (t, Threw (MsgError "Request timed out")) in
  match n with
  | Responds r d => if Qltb d t then (d, Got r) else timedOut
  | Fails e d => if Qltb d t then (d, Threw (Thrown e)) else timedOut
  | Hangs => timedOut
  end.

(** [response && response.status === 404 && response.headers] (line 38),
    and then the delay it asks for (lines 39-42):
    [Math.min(parseInt(retryAfterHeader, 10), 5) * 1000]. *)
Definition retryAfter404 (r : option Response) : option num :=
  match r with
  | Some r =>
      match status r, headers r with
      | Some 404%Z, Some h =>
          Some (nmul (nmin (parseInt10 (match h with Some s => s | None => "null" end)) (Fin 5)) (Fin 1000))
      | _, _ => None
      end
  | None => None
  end.

(** [tryFetch] (lines 18-49) from [currentTry] at time [clock], with
    [handleError] (lines 21-27): the number of tries made, the time the
    promise settles and how. *)
Fixpoint tryFetch (fuel : nat) (net : Z -> Net) (p : Params) (currentTry : Z) (clock : Q)
  : option (Z * Q * Outcome) :=
  match fuel with
  | O => None
  | S f =>
      let currentTry := (currentTry + 1)%Z in
      let '(d, raced) := race (net currentTry) (timeout p) in
      let clock := (clock + d)%Q in
      let handleError (e : Err) (customRetryDelay : option num) :=
        if nlt (Fin (inject_Z currentTry)) (numberOfTries p) then
          let delay := match customRetryDelay with
                       | Some c => nor c (retryDelay p)
                       | None => retryDelay p
                       end in
          tryFetch f net p currentTry (clock + inject_Z (timerDelay delay))%Q
        else Some (currentTry, clock, Rejected e) in
      match raced with
      | Got r =>
          match retryAfter404 r with
          | Some c => handleError (MsgError "404") (Some c)
          | None => Some (currentTry, clock, Resolved r)
          end
      | Threw e => handleError e None
      end
  end.

(** The tries [numberOfTries] allows: at least one, and [Math.ceil] of
    it ([currentTry < numberOfTries] on whole [currentTry]); none bound
    [Infinity]. *)
Definition triesAllowed (x : num) : Z :=
  match x with Fin q => Z.max 1 (Qceiling q) | _ => 1 end.

(** [multiFetch] (lines 8-53), with [fuel] tries at most. *)
Definition multiFetch (fuel : nat) (net : Z -> Net) (tries delay tmo : option num) : option (Z * Q * Outcome) :=
  tryFetch fuel net (withDefaults tries delay tmo) 0 0.

(** ** A reference: the first try that settles the promise *)

Definition tryResult (net : Z -> Net) (p : Params) (k : Z) : Raced := snd (race (net k) (timeout p)).

(** A try that resolves: a response that is not a 404 with headers. *)
Definition final (r : Raced) : bool :=
  match r with Got r => match retryAfter404 r with Some _ => false | None => true end | Threw _ => false end.

Definition errorOf (r : Raced) : Err :=
  match r with Got _ => MsgError "404" | Threw e => e end.

(** The tries [1 .. n]; the promise resolves with the first final one, or
    rejects with the error of the last. *)
Definition refFetch (net : Z -> Net) (p : Params) : Z * Outcome :=
  let n := triesAllowed (numberOfTries p) in
  match find (fun k => final (tryResult net p k)) (map Z.of_nat (seq 1 (Z.to_nat n))) with
  | Some k => (k, match tryResult net p k with Got r => Resolved r | Threw e => Rejected e end)
  | None => (n, Rejected (errorOf (tryResult net p n)))
  end.

(** ** The loop against the reference *)

Lemma Qceiling_gt n q : (n < Qceiling q)%Z <-> (inject_Z n < q)%Q.
Proof.
  split; intros H.
  - apply Qle_lt_trans with (inject_Z (Qceiling q - 1)); [apply (proj1 (inject_Z_le _ _)); lia|apply Qceiling_lt].
  - apply (proj2 (inject_Z_lt _ _)). apply Qlt_le_trans with q; [exact H|apply Qle_ceiling].
Qed.

(** [currentTry < numberOfTries] after the [c + 1]-th try holds exactly
    when fewer than [triesAllowed] tries have been made. *)
Lemma retry_iff x (c : nat) :
  x <> PosInf ->
  nlt (Fin (inject_Z (Z.of_nat (S c)))) x = Nat.ltb (S c) (Z.to_nat (triesAllowed x)).
Proof.
  intros Hx. destruct x as [q| | |]; cbn [nlt triesAllowed]; [|reflexivity|congruence|reflexivity].
  apply eq_true_iff_eq. rewrite Qltb_iff, Nat.ltb_lt, <- Qceiling_gt. lia.
Qed.

Lemma triesAllowed_pos x : (1 <= triesAllowed x)%Z.
Proof. destruct x; cbn; lia. Qed.

Section Loop.
Variables (net : Z -> Net) (p : Params).
Hypothesis finite_tries : numberOfTries p <> PosInf.

Let N := Z.to_nat (triesAllowed (numberOfTries p)).

(** The reference's search from the try after [c]. *)
Definition refFrom (c : nat) : Z * Outcome :=
  match find (fun k => final (tryResult net p k)) (map Z.of_nat (seq (S c) (N - c))) with
  | Some k => (k, match tryResult net p k with Got r => Resolved r | Threw e => Rejected e end)
  | None => (triesAllowed (numberOfTries p), Rejected (errorOf (tryResult net p (triesAllowed (numberOfTries p)))))
  end.

Lemma tryFetch_refFrom f (c : nat) clock :
  c < N -> N - c <= f ->
  exists clock', tryFetch f net p (Z.of_nat c) clock = Some (fst (refFrom c), clock', snd (refFrom c)).
Proof.
  revert c clock. induction f as [|f IH]; intros c clock Hc Hf; [lia|].
  unfold refFrom. replace (N - c) with (S (N - S c)) by lia. cbn [seq map find tryFetch].
  replace (Z.of_nat c + 1)%Z with (Z.of_nat (S c)) by lia.
  destruct (race (net (Z.of_nat (S c))) (timeout p)) as [d raced] eqn:Er.
  assert (Hre : tryResult net p (Z.of_nat (S c)) = raced) by (unfold tryResult; now rewrite Er).
  rewrite Hre, retry_iff by exact finite_tries. fold N.
  destruct (Nat.ltb_spec (S c) N) as [Hlt|Hge].
  - destruct raced as [r|e]; cbn [final];
      [destruct (retryAfter404 r); [|cbv beta iota; rewrite Hre; eexists; reflexivity]|];
      (edestruct (IH (S c)) as [clock' E]; [lia|lia|]; exists clock'; rewrite E; reflexivity).
  - assert (Hlast : triesAllowed (numberOfTries p) = Z.of_nat (S c)).
    { replace (S c) with N by lia. unfold N. rewrite Z2Nat.id; [reflexivity|].
      pose proof (triesAllowed_pos (numberOfTries p)); lia. }
    replace (N - S c) with 0 by lia. cbn [seq map find]. rewrite Hlast, Hre.
    destruct raced as [r|e]; cbn [final errorOf]; [destruct (retryAfter404 r)|]; cbv beta iota;
      rewrite ?Hre; eexists; reflexivity.
Qed.

Lemma tryFetch_fuel f (c : nat) clock :
  c < N -> N - c <= f -> tryFetch f net p (Z.of_nat c) clock = tryFetch (N - c) net p (Z.of_nat c) clock.
Proof.
  revert c clock. induction f as [|f IH]; intros c clock Hc Hf; [lia|].
  replace (N - c) with (S (N - S c)) by lia. cbn [tryFetch].
  replace (Z.of_nat c + 1)%Z with (Z.of_nat (S c)) by lia.
  destruct (race (net (Z.of_nat (S c))) (timeout p)) as [d raced].
  rewrite retry_iff by exact finite_tries. fold N.
  destruct (Nat.ltb_spec (S c) N) as [Hlt|Hge]; [|reflexivity].
  destruct raced as [r|e]; [destruct (retryAfter404 r)|]; try reflexivity; apply IH; lia.
Qed.

Lemma refFrom_0 : refFrom 0 = refFetch net p.
Proof. unfold refFrom, refFetch. rewrite Nat.sub_0_r. reflexivity. Qed.

End Loop.

(** ** Timers *)

Local Open Scope Q_scope.

Lemma toInt32_small q : 0 <= q -> q < inject_Z (2 ^ 31) -> toInt32 (Fin q) = trunc q.
Proof.
  intros H0 H1. destruct (trunc_nonneg q H0) as [Ht Hq].
  assert (Hlt : (trunc q < 2 ^ 31)%Z) by (apply (proj2 (inject_Z_lt _ _)); eapply Qle_lt_trans; eauto).
  cbn [toInt32]. rewrite Z.mod_small by lia. destruct (Z.ltb_spec (trunc q) (2 ^ 31)); lia.
Qed.

Lemma timerDelay_range x : (0 <= timerDelay x < 2 ^ 31)%Z.
Proof.
  unfold timerDelay. destruct x as [q| | |]; cbn [toInt32]; try lia.
  pose proof (Z.mod_pos_bound (trunc q) (2 ^ 32) ltac:(lia)).
  destruct (Z.ltb_spec (trunc q mod 2 ^ 32) (2 ^ 31)); lia.
Qed.

Lemma timerDelay_small q : 0 <= q -> q < inject_Z (2 ^ 31) -> timerDelay (Fin q) = trunc q.
Proof.
  intros H0 H1. unfold timerDelay. rewrite toInt32_small by assumption.
  pose proof (proj1 (trunc_nonneg q H0)). lia.
Qed.

Lemma Qfloor_plus_Z q z : Qfloor (q + inject_Z z) = (Qfloor q + z)%Z.
Proof.
  apply Qfloor_unique. rewrite inject_Z_plus. pose proof (Qfloor_le q). pose proof (Qlt_floor q).
  rewrite inject_Z_plus in *. change (inject_Z 1) with 1 in *. split; lra.
Qed.

Lemma trunc_plus_Z q z : 0 <= q -> (0 <= z)%Z -> trunc (q + inject_Z z) = (trunc q + z)%Z.
Proof.
  intros Hq Hz. assert (Hz' : 0 <= inject_Z z) by (apply (proj1 (inject_Z_le 0 z)); exact Hz).
  unfold trunc. rewrite (proj2 (Qle_bool_iff 0 q) Hq), (proj2 (Qle_bool_iff 0 (q + inject_Z z))) by lra.
  apply Qfloor_plus_Z.
Qed.

(** The time-out race when the timer fires at once: every try times out. *)
Definition nonnegDelay (n : Net) : Prop :=
  match n with Responds _ d | Fails _ d => 0 <= d | Hangs => True end.

Lemma race_zero n tmo :
  timerDelay tmo = 0%Z -> nonnegDelay n -> race n tmo = (0, Threw (MsgError "Request timed out")).
Proof.
  intros Ht Hn. unfold race. rewrite Ht.
  destruct n as [r d|e d|]; cbn [nonnegDelay] in Hn; try reflexivity;
    assert (E : Qltb d (inject_Z 0) = false) by (apply Qltb_false; exact Hn); rewrite E; reflexivity.
Qed.

Lemma find_all_false {A} (f : A -> bool) l : (forall x, f x = false) -> find f l = None.
Proof. intros H. induction l as [|a l IH]; cbn; [reflexivity|]. now rewrite H. Qed.

(** ** What a call of [multiFetch] does *)

(** C31: For a finite [numberOfTries], [tryFetch] settles the promise
    within [max(1, ceil(numberOfTries))] tries, more fuel changes nothing,
    and the loop does what the reference says: it resolves with the first
    try that gets a response other than a 404 with headers, and otherwise
    rejects after the last allowed try with that try's error ([404],
    [Request timed out] or the error [fetch] threw). *)
Theorem multiFetch_ref net p f :
  numberOfTries p <> PosInf -> (Z.to_nat (triesAllowed (numberOfTries p)) <= f)%nat ->
  tryFetch f net p 0 0 = tryFetch (Z.to_nat (triesAllowed (numberOfTries p))) net p 0 0 /\
  exists clock, tryFetch f net p 0 0 = Some (fst (refFetch net p), clock, snd (refFetch net p)).
Proof.
  intros Hx Hf. pose proof (triesAllowed_pos (numberOfTries p)) as Hpos.
  split.
  - pose proof (tryFetch_fuel net p Hx f 0 0) as H. cbn [Z.of_nat] in H.
    rewrite H by lia. rewrite Nat.sub_0_r. reflexivity.
  - rewrite <- (refFrom_0 net p). apply (tryFetch_refFrom net p Hx f 0 0); lia.
Qed.

(** A [timeout] that [setTimeout] turns into 0 ms ([Infinity],
    [NaN], a negative one, or [2^32]) makes every try time out at once,
    whatever the network does: [multiFetch] calls [fetch] as many times as
    it may and rejects with [Request timed out]. *)
Theorem timeout_zero_rejects net p f :
  timerDelay (timeout p) = 0%Z -> numberOfTries p <> PosInf -> (forall k, nonnegDelay (net k)) ->
  (Z.to_nat (triesAllowed (numberOfTries p)) <= f)%nat ->
  exists clock, tryFetch f net p 0 0 =
    Some (triesAllowed (numberOfTries p), clock, Rejected (MsgError "Request timed out")).
Proof.
  intros Ht Hx Hn Hf. pose proof (triesAllowed_pos (numberOfTries p)) as Hpos.
  assert (Hr : forall k, tryResult net p k = Threw (MsgError "Request timed out")).
  { intros k. unfold tryResult. rewrite race_zero by auto. reflexivity. }
  assert (E : refFetch net p = (triesAllowed (numberOfTries p), Rejected (MsgError "Request timed out"))).
  { unfold refFetch. rewrite find_all_false by (intros k; rewrite Hr; reflexivity). rewrite Hr. reflexivity. }
  rewrite <- (refFrom_0 net p) in E.
  destruct (tryFetch_refFrom net p Hx f 0 0) as [c H]; [lia|lia|]. exists c. cbn [Z.of_nat] in H. rewrite H, E. reflexivity.
Qed.

(** The delay [setTimeout] waits for a [retryDelay] or [timeout] is a
    32-bit integer: always in [[0, 2^31)], the whole part of the value
    when that is below [2^31] ms, and the same for [q] and [q + 2^32]: a
    longer delay wraps around. *)
Theorem timerDelay_int32 x :
  (0 <= timerDelay x < 2 ^ 31)%Z /\
  (forall q, 0 <= q -> q < inject_Z (2 ^ 31) -> timerDelay (Fin q) = trunc q) /\
  (forall q, 0 <= q -> timerDelay (Fin (q + inject_Z (2 ^ 32))) = timerDelay (Fin q)).
Proof.
  split; [apply timerDelay_range|split; [exact timerDelay_small|]].
  intros q Hq. unfold timerDelay, toInt32. rewrite trunc_plus_Z by (assumption || lia).
  replace (trunc q + 2 ^ 32)%Z with (trunc q + 1 * 2 ^ 32)%Z by lia. rewrite Z.mod_add by lia. reflexivity.
Qed.

(** The delay a 404 asks for is at most 5 s when finite. *)
Lemma retryAfter404_form r c :
  retryAfter404 r = Some c -> exists x, c = nmul (nmin x (Fin 5)) (Fin 1000).
Proof.
  destruct r as [[[st|] [h|]]|]; cbn [retryAfter404 status headers]; try discriminate;
    destruct st as [|q|q]; try discriminate; repeat (destruct q as [q|q|]; try discriminate);
    intros E; injection E as <-; eexists; reflexivity.
Qed.

Lemma retryAfter404_le r c : retryAfter404 r = Some c -> forall w, c = Fin w -> w <= 5000.
Proof.
  intros H w Ew. destruct (retryAfter404_form r c H) as [x ->].
  destruct x as [v| | |]; [|cbn in Ew; try discriminate; injection Ew as <-; lra..].
  rewrite nmin_fin_eq, nmul_fin in Ew. injection Ew as <-. destruct (Qltb 5 v) eqn:L; [lra|].
  apply Qltb_false in L. lra.
Qed.

(** C32: The delay before the try after a 404 is [retryDelay]'s, or at
    most 5 s as long as the delay the [Retry-After] header asks for is
    not negative. *)
Theorem retry_after_cap r c rd :
  retryAfter404 r = Some c -> (forall w, c = Fin w -> 0 <= w) ->
  timerDelay (nor c rd) = timerDelay rd \/ (timerDelay (nor c rd) <= 5000)%Z.
Proof.
  intros Hr Hw. destruct c as [w| | |]; [|left; reflexivity|right; cbv; discriminate..].
  pose proof (retryAfter404_le r _ Hr w eq_refl). specialize (Hw w eq_refl).
  unfold nor. destruct (ntruthy (Fin w)); [right|left; reflexivity].
  rewrite timerDelay_small; [|lra|apply Qle_lt_trans with 5000; [lra|vm_compute; reflexivity]].
  pose proof (trunc_nonneg w Hw) as [_ Ht].
  apply (proj2 (inject_Z_le _ 5000)). change (inject_Z 5000) with 5000. lra.
Qed.

Module MFTests.

(** The tests' mock response: no [status], and a [get] returning its key. *)
Definition mock : option Response := Some (mkResponse None (Some (Some "Retry-After"))).
Definition notFound : option Response := Some (mkResponse (Some 404%Z) (Some (Some "0.01"))).

Example calls_fetch : multiFetch 5 (fun _ => Responds mock 0) None None None = Some (1%Z, 0%Q, Resolved mock).
Proof. reflexivity. Qed.

Example rejects_on_timeout :
  multiFetch 5 (fun _ => Responds mock 5000) (Some (Fin 1)) (Some (Fin 10)) (Some (Fin 50))
  = Some (1%Z, 50%Q, Rejected (MsgError "Request timed out")).
Proof. reflexivity. Qed.

Example rejects_after_all_retries :
  option_map (fun r => (fst (fst r), snd r))
    (multiFetch 5 (fun _ => Responds mock 5000) (Some (Fin 3)) (Some (Fin 10)) (Some (Fin 10)))
  = Some (3%Z, Rejected (MsgError "Request timed out")).
Proof. reflexivity. Qed.

(** [parseInt('0.01', 10)] is 0, so the retry waits [retryDelay]. *)
Example rejects_404_after_all_retries :
  multiFetch 5 (fun _ => Responds notFound 10) (Some (Fin 3)) (Some (Fin 10)) (Some (Fin 500))
  = Some (3%Z, 50%Q, Rejected (MsgError "404")).
Proof. vm_compute. reflexivity. Qed.

Example resolves_after_timeout :
  multiFetch 5 (fun k => if Z.eqb k 1 then Responds mock 1000 else Responds mock 0)
    (Some (Fin 3)) (Some (Fin 50)) (Some (Fin 500))
  = Some (2%Z, 550%Q, Resolved mock).
Proof. vm_compute. reflexivity. Qed.

Example rejects_with_thrown_error :
  multiFetch 5 (fun _ => Fails "We're out of that" 0) (Some (Fin 1)) (Some (Fin 0)) (Some (Fin 500))
  = Some (1%Z, 0%Q, Rejected (Thrown "We're out of that")).
Proof. reflexivity. Qed.

(** A 404 without a [Retry-After] header is tried again as well. *)
Example retries_404_without_header :
  multiFetch 5 (fun k => if Z.eqb k 1 then Responds (Some (mkResponse (Some 404%Z) (Some None))) 0
                          else Responds mock 0) None None None
  = Some (2%Z, 1000%Q, Resolved mock).
Proof. vm_compute. reflexivity. Qed.

(** [timeout: Infinity] is 0 for [setTimeout]: the request times out at
    once. *)
Example infinite_timeout :
  multiFetch 5 (fun _ => Responds mock 1) None None (Some PosInf)
  = Some (3%Z, 2000%Q, Rejected (MsgError "Request timed out")).
Proof. vm_compute. reflexivity. Qed.

(** A [Retry-After] of [-2147484] seconds is [-2147484000] ms, which
    [setTimeout] wraps to [2147483296] ms: almost 25 days. *)
Example negative_retry_after_wraps :
  timerDelay (nor (nmul (nmin (parseInt10 "-2147484") (Fin 5)) (Fin 1000)) (Fin 1000)) = 2147483296%Z.
Proof. vm_compute. reflexivity. Qed.

Lemma multiFetch_ref_witness : exists clock,
  tryFetch 3 (fun k => if Z.eqb k 1 then Responds mock 1000 else Responds mock 0) (withDefaults None None (Some (Fin 500))) 0 0
  = Some (2%Z, clock, Resolved mock).
Proof.
  destruct (multiFetch_ref (fun k => if Z.eqb k 1 then Responds mock 1000 else Responds mock 0)
              (withDefaults None None (Some (Fin 500))) 3 ltac:(discriminate) ltac:(vm_compute; lia)) as [_ [c E]].
  exists c. rewrite E. vm_compute. reflexivity.
Defined.

Lemma timeout_zero_rejects_witness :
  exists clock, tryFetch 3 (fun _ => Hangs) (withDefaults None None (Some PosInf)) 0 0
    = Some (3%Z, clock, Rejected (MsgError "Request timed out")).
Proof.
  exact (timeout_zero_rejects (fun _ => Hangs) (withDefaults None None (Some PosInf)) 3
           eq_refl ltac:(discriminate) (fun _ => I) ltac:(vm_compute; lia)).
Defined.

Lemma timerDelay_int32_witness : timerDelay (Fin (250 + inject_Z (2 ^ 32))) = 250%Z.
Proof.
  destruct (timerDelay_int32 PosInf) as [_ [Hs Hw]].
  rewrite Hw by lra. rewrite Hs; [vm_compute; reflexivity|lra|vm_compute; reflexivity].
Defined.

Lemma retry_after_cap_witness :
  (timerDelay (nor (Fin 3000) (Fin 1000)) <= 5000)%Z.
Proof.
  destruct (retry_after_cap (Some (mkResponse (Some 404%Z) (Some (Some "3")))) (Fin 3000) (Fin 1000)
              ltac:(vm_compute; reflexivity) ltac:(intros w E; injection E as <-; lra)) as [E|E];
    [rewrite E; vm_compute; discriminate|exact E].
Defined.

End MFTests.

End MF.
