(* ===== verification/BenefitsChart.v ===== *)
(** * The benefits chart: [src/src/BenefitsChart/index.tsx]

      [BenefitsChart] adds up the total cash compensation items and the
      company contributions, draws both totals as a vertical [BarChart],
      and moves the total-cash panel down by [height * contributions /
      (contributions + total cash)] px "to line up with the TCC vertical
      bar".  [render] is modelled as the data of the markup it returns
      ([BenefitsView]); the chart it draws is BarGeometry.v's
      [verticalBarHeights] of the bars it passes, so the alignment is a
      theorem about the two components together.  Benefit values are
      finite numbers; [FormattedCurrency] and its formatter are not
      modelled (they only print a value). *)

From Stdlib Require Import QArith Qminmax Lqa List String Bool.
From S2P Require Import Prelude DataRange BarGeometry StringUtils.
Import ListNotations.
Open Scope Q_scope.

Module Benefits.

(** [interface BenefitDetailsItem] (lines 7-10). *)
Record BenefitDetailsItem : Type := mkItem { itemLabel : string; itemValue : Q }.

(** [interface BenefitsChartProps] (lines 12-20): a missing list is
    [None]; [height] is [None] when undefined. *)
Record BenefitsChartProps : Type := mkProps {
  className : option string;
  totalCashCompensation : option (list BenefitDetailsItem);
  companyContributions : option (list BenefitDetailsItem);
  uncalculatedBenefits : option (list BenefitDetailsItem);
  height : option Q
}.

(** [_renderBenefit] (lines 142-154): a row keyed by its label. *)
Record BenefitView : Type := mkBenefitView { benefitKey : string; benefitTitle : string; benefitValue : Q }.

(** [_renderBenefitItems] (lines 128-140). *)
Record ItemsView : Type := mkItemsView { itemsKey : string; benefits : list BenefitView }.

(** What [render] returns (lines 80-125). *)
Record BenefitsView : Type := mkView {
  cardClass : string;                         (* benefitsCardClassName *)
  tccMarginTop : num;                         (* totalCompStyle.marginTop, in px *)
  tccValue : Q;                               (* the total cash panel's FormattedCurrency *)
  tccItems : option ItemsView;
  uncalculatedPanel : option ItemsView;
  chartHeight : Q;                            (* benefitBarStyle.height, in px *)
  chartBars : list BarProps;                  (* the BarChart's bars, verticalBarChart *)
  companyPanel : option (Q * ItemsView)       (* contributionsTotal and its items *)
}.

Definition renderBenefit (b : BenefitDetailsItem) : BenefitView :=
  mkBenefitView (itemLabel b) (itemLabel b) (itemValue b).

Definition renderBenefitItems (items : list BenefitDetailsItem) (benefitName : string) : ItemsView :=
  mkItemsView benefitName (map renderBenefit items).

(** [_renderUncalculatedBenefits] (lines 156-174). *)
Definition renderUncalculatedBenefits (p : BenefitsChartProps) : option ItemsView :=
  match uncalculatedBenefits p with
  | Some ((_ :: _) as l) => Some (renderBenefitItems l "paidLeave")
  | _ => None
  end.

(** [items && items.length > 0]. *)
Definition nonEmpty (o : option (list BenefitDetailsItem)) : bool :=
  match o with Some (_ :: _) => true | _ => false end.

(** [items.reduce((prev, cur) => prev + Number(cur.value), 0)]. *)
Definition sumValues (l : list BenefitDetailsItem) : Q :=
  fold_left (fun acc b => acc + itemValue b) l 0.

Definition listOf (o : option (list BenefitDetailsItem)) : list BenefitDetailsItem :=
  match o with Some l => l | None => [] end.

Definition totalCashClass : string := "employee-benefits-chart__total-cash".
Definition contributionsClass : string := "employee-benefits-chart__company-contributions".

(** The totals (lines 35-55): [0] for a missing or empty list. *)
Definition tccTotalOf (p : BenefitsChartProps) : Q :=
  if nonEmpty (totalCashCompensation p) then sumValues (listOf (totalCashCompensation p)) else 0.

Definition contributionsTotalOf (p : BenefitsChartProps) : Q :=
  if nonEmpty (companyContributions p) then sumValues (listOf (companyContributions p)) else 0.

(** The bars pushed (lines 34-55). *)
Definition barsOf (p : BenefitsChartProps) : list BarProps :=
  (if nonEmpty (totalCashCompensation p)
   then [mkBar (tccTotalOf p) None None (Some totalCashClass) false] else []) ++
  (if nonEmpty (companyContributions p)
   then [mkBar (contributionsTotalOf p) None None (Some contributionsClass) false] else []).

(** [compensationRatio] (lines 57-61): [tccTotal && contributionsTotal]
    tests both for non-zero. *)
Definition compensationRatio (tcc contributions : Q) : num :=
  if negb (Qeq_bool tcc 0) && negb (Qeq_bool contributions 0)
  then ndiv (Fin contributions) (Fin (contributions + tcc))
  else Fin 0.

(** [height ? height : 500] (line 68). *)
Definition cardHeightOf (p : BenefitsChartProps) : Q :=
  match height p with Some h => if Qeq_bool h 0 then 500 else h | None => 500 end.

(** [render] (lines 27-126).  The class key [className] is the string
    ['undefined'] when the prop is missing, and [!!className] is false
    for it and for the empty string. *)
Definition render (p : BenefitsChartProps) : BenefitsView :=
  let tccTotal := tccTotalOf p in
  let contributionsTotal := contributionsTotalOf p in
  let cardHeight := cardHeightOf p in
  let cls := match className p with Some s => s | None => "undefined"%string end in
  let truthy := match className p with Some EmptyString | None => false | Some _ => true end in
  mkView
    (Tokens.buildClassString [("employee-benefits-chart"%string, true); (cls, truthy)])
    (nmul (Fin cardHeight) (compensationRatio tccTotal contributionsTotal))
    tccTotal
    (match totalCashCompensation p with
     | Some l => Some (renderBenefitItems l "totalCompensation")
     | None => None
     end)
    (renderUncalculatedBenefits p)
    cardHeight
    (barsOf p)
    (if nonEmpty (companyContributions p)
     then Some (contributionsTotal, renderBenefitItems (listOf (companyContributions p)) "companyContribution")
     else None).

(** ** The total cash panel lines up with the chart *)

Lemma tccTotal_nonEmpty p : 0 < tccTotalOf p -> nonEmpty (totalCashCompensation p) = true.
Proof. unfold tccTotalOf. destruct (nonEmpty _); [reflexivity|intros H; lra]. Qed.

Lemma contributionsTotal_nonEmpty p : 0 < contributionsTotalOf p -> nonEmpty (companyContributions p) = true.
Proof. unfold contributionsTotalOf. destruct (nonEmpty _); [reflexivity|intros H; lra]. Qed.

(** The column height [_renderVerticalBarColumn] gives a positive value
    of a positive total. *)
Lemma column_height v T :
  0 < v -> 0 < T ->
  (if Qle_bool v 0 || Qle_bool T 0 then None
   else Some (nmul (ndiv (Fin (Qmax 0 v)) (Fin T)) (Fin 100))) = Some (Fin (Qmax 0 v / T * 100)).
Proof.
  intros Hv HT. qcase (Qle_bool v 0); [lra|]. qcase (Qle_bool T 0); [lra|]. cbn [orb ndiv nmul].
  qcase (Qeq_bool T 0); [lra|]. reflexivity.
Qed.

(** C33: When both totals are positive, [BenefitsChart] draws a vertical
    [BarChart] of two columns, the total cash and the contributions, whose
    heights add up to 100%, and moves the total cash panel down by exactly
    the share of the chart's height the contributions column takes: the
    panel lines up with the top of the total cash column under it. *)
Theorem tcc_panel_aligned p :
  0 < tccTotalOf p -> 0 < contributionsTotalOf p ->
  exists a b,
    Geometry.verticalBarHeights (Geometry.getBars (chartBars (render p)) 0 None) = [Some (Fin a); Some (Fin b)] /\
    a + b == 100 /\
    exists m, tccMarginTop (render p) = Fin m /\ m == chartHeight (render p) * (b / 100).
Proof.
  intros Ht Hc. unfold render. cbn [chartBars tccMarginTop chartHeight]. unfold barsOf.
  rewrite (tccTotal_nonEmpty p Ht), (contributionsTotal_nonEmpty p Hc).
  set (t := tccTotalOf p) in *. set (c := contributionsTotalOf p) in *.
  cbn [app Geometry.getBars negb Nat.eqb andb]. unfold Geometry.verticalBarHeights. cbn [fold_left map value].
  rewrite !column_height by lra.
  eexists _, _. split; [reflexivity|]. rewrite !(Q.max_r 0) by lra. split; [field; lra|].
  unfold compensationRatio. qcase (Qeq_bool t 0); [lra|].
  qcase (Qeq_bool c 0); [lra|]. cbn [negb andb ndiv nmul].
  qcase (Qeq_bool (c + t) 0); [lra|].
  eexists. split; [reflexivity|]. rewrite (Q.max_r 0 c) by lra. field. lra.
Qed.

Module BenefitsTests.

(** The props of the repository's test. *)
Definition tcc : list BenefitDetailsItem :=
  [mkItem "basePay" 100000; mkItem "lumpSum" 5000; mkItem "bonus" 5000].
Definition contributions : list BenefitDetailsItem :=
  [mkItem "medical" 5000; mkItem "duck donuts" 3000; mkItem "chikfila" 3000].
Definition props0 : BenefitsChartProps :=
  mkProps (Some "test") (Some tcc) (Some contributions) (Some [mkItem "test" 1]) None.

Example class_from_props : cardClass (render props0) = "employee-benefits-chart test"%string.
Proof. vm_compute. reflexivity. Qed.

(** 11000 / 121000 of 500 px. *)
Example margin_test : tccMarginTop (render props0) = Fin (500 * (11000 / (11000 + 110000))).
Proof. reflexivity. Qed.

Example three_items :
  option_map (fun v => List.length (benefits v)) (tccItems (render props0)) = Some 3%nat /\
  option_map (fun v => List.length (benefits (snd v))) (companyPanel (render props0)) = Some 3%nat.
Proof. split; reflexivity. Qed.

(** Totals of opposite sign: the contributions column is not drawn, the
    total cash column is 125% high, and the panel moves up 125 px. *)
Example negative_contributions :
  let p := mkProps None (Some [mkItem "pay" 10]) (Some [mkItem "refund" (-2)]) None None in
  Geometry.verticalBarHeights (chartBars (render p)) = [Some (Fin (10 / 8 * 100)); None] /\
  tccMarginTop (render p) = Fin (500 * (-2 / (-2 + 10))).
Proof. split; vm_compute; reflexivity. Qed.

Lemma tcc_panel_aligned_witness :
  exists a b,
    Geometry.verticalBarHeights (Geometry.getBars (chartBars (render props0)) 0 None) = [Some (Fin a); Some (Fin b)] /\
    a + b == 100 /\
    exists m, tccMarginTop (render props0) = Fin m /\ m == chartHeight (render props0) * (b / 100).
Proof. apply tcc_panel_aligned; vm_compute; reflexivity. Defined.

End BenefitsTests.

End Benefits.
