(* ===== verification/FormattedCurrency.v ===== *)
(** * The formatted amount: [src/src/EmployeeDetailsCards/common/FormattedCurrency/index.tsx]

      [FormattedCurrency] shows a number formatted by a [formatFunc] of
      the owner, which answers through a callback whenever it likes, or by
      [formatCurrency] of CurrencyUtils when there is none.  Every call of
      [formatFunc] is handed the same callback, [_handleFormattedValue],
      and the component keeps no record of which call an answer belongs
      to: the last answer wins.

      The [World] holds the props, the state ([formattedValue]),
      [_isMounted], the React phase and the calls of [formatFunc] not yet
      answered ([pending], in call order).  The owner's formatter is a
      parameter [format]: the string it calls back with for a request;
      the event [EAnswer i] is the answer to the [i]-th pending call, so
      any order of answers is a run.  The default path runs
      [Currency.formatCurrency] and throws its [RangeError]. *)

From Stdlib Require Import QArith String List Bool Lia.
From S2P Require Import Prelude CurrencyUtils.
Import ListNotations.
Open Scope string_scope.
Open Scope list_scope.

Module FC.

(** [interface FormattedCurrencyProps] (lines 15-22); [formatFunc] is
    whether the owner passed one. *)
Record FormattedCurrencyProps : Type := mkProps {
  currency : option string;
  formatFunc : bool;
  options : option Currency.FormatOptions;
  val : num;
  sensitiveValue : bool
}.

Inductive Phase : Type := Constructed | Mounted | Unmounted.

(** The arguments of one call of [formatFunc] (line 63). *)
Definition Request : Type := (num * option string * option Currency.FormatOptions)%type.

Definition requestOf (p : FormattedCurrencyProps) : Request := (val p, currency p, options p).

Record World : Type := mkWorld {
  props : FormattedCurrencyProps;
  formattedValue : string;   (* this.state.formattedValue *)
  isMounted : bool;          (* this._isMounted *)
  phase : Phase;
  pending : list Request     (* the calls of formatFunc not answered yet *)
}.

(** What [render] shows (lines 69-78): the [data-mf-replace-inner]
    attribute and the text, [formattedValue || val]. *)
Inductive Shown : Type := ShowText (s : string) | ShowNumber (v : num).

Record Span : Type := mkSpan { mfReplaceInner : option string; content : Shown }.

Inductive Event : Type :=
| EProps (np : FormattedCurrencyProps)   (* the owner renders it again *)
| EMount
| EUnmount
| EAnswer (i : nat).                     (* formatFunc answers its i-th pending call *)

Section Component.

Variable largeToString : Q -> string.
Variable intl : option Currency.NumberFormat.
(** The owner's [formatFunc]: the string it calls back with. *)
Variable format : Request -> string.

(** [_onFormattedValue] (lines 80-88): [setState] when mounted, a direct
    write of [this.state] otherwise; both leave the new value in the
    state. *)
Definition onFormattedValue (s : string) (w : World) : World :=
  if isMounted w then mkWorld (props w) s (isMounted w) (phase w) (pending w)
  else mkWorld (props w) s (isMounted w) (phase w) (pending w).

(** [_formatValue] (lines 92-94): [formatCurrency] may throw. *)
Definition formatValue (r : Request) (w : World) : Currency.Res World :=
  let '(v, c, o) := r in
  match Currency.formatCurrency largeToString intl v c o with
  | inl e => inl e
  | inr s => inr (onFormattedValue s w)
  end.

(** [componentWillReceiveProps] (lines 60-67). *)
Definition componentWillReceiveProps (np : FormattedCurrencyProps) (w : World) : Currency.Res World :=
  if formatFunc np
  then inr (mkWorld (props w) (formattedValue w) (isMounted w) (phase w) (pending w ++ [requestOf np]))
  else formatValue (requestOf np) w.

Definition setProps (np : FormattedCurrencyProps) (w : World) : World :=
  mkWorld np (formattedValue w) (isMounted w) (phase w) (pending w).

(** New props: [componentWillReceiveProps], then [this.props] is [np]. *)
Definition receiveProps (np : FormattedCurrencyProps) (w : World) : Currency.Res World :=
  match componentWillReceiveProps np w with
  | inl e => inl e
  | inr w => inr (setProps np w)
  end.

(** The constructor (lines 37-48): [props] is always an object here. *)
Definition construct (p : FormattedCurrencyProps) : Currency.Res World :=
  componentWillReceiveProps p (mkWorld p "" false Constructed []).

(** [componentDidMount] and [componentWillUnmount] (lines 50-56). *)
Definition componentDidMount (w : World) : World :=
  mkWorld (props w) (formattedValue w) true Mounted (pending w).

Definition componentWillUnmount (w : World) : World :=
  mkWorld (props w) (formattedValue w) false Unmounted (pending w).

Fixpoint removeAt {A} (i : nat) (l : list A) : list A :=
  match i, l with
  | _, [] => []
  | O, _ :: l => l
  | S i, x :: l => x :: removeAt i l
  end.

(** [formatFunc] calls [_handleFormattedValue] for its [i]-th pending
    call. *)
Definition answer (i : nat) (w : World) : World :=
  match nth_error (pending w) i with
  | Some r => onFormattedValue (format r) (mkWorld (props w) (formattedValue w) (isMounted w) (phase w)
                                            (removeAt i (pending w)))
  | None => w
  end.

Definition render (w : World) : Span :=
  mkSpan (if sensitiveValue (props w) then Some "***" else None)
    (if String.eqb (formattedValue w) "" then ShowNumber (val (props w)) else ShowText (formattedValue w)).

Definition step (w : Currency.Res World) (ev : Event) : Currency.Res World :=
  match w with
  | inl e => inl e
  | inr w =>
      match ev, phase w with
      | EProps np, Mounted => receiveProps np w
      | EMount, Constructed => inr (componentDidMount w)
      | EUnmount, Mounted => inr (componentWillUnmount w)
      | EAnswer i, _ => inr (answer i w)
      | _, _ => inr w
      end
  end.

Definition run (w : Currency.Res World) (evs : list Event) : Currency.Res World := fold_left step evs w.

(** ** Answers in call order *)

(** Either nothing is pending and the state holds the answer for the
    current props, or the last pending call is the one for the current
    props. *)
Definition Consistent (w : World) : Prop :=
  (pending w = [] /\ formattedValue w = format (requestOf (props w))) \/
  exists pre, pending w = pre ++ [requestOf (props w)].

(** The events of an owner whose [formatFunc] answers in call order. *)
Definition inOrder (ev : Event) : Prop :=
  match ev with EProps np => formatFunc np = true | EAnswer i => i = 0%nat | _ => True end.

Lemma snoc_cons_inv {A} (r x : A) rest pre :
  r :: rest = pre ++ [x] -> (rest = [] /\ r = x) \/ exists pre', rest = pre' ++ [x].
Proof.
  destruct pre as [|y pre]; cbn; intros E; injection E as E1 E2; [left; auto|right; eauto].
Qed.

Lemma construct_consistent p : formatFunc p = true -> construct p = inr (mkWorld p "" false Constructed [requestOf p]).
Proof. intros Hf. unfold construct, componentWillReceiveProps. now rewrite Hf. Qed.

Lemma answer0_consistent w : Consistent w -> Consistent (answer 0 w).
Proof.
  intros Hw. unfold answer. destruct (pending w) as [|r rest] eqn:Hp; cbn [nth_error]; [exact Hw|].
  destruct Hw as [[E _]|[pre E]]; rewrite Hp in E; [discriminate|]. unfold onFormattedValue. cbn [removeAt].
  destruct (snoc_cons_inv r (requestOf (props w)) rest pre E) as [[-> ->]|[pre' ->]];
    destruct (isMounted w); first [left; split; reflexivity|right; exists pre'; reflexivity].
Qed.

Lemma step_consistent w ev :
  Consistent w -> inOrder ev -> exists w', step (inr w) ev = inr w' /\ Consistent w'.
Proof.
  intros Hw Hev. destruct ev as [np| | |i]; cbn [step].
  - destruct (phase w); try (eexists; split; [reflexivity|exact Hw]).
    cbn in Hev. unfold receiveProps, componentWillReceiveProps. rewrite Hev.
    eexists. split; [reflexivity|]. right. exists (pending w). reflexivity.
  - destruct (phase w); eexists; split; reflexivity || exact Hw.
  - destruct (phase w); eexists; split; reflexivity || exact Hw.
  - cbn in Hev. subst i. eexists. split; [reflexivity|]. now apply answer0_consistent.
Qed.

Lemma run_consistent w evs :
  Consistent w -> Forall inOrder evs -> exists w', run (inr w) evs = inr w' /\ Consistent w'.
Proof.
  revert w. induction evs as [|ev evs IH]; intros w Hw Hevs; [exists w; auto|].
  inversion Hevs as [|? ? Hev Hrest]; subst.
  destruct (step_consistent w ev Hw Hev) as [w1 [E1 H1]].
  unfold run. cbn [fold_left]. rewrite E1. apply IH; assumption.
Qed.

(** C35: With a [formatFunc] that answers its calls in the order they
    were made, every run from the constructor through new props, mount,
    unmount and answers leaves the component, whenever no call is
    pending, showing the answer for the props it has now. *)
Theorem inorder_answers_current p evs :
  formatFunc p = true -> Forall inOrder evs ->
  exists w, run (construct p) evs = inr w /\
    (pending w = [] -> formattedValue w = format (requestOf (props w))).
Proof.
  intros Hf Hevs. rewrite (construct_consistent p Hf).
  assert (H0 : Consistent (mkWorld p "" false Constructed [requestOf p])) by (right; exists []; reflexivity).
  destruct (run_consistent _ evs H0 Hevs) as [w [E Hw]].
  exists w. split; [exact E|]. intros Hp. destruct Hw as [[_ Hv]|[pre Hpre]]; [exact Hv|].
  rewrite Hp in Hpre. destruct pre; discriminate.
Qed.

(** C34: Answers out of call order leave a stale amount: a mounted
    component given new props twice, whose [formatFunc] answers the second
    call before the first, ends with nothing pending and the first props'
    amount in its state while its props are the second ones. *)
Theorem out_of_order_stale w np1 np2 :
  phase w = Mounted -> pending w = [] -> formatFunc np1 = true -> formatFunc np2 = true ->
  run (inr w) [EProps np1; EProps np2; EAnswer 1; EAnswer 0] =
  inr (mkWorld np2 (format (requestOf np1)) (isMounted w) Mounted []).
Proof.
  intros Hp Hq H1 H2. destruct w as [p fv m ph pd]; cbn in Hp, Hq; subst ph pd.
  unfold run, step, receiveProps, componentWillReceiveProps. cbn. rewrite H1. cbn. rewrite H2. cbn.
  destruct m; reflexivity.
Qed.

End Component.

Module FCTests.

Definition big (_ : Q) : string := "1e+21".
Definition plain (v : Q) : FormattedCurrencyProps := mkProps None false None (Fin v) false.
(** A [formatFunc] that prints its value, as the tests' [***${val}]. *)
Definition stars (r : Request) : string :=
  match r with (Fin q, _, _) => if Qeq_bool q 1 then "***1" else "***2" | _ => "***" end.
Definition custom (v : Q) : FormattedCurrencyProps := mkProps (Some "") true None (Fin v) false.
Definition shownOf (w : Currency.Res World) : option Shown :=
  match w with inr w => Some (content (render w)) | inl _ => None end.

(** Without [Intl] the default formatter is [toFixed]. *)
Example default_format :
  shownOf (construct big None (plain (11313751 # 1000))) = Some (ShowText "11314") /\
  shownOf (construct big None (plain (13751 # 1000))) = Some (ShowText "13.75") /\
  shownOf (construct big None (plain (-13751 # 1000))) = Some (ShowText "-13.75").
Proof. vm_compute. repeat split. Qed.

Example mouseflow_attribute :
  option_map (fun w => mfReplaceInner (render w))
    (match construct big None (mkProps None false None (Fin 5) true) with inr w => Some w | _ => None end)
  = Some (Some "***").
Proof. vm_compute. reflexivity. Qed.

(** An asynchronous [formatFunc]: the raw value until it answers. *)
Example asynchronous_answer :
  shownOf (construct big None (custom 1)) = Some (ShowNumber (Fin 1)) /\
  shownOf (run big None stars (construct big None (custom 1)) [EMount; EAnswer 0]) = Some (ShowText "***1").
Proof. vm_compute. split; reflexivity. Qed.

(** With an [Intl] that checks [minimumSignificantDigits], zero with
    options that leave out [fractionalDigits] throws from the
    constructor. *)
Example zero_throws_in_constructor :
  construct big (Some Currency.CurrencyTests.ecmaNumberFormat)
    (mkProps None false (Some (Currency.mkFormatOptions None None None None)) (Fin 0) false) =
  inl Currency.RangeError.
Proof. vm_compute. reflexivity. Qed.

Lemma inorder_answers_current_witness :
  exists w, run big None stars (construct big None (custom 1)) [EMount; EProps (custom 2); EAnswer 0; EAnswer 0] = inr w /\
    (pending w = [] -> formattedValue w = stars (requestOf (props w))).
Proof.
  apply inorder_answers_current; [reflexivity|].
  repeat constructor.
Defined.

Lemma out_of_order_stale_witness :
  run big None stars (inr (mkWorld (custom 2) "***2" true Mounted [])) [EProps (custom 1); EProps (custom 2); EAnswer 1; EAnswer 0]
  = inr (mkWorld (custom 2) "***1" true Mounted []).
Proof. exact (out_of_order_stale big None stars (mkWorld (custom 2) "***2" true Mounted []) (custom 1) (custom 2)
                eq_refl eq_refl eq_refl eq_refl). Defined.

End FCTests.

End FC.
