(* ===== verification/ArraySort.v ===== *)
(** * JS arrays: [Array.prototype.sort] with a comparator, and [slice]

      The cards sort their data with [arr.sort((a, b) => key(a) - key(b))]
      and keep the last few entries with [arr.slice(-n)].  [sortBy] is a
      stable insertion sort driven by the comparator's sign, as ECMA-262
      asks since ES2019 (an element goes before another only when the
      comparator says it sorts after it); for a comparator that is the
      difference of finite keys every stable sort returns this list, which
      [sortBy_spec] and [sortBy_sorted_id] characterise.  [slice] follows
      the steps of [Array.prototype.slice(start)]: [ToIntegerOrInfinity]
      and the relative index.  The [last] lemmas are shared by the cards
      that read [arr[arr.length - 1]]. *)

From Stdlib Require Import QArith Qround Lqa ZArith List Lia Sorting.Permutation Sorting.Sorted.
From S2P Require Import Prelude.
Import ListNotations.
Open Scope Q_scope.

Module JsArray.

Section Sort.
Context {A : Type}.
(** The comparator [(a, b) => ...]. *)
Variable cmp : A -> A -> num.

(** Stable insertion: [x] goes before the first element [y] with
    [cmp(y, x) > 0]. *)
Fixpoint insertBy (x : A) (l : list A) : list A :=
  match l with
  | [] => [x]
  | y :: l' => if nlt (Fin 0) (cmp y x) then x :: l else y :: insertBy x l'
  end.

(** [arr.sort(cmp)]: the elements inserted one by one in array order. *)
Definition sortBy (l : list A) : list A := fold_left (fun acc x => insertBy x acc) l [].

Lemma insertBy_perm x l : Permutation (x :: l) (insertBy x l).
Proof.
  induction l as [|y l IH]; cbn [insertBy]; [reflexivity|].
  destruct (nlt (Fin 0) (cmp y x)); [reflexivity|].
  transitivity (y :: x :: l); [apply perm_swap|]. now constructor.
Qed.

Lemma sortBy_perm_acc l acc : Permutation (l ++ acc) (fold_left (fun acc x => insertBy x acc) l acc).
Proof.
  revert acc. induction l as [|x l IH]; intros acc; [reflexivity|]. cbn [fold_left app].
  rewrite <- IH. transitivity (l ++ x :: acc)%list; [apply Permutation_middle|].
  apply Permutation_app_head, insertBy_perm.
Qed.

(** [sort] returns a permutation of the array, whatever the comparator. *)
Lemma sortBy_perm l : Permutation l (sortBy l).
Proof. pose proof (sortBy_perm_acc l []) as H. rewrite app_nil_r in H. exact H. Qed.

Lemma sortBy_length l : List.length (sortBy l) = List.length l.
Proof. symmetry. apply Permutation_length, sortBy_perm. Qed.

End Sort.

(** ** [arr[arr.length - 1]] *)

Lemma last_shift {A} (y : A) l d : last (y :: l) d = last l y.
Proof.
  revert y d. induction l as [|z l IH]; intros y d; [reflexivity|].
  change (last (z :: l) d = last (z :: l) y). now rewrite (IH z d), (IH z y).
Qed.

Lemma last_default {A} (l : list A) a b : l <> [] -> last l a = last l b.
Proof. destruct l as [|x l]; [congruence|]. intros _. now rewrite !last_shift. Qed.

Lemma last_map_some {A B} (f : A -> B) l d : last (map (fun x => Some (f x)) l) (Some (f d)) = Some (f (last l d)).
Proof. revert d. induction l as [|x l IH]; intros d; [reflexivity|]. cbn [map]. now rewrite !last_shift. Qed.

Lemma last_In {A} (l : list A) d : In (last l d) (d :: l).
Proof.
  revert d. induction l as [|x l IH]; intros d; [left; reflexivity|].
  rewrite last_shift. right. apply IH.
Qed.

(** ** Sorting by a numeric key: [(a, b) => key(a) - key(b)] *)

Section Keyed.
Context {A : Type}.
Variable key : A -> num.

Definition byKey (a b : A) : num := nsub (key a) (key b).

(** The key of an element whose key is finite. *)
Definition kq (a : A) : Q := match key a with Fin q => q | _ => 0 end.
Definition keyLe (a b : A) : Prop := kq a <= kq b.
Definition keyed (a : A) : Prop := finite (key a) = true.

Lemma byKey_keyed a b : keyed a -> keyed b -> byKey a b = Fin (kq a - kq b).
Proof.
  unfold keyed, byKey, kq. destruct (key a), (key b); try discriminate.
  intros _ _. apply nsub_fin.
Qed.

Lemma keyLe_trans : Relations_1.Transitive keyLe.
Proof. unfold Relations_1.Transitive, keyLe. intros; lra. Qed.

Lemma insertBy_hd y x l : keyLe y x -> HdRel keyLe y l -> HdRel keyLe y (insertBy byKey x l).
Proof.
  intros Hyx Hl. destruct l as [|z l]; cbn [insertBy]; [constructor; exact Hyx|].
  destruct (nlt (Fin 0) (byKey z x)); constructor; [exact Hyx|]. now inversion Hl.
Qed.

Lemma insertBy_sorted x l :
  keyed x -> Forall keyed l -> Sorted keyLe l -> Sorted keyLe (insertBy byKey x l).
Proof.
  intros Hx. induction l as [|y l IH]; intros Hl Hs; cbn [insertBy]; [repeat constructor|].
  inversion Hl as [|? ? Hy Hl']; subst. inversion Hs as [|? ? Hs' Hhd]; subst.
  rewrite (byKey_keyed y x Hy Hx). cbn [nlt]. qcase (Qltb 0 (kq y - kq x)).
  - constructor; [exact Hs|]. constructor. unfold keyLe. lra.
  - constructor; [exact (IH Hl' Hs')|]. apply insertBy_hd; [unfold keyLe; lra|exact Hhd].
Qed.

Lemma sortBy_sorted_acc l acc :
  Forall keyed l -> Forall keyed acc -> Sorted keyLe acc ->
  Sorted keyLe (fold_left (fun acc x => insertBy byKey x acc) l acc).
Proof.
  revert acc. induction l as [|x l IH]; intros acc Hl Hacc Hs; [exact Hs|].
  inversion Hl; subst. cbn [fold_left]. apply IH; [assumption| |apply insertBy_sorted; assumption].
  apply (Permutation_Forall (insertBy_perm byKey x acc)). now constructor.
Qed.

(** With finite keys, [sort] returns the elements in ascending key
    order. *)
Lemma sortBy_spec l :
  Forall keyed l -> Permutation l (sortBy byKey l) /\ Sorted keyLe (sortBy byKey l).
Proof. intros Hd. split; [apply sortBy_perm|apply sortBy_sorted_acc; auto]. Qed.

(** An element whose key is not below any of [acc] goes at its end. *)
Lemma insertBy_last x acc :
  keyed x -> Forall (fun y => keyed y /\ keyLe y x) acc -> insertBy byKey x acc = acc ++ [x].
Proof.
  intros Hx. induction acc as [|y acc IH]; intros Hacc; [reflexivity|].
  inversion Hacc as [|? ? [Hy Hyx] Hacc']; subst. cbn [insertBy].
  rewrite (byKey_keyed y x Hy Hx). cbn [nlt]. unfold keyLe in Hyx.
  qcase (Qltb 0 (kq y - kq x)); [lra|]. now rewrite (IH Hacc').
Qed.

Lemma StronglySorted_app_rel {B} (R : B -> B -> Prop) l1 l2 :
  StronglySorted R (l1 ++ l2) -> forall a b, In a l1 -> In b l2 -> R a b.
Proof.
  induction l1 as [|c l1 IH]; intros Hs a b Ha Hb; [destruct Ha|].
  inversion Hs as [|? ? Hs' Hall]; subst. destruct Ha as [<-|Ha].
  - rewrite Forall_forall in Hall. apply Hall, in_or_app. now right.
  - exact (IH Hs' a b Ha Hb).
Qed.

Lemma sortBy_sorted_acc_id l acc :
  Forall keyed (acc ++ l) -> StronglySorted keyLe (acc ++ l) ->
  fold_left (fun acc x => insertBy byKey x acc) l acc = acc ++ l.
Proof.
  revert acc. induction l as [|x l IH]; intros acc Hk Hs; [now rewrite app_nil_r|].
  cbn [fold_left]. rewrite insertBy_last.
  - replace (acc ++ x :: l) with ((acc ++ [x]) ++ l) by (now rewrite <- app_assoc).
    apply IH; now rewrite <- app_assoc.
  - rewrite Forall_forall in Hk. apply Hk, in_or_app. right. now left.
  - rewrite Forall_forall in Hk |- *. intros y Hy. split; [apply Hk, in_or_app; now left|].
    apply (StronglySorted_app_rel _ acc (x :: l) Hs); [exact Hy|now left].
Qed.

(** Sorting a sorted array changes nothing: [sort] is idempotent on
    finite keys. *)
Lemma sortBy_sorted_id l : Forall keyed l -> Sorted keyLe l -> sortBy byKey l = l.
Proof.
  intros Hk Hs. apply (sortBy_sorted_acc_id l []); [exact Hk|].
  apply Sorted_StronglySorted; [exact keyLe_trans|exact Hs].
Qed.

Lemma sortBy_idem l : Forall keyed l -> sortBy byKey (sortBy byKey l) = sortBy byKey l.
Proof.
  intros Hk. destruct (sortBy_spec l Hk) as [Hp Hs].
  apply sortBy_sorted_id; [exact (Permutation_Forall Hp Hk)|exact Hs].
Qed.

(** The first element of a sorted list is the earliest, its last the
    latest. *)
Lemma sorted_bounds first rest :
  Sorted keyLe (first :: rest) ->
  forall t, In t (first :: rest) -> kq first <= kq t <= kq (last rest first).
Proof.
  intros Hs. apply Sorted_StronglySorted in Hs; [|exact keyLe_trans].
  revert first Hs. induction rest as [|y rest IH]; intros first Hs t Hin.
  - destruct Hin as [<-|[]]. cbn [last]. lra.
  - inversion Hs as [|? ? Hs' Hall]; subst. rewrite Forall_forall in Hall. unfold keyLe in Hall.
    specialize (IH y Hs'). rewrite last_shift.
    pose proof (IH y (in_eq _ _)) as [_ Hy]. pose proof (Hall y (in_eq _ _)) as Hfy.
    destruct Hin as [<-|Hin]; [split; lra|].
    destruct (IH t Hin) as [H1 H2]. pose proof (Hall t Hin). split; lra.
Qed.

End Keyed.

(** ** [Array.prototype.slice(start)] *)

(** Steps 3-5: [ToIntegerOrInfinity(start)], counted from the end when
    negative, clamped to [0, len]. *)
Definition relIndex (start : num) (len : nat) : nat :=
  match start with
  | NaN | NegInf => 0
  | PosInf => len
  | Fin q =>
      let z := trunc q in
      if (z <? 0)%Z then Z.to_nat (Z.max (Z.of_nat len + z) 0) else Nat.min (Z.to_nat z) len
  end.

Definition slice {A} (start : num) (l : list A) : list A := skipn (relIndex start (List.length l)) l.

Lemma trunc_int z : trunc (inject_Z z) = z.
Proof.
  unfold trunc. qcase (Qle_bool 0 (inject_Z z)); [apply Qfloor_Z|apply Qceiling_Z].
Qed.

(** [arr.slice(-n)] for a positive integer [n]: the last [n] elements. *)
Lemma slice_neg {A} (n : Z) (l : list A) :
  (0 < n)%Z -> slice (Fin (inject_Z (- n))) l = skipn (List.length l - Z.to_nat n) l.
Proof.
  intros Hn. unfold slice, relIndex. rewrite trunc_int.
  replace ((- n) <? 0)%Z with true by lia. f_equal. lia.
Qed.

Lemma slice_neg_length {A} (n : Z) (l : list A) :
  (0 < n)%Z -> List.length (slice (Fin (inject_Z (- n))) l) = Nat.min (Z.to_nat n) (List.length l).
Proof. intros Hn. rewrite slice_neg by exact Hn. rewrite length_skipn. lia. Qed.

(** A slice is a suffix of the array. *)
Lemma slice_suffix {A} s (l : list A) : exists pre, l = (pre ++ slice s l)%list.
Proof. exists (firstn (relIndex s (List.length l)) l). symmetry. apply firstn_skipn. Qed.

Lemma Forall_slice {A} (P : A -> Prop) s l : Forall P l -> Forall P (slice s l).
Proof.
  destruct (slice_suffix s l) as [pre E]. rewrite E at 1. intros H. apply Forall_app in H. exact (proj2 H).
Qed.

End JsArray.
