(* ===== verification/MarketTrends.v ===== *)
(** * The market trends card: [src/src/EmployeeDetailsCards/MarketTrendsCard/]

      [MarketTrendsCard] ([index.tsx]) sorts the monthly market data by
      date ([sortDataByDateAscending], [Array.prototype.sort], stable since
      ES2019), measures every entry against the earliest
      ([computeTrendValues]: the change in [medianAnnualBasePay] and its
      percentage), and hands the last change to [MarketTrendsSummary]
      ([marketTrendsSummary.tsx]) and the last four other changes to
      [MarketTrendsChart] ([marketTrendsChart.tsx]); [parseCurrencyCode]
      takes the code out of a name such as [US Dollar (USD)] with a
      regular expression: a ['('], a greedy group of any characters but
      line terminators, and a [')'] that ends the string.

      [new Date(s).getTime()] and the owner's [dateFormatter] are
      parameters ([getTime] gives [NaN] for a date it cannot read).  The
      sort is modelled as a stable insertion sort with the code's
      comparator; for comparable dates every stable sort returns the same
      list, which ArraySort.v's [sortBy_spec] characterises.  Pay values are JS
      values ([Pay.jsval]): [null] counts as 0 and [undefined] as [NaN] in
      arithmetic. *)

From Stdlib Require Import QArith Qround Lqa ZArith List String Ascii Bool Lia Sorting.Permutation Sorting.Sorted.
From S2P Require Import Prelude PayRange ArraySort.
Import ListNotations.
Open Scope string_scope.
Open Scope Q_scope.

Module Trends.
Import JsArray.

(** [interface MarketTrend] (lines 10-16). *)
Record MarketTrend : Type := mkTrend {
  endDateUtc : option string;
  currencyName : option string;
  medianHourlyRate : Pay.jsval;
  medianAnnualBasePay : Pay.jsval
}.

(** [interface MarketTrendChange] (lines 25-29). *)
Record MarketTrendChange : Type := mkChange {
  date : option string;
  changeAmount : num;
  changePercent : num
}.

(** ** [parseCurrencyCode] (lines 83-92) *)

Definition isLineTerminator (c : ascii) : bool :=
  (Nat.eqb (nat_of_ascii c) 10 || Nat.eqb (nat_of_ascii c) 13)%bool.

Fixpoint noLineTerminator (s : string) : bool :=
  match s with
  | EmptyString => true
  | String c r => negb (isLineTerminator c) && noLineTerminator r
  end.

(** After a ['(']: the rest of the pattern matches when the rest of the
    string is [g] followed by a closing parenthesis, with no line
    terminator in [g]; the group is [g]. *)
Fixpoint groupToEnd (s : string) : option string :=
  match s with
  | EmptyString => None
  | String c EmptyString => if Ascii.eqb c ")"%char then Some EmptyString else None
  | String c r =>
      if isLineTerminator c then None
      else match groupToEnd r with Some g => Some (String c g) | None => None end
  end.

(** The regular expression tried at each position from the left: the
    group of the first match. *)
Fixpoint parenGroup (s : string) : option string :=
  match s with
  | EmptyString => None
  | String c r =>
      if Ascii.eqb c "("%char then
        match groupToEnd r with Some g => Some g | None => parenGroup r end
      else parenGroup r
  end.

(** [currencyRegex.test(currency) ? currencyRegex.exec(currency)[1] :
    currency]; [undefined] is tested as the string ['undefined'], which
    does not match. *)
Definition parseCurrencyCode (currency : option string) : option string :=
  match currency with
  | Some s => match parenGroup s with Some g => Some g | None => Some s end
  | None => None
  end.

(** ** [parseCurrencyCode] *)

(** A string with no opening parenthesis. *)
Fixpoint noOpenParen (s : string) : bool :=
  match s with
  | EmptyString => true
  | String c r => negb (Ascii.eqb c "("%char) && noOpenParen r
  end.

Lemma groupToEnd_close code : noLineTerminator code = true -> groupToEnd (code ++ ")") = Some code.
Proof.
  induction code as [|c code IH]; [reflexivity|]. cbn [noLineTerminator].
  intros H. apply andb_prop in H as [Hc Hr]. apply negb_true_iff in Hc.
  destruct code as [|x code']; cbn [append groupToEnd] in IH |- *; rewrite Hc; [reflexivity|].
  now rewrite (IH Hr).
Qed.

Lemma parenGroup_none s : noOpenParen s = true -> parenGroup s = None.
Proof.
  induction s as [|c s IH]; [reflexivity|]. cbn [noOpenParen parenGroup].
  intros H. apply andb_prop in H as [Hc Hr]. apply negb_true_iff in Hc. rewrite Hc. exact (IH Hr).
Qed.

Lemma parenGroup_first name rest : noOpenParen name = true -> parenGroup (name ++ String "(" rest) = parenGroup (String "(" rest).
Proof.
  induction name as [|c name IH]; [reflexivity|]. cbn [noOpenParen append parenGroup].
  intros H. apply andb_prop in H as [Hc Hr]. apply negb_true_iff in Hc. rewrite Hc. exact (IH Hr).
Qed.

(** [parseCurrencyCode] takes the code back out of a currency name
    written as [Name (CODE)], when the name has no parenthesis and the
    code no line terminator, and returns a string with no opening
    parenthesis whole. *)
Theorem parseCurrencyCode_roundtrip name code :
  noOpenParen name = true -> noLineTerminator code = true ->
  parseCurrencyCode (Some (name ++ "(" ++ code ++ ")")) = Some code /\
  parseCurrencyCode (Some name) = Some name.
Proof.
  intros Hn Hc. unfold parseCurrencyCode. rewrite (parenGroup_none name Hn). split; [|reflexivity].
  change ("(" ++ code ++ ")") with (String "(" (code ++ ")")).
  rewrite (parenGroup_first name _ Hn). cbn [parenGroup Ascii.eqb Bool.eqb]. now rewrite groupToEnd_close.
Qed.

Section Card.

(** [new Date(endDateUtc).getTime()]. *)
Variable getTime : option string -> num.
(** The owner's [dateFormatter(date, formatString)]. *)
Variable dateFormatter : option string -> string -> string.

(** ** [sortDataByDateAscending] (lines 32-39) *)

Definition timeOf (t : MarketTrend) : num := getTime (endDateUtc t).

(** The comparator, [dateA.getTime() - dateB.getTime()]. *)
Definition compareTrends (a b : MarketTrend) : num := nsub (timeOf a) (timeOf b).

(** [data.slice().sort(comparator)]: a copy, sorted. *)
Definition sortTrends (data : list MarketTrend) : list MarketTrend := JsArray.sortBy compareTrends data.

(** ** [computeTrendValues] (lines 45-80) *)

Definition changeFrom (base : MarketTrend) (q : MarketTrend) : MarketTrendChange :=
  let b := Pay.toNumber (medianAnnualBasePay base) in
  let delta := nsub (Pay.toNumber (medianAnnualBasePay q)) b in
  mkChange (endDateUtc q) delta (nmul (ndiv delta b) (Fin 100)).

(** [baseQuarter == null || baseQuarter.medianAnnualBasePay === 0]. *)
Definition zeroBase (v : Pay.jsval) : bool :=
  match v with Pay.JNum x => Pay.nstrictEq x (Fin 0) | _ => false end.

Definition computeTrendValues (data : list MarketTrend) : list MarketTrendChange :=
  match sortTrends data with
  | [] => []
  | base :: rest =>
      if zeroBase (medianAnnualBasePay base) then []
      else mkChange (endDateUtc base) (Fin 0) (Fin 0) :: map (changeFrom base) rest
  end.

(** ** The card *)

(** [MarketTrendsSummary] (summary lines 17-56): what it shows. *)
Record Summary : Type := mkSummary {
  summaryJobTitle : string;
  totalChange : num;
  percentShown : num;              (* Math.round(totalPercentChange * 10) / 10 *)
  formattedDate : string;
  summaryCurrency : option string
}.

Definition renderSummary (currency : option string) (trendChange : option MarketTrendChange)
    (jobTitle : string) : Summary :=
  let totalChange := match trendChange with Some c => changeAmount c | None => Fin 0 end in
  let totalPercentChange := match trendChange with Some c => changePercent c | None => Fin 0 end in
  let referenceDate := match trendChange with Some c => date c | None => None end in
  mkSummary jobTitle totalChange (ndiv (nround (nmul totalPercentChange (Fin 10))) (Fin 10))
    (dateFormatter referenceDate "MMMM Do, YYYY") currency.

(** A bar of [MarketTrendsChart] (chart lines 21-25). *)
Record ChartBar : Type := mkChartBar { axisLabel : string; barValue : num; negative : bool }.

Definition barCount : Z := 4.

Definition renderChart (trendPercentages : list MarketTrendChange) : list ChartBar :=
  map (fun d => mkChartBar (dateFormatter (date d) "MMM YY") (changePercent d) (nlt (changePercent d) (Fin 0)))
    (JsArray.slice (Fin (inject_Z (- barCount))) trendPercentages).

Record MarketTrendsCardProps : Type := mkProps {
  jobTitle : option string;
  marketTrends : option (list MarketTrend)
}.

(** [isValidData] (lines 99-103). *)
Definition isValidData (jobTitle : option string) (marketTrends : option (list MarketTrend)) : bool :=
  match jobTitle, marketTrends with
  | Some (String _ _), Some (_ :: _ :: _) => true
  | _, _ => false
  end.

(** [render] (lines 105-137): [None] is [return null]. *)
Definition render (p : MarketTrendsCardProps) : option (Summary * list ChartBar) :=
  match jobTitle p, marketTrends p with
  | Some title, Some data =>
      if isValidData (jobTitle p) (marketTrends p) then
        let trendPercentages := computeTrendValues data in
        Some (renderSummary (parseCurrencyCode (match data with t :: _ => currencyName t | [] => None end))
                (last (map Some trendPercentages) None) title,
              renderChart (tl trendPercentages))
      else None
  | _, _ => None
  end.

(** ** The sort *)

(** The time of an entry, for entries whose date reads. *)
Definition tq : MarketTrend -> Q := kq timeOf.
Definition timeLe : MarketTrend -> MarketTrend -> Prop := keyLe timeOf.
Definition dated : MarketTrend -> Prop := keyed timeOf.

Lemma sortTrends_perm data : Permutation data (sortTrends data).
Proof. apply sortBy_perm. Qed.

(** [sortDataByDateAscending] returns the entries, in ascending date
    order, when every date reads: its comparator is [byKey timeOf]. *)
Lemma sortTrends_spec data :
  Forall dated data -> Permutation data (sortTrends data) /\ Sorted timeLe (sortTrends data).
Proof. exact (sortBy_spec timeOf data). Qed.

Lemma renderChart_length l : List.length (renderChart l) = Nat.min 4 (List.length l).
Proof. unfold renderChart. now rewrite length_map, slice_neg_length by (unfold barCount; lia). Qed.

Lemma zeroBase_fin v q0 : v = Pay.JNum (Fin q0) -> ~ q0 == 0 -> zeroBase v = false.
Proof. intros -> Hq. cbn [zeroBase Pay.nstrictEq]. qcase (Qeq_bool q0 0); [contradiction|reflexivity]. Qed.

(** A valid card whose earliest entry is not a zero pay shows the change
    from the earliest entry to the latest, and charts the changes of the
    later entries. *)
Lemma render_sorted p title data s0 rest :
  jobTitle p = Some title -> marketTrends p = Some data -> isValidData (jobTitle p) (marketTrends p) = true ->
  sortTrends data = s0 :: rest -> zeroBase (medianAnnualBasePay s0) = false ->
  rest <> [] /\
  render p = Some (renderSummary (parseCurrencyCode (match data with t :: _ => currencyName t | [] => None end))
                     (Some (changeFrom s0 (last rest s0))) title,
                   renderChart (map (changeFrom s0) rest)).
Proof.
  intros Ht Hm Hv Es Hz. rewrite Ht, Hm in Hv.
  assert (Hlen : (2 <= List.length data)%nat).
  { destruct data as [|a [|b l]]; cbn in *; [destruct title; discriminate..|lia]. }
  pose proof (Permutation_length (sortTrends_perm data)) as Hl. rewrite Es in Hl.
  assert (Hrest : rest <> []) by (intros ->; cbn in Hl; lia).
  split; [exact Hrest|]. unfold render. rewrite Ht, Hm, Hv. unfold computeTrendValues. rewrite Es, Hz.
  cbn [map tl]. rewrite last_shift, map_map, (last_default _ _ (Some (changeFrom s0 s0))).
  - now rewrite last_map_some.
  - destruct rest; [contradiction|discriminate].
Qed.

Lemma changeFrom_fin base t q0 qt :
  medianAnnualBasePay base = Pay.JNum (Fin q0) -> medianAnnualBasePay t = Pay.JNum (Fin qt) -> ~ q0 == 0 ->
  changeFrom base t = mkChange (endDateUtc t) (Fin (qt - q0)) (Fin ((qt - q0) / q0 * 100)).
Proof.
  intros Hb Ht Hq. unfold changeFrom. rewrite Hb, Ht. cbn [Pay.toNumber].
  rewrite nsub_fin, ndiv_fin by exact Hq. now rewrite nmul_fin.
Qed.

(** C36: For data whose dates all read and whose annual pays are all
    non-zero numbers, the card reports the change from the earliest entry
    to the latest: its summary shows the difference of their pays and its
    percentage rounded to one decimal, and its chart one bar for each of
    the last four entries after the earliest (fewer when there are
    fewer). *)
Theorem summary_reports_change p title data :
  jobTitle p = Some title -> marketTrends p = Some data -> isValidData (jobTitle p) (marketTrends p) = true ->
  Forall dated data ->
  Forall (fun t => exists q, medianAnnualBasePay t = Pay.JNum (Fin q) /\ ~ q == 0) data ->
  exists first latest q0 qz s bars,
    In first data /\ In latest data /\ (forall t, In t data -> tq first <= tq t <= tq latest) /\
    medianAnnualBasePay first = Pay.JNum (Fin q0) /\ medianAnnualBasePay latest = Pay.JNum (Fin qz) /\
    render p = Some (s, bars) /\ totalChange s = Fin (qz - q0) /\
    percentShown s = ndiv (nround (nmul (Fin ((qz - q0) / q0 * 100)) (Fin 10))) (Fin 10) /\
    List.length bars = Nat.min 4 (List.length data - 1).
Proof.
  intros Ht Hm Hv Hd Hpay. destruct (sortTrends_spec data Hd) as [Hperm Hsort].
  rewrite Forall_forall in Hpay.
  assert (Hin : forall t, In (A:=MarketTrend) t (sortTrends data) -> In t data)
    by (intros t; apply Permutation_in; now symmetry).
  destruct (sortTrends data) as [|s0 rest] eqn:Es.
  { rewrite Ht, Hm in Hv. apply Permutation_length in Hperm.
    destruct data as [|a [|b l]]; cbn in *; [destruct title; discriminate..|lia]. }
  set (z := last rest s0).
  destruct (Hpay s0 (Hin s0 (in_eq _ _))) as [q0 [Hq0 Hnz0]].
  destruct (Hpay z (Hin z (last_In rest s0))) as [qz [Hqz _]].
  destruct (render_sorted p title data s0 rest Ht Hm Hv Es (zeroBase_fin _ q0 Hq0 Hnz0)) as [Hrest ->].
  exists s0, z, q0, qz. eexists _, _.
  split; [apply Hin; left; reflexivity|]. split; [apply Hin, last_In|].
  split; [intros t Ht'; apply (sorted_bounds timeOf s0 rest Hsort t); apply Permutation_in with data; assumption|].
  split; [exact Hq0|]. split; [exact Hqz|]. split; [reflexivity|].
  change (last rest s0) with z. rewrite (changeFrom_fin s0 z q0 qz Hq0 Hqz Hnz0).
  cbn [renderSummary totalChange percentShown changeAmount changePercent].
  split; [reflexivity|]. split; [reflexivity|].
  rewrite renderChart_length, length_map.
  apply Permutation_length in Hperm. rewrite Hperm. cbn [List.length]. lia.
Qed.

(** An entry with no annual pay: [null], or missing ([undefined]) as
    for an hourly position. *)
Definition noAnnualPay (t : MarketTrend) : Prop :=
  medianAnnualBasePay t = Pay.JNull \/ medianAnnualBasePay t = Pay.JUndefined.

Lemma changeFrom_noAnnualPay b t :
  noAnnualPay b -> noAnnualPay t -> changePercent (changeFrom b t) = NaN.
Proof. unfold noAnnualPay, changeFrom. intros [->| ->] [->| ->]; reflexivity. Qed.

Lemma noAnnualPay_zeroBase t : noAnnualPay t -> zeroBase (medianAnnualBasePay t) = false.
Proof. intros [->| ->]; reflexivity. Qed.

(** For an hourly position, whose entries carry a [medianHourlyRate]
    and no [medianAnnualBasePay] (or a [null] one), the card still
    renders: its summary shows a percentage that is [NaN], and every bar
    of its chart, of which there is at least one, has the value [NaN] and
    is not marked negative. *)
Theorem hourly_trends_nan p title data :
  jobTitle p = Some title -> marketTrends p = Some data -> isValidData (jobTitle p) (marketTrends p) = true ->
  Forall noAnnualPay data ->
  exists s bars, render p = Some (s, bars) /\ percentShown s = NaN /\ bars <> [] /\
    Forall (fun b => barValue b = NaN /\ negative b = false) bars.
Proof.
  intros Ht Hm Hv Hn. pose proof (Permutation_Forall (sortTrends_perm data) Hn) as Hs.
  destruct (sortTrends data) as [|s0 rest] eqn:Es.
  { rewrite Ht, Hm in Hv. pose proof (Permutation_length (sortTrends_perm data)) as Hl. rewrite Es in Hl.
    destruct data as [|a [|b l]]; cbn in *; [destruct title; discriminate..|lia]. }
  inversion Hs as [|? ? H0 Hr]; subst.
  destruct (render_sorted p title data s0 rest Ht Hm Hv Es (noAnnualPay_zeroBase s0 H0)) as [Hrest ->].
  eexists _, _. split; [reflexivity|].
  rewrite Forall_forall in Hr, Hs.
  split; [cbn [renderSummary percentShown]; rewrite changeFrom_noAnnualPay;
          [reflexivity|exact H0|apply Hs, last_In]|].
  split.
  - intros E. apply (f_equal (@List.length _)) in E.
    rewrite renderChart_length, length_map in E. destruct rest; [contradiction|discriminate].
  - unfold renderChart. apply Forall_map, Forall_slice, Forall_map, Forall_forall.
    intros t Ht'. cbn [barValue negative]. rewrite (changeFrom_noAnnualPay s0 t H0 (Hr t Ht')). now split.
Qed.

End Card.

Module MarketTrendsTests.

(** The dates of the repository's tests, read as consecutive numbers. *)
Definition testTime (d : option string) : num :=
  match d with
  | Some "2016-07-28T07:00:00Z" => Fin 1
  | Some "2016-10-28T07:00:00Z" => Fin 2
  | Some "2017-01-28T08:00:00Z" => Fin 3
  | Some "2017-04-28T07:00:00Z" => Fin 4
  | Some "2017-07-28T07:00:00Z" => Fin 5
  | _ => NaN
  end.

Definition testFormat (d : option string) (f : string) : string :=
  match d with Some s => s | None => "" end.

Definition entry (d : string) (pay : Pay.jsval) : MarketTrend :=
  mkTrend (Some d) (Some "Euro (EUR)") Pay.JUndefined pay.

Definition series (pays : list Q) : list MarketTrend :=
  map (fun '(d, q) => entry d (Pay.JNum (Fin q)))
    (combine ["2016-07-28T07:00:00Z"; "2016-10-28T07:00:00Z"; "2017-01-28T08:00:00Z";
              "2017-04-28T07:00:00Z"; "2017-07-28T07:00:00Z"] pays).

(** The percentages [computeTrendValues] gives, in lowest terms. *)
Definition percents (data : list MarketTrend) : list (option Q) :=
  map (fun c => match changePercent c with Fin q => Some (Qred q) | _ => None end)
    (computeTrendValues testTime data).

Example all_positive : percents (series [100; 105; 103; 102; 109]) = [Some 0; Some 5; Some 3; Some 2; Some 9].
Proof. vm_compute. reflexivity. Qed.

Example all_negative : percents (series [100; 96; 96; 89; 89]) = [Some 0; Some (-4); Some (-4); Some (-11); Some (-11)].
Proof. vm_compute. reflexivity. Qed.

Example both_ending_positive : percents (series [100; 96; 106; 89; 109]) = [Some 0; Some (-4); Some 6; Some (-11); Some 9].
Proof. vm_compute. reflexivity. Qed.

(** The entries given out of order are sorted first. *)
Example unsorted_input : percents (rev (series [100; 96; 106; 89; 109])) = [Some 0; Some (-4); Some 6; Some (-11); Some 9].
Proof. vm_compute. reflexivity. Qed.

Example no_data : percents [] = [].
Proof. reflexivity. Qed.

Example one_quarter : percents (series [100]) = [Some 0].
Proof. vm_compute. reflexivity. Qed.

Example zero_base : percents (series [0; 100]) = [].
Proof. vm_compute. reflexivity. Qed.

Example parse_tests :
  parseCurrencyCode (Some "US Dollar (USD)") = Some "USD" /\ parseCurrencyCode (Some "USD") = Some "USD" /\
  parseCurrencyCode None = None.
Proof. repeat split; reflexivity. Qed.

(** A name with parentheses of its own: the greedy group runs from its
    first opening parenthesis. *)
Example parse_nested_parens : parseCurrencyCode (Some "Dollar (US) (USD)") = Some "US) (USD".
Proof. reflexivity. Qed.

(** A valid card without a job title is not rendered. *)
Example no_title : render testTime testFormat (mkProps None (Some (series [100; 105]))) = None.
Proof. reflexivity. Qed.

Definition card0 : MarketTrendsCardProps := mkProps (Some "Colon Hydrotherapist") (Some (series [100; 105; 103; 102; 109])).

Lemma summary_reports_change_witness :
  exists first latest q0 qz s bars,
    In first (series [100; 105; 103; 102; 109]) /\ In latest (series [100; 105; 103; 102; 109]) /\
    (forall t, In t (series [100; 105; 103; 102; 109]) -> tq testTime first <= tq testTime t <= tq testTime latest) /\
    medianAnnualBasePay first = Pay.JNum (Fin q0) /\ medianAnnualBasePay latest = Pay.JNum (Fin qz) /\
    render testTime testFormat card0 = Some (s, bars) /\ totalChange s = Fin (qz - q0) /\
    percentShown s = ndiv (nround (nmul (Fin ((qz - q0) / q0 * 100)) (Fin 10))) (Fin 10) /\
    List.length bars = Nat.min 4 (List.length (series [100; 105; 103; 102; 109]) - 1).
Proof.
  apply (summary_reports_change testTime testFormat card0 "Colon Hydrotherapist"); [reflexivity..| |].
  - repeat constructor.
  - repeat constructor; eexists; (split; [reflexivity|intros H; vm_compute in H; discriminate H]).
Defined.

Definition hourly : MarketTrendsCardProps :=
  mkProps (Some "Barista")
    (Some [mkTrend (Some "2016-10-28T07:00:00Z") (Some "USD") (Pay.JNum (Fin 16)) Pay.JUndefined;
           mkTrend (Some "2016-07-28T07:00:00Z") (Some "USD") (Pay.JNum (Fin 15)) Pay.JUndefined]).

Lemma hourly_trends_nan_witness :
  exists s bars, render testTime testFormat hourly = Some (s, bars) /\ percentShown s = NaN /\ bars <> [] /\
    Forall (fun b => barValue b = NaN /\ negative b = false) bars.
Proof.
  apply (hourly_trends_nan testTime testFormat hourly "Barista" _ eq_refl eq_refl eq_refl).
  repeat constructor; right; reflexivity.
Defined.

Lemma parseCurrencyCode_roundtrip_witness :
  parseCurrencyCode (Some ("US Dollar " ++ "(" ++ "USD" ++ ")")) = Some "USD" /\
  parseCurrencyCode (Some "US Dollar ") = Some "US Dollar ".
Proof. apply parseCurrencyCode_roundtrip; reflexivity. Defined.

End MarketTrendsTests.

End Trends.
