(* ===== verification/PayHistory.v ===== *)
(** * The pay history cards: [src/src/EmployeeDetailsCards/PayHistoryBarChartCard/]
      and [PayHistorySummaryCard/]

      Both cards take the owner's [historyDataPoints] array and sort it by
      [Date.parse(createdAt)] in place ([Array.prototype.sort] mutates its
      receiver), so the model keeps the arrays in a heap and the cards'
      props hold a location: a page that passes one array to both cards
      renders them over one shared object.  [PayHistoryBarChartCard]
      charts the last [maxDataPoints || 5] points with [formatCurrency]
      labels; [PayHistorySummaryCard] compares the first point with the
      last, prints both through [formatCurrency] and [replaceTokens], and
      shows the change in percent as [parseFloat(x.toFixed(1))].

      [Module JsNumber] is [parseFloat] (ECMA-262 §19.2.4), which reads the
      output of CurrencyUtils.v's [toFixed] back.  [Date.parse], [new
      Date(s).getUTCFullYear()], [dayjs(d).format(f)] and [Number::toString]
      are parameters. *)

From Stdlib Require Import QArith Qround Qabs Lqa ZArith List String Ascii Bool Lia Sorting.Permutation Sorting.Sorted.
From S2P Require Import Prelude DataRange BarChartLayout StringUtils CurrencyUtils ArraySort.
Import ListNotations.
Open Scope string_scope.
Open Scope Q_scope.

Module JsNumber.
Import Tokens.

(** ** [parseFloat] *)

(** [StrWhiteSpaceChar] among the code units below 256. *)
Definition isWhiteSpace (c : ascii) : bool :=
  let n := nat_of_ascii c in
  (Nat.eqb n 9 || Nat.eqb n 10 || Nat.eqb n 11 || Nat.eqb n 12 || Nat.eqb n 13 ||
   Nat.eqb n 32 || Nat.eqb n 160)%bool.

(** Step 2: the leading white space removed. *)
Fixpoint trimStart (s : string) : string :=
  match s with
  | String c r => if isWhiteSpace c then trimStart r else s
  | EmptyString => s
  end.

(** The value of an [ExponentPart] at the start of [s], [0] when there
    is none. *)
Definition exponentValue (s : string) : Z :=
  match s with
  | String c r =>
      if (Ascii.eqb c "e" || Ascii.eqb c "E")%bool then
        let '(sg, r1) := match r with
                         | String "+"%char r1 => (1%Z, r1)
                         | String "-"%char r1 => ((-1)%Z, r1)
                         | _ => (1%Z, r)
                         end in
        let '(ds, _) := spanDigits r1 in
        if String.eqb ds "" then 0%Z else (sg * Z.of_N (digitsValue ds))%Z
      else 0%Z
  | EmptyString => 0%Z
  end.

(** The longest prefix of [s] that is a [StrUnsignedDecimalLiteral], and
    its value: [Infinity], or digits with an optional point, fraction and
    exponent; [None] when no prefix is one. *)
Definition unsignedValue (s : string) : option num :=
  if String.prefix "Infinity" s then Some PosInf
  else
    let '(ip, r) := spanDigits s in
    let '(fp, r2) := match r with String "."%char r1 => spanDigits r1 | _ => (""%string, r) end in
    if (String.eqb ip "" && String.eqb fp "")%bool then None
    else Some (Fin (inject_Z (Z.of_N (digitsValue (ip ++ fp))) / inject_Z (10 ^ Z.of_nat (String.length fp))
                    * 10 ^ exponentValue r2)).

(** [parseFloat(string)] (steps 2-6): the sign applies to the literal
    after it; no literal gives [NaN].  Signed zero is not modelled. *)
Definition parseFloat (s : string) : num :=
  let t := trimStart s in
  match t with
  | String "-"%char r => match unsignedValue r with Some v => nneg v | None => NaN end
  | String "+"%char r => match unsignedValue r with Some v => v | None => NaN end
  | _ => match unsignedValue t with Some v => v | None => NaN end
  end.

(** ** [parseFloat] reads [toFixed] back *)

Lemma isDigit_digitChar d : (0 <= d < 10)%Z -> isDigit (Currency.digitChar d) = true.
Proof.
  intros Hd. unfold isDigit, Currency.digitChar. rewrite nat_ascii_embedding by lia.
  apply andb_true_iff. split; apply Nat.leb_le; lia.
Qed.

Lemma allDigits_app a b : allDigits (a ++ b) = (allDigits a && allDigits b)%bool.
Proof. induction a as [|c a IH]; [reflexivity|]. cbn. now rewrite IH, andb_assoc. Qed.

Lemma allDigits_showDigits f n acc :
  (0 <= n)%Z -> allDigits acc = true -> allDigits (Currency.showDigits f n acc) = true.
Proof.
  revert n acc. induction f as [|f IH]; intros n acc Hn Hacc; [exact Hacc|]. cbn [Currency.showDigits].
  assert (Hc : allDigits (String (Currency.digitChar (n mod 10)) acc) = true).
  { cbn [allDigits]. rewrite isDigit_digitChar by (apply Z.mod_pos_bound; lia). exact Hacc. }
  destruct (n <? 10)%Z; [exact Hc|]. apply IH; [apply Z.div_pos; lia|exact Hc].
Qed.

Lemma allDigits_showZ n : (0 <= n)%Z -> allDigits (Currency.showZ n) = true.
Proof. intros Hn. apply allDigits_showDigits; [exact Hn|reflexivity]. Qed.

Lemma zeros_digits k : allDigits (Currency.zeros k) = true /\ digitsValueAcc 0 (Currency.zeros k) = 0%N.
Proof. induction k as [|k [IH1 IH2]]; [split; reflexivity|]. split; [exact IH1|exact IH2]. Qed.

Lemma substring_full m : substring 0 (String.length m) m = m.
Proof. induction m as [|c m IH]; [reflexivity|]. cbn. now rewrite IH. Qed.

Lemma substring_split m j :
  (j <= String.length m)%nat -> substring 0 j m ++ substring j (String.length m - j) m = m.
Proof.
  revert j. induction m as [|c m IH]; intros j Hj; [destruct j; reflexivity|].
  destruct j as [|j]; cbn [substring append String.length].
  - rewrite Nat.sub_0_r. now rewrite substring_full.
  - cbn in Hj. f_equal. apply IH. lia.
Qed.

Lemma length_substring m j k :
  (j + k <= String.length m)%nat -> String.length (substring j k m) = k.
Proof.
  revert j k. induction m as [|c m IH]; intros j k H; cbn [String.length] in H.
  - destruct j, k; cbn; lia.
  - destruct j as [|j]; [destruct k as [|k]|]; cbn [substring String.length]; [reflexivity| |];
      rewrite IH; lia.
Qed.

Lemma length_substring_split m j :
  (j <= String.length m)%nat -> String.length (substring j (String.length m - j) m) = (String.length m - j)%nat.
Proof. intros Hj. apply length_substring. lia. Qed.

Lemma prefix_Infinity_digit c r : isDigit c = true -> String.prefix "Infinity" (String c r) = false.
Proof.
  intros H. cbn [String.prefix]. destruct (ascii_dec "I" c) as [E|]; [subst; discriminate H|reflexivity].
Qed.

(** A decimal [a.b] of digits with [a] not empty: the digits of [ab] over
    [10^|b|]. *)
Lemma unsignedValue_point a b :
  allDigits a = true -> allDigits b = true -> a <> ""%string ->
  unsignedValue (a ++ String "." b) =
  Some (Fin (inject_Z (Z.of_N (digitsValue (a ++ b))) / inject_Z (10 ^ Z.of_nat (String.length b)) * 1)).
Proof.
  intros Ha Hb Hne. unfold unsignedValue.
  destruct a as [|c a']; [congruence|]. pose proof Ha as Ha0.
  cbn [allDigits] in Ha. apply andb_true_iff in Ha as [Hc _].
  replace (String.prefix "Infinity" (String c a' ++ String "." b)) with false
    by (symmetry; exact (prefix_Infinity_digit c _ Hc)).
  rewrite spanDigits_digits by (exact Ha0 || reflexivity).
  pose proof (spanDigits_digits b "" Hb eq_refl) as Hsb. rewrite append_empty_r_str in Hsb.
  cbv iota beta. rewrite Hsb. reflexivity.
Qed.

Lemma unsignedValue_digits m :
  allDigits m = true -> m <> ""%string ->
  unsignedValue m = Some (Fin (inject_Z (Z.of_N (digitsValue m)) / inject_Z 1 * 1)).
Proof.
  intros Hm Hne. unfold unsignedValue.
  destruct m as [|c m']; [congruence|]. pose proof Hm as Hm'. cbn [allDigits] in Hm'.
  apply andb_true_iff in Hm' as [Hc _].
  rewrite (prefix_Infinity_digit c m' Hc).
  pose proof (spanDigits_digits _ "" Hm eq_refl) as Hsm. rewrite append_empty_r_str in Hsm.
  rewrite Hsm. cbv iota beta. now rewrite append_empty_r_str.
Qed.

Lemma length_zeros k : String.length (Currency.zeros k) = k.
Proof. induction k as [|k IH]; [reflexivity|]. cbn. now rewrite IH. Qed.

(** The digits [m] with a point [f] digits from the right. *)
Lemma unsignedValue_split m f :
  allDigits m = true -> (S f < String.length m)%nat ->
  unsignedValue (substring 0 (String.length m - S f) m ++ "." ++ substring (String.length m - S f) (S f) m) =
  Some (Fin (inject_Z (Z.of_N (digitsValue m)) / inject_Z (10 ^ Z.of_nat (S f)) * 1)).
Proof.
  intros Hm Hlen. set (j := (String.length m - S f)%nat).
  assert (Hj1 : (1 <= j)%nat) by (unfold j; lia). assert (Hj : (j <= String.length m)%nat) by (unfold j; lia).
  replace (substring j (S f) m) with (substring j (String.length m - j) m) by (f_equal; unfold j; lia).
  pose proof (substring_split m j Hj) as Hsplit. pose proof (length_substring_split m j Hj) as Hlb.
  rewrite <- Hsplit in Hm. rewrite allDigits_app in Hm. apply andb_true_iff in Hm as [Ha Hb].
  change ("." ++ ?x) with (String "." x).
  rewrite unsignedValue_point by (try assumption; intros E;
    pose proof (f_equal String.length Hsplit) as L; rewrite length_append_str, E, Hlb in L; cbn in L; lia).
  rewrite Hsplit, Hlb. replace (String.length m - j)%nat with (S f) by (unfold j; lia). reflexivity.
Qed.

Lemma digitsValue_zeros k m : digitsValue (Currency.zeros k ++ m) = digitsValue m.
Proof.
  unfold digitsValue. rewrite Currency.digitsValueAcc_app. now rewrite (proj2 (zeros_digits k)).
Qed.

Lemma round_nonneg q f : 0 <= q -> (0 <= Qfloor (q * inject_Z (10 ^ Z.of_nat f) + (1#2)))%Z.
Proof.
  intros Hq. assert (0 <= q * inject_Z (10 ^ Z.of_nat f)).
  { apply Qmult_le_0_compat; [exact Hq|]. change 0 with (inject_Z 0).
    apply (proj1 (inject_Z_le 0 _)), Z.pow_nonneg. lia. }
  change 0%Z with (Qfloor 0). apply Qfloor_resp_le. lra.
Qed.

(** The digits [toFixed] pads with zeros to more than [f] digits. *)
Lemma pad_facts m0 f :
  allDigits m0 = true -> m0 <> ""%string ->
  let m := if Nat.leb (String.length m0) (S f) then (Currency.zeros (S f + 1 - String.length m0) ++ m0)%string else m0 in
  allDigits m = true /\ (S f < String.length m)%nat /\ digitsValue m = digitsValue m0 /\
  exists c m', m = String c m' /\ isDigit c = true.
Proof.
  intros Hd Hne m. destruct m0 as [|c0 m0']; [congruence|].
  pose proof Hd as Hc0. cbn [allDigits] in Hc0. apply andb_true_iff in Hc0 as [Hc0 _].
  subst m. destruct (Nat.leb_spec (String.length (String c0 m0')) (S f)) as [Hl|Hl].
  - rewrite allDigits_app, Hd, (proj1 (zeros_digits _)), length_append_str, length_zeros, digitsValue_zeros.
    split; [reflexivity|]. split; [lia|]. split; [reflexivity|].
    destruct (S f + 1 - String.length (String c0 m0'))%nat eqn:E; [lia|]. eexists _, _. split; reflexivity.
  - split; [exact Hd|]. split; [lia|]. split; [reflexivity|]. eexists _, _. split; [reflexivity|exact Hc0].
Qed.

(** What [toFixedDigits] prints for [q >= 0] starts with a digit and
    reads back as [n / 10^f], [n] the integer it rounds [q * 10^f] to. *)
Lemma toFixedDigits_read q f :
  0 <= q ->
  (exists c r, Currency.toFixedDigits q f = String c r /\ isDigit c = true) /\
  unsignedValue (Currency.toFixedDigits q f) =
  Some (Fin (inject_Z (Qfloor (q * inject_Z (10 ^ Z.of_nat f) + (1#2))) / inject_Z (10 ^ Z.of_nat f) * 1)).
Proof.
  intros Hq. unfold Currency.toFixedDigits.
  set (n := Qfloor (q * inject_Z (10 ^ Z.of_nat f) + (1#2))). pose proof (round_nonneg q f Hq) as Hn.
  pose proof (Currency.showZ_value n Hn) as Hv. pose proof (allDigits_showZ n Hn) as Hd.
  destruct (Currency.showZ_head n Hn) as [d [s0 [Hd10 Hs0]]].
  assert (Hne : Currency.showZ n <> ""%string) by (rewrite Hs0; discriminate).
  destruct f as [|f].
  - split; [rewrite Hs0; eexists _, _; split; [reflexivity|now apply isDigit_digitChar]|].
    rewrite unsignedValue_digits by assumption. rewrite Hv, Z2N.id by exact Hn. reflexivity.
  - cbv zeta. destruct (pad_facts _ f Hd Hne) as (Hm1 & Hm2 & Hm3 & c & m' & Hm4 & Hc).
    set (m := if Nat.leb _ _ then _ else _) in *. split.
    + rewrite Hm4 in Hm2 |- *. cbn [String.length] in Hm2 |- *.
      replace (S (String.length m') - S f)%nat with (S (String.length m' - S f)) by lia.
      eexists _, _. split; [reflexivity|exact Hc].
    + rewrite unsignedValue_split by assumption. now rewrite Hm3, Hv, Z2N.id by exact Hn.
Qed.

Lemma digitsArg_nat f : (f <= 100)%nat -> Currency.digitsArg (Some (Fin (inject_Z (Z.of_nat f)))) = inr f.
Proof.
  intros Hf. unfold Currency.digitsArg. rewrite JsArray.trunc_int.
  replace ((0 <=? Z.of_nat f)%Z && (Z.of_nat f <=? 100)%Z)%bool with true by lia.
  now rewrite Nat2Z.id.
Qed.

Lemma parseFloat_digits c r : isDigit c = true -> parseFloat (String c r) =
  match unsignedValue (String c r) with Some v => v | None => NaN end.
Proof.
  intros Hc. unfold parseFloat. cbn [trimStart].
  replace (isWhiteSpace c) with false
    by (unfold isDigit in Hc; unfold isWhiteSpace; apply andb_true_iff in Hc as [H1 H2];
        apply Nat.leb_le in H1, H2; symmetry; repeat (apply orb_false_iff; split); apply Nat.eqb_neq; lia).
  destruct c as [[] [] [] [] [] [] [] []]; try reflexivity; discriminate Hc.
Qed.

Lemma round_error x :
  Qabs (x - inject_Z (Qfloor (x + (1#2)))) <= (1#2).
Proof. pose proof (Qround_bounds x). apply Qabs_Qle_condition. lra. Qed.

(** [parseFloat(x.toFixed(f))] for a finite [x] below [10^21] in
    magnitude is [x] rounded to [f] decimals: a multiple [n / 10^f] within
    half a unit of the last digit. *)
Lemma parseFloat_toFixed largeToString q f :
  (f <= 100)%nat -> Qabs q < inject_Z (10 ^ 21) ->
  exists s r n, Currency.toFixed largeToString (Fin q) (Some (Fin (inject_Z (Z.of_nat f)))) = inr s /\
    parseFloat s = Fin r /\ r == inject_Z n / inject_Z (10 ^ Z.of_nat f) /\
    Qabs (q - r) <= (1#2) / inject_Z (10 ^ Z.of_nat f).
Proof.
  intros Hf Hq. unfold Currency.toFixed. rewrite (digitsArg_nat f Hf).
  assert (HD : 0 < inject_Z (10 ^ Z.of_nat f)).
  { change 0 with (inject_Z 0). apply (proj1 (inject_Z_lt 0 _)), Z.pow_pos_nonneg; lia. }
  set (D := inject_Z (10 ^ Z.of_nat f)) in *.
  destruct (Qlt_le_dec q 0) as [Hneg|Hpos].
  - assert (Hb : Qle_bool (inject_Z (10 ^ 21)) (- q) = false)
      by (rewrite Qabs_neg in Hq by lra; qcase (Qle_bool (inject_Z (10 ^ 21)) (- q)); [lra|reflexivity]).
    rewrite Hb. destruct (toFixedDigits_read (- q) f ltac:(lra)) as [[c [r [Hs Hc]]] Hv]. fold D in Hv.
    set (n := Qfloor (- q * D + (1#2))) in *.
    eexists _, _, (- n)%Z. split; [reflexivity|]. unfold parseFloat.
    cbn [append trimStart]. replace (isWhiteSpace "-") with false by reflexivity.
    cbv iota. rewrite Hv. cbn [nneg].
    split; [reflexivity|]. rewrite inject_Z_opp. split; [field; lra|].
    pose proof (round_error (- q * D)) as He. fold n in He.
    rewrite Qabs_Qle_condition in He |- *.
    assert (E : q - - (inject_Z n / D * 1) == - (- q * D - inject_Z n) / D) by (field; lra).
    rewrite E. split; [apply Qle_shift_div_l; [exact HD|]|apply Qle_shift_div_r; [exact HD|]];
      field_simplify; lra.
  - assert (Hb : Qle_bool (inject_Z (10 ^ 21)) q = false)
      by (rewrite Qabs_pos in Hq by lra; qcase (Qle_bool (inject_Z (10 ^ 21)) q); [lra|reflexivity]).
    rewrite Hb. destruct (toFixedDigits_read q f Hpos) as [[c [r [Hs Hc]]] Hv]. fold D in Hv.
    set (n := Qfloor (q * D + (1#2))) in *.
    eexists _, _, n. split; [reflexivity|]. change (""%string ++ ?x) with x.
    rewrite Hs, parseFloat_digits by exact Hc. rewrite <- Hs, Hv.
    split; [reflexivity|]. split; [field; lra|].
    pose proof (round_error (q * D)) as He. fold n in He.
    rewrite Qabs_Qle_condition in He |- *.
    assert (E : q - inject_Z n / D * 1 == (q * D - inject_Z n) / D) by (field; lra).
    rewrite E. split; [apply Qle_shift_div_l; [exact HD|]|apply Qle_shift_div_r; [exact HD|]];
      field_simplify; lra.
Qed.

End JsNumber.

(** ** The owner's arrays and the sort both cards do *)

Module PayHistory.
Import JsArray.

(** [interface PayHistoryDataPoint] (bar chart card lines 8-11). *)
Record PayHistoryDataPoint : Type := mkPoint { baseSalary : Q; createdAt : string }.

(** The arrays the owner passes, by location. *)
Definition Loc : Type := nat.
Definition Heap : Type := list (list PayHistoryDataPoint).

Definition readArr (h : Heap) (l : Loc) : list PayHistoryDataPoint := nth l h [].
Definition writeArr (h : Heap) (l : Loc) (v : list PayHistoryDataPoint) : Heap := jsSet [] h l v.

Section Sort.
(** [Date.parse]. *)
Variable parseDate : string -> num.

Definition dateOf (d : PayHistoryDataPoint) : num := parseDate (createdAt d).

(** [arr.sort((a, b) => Date.parse(a.createdAt) - Date.parse(b.createdAt))]:
    the array at [l] is sorted in place. *)
Definition sortInPlace (h : Heap) (l : Loc) : Heap :=
  writeArr h l (sortBy (byKey dateOf) (readArr h l)).

End Sort.

(** ** The heap *)

Lemma readArr_lt h l : readArr h l <> [] -> (l < List.length h)%nat.
Proof.
  unfold readArr. intros H. destruct (Nat.lt_ge_cases l (List.length h)) as [|Hge]; [assumption|].
  rewrite nth_overflow in H by exact Hge. congruence.
Qed.

Lemma writeArr_length h l v : (l < List.length h)%nat -> List.length (writeArr h l v) = List.length h.
Proof. apply jsSet_length. Qed.

Lemma read_write h l v : (l < List.length h)%nat -> readArr (writeArr h l v) l = v.
Proof.
  intros H. unfold readArr, writeArr. rewrite <- nth_default_eq. unfold nth_default.
  rewrite jsSet_nth by exact H. now rewrite Nat.eqb_refl.
Qed.

Lemma write_write h l v w : (l < List.length h)%nat -> writeArr (writeArr h l v) l w = writeArr h l w.
Proof.
  intros H. apply nth_error_ext. intros j. unfold writeArr.
  rewrite !jsSet_nth by (try rewrite jsSet_length; exact H). now destruct (Nat.eqb j l).
Qed.

(** With finite dates, a second sort leaves the array as the first one
    left it. *)
Lemma sortInPlace_twice parseDate h l :
  Forall (keyed (dateOf parseDate)) (readArr h l) -> readArr h l <> [] ->
  let h1 := sortInPlace parseDate h l in
  readArr h1 l = sortBy (byKey (dateOf parseDate)) (readArr h l) /\ readArr h1 l <> [] /\
  sortInPlace parseDate h1 l = h1.
Proof.
  intros Hk Hne h1. pose proof (readArr_lt h l Hne) as Hl.
  assert (Hr : readArr h1 l = sortBy (byKey (dateOf parseDate)) (readArr h l))
    by (apply read_write; exact Hl).
  rewrite Hr. split; [reflexivity|]. split.
  - intros E. apply Hne, Permutation_nil. rewrite <- E. symmetry. apply sortBy_perm.
  - unfold sortInPlace at 1. rewrite Hr, sortBy_idem by exact Hk. subst h1. unfold sortInPlace.
    now rewrite write_write by exact Hl.
Qed.

End PayHistory.

(** ** [PayHistoryBarChartCard] *)

Module BarChartCard.
Import JsArray PayHistory.

(** [interface PayHistoryBarChartCardProps] (lines 13-19); the array is a
    location, [None] when missing. *)
Record PayHistoryBarChartCardProps : Type := mkProps {
  currency : string;
  baseSalary : Q;
  payEffectiveDate : string;
  historyDataPoints : option Loc;
  maxDataPoints : option num
}.

Section Card.
Variable parseDate : string -> num.
(** [dayjs(date).format(f)]. *)
Variable dayjsFormat : string -> string -> string.
Variable largeToString : Q -> string.
Variable intl : option Currency.NumberFormat.
Variable props : PayHistoryBarChartCardProps.

(** [{ abbreviate: true, fractionalDigits: 1, showDecimalZeros: false }]. *)
Definition barFormatOptions : Currency.FormatOptions :=
  Currency.mkFormatOptions (Some true) (Some (Fin 1)) None (Some false).

(** [_getBar] (lines 53-61): [formatCurrency] may throw. *)
Definition getBar (val : Q) (date : string) : Currency.Res BarProps :=
  match Currency.formatCurrency largeToString intl (Fin val) (Some (currency props)) (Some barFormatOptions) with
  | inl e => inl e
  | inr label => inr (mkBar val (Some label) (Some (dayjsFormat date "MM/YY")) None false)
  end.

(** [arr.map(f)] with an [f] that may throw: the first error. *)
Fixpoint mapRes {A B} (f : A -> Currency.Res B) (l : list A) : Currency.Res (list B) :=
  match l with
  | [] => inr []
  | x :: r => match f x with
              | inl e => inl e
              | inr y => match mapRes f r with inl e => inl e | inr ys => inr (y :: ys) end
              end
  end.

Definition pointBar (d : PayHistoryDataPoint) : Currency.Res BarProps :=
  getBar (PayHistory.baseSalary d) (createdAt d).

(** [maxDataPoints || 5]. *)
Definition barLimit : num :=
  match maxDataPoints props with Some m => nor m (Fin 5) | None => Fin 5 end.

(** [_getBarsForChart] (lines 37-51): the owner's array is sorted in
    place before its last [maxDataPoints || 5] points are charted. *)
Definition getBarsForChart (h : Heap) : Heap * Currency.Res (list BarProps) :=
  let single := (h, mapRes (fun _ => getBar (baseSalary props) (payEffectiveDate props)) [tt]) in
  match historyDataPoints props with
  | None => single
  | Some l =>
      match readArr h l with
      | [] => single
      | _ :: _ =>
          let h' := sortInPlace parseDate h l in
          (h', mapRes pointBar (slice (nneg barLimit) (readArr h' l)))
      end
  end.

(** [render] (lines 22-35): the [BarChart] it draws. *)
Definition render (h : Heap) : Heap * Currency.Res Layout.BarChartProps :=
  let '(h', bars) := getBarsForChart h in
  (h', match bars with
       | inl e => inl e
       | inr bs => inr (Layout.mkProps bs false false false 1 3 None true None)
       end).

End Card.

Section Facts.
Variable parseDate : string -> num.
Variable dayjsFormat : string -> string -> string.
Variable largeToString : Q -> string.
Variable intl : option Currency.NumberFormat.

Lemma getBars_sorted pb h l :
  historyDataPoints pb = Some l -> readArr h l <> [] ->
  getBarsForChart parseDate dayjsFormat largeToString intl pb h =
  (sortInPlace parseDate h l,
   mapRes (pointBar dayjsFormat largeToString intl pb) (slice (nneg (barLimit pb)) (readArr (sortInPlace parseDate h l) l))).
Proof. intros Hp Hne. unfold getBarsForChart. rewrite Hp. destruct (readArr h l); [congruence|reflexivity]. Qed.

(** Given a history whose dates [Date.parse] reads and a limit
    [maxDataPoints || 5] that is a positive integer [k], the bar chart
    card charts, in date order, the latest [k] points of the history (all
    of them when there are fewer), one bar per point. *)
Theorem bars_show_latest pb h l k :
  historyDataPoints pb = Some l -> readArr h l <> [] -> Forall (keyed (dateOf parseDate)) (readArr h l) ->
  barLimit pb = Fin (inject_Z k) -> (0 < k)%Z ->
  exists pre shown,
    Permutation (readArr h l) (pre ++ shown) /\ Sorted (keyLe (dateOf parseDate)) (pre ++ shown) /\
    List.length shown = Nat.min (Z.to_nat k) (List.length (readArr h l)) /\
    snd (getBarsForChart parseDate dayjsFormat largeToString intl pb h) =
    mapRes (pointBar dayjsFormat largeToString intl pb) shown.
Proof.
  intros Hp Hne Hk Hlim Hpos.
  destruct (sortBy_spec (dateOf parseDate) _ Hk) as [Hperm Hsort].
  set (sorted := sortBy (byKey (dateOf parseDate)) (readArr h l)) in *.
  exists (firstn (List.length sorted - Z.to_nat k) sorted), (skipn (List.length sorted - Z.to_nat k) sorted).
  rewrite firstn_skipn. split; [exact Hperm|]. split; [exact Hsort|]. split.
  - rewrite length_skipn, <- (Permutation_length Hperm). lia.
  - rewrite (getBars_sorted pb h l Hp Hne). cbn [snd]. unfold sortInPlace.
    rewrite read_write by (apply readArr_lt; exact Hne). rewrite Hlim.
    change (nneg (Fin (inject_Z k))) with (Fin (inject_Z (- k))). rewrite slice_neg by exact Hpos. reflexivity.
Qed.

End Facts.
End BarChartCard.

(** ** [PayHistorySummaryCard] *)

Module SummaryCard.
Import JsArray JsNumber PayHistory.

(** [interface PayHistorySummaryCardProps] (lines 7-11). *)
Record PayHistorySummaryCardProps : Type := mkProps {
  employeeName : string;
  currency : string;
  historyDataPoints : option Loc
}.

(** The card's strings ([strings.ts]). *)
Definition descriptionIncrease : string := "{0}'s pay increased from {1} to {2} in the last {3} years.".
Definition descriptionDecrease : string := "{0}'s pay decreased from {1} to {2} in the last {3} years.".
Definition percentageIncrease : string := "This is an increase of".
Definition percentageDecrease : string := "This is a decrease of".
Definition noChange : string := "{0} does not have any pay history data.".

(** What [_getSummary] shows: the empty state, or the description, the
    percentage sentence and [percentageChange], printed as
    [`${percentageChange}%`]. *)
Inductive SummaryView : Type :=
| NoHistory (description : string)
| Summary (description : string) (percentageDescription : string) (percentageChange : num).

Section Card.
Variable parseDate : string -> num.
(** [new Date(s).getUTCFullYear()]. *)
Variable utcYear : string -> num.
(** [Number::toString], for [rangeYears]. *)
Variable numberToString : num -> string.
Variable largeToString : Q -> string.
Variable intl : option Currency.NumberFormat.
Variable props : PayHistorySummaryCardProps.

Definition formatPay (v : Q) : Currency.Res string :=
  Currency.formatCurrency largeToString intl (Fin v) (Some (currency props)) None.

(** [_getSummary] (lines 24-70) from the first and last points of the
    sorted array. *)
Definition summaryOf (first last : PayHistoryDataPoint) : Currency.Res SummaryView :=
  let change := nmul (ndiv (nsub (Fin (baseSalary last)) (Fin (baseSalary first))) (Fin (baseSalary first))) (Fin 100) in
  match Currency.toFixed largeToString change (Some (Fin 1)) with
  | inl e => inl e
  | inr fixed =>
      let percentageChange := parseFloat fixed in
      let rangeYears := nabs (nsub (utcYear (createdAt last)) (utcYear (createdAt first))) in
      let increase := Qltb (baseSalary first) (baseSalary last) in
      match formatPay (baseSalary first), formatPay (baseSalary last) with
      | inl e, _ | _, inl e => inl e
      | inr f1, inr f2 =>
          inr (Summary
                 (Tokens.replaceTokens (if increase then descriptionIncrease else descriptionDecrease)
                    [employeeName props; f1; f2; numberToString rangeYears])
                 (if increase then percentageIncrease else percentageDecrease)
                 percentageChange)
      end
  end.

Definition getSummary (h : Heap) : Heap * Currency.Res SummaryView :=
  let empty := (h, inr (NoHistory (Tokens.replaceTokens noChange [employeeName props]))) in
  match historyDataPoints props with
  | None => empty
  | Some l =>
      match readArr h l with
      | [] => empty
      | p0 :: _ =>
          let h' := sortInPlace parseDate h l in
          let sorted := readArr h' l in
          (h', summaryOf (hd p0 sorted) (last sorted p0))
      end
  end.

End Card.

Section Facts.
Variable parseDate : string -> num.
Variable utcYear : string -> num.
Variable numberToString : num -> string.
Variable largeToString : Q -> string.
Variable intl : option Currency.NumberFormat.

Lemma getSummary_sorted ps h l d :
  historyDataPoints ps = Some l -> readArr h l <> [] ->
  readArr (sortInPlace parseDate h l) l <> [] ->
  getSummary parseDate utcYear numberToString largeToString intl ps h =
  (sortInPlace parseDate h l,
   summaryOf utcYear numberToString largeToString intl ps
     (hd d (readArr (sortInPlace parseDate h l) l)) (last (readArr (sortInPlace parseDate h l) l) d)).
Proof.
  intros Hp Hne Hne'. unfold getSummary. rewrite Hp. destruct (readArr h l) as [|p0 r]; [congruence|].
  destruct (readArr (sortInPlace parseDate h l) l) as [|s0 sr]; [congruence|].
  now rewrite !last_shift.
Qed.

(** [toFixed(1)] never throws. *)
Lemma toFixed_one x : exists s, Currency.toFixed largeToString x (Some (Fin 1)) = inr s.
Proof.
  unfold Currency.toFixed. change (Fin 1) with (Fin (inject_Z (Z.of_nat 1))).
  rewrite digitsArg_nat by lia. eexists. reflexivity.
Qed.

(** The change [((last - first) / first) * 100] the card computes. *)
Lemma change_fin a b :
  ~ a == 0 -> nmul (ndiv (nsub (Fin b) (Fin a)) (Fin a)) (Fin 100) = Fin ((b - a) / a * 100).
Proof. intros Ha. rewrite nsub_fin, ndiv_fin by exact Ha. apply nmul_fin. Qed.

(** C37: For a history whose dates [Date.parse] reads, and with a
    [formatCurrency] that does not throw, the summary card compares the
    earliest point with the latest: it says "increase" exactly when the
    latest salary is higher, and when the earliest salary is not zero it
    shows the change in percent rounded to one decimal, a multiple of 0.1
    within 0.05 of [(last - first) / first * 100]. *)
Theorem summary_reports_rounded_change ps h l :
  historyDataPoints ps = Some l -> readArr h l <> [] -> Forall (keyed (dateOf parseDate)) (readArr h l) ->
  (forall v, exists s, formatPay largeToString intl ps v = inr s) ->
  exists first latest desc pct,
    In first (readArr h l) /\ In latest (readArr h l) /\
    (forall t, In t (readArr h l) ->
       kq (dateOf parseDate) first <= kq (dateOf parseDate) t <= kq (dateOf parseDate) latest) /\
    snd (getSummary parseDate utcYear numberToString largeToString intl ps h) =
      inr (Summary desc (if Qltb (baseSalary first) (baseSalary latest) then percentageIncrease else percentageDecrease) pct) /\
    (~ baseSalary first == 0 ->
     Qabs ((baseSalary latest - baseSalary first) / baseSalary first * 100) < inject_Z (10 ^ 21) ->
     exists r n, pct = Fin r /\ r == inject_Z n / 10 /\
       Qabs ((baseSalary latest - baseSalary first) / baseSalary first * 100 - r) <= 1 # 20).
Proof.
  intros Hp Hne Hk Hfmt.
  destruct (sortInPlace_twice parseDate h l Hk Hne) as (Hr & Hne1 & _).
  destruct (sortBy_spec (dateOf parseDate) _ Hk) as [Hperm Hsort].
  rewrite (getSummary_sorted ps h l (hd (mkPoint 0 "") (readArr h l)) Hp Hne Hne1). cbn [snd].
  rewrite Hr in *. destruct (sortBy (byKey (dateOf parseDate)) (readArr h l)) as [|s0 sr]; [congruence|].
  assert (Hin : forall t, In t (s0 :: sr) -> In t (readArr h l)) by (intros t; apply Permutation_in; now symmetry).
  cbn [hd]. rewrite last_shift.
  set (z := last sr s0). unfold summaryOf.
  destruct (toFixed_one (nmul (ndiv (nsub (Fin (baseSalary z)) (Fin (baseSalary s0))) (Fin (baseSalary s0))) (Fin 100)))
    as [fixed Hf].
  rewrite Hf. destruct (Hfmt (baseSalary s0)) as [f1 ->]. destruct (Hfmt (baseSalary z)) as [f2 ->].
  exists s0, z. eexists _, _.
  split; [apply Hin; now left|]. split; [apply Hin, last_In|].
  split; [intros t Ht; apply (sorted_bounds (dateOf parseDate) s0 sr Hsort), Permutation_in with (readArr h l); assumption|].
  split; [reflexivity|].
  intros Hnz Hbound. rewrite change_fin in Hf by exact Hnz.
  destruct (parseFloat_toFixed largeToString ((baseSalary z - baseSalary s0) / baseSalary s0 * 100) 1 ltac:(lia) Hbound)
    as (s & r & n & Hs & Hpf & Hrn & Herr).
  change (Fin (inject_Z (Z.of_nat 1))) with (Fin 1) in Hs. rewrite Hf in Hs. injection Hs as <-.
  change (inject_Z (10 ^ Z.of_nat 1)) with 10 in Hrn, Herr.
  exists r, n. split; [exact Hpf|]. split; [exact Hrn|]. exact Herr.
Qed.

End Facts.
End SummaryCard.

(** ** A page with both cards over one array *)

Module Page.
Import JsArray PayHistory BarChartCard SummaryCard.

Section Page.
Variable parseDate : string -> num.
Variable dayjsFormat : string -> string -> string.
Variable utcYear : string -> num.
Variable numberToString : num -> string.
Variable largeToString : Q -> string.
Variable intl : option Currency.NumberFormat.

(** The page renders the bar chart card, then the summary card. *)
Definition barThenSummary pb ps (h : Heap) :=
  let '(h1, b) := BarChartCard.render parseDate dayjsFormat largeToString intl pb h in
  let '(h2, s) := getSummary parseDate utcYear numberToString largeToString intl ps h1 in
  (h2, b, s).

(** The other order. *)
Definition summaryThenBar pb ps (h : Heap) :=
  let '(h1, s) := getSummary parseDate utcYear numberToString largeToString intl ps h in
  let '(h2, b) := BarChartCard.render parseDate dayjsFormat largeToString intl pb h1 in
  (h2, b, s).

(** C38: Both pay history cards sort the owner's [historyDataPoints] array
    in place when they render.  On a page that passes the same array to
    both, with dates that [Date.parse] reads, the order in which the two
    cards render does not matter: both orders leave the same heap, the
    same bars and the same summary, and the owner's array is left sorted
    by date. *)
Theorem render_order_commutes pb ps h l :
  BarChartCard.historyDataPoints pb = Some l -> SummaryCard.historyDataPoints ps = Some l ->
  Forall (keyed (dateOf parseDate)) (readArr h l) ->
  barThenSummary pb ps h = summaryThenBar pb ps h /\
  readArr (fst (fst (barThenSummary pb ps h))) l = sortBy (byKey (dateOf parseDate)) (readArr h l).
Proof.
  intros Hb Hs Hk. unfold barThenSummary, summaryThenBar, BarChartCard.render.
  destruct (readArr h l) as [|p0 r] eqn:E.
  - unfold getBarsForChart, getSummary. rewrite Hb, Hs, E. cbv beta iota. rewrite E. split; [reflexivity|exact E].
  - assert (Hne : readArr h l <> []) by congruence. rewrite <- E in Hk |- *.
    destruct (sortInPlace_twice parseDate h l Hk Hne) as (Hr & Hne1 & Hfix).
    set (h1 := sortInPlace parseDate h l) in *.
    rewrite (getBars_sorted parseDate dayjsFormat largeToString intl pb h l Hb Hne).
    rewrite (getSummary_sorted parseDate utcYear numberToString largeToString intl ps h l p0 Hs Hne Hne1). fold h1.
    rewrite (getBars_sorted parseDate dayjsFormat largeToString intl pb h1 l Hb Hne1).
    rewrite (getSummary_sorted parseDate utcYear numberToString largeToString intl ps h1 l p0 Hs Hne1)
      by now rewrite Hfix.
    rewrite Hfix. split; [reflexivity|exact Hr].
Qed.

End Page.
End Page.

Module PayHistoryTests.
Import JsArray PayHistory.

(** The dates of the repository's tests, as [Date.parse] reads them (in
    days, enough for the order), their years and their [MM/YY]. *)
Definition testDates : list (string * (Q * Q * string)) :=
  [("2015-06-05T00:00:00Z", (0, 2015, "06/15")); ("2016-06-05T00:00:00Z", (366, 2016, "06/16"));
   ("2017-06-05T00:00:00Z", (731, 2017, "06/17")); ("2018-02-05T00:00:00Z", (976, 2018, "02/18"));
   ("2018-06-05T00:00:00Z", (1096, 2018, "06/18")); ("2019-04-05T00:00:00Z", (1400, 2019, "04/19"));
   ("2019-05-05T00:00:00Z", (1430, 2019, "05/19")); ("2019-06-05T00:00:00Z", (1461, 2019, "06/19"))].

Definition lookupDate (s : string) : option (Q * Q * string) :=
  match find (fun e => String.eqb (fst e) s) testDates with Some (_, v) => Some v | None => None end.

Definition parseDate (s : string) : num :=
  match lookupDate s with Some (t, _, _) => Fin t | None => NaN end.
Definition utcYear (s : string) : num :=
  match lookupDate s with Some (_, y, _) => Fin y | None => NaN end.
Definition dayjsFormat (s : string) (f : string) : string :=
  match lookupDate s with Some (_, _, m) => m | None => "Invalid Date" end.
(** [Number::toString] of the whole numbers the tests print. *)
Definition numberToString (x : num) : string :=
  match x with Fin q => Currency.showZ (Qfloor q) | NaN => "NaN" | _ => "Infinity" end.
Definition big (_ : Q) : string := "1e+21".

(** The tests run with [window.Intl = null]. *)
Definition barProps (hist : option Loc) (maxPoints : option num) : BarChartCard.PayHistoryBarChartCardProps :=
  BarChartCard.mkProps "USD" 85000 "2019-06-05T00:00:00Z" hist maxPoints.

Definition barLabels (pb : BarChartCard.PayHistoryBarChartCardProps) (h : Heap) : Currency.Res (list (option string)) :=
  match snd (BarChartCard.getBarsForChart parseDate dayjsFormat big None pb h) with
  | inl e => inl e
  | inr bs => inr (map label bs)
  end.

Definition pt (s : Q) (d : string) : PayHistoryDataPoint := mkPoint s d.

Example empty_state : barLabels (barProps None None) [] = inr [Some "85K"] /\
                      barLabels (barProps (Some 0%nat) None) [[]] = inr [Some "85K"].
Proof. split; vm_compute; reflexivity. Qed.

Example bar_per_point :
  barLabels (barProps (Some 0%nat) None)
    [[pt 30000 "2019-06-05T00:00:00Z"; pt 20000 "2018-06-05T00:00:00Z"; pt 10000 "2017-06-05T00:00:00Z"]]
  = inr [Some "10K"; Some "20K"; Some "30K"].
Proof. vm_compute. reflexivity. Qed.

Definition six : list PayHistoryDataPoint :=
  [pt 60000 "2019-06-05T00:00:00Z"; pt 50000 "2019-05-05T00:00:00Z"; pt 40000 "2019-04-05T00:00:00Z";
   pt 30000 "2018-06-05T00:00:00Z"; pt 20000 "2018-02-05T00:00:00Z"; pt 10000 "2015-06-05T00:00:00Z"].

Example latest_five :
  barLabels (barProps (Some 0%nat) None) [six] = inr [Some "20K"; Some "30K"; Some "40K"; Some "50K"; Some "60K"].
Proof. vm_compute. reflexivity. Qed.

(** A negative [maxDataPoints] slices from the front: [-2] drops the two
    earliest points and charts the other four. *)
Example negative_max_points :
  barLabels (barProps (Some 0%nat) (Some (Fin (-2)))) [six] = inr [Some "30K"; Some "40K"; Some "50K"; Some "60K"].
Proof. vm_compute. reflexivity. Qed.

(** The card leaves the owner's array sorted. *)
Example sorts_owner_array :
  map baseSalary (readArr (fst (BarChartCard.getBarsForChart parseDate dayjsFormat big None (barProps (Some 0%nat) None) [six])) 0%nat)
  = [10000; 20000; 30000; 40000; 50000; 60000].
Proof. vm_compute. reflexivity. Qed.

Definition sumProps (hist : option Loc) : SummaryCard.PayHistorySummaryCardProps :=
  SummaryCard.mkProps "Tester McTesterson" "USD" hist.

Definition summary (h : Heap) : Currency.Res SummaryCard.SummaryView :=
  snd (SummaryCard.getSummary parseDate utcYear numberToString big None (sumProps (Some 0%nat)) h).

(** The description, the percentage sentence and the percentage in
    lowest terms. *)
Definition shown (h : Heap) : option (string * string * Q) :=
  match summary h with inr (SummaryCard.Summary d p (Fin r)) => Some (d, p, Qred r) | _ => None end.

Example summary_empty :
  snd (SummaryCard.getSummary parseDate utcYear numberToString big None (sumProps None) [])
  = inr (SummaryCard.NoHistory "Tester McTesterson does not have any pay history data.").
Proof. vm_compute. reflexivity. Qed.

Example summary_increase :
  shown [[pt 3 "2019-06-05T00:00:00Z"; pt 2 "2018-06-05T00:00:00Z"; pt 1 "2017-06-05T00:00:00Z"]]
  = Some ("Tester McTesterson's pay increased from 1.00 to 3.00 in the last 2 years.", "This is an increase of", 200).
Proof. vm_compute. reflexivity. Qed.

Example summary_decrease :
  shown [[pt 2 "2019-06-05T00:00:00Z"; pt 1 "2018-06-05T00:00:00Z"; pt 3 "2017-06-05T00:00:00Z"]] = Some ("Tester McTesterson's pay decreased from 3.00 to 2.00 in the last 2 years.",
              "This is a decrease of", (-333) # 10).
Proof. vm_compute. reflexivity. Qed.

Example summary_sorts :
  shown [[pt 1 "2015-06-05T00:00:00Z"; pt 5 "2019-06-05T00:00:00Z"; pt 2 "2016-06-05T00:00:00Z";
            pt 4 "2018-06-05T00:00:00Z"; pt 3 "2017-06-05T00:00:00Z"]]
  = Some ("Tester McTesterson's pay increased from 1.00 to 5.00 in the last 4 years.", "This is an increase of", 400).
Proof. vm_compute. reflexivity. Qed.

(** A first salary of 0 shows [Infinity%] (and [NaN%] when the last is 0
    too); an unchanged salary is reported as a decrease of 0%. *)
Example summary_zero_first :
  (match summary [[pt 0 "2017-06-05T00:00:00Z"; pt 5 "2019-06-05T00:00:00Z"]] with
   | inr (SummaryCard.Summary _ p x) => Some (p, x) | _ => None end = Some ("This is an increase of", PosInf)) /\
  (match summary [[pt 0 "2017-06-05T00:00:00Z"; pt 0 "2019-06-05T00:00:00Z"]] with
   | inr (SummaryCard.Summary _ _ x) => Some x | _ => None end = Some NaN) /\
  (match summary [[pt 7 "2017-06-05T00:00:00Z"; pt 7 "2019-06-05T00:00:00Z"]] with
   | inr (SummaryCard.Summary _ p (Fin r)) => Some (p, Qred r) | _ => None end = Some ("This is a decrease of", 0)).
Proof. repeat split; vm_compute; reflexivity. Qed.

Example parseFloat_tests :
  JsNumber.parseFloat "  -12.5e1xyz" = Fin (-(125 / 10 * 10)) /\ JsNumber.parseFloat ".5" = Fin (5 / 10 * 1) /\
  JsNumber.parseFloat "-Infinity" = NegInf /\ JsNumber.parseFloat "abc" = NaN /\ JsNumber.parseFloat "." = NaN.
Proof. repeat split; vm_compute; reflexivity. Qed.

(** Without [Intl], [formatCurrency(v, currency)] never throws. *)
Lemma formatPay_noIntl ps v : exists s, SummaryCard.formatPay big None ps v = inr s.
Proof.
  unfold SummaryCard.formatPay, Currency.formatCurrency. destruct (nlt (nabs (Fin v)) (Fin 100));
    eexists; reflexivity.
Qed.

Definition pb0 : BarChartCard.PayHistoryBarChartCardProps := barProps (Some 0%nat) None.
Definition ps0 : SummaryCard.PayHistorySummaryCardProps := sumProps (Some 0%nat).

Lemma bars_show_latest_witness :
  exists pre shown,
    Permutation (readArr [six] 0%nat) (pre ++ shown) /\ Sorted (keyLe (dateOf parseDate)) (pre ++ shown) /\
    List.length shown = Nat.min (Z.to_nat 5) (List.length (readArr [six] 0%nat)) /\
    snd (BarChartCard.getBarsForChart parseDate dayjsFormat big None pb0 [six]) =
    BarChartCard.mapRes (BarChartCard.pointBar dayjsFormat big None pb0) shown.
Proof.
  apply (BarChartCard.bars_show_latest parseDate dayjsFormat big None pb0 [six] 0%nat 5%Z);
    [reflexivity|cbv; discriminate|vm_compute; repeat constructor|reflexivity|lia].
Defined.

Lemma summary_reports_rounded_change_witness :
  exists first latest desc pct,
    In first (readArr [six] 0%nat) /\ In latest (readArr [six] 0%nat) /\
    (forall t, In t (readArr [six] 0%nat) ->
       kq (dateOf parseDate) first <= kq (dateOf parseDate) t <= kq (dateOf parseDate) latest) /\
    snd (SummaryCard.getSummary parseDate utcYear numberToString big None ps0 [six]) =
      inr (SummaryCard.Summary desc (if Qltb (baseSalary first) (baseSalary latest)
                                     then SummaryCard.percentageIncrease else SummaryCard.percentageDecrease) pct) /\
    (~ baseSalary first == 0 ->
     Qabs ((baseSalary latest - baseSalary first) / baseSalary first * 100) < inject_Z (10 ^ 21) ->
     exists r n, pct = Fin r /\ r == inject_Z n / 10 /\
       Qabs ((baseSalary latest - baseSalary first) / baseSalary first * 100 - r) <= 1 # 20).
Proof.
  apply (SummaryCard.summary_reports_rounded_change parseDate utcYear numberToString big None ps0 [six] 0%nat);
    [reflexivity|cbv; discriminate|vm_compute; repeat constructor|intros v; apply formatPay_noIntl].
Defined.

Lemma render_order_commutes_witness :
  Page.barThenSummary parseDate dayjsFormat utcYear numberToString big None pb0 ps0 [six] =
  Page.summaryThenBar parseDate dayjsFormat utcYear numberToString big None pb0 ps0 [six] /\
  readArr (fst (fst (Page.barThenSummary parseDate dayjsFormat utcYear numberToString big None pb0 ps0 [six]))) 0%nat =
  sortBy (byKey (dateOf parseDate)) (readArr [six] 0%nat).
Proof.
  apply (Page.render_order_commutes parseDate dayjsFormat utcYear numberToString big None pb0 ps0 [six] 0%nat);
    [reflexivity|reflexivity|vm_compute; repeat constructor].
Defined.

End PayHistoryTests.
