(* ===== verification/DetailCards.v ===== *)
(** * The layout cards of [src/src/EmployeeDetailsCards/]

      [EmployeeDetailsCard], [PerformanceRatingCard], [CompensationCard],
      [TotalCashCompensationCard] and [MarketSnapshotCard] lay out their
      props in [DetailsCard] and [LabeledValue] ([common/]).  What they
      return is modelled as a tree of elements ([Markup.Node]) built the
      way React renders JSX children ([Markup.renderChild]): [null],
      [undefined] and booleans render nothing, a number renders as its
      text, a string as itself.  A child written [x && <Item/>] is the JS
      value of [x && ...] ([jsAnd]), so a falsy [x] that is a number is
      rendered as text.  A [<FormattedCurrency>] element is kept as a leaf
      with its props ([FormattedCurrency.v] models its lifecycle); the
      owner's [dateFormatter] and [Number::toString] are parameters; the
      strings are the ones each card's [strings.ts] loads.  The
      [BenefitsChart] under [TotalCashCompensationCard] is BenefitsChart.v's
      [render]. *)

From Stdlib Require Import QArith Qround Lqa ZArith List String Ascii Bool Lia.
From S2P Require Import Prelude StringUtils CurrencyUtils PayRange BenefitsChart.
Import ListNotations.
Open Scope string_scope.
Open Scope list_scope.

Module Markup.

(** An element with its tag, its [className] and its children; a text
    node; a [<FormattedCurrency>] element with its [val], [currency],
    [options.fractionalDigits] and [sensitiveValue]; a [<BenefitsChart>]
    with what it renders. *)
Inductive Node : Type :=
| Text (s : string)
| Elem (tag : string) (cls : string) (children : list Node)
| Currency (val : Pay.jsval) (currency : option string) (fractionalDigits : option num) (sensitive : bool)
| BenefitsChartView (v : Benefits.BenefitsView).

(** The value of a JSX child expression. *)
Inductive Child : Type :=
| CNull                      (* null or undefined *)
| CBool (b : bool)
| CNum (x : num)
| CStr (s : string)
| CNode (n : Node).

Definition truthy (c : Child) : bool :=
  match c with
  | CNull => false
  | CBool b => b
  | CNum x => ntruthy x
  | CStr s => negb (String.eqb s "")
  | CNode _ => true
  end.

(** [a && b] and [a || b]. *)
Definition jsAnd (a b : Child) : Child := if truthy a then b else a.
Definition jsOr (a b : Child) : Child := if truthy a then a else b.

Section Render.
(** [Number::toString]. *)
Variable numberToString : num -> string.

(** How React renders a child. *)
Definition renderChild (c : Child) : list Node :=
  match c with
  | CNull | CBool _ => []
  | CNum x => [Text (numberToString x)]
  | CStr s => [Text s]
  | CNode n => [n]
  end.

(** [DetailsCard] ([common/DetailsCard], lines 11-21). *)
Definition detailsCard (className : option string) (title : option string) (children : list Node) : Node :=
  Elem "div" ("details-card " ++ match className with Some c => c | None => "" end)%string
    (renderChild (jsAnd (match title with Some t => CStr t | None => CNull end)
                        (CNode (Elem "div" "details-card__header" [Text (match title with Some t => t | None => "" end)]))) ++
     [Elem "div" "details-card__body" children]).

(** [LabeledValue] ([common/LabeledValue], lines 10-21). *)
Definition labeledValue (label value : list Node) : Node :=
  Elem "div" "labeled-value" [Elem "div" "labeled-value__value" value; Elem "div" "labeled-value__label" label].

End Render.

(** The [val] of every [<FormattedCurrency>] in a tree, in document
    order. *)
Fixpoint currencyVals (n : Node) : list Pay.jsval :=
  match n with
  | Currency v _ _ _ => [v]
  | Elem _ _ cs => flat_map currencyVals cs
  | Text _ | BenefitsChartView _ => []
  end.

Definition optStr (o : option string) : Child := match o with Some s => CStr s | None => CNull end.

(** The text nodes directly under a node. *)
Definition textChildren (n : Node) : list string :=
  match n with
  | Elem _ _ cs => flat_map (fun c => match c with Text s => [s] | _ => [] end) cs
  | _ => []
  end.

End Markup.

(** ** [EmployeeDetailsCard] ([EmployeeDetailsCard/index.tsx]) *)

Module EmployeeDetails.
Import Markup.

(** [employeeId?: (number|string)]. *)
Inductive EmployeeId : Type := IdNum (x : num) | IdStr (s : string).

(** [interface EmployeeDetailsCardProps] (lines 5-13). *)
Record EmployeeDetailsCardProps : Type := mkProps {
  dateOfHire : option string;
  employeeId : option EmployeeId;
  workLocation : option string;
  managerName : option string;
  email : option string;
  department : option string;
  dateFormatter : option (string -> string -> string)
}.

(** [strings.ts]. *)
Module S.
Definition department : string := "Department".
Definition email : string := "Email".
Definition employeeId : string := "Employee ID".
Definition hireDate : string := "Hire Date".
Definition location : string := "Location".
Definition manager : string := "Reports To".
End S.

Definition dateFormatStr : string := "MMMM DD, YYYY".

Definition idChild (i : option EmployeeId) : Child :=
  match i with Some (IdNum x) => CNum x | Some (IdStr s) => CStr s | None => CNull end.

Section Card.
Variable numberToString : num -> string.
Variable props : EmployeeDetailsCardProps.

(** [_renderListItem] (lines 74-92). *)
Definition renderListItem (title : string) (content : Child) (icon : string) : Node :=
  Elem "li" "ee-details-card__list-item"
    [Elem "div" "ee-details-card__item"
       [Elem "i" ("ee-details-card__item-icon " ++ icon) [];
        Elem "div" "ee-details-card__item-content"
          [Elem "h5" "ee-details-card__item-header" [Text title];
           Elem "div" "ee-details-card__item-value" (renderChild numberToString content)]]].

Definition fieldText (o : option string) : string := match o with Some s => s | None => "" end.

(** The six children of the list, each [field && this._renderListItem(...)]. *)
Definition listChildren : list Child :=
  [jsAnd (optStr (dateOfHire props))
     (CNode (renderListItem S.hireDate
               (CStr (match dateFormatter props with
                      | Some f => f (fieldText (dateOfHire props)) dateFormatStr
                      | None => fieldText (dateOfHire props)
                      end)) "icon-calendar"));
   jsAnd (idChild (employeeId props)) (CNode (renderListItem S.employeeId (idChild (employeeId props)) "icon-v-card"));
   jsAnd (optStr (workLocation props)) (CNode (renderListItem S.location (optStr (workLocation props)) "icon-location"));
   jsAnd (optStr (managerName props)) (CNode (renderListItem S.manager (optStr (managerName props)) "icon-user"));
   jsAnd (optStr (email props))
     (CNode (renderListItem S.email (CNode (Elem "a" "underline" [Text (fieldText (email props))])) "icon-paper-plane"));
   jsAnd (optStr (department props)) (CNode (renderListItem S.department (optStr (department props)) "icon-sitemap"))].

(** [render] (lines 20-71): [null] when every field is [null] or
    [undefined]. *)
Definition render : option Node :=
  match dateOfHire props, employeeId props, workLocation props, managerName props, email props, department props with
  | None, None, None, None, None, None => None
  | _, _, _, _, _, _ => Some (Elem "ul" "ee-details-card" (flat_map (renderChild numberToString) listChildren))
  end.

End Card.

(** The header of a list item. *)
Definition itemTitle (n : Node) : option string :=
  match n with
  | Elem "li" _ [Elem _ _ [_; Elem _ _ (Elem "h5" _ [Text t] :: _)]] => Some t
  | _ => None
  end.

Definition itemTitles (n : Node) : list string :=
  match n with
  | Elem _ _ cs => flat_map (fun c => match itemTitle c with Some t => [t] | None => [] end) cs
  | _ => []
  end.

(** ** [x && <Item/>] with a falsy number *)

Lemma itemTitle_listItem nts title content icon : itemTitle (renderListItem nts title content icon) = Some title.
Proof. reflexivity. Qed.

(** A primitive child renders no list item. *)
Lemma renderChild_prim nts a x : (forall m, a <> CNode m) -> In x (renderChild nts a) -> itemTitle x = None.
Proof.
  intros Ha. destruct a as [| |y|t|m]; cbn [renderChild]; try (intros []; fail);
    [intros [<-|[]]; reflexivity..|exfalso; exact (Ha m eq_refl)].
Qed.

Lemma in_jsAnd nts a n x :
  (forall m, a <> CNode m) -> In x (renderChild nts (jsAnd a (CNode n))) -> x = n \/ itemTitle x = None.
Proof.
  intros Ha. unfold jsAnd. destruct (truthy a); cbn [renderChild];
    [intros [<-|[]]; now left|intros Hx; right; exact (renderChild_prim nts a x Ha Hx)].
Qed.

Lemma optStr_prim o m : optStr o <> CNode m.
Proof. destruct o; discriminate. Qed.

(** An [employeeId] of [0] is rendered as a stray text ["0"] directly
    in the list ([0 && this._renderListItem(...)] is [0], which React
    prints), and the card shows no "Employee ID" item, whatever the other
    fields are. *)
Theorem zero_id_renders_text numberToString p :
  employeeId p = Some (IdNum (Fin 0)) ->
  exists ul, render numberToString p = Some ul /\
    In (numberToString (Fin 0)) (textChildren ul) /\ ~ In S.employeeId (itemTitles ul).
Proof.
  intros Hid. exists (Elem "ul" "ee-details-card" (flat_map (renderChild numberToString) (listChildren numberToString p))).
  split; [unfold render; rewrite Hid; destruct (dateOfHire p); reflexivity|]. split.
  - apply in_flat_map. exists (Text (numberToString (Fin 0))). split; [|now left].
    apply in_flat_map. exists (CNum (Fin 0)). split; [|now left].
    unfold listChildren. rewrite Hid. right. now left.
  - unfold itemTitles. intros H. apply in_flat_map in H as [x [Hx Ht]].
    apply in_flat_map in Hx as [c [Hc Hxc]]. unfold listChildren in Hc. rewrite Hid in Hc.
    destruct Hc as [<-|[<-|[<-|[<-|[<-|[<-|[]]]]]]];
      [ | simpl in Hxc; destruct Hxc as [<-|[]]; destruct Ht | .. ];
      (apply in_jsAnd in Hxc; [|apply optStr_prim]);
      (destruct Hxc as [->|Hn];
       [rewrite itemTitle_listItem in Ht; destruct Ht as [E|[]]; discriminate E
       |rewrite Hn in Ht; destruct Ht]).
Qed.

End EmployeeDetails.

(** ** [PerformanceRatingCard] ([PerformanceRatingCard/index.tsx]) *)

Module PerformanceRating.
Import Markup.

(** [interface PerformanceRatingCardProps] (lines 7-10). *)
Record PerformanceRatingCardProps : Type := mkProps {
  firstName : option string;
  performanceRating : option string
}.

(** [strings.ts]. *)
Definition cardTitle : string := "Performance".
Definition descriptionPrefix : string := "{0} demonstrates a performance of".
Definition descriptionSuffix : string := "within your company's scale.".
Definition thisEmployee : string := "This employee".

(** [isValidData] (lines 14-16): [!!performanceRating]. *)
Definition isValidData (performanceRating : option string) : bool := truthy (optStr performanceRating).

(** [render] (lines 18-39). *)
Definition render (p : PerformanceRatingCardProps) : option Node :=
  if negb (isValidData (performanceRating p)) then None
  else
    let rating := match performanceRating p with Some r => r | None => "" end in
    let subject := match jsOr (optStr (firstName p)) (CStr thisEmployee) with CStr s => s | _ => "" end in
    Some (detailsCard (fun _ => "") (Some "perf-rating-card") (Some cardTitle)
            [Elem "div" "perf-rating-card__rating" [Text rating];
             Elem "div" "perf-rating-card__description"
               [Elem "span" "" [Text (Tokens.replaceTokens descriptionPrefix [subject])];
                Elem "span" "perf-rating-card__rating-desc" [Text (" " ++ rating ++ " ")%string];
                Elem "span" "" [Text descriptionSuffix]]]).

End PerformanceRating.

(** ** [CompensationCard] ([CompensationCard/index.tsx]) *)

Module Compensation.
Import Markup.

(** [interface CompensationCardProps] (lines 8-16). *)
Record CompensationCardProps : Type := mkProps {
  pay : Pay.jsval;
  hourly : option bool;
  currency : option string;
  payEffectiveDate : option string;
  dateFormatter : string -> string -> string
}.

(** [strings.ts]. *)
Definition cardTitle : string := "Compensation".
Definition noPayData : string := "There is no pay data for this employee".
Definition notApplicable : string := "N/A".
Definition payEffectiveDateText : string := "Pay Effective Date".
Definition perHour : string := "/hr".

(** [CompensationCard] (lines 19-73). *)
Definition render (p : CompensationCardProps) : Node :=
  let hasValue := negb (Pay.eqNull (pay p)) in
  let effectiveDateText :=
    if hasValue then
      match payEffectiveDate p with
      | Some d => if truthy (CStr d)
                  then CNode (Elem "div" "compensation-card__effective-date"
                                [Text payEffectiveDateText; Elem "br" "" []; Text (dateFormatter p d "MMM Do, YYYY")])
                  else CNull
      | None => CNull
      end
    else CNode (Elem "span" "" [Text noPayData]) in
  let value :=
    if hasValue then
      Elem "div" "compensation-card__amount"
        [Currency (pay p) (currency p) None true;
         Text (if match hourly p with Some b => b | None => false end then " " ++ perHour else "")%string]
    else Elem "div" "compensation-card__amount" [Elem "span" "" [Text notApplicable]] in
  detailsCard (fun _ => "") (Some "compensation-card") (Some cardTitle)
    [labeledValue (renderChild (fun _ => "") effectiveDateText) [value]].

End Compensation.

(** ** [TotalCashCompensationCard] ([TotalCashCompensationCard/index.tsx]) *)

Module TotalCash.
Import Markup.

(** [interface TotalCashCompensationCardProps] (lines 10-19). *)
Record TotalCashCompensationCardProps : Type := mkProps {
  currency : option string;
  totalCashCompensation : Pay.jsval;
  className : option string;
  benefitsChartHeight : option Q;
  totalCashCompensationList : list Benefits.BenefitDetailsItem;
  companyContributionsList : list Benefits.BenefitDetailsItem;
  uncalculatedBenefitsList : list Benefits.BenefitDetailsItem
}.

(** [strings.ts]. *)
Definition cardTitle : string := "Total Cash Compensation".
Definition description : string := "Base Pay + Bonus, Incentives and Commission".
Definition notApplicable : string := "N/A".

Definition jsvalChild (v : Pay.jsval) : Child := match v with Pay.JNum x => CNum x | _ => CNull end.

(** [TotalCashCompensationCard] (lines 23-66): the class string keys the
    missing [className] as ['undefined']. *)
Definition render (p : TotalCashCompensationCardProps) : Node :=
  let cls := match className p with Some c => c | None => "undefined" end in
  let totalCashCardClassName := Tokens.buildClassString [("tcc-card", true); (cls, truthy (optStr (className p)))] in
  let value :=
    if truthy (jsvalChild (totalCashCompensation p))
    then Currency (totalCashCompensation p) (currency p) None true
    else Elem "span" "" [Text notApplicable] in
  detailsCard (fun _ => "") (Some totalCashCardClassName) (Some cardTitle)
    [labeledValue [Elem "div" "" [Text description]] [value];
     BenefitsChartView (Benefits.render (Benefits.mkProps None (Some (totalCashCompensationList p))
                                           (Some (companyContributionsList p)) (Some (uncalculatedBenefitsList p))
                                           (benefitsChartHeight p)))].

End TotalCash.

(** ** [MarketSnapshotCard] ([MarketSnapshotCard/index.tsx]) *)

Module MarketSnapshot.
Import Markup.

(** [interface MarketSnapshotCardProps] (lines 8-17). *)
Record MarketSnapshotCardProps : Type := mkProps {
  currency : option string;
  marketBaseSalary25th : Pay.jsval;
  marketBaseSalary50th : Pay.jsval;
  marketBaseSalary75th : Pay.jsval;
  marketTotalCash25th : Pay.jsval;
  marketTotalCash50th : Pay.jsval;
  marketTotalCash75th : Pay.jsval
}.

(** [interface ModuleStrings] ([strings.ts]): the strings the manager
    holds when they are read, which [override] may have changed. *)
Record ModuleStrings : Type := mkStrings {
  basePayHeader : string;
  cardTitle : string;
  description : string;
  percentile25th : string;
  percentile50th : string;
  percentile75th : string;
  tccHeader : string
}.

Definition defaultStrings : ModuleStrings :=
  mkStrings "Annual Base Pay" "Market Snapshot"
    "* Base salary, bonus, and other factors are all collected separately and may not add up to TCC"
    "25th" "50th" "75th" "TCC*".

(** The component's field [_percentiles]. *)
Record MarketSnapshotCard : Type := mkCard { percentiles : list string }.

(** The constructor (lines 23-32) reads the percentile strings once. *)
Definition construct (s : ModuleStrings) : MarketSnapshotCard :=
  mkCard [percentile25th s; percentile50th s; percentile75th s].

(** [_hasValidValues] (lines 95-97):
    [values.reduce((acc, val) => acc || val == null, false) === false]. *)
Definition hasValidValues (values : list Pay.jsval) : bool :=
  Bool.eqb (fold_left (fun acc v => acc || Pay.eqNull v) values false) false.

(** [isValidData] (lines 35-53). *)
Definition isValidData (b25 b50 b75 t25 t50 t75 : Pay.jsval) : bool :=
  hasValidValues [b25; b50; b75] && hasValidValues [t25; t50; t75].

(** [{ fractionalDigits: 0 }]. *)
Definition formatDigits : option num := Some (Fin 0).

(** [_renderTable] (lines 99-148), with the strings as they are at
    render time. *)
Definition renderTable (card : MarketSnapshotCard) (s : ModuleStrings) (totalCashComp basePay : list Pay.jsval)
    (currency : option string) : Node :=
  Elem "div" "market-snapshot-card__table-container"
    [Elem "table" "market-snapshot-card__table"
       [Elem "thead" "" [Elem "tr" "" [Elem "th" "" []; Elem "th" "" [Text (tccHeader s)]; Elem "th" "" [Text (basePayHeader s)]]];
        Elem "tbody" ""
          (map (fun '(i, percentile) =>
                  Elem "tr" "market-snapshot-card__table-row"
                    [Elem "td" "percentile" [Text percentile];
                     Elem "td" "tcc" [Currency (nth i totalCashComp Pay.JUndefined) currency formatDigits false];
                     Elem "td" "base-pay" [Currency (nth i basePay Pay.JUndefined) currency formatDigits false]])
               (combine (seq 0 (List.length (percentiles card))) (percentiles card)))]].

(** [render] (lines 55-92). *)
Definition render (card : MarketSnapshotCard) (s : ModuleStrings) (p : MarketSnapshotCardProps) : option Node :=
  if negb (isValidData (marketBaseSalary25th p) (marketBaseSalary50th p) (marketBaseSalary75th p)
                       (marketTotalCash25th p) (marketTotalCash50th p) (marketTotalCash75th p))
  then None
  else
    let totalCashComp := [marketTotalCash25th p; marketTotalCash50th p; marketTotalCash75th p] in
    let basePay := [marketBaseSalary25th p; marketBaseSalary50th p; marketBaseSalary75th p] in
    Some (detailsCard (fun _ => "") (Some "market-snapshot-card") (Some (cardTitle s))
            [renderTable card s totalCashComp basePay (currency p);
             Elem "div" "market-snapshot-card__description" [Text (description s)]]).

(** ** What the cards pass to [FormattedCurrency] *)

Lemma currencyVals_detailsCard f cls title children :
  currencyVals (detailsCard f cls title children) = flat_map currencyVals children.
Proof.
  unfold detailsCard. cbn [currencyVals]. rewrite flat_map_app. cbn [flat_map currencyVals]. rewrite !app_nil_r.
  destruct title as [t|]; [unfold jsAnd; destruct (truthy (CStr t))|]; reflexivity.
Qed.

Lemma fold_or_null l acc :
  fold_left (fun acc v => acc || Pay.eqNull v) l acc = (acc || existsb Pay.eqNull l)%bool.
Proof.
  revert acc. induction l as [|v l IH]; intros acc; cbn [fold_left existsb]; [now rewrite orb_false_r|].
  rewrite IH. now rewrite orb_assoc.
Qed.

(** [_hasValidValues] holds exactly when no value is [null] or
    [undefined]. *)
Lemma hasValidValues_spec l :
  hasValidValues l = true <-> Forall (fun v => exists x, v = Pay.JNum x) l.
Proof.
  unfold hasValidValues. rewrite fold_or_null. cbn [orb]. rewrite Forall_forall.
  destruct (existsb Pay.eqNull l) eqn:E; cbn [Bool.eqb]; split; intros H; try reflexivity; try discriminate.
  - apply existsb_exists in E as [v [Hv Hn]]. destruct (H v Hv) as [x ->]. discriminate.
  - intros v Hv. destruct v as [| |x]; [| |eauto];
      exfalso; assert (existsb Pay.eqNull l = true) by (apply existsb_exists; eauto); congruence.
Qed.

(** C39: Every [<FormattedCurrency>] that [MarketSnapshotCard] renders
    receives a number as its [val], never [null] or [undefined]: whatever
    the strings at construction and at render time, a rendered card has
    exactly six amounts, the total cash and the base pay of the 25th, 50th
    and 75th percentiles in this order, and each one is a number. *)
Theorem snapshot_cells_are_numbers s0 s p n :
  render (construct s0) s p = Some n ->
  currencyVals n = [marketTotalCash25th p; marketBaseSalary25th p; marketTotalCash50th p;
                    marketBaseSalary50th p; marketTotalCash75th p; marketBaseSalary75th p] /\
  Forall (fun v => exists x, v = Pay.JNum x) (currencyVals n).
Proof.
  unfold render. destruct (isValidData _ _ _ _ _ _) eqn:Hv; cbn [negb]; [|discriminate]. intros [= <-].
  unfold isValidData in Hv. apply andb_true_iff in Hv as [Hb Ht].
  apply hasValidValues_spec in Hb, Ht. rewrite currencyVals_detailsCard.
  assert (E : flat_map currencyVals
                [renderTable (construct s0) s
                   [marketTotalCash25th p; marketTotalCash50th p; marketTotalCash75th p]
                   [marketBaseSalary25th p; marketBaseSalary50th p; marketBaseSalary75th p] (currency p);
                 Elem "div" "market-snapshot-card__description" [Text (description s)]] =
              [marketTotalCash25th p; marketBaseSalary25th p; marketTotalCash50th p;
               marketBaseSalary50th p; marketTotalCash75th p; marketBaseSalary75th p]) by reflexivity.
  rewrite E. split; [reflexivity|].
  rewrite Forall_forall in Hb, Ht.
  repeat (apply Forall_cons; [first [apply Ht; cbn; tauto | apply Hb; cbn; tauto]|]). apply Forall_nil.
Qed.

End MarketSnapshot.

Module DetailCardsTests.
Import Markup.

(** [Number::toString] of the whole numbers the tests use. *)
Definition nts (x : num) : string :=
  match x with Fin q => Currency.showZ (Qfloor q) | NaN => "NaN" | PosInf => "Infinity" | NegInf => "-Infinity" end.

Definition noDetails : EmployeeDetails.EmployeeDetailsCardProps :=
  EmployeeDetails.mkProps None None None None None None None.

Example details_empty : EmployeeDetails.render nts noDetails = None.
Proof. reflexivity. Qed.

Definition allDetails : EmployeeDetails.EmployeeDetailsCardProps :=
  EmployeeDetails.mkProps (Some "2016-01-01") (Some (EmployeeDetails.IdNum (Fin 1234))) (Some "Seattle")
    (Some "Mary Manager") (Some "e@x.com") (Some "Engineering") (Some (fun d f => ("formatted " ++ d)%string)).

Example details_everything :
  option_map EmployeeDetails.itemTitles (EmployeeDetails.render nts allDetails) =
  Some ["Hire Date"; "Employee ID"; "Location"; "Reports To"; "Email"; "Department"].
Proof. vm_compute. reflexivity. Qed.

(** Empty strings are not [null]: the card renders a list of six empty
    texts and no item. *)
Example details_empty_strings :
  option_map (fun ul => (EmployeeDetails.itemTitles ul, textChildren ul))
    (EmployeeDetails.render nts (EmployeeDetails.mkProps (Some "") (Some (EmployeeDetails.IdStr "")) (Some "")
                                   (Some "") (Some "") (Some "") None))
  = Some ([], [""; ""; ""; ""; ""; ""]).
Proof. vm_compute. reflexivity. Qed.

Definition zeroId : EmployeeDetails.EmployeeDetailsCardProps :=
  EmployeeDetails.mkProps (Some "2016-01-01") (Some (EmployeeDetails.IdNum (Fin 0))) None None None None None.

Lemma zero_id_renders_text_witness :
  exists ul, EmployeeDetails.render nts zeroId = Some ul /\
    In (nts (Fin 0)) (textChildren ul) /\ ~ In EmployeeDetails.S.employeeId (EmployeeDetails.itemTitles ul).
Proof. apply EmployeeDetails.zero_id_renders_text. reflexivity. Defined.

Example performance_subject :
  PerformanceRating.isValidData (Some "") = false /\
  option_map textChildren (PerformanceRating.render (PerformanceRating.mkProps None (Some "Exceeds"))) = Some [] /\
  match PerformanceRating.render (PerformanceRating.mkProps None (Some "Exceeds")) with
  | Some (Elem _ _ [_; Elem _ _ [_; Elem _ _ [Elem _ _ [Text t]; _; _]]]) => Some t
  | _ => None
  end = Some "This employee demonstrates a performance of".
Proof. repeat split; vm_compute; reflexivity. Qed.

Definition comp (pay : Pay.jsval) (hourly : option bool) : Node :=
  Compensation.render (Compensation.mkProps pay hourly (Some "USD") (Some "2019-06-05") (fun d f => d)).

Example compensation_cases :
  currencyVals (comp Pay.JNull None) = [] /\
  currencyVals (comp (Pay.JNum (Fin 15)) (Some true)) = [Pay.JNum (Fin 15)] /\
  match comp (Pay.JNum (Fin 15)) (Some true) with
  | Elem _ _ [_; Elem _ _ [Elem _ _ [Elem _ _ [Elem _ _ [_; Text t]]; _]]] => Some t
  | _ => None
  end = Some " /hr".
Proof. repeat split; vm_compute; reflexivity. Qed.

(** A total cash compensation of [0] is shown as N/A. *)
Example total_cash_zero :
  currencyVals (TotalCash.render (TotalCash.mkProps (Some "USD") (Pay.JNum (Fin 0)) None None [] [] [])) = [] /\
  currencyVals (TotalCash.render (TotalCash.mkProps (Some "USD") (Pay.JNum (Fin 5)) None None [] [] [])) = [Pay.JNum (Fin 5)].
Proof. split; vm_compute; reflexivity. Qed.

Definition snapProps (v : Pay.jsval) : MarketSnapshot.MarketSnapshotCardProps :=
  MarketSnapshot.mkProps (Some "USD") (Pay.JNum (Fin 33165)) (Pay.JNum (Fin 45185)) v
    (Pay.JNum (Fin 67836)) (Pay.JNum (Fin 75481)) (Pay.JNum (Fin 92448)).

Definition card0 : MarketSnapshot.MarketSnapshotCard := MarketSnapshot.construct MarketSnapshot.defaultStrings.

Example snapshot_validity :
  (exists n, MarketSnapshot.render card0 MarketSnapshot.defaultStrings (snapProps (Pay.JNum (Fin 59018))) = Some n) /\
  (exists n, MarketSnapshot.render card0 MarketSnapshot.defaultStrings
               (MarketSnapshot.mkProps None (Pay.JNum (Fin 0)) (Pay.JNum (Fin 0)) (Pay.JNum (Fin 0))
                  (Pay.JNum (Fin 0)) (Pay.JNum (Fin 0)) (Pay.JNum (Fin 0))) = Some n) /\
  MarketSnapshot.render card0 MarketSnapshot.defaultStrings (snapProps Pay.JNull) = None.
Proof. repeat split; try (eexists; reflexivity). Qed.

(** The percentiles are read once, in the constructor: strings
    overridden later change the title but not the rows. *)
Example snapshot_stale_percentiles :
  let s := MarketSnapshot.mkStrings "Annual Base Pay" "Snapshot" "*" "P25" "P50" "P75" "TCC*" in
  match MarketSnapshot.render card0 s (snapProps (Pay.JNum (Fin 59018))) with
  | Some (Elem _ _ [Elem _ _ [Text title]; Elem _ _ [Elem _ _ [Elem _ _ [_; Elem _ _ (Elem _ _ [Elem _ _ [Text p]; _; _] :: _)]]; _]]) =>
      Some (title, p)
  | _ => None
  end = Some ("Snapshot", "25th").
Proof. vm_compute. reflexivity. Qed.

Lemma snapshot_cells_are_numbers_witness :
  exists n, MarketSnapshot.render card0 MarketSnapshot.defaultStrings (snapProps (Pay.JNum (Fin 59018))) = Some n /\
    currencyVals n = [Pay.JNum (Fin 67836); Pay.JNum (Fin 33165); Pay.JNum (Fin 75481);
                      Pay.JNum (Fin 45185); Pay.JNum (Fin 92448); Pay.JNum (Fin 59018)] /\
    Forall (fun v => exists x, v = Pay.JNum x) (currencyVals n).
Proof.
  eexists. split; [reflexivity|].
  apply (MarketSnapshot.snapshot_cells_are_numbers MarketSnapshot.defaultStrings MarketSnapshot.defaultStrings
           (snapProps (Pay.JNum (Fin 59018)))).
  reflexivity.
Defined.

End DetailCardsTests.
