(* ===== verification/Regex.v ===== *)
(** * ECMAScript regular expressions (ECMA-262 §22.2.2), the subset the code uses

      [parsePath] (HistoryUtils) matches a URL against one pattern built
      from character classes, literals, groups, alternatives and the
      quantifiers [?], [*] and [+].  [m] is the pattern semantics of the
      standard, continuation-passing and backtracking: a [Matcher] takes a
      state (the end index and the captures) and a continuation and
      returns the first successful final state.  [repeatMatcher] is RepeatMatcher:
      it clears the captures of the quantified atom before each
      iteration, rejects an iteration that matches the empty string once
      [min] is reached, and tries one more iteration before the
      continuation when greedy.  Its fuel, the characters left plus [min]
      plus one, bounds the iterations: past [min] each iteration consumes
      a character.  [exec] is RegExpBuiltinExec of a pattern without the
      [g] and [y] flags: the match at the first index where there is one,
      with its captures as substrings. *)

From Stdlib Require Import List String Ascii Bool Arith Lia.
From S2P Require Import Prelude.
Import ListNotations.
Open Scope string_scope.
Open Scope list_scope.

Module Regex.

Inductive Regex : Type :=
| Empty
| CharClass (p : ascii -> bool)           (* a literal, [^...], [\d], [\w] *)
| Seq (r1 r2 : Regex)
| Alt (r1 r2 : Regex)
| Group (n : nat) (r : Regex)              (* the [n]-th capturing group *)
| Repeat (min : nat) (max : option nat) (greedy : bool) (r : Regex)
| StartAnchor                              (* [^] without the [m] flag *)
| EndAnchor.                               (* [$] without the [m] flag *)

(** The captures, group [n] at index [n - 1]. *)
Definition Captures : Type := list (option (nat * nat)).

Record State : Type := mkState { endIndex : nat; captures : Captures }.

Fixpoint setCapture (caps : Captures) (n : nat) (v : option (nat * nat)) : Captures :=
  match caps, n with
  | [], _ => []
  | _ :: cs, 1 => v :: cs
  | c :: cs, S k => c :: setCapture cs k v
  | cs, O => cs
  end.

(** The groups inside a pattern. *)
Fixpoint groupsOf (r : Regex) : list nat :=
  match r with
  | Group n r1 => n :: groupsOf r1
  | Seq r1 r2 | Alt r1 r2 => groupsOf r1 ++ groupsOf r2
  | Repeat _ _ _ r1 => groupsOf r1
  | _ => []
  end.

Definition clearCaptures (ns : list nat) (caps : Captures) : Captures :=
  fold_left (fun cs n => setCapture cs n None) ns caps.

Section Match.
Variable input : list ascii.

(** A matcher: a state and a continuation to the first final state. *)
Definition Matcher : Type := State -> (State -> option State) -> option State.

(** RepeatMatcher(m, min, max, greedy, x, c, parenIndex, parenCount)
    (ECMA-262 22.2.2.3.1): [groups] are the groups of the quantified atom,
    whose captures each iteration clears. *)
Fixpoint repeatMatcher (mr : Matcher) (groups : list nat) (greedy : bool) (c : State -> option State)
    (fuel min : nat) (max : option nat) (x : State) {struct fuel} : option State :=
  match fuel with
  | O => None
  | S f =>
      if match max with Some O => true | _ => false end then c x
      else
        let d y := if Nat.eqb min 0 && Nat.eqb (endIndex y) (endIndex x) then None
                   else repeatMatcher mr groups greedy c f (pred min) (option_map pred max) y in
        let xr := mkState (endIndex x) (clearCaptures groups (captures x)) in
        if negb (Nat.eqb min 0) then mr xr d
        else if greedy then match mr xr d with Some z => Some z | None => c x end
        else match c x with Some z => Some z | None => mr xr d end
  end.

(** The pattern semantics: [m r x c]. *)
Fixpoint m (r : Regex) (x : State) (c : State -> option State) {struct r} : option State :=
  match r with
  | Empty => c x
  | CharClass p =>
      match nth_error input (endIndex x) with
      | Some ch => if p ch then c (mkState (S (endIndex x)) (captures x)) else None
      | None => None
      end
  | Seq r1 r2 => m r1 x (fun y => m r2 y c)
  | Alt r1 r2 => match m r1 x c with Some z => Some z | None => m r2 x c end
  | Group n r1 =>
      m r1 x (fun y => c (mkState (endIndex y) (setCapture (captures y) n (Some (endIndex x, endIndex y)))))
  | Repeat min max greedy r1 =>
      repeatMatcher (m r1) (groupsOf r1) greedy c (S (List.length input - endIndex x + min)) min max x
  | StartAnchor => if Nat.eqb (endIndex x) 0 then c x else None
  | EndAnchor => if Nat.eqb (endIndex x) (List.length input) then c x else None
  end.

(** The match starting at [i], with [ngroups] captures. *)
Definition matchAt (r : Regex) (ngroups : nat) (i : nat) : option State :=
  m r (mkState i (repeat None ngroups)) (fun y => Some y).

Fixpoint execFrom (r : Regex) (ngroups : nat) (i : nat) (fuel : nat) : option (nat * State) :=
  match fuel with
  | O => None
  | S f => match matchAt r ngroups i with
           | Some y => Some (i, y)
           | None => execFrom r ngroups (S i) f
           end
  end.

Definition substr (i j : nat) : string := string_of_list_ascii (firstn (j - i) (skipn i input)).

(** [RegExpBuiltinExec]: the matched text and the captures ([None] for
    [undefined]), or [null]. *)
Definition exec (r : Regex) (ngroups : nat) : option (list (option string)) :=
  match execFrom r ngroups 0 (S (List.length input)) with
  | Some (i, y) =>
      Some (Some (substr i (endIndex y)) ::
            map (fun c => match c with Some (a, b) => Some (substr a b) | None => None end) (captures y))
  | None => None
  end.

End Match.

(** ** Building patterns *)

Definition lit (c : ascii) : Regex := CharClass (fun x => Ascii.eqb x c).

(** A literal string. *)
Fixpoint str (s : string) : Regex :=
  match s with EmptyString => Empty | String c r => Seq (lit c) (str r) end.

(** [[^cs]]. *)
Definition notInB (cs : string) (x : ascii) : bool := negb (existsb (Ascii.eqb x) (list_ascii_of_string cs)).
Definition notIn (cs : string) : Regex := CharClass (notInB cs).

Definition opt (r : Regex) : Regex := Repeat 0 (Some 1) true r.
Definition star (r : Regex) : Regex := Repeat 0 None true r.
Definition plus (r : Regex) : Regex := Repeat 1 None true r.

(** [\d] and [\w]. *)
Definition isDigitChar (c : ascii) : bool := Nat.leb 48 (nat_of_ascii c) && Nat.leb (nat_of_ascii c) 57.
Definition isWordChar (c : ascii) : bool :=
  let n := nat_of_ascii c in
  isDigitChar c || (Nat.leb 65 n && Nat.leb n 90) || (Nat.leb 97 n && Nat.leb n 122) || Nat.eqb n 95.

(** ** How patterns match *)

Section Facts.
Variable input : list ascii.
Local Abbreviation m := (m input).

Lemma repeatMatcher_ext (mr : Matcher) groups greedy c1 c2 :
  (forall x d1 d2, (forall y, d1 y = d2 y) -> mr x d1 = mr x d2) ->
  (forall y, c1 y = c2 y) ->
  forall f mn mx x, repeatMatcher mr groups greedy c1 f mn mx x = repeatMatcher mr groups greedy c2 f mn mx x.
Proof.
  intros Hm Hc. induction f as [|f IH]; intros mn mx x; [reflexivity|]. cbn [repeatMatcher].
  assert (Hd : forall y, (if Nat.eqb mn 0 && Nat.eqb (endIndex y) (endIndex x) then None
                         else repeatMatcher mr groups greedy c1 f (pred mn) (option_map pred mx) y) =
                        (if Nat.eqb mn 0 && Nat.eqb (endIndex y) (endIndex x) then None
                         else repeatMatcher mr groups greedy c2 f (pred mn) (option_map pred mx) y))
    by (intros y; destruct (_ && _); [reflexivity|apply IH]).
  rewrite (Hm _ _ _ Hd), Hc. reflexivity.
Qed.

(** A pattern calls its continuation only through its values. *)
Lemma m_ext r : forall x c1 c2, (forall y, c1 y = c2 y) -> m r x c1 = m r x c2.
Proof.
  induction r as [|p|r1 IH1 r2 IH2|r1 IH1 r2 IH2|n r IH|mn mx g r IH| |]; intros x c1 c2 H; cbn [Regex.m].
  - apply H.
  - destruct (nth_error input (endIndex x)); [destruct (p a)|]; auto.
  - apply IH1. intros y. apply IH2, H.
  - rewrite (IH1 x c1 c2 H), (IH2 x c1 c2 H). reflexivity.
  - apply IH. intros y. apply H.
  - apply repeatMatcher_ext; [|exact H]. intros y d1 d2 Hd. apply IH, Hd.
  - destruct (Nat.eqb _ _); auto.
  - destruct (Nat.eqb _ _); auto.
Qed.

Lemma m_seq r1 r2 x c : m (Seq r1 r2) x c = m r1 x (fun y => m r2 y c).
Proof. reflexivity. Qed.

Lemma m_group n r x c :
  m (Group n r) x c = m r x (fun y => c (mkState (endIndex y) (setCapture (captures y) n (Some (endIndex x, endIndex y))))).
Proof. reflexivity. Qed.

(** [r] cannot match at [i], whatever follows. *)
Definition Fails (r : Regex) (i : nat) : Prop := forall caps c, m r (mkState i caps) c = None.

Lemma class_step p i caps c ch :
  nth_error input i = Some ch -> p ch = true -> m (CharClass p) (mkState i caps) c = c (mkState (S i) caps).
Proof. intros E Hp. cbn. rewrite E, Hp. reflexivity. Qed.

Lemma fails_class p i : (forall ch, nth_error input i = Some ch -> p ch = false) -> Fails (CharClass p) i.
Proof.
  intros H caps c. cbn. destruct (nth_error input i) as [ch|] eqn:E; [|reflexivity].
  rewrite (H ch eq_refl). reflexivity.
Qed.

Lemma fails_seq r1 r2 i : Fails r1 i -> Fails (Seq r1 r2) i.
Proof. intros H caps c. apply H. Qed.

Lemma fails_group n r i : Fails r i -> Fails (Group n r) i.
Proof. intros H caps c. apply H. Qed.

Lemma fails_alt r1 r2 i : Fails r1 i -> Fails r2 i -> Fails (Alt r1 r2) i.
Proof. intros H1 H2 caps c. cbn. rewrite (H1 caps c). apply H2. Qed.

Lemma fails_plus r i : Fails r i -> Fails (plus r) i.
Proof. intros H caps c. cbn. apply H. Qed.

(** A quantifier [?] over a pattern that cannot match skips it. *)
Lemma opt_skip r i caps c : Fails r i -> m (opt r) (mkState i caps) c = c (mkState i caps).
Proof. intros H. cbn. rewrite H. reflexivity. Qed.

(** Before the end of the input, [r?] first tries [r] with a continuation
    that refuses an empty match, then skips [r]. *)
Lemma opt_take r i caps c : i < List.length input ->
  m (opt r) (mkState i caps) c =
  match m r (mkState i (clearCaptures (groupsOf r) caps)) (fun y => if Nat.eqb (endIndex y) i then None else c y) with
  | Some z => Some z
  | None => c (mkState i caps)
  end.
Proof.
  intros Hi. cbn [Regex.m opt]. replace (List.length input - endIndex (mkState i caps) + 0) with (S (List.length input - S i)) by (cbn; lia).
  cbn [repeatMatcher]. cbn [Nat.eqb andb negb option_map pred endIndex captures].
  reflexivity.
Qed.

Lemma star_class_fuel p j caps c z :
  (forall ch, nth_error input j = Some ch -> p ch = false) -> c (mkState j caps) = Some z ->
  forall k i f, i + k = j -> k < f ->
  (forall q, i <= q < j -> exists ch, nth_error input q = Some ch /\ p ch = true) ->
  repeatMatcher (m (CharClass p)) [] true c f 0 None (mkState i caps) = Some z.
Proof.
  intros Hj Hc. induction k as [|k IH]; intros i f Hk Hf Hr; (destruct f as [|f]; [lia|]); cbn [repeatMatcher].
  - replace i with j by lia. cbn [Nat.eqb andb negb clearCaptures fold_left].
    rewrite (fails_class p j Hj). exact Hc.
  - destruct (Hr i ltac:(lia)) as (ch & E & Hp). cbn [Nat.eqb andb negb clearCaptures fold_left].
    change {| endIndex := endIndex (mkState i caps); captures := caps |} with (mkState i caps).
    rewrite (class_step p i caps _ ch E Hp). cbn [endIndex].
    rewrite (proj2 (Nat.eqb_neq (S i) i)) by lia. cbn [pred option_map].
    rewrite (IH (S i) f) by (try lia; intros q Hq; apply Hr; lia). reflexivity.
Qed.

(** A greedy [*] over a character class takes the longest run of
    characters in the class, then the continuation. *)
Lemma star_class p i j caps c z : i <= j <= List.length input ->
  (forall q, i <= q < j -> exists ch, nth_error input q = Some ch /\ p ch = true) ->
  (forall ch, nth_error input j = Some ch -> p ch = false) ->
  c (mkState j caps) = Some z -> m (star (CharClass p)) (mkState i caps) c = Some z.
Proof.
  intros Hij Hr Hj Hc. cbn [Regex.m star groupsOf].
  apply (star_class_fuel p j caps c z Hj Hc (j - i)); [lia|cbn [endIndex]; lia|exact Hr].
Qed.

(** A greedy [*] over a pattern whose first match from [x] is [y], a
    non-empty one, and which can only match the empty string at [y],
    goes on from [y]. *)
Lemma star_once r i caps y c z : i < List.length input -> endIndex y <> i ->
  (forall d w, d y = Some w -> m r (mkState i (clearCaptures (groupsOf r) caps)) d = Some w) ->
  (forall d, (forall y', endIndex y' = endIndex y -> d y' = None) ->
             m r (mkState (endIndex y) (clearCaptures (groupsOf r) (captures y))) d = None) ->
  c y = Some z -> m (star r) (mkState i caps) c = Some z.
Proof.
  intros Hi Hy H1 H2 Hc. cbn [Regex.m star].
  replace (List.length input - endIndex (mkState i caps) + 0) with (S (List.length input - S i)) by (cbn; lia).
  cbn [repeatMatcher Nat.eqb andb negb pred option_map].
  rewrite (H1 _ z); [reflexivity|]. cbn [endIndex].
  rewrite (proj2 (Nat.eqb_neq (endIndex y) i) Hy). cbn [andb repeatMatcher Nat.eqb negb pred option_map].
  rewrite H2; [exact Hc|]. intros y' Ey. rewrite Ey, Nat.eqb_refl. reflexivity.
Qed.

Lemma m_start x c : endIndex x = 0 -> m StartAnchor x c = c x.
Proof. intros H. cbn. now rewrite H. Qed.

Lemma m_end x c : endIndex x = List.length input -> m EndAnchor x c = c x.
Proof. intros H. cbn. now rewrite H, Nat.eqb_refl. Qed.

Lemma fails_class_seq p r i ch : nth_error input i = Some ch -> p ch = true -> Fails r (S i) ->
  Fails (Seq (CharClass p) r) i.
Proof. intros E Hp H caps c. rewrite m_seq, (class_step p i caps _ ch E Hp). apply H. Qed.

(** An optional group [n] of the literal [c0] and a starred class [p],
    where [c0] is at [i] and [p] holds up to [j] and not at [j]: the
    group captures [i..j] and the match goes on at [j]. *)
Lemma opt_group_take n c0 p i j caps c z :
  nth_error input i = Some c0 -> i < j <= List.length input ->
  (forall q, S i <= q < j -> exists ch, nth_error input q = Some ch /\ p ch = true) ->
  (forall ch, nth_error input j = Some ch -> p ch = false) ->
  c (mkState j (setCapture (clearCaptures [n] caps) n (Some (i, j)))) = Some z ->
  m (opt (Group n (Seq (lit c0) (star (CharClass p))))) (mkState i caps) c = Some z.
Proof.
  intros Ei Hij Hr Hj Hc. rewrite opt_take by (apply nth_error_Some; congruence).
  cbn [groupsOf app]. rewrite m_group, m_seq. unfold lit.
  rewrite (class_step (fun x => Ascii.eqb x c0) i _ _ c0 Ei (Ascii.eqb_refl c0)).
  erewrite (star_class p (S i) j); [reflexivity|lia|exact Hr|exact Hj|].
  cbn [endIndex captures]. rewrite (proj2 (Nat.eqb_neq j i)) by lia. exact Hc.
Qed.

End Facts.

End Regex.
