(* ===== verification/ParsePath.v ===== *)
(** * [parsePath] ([src/src/HistoryUtils/index.ts], lines 3-36)

      The URL pattern is assembled from six strings; each is translated
      into Regex.v's patterns as the string denotes it (in a JS string
      literal [\/] is [/] and [\?] is [?]).  [parsePath] runs
      [path.match(urlRegEx)] with Regex.v's [exec] and builds the
      [LocationContext] of BrowserHistory.v from the captures, so that it
      can stand for the [parsePath] parameter of the history model. *)

From Stdlib Require Import List String Ascii Bool Arith Lia.
From S2P Require Import Prelude MockHistory BrowserHistory Regex.
Import ListNotations Regex.
Open Scope string_scope.
Open Scope list_scope.

Module ParsePath.
Import History.

(** [protocolRegEx = '((?:https?|ftp):)?'] (line 3). *)
Definition protocolRegEx : Regex :=
  opt (Group 1 (Seq (Alt (Seq (str "http") (opt (lit "s"))) (str "ftp")) (lit ":"))).

(** [hostRegEx = '([^\/\?:#]+)?'] (line 4). *)
Definition hostRegEx : Regex := opt (Group 2 (plus (notIn "/?:#"))).

(** [portRegEx = '(?::(\\d+))?'] (line 5). *)
Definition portRegEx : Regex := opt (Seq (lit ":") (Group 3 (plus (CharClass isDigitChar)))).

(** [pathRegEx] (line 6): a starred group of an optional [/] and an
    optional [[^/?#]] followed by [[^?#]*]. *)
Definition pathRegEx : Regex :=
  star (Group 4 (Seq (opt (lit "/")) (opt (Seq (notIn "/?#") (star (notIn "?#")))))).

(** [queryRegEx] (line 7): an optional group of [?] and [[^#]*]. *)
Definition queryRegEx : Regex := opt (Group 5 (Seq (lit "?") (star (notIn "#")))).

(** [hashRegEx] (line 8): an optional group of [#] and [\w*]. *)
Definition hashRegEx : Regex := opt (Group 6 (Seq (lit "#") (star (CharClass isWordChar)))).

(** [urlRegEx] (line 9). *)
Definition urlRegEx : Regex :=
  Seq StartAnchor (Seq protocolRegEx (Seq (opt (str "//")) (Seq hostRegEx (Seq portRegEx
    (Seq pathRegEx (Seq queryRegEx (Seq hashRegEx EndAnchor))))))).

(** [parsePath] (lines 13-36): [path && path.match(urlRegEx) || []], then
    [matches[i] || '']. *)
Definition parsePath (path : string) : LocationContext :=
  let matches :=
    if String.eqb path "" then []
    else match exec (list_ascii_of_string path) urlRegEx 6 with Some ms => ms | None => [] end in
  let get i := match nth_error matches i with Some (Some s) => s | _ => "" end in
  let href := get 0 in
  let protocol := get 1 in
  let hostName := get 2 in
  let port := get 3 in
  let pathname := get 4 in
  let search := get 5 in
  let hash := get 6 in
  let host := if String.eqb hostName "" then ""
              else (hostName ++ (if String.eqb port "" then "" else ":" ++ port))%string in
  mkLocationContext
    (if Nat.ltb 1 (String.length hash) then hash else "")
    host hostName href
    (if negb (String.eqb protocol "") && negb (String.eqb host "") then (protocol ++ "//" ++ host)%string else "")
    pathname port protocol
    (if Nat.ltb 1 (String.length search) then search else "").

End ParsePath.

(** ** What [parsePath] makes of a relative URL *)
Module ParsePathFacts.
Import ParsePath.

(** The atom of [pathRegEx]'s [*]. *)
Definition pathAtom : Regex :=
  Group 4 (Seq (opt (lit "/")) (opt (Seq (notIn "/?#") (star (notIn "?#"))))).

Lemma pathRegEx_star : pathRegEx = star pathAtom.
Proof. reflexivity. Qed.

Section Path.
Variables (a : ascii) (P' R : list ascii).
Let P := ("/"%char :: a :: P')%list.
Let input := (P ++ R)%list.
Hypothesis Ha : notInB "/?#" a = true.
Hypothesis HP : forallb (notInB "?#") (a :: P') = true.
Hypothesis HR : forall ch, nth_error R 0 = Some ch -> notInB "?#" ch = false.

Lemma nth_input_P k ch : nth_error P k = Some ch -> nth_error input k = Some ch.
Proof. intros E. unfold input. rewrite nth_error_app1; [exact E|]. apply nth_error_Some. congruence. Qed.

Lemma nth_input_R ch : nth_error input (List.length P) = Some ch -> notInB "?#" ch = false.
Proof. intros E. apply HR. unfold input in E. rewrite nth_error_app2, PeanoNat.Nat.sub_diag in E by lia. exact E. Qed.

(** The first iteration of the path's [*] takes the whole of [P]. *)
Lemma path_first caps d w :
  d (mkState (List.length P) (setCapture caps 4 (Some (0, List.length P)))) = Some w ->
  m input pathAtom (mkState 0 caps) d = Some w.
Proof.
  intros Hd. unfold pathAtom. rewrite m_group, m_seq.
  assert (Hlen : (2 <= List.length P)%nat) by (cbn; lia).
  rewrite (opt_take input (lit "/") 0 caps) by (unfold input; rewrite length_app; lia).
  cbn [groupsOf lit clearCaptures fold_left]. unfold lit.
  rewrite (class_step input _ 0 caps _ "/"%char eq_refl eq_refl). cbn [endIndex Nat.eqb].
  rewrite (opt_take input _ 1 caps) by (unfold input; rewrite length_app; lia).
  cbn [groupsOf clearCaptures fold_left app]. rewrite m_seq. unfold notIn.
  rewrite (class_step input _ 1 caps _ a eq_refl Ha).
  erewrite (star_class input _ 2 (List.length P)); [reflexivity| | | |].
  - unfold input. rewrite length_app. lia.
  - intros q Hq. destruct q as [|q]; [lia|].
    destruct (nth_error (a :: P') q) as [ch|] eqn:E; [|apply nth_error_None in E; cbn in Hq, E; lia].
    exists ch. split; [apply nth_input_P; exact E|].
    apply (proj1 (forallb_forall _ _) HP). exact (nth_error_In _ _ E).
  - exact nth_input_R.
  - cbn [endIndex captures]. exact Hd.
Qed.

Lemma notInB_qh ch : notInB "?#" ch = false -> ch = "?"%char \/ ch = "#"%char.
Proof.
  unfold notInB. cbn [list_ascii_of_string existsb].
  destruct (Ascii.eqb_spec ch "?"); [auto|]. destruct (Ascii.eqb_spec ch "#"); [auto|]. discriminate.
Qed.

(** At the end of [P] the atom matches only the empty string. *)
Lemma path_rest caps d : (forall y, endIndex y = List.length P -> d y = None) ->
  m input pathAtom (mkState (List.length P) caps) d = None.
Proof.
  intros Hd. unfold pathAtom. rewrite m_group, m_seq.
  assert (Hq : forall ch, nth_error input (List.length P) = Some ch -> ch = "?"%char \/ ch = "#"%char)
    by (intros ch E; exact (notInB_qh ch (nth_input_R ch E))).
  rewrite opt_skip by (apply fails_class; intros ch E; destruct (Hq ch E) as [->| ->]; reflexivity).
  rewrite opt_skip by (apply fails_seq, fails_class; intros ch E; destruct (Hq ch E) as [->| ->]; reflexivity).
  apply Hd. reflexivity.
Qed.

(** [pathRegEx] captures [P] as group 4 and goes on after it. *)
Lemma path_star caps c z :
  c (mkState (List.length P) (setCapture (clearCaptures [4%nat] caps) 4 (Some (0, List.length P)))) = Some z ->
  m input pathRegEx (mkState 0 caps) c = Some z.
Proof.
  intros Hc. rewrite pathRegEx_star.
  apply (star_once input pathAtom 0 caps
           (mkState (List.length P) (setCapture (clearCaptures [4%nat] caps) 4 (Some (0, List.length P)))) c z);
    cbn [endIndex]; [unfold input; cbn; lia|cbn; lia| | |exact Hc].
  - intros d w Hd. apply path_first. exact Hd.
  - intros d Hd. apply path_rest. exact Hd.
Qed.

End Path.

Lemma nth_app_shift {A} (l1 l2 : list A) k : nth_error (l1 ++ l2) (List.length l1 + k) = nth_error l2 k.
Proof. rewrite nth_error_app2 by lia. f_equal. lia. Qed.

Lemma notInB_a a : notInB "/?#" a = true -> Ascii.eqb a "/" = false.
Proof. unfold notInB. cbn. destruct (Ascii.eqb a "/"); [discriminate|reflexivity]. Qed.

Section Url.
Variables (a : ascii) (P' Q H : list ascii).
Let P := ("/"%char :: a :: P')%list.
Let input := (P ++ Q ++ H)%list.
Hypothesis Ha : notInB "/?#" a = true.
Hypothesis HP : forallb (notInB "?#") (a :: P') = true.
Hypothesis HQ : Q = [] \/ exists Q', Q = ("?"%char :: Q')%list /\ forallb (notInB "#") Q' = true.
Hypothesis HH : H = [] \/ exists H', H = ("#"%char :: H')%list /\ forallb isWordChar H' = true.

Ltac fails_at E :=
  repeat first [apply fails_group | apply fails_seq | apply fails_plus | apply fails_alt];
  apply fails_class; intros ch E.

Lemma url_prefix caps c : m input urlRegEx (mkState 0 caps) c =
  m input (Seq pathRegEx (Seq queryRegEx (Seq hashRegEx EndAnchor))) (mkState 0 caps) c.
Proof.
  unfold urlRegEx, protocolRegEx, hostRegEx, portRegEx.
  rewrite m_seq, m_start by reflexivity.
  rewrite m_seq, opt_skip by (fails_at E; cbn in E; injection E as <-; reflexivity).
  rewrite m_seq, opt_skip.
  2:{ cbn [str]. unfold lit. apply (fails_class_seq input _ _ 0 "/"%char eq_refl eq_refl).
      fails_at E. cbn in E. injection E as <-. apply notInB_a, Ha. }
  rewrite m_seq, opt_skip by (fails_at E; cbn in E; injection E as <-; reflexivity).
  rewrite m_seq, opt_skip by (fails_at E; cbn in E; injection E as <-; reflexivity).
  reflexivity.
Qed.

Let lp := List.length P.
Let lq := List.length Q.

Lemma nth_H k : nth_error input (lp + lq + k) = nth_error H k.
Proof. unfold input, lp, lq. rewrite <- Nat.add_assoc, nth_app_shift, nth_app_shift. reflexivity. Qed.

Lemma nth_Q k : k < lq -> nth_error input (lp + k) = nth_error Q k.
Proof. intros Hk. unfold input, lp. rewrite nth_app_shift, nth_error_app1 by exact Hk. reflexivity. Qed.

Lemma len_input : List.length input = lp + lq + List.length H.
Proof. unfold input, lp, lq. rewrite !length_app. lia. Qed.

Lemma H_first ch : nth_error H 0 = Some ch -> ch = "#"%char.
Proof. destruct HH as [E|(H' & E & _)]; rewrite E; cbn; congruence. Qed.

(** The captures the query part sets. *)
Definition qset (caps : Captures) : Captures :=
  match Q with [] => caps | _ => setCapture (clearCaptures [5%nat] caps) 5 (Some (lp, lp + lq)) end.

Definition hset (caps : Captures) : Captures :=
  match H with [] => caps | _ => setCapture (clearCaptures [6%nat] caps) 6 (Some (lp + lq, List.length input)) end.

Lemma query_step caps c z : c (mkState (lp + lq) (qset caps)) = Some z ->
  m input queryRegEx (mkState lp caps) c = Some z.
Proof.
  intros Hc. unfold queryRegEx. unfold qset in Hc.
  destruct HQ as [E|(Q' & E & HQ')].
  - assert (Hlq : lq = 0) by (unfold lq; now rewrite E). rewrite E in Hc.
    rewrite opt_skip; [rewrite Hlq, Nat.add_0_r in Hc; exact Hc|].
    fails_at Ec. replace lp with (lp + lq + 0) in Ec by lia. rewrite nth_H in Ec.
    rewrite (H_first ch Ec). reflexivity.
  - assert (Hlq : lq = S (List.length Q')) by (unfold lq; now rewrite E).
    rewrite E in Hc. unfold notIn.
    apply (opt_group_take input 5 "?" (notInB "#") lp (lp + lq) caps c z).
    + rewrite <- (Nat.add_0_r lp), nth_Q by lia. now rewrite E.
    + rewrite len_input. lia.
    + intros q Hq. replace q with (lp + S (q - S lp)) by lia. rewrite nth_Q by lia. rewrite E. cbn [nth_error].
      destruct (nth_error Q' (q - S lp)) as [ch|] eqn:Eq; [|apply nth_error_None in Eq; lia].
      exists ch. split; [reflexivity|]. apply (proj1 (forallb_forall _ _) HQ'). exact (nth_error_In _ _ Eq).
    + intros ch Ec. rewrite <- (Nat.add_0_r (lp + lq)), nth_H in Ec. now rewrite (H_first ch Ec).
    + exact Hc.
Qed.

Lemma hash_step caps c z : c (mkState (List.length input) (hset caps)) = Some z ->
  m input hashRegEx (mkState (lp + lq) caps) c = Some z.
Proof.
  intros Hc. unfold hashRegEx. unfold hset in Hc.
  destruct HH as [E|(H' & E & HH')].
  - rewrite E in Hc. rewrite opt_skip.
    + rewrite len_input, E in Hc. cbn [List.length] in Hc. now rewrite Nat.add_0_r in Hc.
    + fails_at Ec. rewrite <- (Nat.add_0_r (lp + lq)), nth_H, E in Ec. discriminate.
  - rewrite E in Hc.
    apply (opt_group_take input 6 "#" isWordChar (lp + lq) (List.length input) caps c z).
    + rewrite <- (Nat.add_0_r (lp + lq)), nth_H. now rewrite E.
    + rewrite len_input, E. cbn [List.length]. lia.
    + intros q Hq. rewrite len_input, E in Hq. cbn [List.length] in Hq.
      replace q with (lp + lq + S (q - S (lp + lq))) by lia. rewrite nth_H, E. cbn [nth_error].
      destruct (nth_error H' (q - S (lp + lq))) as [ch|] eqn:Eq; [|apply nth_error_None in Eq; lia].
      exists ch. split; [reflexivity|]. apply (proj1 (forallb_forall _ _) HH'). exact (nth_error_In _ _ Eq).
    + intros ch Ec. assert (Hn : nth_error input (List.length input) = None) by (apply nth_error_None; lia).
      congruence.
    + exact Hc.
Qed.

(** The captures of the match. *)
Definition finalCaps : Captures :=
  hset (qset [None; None; None; Some (0, lp); None; None]).

Lemma HR_path ch : nth_error (Q ++ H) 0 = Some ch -> notInB "?#" ch = false.
Proof.
  destruct HQ as [EQ|(Q' & EQ & _)]; rewrite EQ; cbn [app nth_error].
  - intros E. now rewrite (H_first ch E).
  - intros E. injection E as <-. reflexivity.
Qed.

(** The URL pattern matches the whole input at 0, with group 4 the
    path, 5 the query and 6 the fragment. *)
Lemma url_match : matchAt input urlRegEx 6 0 = Some (mkState (List.length input) finalCaps).
Proof.
  unfold matchAt. rewrite url_prefix, m_seq.
  apply (path_star a P' (Q ++ H) Ha HP HR_path). cbv beta. fold P lp.
  cbn [repeat clearCaptures fold_left setCapture].
  rewrite m_seq. apply query_step. rewrite m_seq. apply hash_step.
  rewrite m_end by reflexivity. reflexivity.
Qed.

End Url.

(** The parts [parsePath]'s theorem covers: a path that starts with [/]
    and a character other than [/], [?] and [#], and has no [?] or [#];
    an empty query or [?] and characters other than [#]; an empty
    fragment or [#] and word characters. *)
Definition pathOk (p : string) : bool :=
  match p with
  | String c (String a rest) =>
      Ascii.eqb c "/" && notInB "/?#" a && forallb (notInB "?#") (a :: list_ascii_of_string rest)
  | _ => false
  end.

Definition queryOk (q : string) : bool :=
  match q with
  | EmptyString => true
  | String c rest => Ascii.eqb c "?" && forallb (notInB "#") (list_ascii_of_string rest)
  end.

Definition hashOk (h : string) : bool :=
  match h with
  | EmptyString => true
  | String c rest => Ascii.eqb c "#" && forallb isWordChar (list_ascii_of_string rest)
  end.

Lemma pathOk_spec p : pathOk p = true -> exists a P',
  list_ascii_of_string p = ("/"%char :: a :: P')%list /\ notInB "/?#" a = true /\
  forallb (notInB "?#") (a :: P') = true.
Proof.
  destruct p as [|c [|a rest]]; try discriminate. cbn [pathOk].
  intros H. apply andb_prop in H as [H H2]. apply andb_prop in H as [H1 Ha].
  apply Ascii.eqb_eq in H1. subst c. exists a, (list_ascii_of_string rest). auto.
Qed.

Lemma queryOk_spec q : queryOk q = true ->
  list_ascii_of_string q = [] \/ exists Q', list_ascii_of_string q = ("?"%char :: Q')%list /\ forallb (notInB "#") Q' = true.
Proof.
  destruct q as [|c rest]; [auto|]. cbn [queryOk]. intros H. apply andb_prop in H as [H1 H2].
  apply Ascii.eqb_eq in H1. subst c. right. exists (list_ascii_of_string rest). auto.
Qed.

Lemma hashOk_spec h : hashOk h = true ->
  list_ascii_of_string h = [] \/ exists H', list_ascii_of_string h = ("#"%char :: H')%list /\ forallb isWordChar H' = true.
Proof.
  destruct h as [|c rest]; [auto|]. cbn [hashOk]. intros H. apply andb_prop in H as [H1 H2].
  apply Ascii.eqb_eq in H1. subst c. right. exists (list_ascii_of_string rest). auto.
Qed.

Lemma las_app s1 s2 : list_ascii_of_string (s1 ++ s2) = list_ascii_of_string s1 ++ list_ascii_of_string s2.
Proof. induction s1 as [|c s1 IH]; cbn; [reflexivity|now rewrite IH]. Qed.

Lemma las_length s : List.length (list_ascii_of_string s) = String.length s.
Proof. induction s as [|c s IH]; cbn; [reflexivity|now rewrite IH]. Qed.

Lemma substr_mid A B C : substr (A ++ B ++ C) (List.length A) (List.length A + List.length B) = string_of_list_ascii B.
Proof.
  unfold substr. replace (List.length A + List.length B - List.length A) with (List.length B) by lia.
  rewrite skipn_app, PeanoNat.Nat.sub_diag, skipn_all. cbn [app skipn].
  rewrite firstn_app, PeanoNat.Nat.sub_diag, firstn_all. cbn [firstn]. now rewrite app_nil_r.
Qed.

Lemma substr_all L : substr L 0 (List.length L) = string_of_list_ascii L.
Proof. unfold substr. rewrite PeanoNat.Nat.sub_0_r, firstn_all. reflexivity. Qed.

(** [exec] of the URL pattern on such a string: the whole string, no
    protocol, host or port, the path, and the query and fragment when
    present. *)
Lemma exec_url a P' Q H : notInB "/?#" a = true -> forallb (notInB "?#") (a :: P') = true ->
  (Q = [] \/ exists Q', Q = ("?"%char :: Q')%list /\ forallb (notInB "#") Q' = true) ->
  (H = [] \/ exists H', H = ("#"%char :: H')%list /\ forallb isWordChar H' = true) ->
  let input := (("/"%char :: a :: P') ++ Q ++ H)%list in
  let lp := S (S (List.length P')) in
  exec input urlRegEx 6 = Some [Some (substr input 0 (List.length input)); None; None; None;
    Some (substr input 0 lp);
    match Q with [] => None | _ => Some (substr input lp (lp + List.length Q)) end;
    match H with [] => None | _ => Some (substr input (lp + List.length Q) (List.length input)) end].
Proof.
  intros Ha HP HQ HH input lp. unfold exec. cbn [execFrom]. unfold input.
  rewrite (url_match a P' Q H Ha HP HQ HH). unfold finalCaps, hset, qset.
  destruct Q, H; reflexivity.
Qed.

(** C24: On a relative URL made of a path, a query and a fragment of the
    shapes [pathOk], [queryOk] and [hashOk] describe, [parsePath] returns
    the whole string as [href], that path as [pathname], the query and
    the fragment when longer than their one-character prefix, and empty
    protocol, host, port and origin. *)
Theorem parsePath_relative p q h :
  pathOk p = true -> queryOk q = true -> hashOk h = true ->
  let l := parsePath (p ++ q ++ h) in
  href l = (p ++ q ++ h)%string /\ protocol l = "" /\ host l = "" /\ port l = "" /\ origin l = "" /\
  pathname l = p /\ search l = (if Nat.ltb 1 (String.length q) then q else "") /\
  hash l = (if Nat.ltb 1 (String.length h) then h else "").
Proof.
  intros Hp Hq Hh l. subst l.
  destruct (pathOk_spec p Hp) as (a & P' & EP & Ha & HP).
  pose proof (queryOk_spec q Hq) as HQ. pose proof (hashOk_spec h Hh) as HH.
  remember (list_ascii_of_string q) as Q eqn:EQ. remember (list_ascii_of_string h) as H eqn:EH.
  assert (Ein : list_ascii_of_string (p ++ q ++ h) = (("/"%char :: a :: P') ++ Q ++ H)%list)
    by (rewrite !las_app, EP; congruence).
  assert (Hne : String.eqb (p ++ q ++ h) "" = false) by (destruct p; [discriminate|reflexivity]).
  unfold parsePath. rewrite Hne, Ein, (exec_url a P' Q H Ha HP HQ HH).
  cbn [nth_error BrowserHistory.hash BrowserHistory.host BrowserHistory.hostName BrowserHistory.href BrowserHistory.origin BrowserHistory.pathname BrowserHistory.port BrowserHistory.protocol BrowserHistory.search].
  set (L := (("/"%char :: a :: P') ++ Q ++ H)%list).
  assert (E0 : substr L 0 (List.length L) = (p ++ q ++ h)%string)
    by (rewrite substr_all; unfold L; rewrite <- Ein; apply string_of_list_ascii_of_string).
  assert (E4 : substr L 0 (S (S (List.length P'))) = p)
    by (rewrite <- string_of_list_ascii_of_string, EP; exact (substr_mid [] ("/"%char :: a :: P') (Q ++ H))).
  assert (E5 : substr L (S (S (List.length P'))) (S (S (List.length P')) + List.length Q) = q)
    by (rewrite <- string_of_list_ascii_of_string, <- EQ; exact (substr_mid ("/"%char :: a :: P') Q H)).
  assert (E6 : substr L (S (S (List.length P')) + List.length Q) (List.length L) = h).
  { pose proof (substr_mid (("/"%char :: a :: P') ++ Q) H []) as E.
    rewrite app_nil_r, <- app_assoc, length_app in E.
    rewrite <- string_of_list_ascii_of_string, <- EH, <- E. unfold L. f_equal; rewrite ?length_app; cbn [List.length]; lia. }
  rewrite E0, E4, E5, E6.
  destruct HQ as [EQ'|(Q' & EQ' & _)], HH as [EH'|(H' & EH' & _)]; rewrite EQ' in EQ |- *; rewrite EH' in EH |- *;
    repeat match goal with
    | E : [] = list_ascii_of_string ?s |- _ => destruct s; [clear E|discriminate E]
    end; cbn [length]; repeat split; reflexivity.
Qed.

End ParsePathFacts.

Module ParsePathTests.
Import History ParsePath.

Example protocols :
  protocol (parsePath "http://www.underpaid.com") = "http:" /\ protocol (parsePath "https://www.underpaid.com") = "https:" /\
  protocol (parsePath "ftp://ftp.underpaid.com") = "ftp:" /\ protocol (parsePath "www.underpaid.com") = "".
Proof. repeat split; vm_compute; reflexivity. Qed.

Example hosts :
  hostName (parsePath "http://underpaid.com") = "underpaid.com" /\
  hostName (parsePath "http://www.underpaid.com") = "www.underpaid.com" /\
  hostName (parsePath "www.underpaid.com") = "www.underpaid.com" /\
  port (parsePath "http://underpaid.com:9004") = "9004" /\ port (parsePath "http://underpaid.com") = "" /\
  port (parsePath "underpaid.com:9004") = "9004" /\
  host (parsePath "http://underpaid.com:9004") = "underpaid.com:9004" /\
  host (parsePath "http://underpaid.com") = "underpaid.com" /\ host (parsePath "http://:5000") = "".
Proof. repeat split; vm_compute; reflexivity. Qed.

Example paths :
  pathname (parsePath "http://underpaid.com:9004/my") = "/my" /\
  pathname (parsePath "http://underpaid.com:9004/my/") = "/my/" /\
  pathname (parsePath "http://underpaid.com:9004/my/spoon/is/too/big") = "/my/spoon/is/too/big" /\
  origin (parsePath "http://underpaid.com:9004/my/spoon") = "http://underpaid.com:9004" /\
  origin (parsePath "https://underpaid.com/my/spoon") = "https://underpaid.com".
Proof. repeat split; vm_compute; reflexivity. Qed.

Example search_and_hash :
  (pathname (parsePath "/mypath"), search (parsePath "/mypath")) = ("/mypath", "") /\
  (pathname (parsePath "/mypath?"), search (parsePath "/mypath?")) = ("/mypath", "") /\
  (pathname (parsePath "/mypath?mySearch"), search (parsePath "/mypath?mySearch")) = ("/mypath", "?mySearch") /\
  (pathname (parsePath "/mypath#"), hash (parsePath "/mypath#")) = ("/mypath", "") /\
  (pathname (parsePath "/mypath#myhash"), hash (parsePath "/mypath#myhash")) = ("/mypath", "#myhash") /\
  hash (parsePath "http://foo.bar#hashyhash") = "#hashyhash".
Proof. repeat split; vm_compute; reflexivity. Qed.

Example all_components :
  let l := parsePath "http://www.underpaid.com:5678/mypath/subpath?mySearch#myhash" in
  (protocol l, hostName l, port l, pathname l, search l, hash l) =
  ("http:", "www.underpaid.com", "5678", "/mypath/subpath", "?mySearch", "#myhash").
Proof. vm_compute. reflexivity. Qed.

(** A fragment with a character outside [\w], such as [-], makes the
    whole pattern fail: every part of the location is empty. *)
Example dash_in_hash :
  let l := parsePath "/docs/page?x=1#section-2" in
  (href l, pathname l, search l, hash l) = ("", "", "", "").
Proof. vm_compute. reflexivity. Qed.

Lemma parsePath_relative_witness :
  ParsePathFacts.pathOk "/docs/page" = true /\ ParsePathFacts.queryOk "?x=1" = true /\
  ParsePathFacts.hashOk "#sec" = true /\
  pathname (parsePath ("/docs/page" ++ "?x=1" ++ "#sec")) = "/docs/page" /\
  search (parsePath ("/docs/page" ++ "?x=1" ++ "#sec")) = "?x=1".
Proof.
  assert (Hp : ParsePathFacts.pathOk "/docs/page" = true) by reflexivity.
  assert (Hq : ParsePathFacts.queryOk "?x=1" = true) by reflexivity.
  assert (Hh : ParsePathFacts.hashOk "#sec" = true) by reflexivity.
  destruct (ParsePathFacts.parsePath_relative _ _ _ Hp Hq Hh) as (_ & _ & _ & _ & _ & E4 & E5 & _).
  exact (conj Hp (conj Hq (conj Hh (conj E4 E5)))).
Defined.

End ParsePathTests.
