(* ===== verification/StaticMarkup.v ===== *)
(** * The PDF layout components ([src/src/Pdf/]), [NavigationItem] and [Tooltip]

      [Pdf], [PdfPage], [PdfHeader], [PdfContent], [PdfFooter],
      [CoverPageDetail] and [CoverPage] are functions of their props that
      return markup; so are [ContentNavigation/NavigationItem] and
      [Tooltip], whose [<ReactTooltip>] is kept as an element with the
      props it is given.  Their output is modelled as a tree of elements
      with their attributes in source order ([Dom.Node]); a child
      component is modelled by what it renders.  A JSX child [{x}] renders
      nothing for [undefined], a string as its text and a number as
      [Number::toString] of it (a parameter); [{s && <X/>}] for a string
      [s] renders the element when [s] is not empty and the empty text
      otherwise.

      The computed class names [buildClassString({base: true, [className]:
      !!className})] are StringUtils.v's [buildClassString] over the object
      the literal builds ([objectLiteral]): the key of [undefined] is the
      string ["undefined"], and a key written twice keeps its first
      position and takes its last value.  The theorems give the class of
      each root, and what the cover page shows: its details in order, one
      footer, numbered 1. *)

From Stdlib Require Import QArith Qround List String Ascii Bool Arith Lia.
From S2P Require Import Prelude StringUtils CurrencyUtils.
Import ListNotations.
Open Scope string_scope.
Open Scope list_scope.

Module Dom.

(** A text node, or an element with its tag, its attributes in source
    order and its children. *)
Inductive Node : Type :=
| Text (s : string)
| Elem (tag : string) (attrs : list (string * string)) (children : list Node).

Definition cls (c : string) : string * string := ("className", c).

(** An attribute whose value may be [undefined]: React leaves it out. *)
Definition optAttr (k : string) (o : option string) : list (string * string) :=
  match o with Some v => [(k, v)] | None => [] end.

(** [{s}] for a string that may be [undefined]. *)
Definition strChild (o : option string) : list Node :=
  match o with Some s => [Text s] | None => [] end.

(** [{s && <X/>}] for a string that may be [undefined]. *)
Definition andStr (o : option string) (x : string -> Node) : list Node :=
  match o with
  | None => []
  | Some EmptyString => [Text ""]
  | Some s => [x s]
  end.

(** [a || ''] for a string that may be [undefined]. *)
Definition orEmptyString (o : option string) : string := match o with Some s => s | None => "" end.

Definition getAttribute (k : string) (n : Node) : option string :=
  match n with
  | Elem _ attrs _ => option_map snd (find (fun kv => String.eqb (fst kv) k) attrs)
  | Text _ => None
  end.

Definition hasClass (c : string) (attrs : list (string * string)) : bool :=
  existsb (fun kv => String.eqb (fst kv) "className" && String.eqb (snd kv) c) attrs.

(** The elements whose [className] is [c], in document order. *)
Fixpoint byClass (c : string) (n : Node) : list Node :=
  match n with
  | Text _ => []
  | Elem _ attrs cs => (if hasClass c attrs then [n] else []) ++ flat_map (byClass c) cs
  end.

Definition texts (n : Node) : list string :=
  match n with
  | Elem _ _ cs => flat_map (fun c => match c with Text s => [s] | _ => [] end) cs
  | Text _ => []
  end.

End Dom.

Module ClassNames.
Import Tokens.

(** [ToPropertyKey] of a computed key that is a string or [undefined]. *)
Definition propertyKey (o : option string) : string :=
  match o with Some s => s | None => "undefined" end.

(** [!!className]. *)
Definition strTruthy (o : option string) : bool :=
  match o with Some s => negb (String.eqb s "") | None => false end.

(** The own properties an object literal creates, in order: a key written
    again keeps its position and takes the new value. *)
Definition objectLiteral (props : list (string * bool)) : list (string * bool) :=
  fold_left (fun acc kv =>
    if existsb (fun kv' => String.eqb (fst kv') (fst kv)) acc
    then map (fun kv' => if String.eqb (fst kv') (fst kv) then kv else kv') acc
    else acc ++ [kv]) props [].

End ClassNames.

(** ** [Pdf/PdfFooter] *)
Module PdfFooter.
Import Dom.

(** [strings.reportDateLabel] ([PdfFooter/strings.ts]). *)
Definition reportDateLabel : string := "Report Date:".

(** [&nbsp;]. *)
Definition nbsp : string := String (ascii_of_nat 160) "".

Record PdfFooterProps : Type := mkProps {
  formattedDate : string;
  footerImagePath : option string;
  footerImageAltText : option string;
  pageNumber : option num
}.

Section Render.
Variable numberToString : num -> string.

(** [PdfFooter] (lines 12-38). *)
Definition render (p : PdfFooterProps) : Node :=
  Elem "div" [cls "pdf-footer"]
    (Elem "div" [cls "pdf-footer__meta"]
       (match pageNumber p with Some x => [Text (numberToString x)] | None => [] end ++
        [Elem "span" [cls "pdf-footer__divider"] [];
         Text reportDateLabel; Text nbsp;
         Elem "span" [cls "pdf-footer__date"] [Text (formattedDate p)]])
     :: andStr (footerImagePath p) (fun path =>
          Elem "div" [cls "pdf-footer__logo"]
            [Elem "img" [("src", path); ("alt", orEmptyString (footerImageAltText p))] []])).

End Render.
End PdfFooter.

(** ** [Pdf/CoverPageDetail] *)
Module CoverPageDetail.
Import Dom.

(** The props as the cover page passes them, read from a dictionary of
    strings: each may be [undefined]. *)
Record CoverPageDetailProps : Type := mkProps {
  icon : option string;
  name : option string;
  value : option string
}.

(** [CoverPageDetail] (lines 10-25). *)
Definition render (p : CoverPageDetailProps) : Node :=
  Elem "div" [cls "cover-page-detail"]
    [Elem "div" [cls "cover-page-detail__icon"] [Elem "i" (optAttr "className" (icon p)) []];
     Elem "div" [cls "cover-page-detail__name"] (strChild (name p));
     Elem "div" [cls "cover-page-detail__value"] (strChild (value p))].

End CoverPageDetail.

(** ** [Pdf/PdfHeader], [Pdf/PdfPage], [Pdf/PdfContent], [Pdf/Pdf] *)
Module PdfHeader.
Import Dom ClassNames Tokens.

(** [PdfHeader] (lines 9-21); [children], when [undefined], renders
    nothing. *)
Definition render (className : option string) (children : list Node) : Node :=
  Elem "div" [cls (buildClassString (objectLiteral [("pdf-header", true);
                                                    (propertyKey className, strTruthy className)]))]
    children.

End PdfHeader.

Module PdfPage.
Import Dom ClassNames Tokens.

(** [PdfPage] (lines 10-24). *)
Definition render (className : option string) (children : list Node) : Node :=
  Elem "div" [cls (buildClassString (objectLiteral [("pdf-page", true);
                                                    (propertyKey className, strTruthy className)]))]
    [Elem "div" [cls "pdf-page__inner"] children].

End PdfPage.

Module PdfContent.
Import Dom.

(** [PdfContent] (lines 7-13). *)
Definition render (children : list Node) : Node := Elem "div" [cls "pdf-content"] children.

End PdfContent.

Module Pdf.
Import Dom ClassNames Tokens.

(** [Pdf] (lines 10-22). *)
Definition render (className : option string) (children : list Node) : Node :=
  Elem "div" [cls (buildClassString (objectLiteral [("pdf", true);
                                                    (propertyKey className, strTruthy className)]))]
    children.

End Pdf.

(** ** [Pdf/CoverPage] *)
Module CoverPage.
Import Dom.

(** [CoverPageItems]: a dictionary of strings, as its own properties. *)
Definition CoverPageItems : Type := list (string * string).

Definition prop (d : CoverPageItems) (k : string) : option string :=
  option_map snd (find (fun kv => String.eqb (fst kv) k) d).

Record CoverPageProps : Type := mkProps {
  formattedDate : string;
  title : option string;
  footerImagePath : option string;
  footerImageAltText : option string;
  logoPath : option string;
  subtitle : option string;
  coverPageDetails : option (list CoverPageItems);
  children : list Node
}.

(** One [<CoverPageDetail>] of the [coverPageDetails.map] (lines 57-65). *)
Definition detail (d : CoverPageItems) : Node :=
  CoverPageDetail.render (CoverPageDetail.mkProps (prop d "icon") (prop d "name") (prop d "value")).

Section Render.
Variable numberToString : num -> string.

(** [CoverPage] (lines 24-81): the array [coverPageDetails], when given,
    is truthy even when empty. *)
Definition render (p : CoverPageProps) : Node :=
  PdfPage.render (Some "cover-page")
    (andStr (logoPath p) (fun path =>
       PdfHeader.render (Some "cover-page__header") [Elem "img" [("src", path); ("alt", "")] []]) ++
     [PdfContent.render
        (andStr (title p) (fun t => Elem "div" [cls "cover-page__title"] [Text t]) ++
         andStr (subtitle p) (fun t => Elem "div" [cls "cover-page__subtitle"] [Text t]) ++
         [Elem "div" [cls "cover-page__separator"] []] ++
         match coverPageDetails p with
         | Some ds => [Elem "div" [cls "cover-page__details"] (map detail ds)]
         | None => []
         end ++
         [Elem "div" [cls "cover-page__content"] (children p)]);
      PdfFooter.render numberToString
        (PdfFooter.mkProps (formattedDate p) (footerImagePath p) (footerImageAltText p) (Some (Fin 1%Q)))]).

End Render.
End CoverPage.

(** ** [ContentNavigation/NavigationItem] *)
Module NavigationItem.
Import Dom.

Record NavigationItemProps : Type := mkProps {
  title : string;
  active : option bool;
  children : list Node
}.

(** [NavigationItem] (lines 9-22): the link's class is the template
    [`nav-pageitem__link ${active ? 'active' : ''}`]. *)
Definition render (p : NavigationItemProps) : Node :=
  Elem "div" [cls "nav-pageitem"]
    (Elem "a" [("href", String.append "#" (title p));
               cls (String.append "nav-pageitem__link "
                      (if match active p with Some b => b | None => false end then "active" else ""))]
       [Text (title p)]
     :: children p).

End NavigationItem.

(** ** [Tooltip] *)
Module Tooltip.
Import Dom ClassNames Tokens.

(** [TooltipProps] (lines 6-17); [content] is what it renders, the
    [react-tooltip] enumerations are strings. *)
Record TooltipProps : Type := mkProps {
  id : string;
  content : list Node;
  wrapperClassName : option string;
  tooltipClassName : option string;
  place : option string;
  effect : option string;
  event : option string;
  type_ : option string;
  border : option bool
}.

(** [s || d] for a string that may be [undefined]. *)
Definition orDefault (o : option string) (d : string) : string :=
  match o with Some (String _ _ as s) => s | _ => d end.

(** [render] (lines 24-56): the wrapper [div] around the children, then
    the [<ReactTooltip>] element with the props it is given. *)
Definition render (p : TooltipProps) (children : list Node) : list Node :=
  let wrapperClassString :=
    buildClassString (objectLiteral [("tooltip__wrapper", true);
                                     (propertyKey (wrapperClassName p), strTruthy (wrapperClassName p))]) in
  let tooltipClassString :=
    buildClassString (objectLiteral [("tooltip__wrapper", true);
                                     ("tooltip__default", negb (strTruthy (tooltipClassName p)));
                                     (propertyKey (tooltipClassName p), strTruthy (tooltipClassName p))]) in
  [Elem "div" [cls wrapperClassString; ("data-tip", ""); ("data-for", id p)] children;
   Elem "ReactTooltip"
     [("id", id p); cls tooltipClassString; ("place", orDefault (place p) "top");
      ("effect", orDefault (effect p) "float"); ("event", orDefault (event p) "");
      ("border", match border p with Some false => "false" | _ => "true" end);
      ("type", orDefault (type_ p) "light")]
     (content p)].

End Tooltip.

(** ** Class names *)
Module ClassFacts.
Import Dom ClassNames Tokens.

(** The words of the class a root built with [base] gets. *)
Definition classList (base : string) (className : option string) : list string :=
  match className with
  | Some k =>
      if String.eqb k "" || String.eqb k base then [base]
      else if isArrayIndex k then [k; base] else [base; k]
  | None => [base]
  end.

Lemma objectLiteral_two a b (x y : bool) :
  objectLiteral [(a, x); (b, y)] = if String.eqb a b then [(b, y)] else [(a, x); (b, y)].
Proof. unfold objectLiteral; cbn. destruct (String.eqb a b); reflexivity. Qed.

Lemma undefined_not_index : isArrayIndex "undefined" = false.
Proof. reflexivity. Qed.

Lemma buildClassString_one b y : isArrayIndex b = false ->
  buildClassString [(b, y)] = String.concat " " (if y then [b] else []).
Proof.
  intros Hb. unfold buildClassString, objectKeys; cbn [map fst filter fold_right find snd].
  rewrite Hb; cbn [negb app filter find fst fold_right]. rewrite String.eqb_refl. now destruct y.
Qed.

Lemma buildClassString_two a b y : a <> b -> isArrayIndex a = false ->
  buildClassString [(a, true); (b, y)] =
  String.concat " " (if isArrayIndex b then (if y then [b] else []) ++ [a] else a :: (if y then [b] else [])).
Proof.
  intros Hne Ha. unfold buildClassString, objectKeys; cbn [map fst filter fold_right].
  rewrite Ha. destruct (isArrayIndex b); cbn [negb app filter fold_right insertByValue find fst snd];
    rewrite ?String.eqb_refl, (proj2 (String.eqb_neq a b) Hne), ?String.eqb_refl; now destruct y.
Qed.

Lemma base_class base c :
  isArrayIndex base = false -> base <> "undefined" ->
  buildClassString (objectLiteral [(base, true); (propertyKey c, strTruthy c)]) =
  String.concat " " (classList base c).
Proof.
  intros Hb Hu. rewrite objectLiteral_two.
  destruct c as [k|]; cbn [propertyKey strTruthy classList].
  2:{ rewrite (proj2 (String.eqb_neq _ _) Hu), buildClassString_two, undefined_not_index by assumption.
      reflexivity. }
  destruct (String.eqb_spec base k) as [<-|Hne].
  - rewrite String.eqb_refl, orb_true_r, buildClassString_one by exact Hb.
    destruct (String.eqb_spec base "") as [->|]; reflexivity.
  - rewrite (proj2 (String.eqb_neq k base)) by congruence. rewrite orb_false_r, buildClassString_two by assumption.
    destruct (String.eqb_spec k "") as [->|]; cbn [negb].
    + reflexivity.
    + destruct (isArrayIndex k); reflexivity.
Qed.


(** For every [className] (a string, empty or not, or [undefined]),
    the root of [Pdf], [PdfPage] and [PdfHeader] has the component's own
    class, then [className] when it is a non-empty string other than that
    class; a [className] that is a canonical array index, such as ["2"],
    comes before the component's class, because [Object.keys] lists
    integer keys first. *)
Theorem pdf_root_classes c children :
  getAttribute "className" (Pdf.render c children) = Some (String.concat " " (classList "pdf" c)) /\
  getAttribute "className" (PdfPage.render c children) = Some (String.concat " " (classList "pdf-page" c)) /\
  getAttribute "className" (PdfHeader.render c children) = Some (String.concat " " (classList "pdf-header" c)).
Proof.
  unfold Pdf.render, PdfPage.render, PdfHeader.render; cbn [getAttribute find fst snd option_map].
  rewrite !base_class by (reflexivity || discriminate). auto.
Qed.

(** The wrapper [Tooltip] puts around its children has the class
    [tooltip__wrapper] and [wrapperClassName] as [Pdf] has [pdf] and its
    [className]. *)
Lemma tooltip_wrapper_class p children :
  map (getAttribute "className") (firstn 1 (Tooltip.render p children)) =
  [Some (String.concat " " (classList "tooltip__wrapper" (Tooltip.wrapperClassName p)))].
Proof.
  unfold Tooltip.render; cbn [firstn map getAttribute find fst snd option_map].
  rewrite base_class by (reflexivity || discriminate). reflexivity.
Qed.

End ClassFacts.

(** ** What the cover page shows *)
Module CoverFacts.
Import Dom CoverPage.

(** No element the owner passes, and no detail's [icon], has class [k]. *)
Definition foreignTo (k : string) (p : CoverPageProps) : Prop :=
  (forall n, In n (children p) -> byClass k n = []) /\
  (forall ds d, coverPageDetails p = Some ds -> In d ds -> prop d "icon" <> Some k).

Lemma flat_map_nil {A B} (f : A -> list B) l : (forall x, In x l -> f x = []) -> flat_map f l = [].
Proof. induction l as [|x l IH]; intros H; cbn; [reflexivity|]. rewrite H, IH; cbn; auto with datatypes. Qed.

Lemma byClass_andStr k o f : (forall s, byClass k (f s) = []) -> flat_map (byClass k) (andStr o f) = [].
Proof. intros H. destruct o as [[|c s]|]; cbn; rewrite ?H; reflexivity. Qed.

Lemma hasClass_icon k icon : icon <> Some k -> hasClass k (optAttr "className" icon) = false.
Proof.
  intros H. destruct icon as [s|]; [|reflexivity]. cbn.
  destruct (String.eqb_spec s k); [congruence|]. reflexivity.
Qed.

Lemma hasClass_cls k c : hasClass k [cls c] = String.eqb c k.
Proof. cbn. now rewrite orb_false_r. Qed.

Lemma byClass_strChild k o : flat_map (byClass k) (strChild o) = [].
Proof. now destruct o. Qed.

Lemma detail_name d : prop d "icon" <> Some "cover-page-detail__name" ->
  byClass "cover-page-detail__name" (detail d) =
  [Elem "div" [cls "cover-page-detail__name"] (strChild (prop d "name"))].
Proof.
  intros H. unfold detail, CoverPageDetail.render; cbn [byClass flat_map app CoverPageDetail.icon CoverPageDetail.name CoverPageDetail.value].
  rewrite hasClass_icon, !hasClass_cls, !byClass_strChild by exact H. reflexivity.
Qed.

Lemma detail_meta d : prop d "icon" <> Some "pdf-footer__meta" -> byClass "pdf-footer__meta" (detail d) = [].
Proof.
  intros H. unfold detail, CoverPageDetail.render; cbn [byClass flat_map app CoverPageDetail.icon CoverPageDetail.name CoverPageDetail.value].
  rewrite hasClass_icon, !hasClass_cls, !byClass_strChild by exact H. reflexivity.
Qed.

(** The classes of the elements [CoverPage] writes itself, the footer
    apart. *)
Definition coverClasses : list string :=
  ["pdf-page cover-page"; "pdf-page__inner"; "pdf-header cover-page__header"; "pdf-content";
   "cover-page__title"; "cover-page__subtitle"; "cover-page__separator"; "cover-page__details";
   "cover-page__content"].

Definition detailNodes (p : CoverPageProps) : list Node :=
  match coverPageDetails p with Some ds => map detail ds | None => [] end.

Definition footerProps (p : CoverPageProps) : PdfFooter.PdfFooterProps :=
  PdfFooter.mkProps (formattedDate p) (footerImagePath p) (footerImageAltText p) (Some (Fin 1%Q)).

Lemma notin_eqb c k l : ~ In k l -> In c l -> String.eqb c k = false.
Proof. intros H Hc. apply String.eqb_neq. intros ->. contradiction. Qed.

Lemma cover_page_root ch :
  PdfPage.render (Some "cover-page") ch = Elem "div" [cls "pdf-page cover-page"] [Elem "div" [cls "pdf-page__inner"] ch].
Proof. reflexivity. Qed.

Lemma cover_page_header ch :
  PdfHeader.render (Some "cover-page__header") ch = Elem "div" [cls "pdf-header cover-page__header"] ch.
Proof. reflexivity. Qed.

Ltac own_classes H :=
  repeat progress (cbn [byClass flat_map app]; rewrite ?flat_map_app, ?app_nil_r);
  rewrite ?hasClass_cls, ?(notin_eqb _ _ _ H) by (cbn; tauto); cbn [app].

Lemma render_byClass k nts p : ~ In k coverClasses ->
  byClass k (render nts p) =
  flat_map (byClass k) (detailNodes p) ++ flat_map (byClass k) (children p) ++
  byClass k (PdfFooter.render nts (footerProps p)).
Proof.
  intros H. unfold render. rewrite cover_page_root. unfold PdfContent.render.
  own_classes H.
  rewrite !byClass_andStr.
  - unfold detailNodes, footerProps. destruct (coverPageDetails p); own_classes H; now rewrite <-?app_assoc.
  - intros s. own_classes H. reflexivity.
  - intros s. own_classes H. reflexivity.
  - intros s. rewrite cover_page_header. own_classes H. reflexivity.
Qed.

Lemma footer_name nts q : byClass "cover-page-detail__name" (PdfFooter.render nts q) = [].
Proof.
  unfold PdfFooter.render. cbn [byClass flat_map app].
  rewrite byClass_andStr by reflexivity. destruct (PdfFooter.pageNumber q); reflexivity.
Qed.

Lemma footer_meta nts q :
  byClass "pdf-footer__meta" (PdfFooter.render nts q) =
  [Elem "div" [cls "pdf-footer__meta"]
     (match PdfFooter.pageNumber q with Some x => [Text (nts x)] | None => [] end ++
      [Elem "span" [cls "pdf-footer__divider"] []; Text PdfFooter.reportDateLabel; Text PdfFooter.nbsp;
       Elem "span" [cls "pdf-footer__date"] [Text (PdfFooter.formattedDate q)]])].
Proof.
  unfold PdfFooter.render. cbn [byClass flat_map app].
  rewrite byClass_andStr by reflexivity. destruct (PdfFooter.pageNumber q); reflexivity.
Qed.

Lemma details_names ds : (forall d, In d ds -> prop d "icon" <> Some "cover-page-detail__name") ->
  flat_map texts (flat_map (byClass "cover-page-detail__name") (map detail ds)) =
  flat_map (fun d => match prop d "name" with Some s => [s] | None => [] end) ds.
Proof.
  induction ds as [|d ds IH]; intros Hi; [reflexivity|].
  cbn [map flat_map]. rewrite flat_map_app, detail_name, IH by (intros; apply Hi; cbn; auto).
  destruct (prop d "name"); reflexivity.
Qed.

Lemma details_meta ds : (forall d, In d ds -> prop d "icon" <> Some "pdf-footer__meta") ->
  flat_map (byClass "pdf-footer__meta") (map detail ds) = [].
Proof.
  induction ds as [|d ds IH]; intros Hi; [reflexivity|].
  cbn [map flat_map]. rewrite detail_meta, IH by (intros; apply Hi; cbn; auto). reflexivity.
Qed.

(** On the cover page, the details show their names in the order of
    [coverPageDetails], one for each entry that has a [name], and the
    page has one footer, whose meta line reads page number 1 and the
    report date label; this holds as long as neither the owner's children
    nor a detail's [icon] use the class looked for. *)
Theorem cover_page_shows nts p :
  foreignTo "cover-page-detail__name" p -> foreignTo "pdf-footer__meta" p ->
  (flat_map texts (byClass "cover-page-detail__name" (render nts p)) =
    match coverPageDetails p with
    | Some ds => flat_map (fun d => match prop d "name" with Some s => [s] | None => [] end) ds
    | None => []
    end) /\
  map texts (byClass "pdf-footer__meta" (render nts p)) =
    [[nts (Fin 1%Q); PdfFooter.reportDateLabel; PdfFooter.nbsp]].
Proof.
  intros [Hc1 Hi1] [Hc2 Hi2].
  rewrite !render_byClass by (cbn; intuition discriminate).
  rewrite footer_name, footer_meta, (flat_map_nil _ (children p) Hc1), (flat_map_nil _ (children p) Hc2).
  unfold detailNodes. destruct (coverPageDetails p) as [ds|]; [|split; reflexivity].
  rewrite details_meta by (intros; apply (Hi2 ds); auto). split; [|reflexivity].
  rewrite !app_nil_r. apply details_names. intros; apply (Hi1 ds); auto.
Qed.

End CoverFacts.

Module StaticMarkupTests.
Import Dom ClassFacts CoverPage CoverFacts.

(** [Number::toString] of the whole numbers the tests use. *)
Definition nts (x : num) : string :=
  match x with Fin q => Currency.showZ (Qfloor q) | NaN => "NaN" | PosInf => "Infinity" | NegInf => "-Infinity" end.

Definition cover (logo title subtitle : option string) (details : option (list CoverPageItems)) : CoverPageProps :=
  mkProps "1/2/03" title (Some "qwerty") (Some "aaaaa") logo subtitle details [Elem "div" [cls "meh"] []].

Definition count (k : string) (p : CoverPageProps) : nat := List.length (byClass k (render nts p)).

(** [CoverPage]'s tests. *)
Example cover_page_tests :
  count "pdf-header cover-page__header" (cover (Some "") None None None) = 0%nat /\
  count "pdf-header cover-page__header" (cover (Some "logo") None None None) = 1%nat /\
  count "cover-page__title" (cover None None None None) = 0%nat /\
  map texts (byClass "cover-page__title" (render nts (cover None (Some "title") None None))) = [["title"]] /\
  map texts (byClass "cover-page__subtitle" (render nts (cover None None (Some "subtitle") None))) = [["subtitle"]] /\
  count "cover-page__details" (cover None None None None) = 0%nat /\
  count "cover-page-detail" (cover None None None (Some [[("name", "a"); ("value", "b"); ("icon", "c")]])) = 1%nat /\
  map texts (byClass "pdf-footer__date" (render nts (cover None None None None))) = [["1/2/03"]] /\
  map (getAttribute "src") (byClass "img" (render nts (cover None None None None))) = [] /\
  map (fun n => match n with Elem _ _ [Elem _ attrs _] => attrs | _ => [] end)
    (byClass "pdf-footer__logo" (render nts (cover None None None None))) = [[("src", "qwerty"); ("alt", "aaaaa")]].
Proof. repeat split; vm_compute; reflexivity. Qed.

(** [CoverPageDetail]'s, [PdfFooter]'s and the class tests of [Pdf],
    [PdfPage] and [PdfHeader]. *)
Example component_tests :
  let d := CoverPageDetail.render (CoverPageDetail.mkProps (Some "icon-ok") (Some "Department") (Some "Product")) in
  map texts (byClass "cover-page-detail__name" d) = [["Department"]] /\
  map texts (byClass "cover-page-detail__value" d) = [["Product"]] /\
  map (getAttribute "className") (flat_map (fun n => match n with Elem _ _ cs => cs | _ => [] end)
                                           (byClass "cover-page-detail__icon" d)) = [Some "icon-ok"] /\
  map texts (byClass "pdf-footer__meta" (PdfFooter.render nts (PdfFooter.mkProps "1/2/03" None None (Some (Fin 123%Q))))) =
    [["123"; PdfFooter.reportDateLabel; PdfFooter.nbsp]] /\
  List.length (byClass "pdf-footer__logo" (PdfFooter.render nts (PdfFooter.mkProps "1/2/03" (Some "") None None))) = 0%nat /\
  List.length (byClass "pdf-footer__logo" (PdfFooter.render nts (PdfFooter.mkProps "1/2/03" (Some "asdf") None None))) = 1%nat /\
  getAttribute "className" (Pdf.render (Some "test") []) = Some "pdf test" /\
  getAttribute "className" (Pdf.render None []) = Some "pdf" /\
  getAttribute "className" (PdfPage.render (Some "test") []) = Some "pdf-page test" /\
  getAttribute "className" (PdfHeader.render (Some "test") []) = Some "pdf-header test" /\
  getAttribute "className" (Pdf.render (Some "2") []) = Some "2 pdf" /\
  getAttribute "className" (Pdf.render (Some "pdf") []) = Some "pdf".
Proof. repeat split; vm_compute; reflexivity. Qed.

(** [NavigationItem]: the link targets the title's anchor; an inactive
    item's class ends in a space. *)
Example navigation_item_tests :
  NavigationItem.render (NavigationItem.mkProps "Summary" (Some true) []) =
    Elem "div" [cls "nav-pageitem"]
      [Elem "a" [("href", "#Summary"); cls "nav-pageitem__link active"] [Text "Summary"]] /\
  getAttribute "className" (match NavigationItem.render (NavigationItem.mkProps "Summary" None []) with
                            | Elem _ _ (a :: _) => a | n => n end) = Some "nav-pageitem__link ".
Proof. split; vm_compute; reflexivity. Qed.

Definition tooltip (wrapper tip : option string) (place : option string) (border : option bool) : list Node :=
  Tooltip.render (Tooltip.mkProps "tip-1" [Text "Hi"] wrapper tip place None None None border) [Text "?"].

Definition tooltipAttrs (ns : list Node) : list (string * string) :=
  match ns with [_; Elem _ attrs _] => attrs | _ => [] end.

(** [Tooltip]: the wrapper's and the tooltip's classes, and the defaults
    of the props it passes to [react-tooltip]; the tooltip element gets
    the wrapper's class [tooltip__wrapper] too. *)
Example tooltip_tests :
  map (getAttribute "className") (tooltip None None None None) =
    [Some "tooltip__wrapper"; Some "tooltip__wrapper tooltip__default"] /\
  map (getAttribute "className") (tooltip (Some "w") (Some "t") None None) =
    [Some "tooltip__wrapper w"; Some "tooltip__wrapper t"] /\
  map (getAttribute "className") (tooltip None (Some "tooltip__default") None None) =
    [Some "tooltip__wrapper"; Some "tooltip__wrapper tooltip__default"] /\
  map (getAttribute "className") (tooltip None (Some "") None None) =
    [Some "tooltip__wrapper"; Some "tooltip__wrapper tooltip__default"] /\
  map (getAttribute "className") (tooltip None (Some "7") None None) =
    [Some "tooltip__wrapper"; Some "7 tooltip__wrapper"] /\
  tooltipAttrs (tooltip None None None None) =
    [("id", "tip-1"); cls "tooltip__wrapper tooltip__default"; ("place", "top"); ("effect", "float");
     ("event", ""); ("border", "true"); ("type", "light")] /\
  getAttribute "place" (Elem "" (tooltipAttrs (tooltip None None (Some "") (Some false))) []) = Some "top" /\
  getAttribute "border" (Elem "" (tooltipAttrs (tooltip None None (Some "left") (Some false))) []) = Some "false" /\
  map (getAttribute "data-for") (firstn 1 (tooltip None None None None)) = [Some "tip-1"].
Proof. repeat split; vm_compute; reflexivity. Qed.

Definition detailed : CoverPageProps :=
  cover (Some "logo") (Some "title") None (Some [[("icon", "icon-ok"); ("name", "Department"); ("value", "Product")];
                                               [("name", "Location")]]).

Lemma detailed_foreign k : k <> "icon-ok" -> k <> "meh" -> foreignTo k detailed.
Proof.
  intros H1 H2. split.
  - intros n [<-|[]]. cbn [byClass flat_map app].
    rewrite hasClass_cls, (proj2 (String.eqb_neq "meh" k)) by congruence. reflexivity.
  - intros ds d E Hd. injection E as <-. destruct Hd as [<-|[<-|[]]]; cbn; congruence.
Qed.

Lemma cover_page_shows_witness :
  foreignTo "cover-page-detail__name" detailed /\ foreignTo "pdf-footer__meta" detailed /\
  (flat_map texts (byClass "cover-page-detail__name" (render nts detailed)) = ["Department"; "Location"] /\
   map texts (byClass "pdf-footer__meta" (render nts detailed)) = [["1"; PdfFooter.reportDateLabel; PdfFooter.nbsp]]).
Proof.
  assert (F1 : foreignTo "cover-page-detail__name" detailed) by (apply detailed_foreign; discriminate).
  assert (F2 : foreignTo "pdf-footer__meta" detailed) by (apply detailed_foreign; discriminate).
  split; [exact F1|]. split; [exact F2|].
  exact (cover_page_shows nts detailed F1 F2).
Defined.

End StaticMarkupTests.
