(* ===== verification/CardStrings.v ===== *)
(** * The cards' [strings.ts] files on the shared string manager

      Every card of [src/src/EmployeeDetailsCards] and the Pdf footer has a
      [strings.ts] that, when imported, loads an object literal of its
      defaults into the singleton of [src/src/Strings/index.ts] under its
      [moduleName] and keeps the object it reads back
      ([const moduleStrings = stringManager[moduleName]]); the component
      renders from that object.  [StringsFile] is such a file, [importFile]
      its evaluation on StringManager.v's heap model, [importAll] the
      evaluation of several in an import order.  The repository does not
      fix that order ([src/src/index.ts] re-exports a directory without an
      index), so the theorems hold for every order.

      The literals are built from the constants the render models of
      DetailCards.v, PayHistory.v and StaticMarkup.v use, so a component
      that sees its literal renders what those models render.

      CompensationCard and TotalCashCompensationCard both load under
      ['eeCompensationCard']: the manager keeps the object of whichever is
      imported last, and an [override] of that name reaches that card
      only. *)

From stdpp Require Import base gmap strings list sets.
From Stdlib Require Import QArith Sorting.Permutation.
From S2P Require Import JsObject PayRange StringManager DetailCards PayHistory StaticMarkup.
Open Scope string_scope.
Local Close Scope Q_scope.
Local Open Scope list_scope.

Module CardStrings.
Import SM.

(** A [strings.ts]: its [moduleName] and the literal it loads, in the
    order the source writes it. *)
Record StringsFile : Type := mkStringsFile {
  moduleName : string;
  pairs : list (string * string)
}.

Definition literal (f : StringsFile) : StrObj := list_to_map (pairs f).

(** [EmployeeDetailsCard/strings.ts] (lines 4-29). *)
Definition eeDetailsCard : StringsFile :=
  mkStringsFile "eeDetailsCard"
    [("department", EmployeeDetails.S.department); ("email", EmployeeDetails.S.email);
     ("employeeId", EmployeeDetails.S.employeeId); ("hireDate", EmployeeDetails.S.hireDate);
     ("location", EmployeeDetails.S.location); ("manager", EmployeeDetails.S.manager)].

(** [PerformanceRatingCard/strings.ts] (lines 4-25). *)
Definition performanceRatingCard : StringsFile :=
  mkStringsFile "performanceRatingCard"
    [("cardTitle", PerformanceRating.cardTitle); ("descriptionPrefix", PerformanceRating.descriptionPrefix);
     ("descriptionSuffix", PerformanceRating.descriptionSuffix); ("thisEmployee", PerformanceRating.thisEmployee)].

(** [CompensationCard/strings.ts] (lines 4-27). *)
Definition compensationCard : StringsFile :=
  mkStringsFile "eeCompensationCard"
    [("cardTitle", Compensation.cardTitle); ("noPayData", Compensation.noPayData);
     ("notApplicable", Compensation.notApplicable); ("payEffectiveDate", Compensation.payEffectiveDateText);
     ("perHour", Compensation.perHour)].

(** [TotalCashCompensationCard/strings.ts] (lines 4-23): the same
    [moduleName] as CompensationCard's. *)
Definition totalCashCard : StringsFile :=
  mkStringsFile "eeCompensationCard"
    [("cardTitle", TotalCash.cardTitle); ("description", TotalCash.description);
     ("notApplicable", TotalCash.notApplicable)].

(** [PayHistorySummaryCard/strings.ts] (lines 3-22). *)
Definition payHistorySummaryCard : StringsFile :=
  mkStringsFile "payHistorySummaryCard"
    [("descriptionIncrease", SummaryCard.descriptionIncrease);
     ("descriptionDecrease", SummaryCard.descriptionDecrease);
     ("percentageIncrease", SummaryCard.percentageIncrease);
     ("percentageDecrease", SummaryCard.percentageDecrease); ("noChange", SummaryCard.noChange)].

(** [MarketTrendsCard/strings.ts] (lines 4-23). *)
Definition marketTrendsCard : StringsFile :=
  mkStringsFile "marketTrendsCard"
    [("cardTitle", "Market Trends"); ("dateRangeBlurb", "Total change in pay since");
     ("jobTitleBlurb", "Based on PayScale job title {0}")].

(** [RangePenetrationCard/strings.ts] (lines 4-25). *)
Definition rangePenetrationCard : StringsFile :=
  mkStringsFile "rangePenetrationCard"
    [("blurb", "How far into the job's range has their pay progressed?");
     ("cardTitle", "Range Penetration"); ("max", "Max"); ("min", "Min")].

(** [MarketSnapshotCard/strings.ts] (lines 4-32). *)
Definition marketSnapshotCard : StringsFile :=
  let s := MarketSnapshot.defaultStrings in
  mkStringsFile "marketSnapshotCard"
    [("basePayHeader", MarketSnapshot.basePayHeader s); ("cardTitle", MarketSnapshot.cardTitle s);
     ("description", MarketSnapshot.description s); ("percentile25th", MarketSnapshot.percentile25th s);
     ("percentile50th", MarketSnapshot.percentile50th s); ("percentile75th", MarketSnapshot.percentile75th s);
     ("tccHeader", MarketSnapshot.tccHeader s)].

(** [RangeDistributionCard/strings.ts], whose literal StringManager.v has. *)
Definition rangeDistributionCard : StringsFile :=
  mkStringsFile distModuleName (map_to_list distLiteral).

(** [Pdf/PdfFooter/strings.ts] (lines 4-19). *)
Definition pdfFooter : StringsFile :=
  mkStringsFile "pdfFooter" [("reportDateLabel", PdfFooter.reportDateLabel)].

Definition cardFiles : list StringsFile :=
  [eeDetailsCard; performanceRatingCard; compensationCard; totalCashCard; payHistorySummaryCard;
   marketTrendsCard; rangePenetrationCard; marketSnapshotCard; rangeDistributionCard; pdfFooter].

(** Importing a [strings.ts]: the literal is evaluated, loaded with
    [stringManager.load(moduleName, ...)], and [stringManager[moduleName]]
    is read back; [None] when the load throws. *)
Definition importFile (f : StringsFile) (m : Manager) : option (Val * Manager) :=
  let '(r, m) := alloc (literal f) m in
  match callLoad (moduleName f) (Some r) m with
  | Ok m => Some (read m (moduleName f), m)
  | Throws => None
  end.

(** Importing files in order: what each component keeps. *)
Fixpoint importAll (fs : list StringsFile) (m : Manager) : option (list Val * Manager) :=
  match fs with
  | [] => Some ([], m)
  | f :: fs =>
      '(v, m) ← importFile f m;
      '(vs, m) ← importAll fs m;
      Some (v :: vs, m)
  end.

(** The strings a component sees through the object it keeps. *)
Definition seen (m : Manager) (v : Val) : option StrObj :=
  match v with VModule r => heap m !! r | _ => None end.

(** The names [load] stores without breaking the manager. *)
Definition loadable (name : string) : bool :=
  isValidModuleName name && bool_decide (name ≠ "_isValidModuleName") && bool_decide (name ≠ "__proto__").

(** ** One import *)

Lemma loadable_spec name :
  loadable name = true ->
  isValidModuleName name = true /\ name ≠ "_isValidModuleName" /\ name ≠ "__proto__".
Proof. unfold loadable. intros H. apply andb_prop in H as [H H3]. apply andb_prop in H as [H1 H2]. now split_and!; [|apply bool_decide_eq_true in H2|apply bool_decide_eq_true in H3]. Qed.

(** The heap only grows: objects allocated before are untouched. *)
Definition extends (m m' : Manager) : Prop :=
  forall r, is_Some (heap m !! r) -> heap m' !! r = heap m !! r.

Lemma extends_refl m : extends m m.
Proof. intros r _. reflexivity. Qed.

Lemma extends_trans m1 m2 m3 : extends m1 m2 -> extends m2 m3 -> extends m1 m3.
Proof. intros H12 H23 r Hr. rewrite (H23 r), (H12 r Hr); [reflexivity|]. now rewrite (H12 r Hr). Qed.

Lemma importFile_spec f m :
  WF m -> loadable (moduleName f) = true ->
  exists r m', importFile f m = Some (VModule r, m') /\ WF m' /\ extends m m' /\
    heap m' !! r = Some (literal f) /\ own m' = <[moduleName f := r]> (own m).
Proof.
  intros Hw Hl. destruct (loadable_spec _ Hl) as (Hv & Hi & Hp). unfold importFile.
  destruct (alloc (literal f) m) as [r m1] eqn:Ea.
  destruct (alloc_WF _ m r m1 Hw Ea) as (Hw1 & Hr & Hold & Ho1).
  assert (Er : r = nextRef m) by (now injection Ea).
  destruct (load_WF m1 (moduleName f) r Hw1 ltac:(rewrite Hr; eauto) Hi Hp) as [-> HW].
  rewrite Hv in HW |- *. rewrite (read_own _ _ r Hp) by (cbn; apply lookup_insert_eq).
  exists r, (mkManager (heap m1) (nextRef m1) (<[moduleName f:=r]> (own m1)) (proto m1) (classProto m1) (fnProps m1)).
  split; [reflexivity|]. split; [now apply HW|]. split; [|split; [exact Hr|cbn; now rewrite Ho1]].
  intros r' Hr'. cbn. apply Hold. intros ->. destruct Hw as (_ & _ & _ & Hn).
  specialize (Hn _ Hr'). lia.
Qed.

(** StringManager.v's import of RangeDistributionCard's strings is this
    file's [importFile] of it. *)
Lemma importStrings_importFile m :
  importStrings m = (λ '(v, m), mkApp m v None) <$> importFile rangeDistributionCard m.
Proof.
  unfold importStrings, importFile, literal. cbn [pairs moduleName rangeDistributionCard].
  rewrite list_to_map_to_list. destruct (alloc distLiteral m) as [r m1].
  now destruct (callLoad distModuleName (Some r) m1).
Qed.

(** ** Imports in any order *)

Lemma importAll_app l1 l2 m :
  importAll (l1 ++ l2) m =
  match importAll l1 m with
  | Some (vs1, m1) => match importAll l2 m1 with Some (vs2, m2) => Some ((vs1 ++ vs2)%list, m2) | None => None end
  | None => None
  end.
Proof.
  revert m. induction l1 as [|f l1 IH]; intros m; cbn [importAll app].
  - destruct (importAll l2 m) as [[vs m2]|]; reflexivity.
  - destruct (importFile f m) as [[v m1]|]; cbn; [|reflexivity]. rewrite IH.
    destruct (importAll l1 m1) as [[vs1 m2]|]; cbn; [|reflexivity].
    destruct (importAll l2 m2) as [[vs2 m3]|]; reflexivity.
Qed.

(** C21: Importing any sequence of [strings.ts] files whose names [load]
    stores, on a well-formed manager, never throws and leaves the manager
    well formed; every component keeps an object that holds exactly its
    file's literal, whatever the order and even when two files share a
    name; a name no file uses keeps its entry. *)
Theorem importAll_spec fs m :
  WF m -> Forall (λ f, loadable (moduleName f) = true) fs ->
  exists vs m', importAll fs m = Some (vs, m') /\ WF m' /\ extends m m' /\
    Forall2 (λ f v, seen m' v = Some (literal f)) fs vs /\
    (forall n, Forall (λ f, moduleName f ≠ n) fs -> own m' !! n = own m !! n).
Proof.
  revert m. induction fs as [|f fs IH]; intros m Hw Hl; cbn [importAll].
  - exists [], m. split_and!; auto using extends_refl.
  - apply Forall_cons in Hl as [Hf Hl].
    destruct (importFile_spec f m Hw Hf) as (r & m1 & -> & Hw1 & Hx1 & Hr & Ho1). cbn.
    destruct (IH m1 Hw1 Hl) as (vs & m' & -> & Hw' & Hx' & Hs & Ho). cbn.
    exists (VModule r :: vs), m'. split_and!; auto.
    + now apply extends_trans with m1.
    + constructor; [|exact Hs]. cbn. rewrite (Hx' r) by (rewrite Hr; eauto). exact Hr.
    + intros n Hn. apply Forall_cons in Hn as [Hfn Hn]. rewrite (Ho n Hn), Ho1.
      now apply lookup_insert_ne.
Qed.

(** The file imported last under a name owns it: the manager's entry is
    the object that file's component keeps. *)
Lemma importAll_last_owns pre f post m :
  WF m -> Forall (λ f, loadable (moduleName f) = true) ((pre ++ f :: post)%list) ->
  Forall (λ g, moduleName g ≠ moduleName f) post ->
  exists vs1 r vs2 m', importAll ((pre ++ f :: post)%list) m = Some (((vs1 ++ VModule r :: vs2)%list)%list, m') /\
    length vs1 = length pre /\ own m' !! moduleName f = Some r /\ WF m' /\
    Forall2 (λ f v, seen m' v = Some (literal f)) ((pre ++ f :: post)%list) ((vs1 ++ VModule r :: vs2)%list).
Proof.
  intros Hw Hl Hpost. pose proof Hl as Hl'. apply Forall_app in Hl as [Hpre Hl]. apply Forall_cons in Hl as [Hf Hl].
  destruct (importAll_spec pre m Hw Hpre) as (vs1 & m1 & E1 & Hw1 & _ & Hs1 & _).
  destruct (importFile_spec f m1 Hw1 Hf) as (r & m2 & E2 & Hw2 & _ & _ & Ho2).
  destruct (importAll_spec post m2 Hw2 Hl) as (vs2 & m3 & E3 & Hw3 & _ & _ & Ho3).
  assert (E : importAll ((pre ++ f :: post)%list) m = Some ((vs1 ++ VModule r :: vs2)%list, m3)).
  { rewrite importAll_app, E1. cbn [importAll]. rewrite E2. cbn. now rewrite E3. }
  destruct (importAll_spec _ m Hw Hl') as (vs & m' & E' & _ & _ & Hs & _).
  rewrite E in E'. injection E' as <- <-.
  exists vs1, r, vs2, m3. split_and!; auto.
  - symmetry. exact (Forall2_length _ _ _ Hs1).
  - rewrite (Ho3 _ Hpost), Ho2. apply lookup_insert_eq.
Qed.

(** ** An override after the imports *)

(** [override(name, literal)] writes into the object the manager holds
    under [name], and into no other object. *)
Lemma override_owner m n r o :
  WF m -> n ≠ "__proto__" -> own m !! n = Some r ->
  exists m', callStep (COverride n o) m = Ok m' /\ WF m' /\
    heap m' !! r = overlay (map_to_list o) <$> heap m !! r /\
    (forall r', r' ≠ r -> is_Some (heap m !! r') -> heap m' !! r' = heap m !! r').
Proof.
  intros Hw Hn Ho. cbn [callStep]. destruct (alloc o m) as [ro m1] eqn:Ea.
  destruct (alloc_WF o m ro m1 Hw Ea) as (Hw1 & Hro & Hold & Hown).
  assert (Hfresh : forall r', is_Some (heap m !! r') -> r' ≠ ro).
  { injection Ea as <- _. intros r' Hs ->. destruct Hw as (_ & _ & _ & Hlt). specialize (Hlt _ Hs). lia. }
  assert (Hr : is_Some (heap m !! r)) by (destruct Hw as (_ & _ & Hown' & _); apply (Hown' n r Ho)).
  destruct (override_own m1 n ro r Hw1 Hn ltac:(rewrite Hown; exact Ho)) as [E Hw'].
  rewrite Hro in E, Hw'. cbn [default] in E, Hw'. rewrite Hown in E, Hw'.
  eexists; split; [exact E|]. split; [exact Hw'|]. cbn [heap]. split.
  - rewrite lookup_alter_eq. rewrite Hold by (apply Hfresh, Hr). reflexivity.
  - intros r' Hne Hs. rewrite lookup_alter_ne by congruence. apply Hold. apply Hfresh, Hs.
Qed.

Lemma seen_module m v o : seen m v = Some o -> exists r, v = VModule r /\ heap m !! r = Some o.
Proof. destruct v; cbn; try discriminate. eauto. Qed.

Lemma Forall2_split3 {A B} (P : A -> B -> Prop) pre f mid g post vs :
  Forall2 P (pre ++ f :: mid ++ g :: post) vs ->
  exists vs1 vf vs2 vg vs3, vs = vs1 ++ vf :: vs2 ++ vg :: vs3 /\
    length vs1 = length pre /\ length vs2 = length mid /\ P f vf /\ P g vg.
Proof.
  intros H. apply Forall2_app_inv_l in H as (vs1 & k & H1 & H & ->).
  apply Forall2_cons_inv_l in H as (vf & k' & Hf & H & ->).
  apply Forall2_app_inv_l in H as (vs2 & k'' & H2 & H & ->).
  apply Forall2_cons_inv_l in H as (vg & vs3 & Hg & _ & ->).
  exists vs1, vf, vs2, vg, vs3. split_and!; auto; symmetry; eapply Forall2_length; eauto.
Qed.

#[export] Instance StringsFile_eq_dec : EqDecision StringsFile.
Proof. solve_decision. Defined.

Lemma cardFiles_NoDup : NoDup cardFiles.
Proof. apply (bool_decide_unpack _). vm_compute. exact I. Qed.

Lemma cardFiles_loadable : Forall (λ f, loadable (moduleName f) = true) cardFiles.
Proof. repeat constructor. Qed.

(** Only the two compensation cards use the name ['eeCompensationCard']. *)
Lemma cardFiles_shared h :
  h ∈ cardFiles -> moduleName h = "eeCompensationCard" -> h = compensationCard \/ h = totalCashCard.
Proof.
  unfold cardFiles. intros Hh Hn.
  repeat (apply elem_of_cons in Hh as [->|Hh]; [first [now left | now right | discriminate Hn]|]).
  now apply elem_of_nil in Hh.
Qed.

Lemma literal_compensation_totalCash : literal compensationCard ≠ literal totalCashCard.
Proof. intros E. apply (f_equal (lookup "perHour")) in E. vm_compute in E. discriminate E. Qed.


(** C22: CompensationCard and TotalCashCompensationCard load under one
    name.  In every import order of the cards' [strings.ts] files, all
    imports succeed, and an [override('eeCompensationCard', {cardTitle})]
    afterwards rewrites the strings of the card whose file was imported
    last and leaves the other card's strings as they were. *)
Theorem override_shared_name pre f mid g post t :
  pre ++ f :: mid ++ g :: post ≡ₚ cardFiles ->
  (f = compensationCard /\ g = totalCashCard) \/ (f = totalCashCard /\ g = compensationCard) ->
  exists vs1 vf vs2 vg vs3 m m',
    importAll (pre ++ f :: mid ++ g :: post) initManager = Some (vs1 ++ vf :: vs2 ++ vg :: vs3, m) /\
    length vs1 = length pre /\ length vs2 = length mid /\
    callStep (COverride "eeCompensationCard" {["cardTitle" := t]}) m = Ok m' /\
    seen m' vf = Some (literal f) /\ seen m' vg = Some (<["cardTitle" := t]> (literal g)).
Proof.
  intros HP Hfg.
  assert (Hn : moduleName f = "eeCompensationCard" /\ moduleName g = "eeCompensationCard")
    by (destruct Hfg as [[-> ->]|[-> ->]]; split; reflexivity).
  assert (Hnd : NoDup (pre ++ f :: mid ++ g :: post)) by (rewrite HP; exact cardFiles_NoDup).
  assert (Hl : Forall (λ h, loadable (moduleName h) = true) (pre ++ f :: mid ++ g :: post))
    by (rewrite HP; exact cardFiles_loadable).
  assert (Hpost : Forall (λ h, moduleName h ≠ moduleName g) post).
  { apply Forall_forall. intros h Hh E. rewrite (proj2 Hn) in E.
    assert (Hc : h ∈ cardFiles) by (rewrite <- HP; set_solver).
    apply NoDup_app in Hnd as (_ & Hf & Hnd). apply NoDup_cons in Hnd as [Hfn Hnd].
    apply NoDup_app in Hnd as (_ & _ & Hnd). apply NoDup_cons in Hnd as [Hgn _].
    destruct (cardFiles_shared h Hc E) as [->| ->]; destruct Hfg as [[-> ->]|[-> ->]]; set_solver. }
  replace (pre ++ f :: mid ++ g :: post) with ((pre ++ f :: mid) ++ g :: post) in * by (rewrite <- app_assoc; reflexivity).
  destruct (importAll_last_owns (pre ++ f :: mid) g post initManager SMTests.initManager_WF Hl Hpost)
    as (vs1' & r & vs2' & m & E & Hlen & Ho & Hw & Hs).
  rewrite <- app_assoc in Hs |- *. cbn [app] in Hs |- *.
  destruct (Forall2_split3 _ _ _ _ _ _ _ Hs) as (vs1 & vf & vs2 & vg & vs3 & Evs & L1 & L2 & Hf & Hg).
  assert (Evg : vg = VModule r /\ vs3 = vs2' /\ vs1' = vs1 ++ vf :: vs2).
  { replace (vs1 ++ vf :: vs2 ++ vg :: vs3) with ((vs1 ++ vf :: vs2) ++ vg :: vs3) in Evs
      by (rewrite <- app_assoc; reflexivity).
    apply app_inj_1 in Evs as [E1 Evs]; [injection Evs as -> ->; auto|].
    rewrite Hlen, !length_app. cbn. lia. }
  destruct Evg as (-> & <- & ->).
  destruct (seen_module _ _ _ Hf) as (rf & -> & Hrf).
  rewrite (proj2 Hn) in Ho.
  destruct (override_owner m "eeCompensationCard" r {["cardTitle" := t]} Hw ltac:(discriminate) Ho)
    as (m' & Eo & _ & Hr' & Hother).
  exists vs1, (VModule rf), vs2, (VModule r), vs3, m, m'. split_and!; auto.
  - rewrite <- app_assoc in E. cbn [app] in E. rewrite E. f_equal. f_equal. rewrite <- app_assoc. reflexivity.
  - cbn. rewrite Hother; [exact Hrf| |now rewrite Hrf].
    intros ->. cbn in Hg. rewrite Hg in Hrf. injection Hrf as Hlit.
    destruct Hfg as [[-> ->]|[-> ->]]; [symmetry in Hlit|]; exact (literal_compensation_totalCash Hlit).
  - cbn. rewrite Hr'. cbn in Hg. rewrite Hg. cbn. rewrite map_to_list_singleton. cbn.
    unfold dset. rewrite bool_decide_false by discriminate. reflexivity.
Qed.


(** ** Runs *)

Module CardStringsTests.

Definition keptTitle (fs : list StringsFile) (i : nat) (ovr : list SMCall) : option string :=
  match importAll fs initManager with
  | Some (vs, m) =>
      match foldl (λ r c, bindRes r (callStep c)) (Ok m) ovr with
      | Ok m' => v ← vs !! i; o ← seen m' v; o !! "cardTitle"
      | Throws => None
      end
  | None => None
  end.

Definition retitle : SMCall := COverride "eeCompensationCard" {["cardTitle" := "Pay"]}.

(** In the listed order TotalCashCompensationCard (index 3) is imported
    after CompensationCard (index 2) and takes the override; swapped, the
    other card does. *)
Example shared_name_runs :
  keptTitle cardFiles 2 [] = Some "Compensation" /\ keptTitle cardFiles 3 [] = Some "Total Cash Compensation" /\
  keptTitle cardFiles 2 [retitle] = Some "Compensation" /\ keptTitle cardFiles 3 [retitle] = Some "Pay" /\
  keptTitle (eeDetailsCard :: performanceRatingCard :: totalCashCard :: compensationCard :: drop 4 cardFiles) 3 [retitle]
    = Some "Pay" /\
  keptTitle (eeDetailsCard :: performanceRatingCard :: totalCashCard :: compensationCard :: drop 4 cardFiles) 2 [retitle]
    = Some "Total Cash Compensation".
Proof. vm_compute. repeat split. Qed.

Lemma importAll_spec_witness :
  WF initManager /\ Forall (λ f, loadable (moduleName f) = true) cardFiles /\
  exists vs m', importAll cardFiles initManager = Some (vs, m') /\ WF m' /\ extends initManager m' /\
    Forall2 (λ f v, seen m' v = Some (literal f)) cardFiles vs /\
    (forall n, Forall (λ f, moduleName f ≠ n) cardFiles -> own m' !! n = own initManager !! n).
Proof.
  split; [exact SMTests.initManager_WF|]. split; [exact cardFiles_loadable|].
  exact (importAll_spec cardFiles initManager SMTests.initManager_WF cardFiles_loadable).
Defined.

Lemma override_shared_name_witness :
  [eeDetailsCard; performanceRatingCard] ++ compensationCard :: [] ++ totalCashCard :: drop 4 cardFiles ≡ₚ cardFiles /\
  exists vs1 vf vs2 vg vs3 m m',
    importAll ([eeDetailsCard; performanceRatingCard] ++ compensationCard :: [] ++ totalCashCard :: drop 4 cardFiles)
      initManager = Some (vs1 ++ vf :: vs2 ++ vg :: vs3, m) /\
    length vs1 = 2 /\ length vs2 = 0 /\
    callStep (COverride "eeCompensationCard" {["cardTitle" := "Pay"]}) m = Ok m' /\
    seen m' vf = Some (literal compensationCard) /\ seen m' vg = Some (<["cardTitle" := "Pay"]> (literal totalCashCard)).
Proof.
  split; [reflexivity|].
  exact (override_shared_name [eeDetailsCard; performanceRatingCard] compensationCard [] totalCashCard
           (drop 4 cardFiles) "Pay" ltac:(reflexivity) (or_introl (conj eq_refl eq_refl))).
Defined.

End CardStringsTests.

End CardStrings.
