(* ===== verification/Link.v ===== *)
(** * [Link] ([src/src/Link/index.tsx]) over the [HistoryApi] interface

      [HistoryApi] ([src/src/Types/historyApi.ts]) is what a [Link] asks
      of the history it is given: [goBack], [goForward], [push] and
      [replace].  It is a class here ([HistoryApi]) whose carrier is the
      state of the history object; BrowserHistory.v's wrapper is an
      instance ([browserHistoryApi]), its [popstate] handling run with a
      nesting fuel the instance is given.

      A [Link] renders an anchor ([render], StaticMarkup.v's markup) and
      handles its clicks ([handleClick]): the click event is a record of
      the fields the handler reads, the owner's [onClick] a function from
      the event to the event it leaves (it may set [defaultPrevented]), and
      the result is the event after the handler with the new state of the
      [history] prop.  The theorems say which clicks navigate: a plain left
      click that no handler cancelled pushes [href] and prevents the
      browser's default; every other click leaves the history alone, and a
      modified click is left to the browser.  Through the instance, such a
      click on a synchronised wrapper moves the browser to [href]. *)

From Stdlib Require Import ZArith List String Bool Lia.
From S2P Require Import Prelude MockHistory BrowserHistory ParsePath StaticMarkup.
Import ListNotations.
Open Scope string_scope.
Open Scope list_scope.

Module HistoryApi.

(** [interface HistoryApi] (lines 1-15): [goBack] and [goForward] give
    [None] when the model of the history runs out of fuel. *)
Class HistoryApi (H : Type) := {
  goBack : H -> option H;
  goForward : H -> option H;
  push : string -> H -> H;
  replace : string -> H -> H
}.

Section Browser.
Variable parsePath : string -> LocationContext.
Variable keyAt : nat -> string.
Variable isCriOS : bool.
Variable fuel : nat.

(** [BrowserHistory] implements [HistoryApi]. *)
#[export] Instance browserHistoryApi : HistoryApi History.World := {
  goBack := History.goBack parsePath keyAt isCriOS fuel;
  goForward := History.goForward parsePath keyAt isCriOS fuel;
  push := History.push parsePath keyAt;
  replace := History.replace parsePath keyAt
}.

End Browser.
End HistoryApi.

Module Link.
Import Dom HistoryApi.

(** The fields of the click event the handler reads. *)
Record MouseEvent : Type := mkEvent {
  button : Z;
  ctrlKey : bool;
  metaKey : bool;
  shiftKey : bool;
  defaultPrevented : bool
}.

Definition preventDefault (e : MouseEvent) : MouseEvent :=
  mkEvent (button e) (ctrlKey e) (metaKey e) (shiftKey e) true.

Section Link.
Context {H : Type} `{HistoryApi H}.

(** [LinkProps] (lines 4-9); [history] is the state of the object passed,
    [None] for a [null] one. *)
Record LinkProps : Type := mkProps {
  className : option string;
  history : option H;
  href : option string;
  onClick : option (MouseEvent -> MouseEvent)
}.

(** [render] (lines 12-23); the [onClick] attribute is [handleClick]. *)
Definition render (p : LinkProps) (children : list Node) : Node :=
  Elem "a" (("href", match href p with Some (String _ _ as s) => s | _ => "#" end) ::
            optAttr "className" (className p)) children.

(** [_handleClick] (lines 25-52). *)
Definition handleClick (p : LinkProps) (e : MouseEvent) : MouseEvent * option H :=
  if negb (Z.eqb (button e) 0) then (e, history p)
  else
    let e := match onClick p with Some f => f e | None => e end in
    if defaultPrevented e then (e, history p)
    else if negb (ctrlKey e) && negb (metaKey e) && negb (shiftKey e) then
      (preventDefault e,
       match href p, history p with
       | Some (String _ _ as url), Some h => Some (push url h)
       | _, _ => history p
       end)
    else (e, history p).

End Link.
End Link.

(** ** Which clicks navigate *)
Module LinkFacts.
Import HistoryApi Link.

Section Facts.
Context {H : Type} `{HistoryApi H}.

(** The event after the owner's handler. *)
Definition afterHandler (p : @LinkProps H) (e : MouseEvent) : MouseEvent :=
  match onClick p with Some f => f e | None => e end.

(** ctrl, meta or shift held: a new tab or window. *)
Definition modified (e : MouseEvent) : bool := ctrlKey e || metaKey e || shiftKey e.

(** A left click that no handler cancelled and no modifier key turns into
    a new tab. *)
Definition plainClick (p : @LinkProps H) (e : MouseEvent) : Prop :=
  button e = 0%Z /\ defaultPrevented (afterHandler p e) = false /\ modified (afterHandler p e) = false.

Lemma handleClick_plain p e : plainClick p e ->
  handleClick p e =
  (preventDefault (afterHandler p e),
   match href p, history p with
   | Some (String _ _ as url), Some h => Some (push url h)
   | _, _ => history p
   end).
Proof.
  intros (Hb & Hd & Hm). unfold handleClick. rewrite Hb. cbn [Z.eqb negb].
  fold (afterHandler p e). rewrite Hd.
  unfold modified in Hm. apply orb_false_elim in Hm as [Hm Hs]. apply orb_false_elim in Hm as [Hc Hme].
  rewrite Hc, Hme, Hs. reflexivity.
Qed.

(** C8: A [Link] changes its history only on a plain left click (button
    0, not cancelled by the owner's [onClick], no ctrl, meta or shift key)
    on a link whose [href] is a non-empty string and whose [history] is
    given, and then the change is [history.push(href)]; every other click
    leaves the history as it was. *)
Theorem click_navigates_only_when p e :
  snd (handleClick p e) = history p \/
  (plainClick p e /\ exists url h, href p = Some url /\ url <> "" /\ history p = Some h /\
                                   snd (handleClick p e) = Some (push url h)).
Proof.
  destruct (Z.eqb_spec (button e) 0) as [Hb|Hb];
    [|left; unfold handleClick; rewrite (proj2 (Z.eqb_neq _ _) Hb); reflexivity].
  destruct (defaultPrevented (afterHandler p e)) eqn:Hd.
  { left. unfold handleClick. rewrite Hb. cbn [Z.eqb negb]. fold (afterHandler p e). rewrite Hd. reflexivity. }
  destruct (modified (afterHandler p e)) eqn:Hm.
  { left. unfold handleClick. rewrite Hb. cbn [Z.eqb negb]. fold (afterHandler p e). rewrite Hd.
    unfold modified in Hm. destruct (ctrlKey _), (metaKey _), (shiftKey _); try discriminate; reflexivity. }
  assert (Hp : plainClick p e) by (repeat split; assumption).
  rewrite (handleClick_plain p e Hp). cbn [snd].
  destruct (href p) as [[|c s]|] eqn:Eh; [left; reflexivity| |left; reflexivity].
  destruct (history p) as [h|] eqn:Ehi; [|left; reflexivity].
  right. split; [exact Hp|]. exists (String c s), h. repeat split; congruence.
Qed.

(** A plain left click on a link to a non-empty [href] with a history
    prevents the browser's default and pushes [href]. *)
Theorem plain_click_pushes p e url h :
  plainClick p e -> href p = Some url -> url <> "" -> history p = Some h ->
  handleClick p e = (preventDefault (afterHandler p e), Some (push url h)).
Proof.
  intros Hp Eh Hu Ehi. rewrite (handleClick_plain p e Hp), Eh, Ehi.
  destruct url as [|c s]; [contradiction|reflexivity].
Qed.

(** A click with a modifier key is left to the browser: the history is
    unchanged and [Link] does not prevent the default. *)
Theorem modified_click_to_browser p e :
  modified (afterHandler p e) = true ->
  snd (handleClick p e) = history p /\
  (button e = 0%Z -> fst (handleClick p e) = afterHandler p e).
Proof.
  intros Hm. unfold handleClick.
  destruct (Z.eqb_spec (button e) 0) as [Hb|Hb]; cbn [negb]; [|split; [reflexivity|contradiction]].
  fold (afterHandler p e). unfold modified in Hm.
  destruct (defaultPrevented _); [split; reflexivity|].
  destruct (ctrlKey _), (metaKey _), (shiftKey _); try discriminate; split; reflexivity.
Qed.

End Facts.

Section Browser.
Variable parsePath : string -> LocationContext.
Variable keyAt : nat -> string.
Variable isCriOS : bool.
Variable fuel : nat.
Hypothesis keyAt_inj : forall m n, keyAt m = keyAt n -> m = n.


(** C9: A plain left click on a [Link] whose history is a synchronised
    [BrowserHistory] wrapper, to an [href] other than the current
    pathname that the navigation filters allow, moves the browser to
    [href]: the current location's pathname becomes [href], the wrapper
    stays synchronised, and the browser's default is prevented. *)
Theorem link_click_moves_browser (p : @LinkProps History.World) e url w :
  plainClick p e -> href p = Some url -> url <> "" -> history p = Some w ->
  History.Sync keyAt w -> String.eqb url (pathname (History.currentLocation w)) = false ->
  History.allowNavigation parsePath (History.bh w) url Push = true ->
  exists w', @handleClick _ (browserHistoryApi parsePath keyAt isCriOS fuel) p e =
               (preventDefault (afterHandler p e), Some w') /\
             pathname (History.currentLocation w') = url /\ History.Sync keyAt w'.
Proof.
  intros Hp Eh Hu Ehi Hs Ep Ea.
  pose proof (History.push_spec parsePath keyAt keyAt_inj url w Hs Ep) as Hps. cbv zeta in Hps.
  rewrite Ea in Hps. destruct Hps as (Hs' & _ & _ & Hpath & _).
  exists (History.push parsePath keyAt url w). split; [|split; assumption].
  exact (@plain_click_pushes _ (browserHistoryApi parsePath keyAt isCriOS fuel) p e url w Hp Eh Hu Ehi).
Qed.

End Browser.
End LinkFacts.

Module LinkTests.
Import HistoryApi Link LinkFacts.

(** The test double of [link.spec.tsx]: [push] records the URL it is
    called with, [goBack], [goForward] and [replace] are unused. *)
#[local] Instance recorder : HistoryApi (option string) := {
  goBack := fun h => Some h;
  goForward := fun h => Some h;
  push := fun url _ => Some url;
  replace := fun _ h => h
}.

Definition linkUrl : string := "http://ilikecheese.gov".

Definition testLink (onClick : option (MouseEvent -> MouseEvent)) : @LinkProps (option string) :=
  mkProps None (Some None) (Some linkUrl) onClick.

Definition click (b : Z) (ctrl meta shift : bool) : MouseEvent := mkEvent b ctrl meta shift false.

(** [testLinkClick]: the URL [push] was called with and whether the
    default was prevented. *)
Definition testLinkClick (e : MouseEvent) : option string * bool :=
  let '(e', h) := handleClick (testLink None) e in
  (match h with Some (Some u) => Some u | _ => None end, defaultPrevented e').

Example link_tests :
  render (testLink None) [Dom.Text "Foo"] = Dom.Elem "a" [("href", linkUrl)] [Dom.Text "Foo"] /\
  render (@mkProps (option string) (Some "test-class") (Some None) None None) [] =
    Dom.Elem "a" [("href", "#"); Dom.cls "test-class"] [] /\
  testLinkClick (click 0 false false false) = (Some linkUrl, true) /\
  testLinkClick (click 1 false false false) = (None, false) /\
  testLinkClick (click 0 true false false) = (None, false) /\
  testLinkClick (click 0 false true false) = (None, false) /\
  testLinkClick (click 0 false false true) = (None, false) /\
  snd (handleClick (testLink (Some preventDefault)) (click 0 false false false)) = Some None.
Proof. repeat split; reflexivity. Qed.

Lemma plain_click_pushes_witness :
  handleClick (testLink None) (click 0 false false false) =
  (preventDefault (click 0 false false false), Some (Some linkUrl)).
Proof.
  rewrite (plain_click_pushes (testLink None) (click 0 false false false) linkUrl None);
    try reflexivity; try discriminate. repeat split.
Defined.

Lemma modified_click_to_browser_witness :
  snd (handleClick (testLink None) (click 0 true false false)) = Some None.
Proof. apply (modified_click_to_browser (testLink None) (click 0 true false false)). reflexivity. Defined.

(** A [BrowserHistory] at [/foo], its paths parsed by ParsePath.v. *)
Definition parsedFooWorld : History.World :=
  History.push ParsePath.ParsePath.parsePath HistoryTests.keyOf "/foo" HistoryTests.initWorld.

Lemma parsedFooWorld_sync : History.Sync HistoryTests.keyOf parsedFooWorld.
Proof. apply History.push_sync, HistoryTests.initWorld_sync. exact HistoryTests.keyOf_inj. Qed.

Definition docsLink : @LinkProps History.World := mkProps None (Some parsedFooWorld) (Some "/docs") None.

Lemma link_click_moves_browser_witness :
  exists w', @handleClick _ (browserHistoryApi ParsePath.ParsePath.parsePath HistoryTests.keyOf false 4)
               docsLink (click 0 false false false) =
             (preventDefault (afterHandler docsLink (click 0 false false false)), Some w') /\
             pathname (History.currentLocation w') = "/docs" /\ History.Sync HistoryTests.keyOf w'.
Proof.
  apply (link_click_moves_browser ParsePath.ParsePath.parsePath HistoryTests.keyOf false 4 HistoryTests.keyOf_inj
           _ _ "/docs" parsedFooWorld).
  all: first [exact parsedFooWorld_sync | discriminate | repeat split | vm_compute; reflexivity].
Defined.

End LinkTests.
