(* ===== verification/CareerPathChart.v ===== *)
(** * [CareerPathChart] ([src/src/CareerPathChart/CareerPathChart/index.tsx])

      [formatDataForTreeChart] turns the career path DTO, a tree of jobs
      each with its [futureJobs], into the [TreeChartData] objects of
      TreeChart.v, and [CareerPathChart] hands the result to a
      [TreeChart].  The DTO is a JSON tree ([CareerPathJob] and
      [CareerPathChartData], mutually inductive, [null] and missing fields
      as [None]); the objects the function creates are allocated in
      TreeChart.v's heap ([alloc]), the children before their parent, the
      [futureJobs.jobs.map] being [mapHeap].  Reading a field of [null]
      or [undefined] throws ([FormatError]).

      The theorems characterise when the function returns (never [null]:
      its [if (!data)] guard comes after [data] is destructured), describe
      the tree it builds, and compose it with TreeChart.v: when every job
      of the DTO has a title, the [TreeChart] the chart renders never
      throws, whatever the user clicks. *)

From Stdlib Require Import QArith List String Bool Lia.
From S2P Require Import Prelude TreeChart.
Import ListNotations.
Open Scope list_scope.

Module CareerPath.
Import Tree.

(** [interface CareerPathJob] (lines 10-17) and [interface
    CareerPathChartData] (lines 4-8). *)
Inductive CareerPathJob : Type :=
| mkJob (compensation count : option num) (futureJobs : option CareerPathChartData)
        (isHourly : option bool) (jobTitle url : option string)
with CareerPathChartData : Type :=
| mkData (dataCount : option num) (jobs : option (list (option CareerPathJob))) (dataJobTitle : option string).

Definition jobTitle (d : CareerPathJob) : option string := let 'mkJob _ _ _ _ t _ := d in t.

(** Reading a property of [null] or [undefined]: destructuring [data],
    or [futureJobs.jobs.map]. *)
Inductive FormatError : Type := DestructureNull | MapOfUndefined.

Definition Heap : Type := list TreeChartData.

(** A new object: its reference is the next free one. *)
Definition alloc (n : TreeChartData) (h : Heap) : Loc * Heap := (List.length h, h ++ [n]).

(** [x > 0] for a number that may be [null] or [undefined] (both
    compare false). *)
Definition positive (o : option num) : bool := match o with Some x => nlt (Fin 0) x | None => false end.

Definition truthyNum (o : option num) : bool := match o with Some x => ntruthy x | None => false end.

(** [array.map(f)] with a callback that allocates: the heap threads
    through the calls, left to right; the first throw ends it. *)
Fixpoint mapHeap {A} (f : A -> Heap -> FormatError + (Loc * Heap)) (l : list A) (h : Heap)
  : FormatError + (list Loc * Heap) :=
  match l with
  | [] => inr ([], h)
  | x :: l' =>
      match f x h with
      | inl e => inl e
      | inr (y, h1) =>
          match mapHeap f l' h1 with
          | inl e => inl e
          | inr (ys, h2) => inr (y :: ys, h2)
          end
      end
  end.

(** [formatDataForTreeChart] (lines 25-39) on an object. *)
Fixpoint formatJob (d : CareerPathJob) (totalCount : option num) (h : Heap)
  : FormatError + (Loc * Heap) :=
  let 'mkJob compensation count futureJobs _ jobTitle url := d in
  let leavesRes :=
    match futureJobs with
    | Some (mkData fcount jobs _) =>
        if positive fcount then
          match jobs with
          | Some js =>
              match mapHeap (fun o h => match o with
                                        | Some j => formatJob j fcount h
                                        | None => inl DestructureNull
                                        end) js h with
              | inl e => inl e
              | inr (ls, h1) => inr (Some ls, h1)
              end
          | None => inl MapOfUndefined
          end
        else inr (None, h)
    | None => inr (None, h)
    end in
  match leavesRes with
  | inl e => inl e
  | inr (leaves, h1) =>
      let percentage :=
        if truthyNum totalCount && positive count then
          match count, totalCount with Some c, Some t => Some (ndiv c t) | _, _ => None end
        else None in
      inr (alloc (mkTreeChartData jobTitle url leaves compensation percentage) h1)
  end.

(** [formatDataForTreeChart(data, totalCount)]: [const { futureJobs } =
    data] runs before [if (!data) return null], so [null] throws. *)
Definition formatDataForTreeChart (data : option CareerPathJob) (totalCount : option num) (h : Heap)
  : FormatError + (Loc * Heap) :=
  match data with
  | None => inl DestructureNull
  | Some d => formatJob d totalCount h
  end.

(** [interface CareerPathChartProps] (lines 19-23). *)
Record CareerPathChartProps : Type := mkProps {
  data : option CareerPathJob;
  detailToShow : option DetailKind;
  showTwoLevels : bool
}.

(** [CareerPathChart] (lines 41-51): the heap of the objects it creates
    and the [TreeChart]'s props. *)
Definition render (p : CareerPathChartProps) : FormatError + (Heap * TreeChartProps) :=
  match formatDataForTreeChart (data p) None [] with
  | inl e => inl e
  | inr (l, h) => inr (h, mkTreeChartProps (Some l) (detailToShow p) (showTwoLevels p))
  end.

End CareerPath.

(** ** When [formatDataForTreeChart] returns *)
Module CareerPathFacts.
Import Tree CareerPath.

(** The [futureJobs.jobs] of a job, when both are there. *)
Definition children (d : CareerPathJob) : list (option CareerPathJob) :=
  match d with mkJob _ _ (Some (mkData _ (Some js) _)) _ _ _ => js | _ => [] end.

Fixpoint jsize (d : CareerPathJob) : nat :=
  let 'mkJob _ _ fj _ _ _ := d in
  S match fj with
    | Some (mkData _ (Some js) _) =>
        list_sum (map (fun o => match o with Some j => jsize j | None => 0%nat end) js)
    | _ => 0%nat
    end.

Lemma jsize_children d j : In (Some j) (children d) -> (jsize j < jsize d)%nat.
Proof.
  destruct d as [c n [[fc [js|] t]|] hr ti u]; cbn [children jsize]; try contradiction.
  intros Hin. apply PeanoNat.Nat.lt_succ_r.
  induction js as [|o js IH]; [contradiction|]. cbn [map list_sum fold_right].
  destruct Hin as [->|Hin]; [lia|]. specialize (IH Hin). unfold list_sum in *. lia.
Qed.

(** Induction on the DTO: a job from its listed future jobs. *)
Lemma job_ind (P : CareerPathJob -> Prop) :
  (forall d, (forall j, In (Some j) (children d) -> P j) -> P d) -> forall d, P d.
Proof.
  intros IH. assert (H : forall n d, (jsize d <= n)%nat -> P d).
  { induction n as [|n IHn]; intros d Hd; [destruct d; cbn in Hd; lia|].
    apply IH. intros j Hj. apply IHn. pose proof (jsize_children d j Hj). lia. }
  intros d. exact (H _ d (le_n _)).
Qed.

(** The DTO the function formats without throwing: every [futureJobs]
    whose [count] is positive has a [jobs] array of objects, down the
    tree. *)
Fixpoint wf (d : CareerPathJob) : bool :=
  let 'mkJob _ _ fj _ _ _ := d in
  match fj with
  | Some (mkData fc (Some js) _) =>
      negb (positive fc) || forallb (fun o => match o with Some j => wf j | None => false end) js
  | Some (mkData fc None _) => negb (positive fc)
  | None => true
  end.

Lemma mapHeap_returns {A} (f : A -> Heap -> FormatError + (Loc * Heap)) (Q : A -> Prop) l :
  (forall x h, In x l -> (exists r, f x h = inr r) <-> Q x) ->
  forall h, (exists r, mapHeap f l h = inr r) <-> Forall Q l.
Proof.
  intros Hf. induction l as [|x l IH]; intros h; cbn [mapHeap].
  { split; [constructor|eauto]. }
  rewrite Forall_cons_iff. specialize (Hf x) as Hx.
  destruct (f x h) as [e|[y h1]] eqn:E.
  - split; [intros [r Hr]; discriminate|]. intros [Hq _].
    destruct (proj2 (Hx h (or_introl eq_refl)) Hq) as [r Hr]. congruence.
  - assert (Hq : Q x) by (apply (Hx h (or_introl eq_refl)); eauto).
    assert (IH' := IH (fun y h' Hy => Hf y h' (or_intror Hy)) h1).
    destruct (mapHeap f l h1) as [e|[ys h2]].
    + split; [intros [r Hr]; discriminate|]. intros [_ Hl]. destruct (proj2 IH' Hl); discriminate.
    + split; [intros _; split; [exact Hq|apply IH'; eauto]|eauto].
Qed.

Lemma formatJob_returns d : forall t h, (exists r, formatJob d t h = inr r) <-> wf d = true.
Proof.
  induction d as [d IH] using job_ind. intros t h.
  destruct d as [c n [[fc [js|] dt]|] hr ti u]; cbn [formatJob wf].
  3: { split; eauto. }
  2: { destruct (positive fc); cbn; split; try (intros [r Hr]; discriminate); try discriminate; eauto. }
  destruct (positive fc) eqn:Hp; cbn [negb orb]; [|split; eauto].
  rewrite forallb_forall, <- Forall_forall.
  assert (Hm := mapHeap_returns (fun o h => match o with Some j => formatJob j fc h | None => inl DestructureNull end)
                  (fun o => (match o with Some j => wf j | None => false end) = true) js).
  rewrite <- (Hm ltac:(intros [j|] h' Hin; [exact (IH j Hin fc h')|split; [intros [r Hr]; discriminate|discriminate]]) h).
  destruct (mapHeap _ js h) as [e|[ls h1]]; split; intros [r Hr]; try discriminate; eauto.
Qed.

(** ** The objects it builds *)

(** Every job listed in a [jobs] array has a [jobTitle], down the tree. *)
Fixpoint allTitled (d : CareerPathJob) : bool :=
  let 'mkJob _ _ fj _ _ _ := d in
  match fj with
  | Some (mkData _ (Some js) _) =>
      forallb (fun o => match o with
                        | Some j => match jobTitle j with Some _ => allTitled j | None => false end
                        | None => true
                        end) js
  | _ => true
  end.

(** The objects of the heap point, in their [leaves], only to objects of
    the heap that have a [name]. *)
Definition Closed (h : Heap) : Prop :=
  forall p c, childOf h p c -> (c < List.length h)%nat /\ name (obj h c) <> None.

Definition leavesOk (h : Heap) (lv : option (list Loc)) : Prop :=
  match lv with
  | Some ls => forall c, In c ls -> (c < List.length h)%nat /\ name (obj h c) <> None
  | None => True
  end.

Lemma obj_app h ext l : (l < List.length h)%nat -> obj (h ++ ext) l = obj h l.
Proof. intros Hl. unfold obj. now rewrite app_nth1. Qed.

Lemma nth_empty {A} n (x : A) : nth n [] x = x.
Proof. now destruct n. Qed.

Lemma closed_nil : Closed [].
Proof. intros p c. unfold childOf, obj. rewrite nth_empty. cbn. contradiction. Qed.

Lemma closed_alloc h n : Closed h -> leavesOk h (leaves n) -> Closed (h ++ [n]).
Proof.
  intros Hc Hl p c Hpc. rewrite length_app. cbn [List.length].
  assert (Hok : (c < List.length h)%nat /\ name (obj h c) <> None -> (c < List.length h + 1)%nat /\ name (obj (h ++ [n]) c) <> None).
  { intros [Hlt Hn]. rewrite obj_app by exact Hlt. split; [lia|exact Hn]. }
  apply Hok. unfold childOf in Hpc.
  destruct (PeanoNat.Nat.lt_ge_cases p (List.length h)) as [Hp|Hp].
  - rewrite obj_app in Hpc by exact Hp. apply (Hc p c). exact Hpc.
  - unfold obj in Hpc. rewrite app_nth2 in Hpc by exact Hp.
    destruct (p - List.length h)%nat as [|k]; cbn in Hpc.
    + destruct (leaves n) as [ls|]; [exact (Hl c Hpc)|contradiction].
    + destruct k; contradiction.
Qed.

Lemma leavesOk_app h ext lv : leavesOk h lv -> leavesOk (h ++ ext) lv.
Proof.
  destruct lv as [ls|]; [|trivial]. intros Hl c Hin. destruct (Hl c Hin) as [Hlt Hn].
  rewrite length_app, obj_app by exact Hlt. split; [lia|exact Hn].
Qed.

(** What one call leaves: a closed heap extending the old one, and a new
    object in it with a name when [named] holds. *)
Definition Grows (h : Heap) (l : Loc) (h' : Heap) (named : Prop) : Prop :=
  Closed h' /\ (exists ext, h' = h ++ ext) /\ (l < List.length h')%nat /\ (named -> name (obj h' l) <> None).

Lemma mapHeap_closed {A} (f : A -> Heap -> FormatError + (Loc * Heap)) (P : A -> Prop) l :
  (forall x h y h', In x l -> P x -> Closed h -> f x h = inr (y, h') -> Grows h y h' True) ->
  Forall P l -> forall h ls h', Closed h -> mapHeap f l h = inr (ls, h') ->
  Closed h' /\ (exists ext, h' = h ++ ext) /\ leavesOk h' (Some ls).
Proof.
  intros Hf HP. induction l as [|x l IH]; intros h ls h' Hc E; cbn [mapHeap] in E.
  { injection E as <- <-. split; [exact Hc|]. split; [exists []; symmetry; apply app_nil_r|intros c []]. }
  apply Forall_cons_iff in HP as [Hx Hl].
  destruct (f x h) as [e|[y h1]] eqn:Ef; [discriminate|].
  destruct (Hf x h y h1 (or_introl eq_refl) Hx Hc Ef) as (Hc1 & [e1 ->] & Hy & Hny).
  destruct (mapHeap f l (h ++ e1)) as [e|[ys h2]] eqn:Em; [discriminate|]. injection E as <- <-.
  destruct (IH (fun x' h0 y0 h0' Hin => Hf x' h0 y0 h0' (or_intror Hin)) Hl _ _ _ Hc1 Em) as (Hc2 & [e2 ->] & Hys).
  split; [exact Hc2|]. split; [exists (e1 ++ e2); symmetry; apply app_assoc|].
  intros c [<-|Hin]; [|exact (Hys c Hin)].
  rewrite length_app, obj_app by exact Hy. split; [lia|exact (Hny I)].
Qed.

Lemma formatJob_closed d : forall t h l h', Closed h -> allTitled d = true ->
  formatJob d t h = inr (l, h') -> Grows h l h' (jobTitle d <> None).
Proof.
  induction d as [d IH] using job_ind. intros t h l h' Hc Ht E.
  assert (Hfin : forall lv h1 pc, Closed h1 -> (exists ext, h1 = h ++ ext) -> leavesOk h1 lv ->
            @inr FormatError _ (alloc (mkTreeChartData (jobTitle d) (let 'mkJob _ _ _ _ _ u := d in u) lv
                                   (let 'mkJob c _ _ _ _ _ := d in c) pc) h1) = inr (l, h') ->
            Grows h l h' (jobTitle d <> None)).
  { intros lv h1 pc Hc1 [e1 ->] Hl1 Ea. unfold alloc in Ea. injection Ea as <- <-.
    split; [now apply closed_alloc|]. split; [exists (e1 ++ [mkTreeChartData (jobTitle d) (let 'mkJob _ _ _ _ _ u := d in u) lv
                                   (let 'mkJob c _ _ _ _ _ := d in c) pc]); now rewrite app_assoc|].
    split; [rewrite !length_app; cbn [List.length]; lia|].
    unfold obj. rewrite app_nth2, PeanoNat.Nat.sub_diag by lia. cbn. auto. }
  destruct d as [c n fj hr ti u]. cbn [formatJob] in E.
  destruct fj as [[fc [js|] dt]|]; cbn [allTitled] in Ht.
  - destruct (positive fc); [|exact (Hfin None h _ Hc (ex_intro _ [] (eq_sym (app_nil_r h))) I E)].
    destruct (mapHeap _ js h) as [e|[ls h1]] eqn:Em; [discriminate|].
    rewrite forallb_forall, <- Forall_forall in Ht.
    destruct (mapHeap_closed (fun o h => match o with Some j => formatJob j fc h | None => inl DestructureNull end)
                (fun o => (match o with
                        | Some j => match jobTitle j with Some _ => allTitled j | None => false end
                        | None => true end) = true) js
                ltac:(intros [j|] h0 y h0' Hin Hj Hc0 Ef; [|cbn in Ef; discriminate Ef];
                      destruct (jobTitle j) eqn:Ej; try rewrite Ej in Hj; [|discriminate Hj];
                      destruct (IH j Hin fc h0 y h0' Hc0 Hj Ef) as (A & B & C & D);
                      exact (conj A (conj B (conj C (fun _ => D ltac:(congruence))))))
                Ht h ls h1 Hc Em) as (Hc1 & Hx & Hl1).
    exact (Hfin (Some ls) h1 _ Hc1 Hx Hl1 E).
  - destruct (positive fc); [discriminate|].
    exact (Hfin None h _ Hc (ex_intro _ [] (eq_sym (app_nil_r h))) I E).
  - exact (Hfin None h _ Hc (ex_intro _ [] (eq_sym (app_nil_r h))) I E).
Qed.

(** C12: [formatDataForTreeChart] never returns [null]: given [null] or
    [undefined] it throws, because it destructures [data] before its
    [if (!data)] guard; given a job it returns a [TreeChartData] object
    exactly when every [futureJobs] with a positive [count] down the tree
    has a [jobs] array whose entries are objects, and throws otherwise. *)
Theorem formatData_returns data t h :
  ((exists r, formatDataForTreeChart data t h = inr r) <->
   match data with Some d => wf d = true | None => False end) /\
  (data = None -> formatDataForTreeChart data t h = inl DestructureNull).
Proof.
  split; [|intros ->; reflexivity].
  destruct data as [d|]; [apply formatJob_returns|]. cbn. split; [intros [r Hr]; discriminate|contradiction].
Qed.

(** The chart of a well-formed, titled DTO: its props, and a [TreeChart]
    whose render does not throw on any state the user reaches. *)
Lemma render_safe_of p d formatComp :
  data p = Some d -> wf d && allTitled d = true ->
  exists h tp, render p = inr (h, tp) /\
    forall w, Reachable h tp w -> exists v, Tree.render h tp formatComp (st w) = inr v.
Proof.
  intros Ed Hd. apply andb_prop in Hd as [Hw Ht].
  destruct (proj2 (formatJob_returns d None []) Hw) as [[l h'] E].
  destruct (formatJob_closed d None [] l h' closed_nil Ht E) as (Hc & _).
  exists h', (mkTreeChartProps (Some l) (detailToShow p) (showTwoLevels p)). split.
  - unfold render, formatDataForTreeChart. rewrite Ed, E. reflexivity.
  - intros w HR. apply (inv_render h' _ formatComp).
    + intros q c Hqc. exact (proj2 (Hc q c Hqc)).
    + apply reachable_inv, HR.
Qed.

(** C13: When every future job the DTO lists is an object with a
    [jobTitle], and every [futureJobs] with a positive [count] has its
    [jobs], [CareerPathChart] builds its data without throwing and the
    [TreeChart] it renders never throws on any state the user reaches by
    resizing and clicking: every object in a [leaves] array has the
    [name] the [TreeChart] reads. *)
Theorem career_path_chart_safe (p : CareerPathChartProps) formatComp :
  match data p with Some d => wf d && allTitled d = true | None => False end ->
  exists h tp, render p = inr (h, tp) /\
    forall w, Reachable h tp w -> exists v, Tree.render h tp formatComp (st w) = inr v.
Proof.
  intros Hd. destruct (data p) as [d|] eqn:Ed; [|contradiction]. exact (render_safe_of p d formatComp Ed Hd).
Qed.

End CareerPathFacts.

Module CareerPathTests.
Open Scope string_scope.
Import Tree CareerPath CareerPathFacts.

Definition job (title url : string) (count : Z) (comp : Q) (future : option CareerPathChartData) : CareerPathJob :=
  mkJob (Some (Fin comp)) (Some (Fin (inject_Z count))) future (Some false) (Some title) (Some url).

Definition future (count : Z) (jobs : list CareerPathJob) : option CareerPathChartData :=
  Some (mkData (Some (Fin (inject_Z count))) (Some (map Some jobs)) None).

(** The data of [careerPathChart.spec.tsx]. *)
Definition testData : CareerPathJob :=
  mkJob None None (future 6039
    [job "Accounting Manager" "/research/US/Job=Accounting_Manager/Salary" 500 (6976627117235566 # 100000000000)
       (future 4507
          [job "Financial Controller" "/research/US/Job=Financial_Controller/Salary" 642 (81208146638891 # 1000000000) None;
           job "Corporate Controller" "/research/US/Job=Corporate_Controller/Salary" 405 (9553936287471383 # 100000000000) None;
           job "Assistant Controller" "/research/US/Job=Assistant_Controller/Salary" 206 (7319982853645743 # 100000000000) None]);
     job "Bookkeeper" "/research/US/Job=Bookkeeper/Hourly_Rate" 118 (4171571453215485 # 100000000000)
       (future 2997
          [job "Staff Accountant" "/research/US/Job=Staff_Accountant/Salary" 252 (4945990751684296 # 100000000000) None;
           job "Accountant" "/research/US/Job=Accountant/Salary" 233 (5081533082630352 # 100000000000) None;
           job "Full Charge Bookkeeper" "/research/US/Job=Full_Charge_Bookkeeper/Hourly_Rate" 228 (4837689876999054 # 100000000000) None]);
     job "Accounting Supervisor" "/research/US/Job=Accounting_Supervisor/Salary" 117 (6370342063404577 # 100000000000)
       (future 1218
          [job "Accounting Manager" "/research/US/Job=Accounting_Manager/Salary" 278 (6976627117235566 # 100000000000) None;
           job "Financial Controller" "/research/US/Job=Financial_Controller/Salary" 87 (81208146638891 # 1000000000) None;
           job "Senior Accountant" "/research/US/Job=Senior_Accountant/Salary" 63 (6613979189999116 # 100000000000) None])])
    None (Some "Accountant") None.

Definition formatted (d : option CareerPathJob) : option (Loc * Heap) :=
  match formatDataForTreeChart d None [] with inr r => Some r | inl _ => None end.

Definition childAt (r : Loc * Heap) (path : list nat) : option TreeChartData :=
  let '(l, h) := r in
  option_map (obj h) (fold_left (fun o i => match o with
                                            | Some x => match leaves (obj h x) with Some ls => nth_error ls i | None => None end
                                            | None => None end) path (Some l)).

Definition pctIs (n : option TreeChartData) (q : Q) : bool :=
  match n with Some t => match percentage t with Some (Fin x) => Qeq_bool x q | _ => false end | None => false end.

(** "should convert the data correctly for TreeChart". *)
Example convert_tests :
  let r := formatted (Some testData) in
  option_map name (match r with Some r => childAt r [] | None => None end) = Some (Some "Accountant") /\
  option_map (fun t => option_map (@List.length Loc) (leaves t)) (match r with Some r => childAt r [] | None => None end) =
    Some (Some 3%nat) /\
  option_map name (match r with Some r => childAt r [0%nat] | None => None end) = Some (Some "Accounting Manager") /\
  pctIs (match r with Some r => childAt r [0%nat] | None => None end) (500 # 6039) = true /\
  option_map url (match r with Some r => childAt r [0%nat] | None => None end) =
    Some (Some "/research/US/Job=Accounting_Manager/Salary") /\
  option_map name (match r with Some r => childAt r [0%nat; 0%nat] | None => None end) = Some (Some "Financial Controller") /\
  pctIs (match r with Some r => childAt r [0%nat; 0%nat] | None => None end) (642 # 4507) = true.
Proof. vm_compute. repeat split. Qed.

(** "doesnt render if no data" (an empty object: a root without leaves),
    "doesnt render leaves if missing total count" (a [null] count), a
    [null] job and a missing [jobs] array (both throw). *)
Example edge_tests :
  option_map (fun r => leaves (obj (snd r) (fst r))) (formatted (Some (mkJob None None None None None None))) = Some None /\
  option_map (fun r => leaves (obj (snd r) (fst r)))
    (formatted (Some (mkJob None None (Some (mkData None (Some [Some testData]) None)) None (Some "Accountant") None))) =
    Some None /\
  formatDataForTreeChart None None [] = inl DestructureNull /\
  formatDataForTreeChart (Some (mkJob None None (Some (mkData (Some (Fin 3)) None None)) None None None)) None [] =
    inl MapOfUndefined /\
  formatDataForTreeChart (Some (mkJob None None (Some (mkData (Some (Fin 3)) (Some [None]) None)) None None None)) None [] =
    inl DestructureNull.
Proof. repeat split; vm_compute; reflexivity. Qed.

(** "renders without name if missing job title" covers the root; a
    listed job without a title makes the [TreeChart] throw as soon as it
    is mounted, reading the [length] of its [name]. *)
Example untitled_leaf_throws :
  let d := mkJob None None (future 10 [mkJob None (Some (Fin 4)) None None None None]) None (Some "Root") None in
  match render (mkProps (Some d) None false) with
  | inr (h, tp) => match Tree.render h tp (fun _ => "") (st (mount h tp 1024)) with inl _ => true | inr _ => false end
  | inl _ => false
  end = true.
Proof. vm_compute. reflexivity. Qed.

Lemma career_path_chart_safe_witness :
  exists h tp, render (mkProps (Some testData) (Some DComp) true) = inr (h, tp) /\
    forall w, Reachable h tp w -> exists v, Tree.render h tp (fun _ => "") (st w) = inr v.
Proof. apply (career_path_chart_safe (mkProps (Some testData) (Some DComp) true)). vm_compute. reflexivity. Defined.

End CareerPathTests.
