(* ===== verification/CardStories.v ===== *)
(** * The Storybook stories of the employee details cards

      Each [*.stories.tsx] of [src/src/EmployeeDetailsCards] mounts its
      card once per story with props read from knobs ([text],
      [number], [boolean], [object] of [@storybook/addon-knobs]), each
      with a default.  A knob is an [option]: [None] while untouched (the
      default is used), [Some v] once set in the panel ([knob]).  A story
      file is one definition: the list of its stories, by name, with what
      the card renders (DetailCards.v).  [numberToString] is a parameter,
      as in DetailCards.v. *)

From Stdlib Require Import QArith List String Bool Lia.
From S2P Require Import Prelude StringUtils CurrencyUtils PayRange BenefitsChart BarChartLayout MarketTrends PayHistory DetailCards.
Import ListNotations.
Open Scope string_scope.
Local Open Scope list_scope.

Module CardStories.
Import Markup.

(** A knob: its value once set, else its default. *)
Definition knob {A} (set : option A) (default : A) : A :=
  match set with Some v => v | None => default end.

(** [number(...)]: a number of the panel. *)
Definition numKnob (set : option num) (default : Q) : Pay.jsval := Pay.JNum (knob set (Fin default)).

Section Stories.
Variable numberToString : num -> string.

(** [EmployeeDetailsCard.stories.tsx] (lines 6-25): six [text] knobs. *)
Definition employeeDetailsStories (hire email manager location employeeId department : option string)
  : list (string * option Node) :=
  let formatFunc := fun (hireDate _ : string) => hireDate in
  [("Show employee card",
    EmployeeDetails.render numberToString
      (EmployeeDetails.mkProps (Some (knob hire "2018-07-20")) (Some (EmployeeDetails.IdStr (knob employeeId "6789")))
         (Some (knob location "Mars")) (Some (knob manager "Mr. Doe")) (Some (knob email "john@underpaid.com"))
         (Some (knob department "classified")) (Some formatFunc)))].

End Stories.

(** [performanceRatingCard.stories.tsx] (lines 5-27). *)
Definition performanceRatingStories (firstName rating : option string) : list (string * option Node) :=
  [("show performance rating",
    PerformanceRating.render (PerformanceRating.mkProps (Some (knob firstName "John Doe"))
                                (Some (knob rating "Meets expectation"))));
   ("show performance rating without employee name",
    PerformanceRating.render (PerformanceRating.mkProps None (Some (knob rating "Meets expectation"))));
   ("show empty performance rating",
    PerformanceRating.render (PerformanceRating.mkProps (Some (knob firstName "John Doe")) None))].

(** [CompensationCard.stories.tsx] (lines 6-30); [date] is the
    [text('date', new Date().toDateString())] knob, whose default is the
    day the story is shown. *)
Definition compensationStories (currency : option string) (pay : option num) (hourly : option bool)
    (date : option string) (today : string) : list (string * Node) :=
  let dateFormatter := fun (date _ : string) => date in
  [("show compensation",
    Compensation.render (Compensation.mkProps (numKnob pay 50) (Some (knob hourly true)) (Some (knob currency "USD"))
                           None dateFormatter));
   ("show compensation with pay effective date",
    Compensation.render (Compensation.mkProps (numKnob pay 50) (Some (knob hourly true)) (Some (knob currency "USD"))
                           (Some (knob date today)) dateFormatter));
   ("show no pay message",
    Compensation.render (Compensation.mkProps Pay.JNull None (Some (knob currency "USD")) None dateFormatter))].

(** [TotalCashCompensationCard.stories.tsx] (lines 5-41); the three
    lists are [object] knobs. *)
Definition totalCashStories (currency : option string) (total : option num)
    (tccList contribList uncalcList : option (list Benefits.BenefitDetailsItem)) : list (string * Node) :=
  let tcc := [Benefits.mkItem "Base Salary" 122000; Benefits.mkItem "Variable" 6000; Benefits.mkItem "Commission" 0] in
  let contrib := [Benefits.mkItem "Bonus" 5698] in
  let uncalc := [Benefits.mkItem "Vacation & Sick" 3676; Benefits.mkItem "Personal" 6923;
                 Benefits.mkItem "Holidays" 1966] in
  [("empty cash compensation card",
    TotalCash.render (TotalCash.mkProps (Some (knob currency "NZD")) (numKnob total 50000) None None
                        (knob tccList []) (knob contribList []) (knob uncalcList [])));
   ("cash compensation card",
    TotalCash.render (TotalCash.mkProps (Some (knob currency "NZD")) (numKnob total 50000) None None
                        (knob tccList tcc) (knob contribList contrib) (knob uncalcList uncalc)))].

(** [MarketSnapshotCard.stories.tsx] (lines 5-25): the card is
    constructed with the default strings. *)
Definition marketSnapshotStories (currency : option string) (b25 b50 b75 t25 t50 t75 : option num)
  : list (string * option Node) :=
  let s := MarketSnapshot.defaultStrings in
  [("Market snapshot",
    MarketSnapshot.render (MarketSnapshot.construct s) s
      (MarketSnapshot.mkProps (Some (knob currency "USD")) (numKnob b25 1234) (numKnob b50 2345) (numKnob b75 3456)
         (numKnob t25 12345) (numKnob t50 23456) (numKnob t75 34567)))].

(** [RangePenetrationCard.stories.tsx] (lines 5-27): the knobs are
    keyed by name, so both stories read the same [Pay], [Hourly pay],
    [Range min] and [Range max]; each story has its own defaults.  The
    [currency] knob only reaches [FormattedCurrency] and is left out. *)
Definition rangePenetrationStories (pay : option num) (hourlyPay : option bool) (rangeMin rangeMax : option num)
    (hourlyRange : option bool) : list (string * (Pay.PenView * option (Pay.jsval * Pay.jsval))) :=
  let card p := (Pay.renderPen p, Pay.renderVizLabels p) in
  [("range penetration card for hourly pay and range is annual",
    card (Pay.mkPenProps (numKnob pay 15) (knob hourlyPay true) (numKnob rangeMax (20 * 2080))
                         (numKnob rangeMin (10 * 2080)) false));
   ("range penetration card for annual pay and range is hourly",
    card (Pay.mkPenProps (numKnob pay (15 * 2080)) (knob hourlyPay false) (numKnob rangeMax 20) (numKnob rangeMin 10)
                         (knob hourlyRange true)))].

(** [RangeDistributionCard.stories.tsx] (lines 6-35), with the default
    strings and the [_positionStrings] built from them. *)
Definition rangeDistributionStories (dist : option (list num)) (rangeMin rangeMax pay : option num)
    (hourlyRange hourlyPay : option bool) : list (string * option Pay.DistView) :=
  let s := Pay.distStrings in
  let card p := Pay.render s (Pay.construct None s) p in
  [("show range distribution hourly",
    card (Pay.mkDistProps None (Some (knob dist [Fin 1; Fin 2; Fin 3; Fin 4; Fin 5; Fin 6]))
            (numKnob rangeMin 10) (numKnob rangeMax 100) (knob hourlyRange true) (numKnob pay 40) (knob hourlyPay true)));
   ("show range distribution annual",
    card (Pay.mkDistProps None (Some (knob dist [Fin 5; Fin 10; Fin 40; Fin 30; Fin 10; Fin 5]))
            (numKnob rangeMin 10) (numKnob rangeMax 100) (knob hourlyRange false) (numKnob pay (40 * 2080))
            (knob hourlyPay false)))].

Section PayHistoryStories.
Variable parseDate : string -> num.
Variable utcYear : string -> num.
Variable dayjsFormat : string -> string -> string.
Variable numberToString : num -> string.
Variable largeToString : Q -> string.
Variable intl : option Currency.NumberFormat.

(** An [object] knob of pay points: the array, allocated alone. *)
Definition pointsHeap (pts : list PayHistory.PayHistoryDataPoint) : PayHistory.Heap := [pts].

(** [PayHistoryBarChartCard.stories.tsx] (lines 6-46). *)
Definition payHistoryBarChartStories (currency : option string) (salary : option Q) (payEffectiveDate : option string)
    (points : option (list PayHistory.PayHistoryDataPoint))
  : list (string * (PayHistory.Heap * Currency.Res Layout.BarChartProps)) :=
  let pt s d := PayHistory.mkPoint s d in
  let asc := [pt 20000 "2018-06-05T00:00:00Z"; pt 10000 "2017-06-05T00:00:00Z"; pt 30000 "2019-06-05T00:00:00Z"] in
  let desc := [pt 40000 "2019-06-05T00:00:00Z"; pt 50000 "2019-05-05T00:00:00Z"; pt 60000 "2019-04-05T00:00:00Z"] in
  let card hist h := BarChartCard.render parseDate dayjsFormat largeToString intl
        (BarChartCard.mkProps (knob currency "CAD") (knob salary 85000) (knob payEffectiveDate "2019-06-05T00:00:00Z")
           hist None) h in
  [("Show basic salary only", card None []);
   ("Pay history ascending bar chart card", card (Some 0%nat) (pointsHeap (knob points asc)));
   ("Pay history descending bar chart card", card (Some 0%nat) (pointsHeap (knob points desc)))].

(** [PayHistorySummaryCard.stories.tsx] (lines 6-42). *)
Definition payHistorySummaryStories (employeeName currency : option string)
    (points : option (list PayHistory.PayHistoryDataPoint))
  : list (string * (PayHistory.Heap * Currency.Res SummaryCard.SummaryView)) :=
  let pt s d := PayHistory.mkPoint s d in
  let inc := [pt 1 "2015-06-05T00:00:00Z"; pt 5 "2019-06-05T00:00:00Z"; pt 2 "2016-06-05T00:00:00Z";
              pt 4 "2018-06-05T00:00:00Z"; pt 3 "2017-06-05T00:00:00Z"] in
  let dec := [pt 2 "2019-06-05T00:00:00Z"; pt 1 "2018-06-05T00:00:00Z"; pt 3 "2017-06-05T00:00:00Z"] in
  let card hist h := SummaryCard.getSummary parseDate utcYear numberToString largeToString intl
        (SummaryCard.mkProps (knob employeeName "John Doe") (knob currency "USD") hist) h in
  [("Empty pay history summary", card None []);
   ("Pay history summary increased ", card (Some 0%nat) (pointsHeap (knob points inc)));
   ("Pay history summary decreased", card (Some 0%nat) (pointsHeap (knob points dec)))].

End PayHistoryStories.

Section MarketTrendsStories.
Variable getTime : option string -> num.
(** The story's [dateFormatter]: [new Date(dateStr)] in the local time
    zone, so a parameter. *)
Variable dateFormatter : option string -> string -> string.

(** [MarketTrends.stories.tsx] (lines 7-81): the card, the chart and the
    summary. *)
Definition marketTrendsStories (jobTitle currency : option string) (cardData : option (list Trends.MarketTrend))
    (trends : option (list Trends.MarketTrendChange)) (change : option Trends.MarketTrendChange)
  : option (Trends.Summary * list Trends.ChartBar) * list Trends.ChartBar * Trends.Summary :=
  let entry d v := Trends.mkTrend (Some d) (Some "Euro (EUR)") Pay.JUndefined (Pay.JNum (Fin v)) in
  let data := [entry "2016-07-28T07:00:00Z" 100; entry "2016-10-28T07:00:00Z" 105; entry "2017-01-28T08:00:00Z" 103;
               entry "2017-04-28T07:00:00Z" 102; entry "2017-07-28T07:00:00Z" 109] in
  let chg a d := Trends.mkChange (Some d) (Fin a) (Fin a) in
  let trendData := [chg 0 "2016-09-28T07:00:00Z"; chg 4 "2016-12-28T08:00:00Z"; chg 4 "2017-03-28T07:00:00Z";
                    chg 10 "2017-06-28T07:00:00Z"; chg 10 "2017-09-28T07:00:00Z"] in
  (Trends.render getTime dateFormatter (Trends.mkProps (Some (knob jobTitle "Developer")) (Some (knob cardData data))),
   Trends.renderChart dateFormatter (knob trends trendData),
   Trends.renderSummary dateFormatter (Some (knob currency "EUR")) (Some (knob change (chg 10 "2017-09-28T07:00:00Z")))
     (knob jobTitle "Developer")).

End MarketTrendsStories.

(** ** What the stories show, for every setting of the knobs *)

(** Every text of a tree, in document order. *)
Fixpoint allTexts (n : Node) : list string :=
  match n with
  | Text s => [s]
  | Elem _ _ cs => flat_map allTexts cs
  | Currency _ _ _ _ | BenefitsChartView _ => []
  end.

(** The headers of the employee details list. *)
Definition headers (o : option Node) : list string :=
  match o with
  | Some (Elem "ul" _ items) =>
      flat_map (fun i => match i with
                         | Elem "li" _ [Elem _ _ [_; Elem _ _ (Elem "h5" _ [Text h] :: _)]] => [h]
                         | _ => []
                         end) items
  | _ => []
  end.

Lemma truthy_str s : s <> "" -> truthy (CStr s) = true.
Proof. intros H. cbn. apply negb_true_iff, String.eqb_neq, H. Qed.

(** The employee card story lists the six items in the order of the code
    whenever no text knob is cleared; the id is a text, so the [0 &&]
    of a numeric id does not arise. *)
Theorem employee_story_lists_all numberToString hire email manager location employeeId department :
  Forall (fun s => s <> "") [knob hire "2018-07-20"; knob email "john@underpaid.com"; knob manager "Mr. Doe";
                             knob location "Mars"; knob employeeId "6789"; knob department "classified"] ->
  map (fun '(_, o) => headers o) (employeeDetailsStories numberToString hire email manager location employeeId department)
  = [[EmployeeDetails.S.hireDate; EmployeeDetails.S.employeeId; EmployeeDetails.S.location;
      EmployeeDetails.S.manager; EmployeeDetails.S.email; EmployeeDetails.S.department]].
Proof.
  intros H. rewrite !Forall_cons_iff in H. destruct H as (H1 & H2 & H3 & H4 & H5 & H6 & _).
  unfold employeeDetailsStories, EmployeeDetails.render, EmployeeDetails.listChildren. cbn [EmployeeDetails.dateOfHire
    EmployeeDetails.employeeId EmployeeDetails.workLocation EmployeeDetails.managerName EmployeeDetails.email
    EmployeeDetails.department EmployeeDetails.idChild optStr].
  unfold jsAnd. rewrite !truthy_str by assumption. reflexivity.
Qed.

(** The rating card renders nothing without a rating, and names "This
    employee" without a first name. *)
Theorem performance_stories firstName rating :
  snd (nth 2 (performanceRatingStories firstName rating) ("", None)) = None /\
  (knob rating "Meets expectation" <> "" ->
   exists n, snd (nth 1 (performanceRatingStories firstName rating) ("", None)) = Some n /\
     In "This employee demonstrates a performance of" (allTexts n)).
Proof.
  split; [vm_compute; reflexivity|]. intros Hr. cbn [performanceRatingStories nth snd].
  unfold PerformanceRating.render, PerformanceRating.isValidData.
  cbn [PerformanceRating.performanceRating PerformanceRating.firstName optStr]. rewrite (truthy_str _ Hr).
  cbn [negb]. eexists; split; [reflexivity|]. vm_compute. tauto.
Qed.

(** The compensation stories: the amount with ["/hr"] exactly when the
    [hourly] knob is on, and ["N/A"] with the no-pay message when [pay]
    is [null], whatever the other knobs. *)
Theorem compensation_stories currency pay hourly date today :
  let st := map snd (compensationStories currency pay hourly date today) in
  currencyVals (nth 0 st (Text "")) = [numKnob pay 50] /\
  (In " /hr" (allTexts (nth 0 st (Text ""))) <-> knob hourly true = true) /\
  currencyVals (nth 2 st (Text "")) = [] /\
  In Compensation.noPayData (allTexts (nth 2 st (Text ""))) /\ In Compensation.notApplicable (allTexts (nth 2 st (Text ""))).
Proof.
  cbn. split; [reflexivity|]. split; [|split; [reflexivity|split; tauto]].
  destruct (knob hourly true); cbn; intuition discriminate.
Qed.

(** The snapshot story renders the table for every setting of its six
    number knobs, with the knobs' values as the [FormattedCurrency]
    cells, total cash before base pay in each percentile. *)
Theorem market_snapshot_story currency b25 b50 b75 t25 t50 t75 :
  map (fun '(_, o) => option_map currencyVals o) (marketSnapshotStories currency b25 b50 b75 t25 t50 t75)
  = [Some [numKnob t25 12345; numKnob b25 1234; numKnob t50 23456; numKnob b50 2345; numKnob t75 34567; numKnob b75 3456]].
Proof. reflexivity. Qed.

(** Both total cash stories show the total as the card's one amount. *)
Example total_cash_stories :
  map (fun '(_, n) => currencyVals n) (totalCashStories None None None None None)
  = [[Pay.JNum (Fin 50000)]; [Pay.JNum (Fin 50000)]].
Proof. vm_compute. reflexivity. Qed.

(** ** The stories at the knobs' defaults *)

Module CardStoriesTests.

(** Both penetration stories put the pay half-way into the range. *)
Example range_penetration_stories :
  map (fun '(_, (v, _)) => Pay.penetrationValue v) (rangePenetrationStories None None None None None) = [Fin 50; Fin 50].
Proof. vm_compute. reflexivity. Qed.

(** The annual distribution story scales its pay to a year ([pay * 2080])
    but keeps the hourly story's range [10]-[100] with [isHourlyRange]
    off: the card shows the employee above the range. *)
Example annual_story_above_range :
  map (fun '(_, o) => option_map Pay.description o) (rangeDistributionStories None None None None None None)
  = [Some ("This employee and 33% of the organization are in the", " middle ", "of the range");
     Some ("This employee and 5% of the organization are", " above ", "the range")].
Proof. vm_compute. reflexivity. Qed.

Import PayHistoryTests.

(** The bar chart stories chart the points in date order. *)
Example pay_history_bar_stories :
  map (fun '(_, (_, r)) => match r with inr p => inr (map DataRange.label (Layout.bars p)) | inl e => inl e end)
    (payHistoryBarChartStories parseDate dayjsFormat big None None None None None)
  = [inr [Some "85K"]; inr [Some "10K"; Some "20K"; Some "30K"]; inr [Some "60K"; Some "50K"; Some "40K"]].
Proof. vm_compute. reflexivity. Qed.

Example pay_history_summary_stories :
  map (fun '(_, (_, r)) => r) (payHistorySummaryStories parseDate utcYear numberToString big None None None None)
  = [inr (SummaryCard.NoHistory "John Doe does not have any pay history data.");
     inr (SummaryCard.Summary "John Doe's pay increased from 1.00 to 5.00 in the last 4 years."
            "This is an increase of" (Fin 400.0));
     inr (SummaryCard.Summary "John Doe's pay decreased from 3.00 to 2.00 in the last 2 years."
            "This is a decrease of" (Fin (-33.3)))].
Proof. vm_compute. reflexivity. Qed.

(** The card charts the last four changes of its five points and reports
    the 9% of the last; the chart story charts the last four of its five
    changes. *)
Example market_trends_stories :
  let '(card, chart, summary) :=
    marketTrendsStories Trends.MarketTrendsTests.testTime Trends.MarketTrendsTests.testFormat None None None None None in
  option_map (fun '(sm, bars) => (Trends.percentShown sm, List.length bars)) card = Some (Fin 9.0, 4%nat) /\
  map Trends.barValue chart = [Fin 4; Fin 4; Fin 10; Fin 10] /\ Trends.percentShown summary = Fin 10.0.
Proof. vm_compute. repeat split. Qed.

End CardStoriesTests.

End CardStories.
