(* ===== verification/Stories.v ===== *)
(** * The Storybook stories of the charts

      [TreeChart.stories.tsx] and [CareerPathChart.stories.tsx] mount the
      charts with literal data and two knobs: [select('detailToShow',
      ['comp', 'link'], 'comp')] and [boolean('showTwoLevels', true)].
      [Knobs] is what the knobs panel can set; the theorems hold for every
      value of it.  The TreeChart's [summary] story reads its data through
      the [object('treeChartData', defaultValue)] knob, modelled at its
      default value.

      A story's object literal ([Lit]) is evaluated into TreeChart.v's heap
      by [allocLit]; the children are allocated before their parent.  The
      TreeChart compares references only for identity and the literal's
      objects are all distinct, so the order does not change what is
      rendered.  The [key={JSON.stringify(...)}] prop, which makes React
      remount the chart when the data knob changes, is not modelled: each
      story is one mount of the chart. *)

From Stdlib Require Import QArith List String Bool Lia.
From S2P Require Import Prelude DataRange AxisTicks DecimalPlaces BarGeometry BarChartLayout TreeChart CareerPathChart BenefitsChart StaticMarkup CardStories.
Import ListNotations.
Open Scope string_scope.
Local Open Scope list_scope.

Module Knobs.
Import Tree.

(** The knobs of [StoryContainer]: [detailToShow] and [showTwoLevels]. *)
Record Knobs : Type := mkKnobs { detailKnob : DetailKind; twoLevelsKnob : bool }.

End Knobs.

Module TreeChartStories.
Import Tree Knobs.

(** An object literal of [TreeChartData]: [name], [url], [value],
    [percentage] and [leaves], each of which may be left out. *)
Inductive Lit : Type :=
| LObj (name url : option string) (value percentage : option num) (leaves : option (list Lit)).

(** Evaluating a literal into the heap: its reference and the heap. *)
Fixpoint allocLit (l : Lit) (h : list TreeChartData) : Loc * list TreeChartData :=
  match l with
  | LObj n u v p None => (List.length h, h ++ [mkTreeChartData n u None v p])
  | LObj n u v p (Some ls) =>
      let '(locs, h') :=
        (fix go (ls : list Lit) (h : list TreeChartData) : list Loc * list TreeChartData :=
           match ls with
           | [] => ([], h)
           | x :: xs => let '(r, h1) := allocLit x h in let '(rs, h2) := go xs h1 in (r :: rs, h2)
           end) ls h in
      (List.length h', h' ++ [mkTreeChartData n u (Some locs) v p])
  end.

(** The [summary] story's [defaultValue] (lines 15-97). *)
Definition defaultValue : Lit :=
  LObj (Some "Software Engineer") None None None (Some [
    LObj (Some "Senior Software Engineer") (Some "/research/US/Job=Senior_Software_Engineer/Salary") (Some (Fin 103000)) (Some (Fin 0.2)) (Some [
      LObj (Some "Architect") (Some "/research/US/Job=Architect/Salary") (Some (Fin 130000)) (Some (Fin 0.3)) None;
      LObj (Some "Principal Software Engineer") (Some "/research/US/Job=Principal_Software_Engineer/Salary") (Some (Fin 130000)) (Some (Fin 0.15)) None;
      LObj (Some "Senior Software Architect") (Some "/research/US/Job=Principal_Software_Engineer/Salary") (Some (Fin 130000)) (Some (Fin 0.23)) None]);
    LObj (Some "Lead Software Engineer") (Some "/research/US/Job=Lead_Software_Engineer/Salary") (Some (Fin 105000)) (Some (Fin 0.3)) (Some [
      LObj (Some "Software Development Manager") (Some "/research/US/Job=Architect/Salary") (Some (Fin 130000)) (Some (Fin 0.4)) None;
      LObj (Some "Solutions Architect") (Some "/research/US/Job=Principal_Software_Engineer/Salary") (Some (Fin 130000)) (Some (Fin 0.1)) None;
      LObj (Some "Lead Software Engineer") (Some "/research/US/Job=Principal_Software_Engineer/Salary") (Some (Fin 130000)) (Some (Fin 0.2)) None]);
    LObj (Some "Software Architect") (Some "/research/US/Job=Software_Architect/Salary") (Some (Fin 102000)) (Some (Fin 0.1)) (Some [
      LObj (Some "Software Engineering Manager") (Some "/research/US/Job=Architect/Salary") (Some (Fin 130000)) (Some (Fin 0.2)) None;
      LObj (Some "Software Development Director") (Some "/research/US/Job=Principal_Software_Engineer/Salary") (Some (Fin 130000)) (Some (Fin 0.4)) None;
      LObj (Some "Software Architect, Applications") (Some "/research/US/Job=Principal_Software_Engineer/Salary") (Some (Fin 130000)) (Some (Fin 0.1)) None])]).

(** [StoryContainer] (lines 193-207): the [TreeChart] with the knobs'
    values; the heap and the props. *)
Definition StoryContainer (k : Knobs) (treeChartData : Lit) : list TreeChartData * TreeChartProps :=
  let '(r, h) := allocLit treeChartData [] in
  (h, mkTreeChartProps (Some r) (Some (detailKnob k)) (twoLevelsKnob k)).

(** The [summary] story (lines 14-100). *)
Definition summary (k : Knobs) : list TreeChartData * TreeChartProps := StoryContainer k defaultValue.

(** The [single] story (lines 101-107): no knobs, [showTwoLevels]
    undefined. *)
Definition single : list TreeChartData * TreeChartProps :=
  let '(r, h) := allocLit (LObj (Some "Software Engineer") None None None None) [] in
  (h, mkTreeChartProps (Some r) None false).

(** The [complex] story (lines 108-192). *)
Definition complex : list TreeChartData * TreeChartProps :=
  let '(r, h) := allocLit (
    LObj (Some "Junior Software Engineer") None None None (Some [
      LObj (Some "Software Engineer") (Some "/research/US/Job=Software_Engineer/Salary") (Some (Fin 84065)) (Some (Fin 0.3)) (Some [
        LObj (Some "Senior Software Engineer") (Some "/research/US/Job=Senior_Software_Engineer/Salary") (Some (Fin 103000)) (Some (Fin 0.2)) (Some [
          LObj (Some "Software Architect") (Some "/research/US/Job=Software_Architect/Salary") (Some (Fin 121502)) (Some (Fin 0.1)) (Some [
            LObj (Some "Solutions Architect") (Some "/research/US/Job=Solutions_Architect/Salary") (Some (Fin 115789)) (Some (Fin 0.5)) None;
            LObj (Some "Senior Software Architect") (Some "/research/US/Job=Senior_Software_Architect/Salary") (Some (Fin 129823)) (Some (Fin 0.3)) None]);
          LObj (Some "Principal Software Engineer") (Some "/research/US/Job=Principal_Software_Engineer/Salary") (Some (Fin 130000)) (Some (Fin 0.1)) None;
          LObj (Some "Senior Software Architect") (Some "/research/US/Job=Principal_Software_Engineer/Salary") (Some (Fin 130000)) (Some (Fin 0.23)) None])]);
      LObj (Some "Software Engineer / Developer / Programmer") (Some "/research/US/Job=Software_Engineer_%2f_Developer_%2f_Programmer/Salary") (Some (Fin 75997)) (Some (Fin 0.2)) (Some [
        LObj (Some "Senior Software Engineer") (Some "/research/US/Job=Senior_Software_Engineer/Salary") (Some (Fin 103000)) (Some (Fin 0.1)) None;
        LObj (Some "Principal Software Engineer") (Some "/research/US/Job=Principal_Software_Engineer/Salary") (Some (Fin 130000)) (Some (Fin 0.24)) None]);
      LObj (Some "Software Developer") (Some "/research/US/Job=Software_Developer/Salary") (Some (Fin 69908)) (Some (Fin 0.6)) None])) [] in
  (h, mkTreeChartProps (Some r) None false).

(** Every object of a [leaves] array has a [name]: [Named], as a test. *)
Definition namedB (h : list TreeChartData) : bool :=
  forallb (fun n => match leaves n with
                    | Some ls => forallb (fun c => if name (obj h c) then true else false) ls
                    | None => true
                    end) h.

Lemma namedB_spec h : namedB h = true -> Named h.
Proof.
  intros H p c Hc. unfold childOf in Hc. destruct (leaves (obj h p)) as [ls|] eqn:E; [|contradiction].
  assert (Hp : (p < List.length h)%nat).
  { destruct (PeanoNat.Nat.lt_ge_cases p (List.length h)) as [Hp|Hp]; [exact Hp|].
    unfold obj in E. rewrite nth_overflow in E by exact Hp. discriminate E. }
  unfold namedB in H. rewrite forallb_forall in H. specialize (H _ (nth_In h emptyNode Hp)).
  fold (obj h p) in H. rewrite E, forallb_forall in H. specialize (H c Hc).
  destruct (name (obj h c)); [discriminate|discriminate H].
Qed.

(** A story does not throw on any state the user reaches. *)
Definition SafeStory (hp : list TreeChartData * TreeChartProps) (formatComp : num -> string) : Prop :=
  forall w, Reachable (fst hp) (snd hp) w -> exists v, render (fst hp) (snd hp) formatComp (st w) = inr v.

Lemma safe_of_named hp formatComp : namedB (fst hp) = true -> SafeStory hp formatComp.
Proof. intros Hn w HR. apply (inv_render _ _ formatComp (namedB_spec _ Hn)), reachable_inv, HR. Qed.

(** Every story of [TreeChart.stories.tsx] ([summary] for every value
    of its knobs, [single] and [complex]) renders without throwing on
    every state a user reaches by resizing the window and clicking leaves
    and back: every object of their [leaves] arrays has a [name]. *)
Theorem tree_stories_safe k formatComp :
  SafeStory (summary k) formatComp /\ SafeStory single formatComp /\ SafeStory complex formatComp.
Proof. repeat split; apply safe_of_named; vm_compute; reflexivity. Qed.

End TreeChartStories.

Module CareerPathChartStories.
Import Tree Knobs CareerPath.

(** The [summary] story's [data] (lines 16-121). *)
Definition data : CareerPathJob :=
  mkJob None None (Some (mkData (Some (Fin 6039)) (Some [
      Some (
        mkJob (Some (Fin 69766.27117235566)) (Some (Fin 500)) (Some (mkData (Some (Fin 4507)) (Some [
            Some (
              mkJob (Some (Fin 81208.146638891)) (Some (Fin 642)) None
                (Some false) (Some "Financial Controller") (Some "/research/US/Job=Financial_Controller/Salary"));
            Some (
              mkJob (Some (Fin 95539.36287471383)) (Some (Fin 405)) None
                (Some false) (Some "Corporate Controller") (Some "/research/US/Job=Corporate_Controller/Salary"));
            Some (
              mkJob (Some (Fin 73199.82853645743)) (Some (Fin 206)) None
                (Some false) (Some "Assistant Controller") (Some "/research/US/Job=Assistant_Controller/Salary"))]) None))
          (Some false) (Some "Accounting Manager") (Some "/research/US/Job=Accounting_Manager/Salary"));
      Some (
        mkJob (Some (Fin 41715.71453215485)) (Some (Fin 118)) (Some (mkData (Some (Fin 2997)) (Some [
            Some (
              mkJob (Some (Fin 49459.90751684296)) (Some (Fin 252)) None
                (Some false) (Some "Staff Accountant") (Some "/research/US/Job=Staff_Accountant/Salary"));
            Some (
              mkJob (Some (Fin 50815.33082630352)) (Some (Fin 233)) None
                (Some false) (Some "Accountant") (Some "/research/US/Job=Accountant/Salary"));
            Some (
              mkJob (Some (Fin 48376.89876999054)) (Some (Fin 228)) None
                (Some false) (Some "Full Charge Bookkeeper") (Some "/research/US/Job=Full_Charge_Bookkeeper/Hourly_Rate"))]) None))
          (Some false) (Some "Bookkeeper") (Some "/research/US/Job=Bookkeeper/Hourly_Rate"));
      Some (
        mkJob (Some (Fin 63703.42063404577)) (Some (Fin 117)) (Some (mkData (Some (Fin 1218)) (Some [
            Some (
              mkJob (Some (Fin 69766.27117235566)) (Some (Fin 278)) None
                (Some false) (Some "Accounting Manager") (Some "/research/US/Job=Accounting_Manager/Salary"));
            Some (
              mkJob (Some (Fin 81208.146638891)) (Some (Fin 87)) None
                (Some false) (Some "Financial Controller") (Some "/research/US/Job=Financial_Controller/Salary"));
            Some (
              mkJob (Some (Fin 66139.79189999116)) (Some (Fin 63)) None
                (Some false) (Some "Senior Accountant") (Some "/research/US/Job=Senior_Accountant/Salary"))]) None))
          (Some false) (Some "Accounting Supervisor") (Some "/research/US/Job=Accounting_Supervisor/Salary"))]) None))
    None (Some "Accountant") None.

(** [StoryContainer] (lines 124-140). *)
Definition StoryContainer (k : Knobs) (d : CareerPathJob) : FormatError + (Heap * TreeChartProps) :=
  render (mkProps (Some d) (Some (detailKnob k)) (twoLevelsKnob k)).

Definition summary (k : Knobs) : FormatError + (Heap * TreeChartProps) := StoryContainer k data.

(** The [summary] story of [CareerPathChart.stories.tsx] builds its
    [TreeChart] for every value of the knobs, and the chart does not throw
    on any state a user reaches. *)
Theorem career_path_story_safe k formatComp :
  exists h tp, summary k = inr (h, tp) /\
    forall w, Reachable h tp w -> exists v, Tree.render h tp formatComp (st w) = inr v.
Proof.
  exact (CareerPathFacts.render_safe_of (mkProps (Some data) (Some (detailKnob k)) (twoLevelsKnob k)) data formatComp
           eq_refl ltac:(vm_compute; reflexivity)).
Qed.

(** The story's data is the data of the repository's test. *)
Example story_data_is_test_data : data = CareerPathTests.testData.
Proof. reflexivity. Qed.

End CareerPathChartStories.

Module BarChartStories.
Import LabelFormatter Geometry Layout.

(** The four bars both stories start from. *)
Definition storyBar (v : Q) (n : string) : BarProps := mkBar v (Some "") (Some n) (Some "") false.

Section Stories.
Context `{NumberLocale} `{TickSource}.

(** [BarChart.stories.tsx] (lines 6-57): [simple] sets only [bars];
    [full] reads every prop from a knob.  The wrapper's [height] style is
    not modelled (the chart lays out in percentages).  Each story is the
    layout of the chart's first render. *)
Definition barChartStories (bars : option (list BarProps)) (showGridLines showQuantAxis verticalBarChart : option bool)
    (minBarHeight : option Q) (minBars : option nat) (minBarLoc : option MinBarLoc) (showTooltip : option bool)
  : list (string * option (option ChartLayout)) :=
  let defaultBars := [storyBar 10 "Bar 1"; storyBar 20 "Bar 2"; storyBar 30 "Bar 3"; storyBar 40 "Bar 4"] in
  let chart p := render p (initialState p) in
  [("simple", chart (mkProps (CardStories.knob bars defaultBars) false false false 0 0%nat None false None));
   ("full", chart (mkProps (CardStories.knob bars defaultBars) (CardStories.knob showGridLines true) (CardStories.knob showQuantAxis true)
                     (CardStories.knob verticalBarChart false) (CardStories.knob minBarHeight 1) (CardStories.knob minBars 0%nat)
                     (Some (CardStories.knob minBarLoc Left)) (CardStories.knob showTooltip true) None))].

End Stories.

(** A story that draws a chart: [render] returns a layout. *)
Definition drawn (o : option (option ChartLayout)) : bool :=
  match o with Some (Some _) => true | _ => false end.

(** With the default bars, both stories draw a chart for every setting of
    the grid-line, quant-axis, vertical, tooltip and empty-bar side knobs,
    in any number locale. *)
Theorem bar_stories_drawn `{NumberLocale} g q v t loc :
  forallb (fun '(_, o) => drawn o)
    (barChartStories None (Some g) (Some q) (Some v) None None (Some loc) (Some t)) = true.
Proof. destruct g, q, v, t, loc; vm_compute; reflexivity. Qed.

End BarChartStories.

Module BenefitsChartStories.
Import Benefits.

(** [BenefitsChart.stories.tsx] (lines 6-43). *)
Definition benefitsChartStories (height : option Q) (companyContributions totalCashCompensation : option (list BenefitDetailsItem))
  : list (string * BenefitsView) :=
  let tcc := [mkItem "Base Salary" 122000; mkItem "Variable" 6000; mkItem "Commission" 0] in
  let uncalc := [mkItem "Vacation & Sick" 3676; mkItem "Personal" 6923; mkItem "Holidays" 1966] in
  let contrib := [mkItem "Medical" 7564; mkItem "Dental & Vision" 890; mkItem "Life & ADD" 300] in
  [("tcc only", render (mkProps None (Some tcc) (Some []) (Some uncalc) None));
   ("with company contributions",
    render (mkProps None (Some (CardStories.knob totalCashCompensation tcc)) (Some (CardStories.knob companyContributions contrib))
              (Some uncalc) (Some (CardStories.knob height 350))))].

(** Both stories list the three paid-leave benefits, in order. *)
Example paid_leave_listed :
  map (fun '(_, v) => option_map (fun i => map benefitTitle (benefits i)) (uncalculatedPanel v))
    (benefitsChartStories None None None)
  = [Some ["Vacation & Sick"; "Personal"; "Holidays"]; Some ["Vacation & Sick"; "Personal"; "Holidays"]].
Proof. vm_compute. reflexivity. Qed.

End BenefitsChartStories.

Module TooltipStories.
Import Dom Tooltip.

(** [Tooltip.stories.tsx] (lines 8-42): the [full] story, with the
    knobs' values; the [centered] decorator is not modelled. *)
Definition tooltipStories (content place effect event type_ : option string) (border : option bool)
    (tooltipClass : option string) : list (string * list Node) :=
  [("full",
    render (mkProps "tooltip-1" [Text (CardStories.knob content "(∩｀-´)⊃━☆ﾟ.*･｡ﾟ")] None
              (Some (CardStories.knob tooltipClass "tooltip__default")) (Some (CardStories.knob place "top"))
              (Some (CardStories.knob effect "float")) (Some (CardStories.knob event "")) (Some (CardStories.knob type_ "light"))
              (Some (CardStories.knob border true)))
      [Elem "div" [] [Text "Hover over me!"]])].

End TooltipStories.
